(* ===== verification/_CoqProject ===== *)
-Q . S2P
Prelude.v
Interleave.v
GoStrings.v
GoFmt.v
Base64.v
GoJson.v
GoFloat.v
CopError.v
Http.v
Pem.v
Registry.v
GoUrl.v
GoUnmarshal.v
JsonMap.v
CertSpec.v
Token.v
Database.v
DbAccessor.v
CertDB.v
Util.v
Mux.v
SignedJson.v
Config.v
CommandLine.v
Register.v
Bootstrap.v
LoginLimit.v
Auth.v
Handlers.v
Ldap.v
DbUtil.v
TCertUtil.v
KeyTree.v
TCert.v
Server.v
Client.v
Interfaces.v
Commands.v
ClientServer.v
TCertJson.v
Concurrent.v
Protocol.v
Races.v
EnrollRace.v
Revocation.v
Reenrollment.v
Transactions.v
Responses.v
Start.v
Deployment.v
CommandsServer.v
CommandsRenew.v
Program.v
