(* ===== verification/Prelude.v ===== *)
(** * Verification of the COP membership server

    The program is a certificate authority front end for a blockchain network
    (Go, under src/).  A server (src/cli/server) wraps CFSSL: clients register
    users, enroll them for certificates, revoke them and obtain batches of
    transaction certificates; users and groups live in a SQL database or an
    LDAP directory, certificates in the database.  A client library (src/lib)
    makes the requests and keeps the user's key and certificate.

    ** How the code is modelled

    A Go function is a Rocq function of the same name.  One that returns an
    error, panics, ends the process or loops is of type [outcome] (below); one
    that changes state is of type [comp S], a function from the state to an
    outcome and the new state, so that what a failing operation changed before
    it failed is kept.  Go interfaces are records of operations with a class
    of laws; integers are [Z] with bounds where the code depends on them;
    strings are byte strings; a [map] that is ranged over is a list in an
    arbitrary order, other maps are [gmap]s.  Log output is left out.

    ** The files and the code they model

    - Prelude, GoStrings, GoFmt, Base64, GoJson, GoFloat, GoUnmarshal, GoUrl,
      Http: the error and state monad, and what the program uses of Go's
      strings, strconv, fmt, encoding/base64, encoding/json (numbers as IEEE
      doubles, read and written, in GoFloat), net/url, net/http and of CFSSL's
      api package; the replies of cli/server/errors.go;
    - Mux: the request multiplexer of net/http, in which the server registers
      its endpoints;
    - Pem: encoding/pem's encoder, which DERCertToPEM of util/util.go and
      ConvertDERToPEM of lib/tcert/util.go call;
    - CopError: api/error.go;
    - Registry: cli/server/spi and the user interface of idp/idp.go, with the
      contract [RegistryLaws] of a registry that can be written;
    - JsonMap: util/jsonprocessor.go and the vendored map package it uses, over
      the values encoding/json decodes into an interface;
    - CertSpec: util/certificate.go and the certificate requests of
      jsonprocessor.go;
    - SignedJson: the signed JSON messages of util/cryptoutil.go;
    - Token: the authorization tokens of util/util.go over an abstract
      signature scheme [Crypto] with [CryptoLaws];
    - Database: the three SQL tables, a statement as an atomic step that can
      fail, for want of its table too, the rows an UPDATE affects as each
      driver counts them, sqlx's placeholder rewriting;
    - DbAccessor: cli/server/dbaccessor.go, and that it keeps [RegistryLaws];
    - CertDB: cli/server/certdbaccessor.go with the methods of CFSSL's
      certificate accessor it calls;
    - Util: the rest of util/util.go that computes, parts of
      util/cryptoutil.go;
    - Config: cli/server/config.go and the structures it reads;
    - CommandLine: CFSSL's cli.Start and its flags (vendored cfssl/cli), over
      Go's package flag, by which every command is run;
    - Register, Bootstrap: cli/server/register.go and bootstrap.go, written
      against the registry interface;
    - LoginLimit: sequences of logins;
    - Auth, Handlers: cli/server/auth.go, the handlers of register.go,
      enroll.go, revoke.go and user.go;
    - Ldap: cli/server/ldap/client.go and the class [ReadOnlyRegistry];
    - DbUtil: cli/server/dbutil/dbutil.go and factory.go, the choice of the
      registry over a machine with several databases, each found by its driver
      and name and with the tables it has;
    - TCertUtil, KeyTree, TCert: lib/tcert;
    - Server: cli/server/tcert.go and the COP endpoints of server.go; the
      server as a transition system, one request at a time;
    - Interleave: threads, that is, computations cut into the steps between
      which other threads run, pools of threads, rules to show what a pool
      keeps to and to build its executions; not about the program;
    - Concurrent: the handlers of register.go, auth.go, enroll.go, revoke.go,
      certdbaccessor.go, tcert.go and keytree.go again, as the goroutines
      net/http runs them in: one step per database statement and per access
      to the key tree's map ([Threads]);
    - Protocol: what every step of every thread keeps to, and so every
      concurrent execution;
    - Races, EnrollRace: what concurrent registrations, enrollments and
      requests for transaction certificates do to each other;
    - Client: lib/client.go, identity.go, signer.go, temporalsigner.go,
      verifier.go and lib/tls/tls.go;
    - Interfaces: the interfaces of idp/idp.go, api/api.go and api.go, the
      client library's identities and signers as values of them, factory.go;
    - Commands: cli/cop.go, cli/client and cli/server/init.go;
    - TCertJson: the answer of the tcert endpoint in JSON;
    - ClientServer, Revocation, Reenrollment, Transactions: the client library
      connected to the server;
    - Responses: the form of the server's answers;
    - Start: the rest of cli/server/server.go, the start of the server with
      all its endpoints and globals, and util/bccsp.go; the program cop as a
      server;
    - Deployment: the started server and its concurrent executions;
    - CommandsServer, CommandsRenew, Program: the commands connected to the
      server, and the program cop as a client.

    ** What is shown

    - The whole server, under concurrency: in every execution in which
      requests arrive at any time and their statements interleave in any way,
      the clock advances and statements fail, the certificate table keeps its
      primary key, loses nothing, changes a certificate only by revoking it,
      no user's row is lost or its registered data altered, and the key tree
      holds only derived keys (Protocol).  A request that is not interrupted
      does what the sequential handler does (Protocol), so that the theorems
      on the sequential server speak of executions of the concurrent one;
      with requests served one at a time and without failures users and
      groups stay unique (Server).
      Registrations answered with success are counted by rows, on MySQL at
      most one per name (Races).
      Every answer of a COP endpoint is a success or an error of CFSSL's
      form, whatever fails (Responses).
    - Refinements: registration, login, the register endpoint, the bootstrap
      and revocation do to the users and groups what an abstract
      operation on a map of users does (Register, Auth, Handlers, Bootstrap);
      the database accessor is one implementation of that contract
      (DbAccessor), and the client's Register, Enroll, Reenroll, Revoke,
      RevokeSelf and GetPrivateSigners have the same effect through the
      network (ClientServer, Revocation, Reenrollment, Transactions), as have
      the four client commands, which leave the new identity on disk
      (Commands, CommandsServer, CommandsRenew), from the arguments of the
      program on (Program).
    - The command line: every field of the configuration the program reads has
      the value of the last flag of its name, in whatever form the parser
      accepts it, or its default, and the command gets the arguments after the
      flags (CommandLine).
    - Availability: nothing anyone sends to the COP endpoints keeps a user
      without an enrollment limit from enrolling (ClientServer).
    - Authentication: tokens made by the client verify at the server, an
      accepted token carries a valid signature over the body the handler
      reads, and revocation needs the hf.Revoker attribute (Token, Auth,
      Handlers).
    - Transaction certificates: padding and encryption invert, the returned
      keys open the encrypted fields (but for the identity when an encrypted
      attribute is called enrollmentId), the key cache is transparent for names
      without a slash, and a batch has the size and validity asked for, each
      certificate with the key, the identity and the attributes specified, or
      fails because a certificate could not be created (TCertUtil, KeyTree,
      TCert, Transactions).
    - Signed messages and certificate requests: what is signed verifies and
      what verifies was signed (SignedJson), entries written into a JSON text
      are read back (JsonMap), the validity asked for in whole hours, as far
      as nanoseconds hold it, is the one of the template (CertSpec); texts that
      are no object, or have a number out of range, panic.
    - Start: what the server finds and leaves when it is started on SQLite,
      Postgres and MySQL, and the configuration it runs with (DbUtil,
      Config); cop server start on SQLite, with flags the parser accepts and
      what it needs at hand, ends in listening with the server of file Server
      behind the mux, whatever the order in which the endpoints are
      registered, and no other path reaches a handler but by CONNECT (Start);
      the new users of the configuration, the older ones and the groups are
      still there at every moment of every later execution (Deployment).
    - Where the code does not do what it is meant to do: registration that is
      not atomic or takes a failing look-up for absence (Register), the
      registrar taken from the body, certificates issued without
      authentication, revocation without effect on later logins and tokens
      (Handlers) and a revoked user that reenrolls (Reenrollment), enrollment
      limits exceeded by concurrent enrollments on SQLite and Postgres
      (EnrollRace), one name registered several times by concurrent requests
      and then unusable, a map written by two goroutines at once (Races),
      self-revocation refused to users without hf.Revoker (Revocation),
      certificates with keys of other types accepted unverified (Token), a
      registry that can neither register nor revoke (Ldap), a returned secret
      that is refused (ClientServer), a database created under one name and
      opened under another, and one opened without its tables (DbUtil), static
      files that cannot be reached and unknown paths redirected in a loop,
      starts without a certificate store or a signer after which requests
      panic (Start).

    ** Parameters

    Code outside the repository, and the vendored libraries not listed above,
    are arguments of the definitions: the signature schemes and the PEM, X.509
    and DER readers ([Crypto]; Token), AES and HMAC, the elliptic curve and
    certificate creation (TCertUtil, TCert), BCCSP's key derivation (KeyTree),
    CFSSL's signer ([issue]; Handlers), the revocation list check (Auth),
    the viper configuration library (Bootstrap), the LDAP connection (Ldap),
    the network, the files and the key generator (Client), the reader of
    durations and of CFSSL's configuration file (the record [CommandEnv];
    CommandLine), CFSSL's own commands (Commands), CFSSL's handlers, go.rice's
    box and the crypto provider (the record [Library]; Start), with the
    readers, the clock and the connections the started server needs (the
    record [Outside]; Start), key generation and certificate creation
    (SignedJson, CertSpec).  Their laws are the classes
    [CryptoLaws], [CipherLaws], [TCertEnv] and [FileLaws]; each is instantiated by
    a concrete function where a theorem that assumes it is applied.

    ** Fuel and bounds

    [json_parse] gives its recursion the length of the input plus one, which
    the round trip of GoJson shows to suffice for every printed value.
    [RandomString] rejects candidates, so its loop ends only when the source
    offers enough letters: theorem [RandomString_spec] says after how many
    iterations it has returned and that it has not before, and [letters_within] is that condition on the database's
    source in the theorems that register users.  [be_bytes] of TCert is
    given more steps than its argument has bits.  A double is written with at
    most 17 digits, which are enough for every double (GoFloat).

    ** What is not modelled

    What happens inside the listener and CFSSL's own handlers, signer and
    commands; what is printed on the standard error output and in the log.
    The vendored libraries but for the parts named above; the database
    drivers, the directory and the crypto provider, which are services or
    libraries the program only calls.  Column widths and SQL text beyond
    placeholders.  The offsets in the messages of base64, JSON and URL errors
    are left out.  Bytes above 127 are kept as they are: texts are taken to be
    valid UTF-8, and case folding is that of ASCII.

    The order of memory operations below a statement: an access to the key
    tree's map is one step, and [races] says where two of them could meet.
    Statements are atomic and see each other's effects at once, as under the
    databases' automatic commit. *)

From Stdlib Require Export Ascii Strings.Byte.
From stdpp Require Export base decidable option list strings numbers pretty sets gmap.

(** ** Go errors, outcomes and stateful computations *)

(** The dynamic types a Go [error] value takes in this program:
    [errors.New]/[fmt.Errorf] strings, [*cop.ErrorImpl] (api/error.go),
    [*errors.HTTPError] and [*errors.Error] of CFSSL. *)
Inductive error : Type :=
  | ErrPlain (msg : string)
  | ErrCop (code : Z) (msg : string)
  | ErrHTTP (status : Z) (msg : string)
  | ErrCFSSL (code : Z) (msg : string).

(** What running a Go function can end in: a normal return with a nil error,
    a return with a non-nil error, a run-time panic, termination of the
    process ([log.Fatal]), or a loop that has not ended within the fuel. *)
Inductive outcome (A : Type) : Type :=
  | Ok (a : A)
  | Err (e : error)
  | Panic (msg : string)
  | Exit (msg : string)
  | OutOfFuel.
Arguments Ok {A} a.
Arguments Err {A} e.
Arguments Panic {A} msg.
Arguments Exit {A} msg.
Arguments OutOfFuel {A}.

#[export] Instance error_eq_dec : EqDecision error.
Proof. solve_decision. Defined.

#[export] Instance outcome_eq_dec {A} `{EqDecision A} : EqDecision (outcome A).
Proof. solve_decision. Defined.

#[export] Instance outcome_ret : MRet outcome := fun A a => Ok a.

#[export] Instance outcome_bind : MBind outcome := fun A B f m =>
  match m with
  | Ok a => f a
  | Err e => Err e
  | Panic s => Panic s
  | Exit s => Exit s
  | OutOfFuel => OutOfFuel
  end.

Definition is_ok {A} (o : outcome A) : bool :=
  match o with Ok _ => true | _ => false end.

Definition is_err {A} (o : outcome A) : bool :=
  match o with Err _ => true | _ => false end.

(** A computation over a state of type [S]: the state is threaded through
    every path, so what an operation changed before it failed is kept. *)
Definition comp (S A : Type) : Type := S -> outcome A * S.

#[export] Instance comp_ret {S} : MRet (comp S) := fun A a s => (Ok a, s).

#[export] Instance comp_bind {S} : MBind (comp S) := fun A B f m s =>
  match m s with
  | (Ok a, s') => f a s'
  | (Err e, s') => (Err e, s')
  | (Panic p, s') => (Panic p, s')
  | (Exit p, s') => (Exit p, s')
  | (OutOfFuel, s') => (OutOfFuel, s')
  end.

Definition lift {S A} (o : outcome A) : comp S A := fun s => (o, s).

Definition fail {S A} (e : error) : comp S A := lift (Err e).

Definition get {S} : comp S S := fun s => (Ok s, s).

Definition gets {S A} (f : S -> A) : comp S A := fun s => (Ok (f s), s).

Definition put {S} (s' : S) : comp S unit := fun _ => (Ok tt, s').

Definition modify {S} (f : S -> S) : comp S unit := fun s => (Ok tt, f s).

(** A method called through a pointer that may be nil. *)
Definition nil_deref : string := "runtime error: invalid memory address or nil pointer dereference".

Definition deref {S A B} (p : option A) (f : A -> comp S B) : comp S B :=
  match p with
  | Some a => f a
  | None => lift (Panic nil_deref)
  end.

(** [attempt m] is the Go idiom [v, err := m()]: an error becomes a value the
    caller inspects; panics and process exits still propagate. *)
Definition attempt {S A} (m : comp S A) : comp S (error + A) := fun s =>
  match m s with
  | (Ok a, s') => (Ok (inr a), s')
  | (Err e, s') => (Ok (inl e), s')
  | (Panic p, s') => (Panic p, s')
  | (Exit p, s') => (Exit p, s')
  | (OutOfFuel, s') => (OutOfFuel, s')
  end.

(** [map_err f m]: the idiom [if err != nil { return f(err) }]. *)
Definition map_err {S A} (f : error -> error) (m : comp S A) : comp S A := fun s =>
  match m s with
  | (Err e, s') => (Err (f e), s')
  | r => r
  end.

(** [mforM f l] runs [f] on each element in order ([for _, x := range l]),
    stopping at the first failure. *)
Fixpoint mforM {S A} (f : A -> comp S unit) (l : list A) : comp S unit :=
  match l with
  | [] => mret tt
  | x :: l => f x ≫= fun _ => mforM f l
  end.

(** Computations are compared pointwise; bind respects that equivalence, so
    the laws below rewrite under it. *)
#[export] Instance comp_equiv {S A} : Equiv (comp S A) := fun m1 m2 => forall s, m1 s = m2 s.

#[export] Instance comp_equivalence {S A} : Equivalence (≡@{comp S A}).
Proof. split; [done | by intros m1 m2 H s | intros m1 m2 m3 H1 H2 s; by rewrite H1]. Qed.

#[export] Instance comp_bind_proper {S A B} :
  Proper (pointwise_relation A (≡@{comp S B}) ==> (≡@{comp S A}) ==> (≡@{comp S B})) mbind.
Proof.
  intros f g Hfg m1 m2 Hm s. unfold mbind, comp_bind. rewrite (Hm s).
  destruct (m2 s) as [[] ?]; try done. apply Hfg.
Qed.

#[export] Instance attempt_proper {S A} :
  Proper ((≡@{comp S A}) ==> (≡@{comp S (error + A)})) attempt.
Proof. intros m1 m2 H s. unfold attempt. by rewrite (H s). Qed.

Lemma bind_ret_l {S A B} (a : A) (f : A -> comp S B) : (mret a ≫= f) ≡ f a.
Proof. done. Qed.

Lemma bind_ret_r {S A} (m : comp S A) : (m ≫= mret) ≡ m.
Proof. intros s. unfold mbind, comp_bind. by destruct (m s) as [[] ?]. Qed.

Lemma bind_bind {S A B C} (m : comp S A) (f : A -> comp S B) (g : B -> comp S C) :
  ((m ≫= f) ≫= g) ≡ (m ≫= fun a => f a ≫= g).
Proof. intros s. unfold mbind, comp_bind. by destruct (m s) as [[] ?]. Qed.

(** Stepping lemmas: run the head of a bind when its outcome is known. *)
Lemma bind_ok {S A B} (m : comp S A) (f : A -> comp S B) s a s' :
  m s = (Ok a, s') -> (m ≫= f) s = f a s'.
Proof. intros H. unfold mbind, comp_bind. by rewrite H. Qed.

Lemma bind_mret {S A B} (a : A) (f : A -> comp S B) s : ((mret a : comp S A) ≫= f) s = f a s.
Proof. done. Qed.

Lemma bind_modify {S A} (f : S -> S) (k : unit -> comp S A) s : (modify f ≫= k) s = k tt (f s).
Proof. reflexivity. Qed.

Lemma bind_lift_ok {S A B} (a : A) (k : A -> comp S B) s : (lift (Ok a) ≫= k) s = k a s.
Proof. reflexivity. Qed.

Lemma bind_err {S A B} (m : comp S A) (f : A -> comp S B) s e s' :
  m s = (Err e, s') -> (m ≫= f) s = (Err e, s').
Proof. intros H. unfold mbind, comp_bind. by rewrite H. Qed.

Lemma bind_ok_inv {S A B} (m : comp S A) (f : A -> comp S B) s b s' :
  (m ≫= f) s = (Ok b, s') -> exists a s1, m s = (Ok a, s1) /\ f a s1 = (Ok b, s').
Proof.
  unfold mbind, comp_bind. destruct (m s) as [[a|e|p|p|] s1]; intros; simplify_eq; eauto.
Qed.

Lemma attempt_ok_inv {S A} (m : comp S A) s r s' :
  attempt m s = (Ok r, s') ->
  (exists e, r = inl e /\ m s = (Err e, s')) \/ (exists a, r = inr a /\ m s = (Ok a, s')).
Proof. unfold attempt. destruct (m s) as [[] ?]; naive_solver. Qed.

(** [attempt] itself never returns an error. *)
Lemma attempt_not_err {S A} (m : comp S A) s e s' : attempt m s <> (Err e, s').
Proof. unfold attempt. by destruct (m s) as [[] ?]. Qed.

Lemma bind_attempt_ok {S A B} (m : comp S A) (f : error + A -> comp S B) s a s' :
  m s = (Ok a, s') -> (attempt m ≫= f) s = f (inr a) s'.
Proof. intros H. apply bind_ok. unfold attempt. by rewrite H. Qed.

Lemma bind_attempt_err {S A B} (m : comp S A) (f : error + A -> comp S B) s e s' :
  m s = (Err e, s') -> (attempt m ≫= f) s = f (inl e) s'.
Proof. intros H. apply bind_ok. unfold attempt. by rewrite H. Qed.

(** A computation that never changes the state (a query). *)
Definition readonly {S A} (m : comp S A) : Prop := forall s, (m s).2 = s.

(** A state predicate kept by a computation on every path, errors included. *)
Definition preserves {S A} (P : S -> Prop) (m : comp S A) : Prop :=
  forall s, P s -> P (m s).2.

Section preserves.
Context {S : Type} (P : S -> Prop).

Lemma preserves_ret {A} (a : A) : preserves P (mret a : comp S A).
Proof. by intros s. Qed.

Lemma preserves_lift {A} (o : outcome A) : preserves P (lift o : comp S A).
Proof. by intros s. Qed.

Lemma preserves_gets {A} (f : S -> A) : preserves P (gets f).
Proof. by intros s. Qed.

Lemma preserves_modify (f : S -> S) : (forall s, P s -> P (f s)) -> preserves P (modify f).
Proof. intros H s. apply H. Qed.

Lemma preserves_bind {A B} (m : comp S A) (f : A -> comp S B) :
  preserves P m -> (forall a, preserves P (f a)) -> preserves P (m ≫= f).
Proof.
  intros Hm Hf s Hs. unfold mbind, comp_bind. specialize (Hm s Hs).
  destruct (m s) as [[a|e|p|p|] s1]; simpl in *; try done. by apply Hf.
Qed.

Lemma preserves_attempt {A} (m : comp S A) : preserves P m -> preserves P (attempt m).
Proof.
  intros Hm s Hs. specialize (Hm s Hs). unfold attempt. by destruct (m s) as [[] ?].
Qed.

Lemma preserves_map_err {A} f (m : comp S A) : preserves P m -> preserves P (map_err f m).
Proof.
  intros Hm s Hs. specialize (Hm s Hs). unfold map_err. by destruct (m s) as [[] ?].
Qed.

Lemma preserves_mforM {A} (f : A -> comp S unit) l :
  (forall x, x ∈ l -> preserves P (f x)) -> preserves P (mforM f l).
Proof.
  induction l as [|x l IH]; intros H; simpl; [apply preserves_ret|].
  apply preserves_bind; [apply H; set_solver|]. intros _. apply IH. set_solver.
Qed.

Lemma readonly_preserves {A} (m : comp S A) : readonly m -> preserves P m.
Proof. intros H s Hs. by rewrite H. Qed.
End preserves.

Section readonly.
Context {S : Type}.

Lemma readonly_ret {A} (a : A) : readonly (mret a : comp S A).
Proof. by intros s. Qed.

Lemma readonly_lift {A} (o : outcome A) : readonly (lift o : comp S A).
Proof. by intros s. Qed.

Lemma readonly_gets {A} (f : S -> A) : readonly (gets f).
Proof. by intros s. Qed.

Lemma readonly_bind {A B} (m : comp S A) (f : A -> comp S B) :
  readonly m -> (forall a, readonly (f a)) -> readonly (m ≫= f).
Proof.
  intros Hm Hf s. unfold mbind, comp_bind. specialize (Hm s).
  destruct (m s) as [[a|e|p|p|] s1]; simpl in *; try done. by rewrite Hf.
Qed.

Lemma readonly_attempt {A} (m : comp S A) : readonly m -> readonly (attempt m).
Proof. intros Hm s. specialize (Hm s). unfold attempt. by destruct (m s) as [[] ?]. Qed.
End readonly.

(** The hint database of the development: closing [preserves]/[readonly]
    goals along the structure of a computation. *)
Create HintDb cop discriminated.

#[export] Hint Resolve preserves_ret preserves_lift preserves_gets preserves_bind
  preserves_attempt preserves_map_err readonly_ret readonly_lift readonly_gets
  readonly_bind readonly_attempt : cop.

(** ** Tactics *)

(** Destruct the innermost [match]/[if] of the goal, keeping the equation. *)
Ltac split_match :=
  repeat (case_match; simplify_eq/=; try done).

(** Invert a successful run [(m ≫= f) s = (Ok b, s')]. *)
Ltac inv_bind H :=
  let a := fresh "a" in let s1 := fresh "s" in let H1 := fresh H in
  apply bind_ok_inv in H as (a & s1 & H1 & H).

(** ** Lists *)

Lemma NoDup_snoc {A} (l : list A) x : NoDup l -> x ∉ l -> NoDup (l ++ [x]).
Proof.
  intros Hl Hx. apply NoDup_app. split; [done|]. split; [|apply NoDup_singleton].
  intros y Hy ->%list_elem_of_singleton. done.
Qed.

(** ** Machine integers and bytes *)

(** Go's [int] is 64 bits on the supported platforms; arithmetic wraps. *)
Definition wrap64 (z : Z) : Z := (z + 2 ^ 63) `mod` 2 ^ 64 - 2 ^ 63.

Definition max_int64 : Z := 2 ^ 63 - 1.

Definition int64_range (z : Z) : Prop := (- 2 ^ 63 <= z < 2 ^ 63)%Z.

Lemma wrap64_id z : int64_range z -> wrap64 z = z.
Proof. unfold wrap64, int64_range. intros. rewrite Z.mod_small; lia. Qed.

Lemma wrap64_range z : int64_range (wrap64 z).
Proof.
  unfold wrap64, int64_range.
  pose proof (Z.mod_pos_bound (z + 2 ^ 63) (2 ^ 64) ltac:(lia)). lia.
Qed.

#[export] Instance byte_eq_dec : EqDecision byte := Byte.byte_eq_dec.

Definition bytes : Type := list byte.

Definition byteZ (b : byte) : Z := Z.of_N (Byte.to_N b).

(** The conversion [byte(z)]: the low eight bits. *)
Definition Zbyte (z : Z) : byte :=
  default x00 (Byte.of_N (Z.to_N (z `mod` 256))).

Lemma byteZ_range b : (0 <= byteZ b < 256)%Z.
Proof. unfold byteZ. pose proof (Byte.to_N_bounded b). lia. Qed.

Lemma Zbyte_byteZ b : Zbyte (byteZ b) = b.
Proof.
  unfold Zbyte. pose proof (byteZ_range b). rewrite Z.mod_small by done.
  unfold byteZ. by rewrite N2Z.id, Byte.of_to_N.
Qed.

Lemma byteZ_Zbyte z : byteZ (Zbyte z) = (z `mod` 256)%Z.
Proof.
  unfold Zbyte, byteZ. pose proof (Z.mod_pos_bound z 256 ltac:(lia)).
  destruct (Byte.of_N (Z.to_N (z `mod` 256))) as [b|] eqn:E; simpl.
  - apply Byte.to_of_N in E. lia.
  - apply Byte.of_N_None_iff in E. lia.
Qed.

Lemma byteZ_inj b1 b2 : byteZ b1 = byteZ b2 -> b1 = b2.
Proof. intros H. by rewrite <- (Zbyte_byteZ b1), H, Zbyte_byteZ. Qed.

(** A property of all bytes, checked by evaluation. *)
Definition all_bytes : list byte := map (fun n => Zbyte (Z.of_nat n)) (seq 0 256).

Lemma all_bytes_complete b : b ∈ all_bytes.
Proof.
  unfold all_bytes. apply list_elem_of_In, in_map_iff. pose proof (byteZ_range b).
  exists (Z.to_nat (byteZ b)). rewrite Z2Nat.id by lia. split; [apply Zbyte_byteZ|].
  apply in_seq. lia.
Qed.

Lemma bytes_check (p : byte -> bool) : forallb p all_bytes = true -> forall b, p b = true.
Proof.
  intros H b. rewrite forallb_forall in H. apply H, list_elem_of_In, all_bytes_complete.
Qed.

(** Go's conversions [[]byte(s)] and [string(b)]. *)
Definition bytes_of_string (s : string) : bytes := String.list_byte_of_string s.

Definition string_of_bytes (b : bytes) : string := String.string_of_list_byte b.

Lemma string_of_bytes_of_string s : string_of_bytes (bytes_of_string s) = s.
Proof. apply String.string_of_list_byte_of_string. Qed.

Lemma bytes_of_string_of_bytes b : bytes_of_string (string_of_bytes b) = b.
Proof. apply String.list_byte_of_string_of_list_byte. Qed.
