(* ===== verification/Interleave.v ===== *)
(** * Requests as interleaved threads of atomic steps

    Go's HTTP server runs every request in a goroutine of its own.  What one
    request does to the state it shares with the others is a sequence of
    atomic steps (a database statement, an access to a shared map, a draw
    from a shared source); between two of them any other request may run.
    A [thread] is such a sequence, [run] executes one without interruption,
    and [pool_step] interleaves those of all the requests being served.
    [follows] is the proof rule: every step of a thread keeps to a protocol,
    and what all threads keep to holds of the whole execution. *)

From S2P Require Import Prelude.

(** What a step touches: the database, which orders its statements itself, or
    Go memory, which nothing orders. *)
Inductive access := OnDatabase | ReadsKeys | WritesKeys | OnOwn.

#[export] Instance access_eq_dec : EqDecision access.
Proof. solve_decision. Defined.

(** A step replaces the state it finds, and goes on depending on it. *)
Inductive thread (W A : Type) : Type :=
  | Done (o : outcome A)
  | Step (l : access) (u : W -> W) (k : W -> thread W A).
Arguments Done {W A} o.
Arguments Step {W A} l u k.

(** One uninterrupted computation. *)
Definition atom {W A} (l : access) (m : comp W A) : thread W A :=
  Step l (fun w => (m w).2) (fun w => Done (m w).1).

(** Going on after a thread has ended, one way or the other. *)
Fixpoint thread_then {W A B} (g : outcome A -> thread W B) (t : thread W A) : thread W B :=
  match t with
  | Done o => g o
  | Step l u k => Step l u (fun w => thread_then g (k w))
  end.

#[export] Instance thread_ret {W} : MRet (thread W) := fun A a => Done (Ok a).

#[export] Instance thread_bind {W} : MBind (thread W) := fun A B f =>
  thread_then (fun o =>
    match o with
    | Ok a => f a
    | Err e => Done (Err e)
    | Panic p => Done (Panic p)
    | Exit p => Done (Exit p)
    | OutOfFuel => Done OutOfFuel
    end).

Definition thread_attempt {W A} : thread W A -> thread W (error + A) :=
  thread_then (fun o =>
    match o with
    | Ok a => Done (Ok (inr a))
    | Err e => Done (Ok (inl e))
    | Panic p => Done (Panic p)
    | Exit p => Done (Exit p)
    | OutOfFuel => Done OutOfFuel
    end).

Definition thread_map_err {W A} (f : error -> error) : thread W A -> thread W A :=
  thread_then (fun o => match o with Err e => Done (Err (f e)) | o => Done o end).

(** A thread on a part of the state. *)
Fixpoint zoom {W V A} (view : W -> V) (set : V -> W -> W) (t : thread V A) : thread W A :=
  match t with
  | Done o => Done o
  | Step l u k => Step l (fun w => set (u (view w)) w) (fun w => zoom view set (k (view w)))
  end.

(** ** Running one thread alone *)

Fixpoint run {W A} (t : thread W A) : comp W A :=
  match t with
  | Done o => lift o
  | Step l u k => fun w => run (k w) (u w)
  end.

Lemma run_atom {W A} l (m : comp W A) : run (atom l m) ≡ m.
Proof. intros w. simpl. unfold lift. by destruct (m w). Qed.

Lemma run_then {W A B} (g : outcome A -> thread W B) (t : thread W A) w :
  run (thread_then g t) w = run (g (run t w).1) (run t w).2.
Proof. revert w. induction t as [o|l u k IH]; intros w; [done|]. apply IH. Qed.

Lemma run_bind {W A B} (t : thread W A) (f : A -> thread W B) :
  run (t ≫= f) ≡ (run t ≫= fun a => run (f a)).
Proof.
  intros w. unfold mbind, thread_bind, comp_bind. rewrite run_then.
  by destruct (run t w) as [[] ?].
Qed.

Lemma run_ret {W A} (a : A) : run (mret a : thread W A) ≡ mret a.
Proof. done. Qed.

Lemma run_attempt {W A} (t : thread W A) : run (thread_attempt t) ≡ attempt (run t).
Proof.
  intros w. unfold thread_attempt, attempt. rewrite run_then. by destruct (run t w) as [[] ?].
Qed.

Lemma run_map_err {W A} f (t : thread W A) : run (thread_map_err f t) ≡ map_err f (run t).
Proof.
  intros w. unfold thread_map_err, map_err. rewrite run_then. by destruct (run t w) as [[] ?].
Qed.

(** ** Running a part of a thread *)

(** The thread comes, undisturbed, from one point to another. *)
Inductive advances {W A} : thread W A -> W -> thread W A -> W -> Prop :=
  | adv_refl t w : advances t w t w
  | adv_step l u k w t' w' : advances (k w) (u w) t' w' -> advances (Step l u k) w t' w'.

Lemma adv_trans {W A} (t1 t2 t3 : thread W A) w1 w2 w3 :
  advances t1 w1 t2 w2 -> advances t2 w2 t3 w3 -> advances t1 w1 t3 w3.
Proof. induction 1; [done|]. intros H'. apply adv_step. auto. Qed.

Lemma adv_then {W A B} (g : outcome A -> thread W B) t w t' w' :
  advances t w t' w' -> advances (thread_then g t) w (thread_then g t') w'.
Proof. induction 1; [apply adv_refl|]. by apply adv_step. Qed.

Lemma adv_atom {W A} l (m : comp W A) w o w' : m w = (o, w') -> advances (atom l m) w (Done o) w'.
Proof. intros H. apply adv_step. rewrite H. apply adv_refl. Qed.

Lemma adv_bind {W A B} (t : thread W A) (f : A -> thread W B) w t' w' :
  advances t w t' w' -> advances (t ≫= f) w (t' ≫= f) w'.
Proof. apply adv_then. Qed.

Lemma adv_bind_ok {W A B} (t : thread W A) (f : A -> thread W B) w a w' t2 w2 :
  advances t w (Done (Ok a)) w' -> advances (f a) w' t2 w2 -> advances (t ≫= f) w t2 w2.
Proof. intros Ht. apply adv_trans. exact (adv_bind t f w _ _ Ht). Qed.

Lemma adv_run {W A} (t : thread W A) w : advances t w (Done (run t w).1) (run t w).2.
Proof. revert w. induction t as [o|l u k IH]; intros w; [apply adv_refl|]. apply adv_step, IH. Qed.

Lemma adv_zoom {W V A} (view : W -> V) set (t : thread V A) v t' v' w :
  (forall v w, view (set v w) = v) -> (forall v v' w, set v' (set v w) = set v' w) ->
  (set (view w) w = w) -> view w = v ->
  advances t v t' v' -> advances (zoom view set t) w (zoom view set t') (set v' w).
Proof.
  intros H1 H2 H3 Hv Ha. revert w H3 Hv. induction Ha as [t v|l u k v t' v' _ IH]; intros w H3 <-.
  - rewrite H3. apply adv_refl.
  - simpl. apply adv_step. rewrite <- (H2 (u (view w)) v' w). apply IH; [|apply H1]. by rewrite H1, H2.
Qed.

(** The thread comes to a point from which, in every state that satisfies
    [ok], it goes on to end in [o] with the effect [eff]. *)
Definition pauses {W A} (t : thread W A) (w w1 : W) (ok : W -> Prop) (o : outcome A) (eff : W -> W) : Prop :=
  exists t', advances t w t' w1 /\ forall w2, ok w2 -> advances t' w2 (Done o) (eff w2).

Lemma pauses_here {W A} (t : thread W A) w ok o eff :
  (forall w2, ok w2 -> advances t w2 (Done o) (eff w2)) -> pauses t w w ok o eff.
Proof. intros H. exists t. split; [apply adv_refl|done]. Qed.

Lemma pauses_after {W A B} (t : thread W A) (f : A -> thread W B) w a w' w1 ok o eff :
  advances t w (Done (Ok a)) w' -> pauses (f a) w' w1 ok o eff -> pauses (t ≫= f) w w1 ok o eff.
Proof. intros Ht (t' & H1 & H2). exists t'. split; [by eapply adv_bind_ok|done]. Qed.

Lemma pauses_go {W A B} (g : outcome A -> thread W B) (t : thread W A) w w1 ok o o' eff eff' :
  pauses t w w1 ok o eff -> (forall w2, ok w2 -> advances (g o) (eff w2) (Done o') (eff' w2)) ->
  pauses (thread_then g t) w w1 ok o' eff'.
Proof.
  intros (t' & H1 & H2) Hg. exists (thread_then g t'). split; [by apply adv_then|].
  intros w2 Hw. eapply adv_trans; [by apply adv_then, H2|]. by apply Hg.
Qed.

Lemma pauses_then {W A B} (g : outcome A -> thread W B) (t : thread W A) w w1 ok o o' eff :
  pauses t w w1 ok o eff -> g o = Done o' -> pauses (thread_then g t) w w1 ok o' eff.
Proof. intros Ht Hg. eapply pauses_go; [exact Ht|]. intros w2 _. rewrite Hg. apply adv_refl. Qed.

Lemma pauses_weaken {W A} (t : thread W A) w w1 (ok ok' : W -> Prop) o eff :
  (forall w2, ok' w2 -> ok w2) -> pauses t w w1 ok o eff -> pauses t w w1 ok' o eff.
Proof. intros Hok (t' & H1 & H2). exists t'. auto. Qed.

(** What the thread's next step touches. *)
Definition head {W A} (t : thread W A) : option access :=
  match t with Done _ => None | Step l _ _ => Some l end.

(** It comes to such a step without having changed the state. *)
Definition poised {W A} (l : access) (t : thread W A) (w : W) : Prop :=
  exists t', advances t w t' w /\ head t' = Some l.

Lemma poised_step {W A} l u (k : W -> thread W A) w : poised l (Step l u k) w.
Proof. eexists. split; [apply adv_refl|done]. Qed.

Lemma poised_then {W A B} l (g : outcome A -> thread W B) t w : poised l t w -> poised l (thread_then g t) w.
Proof.
  intros (t' & Ht & Hh). exists (thread_then g t'). split; [by apply adv_then|]. by destruct t'.
Qed.

Lemma poised_bind_ok {W A B} l (t : thread W A) (f : A -> thread W B) w a :
  advances t w (Done (Ok a)) w -> poised l (f a) w -> poised l (t ≫= f) w.
Proof. intros Ht (t' & Hf & Hh). exists t'. split; [by eapply adv_bind_ok|done]. Qed.

(** ** The requests being served *)

(** Each with the request it serves. *)
Notation pool L W A := (list (L * thread W A)).

Section pool.
Context {L W A : Type}.
(** The thread that serves a request, and what happens outside of requests. *)
Context (start : L -> thread W A) (env : W -> W -> Prop).

Inductive pool_step : W * pool L W A -> W * pool L W A -> Prop :=
  | pool_run i r l u k w ts :
      ts !! i = Some (r, Step l u k) -> pool_step (w, ts) (u w, <[i := (r, k w)]> ts)
  | pool_arrive r w ts : pool_step (w, ts) (w, ts ++ [(r, start r)])
  | pool_env w w' ts : env w w' -> pool_step (w, ts) (w', ts).

End pool.

(** ** Protocols *)

(** From the local knowledge [x], every step the thread takes in a state that
    satisfies [I] is allowed by [St]; if it ends in a value then one that
    satisfies [P], if in an error then one that satisfies [E]. *)
Fixpoint follows {W A X} (I : W -> Prop) (St : X -> W -> X -> W -> Prop)
    (P : X -> A -> Prop) (E : X -> error -> Prop) (t : thread W A) (x : X) : Prop :=
  match t with
  | Done (Ok a) => P x a
  | Done (Err e) => E x e
  | Done _ => True
  | Step l u k => forall w, I w -> exists x', St x w x' (u w) /\ follows I St P E (k w) x'
  end.

Section rules.
Context {W X : Type} (I : W -> Prop) (St : X -> W -> X -> W -> Prop).

Lemma follows_ret {A} (P : X -> A -> Prop) E a x : P x a -> follows I St P E (mret a : thread W A) x.
Proof. done. Qed.

Lemma follows_fail {A} (P : X -> A -> Prop) E e x : E x e -> follows I St P E (Done (Err e)) x.
Proof. done. Qed.

Lemma follows_atom {A} (P : X -> A -> Prop) (E : X -> error -> Prop) l (m : comp W A) x :
  (forall w, I w -> exists x', St x w x' (m w).2
     /\ match (m w).1 with Ok a => P x' a | Err e => E x' e | _ => True end) ->
  follows I St P E (atom l m) x.
Proof.
  intros H w Hw. destruct (H w Hw) as (x' & Hs & Hq). exists x'. split; [done|].
  simpl. by destruct (m w).1.
Qed.

Lemma follows_mono {A} (P P' : X -> A -> Prop) (E E' : X -> error -> Prop) t x :
  (forall x a, P x a -> P' x a) -> (forall x e, E x e -> E' x e) ->
  follows I St P E t x -> follows I St P' E' t x.
Proof.
  intros HP HE. revert x. induction t as [[]|l u k IH]; intros x; try done; [apply HP|apply HE|].
  intros H w Hw. destruct (H w Hw) as (x' & Hs & Hk). exists x'. auto.
Qed.

Lemma follows_bind {A B} (P : X -> A -> Prop) (P' : X -> B -> Prop) E t f x :
  follows I St P E t x -> (forall x a, P x a -> follows I St P' E (f a) x) ->
  follows I St P' E (t ≫= f) x.
Proof.
  intros Ht Hf. revert x Ht. induction t as [[]|l u k IH]; intros x; try done; [apply Hf|].
  intros H w Hw. destruct (H w Hw) as (x' & Hs & Hk). exists x'. split; [done|]. by apply IH.
Qed.

Lemma follows_attempt {A} (P : X -> A -> Prop) (E E' : X -> error -> Prop) t x :
  follows I St P E t x ->
  follows I St (fun x r => match r with inl e => E x e | inr a => P x a end) E' (thread_attempt t) x.
Proof.
  revert x. induction t as [[]|l u k IH]; intros x; try done.
  intros H w Hw. destruct (H w Hw) as (x' & Hs & Hk). exists x'. split; [done|]. by apply IH.
Qed.

Lemma follows_map_err {A} (P : X -> A -> Prop) (E E' : X -> error -> Prop) f t x :
  follows I St P E t x -> (forall x e, E x e -> E' x (f e)) ->
  follows I St P E' (thread_map_err f t) x.
Proof.
  intros Ht Hf. revert x Ht. induction t as [[]|l u k IH]; intros x; try done; [apply Hf|].
  intros H w Hw. destruct (H w Hw) as (x' & Hs & Hk). exists x'. split; [done|]. by apply IH.
Qed.
End rules.

(** What the thread can end in, whatever the others do. *)
Fixpoint ends {W A} (Q : outcome A -> Prop) (t : thread W A) : Prop :=
  match t with
  | Done o => Q o
  | Step l u k => forall w, ends Q (k w)
  end.

Lemma ends_atom {W A} (Q : outcome A -> Prop) l (m : comp W A) :
  (forall w, Q (m w).1) -> ends Q (atom l m).
Proof. done. Qed.

Lemma ends_then {W A B} (Q : outcome A -> Prop) (Q' : outcome B -> Prop) g (t : thread W A) :
  ends Q t -> (forall o, Q o -> ends Q' (g o)) -> ends Q' (thread_then g t).
Proof. intros Ht Hg. induction t as [o|l u k IH]; [by apply Hg|]. intros w. by apply IH. Qed.

Lemma ends_zoom {W V A} (Q : outcome A -> Prop) (view : W -> V) set (t : thread V A) :
  ends Q t -> ends Q (zoom view set t).
Proof. induction t as [o|l u k IH]; [done|]. intros H w. by apply IH. Qed.

Lemma follows_ends {W A X} I St (P : X -> A -> Prop) E (Q : outcome A -> Prop) (t : thread W A) x :
  follows I St P E t x -> ends Q t ->
  follows I St (fun x a => P x a /\ Q (Ok a)) (fun x e => E x e /\ Q (Err e)) t x.
Proof.
  revert x. induction t as [[]|l u k IH]; intros x; try done. intros Hf He w Hw.
  destruct (Hf w Hw) as (x' & Hs & Hk). exists x'. split; [done|]. by apply IH.
Qed.

(** A protocol that asks for less. *)
Lemma follows_conseq {W A X} (I I' : W -> Prop) (St St' : X -> W -> X -> W -> Prop)
    (P : X -> A -> Prop) E (t : thread W A) x :
  (forall w, I' w -> I w) -> (forall x w x' w', I' w -> St x w x' w' -> St' x w x' w') ->
  follows I St P E t x -> follows I' St' P E t x.
Proof.
  intros HI HS. revert x. induction t as [[]|l u k IH]; intros x; try done.
  intros H w Hw. destruct (H w (HI w Hw)) as (x' & Hs & Hk). exists x'. auto.
Qed.

(** A thread on a part of the state follows what it follows there. *)
Lemma follows_zoom {W V A X} (view : W -> V) set I St (P : X -> A -> Prop) E (t : thread V A) x :
  (forall v w, view (set v w) = v) ->
  follows I St P E t x ->
  follows (fun w => I (view w)) (fun x w x' w' => St x (view w) x' (view w') /\ exists v, w' = set v w)
    P E (zoom view set t) x.
Proof.
  intros Hset. revert x. induction t as [[]|l u k IH]; intros x; try done.
  intros H w Hw. destruct (H (view w) Hw) as (x' & Hs & Hk). exists x'. rewrite Hset. eauto.
Qed.

(** ** What all threads keep to *)

Section adequacy.
Context {L W A : Type} (start : L -> thread W A) (env : W -> W -> Prop).

(** Invariants: a relation every step keeps to, if the invariant holds
    before it, relates the first state to all later ones. *)
Section guarantee.
Context (I : W -> Prop) (G : W -> W -> Prop) `{!PreOrder G} (P : L -> A -> Prop).
Let St (x : unit) (w : W) (x' : unit) (w' : W) : Prop := I w' /\ G w w'.
Let good (j : L * thread W A) : Prop := follows I St (fun _ => P j.1) (fun _ _ => True) j.2 tt.
Hypothesis start_ok : forall r, follows I St (fun _ => P r) (fun _ _ => True) (start r) tt.
Hypothesis env_ok : forall w w', env w w' -> I w -> I w' /\ G w w'.

Lemma pool_guarantee c c' :
  rtc (pool_step start env) c c' -> I c.1 -> Forall good c.2 ->
  I c'.1 /\ G c.1 c'.1 /\ Forall good c'.2.
Proof.
  induction 1 as [c|c c1 c' Hstep _ IH]; intros Hi Hall; [done|].
  assert (I c1.1 /\ G c.1 c1.1 /\ Forall good c1.2) as (I1 & G1 & F1).
  { destruct Hstep as [i r l u k w ts Hi'|r w ts|w w' ts He]; simpl in *.
    - pose proof (Forall_lookup_1 _ _ _ _ Hall Hi') as Hg. destruct (Hg w Hi) as ([] & [H1 H2] & Hk).
      split; [done|]. split; [done|]. by apply Forall_insert.
    - split; [done|]. split; [done|]. apply Forall_app. split; [done|]. apply Forall_singleton, start_ok.
    - destruct (env_ok w w' He Hi). done. }
  destruct (IH I1 F1) as (I2 & G2 & F2). split; [done|]. split; [by etrans|done].
Qed.
End guarantee.

(** Accounting: a thread that starts with a debt has paid it when it ends in
    an answer that counts, by having made the measure grow. *)
Section accounting.
Context (I : W -> Prop) (c : W -> nat) (debt : L -> nat) (counts : L -> A -> bool).

Definition pays (n : nat) (w : W) (n' : nat) (w' : W) : Prop :=
  I w' /\ n' <= n /\ c w + n <= c w' + n'.

Definition settled (r : L) (n : nat) (a : A) : Prop := counts r a = true -> n = 0.

Hypothesis start_pays : forall r, follows I pays (settled r) (fun _ _ => True) (start r) (debt r).
Hypothesis env_keeps : forall w w', env w w' -> I w -> I w' /\ c w <= c w'.

(** Every thread of the pool with what it still owes. *)
Definition owes (j : L * thread W A) (n : nat) : Prop :=
  follows I pays (settled j.1) (fun _ _ => True) j.2 n /\ n <= debt j.1.

Definition total (ts : pool L W A) : nat := sum_list_with (fun j => debt j.1) ts.

Lemma total_insert (ts : pool L W A) i r t t' :
  ts !! i = Some (r, t) -> total (<[i := (r, t')]> ts) = total ts.
Proof.
  unfold total. revert i. induction ts as [|j ts IH]; intros [|i] Hj; simplify_eq/=; [done|].
  f_equal. by apply IH.
Qed.

Lemma sum_list_insert (l : list nat) i n n' :
  l !! i = Some n -> sum_list (<[i := n']> l) + n = sum_list l + n'.
Proof.
  revert i. induction l as [|m l IH]; intros [|i] H; simplify_eq/=; [lia|]. specialize (IH i H). lia.
Qed.

Lemma pool_accounting s s' :
  rtc (pool_step start env) s s' -> forall ns,
  I s.1 -> Forall2 owes s.2 ns ->
  exists ns', I s'.1 /\ Forall2 owes s'.2 ns'
    /\ c s.1 + total s'.2 + sum_list ns <= c s'.1 + total s.2 + sum_list ns'.
Proof.
  induction 1 as [s|s s1 s' Hstep _ IH]; intros ns Hi Hall; [exists ns; split; [done|]; split; [done|lia]|].
  assert (exists ns1, I s1.1 /\ Forall2 owes s1.2 ns1
    /\ c s.1 + total s1.2 + sum_list ns <= c s1.1 + total s.2 + sum_list ns1) as (ns1 & I1 & F1 & E1).
  { destruct Hstep as [i r l u k w ts Hj|r w ts|w w' ts He]; simpl in *.
    - destruct (Forall2_lookup_l _ _ _ _ _ Hall Hj) as (n & Hn & Hf & Hle).
      destruct (Hf w Hi) as (n' & (H1 & H2 & H3) & Hk). exists (<[i := n']> ns).
      split; [done|]. split.
      + apply Forall2_insert; [done|]. split; [done|]. simpl in *. lia.
      + pose proof (sum_list_insert ns i n n' Hn).
        rewrite (total_insert _ _ _ _ _ Hj). lia.
    - exists (ns ++ [debt r]). split; [done|]. split.
      + apply Forall2_app; [done|]. constructor; [|done]. split; [apply start_pays|done].
      + unfold total. rewrite sum_list_with_app, sum_list_with_app. simpl. lia.
    - destruct (env_keeps w w' He Hi) as [H1 H2]. exists ns. split; [done|]. split; [done|]. lia. }
  destruct (IH ns1 I1 F1) as (ns2 & I2 & F2 & E2). exists ns2. split; [done|]. split; [done|]. lia.
Qed.

(** The jobs that owed something and ended in an answer that counts. *)
Definition paid (j : L * thread W A) : nat :=
  match j.2 with Done (Ok a) => if counts j.1 a then debt j.1 else 0 | _ => 0 end.

Lemma paid_bound ts ns : Forall2 owes ts ns -> sum_list_with paid ts + sum_list ns <= total ts.
Proof.
  induction 1 as [|j n ts ns [Hf Hle] _ IH]; [done|]. unfold total in *. simpl.
  assert (paid j + n <= debt j.1); [|lia].
  unfold paid. destruct j as [r t]. simpl in *. destruct t as [[a|?|?|?|]|l u k]; try lia.
  simpl in Hf. unfold settled in Hf. destruct (counts r a); [rewrite Hf by done|]; lia.
Qed.

Lemma pool_paid w w' ts' :
  rtc (pool_step start env) (w, []) (w', ts') -> I w -> I w' /\ c w + sum_list_with paid ts' <= c w'.
Proof.
  intros Hrun Hi. destruct (pool_accounting _ _ Hrun [] Hi (List.Forall2_nil _)) as (ns & Hi' & Hf & He).
  pose proof (paid_bound _ _ Hf). simpl in *. split; [done|]. lia.
Qed.
End accounting.
End adequacy.

(** ** Schedules *)

Section schedules.
Context {L W A : Type} (start : L -> thread W A) (env : W -> W -> Prop).

(** Every request that has not ended takes one step, in their order. *)
Fixpoint round (w : W) (ts : pool L W A) : W * pool L W A :=
  match ts with
  | [] => (w, [])
  | (r, Done o) :: ts => let '(w', ts') := round w ts in (w', (r, Done o) :: ts')
  | (r, Step l u k) :: ts => let '(w', ts') := round (u w) ts in (w', (r, k w) :: ts')
  end.

Fixpoint rounds (n : nat) (w : W) (ts : pool L W A) : W * pool L W A :=
  match n with
  | 0 => (w, ts)
  | S n => let '(w', ts') := round w ts in rounds n w' ts'
  end.

Lemma round_reach ts : forall w pre,
  rtc (pool_step start env) (w, pre ++ ts) ((round w ts).1, pre ++ (round w ts).2).
Proof.
  induction ts as [|[r t] ts IH]; intros w pre; [done|].
  destruct t as [o|l u k]; simpl.
  - specialize (IH w (pre ++ [(r, Done o)])). destruct (round w ts) as [w' ts']. simpl in *.
    by rewrite <- !app_assoc in IH.
  - eapply rtc_l.
    + apply (pool_run start env (length pre) r l u k). by apply list_lookup_middle.
    + rewrite insert_app_r_alt, Nat.sub_diag by done. simpl.
      specialize (IH (u w) (pre ++ [(r, k w)])). destruct (round (u w) ts) as [w' ts']. simpl in *.
      by rewrite <- !app_assoc in IH.
Qed.

Lemma rounds_reach n : forall w ts, rtc (pool_step start env) (w, ts) (rounds n w ts).
Proof.
  induction n as [|n IH]; intros w ts; [done|]. simpl.
  pose proof (round_reach ts w []) as H. destruct (round w ts) as [w' ts']. etrans; [exact H|apply IH].
Qed.

(** Requests that arrive at the same time. *)
Lemma arrive_all rs : forall w ts,
  rtc (pool_step start env) (w, ts) (w, ts ++ map (fun r => (r, start r)) rs).
Proof.
  induction rs as [|r rs IH]; intros w ts; simpl; [by rewrite app_nil_r|].
  eapply rtc_l; [apply pool_arrive|]. specialize (IH w (ts ++ [(r, start r)])).
  by rewrite <- app_assoc in IH.
Qed.

(** One thread comes some way, or to its end, while the others wait. *)
Lemma advance_reach t w t' w' : advances t w t' w' -> forall pre r post,
  rtc (pool_step start env) (w, pre ++ (r, t) :: post) (w', pre ++ (r, t') :: post).
Proof.
  induction 1 as [t w|l u k w t' w' _ IH]; intros pre r post; [done|]. eapply rtc_l.
  - apply (pool_run start env (length pre) r l u k). by apply list_lookup_middle.
  - rewrite insert_app_r_alt, Nat.sub_diag by done. apply IH.
Qed.

Lemma run_reach t w pre r post :
  rtc (pool_step start env) (w, pre ++ (r, t) :: post)
    ((run t w).2, pre ++ (r, Done (run t w).1) :: post).
Proof. apply advance_reach, adv_run. Qed.

(** All requests come to the point where they pause before the first of them
    goes on: [ok rest] holds of the states in which the requests [rest] have
    still to go on, and [ans] relates a request to its answer and effect. *)
Section race.
Context (Inv : W -> Prop) (Rdy : L -> Prop) (ok : list L -> W -> Prop) (ans : L -> A -> (W -> W) -> Prop).
Hypothesis Hpause : forall r w, Rdy r -> Inv w -> exists w1 v eff, Inv w1 /\ ans r v eff
  /\ pauses (start r) w w1 (fun w2 => exists rest, ok (r :: rest) w2) (Ok v) eff.
Hypothesis Hok : forall r rest v eff w, ans r v eff -> ok (r :: rest) w -> ok rest (eff w).

(** Threads that have paused. *)
Definition paused (j : L * thread W A) (e : A * (W -> W)) : Prop :=
  ans j.1 e.1 e.2 /\ forall w2 rest, ok (j.1 :: rest) w2 -> advances j.2 w2 (Done (Ok e.1)) (e.2 w2).

Lemma pause_all rs : Forall Rdy rs -> forall w pre, Inv w -> exists w1 ts es, Inv w1 /\ map fst ts = rs /\ Forall2 paused ts es
  /\ rtc (pool_step start env) (w, pre ++ map (fun r => (r, start r)) rs) (w1, pre ++ ts).
Proof.
  induction 1 as [|r rs Hr _ IH]; intros w pre Hw; [by exists w, [], []|].
  destruct (Hpause r w Hr Hw) as (w1 & v & eff & Hw1 & Ha & t' & H1 & H2).
  destruct (IH w1 (pre ++ [(r, t')]) Hw1) as (w2 & ts & es & Hw2 & Hts & Hp & Hrun).
  exists w2, ((r, t') :: ts), ((v, eff) :: es). split; [done|]. split; [simpl; by rewrite Hts|]. split.
  - constructor; [|done]. split; [done|]. intros w3 rest Hrest. apply H2. by exists rest.
  - etrans; [exact (advance_reach _ _ _ _ H1 pre r _)|]. by rewrite <- !app_assoc in Hrun.
Qed.

Lemma finish_all ts es : Forall2 paused ts es -> forall w pre, ok (map fst ts) w ->
  rtc (pool_step start env) (w, pre ++ ts)
    (foldl (fun w e => e.2 w) w es, pre ++ zip_with (fun j e => (j.1, Done (Ok e.1))) ts es).
Proof.
  induction 1 as [|[r t] e ts es [Ha Hp] _ IH]; intros w pre Hw; [done|]. simpl in *.
  etrans; [exact (advance_reach _ _ _ _ (Hp w _ Hw) pre r _)|].
  specialize (IH (e.2 w) (pre ++ [(r, Done (Ok e.1))]) (Hok _ _ _ _ _ Ha Hw)).
  by rewrite <- !app_assoc in IH.
Qed.

Lemma race_all rs w :
  Forall Rdy rs -> Inv w -> (forall w1, Inv w1 -> ok rs w1) -> exists w1 es, Inv w1
    /\ Forall2 (fun r e => ans r e.1 e.2) rs es
    /\ rtc (pool_step start env) (w, []) (foldl (fun w e => e.2 w) w1 es,
         zip_with (fun r e => (r, Done (Ok e.1))) rs es).
Proof.
  intros Hrdy Hw Hrs. destruct (pause_all rs Hrdy w [] Hw) as (w1 & ts & es & Hw1 & Hts & Hp & Hrun).
  exists w1, es. split; [done|]. split.
  - rewrite <- Hts. clear -Hp. induction Hp as [|j e ts es [Ha _] _ IH]; by constructor.
  - etrans; [exact (arrive_all rs w [])|]. etrans; [exact Hrun|].
    pose proof (finish_all ts es Hp w1 []) as H. rewrite Hts in H. specialize (H (Hrs w1 Hw1)).
    simpl in *. rewrite <- Hts. by rewrite zip_with_fmap_l.
Qed.
End race.

(** Two requests that are about to touch the same Go memory, one of them
    writing, with nothing that orders the two accesses. *)
Definition races (ts : pool L W A) : Prop :=
  exists i j x y, i <> j /\ ts !! i = Some x /\ ts !! j = Some y
    /\ head x.2 = Some WritesKeys /\ (head y.2 = Some WritesKeys \/ head y.2 = Some ReadsKeys).

Lemma poised_races r1 r2 t1 t2 w :
  poised WritesKeys t1 w -> poised WritesKeys t2 w ->
  exists ts, rtc (pool_step start env) (w, [(r1, t1); (r2, t2)]) (w, ts) /\ races ts.
Proof.
  intros (t1' & H1 & E1) (t2' & H2 & E2). exists [(r1, t1'); (r2, t2')]. split.
  - etrans; [exact (advance_reach _ _ _ _ H1 [] r1 [(r2, t2)])|exact (advance_reach _ _ _ _ H2 [(r1, t1')] r2 [])].
  - exists 0, 1, (r1, t1'), (r2, t2'). repeat split; auto.
Qed.
End schedules.
