(* ===== verification/GoStrings.v ===== *)
(** * Go's [strings] and [strconv] functions used by the program

    Go strings are byte sequences, modelled as Rocq's [string] (a list of
    8-bit [ascii]).  [ToLower] is exact on ASCII input; bytes above 127 are
    left alone.  [Split] is the one-byte-separator case, the only one used. *)

From S2P Require Import Prelude.

#[local] Arguments String.append !_ _ : simpl nomatch.

(** [strings.HasPrefix], [strings.HasSuffix]. *)
Definition HasPrefix (s p : string) : bool := String.prefix p s.

Fixpoint HasSuffix (s p : string) : bool :=
  if bool_decide (s = p) then true
  else match s with
       | EmptyString => false
       | String _ s' => HasSuffix s' p
       end.

(** [strings.Split(s, sep)] for a one-byte separator: never empty. *)
Fixpoint Split (s : string) (sep : ascii) : list string :=
  match s with
  | EmptyString => [""]
  | String c s' =>
      if bool_decide (c = sep) then "" :: Split s' sep
      else match Split s' sep with
           | [] => [String c ""]
           | w :: ws => String c w :: ws
           end
  end.

(** [strings.Join(elems, sep)]. *)
Fixpoint Join (elems : list string) (sep : string) : string :=
  match elems with
  | [] => ""
  | [w] => w
  | w :: ws => w +:+ sep +:+ Join ws sep
  end.

(** [strings.ContainsRune]/[strings.Index(s, c) >= 0] for one byte. *)
Fixpoint Contains (s : string) (c : ascii) : bool :=
  match s with
  | EmptyString => false
  | String d s' => bool_decide (c = d) || Contains s' c
  end.

Definition lower_ascii (c : ascii) : ascii :=
  let n := Ascii.nat_of_ascii c in
  if (65 <=? n)%nat && (n <=? 90)%nat then Ascii.ascii_of_nat (n + 32) else c.

(** [strings.ToLower]. *)
Fixpoint ToLower (s : string) : string :=
  match s with
  | EmptyString => ""
  | String c s' => String (lower_ascii c) (ToLower s')
  end.

(** [strconv.Itoa]. *)
Definition Itoa (z : Z) : string := pretty z.

(** The slice expression [s[lo:hi]] on strings; [None] is the run-time panic. *)
Definition slice (s : string) (lo hi : Z) : option string :=
  if (0 <=? lo)%Z && (lo <=? hi)%Z && (hi <=? Z.of_nat (String.length s))%Z
  then Some (String.substring (Z.to_nat lo) (Z.to_nat (hi - lo)) s) else None.

(** ** Generic lemmas on strings *)

Lemma app_nil_r_str s : s +:+ "" = s.
Proof. induction s as [|c s IH]; simpl; [done|]. by rewrite IH. Qed.

Lemma app_assoc_str s1 s2 s3 : s1 +:+ (s2 +:+ s3) = (s1 +:+ s2) +:+ s3.
Proof. induction s1 as [|c s1 IH]; simpl; [done|]. by rewrite IH. Qed.

Lemma length_app_str s1 s2 : String.length (s1 +:+ s2) = (String.length s1 + String.length s2)%nat.
Proof. induction s1 as [|c s1 IH]; simpl; [done|]. by rewrite IH. Qed.

Lemma Contains_app s1 s2 c : Contains (s1 +:+ s2) c = Contains s1 c || Contains s2 c.
Proof. induction s1 as [|d s1 IH]; simpl; [done|]. by rewrite IH, orb_assoc. Qed.

Lemma Split_nonempty s sep : Split s sep <> [].
Proof. destruct s as [|c s]; simpl; [done|]. split_match. Qed.

(** Splitting never loses a byte: joining the parts gives the string back. *)
Lemma Join_Split s sep : Join (Split s sep) (String sep "") = s.
Proof.
  induction s as [|c s IH]; simpl; [done|].
  pose proof (Split_nonempty s sep) as Hne.
  case_bool_decide; subst; destruct (Split s sep) as [|w ws] eqn:E; try done.
  - cbn [Join] in *. by rewrite IH.
  - cbn [Join] in *. destruct ws; simpl in *; by rewrite IH.
Qed.

Lemma Split_no_sep w sep : Contains w sep = false -> Split w sep = [w].
Proof.
  induction w as [|c w IH]; simpl; [done|]. intros [H1 H2]%orb_false_iff.
  apply bool_decide_eq_false in H1. rewrite bool_decide_false by congruence. by rewrite IH.
Qed.

Lemma Split_app_sep w s sep :
  Contains w sep = false -> Split (w +:+ String sep s) sep = w :: Split s sep.
Proof.
  induction w as [|c w IH]; simpl.
  - intros _. by rewrite bool_decide_true.
  - intros [H1 H2]%orb_false_iff. apply bool_decide_eq_false in H1.
    rewrite bool_decide_false by congruence. by rewrite IH.
Qed.

(** Words without the separator come back from [Split] as they went in. *)
Lemma Split_Join ws sep :
  ws <> [] -> Forall (fun w => Contains w sep = false) ws ->
  Split (Join ws (String sep "")) sep = ws.
Proof.
  induction ws as [|w ws IH]; [done|]. intros _ [Hw Hws]%Forall_cons.
  destruct ws as [|w' ws']; [by apply Split_no_sep|].
  change (Join (w :: w' :: ws') (String sep "")) with
    (w +:+ String sep (Join (w' :: ws') (String sep ""))).
  by rewrite Split_app_sep, IH.
Qed.

(** The number of parts is one more than the number of separators. *)
Lemma Split_parts_no_sep s sep : Forall (fun w => Contains w sep = false) (Split s sep).
Proof.
  induction s as [|c s IH]; simpl; [by repeat constructor|].
  case_bool_decide; [by constructor|].
  destruct (Split s sep) as [|w ws] eqn:E; [by apply Split_nonempty in E|].
  apply Forall_cons in IH as [Hw Hws]. constructor; [|done]. simpl.
  by rewrite Hw, bool_decide_false.
Qed.

Lemma lower_ascii_idemp c : lower_ascii (lower_ascii c) = lower_ascii c.
Proof. destruct c as [[] [] [] [] [] [] [] []]; reflexivity. Qed.

Lemma ToLower_idemp s : ToLower (ToLower s) = ToLower s.
Proof. induction s as [|c s IH]; simpl; [done|]. by rewrite lower_ascii_idemp, IH. Qed.

Lemma HasSuffix_true s p : HasSuffix s p = true <-> exists q, s = q +:+ p.
Proof.
  split.
  - induction s as [|c s IH]; cbn [HasSuffix]; case_bool_decide as E; intros H.
    + exists "". by subst.
    + done.
    + exists "". by subst.
    + destruct (IH H) as [q ->]. by exists (String c q).
  - intros [q ->]. induction q as [|c q IH]; simpl.
    + destruct p; cbn [HasSuffix]; by rewrite bool_decide_true.
    + by case_bool_decide.
Qed.

Lemma HasPrefix_true s p : HasPrefix s p = true <-> exists q, s = p +:+ q.
Proof.
  unfold HasPrefix. revert s. induction p as [|c p IH]; intros s; simpl.
  - split; [by exists s|by destruct s].
  - destruct s as [|d s]; [split; [done|by intros [? ?]]|].
    cbn [String.prefix]. destruct (ascii_dec c d) as [->|Hne].
    + rewrite IH. split; intros [q Hq]; exists q; [by subst|by simplify_eq/=].
    + split; [done|intros [q Hq]; by simplify_eq/=].
Qed.

Lemma Itoa_inj z1 z2 : Itoa z1 = Itoa z2 -> z1 = z2.
Proof. apply pretty_Z_inj. Qed.

Lemma substring_length s : String.substring 0 (String.length s) s = s.
Proof. induction s as [|c s IH]; simpl; [done|]. by rewrite IH. Qed.

Lemma substring_app_l p s : String.substring 0 (String.length p) (p +:+ s) = p.
Proof.
  induction p as [|c p IH]; simpl; [by destruct s|]. by rewrite IH.
Qed.

Lemma substring_app_r p s n :
  String.substring (String.length p) n (p +:+ s) = String.substring 0 n s.
Proof. induction p as [|c p IH]; simpl; [done|]. apply IH. Qed.

Lemma slice_Some s lo hi :
  (0 <= lo <= hi)%Z -> (hi <= Z.of_nat (String.length s))%Z ->
  slice s lo hi = Some (String.substring (Z.to_nat lo) (Z.to_nat (hi - lo)) s).
Proof.
  intros ??. unfold slice.
  rewrite (proj2 (Z.leb_le 0 lo)), (proj2 (Z.leb_le lo hi)), (proj2 (Z.leb_le hi _)) by lia.
  done.
Qed.

Lemma slice_full s : slice s 0 (Z.of_nat (String.length s)) = Some s.
Proof. rewrite slice_Some by lia. by rewrite Z.sub_0_r, Nat2Z.id, substring_length. Qed.

(** Slicing the middle of a concatenation. *)
Lemma slice_middle p s q :
  slice (p +:+ s +:+ q) (Z.of_nat (String.length p))
    (Z.of_nat (String.length p + String.length s)) = Some s.
Proof.
  rewrite slice_Some by (rewrite ?length_app_str; lia).
  rewrite Nat2Z.id. replace (Z.to_nat _) with (String.length s) by lia.
  by rewrite substring_app_r, substring_app_l.
Qed.

(** ** Decimal numbers *)

Definition digit_char (c : ascii) : bool :=
  let n := Ascii.nat_of_ascii c in (48 <=? n)%nat && (n <=? 57)%nat.

Definition digit_value (c : ascii) : Z := Z.of_nat (Ascii.nat_of_ascii c) - 48.

(** Reading decimal digits onto an accumulator. *)
Fixpoint read_digits (acc : Z) (s : string) : option Z :=
  match s with
  | EmptyString => Some acc
  | String c s' => if digit_char c then read_digits (10 * acc + digit_value c) s' else None
  end.

(** [strconv.ParseInt(s, 10, 64)]/[strconv.Atoi]: an optional sign, at least
    one digit, and a value in range. *)
Definition Atoi (s : string) : option Z :=
  let '(neg, ds) := match s with
                    | String "-" t => (true, t)
                    | String "+" t => (false, t)
                    | _ => (false, s)
                    end in
  match ds with
  | EmptyString => None
  | _ => z ← read_digits 0 ds;
         let z := if neg : bool then - z else z in
         if (- 2 ^ 63 <=? z)%Z && (z <? 2 ^ 63)%Z then Some z else None
  end%Z.

Lemma pretty_N_char_digit n : (n < 10)%N ->
  digit_char (pretty_N_char n) = true /\ digit_value (pretty_N_char n) = Z.of_N n.
Proof.
  intros H.
  assert (n ∈ map N.of_nat (seq 0 10)) as Hn.
  { apply list_elem_of_fmap. exists (N.to_nat n). rewrite elem_of_seq. lia. }
  repeat (apply elem_of_cons in Hn as [->|Hn]; [done|]). by apply elem_of_nil in Hn.
Qed.

Lemma read_digits_pretty n s :
  read_digits 0 (pretty_N_go n s) = read_digits (Z.of_N n) s.
Proof.
  revert s. induction (N.lt_wf_0 n) as [n _ IH]; intros s.
  destruct (decide (n = 0%N)) as [->|Hn]; [done|].
  rewrite pretty_N_go_step by lia. rewrite IH by (apply N.div_lt; lia).
  destruct (pretty_N_char_digit (n `mod` 10)) as [H1 H2]; [apply N.mod_lt; lia|].
  simpl. rewrite H1, H2. f_equal. pose proof (N.div_mod n 10). lia.
Qed.

Lemma pretty_N_go_Contains n s c :
  digit_char c = false -> Contains s c = false -> Contains (pretty_N_go n s) c = false.
Proof.
  intros Hc. revert s. induction (N.lt_wf_0 n) as [n _ IH]; intros s Hs.
  destruct (decide (n = 0%N)) as [->|Hn]; [done|].
  rewrite pretty_N_go_step by lia. apply IH; [apply N.div_lt; lia|].
  destruct (pretty_N_char_digit (n `mod` 10)) as [H1 _]; [apply N.mod_lt; lia|].
  simpl. rewrite Hs, orb_false_r. apply bool_decide_eq_false. congruence.
Qed.

Lemma Itoa_cases z :
  Itoa z = "0" \/ (z > 0 /\ Itoa z = pretty_N_go (Z.to_N z) "")%Z
  \/ (z < 0 /\ Itoa z = String "-" (pretty_N_go (Z.to_N (- z)) ""))%Z.
Proof.
  destruct z as [|p|p]; [by left|right; left|right; right]; (split; [lia|]); reflexivity.
Qed.

(** A decimal number contains only digits and the minus sign. *)
Lemma Itoa_Contains z c : digit_char c = false -> c <> "-"%char -> Contains (Itoa z) c = false.
Proof.
  intros Hc Hm. destruct (Itoa_cases z) as [->|[[_ ->]|[_ ->]]].
  - simpl. rewrite orb_false_r. apply bool_decide_eq_false. by intros ->.
  - by apply pretty_N_go_Contains.
  - simpl. rewrite pretty_N_go_Contains by done. by rewrite bool_decide_false.
Qed.
