(* ===== verification/GoFmt.v ===== *)
(** * [fmt.Sprintf] for the verbs [%s], [%d], [%v]

    Arguments are strings, [int]s and [[]interface{}] slices, the kinds the
    program formats (an [error] argument is passed as its [Error()] string).
    Missing, extra and mistyped operands print as Go's [%!verb(...)] forms. *)

From S2P Require Import Prelude GoStrings.

#[local] Arguments String.append !_ _ : simpl nomatch.

Inductive fmt_arg : Type :=
  | FStr (s : string)
  | FInt (z : Z)
  | FSlice (l : list fmt_arg).

(** [reflect.TypeOf(arg).String()]. *)
Definition fmt_type (a : fmt_arg) : string :=
  match a with
  | FStr _ => "string"
  | FInt _ => "int"
  | FSlice _ => "[]interface {}"
  end.

(** One operand under one verb; slices print element by element. *)
Fixpoint fmt_operand (verb : ascii) (a : fmt_arg) : string :=
  match a with
  | FStr s =>
      if bool_decide (verb = "d"%char) then "%!d(string=" +:+ s +:+ ")" else s
  | FInt z =>
      if bool_decide (verb = "s"%char) then "%!s(int=" +:+ Itoa z +:+ ")" else Itoa z
  | FSlice l => "[" +:+ Join (map (fmt_operand verb) l) " " +:+ "]"
  end.

Definition fmt_extra (args : list fmt_arg) : string :=
  match args with
  | [] => ""
  | _ => "%!(EXTRA " +:+
         Join (map (fun a => fmt_type a +:+ "=" +:+ fmt_operand "v" a) args) ", " +:+ ")"
  end.

(** [fmt.Sprintf(format, args...)]. *)
Fixpoint Sprintf (format : string) (args : list fmt_arg) : string :=
  match format with
  | EmptyString => fmt_extra args
  | String "%" EmptyString => "%!(NOVERB)" +:+ fmt_extra args
  | String "%" (String "%" rest) => String "%" (Sprintf rest args)
  | String "%" (String verb rest) =>
      match args with
      | a :: args' => fmt_operand verb a +:+ Sprintf rest args'
      | [] => "%!" +:+ String verb "" +:+ "(MISSING)" +:+ Sprintf rest []
      end
  | String c rest => String c (Sprintf rest args)
  end.

(** [fmt.Errorf(format, args...)] and [errors.New(msg)]. *)
Definition Errorf (format : string) (args : list fmt_arg) : error :=
  ErrPlain (Sprintf format args).

Definition NewErr (msg : string) : error := ErrPlain msg.

(** A format without [%] prints as it is, followed by the extra operands. *)
Lemma Sprintf_plain format args :
  Contains format "%" = false -> Sprintf format args = format +:+ fmt_extra args.
Proof.
  induction format as [|c f IH]; simpl; [done|].
  intros [Hc Hf]%orb_false_iff. apply bool_decide_eq_false in Hc. rewrite <- (IH Hf).
  destruct c as [[] [] [] [] [] [] [] []]; try reflexivity. by destruct Hc.
Qed.

(** Literal text before a verb is copied. *)
Lemma Sprintf_app pre format args :
  Contains pre "%" = false -> Sprintf (pre +:+ format) args = pre +:+ Sprintf format args.
Proof.
  induction pre as [|c f IH]; simpl; [done|].
  intros [Hc Hf]%orb_false_iff. apply bool_decide_eq_false in Hc. rewrite <- (IH Hf).
  destruct c as [[] [] [] [] [] [] [] []]; try reflexivity. by destruct Hc.
Qed.

Lemma Sprintf_s rest s args :
  Sprintf ("%s" +:+ rest) (FStr s :: args) = s +:+ Sprintf rest args.
Proof. reflexivity. Qed.

Lemma Sprintf_d rest z args :
  Sprintf ("%d" +:+ rest) (FInt z :: args) = Itoa z +:+ Sprintf rest args.
Proof. reflexivity. Qed.
