(* ===== verification/Base64.v ===== *)
(** * Base64 (src/util/util.go [B64Encode]/[B64Decode])

    Go's [base64.RawStdEncoding] (no padding) and [base64.StdEncoding]
    (padded): three bytes to four characters of the standard alphabet, line
    breaks dropped before decoding, trailing bits of a short group ignored. *)

From S2P Require Import Prelude GoStrings.

#[local] Arguments String.append !_ _ : simpl nomatch.

Definition encodeStd : string :=
  "ABCDEFGHIJKLMNOPQRSTUVWXYZabcdefghijklmnopqrstuvwxyz0123456789+/".

(** The character of a six-bit value, and back. *)
Definition enc6 (i : Z) : ascii := default "A"%char (String.get (Z.to_nat i) encodeStd).

Fixpoint index_of (c : ascii) (i : Z) (s : string) : option Z :=
  match s with
  | EmptyString => None
  | String d s => if bool_decide (c = d) then Some i else index_of c (i + 1) s
  end.

Definition dec6 (c : ascii) : option Z := index_of c 0 encodeStd.

(** [RawStdEncoding.EncodeToString]. *)
Fixpoint B64Encode (buf : bytes) : string :=
  match buf with
  | [] => ""
  | [a] =>
      String (enc6 (byteZ a / 4)) (String (enc6 (byteZ a `mod` 4 * 16)) "")
  | [a; b] =>
      String (enc6 (byteZ a / 4)) (String (enc6 (byteZ a `mod` 4 * 16 + byteZ b / 16))
        (String (enc6 (byteZ b `mod` 16 * 4)) ""))
  | a :: b :: c :: rest =>
      String (enc6 (byteZ a / 4)) (String (enc6 (byteZ a `mod` 4 * 16 + byteZ b / 16))
        (String (enc6 (byteZ b `mod` 16 * 4 + byteZ c / 64)) (String (enc6 (byteZ c `mod` 64))
           (B64Encode rest))))
  end%Z.

(** Decoding groups of four characters; the last may have two or three. *)
Fixpoint decode_groups (s : string) : option bytes :=
  match s with
  | EmptyString => Some []
  | String c1 EmptyString => None
  | String c1 (String c2 EmptyString) =>
      v1 ← dec6 c1; v2 ← dec6 c2; Some [Zbyte (v1 * 4 + v2 / 16)]
  | String c1 (String c2 (String c3 EmptyString)) =>
      v1 ← dec6 c1; v2 ← dec6 c2; v3 ← dec6 c3;
      Some [Zbyte (v1 * 4 + v2 / 16); Zbyte (v2 `mod` 16 * 16 + v3 / 4)]
  | String c1 (String c2 (String c3 (String c4 rest))) =>
      v1 ← dec6 c1; v2 ← dec6 c2; v3 ← dec6 c3; v4 ← dec6 c4;
      bs ← decode_groups rest;
      Some (Zbyte (v1 * 4 + v2 / 16) :: Zbyte (v2 `mod` 16 * 16 + v3 / 4)
              :: Zbyte (v3 `mod` 4 * 64 + v4) :: bs)
  end%Z.

Definition is_newline (c : ascii) : bool :=
  bool_decide (c = Ascii.ascii_of_nat 10) || bool_decide (c = Ascii.ascii_of_nat 13).

Fixpoint remove_newlines (s : string) : string :=
  match s with
  | EmptyString => ""
  | String c s => if is_newline c then remove_newlines s else String c (remove_newlines s)
  end.

(** [RawStdEncoding.DecodeString]; [None] is a [CorruptInputError]. *)
Definition B64Decode (str : string) : option bytes := decode_groups (remove_newlines str).

(** [StdEncoding]: the same with padding to a multiple of four. *)
Definition StdEncode (buf : bytes) : string :=
  B64Encode buf +:+
  match length buf mod 3 with 1%nat => "==" | 2%nat => "=" | _ => "" end.

(** Padding is required and only allowed at the end of the last group. *)
Fixpoint strip_padding (s : string) : option string :=
  match s with
  | EmptyString => Some ""
  | String c1 (String c2 (String c3 (String c4 EmptyString))) =>
      if bool_decide (c4 = "="%char) then
        if bool_decide (c3 = "="%char) then Some (String c1 (String c2 ""))
        else Some (String c1 (String c2 (String c3 "")))
      else Some s
  | String c1 (String c2 (String c3 (String c4 rest))) =>
      r ← strip_padding rest; Some (String c1 (String c2 (String c3 (String c4 r))))
  | _ => None
  end.

Definition StdDecode (str : string) : option bytes :=
  s ← strip_padding (remove_newlines str); decode_groups s.

(** ** Round trips *)

Lemma enc6_check (p : Z -> ascii -> bool) :
  forallb (fun n => p (Z.of_nat n) (enc6 (Z.of_nat n))) (seq 0 64) = true ->
  forall i, (0 <= i < 64)%Z -> p i (enc6 i) = true.
Proof.
  intros H i Hi. rewrite forallb_forall in H. specialize (H (Z.to_nat i)).
  rewrite Z2Nat.id in H by lia. apply H, in_seq. lia.
Qed.

Lemma dec6_enc6 i : (0 <= i < 64)%Z -> dec6 (enc6 i) = Some i.
Proof.
  intros Hi. apply (enc6_check (fun i c => bool_decide (dec6 c = Some i))) in Hi; [|reflexivity].
  by apply bool_decide_eq_true in Hi.
Qed.

(** The alphabet has no newline, dot, equals sign, colon or space. *)
Definition plain_char (c : ascii) : bool :=
  negb (is_newline c) && negb (bool_decide (c = "."%char)) && negb (bool_decide (c = "="%char))
  && negb (bool_decide (c = ":"%char)) && negb (bool_decide (c = " "%char)).

Lemma enc6_plain i : (0 <= i < 64)%Z -> plain_char (enc6 i) = true.
Proof. intros Hi. by apply (enc6_check (fun _ c => plain_char c)) in Hi. Qed.

Fixpoint all_plain (s : string) : bool :=
  match s with EmptyString => true | String c s => plain_char c && all_plain s end.

(** Induction three bytes at a time. *)
Lemma bytes3_ind (P : bytes -> Prop) :
  P [] -> (forall a, P [a]) -> (forall a b, P [a; b]) ->
  (forall a b c rest, P rest -> P (a :: b :: c :: rest)) -> forall l, P l.
Proof.
  intros H0 H1 H2 H3. fix IH 1. intros [|a [|b [|c rest]]]; [done..|]. apply H3, IH.
Qed.

Lemma sextet_ranges a b : (0 <= byteZ a / 4 < 64)%Z /\ (0 <= byteZ a `mod` 4 * 16 + byteZ b / 16 < 64)%Z
  /\ (0 <= byteZ a `mod` 16 * 4 + byteZ b / 64 < 64)%Z /\ (0 <= byteZ a `mod` 64 < 64)%Z
  /\ (0 <= byteZ a `mod` 4 * 16 < 64)%Z /\ (0 <= byteZ a `mod` 16 * 4 < 64)%Z.
Proof.
  pose proof (byteZ_range a). pose proof (byteZ_range b).
  pose proof (Z.mod_pos_bound (byteZ a) 4 ltac:(lia)). pose proof (Z.mod_pos_bound (byteZ a) 16 ltac:(lia)).
  pose proof (Z.mod_pos_bound (byteZ a) 64 ltac:(lia)).
  pose proof (Z.div_mod (byteZ a) 4 ltac:(lia)). pose proof (Z.div_mod (byteZ b) 16 ltac:(lia)).
  pose proof (Z.mod_pos_bound (byteZ b) 16 ltac:(lia)). pose proof (Z.mod_pos_bound (byteZ b) 64 ltac:(lia)).
  pose proof (Z.div_mod (byteZ b) 64 ltac:(lia)). lia.
Qed.

Lemma enc_plain buf : all_plain (B64Encode buf) = true.
Proof.
  induction buf as [|a|a b|a b c rest IH] using bytes3_ind; cbn [B64Encode all_plain]; [done|..];
    pose proof (sextet_ranges a a); try pose proof (sextet_ranges a b); try pose proof (sextet_ranges b b);
    try pose proof (sextet_ranges b c); try pose proof (sextet_ranges c c);
    rewrite !enc6_plain by tauto; try done.
Qed.

Lemma remove_newlines_plain s : all_plain s = true -> remove_newlines s = s.
Proof.
  induction s as [|c s IH]; simpl; [done|]. intros [Hc Hs]%andb_true_iff. unfold plain_char in Hc.
  destruct (is_newline c); [done|]. by rewrite IH.
Qed.

Lemma plain_no_char s c : plain_char c = false -> all_plain s = true -> Contains s c = false.
Proof.
  intros Hc. induction s as [|d s IH]; simpl; [done|]. intros [Hd Hs]%andb_true_iff.
  rewrite IH by done. rewrite bool_decide_false; [done|]. intros ->. congruence.
Qed.

(** Recomposing bytes from sextets. *)
Lemma recompose_1 a b : Zbyte (byteZ a / 4 * 4 + (byteZ a `mod` 4 * 16 + byteZ b / 16) / 16) = a.
Proof.
  pose proof (byteZ_range b). rewrite Z.div_add_l by lia. rewrite (Z.div_small (byteZ b / 16)).
  - rewrite <- (Zbyte_byteZ a) at 3. f_equal. pose proof (Z.div_mod (byteZ a) 4). lia.
  - split; [apply Z.div_pos; lia|]. apply Z.div_lt_upper_bound; lia.
Qed.

Lemma recompose_1' a : Zbyte (byteZ a / 4 * 4 + byteZ a `mod` 4 * 16 / 16) = a.
Proof. rewrite <- (recompose_1 a x00) at 3. by rewrite Z.add_0_r. Qed.

Lemma recompose_2 a b c :
  Zbyte ((byteZ a `mod` 4 * 16 + byteZ b / 16) `mod` 16 * 16 + (byteZ b `mod` 16 * 4 + byteZ c / 64) / 4) = b.
Proof.
  pose proof (byteZ_range b). pose proof (byteZ_range c).
  rewrite (Z.add_comm (byteZ a `mod` 4 * 16)), Z.mod_add by lia.
  rewrite (Z.mod_small (byteZ b / 16)).
  2:{ split; [apply Z.div_pos; lia|]. apply Z.div_lt_upper_bound; lia. }
  rewrite Z.div_add_l by lia. rewrite (Z.div_small (byteZ c / 64)).
  - rewrite <- (Zbyte_byteZ b) at 3. f_equal. pose proof (Z.div_mod (byteZ b) 16). lia.
  - split; [apply Z.div_pos; lia|]. apply Z.div_lt_upper_bound; lia.
Qed.

Lemma recompose_2' a b :
  Zbyte ((byteZ a `mod` 4 * 16 + byteZ b / 16) `mod` 16 * 16 + byteZ b `mod` 16 * 4 / 4) = b.
Proof. rewrite <- (recompose_2 a b x00) at 3. by rewrite Z.add_0_r. Qed.

Lemma recompose_3 b c :
  Zbyte ((byteZ b `mod` 16 * 4 + byteZ c / 64) `mod` 4 * 64 + byteZ c `mod` 64) = c.
Proof.
  pose proof (byteZ_range c). rewrite (Z.add_comm (_ * 4)), Z.mod_add by lia.
  rewrite (Z.mod_small (byteZ c / 64)).
  - rewrite <- (Zbyte_byteZ c) at 3. f_equal. pose proof (Z.div_mod (byteZ c) 64). lia.
  - split; [apply Z.div_pos; lia|]. apply Z.div_lt_upper_bound; lia.
Qed.

Lemma decode_groups_encode buf : decode_groups (B64Encode buf) = Some buf.
Proof.
  induction buf as [|a|a b|a b c rest IH] using bytes3_ind; cbn [B64Encode decode_groups]; [done|..];
    pose proof (sextet_ranges a a); try pose proof (sextet_ranges a b); try pose proof (sextet_ranges b b);
    try pose proof (sextet_ranges b c); try pose proof (sextet_ranges c c);
    rewrite !dec6_enc6 by tauto; simpl.
  - by rewrite recompose_1'.
  - by rewrite recompose_1, recompose_2'.
  - rewrite IH. simpl. by rewrite recompose_1, recompose_2, recompose_3.
Qed.

Lemma B64Decode_B64Encode buf : B64Decode (B64Encode buf) = Some buf.
Proof.
  unfold B64Decode. rewrite remove_newlines_plain by apply enc_plain. apply decode_groups_encode.
Qed.

Lemma B64Encode_no_dot buf : Contains (B64Encode buf) "." = false.
Proof. apply plain_no_char; [done|apply enc_plain]. Qed.

Lemma B64Encode_nonempty buf : buf <> [] -> B64Encode buf <> "".
Proof. by destruct buf as [|a [|b [|c rest]]]. Qed.
