(* ===== verification/GoJson.v ===== *)
(** * Go's [encoding/json]: values, printer and parser

    Request bodies, the [attributes] column of the users table and the
    server's responses are JSON.  [json_print] is the compact form
    [json.Marshal] writes (HTML characters escaped), [json_parse] accepts the
    JSON grammar with white space.  Bytes above 127 are copied, which is exact
    for valid UTF-8 strings without U+2028/U+2029.  Parsing recurses on a
    fuel that [json_parse] sets to the input's length plus one; the round-trip
    theorem shows that it is enough. *)

From S2P Require Import Prelude GoStrings.

#[local] Arguments String.append !_ _ : simpl nomatch.

Inductive json : Type :=
  | JNull
  | JBool (b : bool)
  | JNum (literal : string)
  | JStr (s : string)
  | JArr (l : list json)
  | JObj (l : list (string * json)).

(** ** Printing *)

Definition quote : ascii := Ascii.ascii_of_nat 34.
Definition backslash : ascii := Ascii.ascii_of_nat 92.

Definition hex_digit (n : nat) : ascii :=
  if (n <? 10)%nat then Ascii.ascii_of_nat (48 + n) else Ascii.ascii_of_nat (87 + n).

(** One byte of a string literal, as [encodeState.string] writes it. *)
Definition json_char (c : ascii) : string :=
  let n := Ascii.nat_of_ascii c in
  if bool_decide (c = quote \/ c = backslash) then String backslash (String c "")
  else if (n =? 10)%nat then String backslash "n"
  else if (n =? 13)%nat then String backslash "r"
  else if (n =? 9)%nat then String backslash "t"
  else if (n <? 32)%nat || (n =? 60)%nat || (n =? 62)%nat || (n =? 38)%nat
  then String backslash ("u00" +:+ String (hex_digit (n / 16)) (String (hex_digit (n mod 16)) ""))
  else String c "".

Fixpoint json_chars (s : string) : string :=
  match s with
  | EmptyString => ""
  | String c s' => json_char c +:+ json_chars s'
  end.

Definition json_string (s : string) : string :=
  String quote (json_chars s +:+ String quote "").

Fixpoint json_print (v : json) : string :=
  match v with
  | JNull => "null"
  | JBool true => "true"
  | JBool false => "false"
  | JNum lit => lit
  | JStr s => json_string s
  | JArr l => "[" +:+ Join (map json_print l) "," +:+ "]"
  | JObj l =>
      "{" +:+ Join (map (fun kv => match kv with
                                  | (k, v) => json_string k +:+ ":" +:+ json_print v
                                  end) l) "," +:+ "}"
  end.

(** ** Parsing *)

Definition is_space (c : ascii) : bool :=
  let n := Ascii.nat_of_ascii c in
  (n =? 32)%nat || (n =? 9)%nat || (n =? 10)%nat || (n =? 13)%nat.

Fixpoint skip_space (s : string) : string :=
  match s with
  | String c s' => if is_space c then skip_space s' else s
  | EmptyString => ""
  end.

Definition hex_value (c : ascii) : option nat :=
  let n := Ascii.nat_of_ascii c in
  if (48 <=? n)%nat && (n <=? 57)%nat then Some (n - 48)
  else if (97 <=? n)%nat && (n <=? 102)%nat then Some (n - 87)
  else if (65 <=? n)%nat && (n <=? 70)%nat then Some (n - 55)
  else None.

Definition hex4 (a b c d : ascii) : option N :=
  w ← hex_value a; x ← hex_value b; y ← hex_value c; z ← hex_value d;
  Some (N.of_nat w * 4096 + N.of_nat x * 256 + N.of_nat y * 16 + N.of_nat z)%N.

Definition ascii_N (n : N) : ascii := Ascii.ascii_of_N n.

(** UTF-8 encoding of a code point. *)
Definition utf8 (n : N) : string :=
  if (n <? 128)%N then String (ascii_N n) ""
  else if (n <? 2048)%N
  then String (ascii_N (192 + n / 64)) (String (ascii_N (128 + n `mod` 64)) "")
  else if (n <? 65536)%N
  then String (ascii_N (224 + n / 4096))
         (String (ascii_N (128 + (n / 64) `mod` 64))
            (String (ascii_N (128 + n `mod` 64)) ""))
  else String (ascii_N (240 + n / 262144))
         (String (ascii_N (128 + (n / 4096) `mod` 64))
            (String (ascii_N (128 + (n / 64) `mod` 64))
               (String (ascii_N (128 + n `mod` 64)) ""))).

Definition is_surrogate (n : N) : bool := (55296 <=? n)%N && (n <=? 57343)%N.

(** [utf16.DecodeRune] on a high and a low half. *)
Definition decode_pair (hi lo : N) : option N :=
  if (55296 <=? hi)%N && (hi <? 56320)%N && (56320 <=? lo)%N && (lo <? 57344)%N
  then Some (65536 + (hi - 55296) * 1024 + (lo - 56320))%N else None.

Fixpoint parse_chars (s : string) : option (string * string) :=
  match s with
  | EmptyString => None
  | String c s1 =>
      if bool_decide (c = quote) then Some ("", s1)
      else if bool_decide (c = backslash) then
        match s1 with
        | EmptyString => None
        | String e s2 =>
            let simple (n : nat) :=
              '(t, rest) ← parse_chars s2; Some (String (Ascii.ascii_of_nat n) t, rest) in
            if bool_decide (e = quote) then simple 34
            else if bool_decide (e = backslash) then simple 92
            else if bool_decide (e = "/"%char) then simple 47
            else if bool_decide (e = "b"%char) then simple 8
            else if bool_decide (e = "f"%char) then simple 12
            else if bool_decide (e = "n"%char) then simple 10
            else if bool_decide (e = "r"%char) then simple 13
            else if bool_decide (e = "t"%char) then simple 9
            else if bool_decide (e = "u"%char) then
              match s2 with
              | String h1 (String h2 (String h3 (String h4 s3))) =>
                  n ← hex4 h1 h2 h3 h4;
                  let lone (r : N) :=
                    '(t, rest) ← parse_chars s3; Some (utf8 r +:+ t, rest) in
                  if is_surrogate n then
                    match s3 with
                    | String b1 (String u1 (String h5 (String h6 (String h7 (String h8 s4))))) =>
                        if bool_decide (b1 = backslash /\ u1 = "u"%char) then
                          match hex4 h5 h6 h7 h8 ≫= decode_pair n with
                          | Some r => '(t, rest) ← parse_chars s4; Some (utf8 r +:+ t, rest)
                          | None => lone 65533%N
                          end
                        else lone 65533%N
                    | _ => lone 65533%N
                    end
                  else lone n
              | _ => None
              end
            else None
        end
      else if (Ascii.nat_of_ascii c <? 32)%nat then None
      else '(t, rest) ← parse_chars s1; Some (String c t, rest)
  end.

Definition num_char (c : ascii) : bool :=
  let n := Ascii.nat_of_ascii c in
  ((48 <=? n)%nat && (n <=? 57)%nat) || (n =? 43)%nat || (n =? 45)%nat || (n =? 46)%nat
  || (n =? 101)%nat || (n =? 69)%nat.

Fixpoint span_num (s : string) : string * string :=
  match s with
  | String c s' =>
      if num_char c then let '(l, r) := span_num s' in (String c l, r) else ("", s)
  | EmptyString => ("", "")
  end.

Definition is_digit (c : ascii) : bool :=
  let n := Ascii.nat_of_ascii c in (48 <=? n)%nat && (n <=? 57)%nat.

Fixpoint skip_digits (s : string) : string :=
  match s with
  | String c s' => if is_digit c then skip_digits s' else s
  | EmptyString => ""
  end.

(** At least one digit, then the rest. *)
Definition digits1 (s : string) : option string :=
  match s with
  | String c s' => if is_digit c then Some (skip_digits s') else None
  | EmptyString => None
  end.

(** The exponent part, up to the end of the literal. *)
Definition valid_exp (s : string) : bool :=
  match s with
  | EmptyString => true
  | String c s' =>
      if bool_decide (c = "e"%char \/ c = "E"%char) then
        let s'' := match s' with
                   | String d t => if bool_decide (d = "+"%char \/ d = "-"%char) then t else s'
                   | EmptyString => s'
                   end in
        bool_decide (digits1 s'' = Some "")
      else false
  end.

Definition valid_frac (s : string) : bool :=
  match s with
  | String "." s' => match digits1 s' with Some t => valid_exp t | None => false end
  | _ => valid_exp s
  end.

(** The JSON number grammar. *)
Definition valid_number (s : string) : bool :=
  let s := match s with String "-" s' => s' | _ => s end in
  match s with
  | String "0" s' => valid_frac s'
  | _ => match digits1 s with Some t => valid_frac t | None => false end
  end.

Fixpoint strip_prefix (p s : string) : option string :=
  match p, s with
  | EmptyString, _ => Some s
  | String c p', String d s' => if bool_decide (c = d) then strip_prefix p' s' else None
  | _, EmptyString => None
  end.

Definition parse_literal (lit : string) (v : json) (s : string) : option (json * string) :=
  r ← strip_prefix lit s; Some (v, r).

(** Consume one given byte after optional white space. *)
Definition expect (c : ascii) (s : string) : option string :=
  match skip_space s with
  | String d r => if bool_decide (d = c) then Some r else None
  | EmptyString => None
  end.

Fixpoint parse_value (fuel : nat) (s : string) : option (json * string) :=
  match fuel with
  | O => None
  | S fuel =>
      match skip_space s with
      | EmptyString => None
      | String c s1 =>
          if bool_decide (c = quote) then '(t, r) ← parse_chars s1; Some (JStr t, r)
          else if bool_decide (c = "["%char) then
            match expect "]" s1 with
            | Some r => Some (JArr [], r)
            | None => '(l, r) ← parse_elems fuel s1; Some (JArr l, r)
            end
          else if bool_decide (c = "{"%char) then
            match expect "}" s1 with
            | Some r => Some (JObj [], r)
            | None => '(l, r) ← parse_members fuel s1; Some (JObj l, r)
            end
          else if bool_decide (c = "n"%char) then parse_literal "null" JNull (String c s1)
          else if bool_decide (c = "t"%char) then parse_literal "true" (JBool true) (String c s1)
          else if bool_decide (c = "f"%char) then parse_literal "false" (JBool false) (String c s1)
          else let '(lit, r) := span_num (String c s1) in
               if valid_number lit then Some (JNum lit, r) else None
      end
  end
with parse_elems (fuel : nat) (s : string) : option (list json * string) :=
  match fuel with
  | O => None
  | S fuel =>
      '(v, s1) ← parse_value fuel s;
      match expect "," s1 with
      | Some s2 => '(l, r) ← parse_elems fuel s2; Some (v :: l, r)
      | None => r ← expect "]" s1; Some ([v], r)
      end
  end
with parse_members (fuel : nat) (s : string) : option (list (string * json) * string) :=
  match fuel with
  | O => None
  | S fuel =>
      s1 ← expect quote s;
      '(k, s2) ← parse_chars s1;
      s3 ← expect ":" s2;
      '(v, s4) ← parse_value fuel s3;
      match expect "," s4 with
      | Some s5 => '(l, r) ← parse_members fuel s5; Some ((k, v) :: l, r)
      | None => r ← expect "}" s4; Some ([(k, v)], r)
      end
  end.

(** [json.Unmarshal]'s first pass: one value and nothing after it. *)
Definition json_parse (s : string) : option json :=
  '(v, r) ← parse_value (S (String.length s)) s;
  if bool_decide (skip_space r = "") then Some v else None.

(** ** The round trip *)

Lemma parse_json_char c t :
  parse_chars (json_char c +:+ t) = ('(u, r) ← parse_chars t; Some (String c u, r)).
Proof. destruct c as [[] [] [] [] [] [] [] []]; reflexivity. Qed.

Lemma parse_json_chars s rest :
  parse_chars (json_chars s +:+ String quote rest) = Some (s, rest).
Proof.
  induction s as [|c s IH]; [reflexivity|].
  cbn [json_chars]. by rewrite <- app_assoc_str, parse_json_char, IH.
Qed.

(** [delim s]: a number literal cannot continue into [s]. *)
Definition delim (s : string) : bool :=
  match s with String c _ => negb (num_char c) | EmptyString => true end.

Fixpoint all_num (s : string) : bool :=
  match s with String c s' => num_char c && all_num s' | EmptyString => true end.

Lemma span_num_app lit rest :
  all_num lit = true -> delim rest = true -> span_num (lit +:+ rest) = (lit, rest).
Proof.
  induction lit as [|c lit IH]; simpl.
  - destruct rest as [|c rest]; simpl; [done|]. by intros _ ->%negb_true_iff.
  - intros [-> H]%andb_true_iff Hd. by rewrite IH.
Qed.

(** Well-formed values: number literals obey the grammar. *)
Fixpoint json_wf (v : json) : bool :=
  match v with
  | JNum lit => valid_number lit && all_num lit
  | JArr l => forallb json_wf l
  | JObj l => forallb (fun kv => match kv with (_, v) => json_wf v end) l
  | _ => true
  end.

(** The fuel a value needs. *)
Fixpoint json_size (v : json) : nat :=
  match v with
  | JArr l => S (foldr (fun v n => S (json_size v + n)) 0 l)
  | JObj l => S (foldr (fun kv n => match kv with (_, v) => S (json_size v + n) end) 0 l)
  | _ => 1
  end%nat.

(** First bytes a printed value can have: never white space or a closer. *)
Definition head_ok (c : ascii) : bool :=
  negb (is_space c) && negb (bool_decide (c = "]"%char)) && negb (bool_decide (c = "}"%char)).

Lemma num_char_head c : num_char c = true -> head_ok c = true.
Proof. by destruct c as [[] [] [] [] [] [] [] []]. Qed.

Lemma json_print_head v :
  json_wf v = true -> exists c t, json_print v = String c t /\ head_ok c = true.
Proof.
  destruct v as [|[]|lit|s|l|l]; simpl; intros H; try (by do 2 eexists).
  apply andb_true_iff in H as [H1 H2]. destruct lit as [|c lit]; [done|].
  simpl in H2. apply andb_true_iff in H2 as [H2 _]. eauto using num_char_head.
Qed.

Lemma head_ok_spec c :
  head_ok c = true -> is_space c = false /\ c <> "]"%char /\ c <> "}"%char.
Proof.
  unfold head_ok. rewrite !andb_true_iff, !negb_true_iff, !bool_decide_eq_false. tauto.
Qed.

Lemma skip_space_head c t : head_ok c = true -> skip_space (String c t) = String c t.
Proof. intros (H & _)%head_ok_spec. simpl. by rewrite H. Qed.

Lemma expect_head c d t : head_ok c = true -> c <> d -> expect d (String c t) = None.
Proof.
  intros H Hne. unfold expect. rewrite skip_space_head by done. by rewrite bool_decide_false.
Qed.

Lemma parse_number_value fuel lit rest :
  valid_number lit = true -> all_num lit = true -> delim rest = true ->
  parse_value (S fuel) (lit +:+ rest) = Some (JNum lit, rest).
Proof.
  intros Hv Ha Hd. destruct lit as [|c lit]; [done|].
  pose proof (span_num_app (String c lit) rest Ha Hd) as Hs.
  simpl in Ha. apply andb_true_iff in Ha as [Hc _].
  pose proof (num_char_head c Hc) as Hh.
  cbn [parse_value]. change (String c lit +:+ rest) with (String c (lit +:+ rest)) in *.
  rewrite skip_space_head, Hs, Hv by done.
  clear -Hc. by destruct c as [[] [] [] [] [] [] [] []].
Qed.

Definition parses (v : json) : Prop := forall fuel rest,
  (json_size v <= fuel)%nat -> delim rest = true ->
  parse_value fuel (json_print v +:+ rest) = Some (v, rest).

Lemma parse_elems_print v l fuel rest :
  parses v -> Forall parses l ->
  (foldr (fun v n => S (json_size v + n)) 0 (v :: l) <= fuel)%nat ->
  parse_elems fuel (Join (map json_print (v :: l)) "," +:+ String "]" rest) = Some (v :: l, rest).
Proof.
  revert v fuel. induction l as [|w l IH]; intros v fuel Hv Hl Hf; simpl in Hf;
    (destruct fuel as [|fuel]; [lia|]).
  - cbn [map Join parse_elems]. by rewrite Hv by (done || lia).
  - apply Forall_cons in Hl as [Hw Hl]. cbn [parse_elems].
    change (Join (map json_print (v :: w :: l)) ",") with
      (json_print v +:+ String "," (Join (map json_print (w :: l)) ",")).
    rewrite <- app_assoc_str. rewrite Hv by (done || lia).
    cbv beta iota delta [mbind option_bind].
    change (expect "," (String "," ?x +:+ ?y)) with (Some (x +:+ y)).
    cbv beta iota. by rewrite IH by (done || simpl; lia).
Qed.

Definition print_member (kv : string * json) : string :=
  match kv with (k, v) => json_string k +:+ ":" +:+ json_print v end.

Lemma parse_members_print k v l fuel rest :
  parses v -> Forall (fun kv => parses kv.2) l ->
  (foldr (fun kv n => match kv with (_, v) => S (json_size v + n) end) 0 ((k, v) :: l) <= fuel)%nat ->
  parse_members fuel (Join (map print_member ((k, v) :: l)) "," +:+ String "}" rest) =
    Some ((k, v) :: l, rest).
Proof.
  assert (forall k v s f, parse_members (S f) (print_member (k, v) +:+ s) =
    '(v, s4) ← parse_value f (json_print v +:+ s);
    match expect "," s4 with
    | Some s5 => '(l, r) ← parse_members f s5; Some ((k, v) :: l, r)
    | None => r ← expect "}" s4; Some ([(k, v)], r)
    end) as Hstep.
  { intros k' v' s f. cbn [parse_members]. unfold print_member, json_string.
    change (expect quote (String quote ?x +:+ ?y +:+ s)) with (Some (x +:+ y +:+ s)). simpl.
    rewrite <- !app_assoc_str. simpl. rewrite parse_json_chars. simpl.
    by change (expect ":" (String ":" ?x)) with (Some x). }
  revert k v fuel. induction l as [|[k' w] l IH]; intros k v fuel Hv Hl Hf; simpl in Hf;
    (destruct fuel as [|fuel]; [lia|]).
  - cbn [map Join]. rewrite Hstep. by rewrite Hv by (done || lia).
  - apply Forall_cons in Hl as [Hw Hl].
    change (Join (map print_member ((k, v) :: (k', w) :: l)) ",") with
      (print_member (k, v) +:+ String "," (Join (map print_member ((k', w) :: l)) ",")).
    rewrite <- app_assoc_str, Hstep. rewrite Hv by (done || lia).
    cbv beta iota delta [mbind option_bind].
    change (expect "," (String "," ?x +:+ ?y)) with (Some (x +:+ y)).
    cbv beta iota. by rewrite IH by (done || simpl; lia).
Qed.

Lemma parses_arr v l :
  json_wf v = true -> parses v -> Forall parses l -> parses (JArr (v :: l)).
Proof.
  intros Hwf Hv Hl fuel rest Hf Hd. destruct fuel as [|fuel]; [simpl in Hf; lia|].
  destruct (json_print_head v) as (c & t & Hc & Hok); [done|].
  cbn [json_print parse_value].
  change (skip_space (("[" +:+ ?x) +:+ rest)) with (String "[" (x +:+ rest)).
  cbv iota. rewrite bool_decide_false, bool_decide_true by done.
  rewrite <- app_assoc_str.
  assert (exists t', Join (map json_print (v :: l)) "," = String c t') as [t' Ht'].
  { cbn [map Join]. rewrite Hc. destruct (map json_print l); eexists; reflexivity. }
  rewrite Ht' at 1.
  change (String c t' +:+ ?x) with (String c (t' +:+ x)).
  rewrite expect_head by (done || apply head_ok_spec; done).
  change ("]" +:+ rest) with (String "]" rest).
  rewrite parse_elems_print; [done..|]. cbn [json_size] in Hf. lia.
Qed.

Lemma parses_obj k v l :
  parses v -> Forall (fun kv => parses kv.2) l -> parses (JObj ((k, v) :: l)).
Proof.
  intros Hv Hl fuel rest Hf Hd. destruct fuel as [|fuel]; [simpl in Hf; lia|].
  cbn [json_print parse_value]. fold print_member.
  change (skip_space (("{" +:+ ?x) +:+ rest)) with (String "{" (x +:+ rest)).
  cbv iota. rewrite !bool_decide_false, bool_decide_true by done.
  rewrite <- app_assoc_str.
  assert (exists t', Join (map print_member ((k, v) :: l)) "," = String quote t') as [t' Ht'].
  { cbn [map Join print_member]. unfold json_string.
    destruct (map print_member l); eexists; reflexivity. }
  rewrite Ht' at 1.
  change (String quote t' +:+ ?x) with (String quote (t' +:+ x)).
  rewrite expect_head by done.
  change ("}" +:+ rest) with (String "}" rest).
  rewrite parse_members_print; [done..|]. cbn [json_size] in Hf. lia.
Qed.

Lemma json_size_elem v l : v ∈ l -> (json_size v < json_size (JArr l))%nat.
Proof.
  cbn [json_size]. induction l as [|w l IH]; [by intros ?%not_elem_of_nil|].
  intros [->|H]%elem_of_cons; simpl; [lia|]. specialize (IH H). lia.
Qed.

Lemma json_size_member k v l : (k, v) ∈ l -> (json_size v < json_size (JObj l))%nat.
Proof.
  cbn [json_size]. induction l as [|[k' w] l IH]; [by intros ?%not_elem_of_nil|].
  intros [[= -> ->]|H]%elem_of_cons; simpl; [lia|]. specialize (IH H). lia.
Qed.

Lemma parse_value_print v : json_wf v = true -> parses v.
Proof.
  induction (well_founded_ltof _ json_size v) as [v _ IH]. unfold ltof in IH. intros Hwf.
  destruct v as [|[]|lit|s|l|l];
    try (intros [|fuel] rest Hf Hd; [simpl in Hf; lia|reflexivity]).
  - intros [|fuel] rest Hf Hd; simpl in Hf; [lia|].
    simpl in Hwf. apply andb_true_iff in Hwf as [H1 H2]. by apply parse_number_value.
  - intros [|fuel] rest Hf Hd; simpl in Hf; [lia|].
    simpl. unfold json_string. simpl. by rewrite <- app_assoc_str; simpl; rewrite parse_json_chars.
  - simpl in Hwf. rewrite forallb_forall in Hwf.
    assert (Forall parses l) as Hl.
    { apply Forall_forall. intros v Hv. apply IH; [by apply json_size_elem|].
      by apply Hwf, list_elem_of_In. }
    destruct l as [|v l]; [intros [|fuel] rest Hf Hd; [simpl in Hf; lia|reflexivity]|].
    apply Forall_cons in Hl as [Hv Hl]. apply parses_arr; auto. apply Hwf. by left.
  - simpl in Hwf. rewrite forallb_forall in Hwf.
    assert (Forall (fun kv : string * json => parses kv.2) l) as Hl.
    { apply Forall_forall. intros [k v] Hv. apply IH; [by eapply json_size_member|].
      apply (Hwf (k, v)), list_elem_of_In, Hv. }
    destruct l as [|[k v] l]; [intros [|fuel] rest Hf Hd; [simpl in Hf; lia|reflexivity]|].
    apply Forall_cons in Hl as [Hv Hl]. by apply parses_obj.
Qed.

(** The printed form is at least as long as the fuel the value needs. *)
Lemma json_size_length v : json_wf v = true -> (json_size v <= String.length (json_print v))%nat.
Proof.
  induction (well_founded_ltof _ json_size v) as [v _ IH]. unfold ltof in IH. intros Hwf.
  destruct v as [|[]|lit|s|l|l]; try (simpl; lia).
  - destruct lit; [done|simpl; lia].
  - cbn [json_wf] in Hwf. rewrite forallb_forall in Hwf.
    assert (forall w, w ∈ l -> (json_size w <= String.length (json_print w))%nat) as Hl.
    { intros w Hw. apply IH; [by apply json_size_elem|]. by apply Hwf, list_elem_of_In. }
    cbn [json_size json_print]. rewrite !length_app_str. simpl. clear -Hl.
    destruct l as [|v l]; [simpl; lia|]. revert v Hl.
    induction l as [|w l IHl]; intros v Hl.
    { specialize (Hl v ltac:(set_solver)). simpl. lia. }
    change (Join (map json_print (v :: w :: l)) ",") with
      (json_print v +:+ "," +:+ Join (map json_print (w :: l)) ",").
    rewrite !length_app_str. specialize (IHl w ltac:(set_solver)).
    specialize (Hl v ltac:(set_solver)). simpl in *. lia.
  - cbn [json_wf] in Hwf. rewrite forallb_forall in Hwf.
    assert (forall k w, (k, w) ∈ l -> (json_size w <= String.length (json_print w))%nat) as Hl.
    { intros k w Hw. apply IH; [by eapply json_size_member|].
      by apply (Hwf (k, w)), list_elem_of_In. }
    cbn [json_size json_print]. fold print_member. rewrite !length_app_str. simpl. clear -Hl.
    destruct l as [|[k v] l]; [simpl; lia|]. revert k v Hl.
    induction l as [|[k' w] l IHl]; intros k v Hl.
    { simpl. rewrite length_app_str. specialize (Hl k v ltac:(set_solver)). simpl. lia. }
    change (Join (map print_member ((k, v) :: (k', w) :: l)) ",") with
      ((json_string k +:+ ":" +:+ json_print v) +:+ "," +:+
       Join (map print_member ((k', w) :: l)) ",").
    rewrite !length_app_str. specialize (IHl k' w ltac:(set_solver)).
    specialize (Hl k v ltac:(set_solver)). simpl in *. lia.
Qed.

(** Printing then parsing gives the value back. *)
Lemma json_parse_print v : json_wf v = true -> json_parse (json_print v) = Some v.
Proof.
  intros Hwf. unfold json_parse. pose proof (json_size_length v Hwf).
  rewrite <- (app_nil_r_str (json_print v)) at 2.
  rewrite (parse_value_print v Hwf) by (done || lia). done.
Qed.

(** ** Decimal numbers are JSON numbers *)

Fixpoint all_digit (s : string) : bool :=
  match s with EmptyString => true | String c s' => is_digit c && all_digit s' end.

Lemma all_digit_app s t : all_digit (s +:+ t) = all_digit s && all_digit t.
Proof. induction s as [|c s IH]; simpl; [done|]. by rewrite IH, andb_assoc. Qed.

(** The digits of a positive number: the first is not zero. *)
Lemma pretty_N_go_head n s : (0 < n)%N ->
  exists d t, pretty_N_go n s = String d (t +:+ s) /\ is_digit d = true /\ d <> "0"%char /\ all_digit t = true.
Proof.
  revert s. induction (N.lt_wf_0 n) as [n _ IH]; intros s Hn. rewrite pretty_N_go_step by lia.
  destruct (decide (n < 10)%N) as [Hlt|Hge].
  - rewrite N.div_small, N.mod_small by lia. exists (pretty_N_char n), "".
    destruct (pretty_N_char_digit n Hlt) as [H1 H2]. split; [done|]. split; [exact H1|]. split; [|done].
    intros E. rewrite E in H2. change (digit_value "0"%char) with 0%Z in H2. lia.
  - assert (0 < n `div` 10)%N as Hpos.
    { apply N.neq_0_lt_0. intros E%N.div_small_iff; lia. }
    destruct (IH (n `div` 10)%N (N.div_lt n 10 ltac:(lia) ltac:(lia))
      (String (pretty_N_char (n `mod` 10)) s) Hpos) as (d & t & E & Hd & Hz & Ht).
    exists d, (t +:+ String (pretty_N_char (n `mod` 10)) ""). rewrite E. split; [by rewrite <- app_assoc_str|].
    split; [done|]. split; [done|]. rewrite all_digit_app, Ht. simpl.
    destruct (pretty_N_char_digit (n `mod` 10)) as [H1 _]; [apply N.mod_lt; lia|]. rewrite andb_true_r. exact H1.
Qed.

Lemma skip_all_digit s : all_digit s = true -> skip_digits s = "".
Proof. induction s as [|c s IH]; simpl; [done|]. by intros [-> Hs]%andb_prop; apply IH. Qed.

Lemma digit_num c : is_digit c = true -> num_char c = true.
Proof. unfold is_digit, num_char. by intros ->. Qed.

Lemma all_digit_num s : all_digit s = true -> all_num s = true.
Proof.
  induction s as [|c s IH]; simpl; [done|]. intros [Hc Hs]%andb_prop. by rewrite (digit_num c Hc), IH.
Qed.

Lemma number_of_digits d t : is_digit d = true -> d <> "0"%char -> all_digit t = true ->
  valid_number (String d t) = true /\ valid_number (String "-" (String d t)) = true.
Proof.
  intros Hd Hz Ht.
  assert (match digits1 (String d t) with Some t => valid_frac t | None => false end = true) as H.
  { simpl. by rewrite Hd, skip_all_digit. }
  destruct d as [[] [] [] [] [] [] [] []]; try discriminate Hd; try (by exfalso; apply Hz); split; exact H.
Qed.

Lemma Itoa_wf z : json_wf (JNum (Itoa z)) = true.
Proof.
  destruct (Itoa_cases z) as [->|[[Hz ->]|[Hz ->]]]; [done| |].
  - destruct (pretty_N_go_head (Z.to_N z) "") as (d & t & E & Hd & H0 & Ht); [lia|].
    rewrite app_nil_r_str in E. rewrite E. cbn [json_wf]. rewrite (proj1 (number_of_digits d t Hd H0 Ht)).
    simpl. by rewrite (digit_num d Hd), all_digit_num.
  - destruct (pretty_N_go_head (Z.to_N (- z)) "") as (d & t & E & Hd & H0 & Ht); [lia|].
    rewrite app_nil_r_str in E. rewrite E. cbn [json_wf]. rewrite (proj2 (number_of_digits d t Hd H0 Ht)).
    simpl. by rewrite (digit_num d Hd), all_digit_num.
Qed.
