(* ===== verification/GoFloat.v ===== *)
(** * JSON numbers as doubles (encoding/json, strconv)

    What [json.Unmarshal] makes of a number it stores in an [interface{}], a
    [float64], and how [json.Marshal] writes it.  A number is the double
    nearest to it, with the arithmetic of the Standard Library's [SpecFloat];
    one that is too large is an error.  A double is written with the fewest
    digits that read back as it, in the [%g] layout of Go 1.6 and 1.7, which
    the program is written for; later versions lay large and small numbers out
    differently, on which no theorem depends. *)

From Stdlib Require Import SpecFloat.
From S2P Require Import Prelude GoStrings GoFmt GoJson.

(** ** Reading *)

Notation float64 := spec_float.

(** The value of the digits at the head of a string, after [acc], how many
    they are, and the rest. *)
Fixpoint take_digits (acc : Z) (n : Z) (s : string) : Z * Z * string :=
  match s with
  | String c s' => if digit_char c then take_digits (10 * acc + digit_value c) (n + 1) s' else (acc, n, s)
  | EmptyString => (acc, n, "")
  end.

(** A literal as a sign, an integer and a power of ten. *)
Definition decimal_of (lit : string) : bool * Z * Z :=
  let '(neg, s) := match lit with String "-" t => (true, t) | _ => (false, lit) end in
  let '(m, _, s) := take_digits 0 0 s in
  let '(m, k, s) := match s with String "." t => take_digits m 0 t | _ => (m, 0%Z, s) end in
  let e := match s with
           | String "e" t | String "E" t =>
               match t with
               | String "-" u => (- (take_digits 0 0 u).1.1)%Z
               | String "+" u => (take_digits 0 0 u).1.1
               | _ => (take_digits 0 0 t).1.1
               end
           | _ => 0%Z
           end in
  (neg, m, (e - k)%Z).

(** The double nearest to [m * 10 ^ e]: the mantissas of the quotient are not
    bounded, so it is rounded once. *)
Definition nearest (neg : bool) (m e : Z) : float64 :=
  match m with
  | Zpos m => if (0 <=? e)%Z
              then binary_normalize 53 1024 ((if neg : bool then -1 else 1) * Zpos m * 10 ^ e) 0 neg
              else SFdiv 53 1024 (S754_finite neg m 0) (S754_finite false (Z.to_pos (10 ^ (- e))) 0)
  | _ => S754_zero neg
  end%Z.

(** [convertNumber]: a number whose nearest double is not finite is an error. *)
Definition convertNumber (lit : string) : option float64 :=
  if json_wf (JNum lit) then
    let '(neg, m, e) := decimal_of lit in
    match nearest neg m e with
    | S754_infinity _ | S754_nan => None
    | f => Some f
    end
  else None.

Example convertNumber_tenth : convertNumber "0.1" = Some (S754_finite false 7205759403792794 (-56)).
Proof. reflexivity. Qed.

Example convertNumber_range : convertNumber "1e999" = None /\ is_Some (convertNumber "-1.7976931348623157e308").
Proof. vm_compute. split; [done|by eexists]. Qed.

(** [int64(f)]: towards zero; a value out of range gives the least integer, as
    on amd64. *)
Definition int64_of_float (f : float64) : Z :=
  let z := match f with
           | S754_finite s m e => (if s : bool then -1 else 1) * (if 0 <=? e then Zpos m * 2 ^ e else Zpos m / 2 ^ (- e))
           | S754_zero _ => 0
           | _ => 2 ^ 63
           end%Z in
  if ((- 2 ^ 63 <=? z) && (z <? 2 ^ 63))%Z then z else (- 2 ^ 63)%Z.

(** ** Writing *)

(** The digits of a decimal: [0.d1 ... dn * 10 ^ dp], without trailing zeros. *)
Record decimal := mkDecimal { dec_digits : string; dec_dp : Z }.

Fixpoint trim_zeros (fuel : nat) (d : Z) : Z :=
  match fuel with
  | O => d
  | S fuel => if ((0 <? d) && (d mod 10 =? 0))%Z then trim_zeros fuel (d / 10) else d
  end.

(** The decimal [d * 10 ^ x]; [d] has at most 18 digits. *)
Definition decimal_at (d x : Z) : decimal :=
  mkDecimal (Itoa (trim_zeros 18 d)) (Z.of_nat (String.length (Itoa d)) + x).

(** The position of the decimal point of [num / den]. *)
Definition point (num den : Z) : Z :=
  if (den <=? num)%Z then Z.of_nat (String.length (Itoa (num / den)))
  else (1 - Z.of_nat (String.length (Itoa ((den - 1) / num))))%Z.

Definition two_digits (z : Z) : string := if (z <? 10)%Z then "0" +:+ Itoa z else Itoa z.

Fixpoint zeros (n : nat) : string := match n with O => "" | S n => String "0" (zeros n) end.

(** [strconv.AppendFloat(f, 'g', -1, 64)]: an exponent below -4 or above 5 is
    written. *)
Definition fmt_g (d : decimal) : string :=
  let ds := dec_digits d in
  let dp := dec_dp d in
  let nd := Z.of_nat (String.length ds) in
  let exp := (dp - 1)%Z in
  if ((exp <? -4) || (6 <=? exp))%Z then
    (match ds with
     | String c "" => String c ""
     | String c rest => String c ("." +:+ rest)
     | "" => "0"
     end) +:+ (if (exp <? 0)%Z then "e-" else "e+") +:+ two_digits (Z.abs exp)
  else if (dp <=? 0)%Z then "0." +:+ zeros (Z.to_nat (- dp)) +:+ ds
  else if (nd <=? dp)%Z then ds +:+ zeros (Z.to_nat (dp - nd))
  else String.substring 0 (Z.to_nat dp) ds +:+ "." +:+ String.substring (Z.to_nat dp) (String.length ds) ds.

Definition reads (f : float64) (text : string) : bool :=
  match convertNumber text with Some g => SFeqb g f | None => false end.

(** The text of [n] digits for the double [f], whose absolute value is
    [num / den]: of the two decimals around it that read back as [f], the
    closer one, and the even one of two as close. *)
Definition digits_of (f : float64) (neg : bool) (num den : Z) (n : nat) : option string :=
  let x := (point num den - Z.of_nat n)%Z in
  let '(p, q) := if (0 <=? x)%Z then (num, den * 10 ^ x)%Z else (num * 10 ^ (- x), den)%Z in
  let lo := (p / q)%Z in
  let r := (p mod q)%Z in
  let text d := (if neg then "-" else "") +:+ fmt_g (decimal_at d x) in
  let up := if (2 * r =? q)%Z then Z.odd lo else (q <? 2 * r)%Z in
  match reads f (text lo), negb (r =? 0)%Z && reads f (text (lo + 1)%Z) with
  | true, true => Some (text (if up then lo + 1 else lo)%Z)
  | true, false => Some (text lo)
  | false, true => Some (text (lo + 1)%Z)
  | false, false => None
  end.

(** The fewest digits that read back, from [n] on.  For a double 17 digits are
    always enough, so the search does not run out. *)
Fixpoint shortest (f : float64) (neg : bool) (num den : Z) (k n : nat) : string :=
  match k with
  | O => "0"
  | S k => match digits_of f neg num den n with
           | Some text => text
           | None => shortest f neg num den k (S n)
           end
  end.

(** A double that is not finite cannot be marshalled, and is never read. *)
Definition FormatFloat (f : float64) : string :=
  match f with
  | S754_zero s => if s : bool then "-0" else "0"
  | S754_finite s m e =>
      if (0 <=? e)%Z then shortest f s (Zpos m * 2 ^ e) 1 17 1 else shortest f s (Zpos m) (2 ^ (- e)) 17 1
  | _ => "null"
  end.

(** What a double is written as, read and written again. *)
Definition reformat (lit : string) : option string := FormatFloat <$> convertNumber lit.

Example FormatFloat_samples :
  map reformat ["0.1"; "100"; "1000000"; "1234567"; "123456.5"; "0.0001"; "0.00001"; "5e-324"; "-2.50"; "-0";
                "9007199254740993"; "1.7976931348623157e308"; "2.2250738585072014e-308"; "0.3"; "12e-1"]
  = map Some ["0.1"; "100"; "1e+06"; "1.234567e+06"; "123456.5"; "0.0001"; "1e-05"; "5e-324"; "-2.5"; "-0";
              "9.007199254740992e+15"; "1.7976931348623157e+308"; "2.2250738585072014e-308"; "0.3"; "1.2"].
Proof. vm_compute. reflexivity. Qed.

(** What is written for a finite double is a number in range. *)
Definition finite (f : float64) : bool :=
  match f with S754_zero _ | S754_finite _ _ _ => true | _ => false end.

Lemma convertNumber_finite lit f : convertNumber lit = Some f -> finite f = true.
Proof.
  unfold convertNumber. destruct (json_wf _); [|done]. destruct (decimal_of lit) as [[neg m] e].
  by destruct (nearest neg m e); intros [= <-].
Qed.

Lemma convertNumber_wf lit f : convertNumber lit = Some f -> json_wf (JNum lit) = true.
Proof. unfold convertNumber. by destruct (json_wf _). Qed.

Lemma reads_number f text : reads f text = true -> is_Some (convertNumber text).
Proof. unfold reads. by destruct (convertNumber text). Qed.

Lemma digits_of_reads f neg num den n text : digits_of f neg num den n = Some text -> is_Some (convertNumber text).
Proof.
  unfold digits_of. intros H. destruct (if (0 <=? _)%Z then _ else _) as [p q]. cbv zeta in H.
  apply (reads_number f).
  destruct (reads f _) eqn:E1, (negb _ && reads f _) eqn:E2; try (apply andb_prop in E2 as [_ E2]); simplify_eq;
    try assumption.
  by destruct (if (2 * _ =? _)%Z then _ else _).
Qed.

Lemma FormatFloat_reads f : finite f = true -> is_Some (convertNumber (FormatFloat f)).
Proof.
  assert (H : forall neg num den k n, is_Some (convertNumber (shortest f neg num den k n))).
  { intros neg num den k. induction k as [|k IH]; intros n; [by vm_compute; eexists|]. cbn [shortest].
    destruct (digits_of f neg num den n) eqn:E; [by eapply digits_of_reads|apply IH]. }
  destruct f as [[]| | |s m e]; try done; intros _; [by vm_compute; eexists..|].
  cbn [FormatFloat]. destruct (0 <=? e)%Z; apply H.
Qed.

(** ** Integers are exact *)

Lemma digits2_lower m : (2 ^ (Zpos (digits2_pos m) - 1) <= Zpos m)%Z.
Proof.
  induction m as [m IH|m IH|]; cbn [digits2_pos]; [| |done]; rewrite Pos2Z.inj_succ.
  all: replace (Z.succ (Zpos (digits2_pos m)) - 1)%Z with (Z.succ (Zpos (digits2_pos m) - 1)) by lia.
  all: rewrite Z.pow_succ_r by lia; lia.
Qed.

Lemma digits2_shift m d : digits2_pos (Pos.iter xO m d) = (digits2_pos m + d)%positive.
Proof.
  induction d as [|d IH] using Pos.peano_ind; [simpl; lia|]. rewrite Pos.iter_succ. cbn [digits2_pos]. rewrite IH. lia.
Qed.

Lemma shift_value m d : Zpos (Pos.iter xO m d) = (Zpos m * 2 ^ Zpos d)%Z.
Proof.
  induction d as [|d IH] using Pos.peano_ind; [simpl; lia|].
  rewrite Pos.iter_succ, Pos2Z.inj_succ, Z.pow_succ_r by lia. rewrite Pos2Z.inj_xO, IH. lia.
Qed.

(** Rounding a mantissa of 53 digits, with an exponent in range, changes
    nothing. *)
Lemma round_53 m e : Zpos (digits2_pos m) = 53%Z -> (-1074 <= e <= 971)%Z ->
  binary_round_aux 53 1024 false (Zpos m) e loc_Exact = S754_finite false m e.
Proof.
  intros Hd He. unfold binary_round_aux.
  assert (Hs : shr_fexp 53 1024 (Zpos m) e loc_Exact = (Build_shr_record (Zpos m) false false, e)).
  { unfold shr_fexp, fexp, emin, shr_record_of_loc. cbn [Zdigits2]. rewrite Hd.
    replace (Z.max (53 + e - 53) (3 - 1024 - 53) - e)%Z with 0%Z by lia. done. }
  rewrite Hs. cbn [shr_m loc_of_shr_record round_nearest_even]. rewrite Hs. cbn [shr_m].
  by rewrite (proj2 (Z.leb_le e (1024 - 53))) by lia.
Qed.

Lemma float_of_integer m : (Zpos m < 2 ^ 53)%Z -> int64_of_float (binary_normalize 53 1024 (Zpos m) 0 false) = Zpos m.
Proof.
  intros Hm. pose proof (digits2_lower m) as Hl.
  assert (Hd : (Zpos (digits2_pos m) <= 53)%Z).
  { destruct (Z.le_gt_cases (Zpos (digits2_pos m)) 53) as [?|Hgt]; [done|].
    assert (2 ^ 53 <= 2 ^ (Zpos (digits2_pos m) - 1))%Z by (apply Z.pow_le_mono_r; lia). lia. }
  assert (Hr : forall q, (0 <= q)%Z -> (Zpos m * 2 ^ q / 2 ^ q = Zpos m)%Z) by (intros; apply Z.div_mul, Z.pow_nonzero; lia).
  cbn [binary_normalize]. unfold binary_round, shl_align, fexp, emin.
  replace (Z.max (Zpos (digits2_pos m) + 0 - 53) (3 - 1024 - 53) - 0)%Z with (Zpos (digits2_pos m) - 53)%Z by lia.
  replace (Z.max (Zpos (digits2_pos m) + 0 - 53) (3 - 1024 - 53))%Z with (Zpos (digits2_pos m) - 53)%Z by lia.
  destruct (Zpos (digits2_pos m) - 53)%Z as [|d|d] eqn:E; [|lia|].
  - rewrite round_53 by lia. unfold int64_of_float. change (0 <=? 0)%Z with true. cbn iota.
    rewrite (proj2 (Z.leb_le (- 2 ^ 63) _)), (proj2 (Z.ltb_lt _ (2 ^ 63))) by lia. cbn [andb]. lia.
  - rewrite round_53 by (rewrite ?digits2_shift; lia). unfold int64_of_float. change (0 <=? Zneg d)%Z with false. cbn iota.
    change (- Zneg d)%Z with (Zpos d). rewrite shift_value, Hr by lia.
    rewrite (proj2 (Z.leb_le (- 2 ^ 63) _)), (proj2 (Z.ltb_lt _ (2 ^ 63))) by lia. cbn [andb]. lia.
Qed.

Lemma take_digits_all s : forall acc k, all_digit s = true ->
  exists k', take_digits acc k s = (default 0%Z (read_digits acc s), k', "").
Proof.
  induction s as [|c s IH]; intros acc k Hs; simpl in *; [by exists k|]. apply andb_prop in Hs as [Hc Hs].
  change (is_digit c) with (digit_char c) in Hc. rewrite Hc. by apply IH.
Qed.

Lemma decimal_of_Itoa z : (0 <= z)%Z -> decimal_of (Itoa z) = (false, z, 0%Z).
Proof.
  intros Hz. destruct (Itoa_cases z) as [E|[[Hp E]|[Hn E]]]; [| |lia].
  - assert (z = 0)%Z as -> by (by apply Itoa_inj). done.
  - rewrite E. destruct (pretty_N_go_head (Z.to_N z) "") as (d & t & Ed & Hd & _ & Ht); [lia|].
    pose proof (read_digits_pretty (Z.to_N z) "") as Hr. rewrite app_nil_r_str in Ed. rewrite Ed in Hr |- *.
    destruct (take_digits_all (String d t) 0 0) as [k Hk]; [simpl; by rewrite Hd, Ht|].
    rewrite Hr in Hk. cbn [read_digits default] in Hk. unfold decimal_of.
    assert (match String d t with String "-" t' => (true, t') | _ => (false, String d t) end = (false, String d t)) as ->.
    { destruct d as [[] [] [] [] [] [] [] []]; try discriminate Hd; reflexivity. }
    rewrite Hk. cbn. by rewrite Z2N.id by lia.
Qed.

(** An integer below 2^53 is read exactly. *)
Lemma convertNumber_Itoa n : (0 <= n < 2 ^ 53)%Z ->
  exists f, convertNumber (Itoa n) = Some f /\ int64_of_float f = n.
Proof.
  intros Hn. unfold convertNumber. rewrite Itoa_wf, decimal_of_Itoa by lia. unfold nearest.
  destruct n as [|m|m]; [by exists (S754_zero false)| |lia]. change (0 <=? 0)%Z with true. cbn iota.
  change (1 * Zpos m * 10 ^ 0)%Z with (Zpos (m * 1)). rewrite Pos.mul_1_r.
  pose proof (float_of_integer m (proj2 Hn)) as Hi.
  destruct (binary_normalize 53 1024 (Zpos m) 0 false) eqn:E; [| | |];
    try (eexists; split; [reflexivity|exact Hi]).
  all: discriminate Hi.
Qed.
