(* ===== verification/CopError.v ===== *)
(** * COP errors (src/api/error.go)

    The error codes, the [Error] interface's two methods, the constructors
    [NewError], [WrapError] and [WrapCFSSLError].  [WrapError] passes its
    variadic arguments to [fmt.Sprintf] as one slice instead of spreading
    them; the model does the same. *)

From S2P Require Import Prelude GoStrings GoFmt GoJson.

#[local] Arguments String.append !_ _ : simpl nomatch.

(** The [iota] constants, in source order. *)
Definition error_codes : list string :=
  ["NotImplemented"; "CFSSL"; "NotSupported"; "TooManyArgs"; "InvalidProviderName";
   "ReadFileError"; "WriteFileError"; "MarshallError"; "UnmarshallError"; "InvalidConfig";
   "NotInitialized"; "AlreadyEnrolled"; "ServerAddrNotSet"; "AuthorizationFailure";
   "IOError"; "Input"; "Output"; "UserStoreError"; "EnrollingUserError";
   "RegisteringUserError"; "DatabaseError"; "TLSError"].

Definition NotImplemented : Z := 100000.
Definition CFSSL : Z := 100001.
Definition NotSupported : Z := 100002.
Definition TooManyArgs : Z := 100003.
Definition InvalidProviderName : Z := 100004.
Definition ReadFileError : Z := 100005.
Definition WriteFileError : Z := 100006.
Definition MarshallError : Z := 100007.
Definition UnmarshallError : Z := 100008.
Definition InvalidConfig : Z := 100009.
Definition NotInitialized : Z := 100010.
Definition AlreadyEnrolled : Z := 100011.
Definition ServerAddrNotSet : Z := 100012.
Definition AuthorizationFailure : Z := 100013.
Definition IOError : Z := 100014.
Definition Input : Z := 100015.
Definition Output : Z := 100016.
Definition UserStoreError : Z := 100017.
Definition EnrollingUserError : Z := 100018.
Definition RegisteringUserError : Z := 100019.
Definition DatabaseError : Z := 100020.
Definition TLSError : Z := 100021.

(** The [Error()] method of each dynamic error type.  CFSSL's
    [*errors.Error] prints itself as JSON. *)
Definition Error (e : error) : string :=
  match e with
  | ErrPlain msg => msg
  | ErrCop code msg => Sprintf "%d: %s" [FInt code; FStr msg]
  | ErrHTTP _ msg => msg
  | ErrCFSSL code msg => json_print (JObj [("code", JNum (Itoa code)); ("message", JStr msg)])
  end.

(** The [Code] method of [ErrorImpl]. *)
Definition Code (e : error) : option Z :=
  match e with ErrCop code _ => Some code | _ => None end.

(** [NewError(code, format, args...)]. *)
Definition NewError (code : Z) (format : string) (args : list fmt_arg) : error :=
  ErrCop code (Sprintf format args).

(** [WrapError(err, code, format, args...)]: [fmt.Sprintf(format, args)] gets
    the slice as its only operand, and a nil [err] is dereferenced. *)
Definition WrapError (err : option error) (code : Z) (format : string)
    (args : list fmt_arg) : outcome error :=
  let msg := Sprintf format [FSlice args] in
  match err with
  | None => Panic "invalid memory address or nil pointer dereference"
  | Some e => Ok (ErrCop code (Sprintf "%s [%s]" [FStr msg; FStr (Error e)]))
  end.

(** [WrapCFSSLError(error, code, format, args...)]. *)
Definition WrapCFSSLError (errorCode : Z) (message : string) (code : Z) (format : string)
    (args : list fmt_arg) : error :=
  let msg := Sprintf format [FSlice args] in
  ErrCop code (Sprintf "%s [CFSSL %d: %s]" [FStr msg; FInt errorCode; FStr message]).

(** Wrapping a non-nil error cannot fail. *)
Definition wrapped (e : error) (code : Z) (format : string) (args : list fmt_arg) : error :=
  ErrCop code (Sprintf "%s [%s]" [FStr (Sprintf format [FSlice args]); FStr (Error e)]).

Lemma WrapError_Some e code format args :
  WrapError (Some e) code format args = Ok (wrapped e code format args).
Proof. reflexivity. Qed.

(** The message a caller of [WrapError] meant: its arguments spread. *)
Definition intended_wrap (e : error) (code : Z) (format : string) (args : list fmt_arg) : error :=
  ErrCop code (Sprintf format args +:+ " [" +:+ Error e +:+ "]").

Lemma wrapped_message e code format args :
  wrapped e code format args =
  ErrCop code (Sprintf format [FSlice args] +:+ " [" +:+ Error e +:+ "]").
Proof. reflexivity. Qed.

(** [WrapError] called with a format that takes no arguments (as in
    dbutil.go: ["Failed to connect to database"]) never produces the intended
    message: the empty argument slice is reported as an extra operand. *)
Theorem WrapError_no_args_extra e code format :
  Contains format "%" = false ->
  WrapError (Some e) code format [] =
    Ok (ErrCop code (format +:+ "%!(EXTRA []interface {}=[])" +:+ " [" +:+ Error e +:+ "]"))
  /\ WrapError (Some e) code format [] <> Ok (intended_wrap e code format []).
Proof.
  intros Hf. rewrite WrapError_Some, wrapped_message. unfold intended_wrap.
  rewrite !Sprintf_plain by done. simpl. rewrite app_nil_r_str, <- !app_assoc_str.
  split; [done|]. intros [= H].
  apply (f_equal String.length) in H. rewrite !length_app_str in H. simpl in H. lia.
Qed.

Lemma WrapError_no_args_extra_witness :
  WrapError (Some (ErrPlain "boom")) DatabaseError "Failed to open database" [] =
    Ok (ErrCop 100020 "Failed to open database%!(EXTRA []interface {}=[]) [boom]").
Proof.
  exact (proj1 (WrapError_no_args_extra (ErrPlain "boom") DatabaseError
                  "Failed to open database" eq_refl)).
Defined.
