(* ===== verification/Http.v ===== *)
(** * HTTP requests and responses

    What the handlers read of a request and write to a response; Go's
    [Request.BasicAuth] and the debugging helper of src/util/util.go that
    replaces the body it prints; CFSSL's [api] package (response format,
    [HandleError], [HTTPHandler]) and the error responses of
    src/cli/server/errors.go. *)

From S2P Require Import Prelude GoStrings GoFmt GoJson Base64 CopError.

(** The body is what can be read of it and the error reading ends with. *)
Record Request := mkRequest {
  Method : string;
  URL : string;
  authorization : string;      (* Header.Get of the authorization header *)
  eid : string;                (* the __eid__ header *)
  body : string;
  body_err : option error
}.

Definition set_eid (id : string) (r : Request) : Request :=
  mkRequest (Method r) (URL r) (authorization r) id (body r) (body_err r).

(** [r.Body = ioutil.NopCloser(bytes.NewReader(buf))]. *)
Definition set_Body (b : string) (r : Request) : Request :=
  mkRequest (Method r) (URL r) (authorization r) (eid r) b None.

Record Response := mkResponse { status : Z; resp_body : string }.

Definition newline : string := String (Ascii.ascii_of_nat 10) "".

(** [ioutil.ReadAll(r.Body)]. *)
Definition ReadAll {S} (r : Request) : comp S string :=
  match body_err r with Some e => fail e | None => mret (body r) end.

(** [util.HTTPRequestToString]: the read error is dropped, and the body is
    replaced by what was read. *)
Definition HTTPRequestToString (req : Request) : string * Request :=
  (Sprintf "%s %s" [FStr (Method req); FStr (URL req)] +:+ newline +:+
   Sprintf "Authorization: %s" [FStr (authorization req)] +:+ newline +:+ body req,
   set_Body (body req) req).

(** [util.HTTPResponseToString]; [Status] is the status line's text. *)
Definition HTTPResponseToString (Status : string) (resp : Response) : string * Response :=
  (Sprintf "statusCode=%d (%s)" [FInt (status resp); FStr Status] +:+ newline +:+ resp_body resp, resp).

(** Text before and after the first occurrence of a character. *)
Fixpoint cut (s : string) (sep : ascii) : option (string * string) :=
  match s with
  | EmptyString => None
  | String c s' =>
      if bool_decide (c = sep) then Some ("", s')
      else '(a, b) ← cut s' sep; Some (String c a, b)
  end.

Fixpoint drop_str (n : nat) (s : string) : string :=
  match n, s with
  | S n, String _ s => drop_str n s
  | _, _ => s
  end.

(** [Request.BasicAuth()]: user and password. *)
Definition BasicAuth (r : Request) : option (string * string) :=
  if HasPrefix (authorization r) "Basic " then
    c ← StdDecode (drop_str 6 (authorization r));
    cut (string_of_bytes c) ":"
  else None.

(** [Request.SetBasicAuth(user, pwd)] of the client. *)
Definition SetBasicAuth (user pwd : string) : string :=
  "Basic " +:+ StdEncode (bytes_of_string (user +:+ ":" +:+ pwd)).

(** ** CFSSL's response format *)

Definition message_json (code : Z) (msg : string) : json :=
  JObj [("code", JNum (Itoa code)); ("message", JStr msg)].

Definition NewSuccessResponse (result : json) : json :=
  JObj [("success", JBool true); ("result", result); ("errors", JArr []); ("messages", JArr [])].

Definition NewErrorResponse (message : string) (code : Z) : json :=
  JObj [("success", JBool false); ("result", JNull); ("errors", JArr [message_json code message]);
        ("messages", JArr [])].

(** [http.Error]: the text and a newline. *)
Definition http_Error (msg : string) (code : Z) : Response := mkResponse code (msg +:+ newline).

(** [api.SendResponse]. *)
Definition SendResponse (result : json) : Response :=
  mkResponse 200 (json_print (NewSuccessResponse result) +:+ newline).

(** A [[]byte] in JSON is its padded base64 text. *)
Definition bytes_json (b : bytes) : json := JStr (StdEncode b).

(** [api.HandleError] of a non-nil error. *)
Definition HandleError (err : error) : Response :=
  let '(code, msg, httpCode) :=
    match err with
    | ErrHTTP status m => (status, m, status)
    | ErrCFSSL c m => (c, m, 400%Z)
    | _ => (0%Z, Error err, 500%Z)
    end in
  http_Error (json_print (NewErrorResponse msg code)) httpCode.

Definition NewMethodNotAllowed (method : string) : error :=
  ErrHTTP 405 ("Method is not allowed:" +:+ String quote method +:+ String quote "").

Definition NewBadRequest (err : error) : error := ErrHTTP 400 (Error err).

(** [api.HTTPHandler.ServeHTTP]: an error the handler returns becomes an
    error response. *)
Definition HTTPHandler {S} (methods : list string) (Handle : Request -> comp S Response)
    (r : Request) : comp S Response :=
  x ← attempt (if bool_decide (Method r ∈ methods) then Handle r
               else fail (NewMethodNotAllowed (Method r)));
  match x with inl err => mret (HandleError err) | inr resp => mret resp end.

(** ** src/cli/server/errors.go *)

Definition errNoAuthHdr : error := NewErr "No Authorization header was found".
Definition errNoBasicAuthHdr : error := NewErr "No Basic Authorization header was found".
Definition errNoTokenAuthHdr : error := NewErr "No Token Authorization header was found".
Definition errBasicAuthNotAllowed : error := NewErr "Basic authorization is not permitted".
Definition errTokenAuthNotAllowed : error := NewErr "Token authorization is not permitted".
Definition errInvalidUserPass : error := NewErr "Invalid user name or password".
Definition errInputNotSeeker : error := NewErr "Input stream was not a seeker".

(** [httpError]: the response is written and nil returned. *)
Definition httpError (scode code : Z) (msg : string) : Response :=
  http_Error (json_print (NewErrorResponse msg code)) scode.

Definition badRequest (err : error) : Response := httpError 400 IOError (Error err).

Definition authErr (err : error) : Response := httpError 401 AuthorizationFailure (Error err).

(** [cerr.RecordNotFound] is CFSSL's bare reason code. *)
Definition notFound (err : error) : Response := httpError 404 200 (Error err).

Definition dbErr (err : error) : Response := httpError 500 IOError (Error err).

(** ** Basic authentication headers read back *)

#[local] Arguments String.append !_ _ : simpl nomatch.

Lemma strip_padding_step c1 c2 c3 c4 s :
  plain_char c4 = true ->
  strip_padding (String c1 (String c2 (String c3 (String c4 s)))) =
    (r ← strip_padding s; Some (String c1 (String c2 (String c3 (String c4 r))))).
Proof.
  intros H4. destruct s; [|reflexivity]. cbn [strip_padding]. rewrite bool_decide_false; [done|].
  intros ->. discriminate H4.
Qed.

Lemma strip_padding_encode b : strip_padding (StdEncode b) = Some (B64Encode b).
Proof.
  induction b as [|x|x y|x y z rest IH] using bytes3_ind; unfold StdEncode in *; [done|..];
    cbn [B64Encode].
  - reflexivity.
  - simpl. rewrite bool_decide_false; [done|].
    assert (Hp : plain_char (enc6 (byteZ y `mod` 16 * 4)) = true).
    { apply enc6_plain. apply (sextet_ranges y y). }
    intros E. by rewrite E in Hp.
  - replace (length (x :: y :: z :: rest) mod 3)%nat with (length rest mod 3)%nat.
    2:{ simpl length. replace (S (S (S (length rest)))) with (length rest + 1 * 3)%nat by lia.
        by rewrite Nat.Div0.mod_add. }
    cbn [String.append]. rewrite strip_padding_step by (apply enc6_plain, (sextet_ranges z z)).
    by rewrite IH.
Qed.

Lemma remove_newlines_app s1 s2 : remove_newlines (s1 +:+ s2) = remove_newlines s1 +:+ remove_newlines s2.
Proof. induction s1 as [|c s IH]; simpl; [done|]. rewrite IH. by destruct (is_newline c). Qed.

Lemma StdDecode_StdEncode b : StdDecode (StdEncode b) = Some b.
Proof.
  unfold StdDecode. assert (remove_newlines (StdEncode b) = StdEncode b) as ->.
  { unfold StdEncode. rewrite remove_newlines_app, remove_newlines_plain by apply enc_plain.
    f_equal. by destruct (length b mod 3)%nat as [|[|[|?]]]. }
  rewrite strip_padding_encode. simpl. apply decode_groups_encode.
Qed.

Lemma cut_app u p c : Contains u c = false -> cut (u +:+ String c p) c = Some (u, p).
Proof.
  induction u as [|d u IH]; simpl; [intros _; by rewrite bool_decide_true|].
  intros [H1%bool_decide_eq_false H2]%orb_false_iff. rewrite bool_decide_false by congruence.
  by rewrite IH.
Qed.

(** The credentials a client puts in a request are those the server reads,
    for every password and every user name without a colon. *)
Theorem BasicAuth_roundtrip r user pwd :
  Contains user ":" = false -> authorization r = SetBasicAuth user pwd ->
  BasicAuth r = Some (user, pwd).
Proof.
  intros Hu Hr. unfold BasicAuth. rewrite Hr. unfold SetBasicAuth.
  rewrite (proj2 (HasPrefix_true _ _)) by by eexists.
  change (drop_str 6 ("Basic " +:+ StdEncode (bytes_of_string (user +:+ ":" +:+ pwd))))
    with (StdEncode (bytes_of_string (user +:+ ":" +:+ pwd))).
  rewrite StdDecode_StdEncode. simpl. rewrite string_of_bytes_of_string. by apply cut_app.
Qed.

Lemma BasicAuth_roundtrip_witness :
  BasicAuth (mkRequest "POST" "/enroll" (SetBasicAuth "admin" "a:b") "" "" None)
    = Some ("admin", "a:b").
Proof.
  apply (BasicAuth_roundtrip (mkRequest "POST" "/enroll" (SetBasicAuth "admin" "a:b") "" "" None));
    reflexivity.
Defined.
