(* ===== verification/Pem.v ===== *)
(** * PEM encoding

    Go's [pem.EncodeToMemory] of a block without headers, which
    [DERCertToPEM] of src/util/util.go and [ConvertDERToPEM] of
    src/lib/tcert/util.go call: the base64 text in lines of 64 characters
    between two marker lines. *)

From S2P Require Import Prelude GoStrings GoFmt GoJson Base64 CopError Http.

#[local] Arguments String.append !_ _ : simpl nomatch.

Definition pemLineLength : nat := 64.

Definition LF : ascii := Ascii.ascii_of_nat 10.

(** The line breaker; [used] characters are in the current line. *)
Fixpoint break_lines (used : nat) (s : string) : string :=
  match s with
  | EmptyString => if (used =? 0)%nat then "" else String LF ""
  | String c s' =>
      if (S used =? pemLineLength)%nat then String c (String LF (break_lines 0 s'))
      else String c (break_lines (S used) s')
  end.

Definition pem_begin (typ : string) : string := "-----BEGIN " +:+ typ +:+ "-----" +:+ String LF "".
Definition pem_end (typ : string) : string := "-----END " +:+ typ +:+ "-----" +:+ String LF "".

Definition EncodeToMemory (typ : string) (der : bytes) : bytes :=
  bytes_of_string (pem_begin typ +:+ break_lines 0 (StdEncode der) +:+ pem_end typ).

(** [util.DERCertToPEM]. *)
Definition DERCertToPEM (der : bytes) : bytes := EncodeToMemory "CERTIFICATE" der.

(** [tcert.ConvertDERToPEM]. *)
Definition ConvertDERToPEM (der : bytes) (datatype : string) : bytes := EncodeToMemory datatype der.

(** The text between the markers. *)
Definition pem_text (typ : string) (b : bytes) : option string :=
  let s := string_of_bytes b in
  let n := String.length (pem_begin typ) in
  let k := String.length (pem_end typ) in
  if HasPrefix s (pem_begin typ) && HasSuffix s (pem_end typ) && (n + k <=? String.length s)%nat
  then Some (String.substring n (String.length s - n - k) s) else None.

Lemma remove_newlines_break s : forall used, remove_newlines (break_lines used s) = remove_newlines s.
Proof.
  induction s as [|c s IH]; intros used; cbn [break_lines]; [by destruct (used =? 0)%nat|].
  destruct (S used =? pemLineLength)%nat; simpl; by rewrite IH.
Qed.

Lemma substring_mid a b c : String.substring (String.length a) (String.length b) (a +:+ (b +:+ c)) = b.
Proof. rewrite substring_app_r. apply substring_app_l. Qed.

(** The PEM text of a certificate has its markers, and what is between them
    decodes to the certificate. *)
Theorem pem_roundtrip typ der :
  exists text, pem_text typ (EncodeToMemory typ der) = Some text /\ StdDecode text = Some der.
Proof.
  unfold pem_text, EncodeToMemory. rewrite string_of_bytes_of_string.
  set (body := break_lines 0 (StdEncode der)).
  rewrite (proj2 (HasPrefix_true _ _)) by by eexists.
  rewrite (proj2 (HasSuffix_true _ _)) by (eexists; apply app_assoc_str).
  rewrite !length_app_str, (proj2 (Nat.leb_le _ _)) by lia. cbn [andb].
  replace (String.length (pem_begin typ) + (String.length body + String.length (pem_end typ)) - String.length (pem_begin typ)
    - String.length (pem_end typ))%nat with (String.length body) by lia.
  exists body. split; [by rewrite substring_mid|].
  unfold StdDecode, body. rewrite remove_newlines_break. apply (StdDecode_StdEncode der).
Qed.

Example DERCertToPEM_short :
  string_of_bytes (DERCertToPEM [x4d; x61; x6e])
  = "-----BEGIN CERTIFICATE-----" +:+ String LF "TWFu" +:+ String LF "-----END CERTIFICATE-----" +:+ String LF "".
Proof. reflexivity. Qed.
