(* ===== verification/Registry.v ===== *)
(** * The user registry interface (src/cli/server/spi, src/idp/idp.go)

    [UserRegistry] is the Go interface as a record of operations over the
    state [W] of the back end (the SQL database or the LDAP directory).
    [RegistryLaws] is the contract the server relies on when the registry is
    read-write: what each operation does to an abstract map of users and an
    abstract set of groups. *)

From S2P Require Import Prelude GoStrings GoFmt GoJson CopError.

(** [idp.Attribute] and [tcert.Attribute]. *)
Record Attribute := mkAttribute { attr_name : string; attr_value : string }.

(** [spi.UserInfo]. *)
Record UserInfo := mkUserInfo {
  ui_Name : string;
  ui_Pass : string;
  ui_Type : string;
  ui_Group : string;
  ui_Attributes : list Attribute
}.

(** [spi.GroupInfo] with its methods. *)
Record GroupInfo := mkGroupInfo { gi_Name : string; gi_ParentID : string }.

Definition group_GetName (g : GroupInfo) : string := gi_Name g.

Definition group_GetParent (g : GroupInfo) : string := gi_ParentID g.

Definition group_GetChildren (g : GroupInfo) : list GroupInfo := [].

#[export] Instance Attribute_eq_dec : EqDecision Attribute.
Proof. solve_decision. Defined.

#[export] Instance UserInfo_eq_dec : EqDecision UserInfo.
Proof. solve_decision. Defined.

#[export] Instance GroupInfo_eq_dec : EqDecision GroupInfo.
Proof. solve_decision. Defined.

(** [spi.User]: [Login] may change the back end's state. *)
Record User (W : Type) := mkUser {
  GetName : string;
  Login : string -> comp W unit;
  GetAffiliationPath : list string;
  GetAttribute : string -> string
}.
Arguments mkUser {W} _ _ _ _.
Arguments GetName {W} _.
Arguments Login {W} _ _.
Arguments GetAffiliationPath {W} _.
Arguments GetAttribute {W} _ _.

(** The fields [UpdateField] and [GetField] are asked for (the [iota] block
    of dbaccessor.go). *)
Definition serialNumber : Z := 0.
Definition aki : Z := 1.
Definition prekey : Z := 2.
Definition maxEnrollments : Z := 3.
Definition state : Z := 4.

(** [spi.UserRegistry].  [UpdateField]'s [interface{}] value is an [int] at
    every call, [GetField] returns a string. *)
Record UserRegistry (W : Type) := mkUserRegistry {
  GetUser : string -> list string -> comp W (User W);
  InsertUser : UserInfo -> comp W unit;
  UpdateUser : UserInfo -> comp W unit;
  DeleteUser : string -> comp W unit;
  UpdateField : string -> Z -> Z -> comp W unit;
  GetField : string -> Z -> comp W string;
  GetGroup : string -> comp W GroupInfo;
  GetRootGroup : comp W GroupInfo;
  InsertGroup : string -> string -> comp W unit;
  DeleteGroup : string -> comp W unit
}.
Arguments mkUserRegistry {W} _ _ _ _ _ _ _ _ _ _.
Arguments GetUser {W} _ _ _.
Arguments InsertUser {W} _ _.
Arguments UpdateUser {W} _ _.
Arguments DeleteUser {W} _ _.
Arguments UpdateField {W} _ _ _ _.
Arguments GetField {W} _ _ _.
Arguments GetGroup {W} _ _.
Arguments GetRootGroup {W} _.
Arguments InsertGroup {W} _ _ _.
Arguments DeleteGroup {W} _ _.

(** The attribute map [newDBUser] builds: a later attribute of the same name
    overrides an earlier one. *)
Definition attr_map (l : list Attribute) : gmap string string :=
  foldl (fun m a => <[attr_name a := attr_value a]> m) ∅ l.

(** ** The abstract registry *)

(** What a user is to the rest of the server: the registered information,
    the number of logins so far and the enrollment limit. *)
Record UserView := mkUserView {
  uv_info : UserInfo;
  uv_state : Z;
  uv_max : Z
}.

Definition set_uv_state (z : Z) (v : UserView) : UserView :=
  mkUserView (uv_info v) z (uv_max v).

Definition set_uv_max (z : Z) (v : UserView) : UserView :=
  mkUserView (uv_info v) (uv_state v) z.

(** A freshly inserted user: no login yet, limit 0 until it is set. *)
Definition new_view (u : UserInfo) : UserView := mkUserView u 0 0.

Record RegistryView := mkRegistryView {
  rv_users : gmap string UserView;
  rv_groups : gmap string string   (* group name to parent *)
}.

(** What a login does to a user: refused on a wrong password or when the
    limit is reached, otherwise counted unless the limit is negative. *)
Definition spec_login (v : UserView) (p : string) : option UserView :=
  if negb (bool_decide (ui_Pass (uv_info v) = p)) then None
  else if (uv_max v <? 0)%Z then Some v
  else if negb (uv_max v =? 0)%Z && (uv_state v >=? uv_max v)%Z then None
  else Some (set_uv_state (wrap64 (uv_state v + 1)) v).

(** The promise of a read-write registry, for states satisfying [reg_inv]
    (no pending database failure, user names unique). *)
Class RegistryLaws {W : Type} (R : UserRegistry W) := {
  reg_inv : W -> Prop;
  reg_view : W -> RegistryView;
  law_GetUser_found : forall w id attrs v,
    reg_inv w -> rv_users (reg_view w) !! id = Some v ->
    exists u, GetUser R id attrs w = (Ok u, w)
      /\ GetName u = id
      /\ GetAffiliationPath u = Split (ui_Group (uv_info v)) "/"
      /\ (forall a, GetAttribute u a = default "" (attr_map (ui_Attributes (uv_info v)) !! a));
  law_GetUser_missing : forall w id attrs,
    reg_inv w -> rv_users (reg_view w) !! id = None ->
    exists e, GetUser R id attrs w = (Err e, w);
  law_Login : forall w id attrs v u p,
    reg_inv w -> rv_users (reg_view w) !! id = Some v -> GetUser R id attrs w = (Ok u, w) ->
    match spec_login v p with
    | Some v' => exists w', Login u p w = (Ok tt, w') /\ reg_inv w'
        /\ reg_view w' = mkRegistryView (<[id := v']> (rv_users (reg_view w)))
                                        (rv_groups (reg_view w))
    | None => exists e, Login u p w = (Err e, w)
    end;
  law_InsertUser : forall w u,
    reg_inv w -> rv_users (reg_view w) !! ui_Name u = None ->
    exists w', InsertUser R u w = (Ok tt, w') /\ reg_inv w'
      /\ reg_view w' = mkRegistryView (<[ui_Name u := new_view u]> (rv_users (reg_view w)))
                                      (rv_groups (reg_view w));
  law_UpdateField_max : forall w id z,
    reg_inv w ->
    exists w', UpdateField R id maxEnrollments z w = (Ok tt, w') /\ reg_inv w'
      /\ reg_view w' = mkRegistryView (alter (set_uv_max z) id (rv_users (reg_view w)))
                                      (rv_groups (reg_view w));
  law_UpdateField_state : forall w id z,
    reg_inv w ->
    exists w', UpdateField R id state z w = (Ok tt, w') /\ reg_inv w'
      /\ reg_view w' = mkRegistryView (alter (set_uv_state z) id (rv_users (reg_view w)))
                                      (rv_groups (reg_view w));
  law_GetGroup_found : forall w g p,
    reg_inv w -> rv_groups (reg_view w) !! g = Some p ->
    GetGroup R g w = (Ok (mkGroupInfo g p), w);
  law_GetGroup_missing : forall w g,
    reg_inv w -> rv_groups (reg_view w) !! g = None ->
    exists e, GetGroup R g w = (Err e, w);
  law_InsertGroup : forall w g p,
    reg_inv w -> rv_groups (reg_view w) !! g = None ->
    exists w', InsertGroup R g p w = (Ok tt, w') /\ reg_inv w'
      /\ reg_view w' = mkRegistryView (rv_users (reg_view w)) (<[g := p]> (rv_groups (reg_view w)))
}.

(** A login changes the counter only. *)
Lemma spec_login_Some v p v' :
  spec_login v p = Some v' ->
  v' = set_uv_state (uv_state v') v /\ ((uv_max v < 0)%Z -> v' = v).
Proof.
  unfold spec_login. destruct (bool_decide _); simpl; [|done].
  destruct (Z.ltb_spec (uv_max v) 0).
  - intros [= <-]. by destruct v.
  - destruct (_ && _); [done|]. intros [= <-]. split; [done|lia].
Qed.

(** ** Attribute lists as JSON (the [attributes] column, request bodies) *)

Definition attr_json (a : Attribute) : json :=
  JObj [("name", JStr (attr_name a)); ("value", JStr (attr_value a))].

(** [json.Marshal] of an attribute slice; a nil slice is [null]. *)
Definition marshal_attrs (l : list Attribute) : string :=
  match l with
  | [] => json_print JNull
  | _ => json_print (JArr (map attr_json l))
  end.

(** Key matching of [encoding/json] is case-insensitive. *)
Definition field_is (name key : string) : bool := bool_decide (ToLower key = ToLower name).

(** Storing one object member into an [Attribute]; the flag records a type
    mismatch ([json.Unmarshal] goes on and reports it at the end). *)
Definition attr_field (st : Attribute * bool) (kv : string * json) : Attribute * bool :=
  let '(a, ok) := st in
  let '(k, v) := kv in
  if field_is "name" k then
    match v with
    | JStr s => (mkAttribute s (attr_value a), ok)
    | JNull => (a, ok)
    | _ => (a, false)
    end
  else if field_is "value" k then
    match v with
    | JStr s => (mkAttribute (attr_name a) s, ok)
    | JNull => (a, ok)
    | _ => (a, false)
    end
  else (a, ok).

Definition decode_attr (v : json) : Attribute * bool :=
  match v with
  | JObj l => foldl attr_field (mkAttribute "" "", true) l
  | JNull => (mkAttribute "" "", true)
  | _ => (mkAttribute "" "", false)
  end.

Definition decode_attrs (v : json) : list Attribute * bool :=
  match v with
  | JArr l => (map (fun v => (decode_attr v).1) l, forallb (fun v => (decode_attr v).2) l)
  | JNull => ([], true)
  | _ => ([], false)
  end.

(** [json.Unmarshal([]byte(s), &attrs)] with its error dropped: a syntax
    error leaves the slice nil, a type mismatch keeps what was decoded. *)
Definition unmarshal_attrs (s : string) : list Attribute :=
  match json_parse s with
  | Some v => (decode_attrs v).1
  | None => []
  end.

Lemma decode_attr_json a : decode_attr (attr_json a) = (a, true).
Proof. by destruct a. Qed.

Lemma decode_attrs_json l : decode_attrs (JArr (map attr_json l)) = (l, true).
Proof.
  unfold decode_attrs. f_equal.
  - rewrite map_map. induction l as [|a l IH]; [done|]. cbn [map].
    by rewrite decode_attr_json, IH.
  - induction l as [|a l IH]; [done|]. cbn [map forallb]. by rewrite decode_attr_json.
Qed.

Lemma attrs_json_wf l : json_wf (JArr (map attr_json l)) = true.
Proof. simpl. induction l as [|a l IH]; simpl; [done|]. done. Qed.

(** Attributes survive the trip through the database column. *)
Lemma unmarshal_marshal_attrs l : unmarshal_attrs (marshal_attrs l) = l.
Proof.
  destruct l as [|a l]; [reflexivity|]. unfold unmarshal_attrs, marshal_attrs.
  rewrite json_parse_print by apply attrs_json_wf. by rewrite decode_attrs_json.
Qed.
