(* ===== verification/GoUrl.v ===== *)
(** * Go's [net/url], [net.SplitHostPort] and [net.JoinHostPort]

    The parser and printer of URLs the client (src/lib/client.go) and the
    LDAP client (src/cli/server/ldap/client.go) use, as in the Go releases
    the program was written for (1.6 and 1.7, before a colon in the first
    path segment became an error).  The texts of errors are shortened. *)

From S2P Require Import Prelude GoStrings GoFmt Http.

#[local] Arguments String.append !_ _ : simpl nomatch.

(** ** Strings *)

(** Text before and after the last occurrence of a character. *)
Fixpoint cut_last (s : string) (sep : ascii) : option (string * string) :=
  match s with
  | EmptyString => None
  | String c s' =>
      match cut_last s' sep with
      | Some (a, b) => Some (String c a, b)
      | None => if bool_decide (c = sep) then Some ("", s') else None
      end
  end.

(** [split(s, c, true)] and [split(s, c, false)] of net/url. *)
Definition split_cut (s : string) (c : ascii) : string * string := default (s, "") (cut s c).

Definition split_keep (s : string) (c : ascii) : string * string :=
  match cut s c with Some (a, b) => (a, String c b) | None => (s, "") end.

Fixpoint count_char (s : string) (c : ascii) : nat :=
  match s with
  | EmptyString => 0
  | String d s' => (if bool_decide (c = d) then 1 else 0) + count_char s' c
  end.

(** [strings.TrimSpace], on ASCII white space. *)
Definition is_white (c : ascii) : bool :=
  let n := Ascii.nat_of_ascii c in (n =? 32)%nat || ((9 <=? n)%nat && (n <=? 13)%nat).

Fixpoint trim_left (s : string) : string :=
  match s with
  | EmptyString => ""
  | String c s' => if is_white c then trim_left s' else s
  end.

Fixpoint trim_right (s : string) : string :=
  match s with
  | EmptyString => ""
  | String c s' =>
      match trim_right s' with
      | EmptyString => if is_white c then "" else String c ""
      | t => String c t
      end
  end.

Definition TrimSpace (s : string) : string := trim_right (trim_left s).

(** ** Escaping *)

Inductive encoding := encodePath | encodeHost | encodeZone | encodeUserPassword | encodeFragment.

#[export] Instance encoding_eq_dec : EqDecision encoding.
Proof. solve_decision. Defined.

Definition is_lower (c : ascii) : bool :=
  let n := Ascii.nat_of_ascii c in (97 <=? n)%nat && (n <=? 122)%nat.

Definition is_upper (c : ascii) : bool :=
  let n := Ascii.nat_of_ascii c in (65 <=? n)%nat && (n <=? 90)%nat.

Definition is_alnum (c : ascii) : bool := is_lower c || is_upper c || digit_char c.

Definition dquote : ascii := Ascii.ascii_of_nat 34.

(** [shouldEscape(c, mode)]. *)
Definition shouldEscape (c : ascii) (mode : encoding) : bool :=
  if is_alnum c then false
  else if bool_decide (mode = encodeHost \/ mode = encodeZone)
          && (Contains "!$&'()*+,;=:[]<>" c || bool_decide (c = dquote)) then false
  else if Contains "-_.~" c then false
  else if Contains "$&+,/:;=?@" c then
    match mode with
    | encodePath => bool_decide (c = "?"%char)
    | encodeUserPassword => Contains "@/?:" c
    | encodeFragment => false
    | encodeHost | encodeZone => true
    end
  else true.

Definition unhex (c : ascii) : option Z :=
  let n := Z.of_nat (Ascii.nat_of_ascii c) in
  if digit_char c then Some (n - 48)%Z
  else if (97 <=? n)%Z && (n <=? 102)%Z then Some (n - 87)%Z
  else if (65 <=? n)%Z && (n <=? 70)%Z then Some (n - 55)%Z
  else None.

Definition ascii_Z (z : Z) : ascii := Ascii.ascii_of_nat (Z.to_nat z).

Definition errEscape : error := NewErr "invalid URL escape".
Definition errHostChar : error := NewErr "invalid character in host name".

(** [unescape(s, mode)]. *)
Fixpoint unescape (s : string) (mode : encoding) : outcome string :=
  match s with
  | EmptyString => Ok ""
  | String "%" (String a (String b s')) =>
      match unhex a, unhex b with
      | Some x, Some y =>
          let v := (16 * x + y)%Z in
          if bool_decide (mode = encodeHost) && (x <? 8)%Z && negb (v =? 37)%Z then Err errEscape
          else if bool_decide (mode = encodeZone) && negb (v =? 37)%Z && negb (v =? 32)%Z
                  && shouldEscape (ascii_Z v) encodeHost then Err errEscape
          else t ← unescape s' mode; Ok (String (ascii_Z v) t)
      | _, _ => Err errEscape
      end
  | String "%" _ => Err errEscape
  | String c s' =>
      if bool_decide (mode = encodeHost \/ mode = encodeZone) && (Ascii.nat_of_ascii c <? 128)%nat
         && shouldEscape c mode then Err errHostChar
      else t ← unescape s' mode; Ok (String c t)
  end.

Definition hex_upper (z : Z) : ascii :=
  ascii_Z (if (z <? 10)%Z then (48 + z)%Z else (55 + z)%Z).

(** [escape(s, mode)]; no mode here writes a space as a plus sign. *)
Fixpoint escape (s : string) (mode : encoding) : string :=
  match s with
  | EmptyString => ""
  | String c s' =>
      if shouldEscape c mode then
        let n := Z.of_nat (Ascii.nat_of_ascii c) in
        String "%" (String (hex_upper (n / 16)) (String (hex_upper (n mod 16)) (escape s' mode)))
      else String c (escape s' mode)
  end.

(** ** URLs *)

Record Userinfo := mkUserinfo { ui_username : string; ui_password : option string }.

Record URL_t := mkURL {
  u_Scheme : string;
  u_Opaque : string;
  u_User : option Userinfo;
  u_Host : string;
  u_Path : string;
  u_RawPath : string;
  u_ForceQuery : bool;
  u_RawQuery : string;
  u_Fragment : string
}.

#[export] Instance Userinfo_eq_dec : EqDecision Userinfo.
Proof. solve_decision. Defined.

#[export] Instance URL_eq_dec : EqDecision URL_t.
Proof. solve_decision. Defined.

(** [getscheme]: what precedes the colon, if it can be a scheme. *)
Fixpoint getscheme_at (first : bool) (s : string) : option (option (string * string)) :=
  match s with
  | EmptyString => Some None
  | String c s' =>
      if is_lower c || is_upper c then
        match getscheme_at false s' with
        | Some (Some (a, b)) => Some (Some (String c a, b))
        | r => r
        end
      else if digit_char c || Contains "+-." c then
        if first then Some None
        else match getscheme_at false s' with
             | Some (Some (a, b)) => Some (Some (String c a, b))
             | r => r
             end
      else if bool_decide (c = ":"%char) then
        if first then None else Some (Some ("", s'))
      else Some None
  end.

Definition getscheme (rawurl : string) : outcome (string * string) :=
  match getscheme_at true rawurl with
  | None => Err (NewErr "missing protocol scheme")
  | Some None => Ok ("", rawurl)
  | Some (Some (scheme, rest)) => Ok (scheme, rest)
  end.

(** [validOptionalPort]. *)
Fixpoint all_digits (s : string) : bool :=
  match s with EmptyString => true | String c s' => digit_char c && all_digits s' end.

Definition validOptionalPort (port : string) : bool :=
  match port with
  | EmptyString => true
  | String c s => bool_decide (c = ":"%char) && all_digits s
  end.

(** Text before the first ["%25"], and the rest with it. *)
Fixpoint cut_zone (s : string) : option (string * string) :=
  if HasPrefix s "%25" then Some ("", s)
  else match s with
       | EmptyString => None
       | String c s' => '(a, b) ← cut_zone s'; Some (String c a, b)
       end.

Definition parseHost (host : string) : outcome string :=
  if HasPrefix host "[" then
    match cut_last host "]" with
    | None => Err (NewErr "missing ']' in host")
    | Some (inner, colonPort) =>
        if negb (validOptionalPort colonPort) then Err (NewErr "invalid port after host")
        else match cut_zone inner with
        | Some (addr, zone) =>
            host1 ← unescape addr encodeHost;
            host2 ← unescape zone encodeZone;
            host3 ← unescape (String "]" colonPort) encodeHost;
            Ok (host1 +:+ host2 +:+ host3)
        | None => unescape host encodeHost
        end
    end
  else unescape host encodeHost.

Definition parseAuthority (authority : string) : outcome (option Userinfo * string) :=
  match cut_last authority "@" with
  | None => host ← parseHost authority; Ok (None, host)
  | Some (userinfo, h) =>
      host ← parseHost h;
      match cut userinfo ":" with
      | None => name ← unescape userinfo encodeUserPassword; Ok (Some (mkUserinfo name None), host)
      | Some (name, pwd) =>
          name ← unescape name encodeUserPassword;
          pwd ← unescape pwd encodeUserPassword;
          Ok (Some (mkUserinfo name (Some pwd)), host)
      end
  end.

Fixpoint validEncodedPath (s : string) : bool :=
  match s with
  | EmptyString => true
  | String c s' => (Contains "!$&'()*+,;=:@[]%" c || negb (shouldEscape c encodePath)) && validEncodedPath s'
  end.

(** [URL.EscapedPath]. *)
Definition EscapedPath (u : URL_t) : string :=
  if negb (bool_decide (u_RawPath u = "")) && validEncodedPath (u_RawPath u)
     && bool_decide (unescape (u_RawPath u) encodePath = Ok (u_Path u))
  then u_RawPath u
  else if bool_decide (u_Path u = "*") then "*"
  else escape (u_Path u) encodePath.

Definition set_Host (h : string) (u : URL_t) : URL_t :=
  mkURL (u_Scheme u) (u_Opaque u) (u_User u) h (u_Path u) (u_RawPath u) (u_ForceQuery u) (u_RawQuery u)
    (u_Fragment u).
Definition set_Path (p : string) (u : URL_t) : URL_t :=
  mkURL (u_Scheme u) (u_Opaque u) (u_User u) (u_Host u) p (u_RawPath u) (u_ForceQuery u) (u_RawQuery u)
    (u_Fragment u).
Definition set_RawPath (p : string) (u : URL_t) : URL_t :=
  mkURL (u_Scheme u) (u_Opaque u) (u_User u) (u_Host u) (u_Path u) p (u_ForceQuery u) (u_RawQuery u)
    (u_Fragment u).
Definition set_Opaque (o : string) (u : URL_t) : URL_t :=
  mkURL (u_Scheme u) o (u_User u) (u_Host u) (u_Path u) (u_RawPath u) (u_ForceQuery u) (u_RawQuery u)
    (u_Fragment u).
Definition set_Scheme (s : string) (u : URL_t) : URL_t :=
  mkURL s (u_Opaque u) (u_User u) (u_Host u) (u_Path u) (u_RawPath u) (u_ForceQuery u) (u_RawQuery u)
    (u_Fragment u).
Definition set_Fragment (f : string) (u : URL_t) : URL_t :=
  mkURL (u_Scheme u) (u_Opaque u) (u_User u) (u_Host u) (u_Path u) (u_RawPath u) (u_ForceQuery u)
    (u_RawQuery u) f.

(** [parse(rawurl, false)]: the query, then authority and path. *)
Definition split_query (rest : string) : string * bool * string :=
  if HasSuffix rest "?" && (count_char rest "?" =? 1)%nat then ((split_cut rest "?").1, true, "")
  else let '(r, q) := split_cut rest "?" in (r, false, q).

Definition split_authority (scheme rest : string) : outcome (option Userinfo * string * string) :=
  if (negb (bool_decide (scheme = "")) || negb (HasPrefix rest "///")) && HasPrefix rest "//" then
    let '(authority, rest) := split_keep (drop_str 2 rest) "/" in
    '(user, host) ← parseAuthority authority;
    Ok (user, host, rest)
  else Ok (None, "", rest).

Definition parse_rest (scheme rest : string) (force : bool) (query : string) : outcome URL_t :=
  if negb (HasPrefix rest "/") && negb (bool_decide (scheme = ""))
  then Ok (mkURL scheme rest None "" "" "" force query "")
  else
    '(user, host, rest) ← split_authority scheme rest;
    path ← unescape rest encodePath;
    let u := mkURL scheme "" user host path "" force query "" in
    Ok (if negb (bool_decide (EscapedPath u = rest)) && validEncodedPath rest
        then set_RawPath rest u else u).

Definition parse (rawurl : string) : outcome URL_t :=
  if bool_decide (rawurl = "*") then Ok (mkURL "" "" None "" "*" "" false "" "")
  else
    '(scheme, rest) ← getscheme rawurl;
    let '(rest, force, query) := split_query rest in
    parse_rest (ToLower scheme) rest force query.

(** [url.Parse]. *)
Definition url_Parse (rawurl : string) : outcome URL_t :=
  let '(u, frag) := split_cut rawurl "#" in
  url ← parse u;
  if bool_decide (frag = "") then Ok url
  else f ← unescape frag encodeFragment; Ok (set_Fragment f url).

Definition Userinfo_String (ui : Userinfo) : string :=
  escape (ui_username ui) encodeUserPassword +:+
  match ui_password ui with Some p => ":" +:+ escape p encodeUserPassword | None => "" end.

(** [URL.String]. *)
Definition URL_String (u : URL_t) : string :=
  (if negb (bool_decide (u_Scheme u = "")) then u_Scheme u +:+ ":" else "") +:+
  (if negb (bool_decide (u_Opaque u = "")) then u_Opaque u
   else
     (if negb (bool_decide (u_Scheme u = "")) || negb (bool_decide (u_Host u = ""))
         || negb (bool_decide (u_User u = None))
      then "//" +:+ (match u_User u with Some ui => Userinfo_String ui +:+ "@" | None => "" end)
           +:+ escape (u_Host u) encodeHost
      else "") +:+
     (let path := EscapedPath u in
      (if negb (bool_decide (path = "")) && negb (HasPrefix path "/") && negb (bool_decide (u_Host u = ""))
       then "/" else "") +:+ path)) +:+
  (if u_ForceQuery u || negb (bool_decide (u_RawQuery u = "")) then "?" +:+ u_RawQuery u else "") +:+
  (if negb (bool_decide (u_Fragment u = "")) then "#" +:+ escape (u_Fragment u) encodeFragment else "").

(** ** Host and port *)

(** [net.SplitHostPort]. *)
Definition SplitHostPort (hostport : string) : outcome (string * string) :=
  match cut_last hostport ":" with
  | None => Err (NewErr "missing port in address")
  | Some (before, port) =>
      if HasPrefix hostport "[" then
        match cut hostport "]" with
        | None => Err (NewErr "missing ']' in address")
        | Some (inner, after) =>
            if bool_decide (after = "") then Err (NewErr "missing port in address")
            else if bool_decide (after = String ":" port) then
              if Contains (drop_str 1 hostport) "[" then Err (NewErr "unexpected '[' in address")
              else if Contains after "]" then Err (NewErr "unexpected ']' in address")
              else Ok (drop_str 1 inner, port)
            else if HasPrefix after ":" then Err (NewErr "too many colons in address")
            else Err (NewErr "missing port in address")
        end
      else if Contains before ":" then Err (NewErr "too many colons in address")
      else if Contains before "%" then Err (NewErr "missing brackets in address")
      else if Contains hostport "[" then Err (NewErr "unexpected '[' in address")
      else if Contains hostport "]" then Err (NewErr "unexpected ']' in address")
      else Ok (before, port)
  end.

(** [net.JoinHostPort]. *)
Definition JoinHostPort (host port : string) : string :=
  if Contains host ":" || Contains host "%" then "[" +:+ host +:+ "]:" +:+ port
  else host +:+ ":" +:+ port.

(** ** Plain URLs *)

Fixpoint all_chars (p : ascii -> bool) (s : string) : bool :=
  match s with EmptyString => true | String c s' => p c && all_chars p s' end.

Lemma all_chars_app p s t : all_chars p (s +:+ t) = all_chars p s && all_chars p t.
Proof. induction s as [|c s IH]; simpl; [done|]. by rewrite IH, andb_assoc. Qed.

Lemma all_chars_impl (p q : ascii -> bool) s :
  (forall c, p c = true -> q c = true) -> all_chars p s = true -> all_chars q s = true.
Proof.
  intros Hpq. induction s as [|c s IH]; simpl; [done|]. intros [H1 H2]%andb_prop. by rewrite Hpq, IH.
Qed.

Lemma all_chars_Contains p s c : all_chars p s = true -> p c = false -> Contains s c = false.
Proof.
  intros Hs Hc. induction s as [|d s IH]; simpl in *; [done|]. apply andb_prop in Hs as [H1 H2].
  rewrite IH, bool_decide_false by congruence. done.
Qed.

Lemma cut_None s c : Contains s c = false -> cut s c = None.
Proof.
  induction s as [|d s IH]; simpl; [done|]. intros [H1%bool_decide_eq_false H2]%orb_false_elim.
  rewrite bool_decide_false by congruence. by rewrite IH.
Qed.

Lemma cut_last_None s c : Contains s c = false -> cut_last s c = None.
Proof.
  induction s as [|d s IH]; simpl; [done|]. intros [H1%bool_decide_eq_false H2]%orb_false_elim.
  rewrite IH by done. by rewrite bool_decide_false by congruence.
Qed.

Lemma cut_last_app a c b : Contains b c = false -> cut_last (a +:+ String c b) c = Some (a, b).
Proof.
  intros Hb. induction a as [|d a IH]; simpl; [|by rewrite IH].
  by rewrite cut_last_None, bool_decide_true.
Qed.

Lemma split_cut_plain s c : Contains s c = false -> split_cut s c = (s, "").
Proof. intros H. unfold split_cut. by rewrite cut_None. Qed.

Lemma HasSuffix_Contains s c : Contains s c = false -> HasSuffix s (String c "") = false.
Proof.
  induction s as [|d s IH]; [done|]. intros [H1%bool_decide_eq_false H2]%orb_false_elim.
  cbn [HasSuffix]. rewrite bool_decide_false by congruence. by apply IH.
Qed.

Lemma TrimSpace_plain s : all_chars (fun c => negb (is_white c)) s = true -> TrimSpace s = s.
Proof.
  assert (Hr : forall s, all_chars (fun c => negb (is_white c)) s = true -> trim_right s = s).
  { intros t. induction t as [|c t IH]; simpl; [done|]. intros [H1%negb_true_iff H2]%andb_prop.
    rewrite IH by done. destruct t; [by rewrite H1|done]. }
  intros Hs. unfold TrimSpace. rewrite <- (Hr s Hs) at 2. f_equal.
  destruct s as [|c s]; [done|]. simpl in *. apply andb_prop in Hs as [->%negb_true_iff _]. done.
Qed.

(** Characters that stand for themselves. *)
Definition stays (mode : encoding) (c : ascii) : bool :=
  negb (bool_decide (c = "%"%char)) && negb (shouldEscape c mode).

Lemma unescape_plain mode s : all_chars (stays mode) s = true -> unescape s mode = Ok s.
Proof.
  induction s as [|c s IH]; [done|]. cbn [all_chars]. unfold stays at 1.
  intros [[Hc%negb_true_iff He%negb_true_iff]%andb_prop Hs]%andb_prop.
  apply bool_decide_eq_false in Hc.
  assert (unescape (String c s) mode =
    if bool_decide (mode = encodeHost \/ mode = encodeZone) && (Ascii.nat_of_ascii c <? 128)%nat
         && shouldEscape c mode then Err errHostChar
    else t ← unescape s mode; Ok (String c t)) as ->.
  { destruct c as [[] [] [] [] [] [] [] []]; try reflexivity. done. }
  by rewrite He, andb_false_r, IH.
Qed.

Lemma escape_plain mode s : all_chars (stays mode) s = true -> escape s mode = s.
Proof.
  induction s as [|c s IH]; [done|]. simpl. intros [[_ He%negb_true_iff]%andb_prop Hs]%andb_prop.
  by rewrite He, IH.
Qed.

(** Host names with an optional port, and paths. *)
Definition host_char (c : ascii) : bool := is_lower c || digit_char c || Contains ".-" c.
Definition addr_char (c : ascii) : bool := host_char c || bool_decide (c = ":"%char).
Definition path_char (c : ascii) : bool := host_char c || bool_decide (c = "/"%char).

Lemma char_facts c :
  (host_char c = true -> addr_char c = true /\ path_char c = true)
  /\ (addr_char c = true -> stays encodeHost c = true /\ stays encodePath c = true /\ is_white c = false)
  /\ (path_char c = true -> stays encodePath c = true /\ is_white c = false)
  /\ (digit_char c = true -> host_char c = true).
Proof. destruct c as [[] [] [] [] [] [] [] []]; vm_compute; intuition congruence. Qed.


Lemma all_addr_stays s : all_chars addr_char s = true -> all_chars (stays encodeHost) s = true.
Proof. apply all_chars_impl. intros c H. destruct (char_facts c) as (_ & H1 & _). naive_solver. Qed.

Lemma all_addr_stays_path s : all_chars addr_char s = true -> all_chars (stays encodePath) s = true.
Proof. apply all_chars_impl. intros c H. destruct (char_facts c) as (_ & H1 & _). naive_solver. Qed.

Lemma all_path_stays s : all_chars path_char s = true -> all_chars (stays encodePath) s = true.
Proof. apply all_chars_impl. intros c H. destruct (char_facts c) as (_ & _ & H1 & _). naive_solver. Qed.

Lemma all_host_addr s : all_chars host_char s = true -> all_chars addr_char s = true.
Proof. apply all_chars_impl. intros c H. destruct (char_facts c) as (H1 & _). naive_solver. Qed.

Lemma all_host_path s : all_chars host_char s = true -> all_chars path_char s = true.
Proof. apply all_chars_impl. intros c H. destruct (char_facts c) as (H1 & _). naive_solver. Qed.

Lemma all_digits_host s : all_digits s = true -> all_chars host_char s = true.
Proof.
  induction s as [|c s IH]; simpl; [done|]. intros [H1 H2]%andb_prop.
  destruct (char_facts c) as (_ & _ & _ & H). by rewrite IH, H.
Qed.

Lemma parseHost_plain h : all_chars addr_char h = true -> parseHost h = Ok h.
Proof.
  intros H. unfold parseHost.
  destruct (HasPrefix h "[") eqn:E; [|by apply unescape_plain, all_addr_stays].
  apply HasPrefix_true in E as [t ->]. done.
Qed.

Lemma parseAuthority_plain h : all_chars addr_char h = true -> parseAuthority h = Ok (None, h).
Proof.
  intros H. unfold parseAuthority. rewrite cut_last_None by by eapply all_chars_Contains.
  by rewrite parseHost_plain.
Qed.

Lemma split_keep_path h p :
  Contains h "/" = false -> (p = "" \/ exists q, p = String "/" q) -> split_keep (h +:+ p) "/" = (h, p).
Proof.
  intros Hn Hp. unfold split_keep.
  destruct Hp as [->|[q ->]]; [by rewrite app_nil_r_str, cut_None|]. by rewrite cut_app.
Qed.

Lemma EscapedPath_plain s o us h p f q g :
  all_chars (stays encodePath) p = true -> EscapedPath (mkURL s o us h p "" f q g) = p.
Proof.
  intros Hp. unfold EscapedPath. simpl. case_bool_decide; [done|]. by apply escape_plain.
Qed.

Lemma split_query_plain r : Contains r "?" = false -> split_query r = (r, false, "").
Proof. intros H. unfold split_query. by rewrite HasSuffix_Contains, split_cut_plain. Qed.

Lemma outcome_bind_ret {A B} (x : A) (f : A -> outcome B) : (Ok x ≫= f) = f x.
Proof. done. Qed.

Lemma getscheme_lower s r :
  all_chars is_lower s = true -> s <> "" -> getscheme (s +:+ String ":" r) = Ok (s, r).
Proof.
  intros Hs Hne. unfold getscheme.
  assert (Hf : forall s first, all_chars is_lower s = true -> (first = true -> s <> "") ->
    getscheme_at first (s +:+ String ":" r) = Some (Some (s, r))).
  { clear s Hs Hne. induction s as [|c s IH]; intros first Hs Hf.
    - destruct first; [by specialize (Hf eq_refl)|done].
    - cbn [all_chars String.append getscheme_at] in *. apply andb_prop in Hs as [-> Hs].
      by rewrite (IH false). }
  by rewrite Hf.
Qed.

Lemma ToLower_lower s : all_chars is_lower s = true -> ToLower s = s.
Proof.
  induction s as [|c s IH]; [done|]. simpl. intros [Hc Hs]%andb_prop. rewrite IH by done. f_equal.
  revert Hc. destruct c as [[] [] [] [] [] [] [] []]; vm_compute; congruence.
Qed.

(** An authority that parses, followed by a path that needs no escapes. *)
Lemma url_Parse_rooted s au p user host :
  all_chars is_lower s = true -> s <> "" ->
  Contains au "/" = false -> Contains au "?" = false -> Contains au "#" = false ->
  parseAuthority au = Ok (user, host) ->
  all_chars (stays encodePath) p = true -> (p = "" \/ exists q, p = String "/" q) ->
  url_Parse (s +:+ String ":" ("//" +:+ au +:+ p)) = Ok (mkURL s "" user host p "" false "" "").
Proof.
  intros Hs Hne Hsl Hq Hf Hau Hp Hr. unfold url_Parse. rewrite split_cut_plain.
  2:{ rewrite Contains_app. cbn [Contains String.append]. rewrite !Contains_app, Hf.
      by rewrite (all_chars_Contains is_lower s), (all_chars_Contains (stays encodePath) p). }
  unfold parse. rewrite (bool_decide_false (_ = "*")).
  2:{ destruct s as [|c s]; [done|]. by destruct s. }
  rewrite getscheme_lower, outcome_bind_ret by done. rewrite split_query_plain.
  2:{ cbn [Contains String.append]. rewrite !Contains_app, Hq.
      by rewrite (all_chars_Contains (stays encodePath) p). }
  rewrite ToLower_lower by done. unfold parse_rest, split_authority.
  assert (HasPrefix ("//" +:+ au +:+ p) "//" = true) as -> by (apply HasPrefix_true; eauto).
  change (HasPrefix ("//" +:+ au +:+ p) "/") with true.
  change (drop_str 2 ("//" +:+ au +:+ p)) with (au +:+ p).
  rewrite split_keep_path, (bool_decide_false (s = "")) by done. simpl.
  rewrite Hau. simpl. rewrite unescape_plain by done. simpl.
  rewrite EscapedPath_plain by done. by rewrite (bool_decide_true (p = p)).
Qed.

Lemma url_Parse_http h p :
  all_chars addr_char h = true -> all_chars path_char p = true -> (p = "" \/ exists q, p = String "/" q) ->
  url_Parse ("http://" +:+ h +:+ p) = Ok (mkURL "http" "" None h p "" false "" "").
Proof.
  intros Hh Hp Hr.
  apply (url_Parse_rooted "http" h p None h); try done; try (by apply (all_chars_Contains addr_char)).
  - by apply parseAuthority_plain.
  - by apply all_path_stays.
Qed.

Lemma URL_String_http h p :
  all_chars addr_char h = true -> all_chars path_char p = true -> (p = "" \/ exists q, p = String "/" q) ->
  URL_String (mkURL "http" "" None h p "" false "" "") = "http://" +:+ h +:+ p.
Proof.
  intros Hh Hp Hr. unfold URL_String. cbn [u_Scheme u_Opaque u_User u_Host u_Path u_ForceQuery u_RawQuery u_Fragment].
  rewrite EscapedPath_plain by by apply all_path_stays.
  rewrite escape_plain by by apply all_addr_stays.
  assert (negb (bool_decide (p = "")) && negb (HasPrefix p "/") = false) as ->
    by (destruct Hr as [->|[q ->]]; [done|by destruct q]).
  simpl. by rewrite app_nil_r_str.
Qed.

(** A text without a scheme: host names with their port, if any. *)
Lemma getscheme_at_plain first s :
  all_chars host_char s = true -> getscheme_at first s = Some None.
Proof.
  revert first. induction s as [|c s IH]; intros first; [done|]. cbn [all_chars getscheme_at].
  intros [Hc Hs]%andb_prop. rewrite IH by done.
  destruct (is_lower c || is_upper c) eqn:E1; [done|].
  destruct (digit_char c || Contains "+-." c) eqn:E2; [by destruct first|].
  exfalso. revert Hc E1 E2. destruct c as [[] [] [] [] [] [] [] []]; vm_compute; congruence.
Qed.

Lemma getscheme_at_colon h p :
  all_chars host_char h = true -> h <> "" ->
  getscheme_at true (h +:+ String ":" p) = Some None
  \/ getscheme_at true (h +:+ String ":" p) = Some (Some (h, p)).
Proof.
  intros Hh Hne.
  assert (Hf : forall h, all_chars host_char h = true ->
    getscheme_at false (h +:+ String ":" p) = Some (Some (h, p))).
  { clear h Hh Hne. intros h. induction h as [|c h IH]; [done|]. cbn [all_chars String.append getscheme_at].
    intros [Hc Hs]%andb_prop. rewrite IH by done.
    destruct (is_lower c || is_upper c) eqn:E1; [done|].
    destruct (digit_char c || Contains "+-." c) eqn:E2; [done|].
    exfalso. revert Hc E1 E2. destruct c as [[] [] [] [] [] [] [] []]; vm_compute; congruence. }
  destruct h as [|c h]; [done|]. cbn [all_chars String.append getscheme_at] in *.
  apply andb_prop in Hh as [Hc Hs]. rewrite Hf by done.
  destruct (is_lower c || is_upper c) eqn:E1; [by right|].
  destruct (digit_char c || Contains "+-." c) eqn:E2; [by left|].
  exfalso. revert Hc E1 E2. destruct c as [[] [] [] [] [] [] [] []]; vm_compute; congruence.
Qed.

Lemma host_not_rooted h r : all_chars host_char h = true -> h <> "" -> HasPrefix (h +:+ r) "/" = false.
Proof.
  intros Hh Hne. destruct h as [|c h]; [done|]. simpl in Hh. apply andb_prop in Hh as [Hc _].
  destruct (HasPrefix (String c h +:+ r) "/") eqn:E; [|done].
  apply HasPrefix_true in E as [q Hq]. simpl in Hq. by injection Hq as -> _.
Qed.

(** A host name, or a host name and a port the parser takes for a path. *)
Lemma parse_path h r :
  all_chars host_char h = true -> h <> "" -> all_chars addr_char r = true ->
  getscheme_at true (h +:+ r) = Some None ->
  url_Parse (h +:+ r) = Ok (mkURL "" "" None "" (h +:+ r) "" false "" "").
Proof.
  intros Hh Hne Hr Hs.
  assert (h +:+ r <> "*") as Hstar by (destruct h; [done|intros [= -> ?]; done]).
  assert (all_chars addr_char (h +:+ r) = true) as Ha by (by rewrite all_chars_app, all_host_addr).
  unfold url_Parse. rewrite split_cut_plain by by eapply all_chars_Contains.
  unfold parse. rewrite (bool_decide_false (_ = "*")) by done.
  unfold getscheme. rewrite Hs, outcome_bind_ret.
  assert (Contains (h +:+ r) "?" = false) as Hq by by eapply all_chars_Contains.
  rewrite split_query_plain by done. unfold parse_rest, split_authority.
  change (ToLower "") with "". rewrite (bool_decide_true ("" = "")), andb_false_r by done.
  assert (HasPrefix (h +:+ r) "//" = false) as ->.
  { destruct (HasPrefix (h +:+ r) "//") eqn:E; [|done]. apply HasPrefix_true in E as [q Hq'].
    pose proof (host_not_rooted h r Hh Hne) as H. by rewrite Hq' in H. }
  rewrite andb_false_r, outcome_bind_ret.
  rewrite unescape_plain by by apply all_addr_stays_path. simpl.
  rewrite EscapedPath_plain by by apply all_addr_stays_path. by rewrite bool_decide_true.
Qed.

(** A host name and a port the parser takes for a scheme and opaque text. *)
Lemma parse_opaque h p :
  all_chars host_char h = true -> h <> "" -> all_digits p = true ->
  getscheme_at true (h +:+ String ":" p) = Some (Some (h, p)) ->
  url_Parse (h +:+ String ":" p) = Ok (mkURL (ToLower h) p None "" "" "" false "" "").
Proof.
  intros Hh Hne Hp Hs.
  assert (h +:+ String ":" p <> "*") as Hstar by (destruct h; [done|intros [= -> ?]; done]).
  assert (all_chars addr_char (h +:+ String ":" p) = true) as Ha.
  { rewrite all_chars_app, all_host_addr by done. simpl. by rewrite all_host_addr by by apply all_digits_host. }
  unfold url_Parse. rewrite split_cut_plain by by eapply all_chars_Contains.
  unfold parse. rewrite (bool_decide_false (_ = "*")) by done.
  unfold getscheme. rewrite Hs, outcome_bind_ret.
  assert (Contains p "?" = false) as Hq by (eapply all_chars_Contains; [by apply all_digits_host|done]).
  rewrite split_query_plain by done. unfold parse_rest.
  assert (HasPrefix p "/" = false) as ->.
  { destruct (HasPrefix p "/") eqn:E; [|done]. apply HasPrefix_true in E as [q ->]. done. }
  rewrite (bool_decide_false (ToLower h = "")) by by destruct h. done.
Qed.

Lemma ToLower_host h : all_chars host_char h = true -> ToLower h = h.
Proof.
  induction h as [|c h IH]; [done|]. simpl. intros [Hc Hs]%andb_prop. rewrite IH by done. f_equal.
  revert Hc. destruct c as [[] [] [] [] [] [] [] []]; vm_compute; congruence.
Qed.

Lemma SplitHostPort_plain h p :
  all_chars host_char h = true -> all_digits p = true -> SplitHostPort (h +:+ String ":" p) = Ok (h, p).
Proof.
  intros Hh Hp. unfold SplitHostPort.
  pose proof (all_digits_host p Hp) as Hp'.
  rewrite cut_last_app by by eapply all_chars_Contains.
  assert (HasPrefix (h +:+ String ":" p) "[" = false) as ->.
  { destruct h as [|c h]; [done|]. destruct (HasPrefix (String c h +:+ String ":" p) "[") eqn:E; [|done].
    apply HasPrefix_true in E as [q Hq]. simpl in Hq. by injection Hq as -> _. }
  rewrite !Contains_app. simpl.
  rewrite !(all_chars_Contains host_char h), !(all_chars_Contains host_char p) by done. done.
Qed.

Lemma JoinHostPort_plain h p :
  all_chars host_char h = true -> JoinHostPort h p = h +:+ String ":" p.
Proof.
  intros Hh. unfold JoinHostPort. by rewrite !(all_chars_Contains host_char h) by done.
Qed.
