(* ===== verification/GoUnmarshal.v ===== *)
(** * Decoding JSON into Go structs

    [encoding/json]'s assignment of a parsed value to a struct: members are
    matched to fields by name, exactly or up to case; unknown members are
    ignored; a member of the wrong type is skipped and reported at the end.
    The request types of src/api/api.go and src/idp/idp.go that the server
    decodes, and [util.Unmarshal] of src/util/util.go. *)

From S2P Require Import Prelude GoStrings GoFmt GoJson CopError Registry.

(** A decoder stores a value into [A]; the flag is false on a type mismatch. *)
Definition decoder (A : Type) : Type := json -> A -> A * bool.

Definition dec_str {A} (set : string -> A -> A) : decoder A := fun v a =>
  match v with JStr s => (set s a, true) | JNull => (a, true) | _ => (a, false) end.

Definition dec_bool {A} (set : bool -> A -> A) : decoder A := fun v a =>
  match v with JBool b => (set b a, true) | JNull => (a, true) | _ => (a, false) end.

(** A 64-bit integer field. *)
Definition dec_int {A} (set : Z -> A -> A) : decoder A := fun v a =>
  match v with
  | JNum lit => match Atoi lit with Some z => (set z a, true) | None => (a, false) end
  | JNull => (a, true)
  | _ => (a, false)
  end.

(** An unsigned 64-bit field ([strconv.ParseUint]). *)
Definition dec_uint {A} (set : Z -> A -> A) : decoder A := fun v a =>
  match v with
  | JNum lit => match read_digits 0 lit with
                | Some z => if (z <? 2 ^ 64)%Z then (set z a, true) else (a, false)
                | None => (a, false)
                end
  | JNull => (a, true)
  | _ => (a, false)
  end.

(** A slice field: the old elements are dropped, each element is decoded into
    a zero value. *)
Definition dec_slice {A B} (zero : B) (d : decoder B) (set : list B -> A -> A) : decoder A :=
  fun v a =>
  match v with
  | JArr l => (set (map (fun v => (d v zero).1) l) a, forallb (fun v => (d v zero).2) l)
  | JNull => (set [] a, true)
  | _ => (a, false)
  end.

(** An embedded struct. *)
Definition dec_sub {A B} (get : A -> B) (d : decoder B) (set : B -> A -> A) : decoder A :=
  fun v a => let '(b, ok) := d v (get a) in (set b a, ok).

(** The field a member is stored in: the exact name first, then up to case. *)
Definition lookup_field {A} (fs : list (string * decoder A)) (k : string) : option (decoder A) :=
  match List.find (fun f => bool_decide (f.1 = k)) fs with
  | Some f => Some f.2
  | None => snd <$> List.find (fun f => field_is f.1 k) fs
  end.

Definition dec_member {A} (fs : list (string * decoder A)) (st : A * bool) (kv : string * json)
    : A * bool :=
  match lookup_field fs kv.1 with
  | Some d => let '(a, ok) := d kv.2 st.1 in (a, st.2 && ok)
  | None => st
  end.

(** A struct. *)
Definition dec_struct {A} (fs : list (string * decoder A)) : decoder A := fun v a =>
  match v with
  | JObj l => foldl (dec_member fs) (a, true) l
  | JNull => (a, true)
  | _ => (a, false)
  end.

(** Error values of the package; the offsets and type names of the real
    messages are left out. *)
Definition errJsonSyntax : error := ErrPlain "invalid character in JSON input".
Definition errJsonType : error := ErrPlain "json: cannot unmarshal value into Go value".

(** [json.Unmarshal]: what was stored, and the error. *)
Definition json_Unmarshal {A} (d : decoder A) (s : string) (a : A) : A * option error :=
  match json_parse s with
  | None => (a, Some errJsonSyntax)
  | Some v => let '(a', ok) := d v a in (a', if ok : bool then None else Some errJsonType)
  end.

(** As a computation that returns the decoded value or the error. *)
Definition decode {S A} (d : decoder A) (s : string) (a : A) : comp S A :=
  match json_Unmarshal d s a with
  | (a', None) => mret a'
  | (_, Some e) => fail e
  end.

(** [util.Unmarshal(from, to, what)]. *)
Definition Unmarshal {S A} (d : decoder A) (from : string) (to : A) (what : string) : comp S A :=
  map_err (fun err => wrapped err UnmarshallError "error unmarshalling %s" [FStr what])
    (decode d from to).

(** ** Request bodies *)

(** [cop.RegisterRequest] (src/api/api.go). *)
Record RegisterRequest := mkRegisterRequest {
  rr_User : string;
  rr_Group : string;
  rr_Type : string;
  rr_Attributes : list Attribute;
  rr_CallerID : string
}.

Definition zero_RegisterRequest : RegisterRequest := mkRegisterRequest "" "" "" [] "".

Definition dec_attribute : decoder Attribute :=
  dec_struct [("name", dec_str (fun s a => mkAttribute s (attr_value a)));
              ("value", dec_str (fun s a => mkAttribute (attr_name a) s))].

Definition dec_RegisterRequest : decoder RegisterRequest :=
  dec_struct
    [("user", dec_str (fun s r => mkRegisterRequest s (rr_Group r) (rr_Type r) (rr_Attributes r) (rr_CallerID r)));
     ("group", dec_str (fun s r => mkRegisterRequest (rr_User r) s (rr_Type r) (rr_Attributes r) (rr_CallerID r)));
     ("type", dec_str (fun s r => mkRegisterRequest (rr_User r) (rr_Group r) s (rr_Attributes r) (rr_CallerID r)));
     ("attrs", dec_slice (mkAttribute "" "") dec_attribute
        (fun l r => mkRegisterRequest (rr_User r) (rr_Group r) (rr_Type r) l (rr_CallerID r)));
     ("callerID", dec_str (fun s r => mkRegisterRequest (rr_User r) (rr_Group r) (rr_Type r) (rr_Attributes r) s))].

(** [json.Marshal] of the same struct: [attrs] is [omitempty]. *)
Definition RegisterRequest_json (r : RegisterRequest) : json :=
  JObj ([("user", JStr (rr_User r)); ("group", JStr (rr_Group r)); ("type", JStr (rr_Type r))]
    ++ (match rr_Attributes r with [] => [] | l => [("attrs", JArr (map attr_json l))] end)
    ++ [("callerID", JStr (rr_CallerID r))]).

(** [idp.RevocationRequest] (src/idp/idp.go). *)
Record RevocationRequest := mkRevocationRequest {
  rv_Name : string;
  rv_Serial : string;
  rv_AKI : string;
  rv_Reason : Z
}.

Definition zero_RevocationRequest : RevocationRequest := mkRevocationRequest "" "" "" 0.

Definition dec_RevocationRequest : decoder RevocationRequest :=
  dec_struct
    [("id", dec_str (fun s r => mkRevocationRequest s (rv_Serial r) (rv_AKI r) (rv_Reason r)));
     ("serial", dec_str (fun s r => mkRevocationRequest (rv_Name r) s (rv_AKI r) (rv_Reason r)));
     ("aki", dec_str (fun s r => mkRevocationRequest (rv_Name r) (rv_Serial r) s (rv_Reason r)));
     ("reason", dec_int (fun z r => mkRevocationRequest (rv_Name r) (rv_Serial r) (rv_AKI r) z))].

(** [json.Marshal]: every field is [omitempty]. *)
Definition omit_str (k s : string) : list (string * json) :=
  if bool_decide (s = "") then [] else [(k, JStr s)].

Definition RevocationRequest_json (r : RevocationRequest) : json :=
  JObj (omit_str "id" (rv_Name r) ++ omit_str "serial" (rv_Serial r) ++ omit_str "aki" (rv_AKI r)
    ++ if (rv_Reason r =? 0)%Z then [] else [("reason", JNum (Itoa (rv_Reason r)))]).

(** [idp.GetPrivateSignersRequest]; the validity period is in nanoseconds. *)
Record GetPrivateSignersRequest := mkGetPrivateSignersRequest {
  gp_Count : Z;
  gp_AttrNames : list string;
  gp_EncryptAttrs : bool;
  gp_ValidityPeriod : Z
}.

Definition zero_GetPrivateSignersRequest : GetPrivateSignersRequest :=
  mkGetPrivateSignersRequest 0 [] false 0.

Definition dec_GetPrivateSignersRequest : decoder GetPrivateSignersRequest :=
  dec_struct
    [("count", dec_uint (fun z r => mkGetPrivateSignersRequest z (gp_AttrNames r) (gp_EncryptAttrs r) (gp_ValidityPeriod r)));
     ("attr_names", dec_slice "" (dec_str (fun s _ => s))
        (fun l r => mkGetPrivateSignersRequest (gp_Count r) l (gp_EncryptAttrs r) (gp_ValidityPeriod r)));
     ("encrypt_attrs", dec_bool (fun b r => mkGetPrivateSignersRequest (gp_Count r) (gp_AttrNames r) b (gp_ValidityPeriod r)));
     ("validity_period", dec_int (fun z r => mkGetPrivateSignersRequest (gp_Count r) (gp_AttrNames r) (gp_EncryptAttrs r) z))].

(** ** Lemmas *)

Lemma dec_attribute_json a z : dec_attribute (attr_json a) z = (a, true).
Proof. by destruct a. Qed.

#[local] Arguments dec_attribute : simpl never.

Lemma dec_attributes_fst l z : map (fun v => (dec_attribute v z).1) (map attr_json l) = l.
Proof. induction l as [|x l IH]; [done|]. cbn [map]. by rewrite dec_attribute_json, IH. Qed.

Lemma dec_attributes_snd l z : forallb (fun v => (dec_attribute v z).2) (map attr_json l) = true.
Proof. induction l as [|x l IH]; [done|]. cbn [map forallb]. by rewrite dec_attribute_json. Qed.

Lemma dec_RegisterRequest_json r :
  dec_RegisterRequest (RegisterRequest_json r) zero_RegisterRequest = (r, true).
Proof.
  destruct r as [u g t l c]. destruct l as [|a l]; [done|].
  unfold RegisterRequest_json, dec_RegisterRequest, dec_struct.
  cbn [rr_Attributes rr_User rr_Group rr_Type rr_CallerID app foldl].
  generalize (a :: l). intros m. unfold dec_member. simpl.
  by rewrite dec_attributes_fst, dec_attributes_snd.
Qed.

Lemma decode_RegisterRequest {S} r (s : S) :
  decode dec_RegisterRequest (json_print (RegisterRequest_json r)) zero_RegisterRequest s = (Ok r, s).
Proof.
  unfold decode, json_Unmarshal. rewrite json_parse_print.
  - by rewrite dec_RegisterRequest_json.
  - destruct r as [u g t l c]. destruct l as [|a l]; [done|]. cbn. rewrite andb_true_r.
    induction l; simpl; done.
Qed.

(** The register request a client marshals is the one the server decodes. *)
Theorem RegisterRequest_roundtrip {S} r (s : S) :
  decode dec_RegisterRequest (json_print (RegisterRequest_json r)) zero_RegisterRequest s = (Ok r, s).
Proof. apply decode_RegisterRequest. Qed.
