(* ===== verification/JsonMap.v ===== *)
(** * JSON texts edited as maps (src/util/jsonprocessor.go)

    The functions that read and write one entry of a JSON text named by a
    dotted locator, over the [Map] of the vendored package
    src/vendor/github.com/stretchr/stew/objects.  A Go map decoded from JSON
    keeps one member for each key, in the order [json.Marshal] writes them; the
    nil map is [None].  Its numbers are doubles (file GoFloat): a text with a
    number that is out of range does not decode. *)

From S2P Require Import Prelude GoStrings GoFmt GoJson GoFloat CopError.

(** ** Go maps with string keys *)

(** The last member of that key. *)
Fixpoint mget {A} (k : string) (l : list (string * A)) : option A :=
  match l with
  | [] => None
  | (k', v) :: l =>
      match mget k l with
      | Some w => Some w
      | None => if bool_decide (k' = k) then Some v else None
      end
  end.

Fixpoint minsert {A} (k : string) (v : A) (l : list (string * A)) : list (string * A) :=
  match l with
  | [] => [(k, v)]
  | (k', v') :: l' => if String.ltb k k' then (k, v) :: l else (k', v') :: minsert k v l'
  end.

(** [m[k] = v]. *)
Definition mset {A} (k : string) (v : A) (l : list (string * A)) : list (string * A) :=
  minsert k v (List.filter (fun e => negb (bool_decide (e.1 = k))) l).

(** ** Values of type interface{} *)

Inductive any :=
  | ANil
  | ABool (b : bool)
  | AFloat (f : float64)
  | AStr (s : string)
  | ASlice (l : list any)
  | AMap (l : list (string * any)).

(** What [json.Unmarshal] stores in an [interface{}]: a number out of range
    leaves nil, and an error. *)
Fixpoint to_any (v : json) : any :=
  match v with
  | JNull => ANil
  | JBool b => ABool b
  | JNum lit => match convertNumber lit with Some f => AFloat f | None => ANil end
  | JStr s => AStr s
  | JArr l => ASlice (map to_any l)
  | JObj l => AMap (fold_left (fun m kv => match kv with (k, w) => mset k (to_any w) m end) l [])
  end.

Fixpoint in_range (v : json) : bool :=
  match v with
  | JNum lit => match convertNumber lit with Some _ => true | None => false end
  | JArr l => forallb in_range l
  | JObj l => forallb (fun kv => match kv with (_, w) => in_range w end) l
  | _ => true
  end.

Definition any_members (l : list (string * json)) : list (string * any) :=
  fold_left (fun m kv => match kv with (k, w) => mset k (to_any w) m end) l [].

(** What [json.Marshal] writes. *)
Fixpoint of_any (v : any) : json :=
  match v with
  | ANil => JNull
  | ABool b => JBool b
  | AFloat f => JNum (FormatFloat f)
  | AStr s => JStr s
  | ASlice l => JArr (map of_any l)
  | AMap l => JObj (map (fun kv => match kv with (k, w) => (k, of_any w) end) l)
  end.

(** ** stew's Map *)

(** [NewMapFromJSON], with its error dropped: nil for a text that is not a
    JSON object or has a number out of range, and for [null]. *)
Definition NewMapFromJSON (data : string) : option (list (string * any)) :=
  match json_parse data with
  | Some (JObj l) => if in_range (JObj l) then Some (any_members l) else None
  | _ => None
  end.

(** The walk of [Get]: a segment that names no map is passed over. *)
Fixpoint get_path (segs : list string) (obj : list (string * any)) : any :=
  match segs with
  | [] => AMap obj
  | [f] => default ANil (mget f obj)
  | f :: segs => match mget f obj with
                 | Some (AMap o) => get_path segs o
                 | _ => get_path segs obj
                 end
  end.

Definition Map_Get (d : option (list (string * any))) (keypath : string) : any :=
  get_path (Split keypath ".") (default [] d).

(** The walk of [Set]: missing maps are made, a segment that names something
    else is passed over. *)
Fixpoint set_path (segs : list string) (value : any) (obj : list (string * any)) : list (string * any) :=
  match segs with
  | [] => obj
  | [f] => mset f value obj
  | f :: segs => match mget f obj with
                 | None => mset f (AMap (set_path segs value [])) obj
                 | Some (AMap o) => mset f (AMap (set_path segs value o)) obj
                 | Some _ => set_path segs value obj
                 end
  end.

Definition Map_Set (d : option (list (string * any))) (keypath : string) (value : any)
    : outcome (option (list (string * any))) :=
  match d with
  | None => Panic "assignment to entry in nil map"
  | Some obj => Ok (Some (set_path (Split keypath ".") value obj))
  end.

Definition Map_JSON (d : option (list (string * any))) : string :=
  match d with None => "null" | Some obj => json_print (of_any (AMap obj)) end.

(** ** jsonprocessor.go *)

Definition notString : string := "interface conversion: interface {} is not string".

(** [v.(string)]. *)
Definition as_string (v : any) : outcome string :=
  match v with AStr s => Ok s | _ => Panic notString end.

Definition ReadJSONAsMapString (jsonString stringLocator : string) : outcome string :=
  as_string (Map_Get (NewMapFromJSON jsonString) stringLocator).

Definition WriteJSONAsMapToString (jsonString stringLocator value : string) : outcome string :=
  jsonMap ← Map_Set (NewMapFromJSON jsonString) stringLocator (AStr value);
  mret (Map_JSON jsonMap).

Fixpoint set_all (valueMap : list (string * string)) (jsonMap : option (list (string * any)))
    : outcome (option (list (string * any))) :=
  match valueMap with
  | [] => Ok jsonMap
  | (key, value) :: valueMap => jsonMap ← Map_Set jsonMap key (AStr value); set_all valueMap jsonMap
  end.

(** [WriteJSONToString]; [valueMap] in the order it is ranged over. *)
Definition WriteJSONToString (jsonString : string) (valueMap : list (string * string)) : outcome string :=
  jsonMap ← set_all valueMap (NewMapFromJSON jsonString);
  mret (Map_JSON jsonMap).

(** [GetAttributes]; [None] is the nil map. *)
Fixpoint collect_attributes (l : list any) (valueMap : gmap string string) : outcome (gmap string string) :=
  match l with
  | [] => Ok valueMap
  | AMap arribute :: l =>
      attributeName ← as_string (default ANil (mget "AttributeName" arribute));
      attributeValue ← as_string (default ANil (mget "AttributeValue" arribute));
      collect_attributes l (<[attributeName := attributeValue]> valueMap)
  | _ :: _ => Panic "interface conversion: interface {} is not map[string]interface {}"
  end.

Definition GetAttributes (jsonString : string) : outcome (option (gmap string string)) :=
  if bool_decide (jsonString = "") then Ok None
  else match Map_Get (NewMapFromJSON jsonString) "TCertBatchRequest.AttributeSet" with
       | ASlice l => valueMap ← collect_attributes l ∅; mret (Some valueMap)
       | _ => Panic "interface conversion: interface {} is not []interface {}"
       end.

Definition isAttributeEncryptionEnabled (jsonstring : string) : outcome bool :=
  match Map_Get (NewMapFromJSON jsonstring) "TCertBatchRequest.attribute-encryption_enabled" with
  | ABool b => Ok b
  | _ => Panic "interface conversion: interface {} is not bool"
  end.

(** The functions on files; a failing [log.Fatal] ends the process. *)
Section files.
Context {W : Type} (ioutil_ReadFile : string -> comp W bytes).
Context (os_Create : string -> comp W unit) (WriteString : string -> string -> comp W unit).
Context (exists_file : string -> comp W bool) (OpenAppend : string -> comp W unit).

Definition fatal {A B} (msg : string) (c : comp W A) (k : A -> comp W B) : comp W B :=
  x ← attempt c;
  match x with inl err => lift (Exit (msg +:+ Error err)) | inr a => k a end.

Definition ReadJSONAsMapFile (configFileLocation stringLocator : string) : comp W string :=
  fatal "error:" (ioutil_ReadFile configFileLocation) (fun buff =>
    lift (as_string (Map_Get (NewMapFromJSON (string_of_bytes buff)) stringLocator))).

Definition ConvertJSONFileToJSONString (jsonFileLocation : string) : comp W string :=
  fatal "Error reading json file:" (ioutil_ReadFile jsonFileLocation) (fun buff => mret (string_of_bytes buff)).

(** [WriteJSONAsMapToFile]: the file is truncated after the new text has been
    computed and written afterwards. *)
Definition WriteJSONAsMapToFile (stringLocator value filePath : string) : comp W unit :=
  fatal "Error reading file from given path:" (ioutil_ReadFile filePath) (fun buff =>
    jsonMap ← lift (Map_Set (NewMapFromJSON (string_of_bytes buff)) stringLocator (AStr value));
    fatal "Error writing to file:" (os_Create filePath) (fun _ =>
      fatal "Error writing json string:" (WriteString filePath (Map_JSON jsonMap)) mret)).

(** [WriteToJSON] appends a line. *)
Definition WriteToJSON (filePath cotentToAppend : string) : comp W unit :=
  there ← exists_file filePath;
  _ ← (if there : bool then mret tt else fatal "Error creating file:" (os_Create filePath) mret);
  fatal "Error opening file:" (OpenAppend filePath) (fun _ =>
    fatal "Error writing json string:"
      (WriteString filePath (cotentToAppend +:+ String (Ascii.ascii_of_nat 10) "")) mret).
End files.

(** ** Maps *)

Lemma mget_minsert_ne {A} k (v : A) k' l : k <> k' -> mget k' (minsert k v l) = mget k' l.
Proof.
  intros Hne. induction l as [|[k0 v0] l IH]; simpl; [by rewrite bool_decide_false|].
  destruct (String.ltb k k0); simpl; [|by rewrite IH].
  destruct (mget k' l); [done|]. case_bool_decide; [done|]. by rewrite bool_decide_false.
Qed.

Lemma mget_minsert_eq {A} k (v : A) l : mget k l = None -> mget k (minsert k v l) = Some v.
Proof.
  induction l as [|[k0 v0] l IH]; simpl; [by rewrite bool_decide_true|].
  destruct (mget k l) eqn:E; [done|]. case_bool_decide; [done|]. intros _.
  destruct (String.ltb k k0); simpl; [|by rewrite IH].
  rewrite E, bool_decide_false, bool_decide_true by done. done.
Qed.

Lemma mget_filter {A} k k' (l : list (string * A)) :
  mget k' (List.filter (fun e => negb (bool_decide (e.1 = k))) l) = if bool_decide (k = k') then None else mget k' l.
Proof.
  induction l as [|[k0 v0] l IH]; simpl; [by case_bool_decide|].
  destruct (decide (k0 = k)) as [->|Hk].
  - rewrite (bool_decide_true (k = k)) by done. simpl. rewrite IH. case_bool_decide; [done|]. by destruct (mget k' l).
  - rewrite (bool_decide_false (k0 = k)) by done. simpl. rewrite IH.
    destruct (decide (k = k')) as [->|Hk'].
    + by rewrite (bool_decide_true (k' = k')), (bool_decide_false (k0 = k')).
    + by rewrite (bool_decide_false (k = k')).
Qed.

Lemma mget_mset_eq {A} k (v : A) l : mget k (mset k v l) = Some v.
Proof. unfold mset. apply mget_minsert_eq. by rewrite mget_filter, bool_decide_true. Qed.

Lemma mget_mset_ne {A} k (v : A) k' l : k <> k' -> mget k' (mset k v l) = mget k' l.
Proof. intros H. unfold mset. rewrite mget_minsert_ne by done. by rewrite mget_filter, bool_decide_false. Qed.

(** Decoding keeps the last member of each key, decoded. *)
Lemma mget_any_members k l : mget k (any_members l) = to_any <$> mget k l.
Proof.
  unfold any_members.
  assert (forall acc, mget k (fold_left (fun m kv => match kv with (k, w) => mset k (to_any w) m end) l acc)
    = match mget k l with Some w => Some (to_any w) | None => mget k acc end) as H.
  { induction l as [|[k0 v0] l IH]; intros acc; simpl; [done|]. rewrite IH.
    destruct (mget k l); [done|]. case_bool_decide; subst; [by rewrite mget_mset_eq|by rewrite mget_mset_ne]. }
  rewrite H. by destruct (mget k l).
Qed.

(** ** Reading back what was written *)

(** The members of a map, marshalled. *)
Definition of_members (l : list (string * any)) : list (string * json) :=
  map (fun kv => match kv with (k, w) => (k, of_any w) end) l.

Lemma mget_of_members k l : mget k (of_members l) = of_any <$> mget k l.
Proof.
  induction l as [|[k0 v0] l IH]; simpl; [done|]. rewrite IH. destruct (mget k l); [done|]. simpl. by case_bool_decide.
Qed.

(** A map that is written and read again has the same entries, written and
    read again. *)
Lemma get_path_reread segs l : get_path segs (any_members (of_members l)) = to_any (of_any (get_path segs l)).
Proof.
  revert l. induction segs as [|f [|g segs] IH]; intros l; simpl.
  - done.
  - rewrite mget_any_members, mget_of_members. by destruct (mget f l).
  - rewrite mget_any_members, mget_of_members. destruct (mget f l) as [w|]; simpl; [|apply IH].
    destruct w as [| |x| | |]; simpl; try apply IH. destruct (convertNumber (FormatFloat x)); apply IH.
Qed.

Definition is_map (v : any) : bool := match v with AMap _ => true | _ => false end.

(** Setting a string turns no value that is not a map into one. *)
Lemma set_path_nonmap segs v f w l :
  mget f l = Some w -> is_map w = false ->
  exists w', mget f (set_path segs (AStr v) l) = Some w' /\ is_map w' = false.
Proof.
  intros Hf Hw. induction segs as [|g [|h segs] IH]; [by exists w| |].
  - simpl. destruct (decide (g = f)) as [->|Hne].
    + exists (AStr v). by rewrite mget_mset_eq.
    + exists w. by rewrite mget_mset_ne.
  - cbn [set_path]. destruct (mget g l) as [u|] eqn:Hg.
    + destruct u; try exact IH. exists w. rewrite mget_mset_ne; [done|]. intros ->. by simplify_eq.
    + exists w. rewrite mget_mset_ne; [done|]. intros ->. congruence.
Qed.

(** The walks of [Get] and [Set] meet: a string that was set is found. *)
Lemma get_set_path segs v l : segs <> [] -> get_path segs (set_path segs (AStr v) l) = AStr v.
Proof.
  intros Hs. revert l. induction segs as [|f [|g segs] IH]; intros l; [done| |].
  - simpl. by rewrite mget_mset_eq.
  - cbn [set_path]. destruct (mget f l) as [w|] eqn:Hf.
    + destruct (is_map w) eqn:Hw.
      * destruct w; try done. cbn [get_path]. rewrite mget_mset_eq. by apply IH.
      * destruct (set_path_nonmap (g :: segs) v f w l Hf Hw) as (w' & Hw1 & Hw2).
        assert (get_path (f :: g :: segs) (set_path (g :: segs) (AStr v) l) = AStr v) as H.
        { cbn [get_path]. rewrite Hw1. destruct w'; try done; by apply IH. }
        by destruct w.
    + cbn [get_path]. rewrite mget_mset_eq. by apply IH.
Qed.

(** ** What decoding and writing keep *)

(** Numbers are finite. *)
Fixpoint any_ok (v : any) : bool :=
  match v with
  | AFloat f => finite f
  | ASlice l => forallb any_ok l
  | AMap l => forallb (fun kv => match kv with (_, w) => any_ok w end) l
  | _ => true
  end.

Definition members_ok (l : list (string * any)) : Prop := forall k v, (k, v) ∈ l -> any_ok v = true.

Lemma members_ok_map l : any_ok (AMap l) = true <-> members_ok l.
Proof.
  simpl. rewrite forallb_forall. split.
  - intros H k v Hin. by apply (H (k, v)), list_elem_of_In.
  - intros H [k v] Hin. apply (H k). by apply list_elem_of_In.
Qed.

Lemma members_ok_get k l v : members_ok l -> mget k l = Some v -> any_ok v = true.
Proof.
  intros Hl. revert v. induction l as [|[k0 v0] l IH]; intros v; simpl; [done|].
  destruct (mget k l) as [w|] eqn:E.
  - intros [= ->]. apply IH; [|done]. intros ? ? ?. eapply Hl. by right.
  - case_bool_decide; [|done]. intros [= <-]. apply (Hl k0). by left.
Qed.

Lemma members_ok_set k v l : any_ok v = true -> members_ok l -> members_ok (mset k v l).
Proof.
  intros Hv Hl. unfold mset.
  assert (members_ok (List.filter (fun e => negb (bool_decide (e.1 = k))) l)) as Hf.
  { intros k' w Hin. apply (Hl k'). apply list_elem_of_In, filter_In in Hin as [Hin _]. by apply list_elem_of_In. }
  revert Hf. generalize (List.filter (fun e : string * any => negb (bool_decide (e.1 = k))) l) as l'.
  induction l' as [|[k0 v0] l' IH]; intros Hf; simpl.
  - intros k' w [[= -> ->]|Hin]%elem_of_cons; [done|]. by inversion Hin.
  - destruct (String.ltb k k0).
    + intros k' w [[= -> ->]|Hin]%elem_of_cons; [done|]. by eapply Hf.
    + intros k' w [[= -> ->]|Hin]%elem_of_cons; [apply (Hf k0); by left|].
      apply IH in Hin; [done|]. intros ? ? ?. eapply Hf. by right.
Qed.

Lemma members_ok_nil : members_ok [].
Proof. intros k v Hin. by inversion Hin. Qed.

Lemma to_any_ok v : any_ok (to_any v) = true.
Proof.
  remember (json_size v) as n eqn:Hn. assert (json_size v <= n)%nat as Hle by lia. clear Hn.
  revert v Hle. induction n as [|n IH]; intros v Hle; destruct v as [| |lit| |l|l]; try done;
    try (by simpl in Hle; lia).
  - simpl. destruct (convertNumber lit) eqn:E; [by eapply convertNumber_finite|done].
  - simpl in *. rewrite forallb_forall. intros w Hw. apply in_map_iff in Hw as (u & <- & Hu).
    apply IH. pose proof (json_size_elem u l (proj2 (list_elem_of_In _ _) Hu)). simpl in *. lia.
  - change (to_any (JObj l)) with (AMap (any_members l)). apply members_ok_map. unfold any_members.
    assert (forall k w, (k, w) ∈ l -> any_ok (to_any w) = true) as Hl.
    { intros k w Hin. apply IH. pose proof (json_size_member k w l Hin). lia. }
    clear - Hl. revert Hl. generalize members_ok_nil. generalize (@nil (string * any)).
    induction l as [|[k w] l IH]; intros acc Hacc Hl; simpl; [done|]. apply IH.
    + apply members_ok_set; [|done]. apply (Hl k). by left.
    + intros ? ? ?. eapply Hl. by right.
Qed.

(** What is written for a value with finite numbers is JSON that decodes. *)
Fixpoint of_any_ok (v : any) : any_ok v = true -> json_wf (of_any v) = true /\ in_range (of_any v) = true.
Proof.
  destruct v as [| |f| |l|l]; intros H; try done.
  - destruct (FormatFloat_reads f H) as [g Hg]. split; [exact (convertNumber_wf _ _ Hg)|]. simpl. by rewrite Hg.
  - cbn [any_ok of_any json_wf in_range] in *. induction l as [|w l IH]; [done|]. cbn [map forallb] in *.
    apply andb_prop in H as [Hw Hl]. destruct (of_any_ok w Hw) as [-> ->]. exact (IH Hl).
  - cbn [any_ok of_any json_wf in_range] in *. induction l as [|[k w] l IH]; [done|]. cbn [map forallb] in *.
    apply andb_prop in H as [Hw Hl]. destruct (of_any_ok w Hw) as [-> ->]. exact (IH Hl).
Qed.

Lemma set_path_ok segs v l : members_ok l -> members_ok (set_path segs (AStr v) l).
Proof.
  revert l. induction segs as [|f [|g segs] IH]; intros l Hl; [done|by apply members_ok_set|].
  cbn [set_path]. destruct (mget f l) as [w|] eqn:Hf.
  - pose proof (members_ok_get _ _ _ Hl Hf) as Hw. destruct w; try (by apply IH).
    apply members_ok_set; [|done]. apply members_ok_map, IH. by apply members_ok_map.
  - apply members_ok_set; [|done]. apply members_ok_map, IH, members_ok_nil.
Qed.

Lemma NewMapFromJSON_ok s m : NewMapFromJSON s = Some m -> members_ok m.
Proof.
  unfold NewMapFromJSON. destruct (json_parse s) as [[| | | | |l]|]; try done. destruct (in_range _); [|done].
  intros [= <-]. apply members_ok_map. exact (to_any_ok (JObj l)).
Qed.

(** What is written reads back, decoded. *)
Lemma NewMapFromJSON_JSON m : members_ok m -> NewMapFromJSON (Map_JSON (Some m)) = Some (any_members (of_members m)).
Proof.
  intros Hm. apply members_ok_map, of_any_ok in Hm as [Hw Hr]. unfold NewMapFromJSON, Map_JSON.
  rewrite json_parse_print by done. cbn [of_any] in *. by rewrite Hr.
Qed.

Lemma read_written m loc v :
  members_ok m -> get_path (Split loc ".") m = AStr v -> ReadJSONAsMapString (Map_JSON (Some m)) loc = Ok v.
Proof.
  intros Hm Hg. unfold ReadJSONAsMapString. rewrite NewMapFromJSON_JSON by done. unfold Map_Get. simpl default.
  by rewrite get_path_reread, Hg.
Qed.

(** (C30) Editing a JSON text: for every text that is a JSON object with numbers in
    range, and every locator, also where the entries it passes through are missing or are not
    objects, writing a string under the locator succeeds and reading the new
    text at it gives the string; the text of no object, [null] included,
    panics. *)
Theorem json_write_read jsonString loc value :
  match NewMapFromJSON jsonString with
  | Some _ => exists out, WriteJSONAsMapToString jsonString loc value = Ok out
                          /\ ReadJSONAsMapString out loc = Ok value
  | None => exists p, WriteJSONAsMapToString jsonString loc value = Panic p
  end.
Proof.
  unfold WriteJSONAsMapToString. destruct (NewMapFromJSON jsonString) as [m|] eqn:E; [|by eexists].
  eexists. split; [reflexivity|]. apply read_written.
  - apply set_path_ok. by eapply NewMapFromJSON_ok.
  - apply get_set_path, Split_nonempty.
Qed.
