(* ===== verification/CertSpec.v ===== *)
(** * Certificate specifications (src/util: certificate.go, jsonprocessor.go)

    [parseCertificateRequest], which reads a certificate specification from a
    JSON text, and [newCertificateFromSpec], which makes the template of a
    certificate from one.  Two entries are floating-point numbers (file
    GoFloat).  Key generation and [x509.CreateCertificate] are parameters. *)

From Stdlib Require Import SpecFloat.
From S2P Require Import Prelude GoStrings GoFmt GoJson GoFloat CopError JsonMap.

(** Multiplication of [int64]. *)
Definition wrap64 (z : Z) : Z := ((z + 2 ^ 63) mod 2 ^ 64 - 2 ^ 63)%Z.

(** [time.Hour], in nanoseconds. *)
Definition time_Hour : Z := 3600 * 1000000000.

(** ** certificate.go *)

Section CertificateSpec.
Context {Pub Extension : Type}.

Record CertificateSpec := mkCertificateSpec {
  commonName : string;
  serialNumber : Z;
  pub : Pub;
  usage : Z;
  spec_NotBefore : Z;
  spec_NotAfter : Z;
  ext : option (list Extension);
  country : string;
  spec_State : string;
  locality : string;
  Organization : string;
  OrganizationUnit : string;
  certificateType : float64
}.

Definition GetCommonName (spec : CertificateSpec) : string := commonName spec.
Definition GetSerialNumber (spec : CertificateSpec) : Z := serialNumber spec.
Definition GetPublicKey (spec : CertificateSpec) : Pub := pub spec.
Definition GetUsage (spec : CertificateSpec) : Z := usage spec.
Definition GetNotBefore (spec : CertificateSpec) : Z := spec_NotBefore spec.
Definition GetNotAfter (spec : CertificateSpec) : Z := spec_NotAfter spec.
Definition GetOrganization (spec : CertificateSpec) : string := Organization spec.
Definition GetCountry (spec : CertificateSpec) : string := country spec.
Definition GetSubjectKeyID (spec : CertificateSpec) : bytes := [x01; x02; x03; x04].
Definition GetExtensions (spec : CertificateSpec) : option (list Extension) := ext spec.
Definition GetLocality (spec : CertificateSpec) : string := locality spec.
Definition GetOrganizationalUnit (spec : CertificateSpec) : string := OrganizationUnit spec.
Definition GetState (spec : CertificateSpec) : string := spec_State spec.
Definition GetCertificateType (spec : CertificateSpec) : float64 := certificateType spec.

(** [x509.ECDSAWithSHA384]. *)
Definition GetSignatureAlgorithm (spec : CertificateSpec) : Z := 11.

(** The fields of [x509.Certificate] the template sets. *)
Record Template := mkTemplate {
  tm_SerialNumber : Z;
  tm_CommonName : string;
  tm_Organization : list string;
  tm_OrganizationalUnit : list string;
  tm_Province : list string;
  tm_Country : list string;
  tm_Locality : list string;
  tm_NotBefore : Z;
  tm_NotAfter : Z;
  tm_SubjectKeyId : bytes;
  tm_SignatureAlgorithm : Z;
  tm_KeyUsage : Z;
  tm_BasicConstraintsValid : bool;
  tm_IsCA : bool;
  tm_Extensions : list Extension;
  tm_ExtraExtensions : list Extension
}.

Definition template_of (spec : CertificateSpec) : outcome Template :=
  let isCA := SFeqb (GetCertificateType spec) (nearest false 1 0) in
  match GetExtensions spec with
  | None => Panic nil_deref
  | Some exts =>
      Ok (mkTemplate (GetSerialNumber spec) (GetCommonName spec) [GetOrganization spec] [GetOrganizationalUnit spec]
            [GetState spec] [GetCountry spec] [GetLocality spec] (GetNotBefore spec) (GetNotAfter spec)
            (GetSubjectKeyID spec) (GetSignatureAlgorithm spec) (GetUsage spec) true isCA exts exts)
  end.

(** [newCertificateFromSpec]: a key that cannot be generated is used all the
    same.  The template signs itself. *)
Definition newCertificateFromSpec {K} (GenerateKey : outcome K)
    (CreateCertificate : Template -> Template -> K -> outcome bytes) (spec : CertificateSpec) : outcome bytes :=
  tmpl ← template_of spec;
  match GenerateKey with
  | Ok privKey => CreateCertificate tmpl tmpl privKey
  | Err _ => Panic nil_deref
  | Panic p => Panic p
  | Exit p => Exit p
  | OutOfFuel => OutOfFuel
  end.

(** ** jsonprocessor.go *)

(** [v.(float64)]. *)
Definition as_float64 (v : any) : outcome float64 :=
  match v with AFloat f => Ok f | _ => Panic "interface conversion: interface {} is not float64" end.

(** [parseCertificateRequest] at time [now]. *)
Definition parseCertificateRequest (now : Z) (jsonstring : string) (serial : Z) (key : Pub) (use : Z) (opt : list Extension)
    : outcome CertificateSpec :=
  let stringLocator := "TCertBatchRequest.CerificateRequestData" in
  let jsonMap := NewMapFromJSON jsonstring in
  let get k := Map_Get jsonMap (stringLocator +:+ k) in
  cn ← as_string (get ".CN");
  c ← as_string (get ".C");
  st ← as_string (get ".ST");
  l ← as_string (get ".L");
  o ← as_string (get ".O");
  ou ← as_string (get ".OU");
  validityPeriod ← as_float64 (get ".validityPeriod");
  ct ← as_float64 (Map_Get jsonMap "TCertBatchRequest.CertificateType");
  let NotAfter := (now + wrap64 (int64_of_float validityPeriod * time_Hour))%Z in
  Ok (mkCertificateSpec cn serial key use now NotAfter (Some opt) c st l o ou ct).
End CertificateSpec.
Arguments CertificateSpec : clear implicits.
Arguments Template : clear implicits.

(** ** From the request to the template *)

(** The text of a request. *)
Definition request_json (cn c st l o ou validity ctype : string) : json :=
  JObj [("TCertBatchRequest",
    JObj [("CerificateRequestData",
       JObj [("CN", JStr cn); ("C", JStr c); ("ST", JStr st); ("L", JStr l); ("O", JStr o); ("OU", JStr ou);
             ("validityPeriod", JNum validity)]);
     ("CertificateType", JNum ctype)])].

Lemma request_parse {Pub Ext} now cn c st l o ou validity ctype fv fc serial (key : Pub) use (opt : list Ext) :
  convertNumber validity = Some fv -> convertNumber ctype = Some fc ->
  parseCertificateRequest now (json_print (request_json cn c st l o ou validity ctype)) serial key use opt
  = Ok (mkCertificateSpec cn serial key use now (now + wrap64 (int64_of_float fv * time_Hour))
          (Some opt) c st l o ou fc).
Proof.
  intros Hv Hc. unfold parseCertificateRequest.
  assert (Hw : json_wf (request_json cn c st l o ou validity ctype) = true).
  { pose proof (convertNumber_wf _ _ Hv) as H1. pose proof (convertNumber_wf _ _ Hc) as H2. cbn [json_wf] in H1, H2.
    unfold request_json. cbn [json_wf forallb]. by rewrite H1, H2. }
  unfold NewMapFromJSON. rewrite json_parse_print by exact Hw. unfold request_json. cbn [in_range forallb].
  rewrite Hv, Hc. cbn [andb any_members fold_left to_any]. rewrite Hv, Hc. reflexivity.
Qed.

(** The nanoseconds of a whole number of hours fit an [int64] up to 2562047
    hours. *)
Lemma whole_hours n f : (0 <= n <= 2562047)%Z -> convertNumber (Itoa n) = Some f ->
  wrap64 (int64_of_float f * time_Hour) = (n * time_Hour)%Z.
Proof.
  intros Hn Hf. destruct (convertNumber_Itoa n) as (g & Hg & Hi); [lia|]. rewrite Hg in Hf. injection Hf as <-.
  rewrite Hi. unfold wrap64, time_Hour. rewrite Z.mod_small; lia.
Qed.

Lemma SFeqb_finite m e m' e' : SFeqb (S754_finite false m e) (S754_finite false m' e') = true -> m = m' /\ e = e'.
Proof.
  unfold SFeqb. cbn [SFcompare]. destruct (Z.compare_spec e e') as [->|?|?]; [|done..].
  change (Pos.compare_cont Eq m m') with (m ?= m')%positive. by destruct (Pos.compare_spec m m') as [->|?|?].
Qed.

(** A type is 1 exactly when it compares as the double 1. *)
Lemma float_is_one n f : (0 <= n < 2 ^ 53)%Z -> convertNumber (Itoa n) = Some f ->
  SFeqb f (nearest false 1 0) = (n =? 1)%Z.
Proof.
  intros Hn Hf. destruct (convertNumber_Itoa n Hn) as (g & Hg & Hi). rewrite Hg in Hf. injection Hf as <-.
  destruct (Z.eqb_spec n 1) as [->|Hne]; [by vm_compute in Hg; injection Hg as <-|].
  destruct (SFeqb g (nearest false 1 0)) eqn:E; [|done]. exfalso. apply Hne. rewrite <- Hi.
  change (nearest false 1 0) with (S754_finite false 4503599627370496 (-52)) in E.
  destruct g as [[]|[]| |[] m e]; try done. apply SFeqb_finite in E as [-> ->]. reflexivity.
Qed.

(** (C35) A certificate request text that has all its entries, laid out as
    [request_json] is marshalled, whose validity is a whole number of hours
    from 0 to 2562047 (as many as an int64 of nanoseconds holds) and whose
    certificate type is an integer from 0 to 2^53, makes, once a key is
    generated, a self-signed certificate with the subject of the request,
    valid from now for that many hours, with the given serial number, usage
    and extensions, and that is an authority's exactly for type 1. *)
Theorem request_template {Pub Ext K} now cn c st l o ou (n ctype : Z) serial (key : Pub) use (opt : list Ext)
    (GenerateKey : outcome K) CreateCertificate k :
  (0 <= n <= 2562047)%Z -> (0 <= ctype < 2 ^ 53)%Z -> GenerateKey = Ok k ->
  let t := mkTemplate serial cn [o] [ou] [st] [c] [l] now (now + n * 3600000000000) [x01; x02; x03; x04] 11 use true
             (ctype =? 1)%Z opt opt in
  (parseCertificateRequest now (json_print (request_json cn c st l o ou (Itoa n) (Itoa ctype))) serial key use opt
    ≫= newCertificateFromSpec GenerateKey CreateCertificate) = CreateCertificate t t k.
Proof.
  intros Hn Hc Hk t. destruct (convertNumber_Itoa n) as (f & Hf & _); [lia|].
  destruct (convertNumber_Itoa ctype Hc) as (g & Hg & _). rewrite (request_parse _ _ _ _ _ _ _ _ _ f g) by done.
  pose proof (whole_hours n f Hn Hf) as Hh. pose proof (float_is_one ctype g Hc Hg) as Ho.
  unfold mbind at 1, outcome_bind. unfold newCertificateFromSpec, template_of. cbn [GetExtensions ext].
  unfold mbind, outcome_bind. rewrite Hk. unfold GetNotAfter, GetCertificateType. cbn [spec_NotAfter certificateType].
  by rewrite Hh, Ho.
Qed.

Lemma request_template_witness :
  let create (t t' : Template unit) (k : unit) : outcome bytes := if tm_IsCA t then Ok [x01] else Ok [x00] in
  (parseCertificateRequest 0 (json_print (request_json "Bob" "US" "NC" "RTP" "IBM" "COP" (Itoa 100) (Itoa 1)))
     7 tt 1 [tt] ≫= newCertificateFromSpec (Ok tt) create) = Ok [x01].
Proof.
  intros create.
  rewrite (request_template 0 "Bob" "US" "NC" "RTP" "IBM" "COP" 100 1 7 tt 1 [tt] (Ok tt) create tt ltac:(lia) ltac:(lia) eq_refl).
  vm_compute. reflexivity.
Defined.
