(* ===== verification/Token.v ===== *)
(** * Authentication tokens (src/util/util.go)

    [CreateToken], [GenRSAToken], [GenECDSAToken], [VerifyToken],
    [DecodeToken] and the key and certificate readers around them.  The
    cryptography and the PEM, X.509 and DER readers are the fields of
    [Crypto]; [CryptoLaws] states what the code relies on: a signature made
    with a key verifies under the matching public key, and the DER form of a
    signature reads back.  Keys are opaque, named by integers. *)

From S2P Require Import Prelude GoStrings GoFmt GoJson CopError Base64.

(** The dynamic type of [x509.Certificate.PublicKey]. *)
Inductive PublicKey : Type :=
  | RSAKey (k : Z)
  | ECDSAKey (k : Z)
  | OtherKey (k : Z).       (* DSA, or nil for an algorithm Go does not know *)

Record Extension := mkExtension { ext_Id : list Z; ext_Critical : bool; ext_Value : bytes }.

(** The fields of [x509.Certificate] the program reads. *)
Record Certificate := mkCertificate {
  CommonName : string;
  PubKey : PublicKey;
  SerialNumber : Z;
  NotBefore : Z;
  NotAfter : Z;
  Extensions : list Extension;
  CRLDistributionPoints : list string;
  AuthorityKeyId : bytes
}.

Record Crypto := mkCrypto {
  pem_Decode : bytes -> option bytes;
  ParseCertificate : bytes -> outcome Certificate;
  ParseECPrivateKey : bytes -> outcome Z;
  ParsePKCS1PrivateKey : bytes -> outcome Z;
  sha384 : bytes -> bytes;
  SignPKCS1v15 : Z -> bytes -> outcome bytes;
  VerifyPKCS1v15 : Z -> bytes -> bytes -> option error;
  ecdsa_Sign : Z -> bytes -> outcome (Z * Z);
  ecdsa_Verify : Z -> bytes -> Z -> Z -> bool;
  asn1_MarshalSig : Z * Z -> outcome bytes;
  asn1_UnmarshalSig : bytes -> outcome (Z * Z)
}.

(** What is relied on; [rsa_pair]/[ec_pair] relate public and private keys. *)
Class CryptoLaws (C : Crypto) := {
  rsa_pair : Z -> Z -> Prop;
  ec_pair : Z -> Z -> Prop;
  law_rsa : forall pub priv h sig,
    rsa_pair pub priv -> SignPKCS1v15 C priv h = Ok sig -> VerifyPKCS1v15 C pub h sig = None;
  law_ecdsa : forall pub priv h r s,
    ec_pair pub priv -> ecdsa_Sign C priv h = Ok (r, s) -> ecdsa_Verify C pub h r s = true;
  law_asn1 : forall rs der, asn1_MarshalSig C rs = Ok der -> asn1_UnmarshalSig C der = Ok rs
}.

(** Wrapping the error of an outcome: [if err != nil { return ..., f(err) }]. *)
Definition on_err {A} (f : error -> error) (o : outcome A) : outcome A :=
  match o with Err e => Err (f e) | _ => o end.

Section Token.
Context (C : Crypto).

Definition GetECPrivateKey (raw : bytes) : outcome Z :=
  match pem_Decode C raw with
  | None => Err (NewErr "Failed to decode the given PEM-encoded ECDSA key")
  | Some decoded =>
      on_err (fun err => Errorf "x509.ParseECPrivateKey failed: %s" [FStr (Error err)])
        (ParseECPrivateKey C decoded)
  end.

Definition GetRSAPrivateKey (raw : bytes) : outcome Z :=
  match pem_Decode C raw with
  | None => Err (NewErr "Failed to decode the given PEM-encoded RSA key")
  | Some decoded =>
      on_err (fun err => Errorf "Failure in x509.ParsePKCS1PrivateKey: %s" [FStr (Error err)])
        (ParsePKCS1PrivateKey C decoded)
  end.

Definition GetX509CertificateFromPEM (cert : bytes) : outcome Certificate :=
  match pem_Decode C cert with
  | None => Err (NewErr "Failed to PEM decode certificate")
  | Some block =>
      on_err (fun err => Errorf "Error from x509.ParseCertificate: %s" [FStr (Error err)])
        (ParseCertificate C block)
  end.

Definition GetEnrollmentIDFromX509Certificate (cert : Certificate) : string := CommonName cert.

Definition GetEnrollmentIDFromPEM (cert : bytes) : outcome string :=
  x509Cert ← GetX509CertificateFromPEM cert;
  mret (GetEnrollmentIDFromX509Certificate x509Cert).

(** What is hashed and signed: body and certificate, both in base64. *)
Definition signed_digest (b64body b64cert : string) : bytes :=
  sha384 C (bytes_of_string (b64body +:+ "." +:+ b64cert)).

Definition GenRSAToken (cert key body : bytes) : outcome string :=
  privKey ← GetRSAPrivateKey key;
  let b64body := B64Encode body in
  let b64cert := B64Encode cert in
  let h := signed_digest b64body b64cert in
  RSAsignature ← on_err (fun err => Errorf "Error from rsa.SignPKCS1v15: %s" [FStr (Error err)])
                   (SignPKCS1v15 C privKey h);
  let b64sig := B64Encode RSAsignature in
  mret (b64cert +:+ "." +:+ b64sig).

Definition GenECDSAToken (cert key body : bytes) : outcome string :=
  privKey ← GetECPrivateKey key;
  let b64body := B64Encode body in
  let b64cert := B64Encode cert in
  let h := signed_digest b64body b64cert in
  rs ← on_err (fun err => Errorf "Failed in ecdsa.Sign: %s" [FStr (Error err)])
         (ecdsa_Sign C privKey h);
  ECsignature ← on_err (fun err => Errorf "Failed in asn1.Marshal: %s" [FStr (Error err)])
                  (asn1_MarshalSig C rs);
  let b64sig := B64Encode ECsignature in
  mret (b64cert +:+ "." +:+ b64sig).

(** [CreateToken]: for any other kind of key the token is empty and no error
    is reported. *)
Definition CreateToken (cert key body : bytes) : outcome string :=
  x509Cert ← GetX509CertificateFromPEM cert;
  match PubKey x509Cert with
  | RSAKey _ => GenRSAToken cert key body
  | ECDSAKey _ => GenECDSAToken cert key body
  | OtherKey _ => mret ""
  end.

(** [DecodeToken]: the certificate, its base64 text and the base64 signature. *)
Definition DecodeToken (token : string) : outcome (Certificate * string * string) :=
  if bool_decide (token = "") then Err (NewErr "Invalid token; it is empty")
  else match Split token "." with
  | [b64cert; b64sig] =>
      match B64Decode b64cert with
      | None => Err (NewErr "Failed to decode base64 encoded x509 cert: illegal base64 data")
      | Some certDecoded =>
          match pem_Decode C certDecoded with
          | None => Err (NewErr "Failed to PEM decode the certificate")
          | Some block =>
              x509Cert ← on_err (fun err => Errorf "Error in parsing x509 cert given Block Bytes: %s"
                                              [FStr (Error err)]) (ParseCertificate C block);
              mret (x509Cert, b64cert, b64sig)
          end
      end
  | _ => Err (NewErr "Invalid token format; expecting 2 parts separated by '.'")
  end.

(** [VerifyToken]: the switch has no default case. *)
Definition VerifyToken (token : string) (body : bytes) : outcome Certificate :=
  '(x509Cert, b64Cert, b64Sig) ← DecodeToken token;
  match B64Decode b64Sig with
  | None => Err (NewErr "Invalid base64 encoded signature in token: illegal base64 data")
  | Some sig =>
      let b64Body := B64Encode body in
      let h := signed_digest b64Body b64Cert in
      match PubKey x509Cert with
      | RSAKey k =>
          match VerifyPKCS1v15 C k h sig with
          | Some err => Err err
          | None => mret x509Cert
          end
      | ECDSAKey k =>
          rs ← on_err (fun err => Errorf "Failed to unmarshal EC signature to R and S: %s"
                                    [FStr (Error err)]) (asn1_UnmarshalSig C sig);
          if ecdsa_Verify C k h rs.1 rs.2 then mret x509Cert
          else Err (NewErr "token verification failed (ecdsa.Verify failed)")
      | OtherKey _ => mret x509Cert
      end
  end.
End Token.

(** ** Correctness *)

Lemma outcome_bind_Ok {A B} (m : outcome A) (f : A -> outcome B) b :
  (m ≫= f) = Ok b -> exists a, m = Ok a /\ f a = Ok b.
Proof. destruct m; simpl; try done. eauto. Qed.

Lemma on_err_Ok {A} f (o : outcome A) a : on_err f o = Ok a -> o = Ok a.
Proof. by destruct o. Qed.

(** The signature over the digest that the key of [cert] accepts. *)
Definition signature_valid (C : Crypto) (cert : Certificate) (h sig : bytes) : Prop :=
  match PubKey cert with
  | RSAKey k => VerifyPKCS1v15 C k h sig = None
  | ECDSAKey k => exists r s, asn1_UnmarshalSig C sig = Ok (r, s) /\ ecdsa_Verify C k h r s = true
  | OtherKey _ => True
  end.

Lemma DecodeToken_inv C token cert b64cert b64sig :
  DecodeToken C token = Ok (cert, b64cert, b64sig) ->
  token = b64cert +:+ "." +:+ b64sig
  /\ Contains b64cert "." = false /\ Contains b64sig "." = false
  /\ exists der block, B64Decode b64cert = Some der /\ pem_Decode C der = Some block
       /\ ParseCertificate C block = Ok cert.
Proof.
  unfold DecodeToken. case_bool_decide; [done|].
  destruct (Split token ".") as [|c [|s [|? ?]]] eqn:E; try done.
  destruct (B64Decode c) as [der|] eqn:Ec; [|done].
  destruct (pem_Decode C der) as [block|] eqn:Ep; [|done].
  intros (x & Hx%on_err_Ok & [= <- <- <-])%outcome_bind_Ok.
  pose proof (Join_Split token ".") as Hj. pose proof (Split_parts_no_sep token ".") as Hn.
  rewrite E in Hj, Hn. simpl in Hj. apply Forall_cons in Hn as [Hc [Hs _]%Forall_cons].
  split; [by rewrite <- Hj|]. eauto 10.
Qed.

Lemma DecodeToken_make C der block cert sig :
  der <> [] -> pem_Decode C der = Some block -> ParseCertificate C block = Ok cert ->
  DecodeToken C (B64Encode der +:+ "." +:+ B64Encode sig) = Ok (cert, B64Encode der, B64Encode sig).
Proof.
  intros Hne Hp Hc. unfold DecodeToken.
  rewrite bool_decide_false.
  2:{ pose proof (B64Encode_nonempty der Hne). by destruct (B64Encode der). }
  change ("." +:+ B64Encode sig) with (String "." (B64Encode sig)).
  rewrite Split_app_sep by apply B64Encode_no_dot.
  rewrite Split_no_sep by apply B64Encode_no_dot.
  by rewrite B64Decode_B64Encode, Hp, Hc.
Qed.

(** The key file belongs to the certificate's public key. *)
Definition matching_key (C : Crypto) `{!CryptoLaws C} (cert : Certificate) (key : bytes) : Prop :=
  match PubKey cert with
  | RSAKey k => exists priv, GetRSAPrivateKey C key = Ok priv /\ rsa_pair k priv
  | ECDSAKey k => exists priv, GetECPrivateKey C key = Ok priv /\ ec_pair k priv
  | OtherKey _ => False
  end.

Lemma CreateToken_verifies C `{!CryptoLaws C} der key body cert token :
  GetX509CertificateFromPEM C der = Ok cert -> der <> [] -> matching_key C cert key ->
  CreateToken C der key body = Ok token ->
  VerifyToken C token body = Ok cert
  /\ exists sig, token = B64Encode der +:+ "." +:+ B64Encode sig.
Proof.
  intros Hcert Hne Hkey Htok. unfold CreateToken in Htok. rewrite Hcert in Htok. simpl in Htok.
  unfold GetX509CertificateFromPEM in Hcert. destruct (pem_Decode C der) as [block|] eqn:Ep; [|done].
  apply on_err_Ok in Hcert. unfold matching_key in Hkey.
  destruct (PubKey cert) as [k|k|k] eqn:Ek; [| |done]; destruct Hkey as (priv & Hpriv & Hpair).
  - unfold GenRSAToken in Htok. rewrite Hpriv in Htok. simpl in Htok.
    apply outcome_bind_Ok in Htok as (sig & Hs%on_err_Ok & [= <-]). split; [|by eexists].
    unfold VerifyToken. rewrite (DecodeToken_make C der block cert) by done. simpl.
    by rewrite B64Decode_B64Encode, Ek, (law_rsa k priv _ _ Hpair Hs).
  - unfold GenECDSAToken in Htok. rewrite Hpriv in Htok. simpl in Htok.
    apply outcome_bind_Ok in Htok as ([r s] & Hs%on_err_Ok & Htok).
    apply outcome_bind_Ok in Htok as (sig & Hd%on_err_Ok & [= <-]). split; [|by eexists].
    unfold VerifyToken. rewrite (DecodeToken_make C der block cert) by done. simpl.
    rewrite B64Decode_B64Encode, Ek, (law_asn1 _ _ Hd). simpl.
    by rewrite (law_ecdsa k priv _ _ _ Hpair Hs).
Qed.

(** A token made from a certificate and its private key over a request
    body verifies over that body, and yields that certificate. *)
Theorem VerifyToken_CreateToken C `{!CryptoLaws C} der key body cert token :
  GetX509CertificateFromPEM C der = Ok cert -> der <> [] -> matching_key C cert key ->
  CreateToken C der key body = Ok token ->
  VerifyToken C token body = Ok cert.
Proof. intros. by apply (CreateToken_verifies C der key). Qed.

(** The text that is signed determines both the body and the certificate. *)
Lemma signed_text_inj b1 b2 c1 c2 :
  B64Encode b1 +:+ "." +:+ c1 = B64Encode b2 +:+ "." +:+ c2 -> b1 = b2 /\ c1 = c2.
Proof.
  intros H.
  assert (E : forall b c, Split (B64Encode b +:+ "." +:+ c) "." = B64Encode b :: Split c ".").
  { intros b c. change ("." +:+ c) with (String "." c). apply Split_app_sep, B64Encode_no_dot. }
  pose proof (f_equal (fun s => Split s ".") H) as HS. simpl in HS. rewrite !E in HS.
  injection HS as Hb Hc. split.
  - apply (f_equal B64Decode) in Hb. rewrite !B64Decode_B64Encode in Hb. congruence.
  - by rewrite <- (Join_Split c1 "."), <- (Join_Split c2 "."), Hc.
Qed.

(** (C9) [VerifyToken] is sound: an accepted token is a base64 certificate and
    a base64 signature, the returned certificate is the one in the token, and
    the signature is valid, under that certificate's key, for the digest of
    this body together with this certificate; the text signed for any other
    body is a different one. *)
Theorem VerifyToken_sound C token body cert :
  VerifyToken C token body = Ok cert ->
  exists b64cert b64sig der block sig,
    token = b64cert +:+ "." +:+ b64sig
    /\ B64Decode b64cert = Some der /\ pem_Decode C der = Some block
    /\ ParseCertificate C block = Ok cert
    /\ B64Decode b64sig = Some sig
    /\ signature_valid C cert (signed_digest C (B64Encode body) b64cert) sig
    /\ (forall body', body' <> body ->
          B64Encode body' +:+ "." +:+ b64cert <> B64Encode body +:+ "." +:+ b64cert).
Proof.
  unfold VerifyToken.
  intros ([[x b64cert] b64sig] & Hd%DecodeToken_inv & Hv)%outcome_bind_Ok.
  destruct Hd as (Htok & _ & _ & der & block & Hder & Hblock & Hparse).
  destruct (B64Decode b64sig) as [sig|] eqn:Es; [|done].
  assert (x = cert /\ signature_valid C x (signed_digest C (B64Encode body) b64cert) sig) as [-> Hs].
  { unfold signature_valid. destruct (PubKey x) as [k|k|k].
    - destruct (VerifyPKCS1v15 _ _ _ _); [done|]. by injection Hv.
    - apply outcome_bind_Ok in Hv as ([r s] & Hrs%on_err_Ok & Hv). simpl in Hv.
      destruct (ecdsa_Verify _ _ _ _ _) eqn:Ev; [|done]. injection Hv as ->. eauto.
    - by injection Hv. }
  exists b64cert, b64sig, der, block, sig. split; [done|]. repeat (split; [done|]).
  intros body' Hne Heq. by apply signed_text_inj in Heq as [? _].
Qed.

(** No signature is checked for a certificate whose key is neither RSA nor
    ECDSA: any base64 text is accepted as its signature, over any body. *)
Theorem VerifyToken_unchecked C der block cert k sig body :
  der <> [] -> pem_Decode C der = Some block -> ParseCertificate C block = Ok cert ->
  PubKey cert = OtherKey k ->
  VerifyToken C (B64Encode der +:+ "." +:+ B64Encode sig) body = Ok cert.
Proof.
  intros Hne Hp Hc Hk. unfold VerifyToken. rewrite (DecodeToken_make C der block cert) by done.
  simpl. by rewrite B64Decode_B64Encode, Hk.
Qed.

(** ** A concrete instance, for the witnesses

    Certificates are one byte naming the kind of key; a signature is the key
    followed by the digest. *)
Definition toy_cert (pk : PublicKey) : Certificate :=
  mkCertificate "admin" pk 1 0 100 [] [] [].

Definition toy_crypto : Crypto :=
  mkCrypto (fun b => match b with [] => None | _ => Some b end)
    (fun b => match b with
              | [x01] => Ok (toy_cert (RSAKey 7))
              | [x02] => Ok (toy_cert (ECDSAKey 7))
              | [x03] => Ok (toy_cert (OtherKey 7))
              | _ => Err (ErrPlain "asn1: structure error")
              end)
    (fun b => Ok 7%Z) (fun b => Ok 7%Z) (fun b => b)
    (fun k h => Ok (Zbyte k :: h))
    (fun k h sig => if bool_decide (sig = Zbyte k :: h) then None
                    else Some (ErrPlain "crypto/rsa: verification error"))
    (fun k h => Ok (k, 5%Z))
    (fun k h r s => bool_decide (r = k /\ s = 5%Z))
    (fun rs => if bool_decide (0 <= rs.1 < 256 /\ 0 <= rs.2 < 256)%Z
               then Ok [Zbyte rs.1; Zbyte rs.2] else Err (ErrPlain "asn1: too large"))
    (fun b => match b with [r; s] => Ok (byteZ r, byteZ s) | _ => Err (ErrPlain "asn1: syntax error") end).

#[export] Instance toy_laws : CryptoLaws toy_crypto.
Proof.
  refine {| rsa_pair := eq; ec_pair := eq |}; simpl.
  - intros pub priv h sig <- [= <-]. by rewrite bool_decide_true.
  - intros pub priv h r s <- [= <- <-]. by rewrite bool_decide_true.
  - intros [r s] der. case_bool_decide as H; [|done]. intros [= <-]. simpl in *.
    rewrite !byteZ_Zbyte, !Z.mod_small by lia. done.
Defined.

Definition toy_token : string := default "" (match CreateToken toy_crypto [x01] [x09] [x55; x66] with
                                             | Ok t => Some t | _ => None end).

Lemma VerifyToken_CreateToken_witness :
  VerifyToken toy_crypto toy_token [x55; x66] = Ok (toy_cert (RSAKey 7)).
Proof.
  apply (VerifyToken_CreateToken toy_crypto [x01] [x09] [x55; x66] (toy_cert (RSAKey 7)) toy_token);
    [reflexivity|done|by exists 7%Z|reflexivity].
Defined.

Lemma VerifyToken_sound_witness :
  exists b64cert b64sig der block sig,
    toy_token = b64cert +:+ "." +:+ b64sig
    /\ B64Decode b64cert = Some der /\ pem_Decode toy_crypto der = Some block
    /\ ParseCertificate toy_crypto block = Ok (toy_cert (RSAKey 7))
    /\ B64Decode b64sig = Some sig
    /\ signature_valid toy_crypto (toy_cert (RSAKey 7))
         (signed_digest toy_crypto (B64Encode [x55; x66]) b64cert) sig
    /\ (forall body', body' <> [x55; x66] ->
          B64Encode body' +:+ "." +:+ b64cert <> B64Encode [x55; x66] +:+ "." +:+ b64cert).
Proof.
  apply (VerifyToken_sound toy_crypto toy_token [x55; x66] (toy_cert (RSAKey 7))).
  vm_compute. reflexivity.
Defined.

(** A forged request: certificate of kind 3, signature [0]. *)
Lemma VerifyToken_unchecked_witness :
  VerifyToken toy_crypto (B64Encode [x03] +:+ "." +:+ B64Encode [x00]) [x55] = Ok (toy_cert (OtherKey 7)).
Proof.
  apply (VerifyToken_unchecked toy_crypto [x03] [x03] (toy_cert (OtherKey 7)) 7 [x00] [x55]);
    [done|reflexivity..].
Defined.
