(* ===== verification/Database.v ===== *)
(** * The SQL database as the server sees it

    The tables of src/cli/server/dbutil/dbutil.go as lists of rows in
    insertion order, the clock behind [CURRENT_TIMESTAMP], the pseudo-random
    source of src/util/util.go, and a schedule of statement failures
    ([faults]): an entry [Fail msg] makes the next statement fail with that
    message and without effect (SQL statements are atomic), [Pass] lets it
    run, and [Gone ts] says that the database lacks the tables [ts], so that
    every statement on one of them fails from then on; an exhausted schedule
    means no failure.  A statement names its table.  Column widths are not
    enforced (as in SQLite).

    The number of rows an UPDATE affects depends on the driver: MySQL's
    reports the rows that changed (its [clientFoundRows] is false by default,
    src/vendor/github.com/go-sql-driver/mysql/README.md), the other two the
    rows that matched.

    Placeholders: [sqlx.Rebind] rewrites [?] for the driver; the postgres
    driver rejects a statement that still has one. *)

From S2P Require Import Prelude GoStrings GoFmt CopError.

(** ** Rows *)

(** [UserRecord] of dbaccessor.go: a row of the users table. *)
Record UserRecord := mkUserRecord {
  ur_Name : string;
  ur_Pass : string;
  ur_Type : string;
  ur_Group : string;
  ur_Attributes : string;
  ur_State : Z;
  ur_MaxEnrollments : Z;
  ur_SerialNumber : string;
  ur_AKI : string
}.

(** [GroupRecord]: a row of the groups table; [None] is SQL's NULL. *)
Record GroupRecord := mkGroupRecord {
  gr_Name : string;
  gr_ParentID : string;
  gr_Prekey : option string
}.

(** [certdb.CertificateRecord] of CFSSL. *)
Record CertificateRecord := mkCertificateRecord {
  cr_Serial : string;
  cr_AKI : string;
  cr_CALabel : string;
  cr_Status : string;
  cr_Reason : Z;
  cr_Expiry : Z;
  cr_RevokedAt : Z;
  cr_PEM : string
}.

(** [CertRecord] of certdbaccessor.go: CFSSL's record with an enrollment ID. *)
Record CertRecord := mkCertRecord {
  c_ID : string;
  c_rec : CertificateRecord
}.

#[export] Instance UserRecord_eq_dec : EqDecision UserRecord.
Proof. solve_decision. Defined.

#[export] Instance GroupRecord_eq_dec : EqDecision GroupRecord.
Proof. solve_decision. Defined.

#[export] Instance CertificateRecord_eq_dec : EqDecision CertificateRecord.
Proof. solve_decision. Defined.

#[export] Instance CertRecord_eq_dec : EqDecision CertRecord.
Proof. solve_decision. Defined.

(** ** The database *)

(** What the next statements meet. *)
Inductive fault :=
  | Fail (msg : string)
  | Pass
  | Gone (tables : list string).

Record DB := mkDB {
  users : list UserRecord;
  groups : list GroupRecord;
  certificates : list CertRecord;
  now : Z;
  rnd : nat -> Z;
  rnd_pos : nat;
  faults : list fault
}.

Definition set_users (l : list UserRecord) (d : DB) : DB :=
  mkDB l (groups d) (certificates d) (now d) (rnd d) (rnd_pos d) (faults d).

Definition set_groups (l : list GroupRecord) (d : DB) : DB :=
  mkDB (users d) l (certificates d) (now d) (rnd d) (rnd_pos d) (faults d).

Definition set_certificates (l : list CertRecord) (d : DB) : DB :=
  mkDB (users d) (groups d) l (now d) (rnd d) (rnd_pos d) (faults d).

Definition set_rnd_pos (n : nat) (d : DB) : DB :=
  mkDB (users d) (groups d) (certificates d) (now d) (rnd d) n (faults d).

Definition set_faults (l : list fault) (d : DB) : DB :=
  mkDB (users d) (groups d) (certificates d) (now d) (rnd d) (rnd_pos d) l.

(** An open [*sqlx.DB]: its driver, which the accessors depend on, and the
    SQLite file or the database it is connected to. *)
Record DBHandle := mkDBHandle { driverName : string; databaseName : string }.

Definition sqlite3 : DBHandle := mkDBHandle "sqlite3" "cop.db".
Definition postgres : DBHandle := mkDBHandle "postgres" "cop".
Definition mysql : DBHandle := mkDBHandle "mysql" "cop".

(** ** Statements *)

Fixpoint rebind_dollar (j : Z) (query : string) : string :=
  match query with
  | EmptyString => ""
  | String "?" q => "$" +:+ Itoa j +:+ rebind_dollar (j + 1) q
  | String c q => String c (rebind_dollar j q)
  end.

(** [sqlx.Rebind] for the three supported drivers. *)
Definition Rebind (h : DBHandle) (query : string) : string :=
  if bool_decide (driverName h = "postgres") then rebind_dollar 1 query else query.

(** Whether the driver accepts the statement's placeholders. *)
Definition accepts (h : DBHandle) (query : string) : bool :=
  negb (bool_decide (driverName h = "postgres") && Contains query "?").

(** Run one statement on table [t]: a pending failure, or the statement's
    effect. *)
Definition statement {A} (t : string) (f : DB -> outcome A * DB) : comp DB A := fun d =>
  match faults d with
  | Fail msg :: fs => (Err (ErrPlain msg), set_faults fs d)
  | Pass :: fs => f (set_faults fs d)
  | Gone ts :: _ =>
      if bool_decide (t ∈ ts) then (Err (ErrPlain ("no such table: " +:+ t)), d) else f d
  | [] => f d
  end.

(** [db.Exec]/[db.Get]/[db.Select] of a query text with [?] placeholders. *)
Definition exec {A} (h : DBHandle) (t query : string) (f : DB -> outcome A * DB) : comp DB A :=
  if accepts h query then statement t f else fail (ErrPlain "pq: syntax error").

(** The rows of a query; SQL errors are [sql.ErrNoRows] and the like. *)
Definition errNoRows : error := ErrPlain "sql: no rows in result set".

(** [UPDATE ... WHERE p]: the new rows and the number of rows affected. *)
Definition update_where {R} (p : R -> bool) (f : R -> R) (l : list R) : list R :=
  map (fun r => if p r then f r else r) l.

Definition count_where {R} (p : R -> bool) (l : list R) : Z :=
  Z.of_nat (length (List.filter p l)).

(** [RowsAffected] of [UPDATE ... SET f WHERE p]: the rows changed with MySQL,
    the rows matched with the others. *)
Definition affected {R} `{EqDecision R} (h : DBHandle) (p : R -> bool) (f : R -> R) (l : list R) : Z :=
  if bool_decide (driverName h = "mysql")
  then count_where (fun r => p r && negb (bool_decide (f r = r))) l
  else count_where p l.

(** ** Lemmas *)

Lemma rebind_no_placeholder j q : Contains (rebind_dollar j q) "?" = false.
Proof.
  revert j. induction q as [|c q IH]; intros j; [done|].
  assert (c = "?"%char \/
    (c <> "?"%char /\ rebind_dollar j (String c q) = String c (rebind_dollar j q))) as [->|[Hc ->]].
  { destruct c as [[] [] [] [] [] [] [] []]; auto. }
  - cbn [rebind_dollar]. by rewrite !Contains_app, Itoa_Contains, IH.
  - cbn [Contains]. by rewrite IH, bool_decide_false.
Qed.

(** A rebound statement is accepted by every driver. *)
Lemma accepts_Rebind h q : accepts h (Rebind h q) = true.
Proof.
  unfold accepts, Rebind. case_bool_decide; [|done]. by rewrite rebind_no_placeholder.
Qed.

Lemma exec_Rebind {A} h t q (f : DB -> outcome A * DB) : exec h t (Rebind h q) f = statement t f.
Proof. unfold exec. by rewrite accepts_Rebind. Qed.

Lemma statement_nofault {A} t (f : DB -> outcome A * DB) d :
  faults d = [] -> statement t f d = f d.
Proof. unfold statement. by intros ->. Qed.

(** A failing statement changes nothing but the schedule. *)
Lemma statement_fault {A} t (f : DB -> outcome A * DB) d msg fs :
  faults d = Fail msg :: fs -> statement t f d = (Err (ErrPlain msg), set_faults fs d).
Proof. unfold statement. by intros ->. Qed.

(** A statement on a missing table fails, and will fail again. *)
Lemma statement_gone {A} t (f : DB -> outcome A * DB) d ts fs :
  faults d = Gone ts :: fs -> t ∈ ts ->
  statement t f d = (Err (ErrPlain ("no such table: " +:+ t)), d).
Proof. unfold statement. intros -> Ht. by rewrite bool_decide_true. Qed.

(** What a statement can do: fail without effect, or run. *)
Lemma statement_cases {A} t (f : DB -> outcome A * DB) d :
  (exists msg fs, statement t f d = (Err (ErrPlain msg), set_faults fs d))
  \/ exists fs, statement t f d = f (set_faults fs d).
Proof.
  assert (Hd : d = set_faults (faults d) d) by by destruct d.
  unfold statement. destruct (faults d) as [|[msg| |ts] fs] eqn:E.
  - right. exists []. by rewrite Hd at 1.
  - left. by exists msg, fs.
  - right. by exists fs.
  - case_bool_decide; [left; eexists _, (Gone ts :: fs)|right; exists (Gone ts :: fs)]; by rewrite Hd at 1.
Qed.

(** Statement-level rule for invariants that ignore the failure schedule. *)
Lemma preserves_statement {A} (P : DB -> Prop) t (f : DB -> outcome A * DB) :
  (forall d fs, P d -> P (set_faults fs d)) -> (forall d, P d -> P (f d).2) ->
  preserves P (statement t f).
Proof.
  intros Hfs Hf d Hd.
  destruct (statement_cases t f d) as [(msg & fs & ->)|(fs & ->)]; simpl; auto.
Qed.

Lemma preserves_exec {A} (P : DB -> Prop) h t q (f : DB -> outcome A * DB) :
  (forall d fs, P d -> P (set_faults fs d)) -> (forall d, P d -> P (f d).2) ->
  preserves P (exec h t q f).
Proof.
  intros. unfold exec. case_match; [by apply preserves_statement|by apply preserves_lift].
Qed.

Lemma update_where_map {R B} (g : R -> B) p f (l : list R) :
  (forall r, g (f r) = g r) -> map g (update_where p f l) = map g l.
Proof.
  intros H. unfold update_where. rewrite map_map. apply map_ext. intros r.
  by destruct (p r).
Qed.

(** An update that keeps the selection predicate commutes with [find]. *)
Lemma find_update_where {R} (q p : R -> bool) (f : R -> R) (l : list R) :
  (forall r, q (f r) = q r) ->
  List.find q (update_where p f l) = (fun r => if p r then f r else r) <$> List.find q l.
Proof.
  intros H. induction l as [|r l IH]; simpl; [done|].
  destruct (p r) eqn:Ep; rewrite ?H; destruct (q r); simpl; rewrite ?Ep; done.
Qed.

Lemma filter_app_List {R} (p : R -> bool) l1 l2 :
  List.filter p (l1 ++ l2) = List.filter p l1 ++ List.filter p l2.
Proof. induction l1 as [|r l IH]; simpl; [done|]. rewrite IH. by destruct (p r). Qed.

(** An update that keeps its own selection predicate selects the same rows. *)
Lemma filter_update_where {R} (q p : R -> bool) (f : R -> R) (l : list R) :
  (forall r, q (f r) = q r) ->
  List.filter q (update_where p f l) = map (fun r => if p r then f r else r) (List.filter q l).
Proof.
  intros H. induction l as [|r l IH]; simpl; [done|].
  destruct (p r) eqn:Ep; rewrite ?H; destruct (q r); simpl; rewrite ?Ep, ?IH; done.
Qed.

(** The rows an UPDATE affects are among the rows it matches; without MySQL
    they are the same, and so they are when every matched row changes. *)
Lemma affected_matched {R} `{EqDecision R} h p f (l : list R) :
  driverName h <> "mysql" -> affected h p f l = count_where p l.
Proof. intros H. unfold affected. by rewrite bool_decide_false. Qed.

Lemma affected_changed {R} `{EqDecision R} h p f (l : list R) :
  (forall r, r ∈ l -> p r = true -> f r <> r) -> affected h p f l = count_where p l.
Proof.
  intros Hf. unfold affected. case_bool_decide; [|done]. unfold count_where. do 2 f_equal.
  apply filter_ext_in. intros r Hr%list_elem_of_In. destruct (p r) eqn:E; [|done].
  simpl. by rewrite bool_decide_false by auto.
Qed.

Lemma affected_le {R} `{EqDecision R} h p f (l : list R) :
  (0 <= affected h p f l <= count_where p l)%Z.
Proof.
  unfold affected, count_where. case_bool_decide; [|lia].
  induction l as [|r l IH]; simpl; [lia|]. destruct (p r); simpl; [|done].
  case_bool_decide; simpl; lia.
Qed.

(** An UPDATE that affects no row leaves the table as it is. *)
Lemma affected_none {R} `{EqDecision R} h p f (l : list R) :
  affected h p f l = 0%Z -> update_where p f l = l.
Proof.
  unfold affected, count_where, update_where. case_bool_decide.
  - induction l as [|r l IH]; simpl; [done|]. destruct (p r); simpl; [|intros; f_equal; auto].
    case_bool_decide as E; simpl; [|lia]. intros. f_equal; auto.
  - induction l as [|r l IH]; simpl; [done|]. destruct (p r); simpl; [lia|]. intros. f_equal; auto.
Qed.

Lemma set_certificates_id d : set_certificates (certificates d) d = d.
Proof. by destruct d. Qed.
