(* ===== verification/DbAccessor.v ===== *)
(** * The database-backed user registry (src/cli/server/dbaccessor.go)

    [Accessor]'s methods, statement by statement, over the [DB] state; the
    [DBUser] object a query returns; and [accessor_registry], the accessor as
    an implementation of the [spi.UserRegistry] interface, with the proof
    that it keeps the registry's laws. *)

From S2P Require Import Prelude GoStrings GoFmt GoJson CopError Registry Database.

Module Accessor.

(** The statements' texts. *)
Definition deleteUser : string := "
DELETE FROM users
	WHERE (id = ?);".

Definition getUser : string := "
SELECT * FROM users
	WHERE (id = ?)".

Definition insertGroup : string := "
INSERT INTO groups (name, parent_id)
	VALUES (?, ?)".

Definition deleteGroup : string := "
DELETE FROM groups
	WHERE (name = ?)".

Definition getGroup : string := "
SELECT name, parent_id FROM groups
	WHERE (name = ?)".

Definition updateMaxSQL : string := "UPDATE users SET max_enrollments = ? WHERE (id = ?)".

Definition updateStateSQL : string := "UPDATE users SET state = ? WHERE (id = ?)".

Definition selectPrekeySQL : string := "SELECT prekey FROM groups WHERE (name = ?)".

(** [Accessor]: the handle is nil until [SetDB]. *)
Record Accessor := mkAccessor { db : option DBHandle }.

Definition NewDBAccessor : Accessor := mkAccessor None.

Definition SetDB (d : Accessor) (h : DBHandle) : Accessor := mkAccessor (Some h).

(** [checkDB], giving the handle the rest of the method uses. *)
Definition checkDB (d : Accessor) : comp DB DBHandle :=
  match db d with
  | None => fail (NewErr "unknown db object, please check SetDB method")
  | Some h => mret h
  end.

Definition has_id (id : string) (r : UserRecord) : bool := bool_decide (ur_Name r = id).

Definition has_group (name : string) (r : GroupRecord) : bool := bool_decide (gr_Name r = name).

(** [INSERT INTO users]: only MySQL's table has a primary key on the id. *)
Definition exec_insertUser (h : DBHandle) (r : UserRecord) : comp DB Z :=
  statement "users" (fun d =>
    if bool_decide (driverName h = "mysql") && existsb (has_id (ur_Name r)) (users d)
    then (Err (Errorf "Error 1062: Duplicate entry '%s' for key 'PRIMARY'" [FStr (ur_Name r)]), d)
    else (Ok 1%Z, set_users (users d ++ [r]) d)).

(** [UPDATE users SET ... WHERE id = ?] with the number of rows the driver
    says it affected. *)
Definition update_users (h : DBHandle) (id : string) (f : UserRecord -> UserRecord) (d : DB)
    : outcome Z * DB :=
  (Ok (affected h (has_id id) f (users d)), set_users (update_where (has_id id) f (users d)) d).

Definition set_state (z : Z) (r : UserRecord) : UserRecord :=
  mkUserRecord (ur_Name r) (ur_Pass r) (ur_Type r) (ur_Group r) (ur_Attributes r) z
    (ur_MaxEnrollments r) (ur_SerialNumber r) (ur_AKI r).

Definition set_max (z : Z) (r : UserRecord) : UserRecord :=
  mkUserRecord (ur_Name r) (ur_Pass r) (ur_Type r) (ur_Group r) (ur_Attributes r) (ur_State r)
    z (ur_SerialNumber r) (ur_AKI r).

Definition set_info (u : UserInfo) (attrs : string) (r : UserRecord) : UserRecord :=
  mkUserRecord (ur_Name r) (ui_Pass u) (ui_Type u) (ui_Group u) attrs (ur_State r)
    (ur_MaxEnrollments r) (ur_SerialNumber r) (ur_AKI r).

(** The record [InsertUser] writes: unset fields are Go zero values. *)
Definition new_record (u : UserInfo) : UserRecord :=
  mkUserRecord (ui_Name u) (ui_Pass u) (ui_Type u) (ui_Group u)
    (marshal_attrs (ui_Attributes u)) 0 0 "" "".

Definition InsertUser (d : Accessor) (user : UserInfo) : comp DB unit :=
  h ← checkDB d;
  numRowsAffected ← exec_insertUser h (new_record user);
  if (numRowsAffected =? 0)%Z
  then fail (NewError UserStoreError "Failed to insert the user record" [])
  else if negb (numRowsAffected =? 1)%Z
  then fail (NewError UserStoreError "%d rows are affected, should be 1 row" [FInt numRowsAffected])
  else mret tt.

(** [DeleteUser] passes its statement to [Exec] without [Rebind]. *)
Definition DeleteUser (d : Accessor) (id : string) : comp DB unit :=
  h ← checkDB d;
  exec h "users" deleteUser (fun d =>
    (Ok tt, set_users (List.filter (fun r => negb (has_id id r)) (users d)) d)).

Definition UpdateUser (d : Accessor) (user : UserInfo) : comp DB unit :=
  h ← checkDB d;
  let attributes := marshal_attrs (ui_Attributes user) in
  numRowsAffected ← statement "users" (update_users h (ui_Name user) (set_info user attributes));
  if (numRowsAffected =? 0)%Z
  then fail (NewError UserStoreError "Failed to update the user record" [])
  else if negb (numRowsAffected =? 1)%Z
  then fail (NewError UserStoreError "%d rows are affected, should be 1 row" [FInt numRowsAffected])
  else mret tt.

(** [UpdateField]: the number of rows affected is not looked at. *)
Definition UpdateField (d : Accessor) (id : string) (field : Z) (value : Z) : comp DB unit :=
  h ← checkDB d;
  if (field =? maxEnrollments)%Z then
    _ ← exec h "users" (Rebind h updateMaxSQL) (update_users h id (set_max value)); mret tt
  else if (field =? state)%Z then
    _ ← exec h "users" (Rebind h updateStateSQL) (update_users h id (set_state value)); mret tt
  else fail (NewError DatabaseError "DB: Specified field does not exist or cannot be updated" []).

(** [GetField]: scanning a NULL prekey into a Go string is an error. *)
Definition GetField (d : Accessor) (id : string) (field : Z) : comp DB string :=
  h ← checkDB d;
  if (field =? prekey)%Z then
    exec h "groups" (Rebind h selectPrekeySQL) (fun d =>
      (match List.find (has_group id) (groups d) with
       | Some r => match gr_Prekey r with
                   | Some k => Ok k
                   | None => Err (ErrPlain "sql: Scan error on column index 0: unsupported Scan, storing driver.Value type <nil> into type *string")
                   end
       | None => Err errNoRows
       end, d))
  else fail (NewError DatabaseError "DB: Specified field does not exist or cannot be retrieved" []).

(** ** The user object *)

Record DBUser := mkDBUser {
  name : string;
  pass : string;
  du_state : Z;
  du_maxEnrollments : Z;
  affiliationPath : list string;
  attrs : gmap string string;
  du_db : DBHandle
}.

Definition newDBUser (h : DBHandle) (userRec : UserRecord) : DBUser :=
  mkDBUser (ur_Name userRec) (ur_Pass userRec) (ur_State userRec) (ur_MaxEnrollments userRec)
    (Split (ur_Group userRec) "/") (attr_map (unmarshal_attrs (ur_Attributes userRec))) h.

Definition GetName (u : DBUser) : string := name u.

(** [Login]: the state written back is computed from the record read when the
    object was created. *)
Definition Login (u : DBUser) (p : string) : comp DB unit :=
  if negb (bool_decide (pass u = p))
  then fail (NewError AuthorizationFailure "Incorrect username/password provided)" [])
  else if (du_maxEnrollments u >=? 0)%Z then
    if negb (du_maxEnrollments u =? 0)%Z && (du_state u >=? du_maxEnrollments u)%Z
    then fail (Errorf "The maximum number of enrollments is %d" [FInt (du_maxEnrollments u)])
    else
      let st := wrap64 (du_state u + 1) in
      numRowsAffected ←
        map_err (fun err => Errorf "Failed to update state of user %s to %d: %s"
                              [FStr (name u); FInt st; FStr (Error err)])
          (exec (du_db u) "users" (Rebind (du_db u) updateStateSQL)
             (update_users (du_db u) (name u) (set_state st)));
      if (numRowsAffected =? 0)%Z
      then fail (Errorf "no rows were affected when updating the state of user %s" [FStr (name u)])
      else if negb (numRowsAffected =? 1)%Z
      then fail (Errorf "%d rows were affected when updating the state of user %s"
                   [FInt numRowsAffected; FStr (name u)])
      else mret tt
  else mret tt.

Definition GetAffiliationPath (u : DBUser) : list string := affiliationPath u.

Definition GetAttribute (u : DBUser) (n : string) : string := default "" (attrs u !! n).

(** A [DBUser] as an [spi.User]. *)
Definition as_User (u : DBUser) : User DB :=
  mkUser (GetName u) (Login u) (GetAffiliationPath u) (GetAttribute u).

(** [GetUser]; the requested attribute names are not used by this back end. *)
Definition GetUser (d : Accessor) (id : string) (attrNames : list string) : comp DB (User DB) :=
  h ← checkDB d;
  userRec ← exec h "users" (Rebind h getUser) (fun d =>
    (match List.find (has_id id) (users d) with
     | Some r => Ok r
     | None => Err errNoRows
     end, d));
  mret (as_User (newDBUser h userRec)).

Definition InsertGroup (d : Accessor) (n parentID : string) : comp DB unit :=
  h ← checkDB d;
  exec h "groups" (Rebind h insertGroup) (fun d =>
    (Ok tt, set_groups (groups d ++ [mkGroupRecord n parentID None]) d)).

(** [DeleteGroup], like [DeleteUser], without [Rebind]. *)
Definition DeleteGroup (d : Accessor) (n : string) : comp DB unit :=
  h ← checkDB d;
  exec h "groups" deleteGroup (fun d =>
    (Ok tt, set_groups (List.filter (fun r => negb (has_group n r)) (groups d)) d)).

Definition GetGroup (d : Accessor) (n : string) : comp DB GroupInfo :=
  h ← checkDB d;
  exec h "groups" (Rebind h getGroup) (fun d =>
    (match List.find (has_group n) (groups d) with
     | Some r => Ok (mkGroupInfo (gr_Name r) (gr_ParentID r))
     | None => Err errNoRows
     end, d)).

Definition GetRootGroup (d : Accessor) : comp DB GroupInfo :=
  _ ← checkDB d; fail (NewErr "NOT YET IMPLEMENTED").

End Accessor.

(** The accessor as the server's [userRegistry]. *)
Definition accessor_registry (d : Accessor.Accessor) : UserRegistry DB :=
  mkUserRegistry (Accessor.GetUser d) (Accessor.InsertUser d) (Accessor.UpdateUser d)
    (Accessor.DeleteUser d) (Accessor.UpdateField d) (Accessor.GetField d) (Accessor.GetGroup d)
    (Accessor.GetRootGroup d) (Accessor.InsertGroup d) (Accessor.DeleteGroup d).

(** ** The laws *)

Import Accessor.

Definition row_view (r : UserRecord) : UserView :=
  mkUserView (mkUserInfo (ur_Name r) (ur_Pass r) (ur_Type r) (ur_Group r)
                (unmarshal_attrs (ur_Attributes r)))
    (ur_State r) (ur_MaxEnrollments r).

Definition users_view (l : list UserRecord) : gmap string UserView :=
  list_to_map (map (fun r => (ur_Name r, row_view r)) l).

Definition groups_view (l : list GroupRecord) : gmap string string :=
  list_to_map (map (fun r => (gr_Name r, gr_ParentID r)) l).

Definition db_view (d : DB) : RegistryView :=
  mkRegistryView (users_view (users d)) (groups_view (groups d)).

(** User ids and group names are unique. *)
Definition db_unique (d : DB) : Prop :=
  NoDup (map ur_Name (users d)) /\ NoDup (map gr_Name (groups d)).

Definition db_inv (d : DB) : Prop := faults d = [] /\ db_unique d.

Lemma users_view_cons r l :
  users_view (r :: l) = <[ur_Name r := row_view r]> (users_view l).
Proof. done. Qed.

Lemma groups_view_cons r l :
  groups_view (r :: l) = <[gr_Name r := gr_ParentID r]> (groups_view l).
Proof. done. Qed.

Lemma users_view_lookup l id :
  users_view l !! id = row_view <$> List.find (has_id id) l.
Proof.
  induction l as [|r l IH]; [done|]. rewrite users_view_cons. simpl. unfold has_id at 1.
  case_bool_decide as E; [by rewrite E, lookup_insert_eq|by rewrite lookup_insert_ne].
Qed.

Lemma groups_view_lookup l g :
  groups_view l !! g = gr_ParentID <$> List.find (has_group g) l.
Proof.
  induction l as [|r l IH]; [done|]. rewrite groups_view_cons. simpl. unfold has_group at 1.
  case_bool_decide as E; [by rewrite E, lookup_insert_eq|by rewrite lookup_insert_ne].
Qed.

Lemma find_has_id l id r : List.find (has_id id) l = Some r -> ur_Name r = id /\ In r l.
Proof. intros [H1 H2]%find_some. by apply bool_decide_eq_true in H2. Qed.

Lemma find_has_group l g r : List.find (has_group g) l = Some r -> gr_Name r = g.
Proof. intros [_ H]%find_some. by apply bool_decide_eq_true in H. Qed.

Lemma find_id_None l id : List.find (has_id id) l = None <-> id ∉ map ur_Name l.
Proof.
  induction l as [|r l IH]; simpl; [split; [by intros _ ?%not_elem_of_nil|done]|].
  unfold has_id at 1. case_bool_decide as E.
  - split; [done|]. intros []. apply elem_of_cons. by left.
  - rewrite IH, not_elem_of_cons. naive_solver.
Qed.

Lemma find_group_None l g : List.find (has_group g) l = None <-> g ∉ map gr_Name l.
Proof.
  induction l as [|r l IH]; simpl; [split; [by intros _ ?%not_elem_of_nil|done]|].
  unfold has_group at 1. case_bool_decide as E.
  - split; [done|]. intros []. apply elem_of_cons. by left.
  - rewrite IH, not_elem_of_cons. naive_solver.
Qed.

Lemma existsb_has_id l id : existsb (has_id id) l = false <-> id ∉ map ur_Name l.
Proof.
  rewrite <- find_id_None. induction l as [|r l IH]; simpl; [done|].
  destruct (has_id id r); simpl; [done|apply IH].
Qed.

(** Appending a row with a fresh id extends the view. *)
Lemma users_view_snoc l r :
  ur_Name r ∉ map ur_Name l -> users_view (l ++ [r]) = <[ur_Name r := row_view r]> (users_view l).
Proof.
  induction l as [|r' l IH]; [done|]. cbn [map app]. intros [Hne Hl]%not_elem_of_cons.
  rewrite !users_view_cons, IH by done. by rewrite insert_insert_ne.
Qed.

Lemma groups_view_snoc l r :
  gr_Name r ∉ map gr_Name l ->
  groups_view (l ++ [r]) = <[gr_Name r := gr_ParentID r]> (groups_view l).
Proof.
  induction l as [|r' l IH]; [done|]. cbn [map app]. intros [Hne Hl]%not_elem_of_cons.
  rewrite !groups_view_cons, IH by done. by rewrite insert_insert_ne.
Qed.

(** Updating the rows of an id alters the view at that id. *)
Lemma users_view_update l id f g :
  (forall r, ur_Name (f r) = ur_Name r) -> (forall r, row_view (f r) = g (row_view r)) ->
  users_view (update_where (has_id id) f l) = alter g id (users_view l).
Proof.
  intros Hn Hv. apply map_eq. intros i. rewrite users_view_lookup, find_update_where.
  2:{ intros r. unfold has_id. by rewrite Hn. }
  destruct (decide (i = id)) as [->|Hne].
  - rewrite lookup_alter_eq, users_view_lookup.
    destruct (List.find (has_id id) l) as [r|] eqn:E; simpl; [|done].
    apply find_some in E as [_ ->]. by rewrite Hv.
  - rewrite lookup_alter_ne, users_view_lookup by done.
    destruct (List.find (has_id i) l) as [r|] eqn:E; simpl; [|done].
    apply find_has_id in E as [E _]. unfold has_id. by rewrite bool_decide_false by congruence.
Qed.

Lemma count_where_unique l id :
  NoDup (map ur_Name l) ->
  count_where (has_id id) l = if decide (id ∈ map ur_Name l) then 1%Z else 0%Z.
Proof.
  unfold count_where. induction l as [|r l IH]; intros Hd; [done|].
  cbn [map List.filter] in *. apply NoDup_cons in Hd as [Hr Hd]. specialize (IH Hd).
  destruct (has_id id r) eqn:E; unfold has_id in E.
  - apply bool_decide_eq_true in E as <-. rewrite decide_False in IH by done.
    rewrite decide_True by set_solver. cbn [length]. lia.
  - apply bool_decide_eq_false in E. rewrite IH. repeat case_decide; set_solver.
Qed.

Section laws.
Context (h : DBHandle).
Let acc : Accessor := mkAccessor (Some h).

Lemma GetUser_run d id attrNames :
  faults d = [] ->
  GetUser acc id attrNames d =
    (match List.find (has_id id) (users d) with
     | Some r => Ok (as_User (newDBUser h r))
     | None => Err errNoRows
     end, d).
Proof.
  intros Hf. unfold GetUser, checkDB, mbind, comp_bind. simpl.
  rewrite exec_Rebind, statement_nofault by done. by destruct (List.find _ _).
Qed.

Lemma GetGroup_run d g :
  faults d = [] ->
  GetGroup acc g d =
    (match List.find (has_group g) (groups d) with
     | Some r => Ok (mkGroupInfo (gr_Name r) (gr_ParentID r))
     | None => Err errNoRows
     end, d).
Proof.
  intros Hf. unfold GetGroup, checkDB, mbind, comp_bind. simpl.
  by rewrite exec_Rebind, statement_nofault by done.
Qed.

Lemma InsertUser_run d u :
  faults d = [] -> ui_Name u ∉ map ur_Name (users d) ->
  InsertUser acc u d = (Ok tt, set_users (users d ++ [new_record u]) d).
Proof.
  intros Hf Hu. unfold InsertUser, checkDB, exec_insertUser, mbind, comp_bind. simpl.
  rewrite statement_nofault by done. rewrite (proj2 (existsb_has_id _ _)) by done.
  by rewrite andb_false_r.
Qed.

Lemma UpdateField_max_run d id z :
  faults d = [] ->
  UpdateField acc id maxEnrollments z d =
    (Ok tt, set_users (update_where (has_id id) (set_max z) (users d)) d).
Proof.
  intros Hf. unfold UpdateField, checkDB, mbind, comp_bind. simpl.
  by rewrite exec_Rebind, statement_nofault by done.
Qed.

Lemma UpdateField_state_run d id z :
  faults d = [] ->
  UpdateField acc id state z d =
    (Ok tt, set_users (update_where (has_id id) (set_state z) (users d)) d).
Proof.
  intros Hf. unfold UpdateField, checkDB, mbind, comp_bind. simpl.
  by rewrite exec_Rebind, statement_nofault by done.
Qed.

Lemma InsertGroup_run d g p :
  faults d = [] ->
  InsertGroup acc g p d = (Ok tt, set_groups (groups d ++ [mkGroupRecord g p None]) d).
Proof.
  intros Hf. unfold InsertGroup, checkDB, mbind, comp_bind. simpl.
  by rewrite exec_Rebind, statement_nofault by done.
Qed.

(** The only row of its name. *)
Lemma unique_row l r r' :
  NoDup (map ur_Name l) -> In r l -> In r' l -> ur_Name r' = ur_Name r -> r' = r.
Proof.
  induction l as [|x l IH]; simpl; [done|]. intros [Hx Hd]%NoDup_cons [->|Hr] [->|Hr'] E; auto; exfalso; apply Hx.
  - rewrite <- E. by apply list_elem_of_In, in_map.
  - rewrite E. by apply list_elem_of_In, in_map.
Qed.

(** Counting a login changes the row. *)
Lemma counted_changes r : set_state (wrap64 (ur_State r + 1)) r <> r.
Proof.
  intros H%(f_equal ur_State). cbn [ur_State set_state] in H. unfold wrap64 in H.
  pose proof (Z.div_mod (ur_State r + 1 + 2 ^ 63) (2 ^ 64) ltac:(lia)). lia.
Qed.

(** [Login] on a row read earlier, of a database without duplicate ids that
    still has the id; with MySQL, that still has the row as it was read. *)
Lemma Login_run d r p v :
  db_inv d -> ur_Name r ∈ map ur_Name (users d) -> driverName h <> "mysql" \/ In r (users d) ->
  spec_login (row_view r) p = Some v ->
  Login (newDBUser h r) p d =
    (Ok tt, if (ur_MaxEnrollments r <? 0)%Z then d
            else set_users (update_where (has_id (ur_Name r)) (set_state (uv_state v)) (users d)) d).
Proof.
  intros [Hf [Hu _]] Hr Hrow. unfold spec_login, Login. cbn [pass newDBUser row_view uv_info uv_max uv_state
    ui_Pass du_maxEnrollments du_state du_db name].
  rewrite !Z.geb_leb. destruct (bool_decide (ur_Pass r = p)); simpl; [|done].
  destruct (Z.ltb_spec (ur_MaxEnrollments r) 0).
  { intros [= <-]. by rewrite (proj2 (Z.leb_gt 0 _)) by lia. }
  rewrite (proj2 (Z.leb_le 0 _)) by lia.
  destruct (_ && _); [done|]. intros [= <-].
  unfold mbind, comp_bind, map_err. rewrite exec_Rebind, statement_nofault by done.
  unfold update_users.
  assert (affected h (has_id (ur_Name r)) (set_state (wrap64 (ur_State r + 1))) (users d) = 1%Z) as ->; [|done].
  trans (count_where (has_id (ur_Name r)) (users d)).
  - destruct Hrow as [Hm|Hrow]; [by apply affected_matched|].
    apply affected_changed. intros r' Hr'%list_elem_of_In E%bool_decide_eq_true.
    rewrite (unique_row _ _ _ Hu Hrow Hr' E). apply counted_changes.
  - rewrite count_where_unique by done. by rewrite decide_True by done.
Qed.

Lemma Login_refused d r p :
  spec_login (row_view r) p = None -> exists e, Login (newDBUser h r) p d = (Err e, d).
Proof.
  unfold spec_login, Login. cbn [pass newDBUser row_view uv_info uv_max uv_state
    ui_Pass du_maxEnrollments du_state du_db name].
  rewrite !Z.geb_leb. destruct (bool_decide (ur_Pass r = p)); simpl; [|by eexists].
  destruct (Z.ltb_spec (ur_MaxEnrollments r) 0); [done|].
  rewrite (proj2 (Z.leb_le 0 _)) by lia. destruct (_ && _); [by eexists|done].
Qed.

Lemma db_inv_set_users d l :
  db_inv d -> NoDup (map ur_Name l) -> db_inv (set_users l d).
Proof. by intros [Hf [_ Hg]] Hl. Qed.

Lemma db_inv_update d id f :
  (forall r, ur_Name (f r) = ur_Name r) -> db_inv d ->
  db_inv (set_users (update_where (has_id id) f (users d)) d).
Proof.
  intros Hn Hd. apply db_inv_set_users; [done|]. rewrite update_where_map by done. apply Hd.
Qed.

Lemma Login_view d r p v :
  db_inv d -> users_view (users d) !! ur_Name r = Some (row_view r) -> In r (users d) ->
  spec_login (row_view r) p = Some v ->
  exists d', Login (newDBUser h r) p d = (Ok tt, d') /\ db_inv d'
    /\ db_view d' = mkRegistryView (<[ur_Name r := v]> (users_view (users d)))
                                   (groups_view (groups d)).
Proof.
  intros Hd Hl Hr Hs. eexists. split; [by apply Login_run; [|apply list_elem_of_In, in_map|right|]|].
  destruct (spec_login_Some _ _ _ Hs) as [Hv Hneg]. simpl in Hneg.
  destruct (Z.ltb_spec (ur_MaxEnrollments r) 0).
  - split; [done|]. rewrite Hneg by done. by rewrite insert_id.
  - split; [by apply db_inv_update|]. unfold db_view. simpl. f_equal.
    rewrite (users_view_update _ _ _ (set_uv_state (uv_state v))) by done.
    apply map_eq. intros i. destruct (decide (i = ur_Name r)) as [->|Hne].
    + rewrite lookup_alter_eq, lookup_insert_eq, Hl. simpl. by rewrite <- Hv.
    + by rewrite lookup_alter_ne, lookup_insert_ne by done.
Qed.

#[export] Instance accessor_laws : RegistryLaws (accessor_registry acc).
Proof.
  refine {| reg_inv := db_inv; reg_view := db_view |}; simpl.
  - intros d id attrNames v [Hf _]. rewrite users_view_lookup, GetUser_run by done.
    destruct (List.find _ _) as [r|] eqn:E; simpl; [|done]. intros [= <-].
    exists (as_User (newDBUser h r)). apply find_has_id in E as [E _]. done.
  - intros d id attrNames [Hf _]. rewrite users_view_lookup, GetUser_run by done.
    destruct (List.find _ _); simpl; [done|]. by eexists.
  - intros d id attrNames v u p Hd. pose proof Hd as [Hf _].
    rewrite users_view_lookup, GetUser_run by done.
    destruct (List.find _ _) as [r|] eqn:E; simpl; [|done]. intros [= <-] [= <-].
    pose proof (users_view_lookup (users d) id) as Hl. rewrite E in Hl.
    apply find_has_id in E as [<- Hr]. destruct (spec_login _ _) as [v|] eqn:Hs.
    + by apply Login_view.
    + by apply Login_refused.
  - intros d u Hd. pose proof Hd as [Hf _]. rewrite users_view_lookup.
    intros Hn%fmap_None%find_id_None. eexists. split; [by apply InsertUser_run|]. split.
    + apply db_inv_set_users; [done|]. rewrite map_app. apply NoDup_snoc; [apply Hd|done].
    + unfold db_view. simpl. f_equal. rewrite users_view_snoc by done.
      unfold row_view, new_view. simpl. rewrite unmarshal_marshal_attrs. by destruct u.
  - intros d id z Hd. pose proof Hd as [Hf _]. eexists. split; [by apply UpdateField_max_run|].
    split; [by apply db_inv_update|]. unfold db_view. simpl. f_equal. by apply users_view_update.
  - intros d id z Hd. pose proof Hd as [Hf _]. eexists. split; [by apply UpdateField_state_run|].
    split; [by apply db_inv_update|]. unfold db_view. simpl. f_equal. by apply users_view_update.
  - intros d g p [Hf _]. rewrite groups_view_lookup, GetGroup_run by done.
    destruct (List.find _ _) as [r|] eqn:E; simpl; [|done]. intros [= <-].
    by apply find_has_group in E as <-.
  - intros d g [Hf _]. rewrite groups_view_lookup, GetGroup_run by done.
    destruct (List.find _ _); simpl; [done|]. by eexists.
  - intros d g p Hd. pose proof Hd as [Hf [Hu Hg]]. rewrite groups_view_lookup.
    intros Hn%fmap_None%find_group_None. eexists. split; [by apply InsertGroup_run|].
    split; [|unfold db_view; simpl; f_equal; by apply groups_view_snoc].
    split; [done|]. split; [done|]. simpl. rewrite map_app. by apply NoDup_snoc.
Defined.
End laws.
