(* ===== verification/CertDB.v ===== *)
(** * The certificate store (src/cli/server/certdbaccessor.go)

    [CertDBAccessor]'s methods over the certificates table, with the methods
    of CFSSL's [certsql.Accessor] (src/vendor/.../certdb/sql) it delegates to.
    The table's primary key is (serial number, authority key identifier).
    None of the scripts that create the tables makes CFSSL's
    [ocsp_responses] table, so the OCSP statements fail for want of it. *)

From S2P Require Import Prelude GoStrings GoFmt GoJson CopError Token Database.

(** CFSSL's [errors.Wrap(CertStoreError, reason, err)]. *)
Definition CertStoreError : Z := 11000.
Definition Unknown : Z := 0.
Definition RecordNotFound : Z := 200.

Definition cfssl_Wrap (reason : Z) (err : error) : error :=
  ErrCFSSL (CertStoreError + reason) (Error err).

Definition wrapSQLError {A} (m : comp DB A) : comp DB A := map_err (cfssl_Wrap Unknown) m.

(** Selecting rows. *)
Definition has_cert (serial aki : string) (r : CertRecord) : bool :=
  bool_decide (cr_Serial (c_rec r) = serial) && bool_decide (cr_AKI (c_rec r) = aki).

Definition cert_of (id : string) (r : CertRecord) : bool := bool_decide (c_ID r = id).

Definition is_revoked (r : CertRecord) : bool := bool_decide (cr_Status (c_rec r) = "revoked").

(** [SET status='revoked', revoked_at=CURRENT_TIMESTAMP, reason=:reason]. *)
Definition mark_revoked (t reason : Z) (r : CertRecord) : CertRecord :=
  let c := c_rec r in
  mkCertRecord (c_ID r) (mkCertificateRecord (cr_Serial c) (cr_AKI c) (cr_CALabel c) "revoked" reason
    (cr_Expiry c) t (cr_PEM c)).

Definition selectByIdSQL : string := "
SELECT %s FROM certificates
WHERE (id = ?);".

Definition selectLiveSQL : string :=
  "SELECT * FROM certificates WHERE (id = ? AND status != 'revoked')".

Definition selectBySerialSQL : string := "
SELECT %s FROM certificates
	WHERE (serial_number = ? AND authority_key_identifier = ?);".

Definition selectAllUnexpiredSQL : string := "
SELECT %s FROM certificates
	WHERE CURRENT_TIMESTAMP < expiry;".

(** CFSSL's accessor. *)
Module certsql.
Definition checkDB (db : option DBHandle) : comp DB DBHandle :=
  match db with
  | None => fail (cfssl_Wrap Unknown (NewErr "unknown db object, please check SetDB method"))
  | Some h => mret h
  end.

Definition GetCertificate (db : option DBHandle) (serial aki : string)
    : comp DB (list CertificateRecord) :=
  h ← checkDB db;
  wrapSQLError (exec h "certificates" (Rebind h selectBySerialSQL) (fun d =>
    (Ok (map c_rec (List.filter (has_cert serial aki) (certificates d))), d))).

Definition GetUnexpiredCertificates (db : option DBHandle) : comp DB (list CertificateRecord) :=
  h ← checkDB db;
  wrapSQLError (exec h "certificates" (Rebind h selectAllUnexpiredSQL) (fun d =>
    (Ok (map c_rec (List.filter (fun r => (now d <? cr_Expiry (c_rec r))%Z) (certificates d))), d))).

Definition RevokeCertificate (db : option DBHandle) (serial aki : string) (reasonCode : Z)
    : comp DB unit :=
  h ← checkDB db;
  numRowsAffected ← wrapSQLError (statement "certificates" (fun d =>
    (Ok (affected h (has_cert serial aki) (mark_revoked (now d) reasonCode) (certificates d)),
     set_certificates (update_where (has_cert serial aki) (mark_revoked (now d) reasonCode)
                         (certificates d)) d)));
  if (numRowsAffected =? 0)%Z
  then fail (cfssl_Wrap RecordNotFound
               (NewErr "failed to revoke the certificate: certificate not found"))
  else if negb (numRowsAffected =? 1)%Z
  then fail (cfssl_Wrap Unknown
               (Errorf "%d rows are affected, should be 1 row" [FInt numRowsAffected]))
  else mret tt.

(** Every statement on the missing table. *)
Definition on_ocsp_table {A} (db : option DBHandle) : comp DB A :=
  _ ← checkDB db;
  wrapSQLError (statement "ocsp_responses" (fun d =>
    (Err (ErrPlain "no such table: ocsp_responses"), d))).
End certsql.

Module CertDBAccessor.
Section accessor.
Context (C : Crypto).

(** [accessor] keeps the handle it was made with; [SetDB] changes [db] only. *)
Record CertDBAccessor := mkCertDBAccessor {
  accessor : option DBHandle;
  db : option DBHandle
}.

Definition NewCertDBAccessor (h : option DBHandle) : CertDBAccessor := mkCertDBAccessor h h.

Definition SetDB (d : CertDBAccessor) (h : DBHandle) : CertDBAccessor :=
  mkCertDBAccessor (accessor d) (Some h).

Definition checkDB (d : CertDBAccessor) : comp DB DBHandle :=
  match db d with
  | None => fail (NewErr "Error")
  | Some h => mret h
  end.

(** [INSERT INTO certificates], refused on a duplicate primary key. *)
Definition exec_insert (r : CertRecord) : comp DB Z :=
  statement "certificates" (fun d =>
    if existsb (has_cert (cr_Serial (c_rec r)) (cr_AKI (c_rec r))) (certificates d)
    then (Err (ErrPlain "UNIQUE constraint failed: certificates.serial_number, certificates.authority_key_identifier"), d)
    else (Ok 1%Z, set_certificates (certificates d ++ [r]) d)).

Definition InsertCertificate (a : CertDBAccessor) (cr : CertificateRecord) : comp DB unit :=
  _ ← checkDB a;
  id ← lift (GetEnrollmentIDFromPEM C (bytes_of_string (cr_PEM cr)));
  let record := mkCertRecord id
    (mkCertificateRecord (cr_Serial cr) (cr_AKI cr) (cr_CALabel cr) (cr_Status cr) (cr_Reason cr)
       (cr_Expiry cr) (cr_RevokedAt cr) (cr_PEM cr)) in
  numRowsAffected ← exec_insert record;
  if (numRowsAffected =? 0)%Z
  then fail (NewError DatabaseError "Failed to insert the certificate record" [])
  else if negb (numRowsAffected =? 1)%Z
  then fail (NewError DatabaseError "%d rows are affected, should be 1 row" [FInt numRowsAffected])
  else mret tt.

Definition GetCertificatesByID (a : CertDBAccessor) (id : string) : comp DB (list CertRecord) :=
  h ← checkDB a;
  exec h "certificates" (Rebind h selectByIdSQL) (fun d => (Ok (List.filter (cert_of id) (certificates d)), d)).

Definition GetCertificate (a : CertDBAccessor) (serial aki : string)
    : comp DB (list CertificateRecord) :=
  certsql.GetCertificate (accessor a) serial aki.

Definition GetUnexpiredCertificates (a : CertDBAccessor) : comp DB (list CertificateRecord) :=
  certsql.GetUnexpiredCertificates (accessor a).

Definition live_of (id : string) (r : CertRecord) : bool := cert_of id r && negb (is_revoked r).

(** [RevokeCertificatesByID]: the rows selected first, then the update, as two
    statements. *)
Definition RevokeCertificatesByID (a : CertDBAccessor) (id : string) (reasonCode : Z)
    : comp DB (list CertRecord) :=
  h ← checkDB a;
  crs ← exec h "certificates" (Rebind h selectLiveSQL) (fun d => (Ok (List.filter (live_of id) (certificates d)), d));
  _ ← statement "certificates" (fun d =>
    (Ok tt, set_certificates (update_where (live_of id) (mark_revoked (now d) reasonCode)
                                (certificates d)) d));
  mret crs.

Definition RevokeCertificate (a : CertDBAccessor) (serial aki : string) (reasonCode : Z)
    : comp DB unit :=
  certsql.RevokeCertificate (accessor a) serial aki reasonCode.

(** [certdb.OCSPRecord]. *)
Record OCSPRecord := mkOCSPRecord {
  ocsp_Serial : string; ocsp_AKI : string; ocsp_Body : string; ocsp_Expiry : Z
}.

Definition InsertOCSP (a : CertDBAccessor) (rr : OCSPRecord) : comp DB unit :=
  certsql.on_ocsp_table (accessor a).

Definition GetOCSP (a : CertDBAccessor) (serial aki : string) : comp DB (list OCSPRecord) :=
  certsql.on_ocsp_table (accessor a).

Definition GetUnexpiredOCSPs (a : CertDBAccessor) : comp DB (list OCSPRecord) :=
  certsql.on_ocsp_table (accessor a).

Definition UpdateOCSP (a : CertDBAccessor) (serial aki body : string) (expiry : Z) : comp DB unit :=
  certsql.on_ocsp_table (accessor a).

Definition UpsertOCSP (a : CertDBAccessor) (serial aki body : string) (expiry : Z) : comp DB unit :=
  certsql.on_ocsp_table (accessor a).
End accessor.
End CertDBAccessor.

Import CertDBAccessor.

(** ** Histories of the certificate store *)

Definition cert_key (r : CertRecord) : string * string := (cr_Serial (c_rec r), cr_AKI (c_rec r)).

Definition cert_inv (d : DB) : Prop := NoDup (map cert_key (certificates d)).

(** A certificate stays as it is, or it is revoked: its status is then
    "revoked", its reason and revocation time are new, and its serial number,
    key identifier, owner, CA label, expiry and contents are as before. *)
Definition same_cert (r r' : CertRecord) : Prop :=
  r' = r \/
  (cr_Status (c_rec r') = "revoked"
   /\ c_ID r' = c_ID r
   /\ cr_Serial (c_rec r') = cr_Serial (c_rec r)
   /\ cr_AKI (c_rec r') = cr_AKI (c_rec r)
   /\ cr_CALabel (c_rec r') = cr_CALabel (c_rec r)
   /\ cr_Expiry (c_rec r') = cr_Expiry (c_rec r)
   /\ cr_PEM (c_rec r') = cr_PEM (c_rec r)).

Definition grows (d d' : DB) : Prop :=
  forall r, r ∈ certificates d -> exists r', r' ∈ certificates d' /\ same_cert r r'.

#[export] Instance same_cert_preorder : PreOrder same_cert.
Proof.
  split; [by left|]. intros r1 r2 r3 [->|H12] [->|H23]; [by left|by right..|].
  right. destruct H12 as (_ & ? & ? & ? & ? & ? & ?), H23 as (? & ? & ? & ? & ? & ? & ?).
  repeat split; congruence.
Qed.

(** A revoked certificate stays revoked. *)
Lemma same_cert_revoked r r' : same_cert r r' -> is_revoked r = true -> is_revoked r' = true.
Proof. intros [->|[H _]] Hr; [done|]. by apply bool_decide_eq_true. Qed.

#[export] Instance grows_preorder : PreOrder grows.
Proof.
  split.
  - intros d r Hr. by exists r.
  - intros d1 d2 d3 H12 H23 r Hr. destruct (H12 r Hr) as (r2 & Hr2 & E2).
    destruct (H23 r2 Hr2) as (r3 & Hr3 & E3). exists r3. split; [done|]. by transitivity r2.
Qed.

Lemma has_cert_key serial aki r : has_cert serial aki r = bool_decide (cert_key r = (serial, aki)).
Proof.
  unfold has_cert, cert_key. repeat case_bool_decide; simplify_eq/=; try done; exfalso; congruence.
Qed.

Lemma mark_revoked_same t reason r : same_cert r (mark_revoked t reason r).
Proof. by right. Qed.

Lemma update_grows d p t reason :
  grows d (set_certificates (update_where p (mark_revoked t reason) (certificates d)) d).
Proof.
  intros r Hr. exists (if p r then mark_revoked t reason r else r). split.
  - simpl. unfold update_where. apply list_elem_of_In, in_map_iff. exists r.
    split; [done|by apply list_elem_of_In].
  - destruct (p r); [apply mark_revoked_same|done].
Qed.

Lemma update_cert_inv d p t reason :
  cert_inv d -> cert_inv (set_certificates (update_where p (mark_revoked t reason) (certificates d)) d).
Proof. unfold cert_inv. simpl. by rewrite update_where_map. Qed.

Lemma existsb_has_cert l s k : existsb (has_cert s k) l = false -> (s, k) ∉ map cert_key l.
Proof.
  induction l as [|r l IH]; simpl; [intros _; apply not_elem_of_nil|].
  rewrite has_cert_key. intros [H1%bool_decide_eq_false H2]%orb_false_iff.
  apply not_elem_of_cons. split; [congruence|by apply IH].
Qed.

(** The store's relation between the state before and after a computation. *)
Definition store_ok {A} (m : comp DB A) : Prop :=
  forall d, grows d (m d).2 /\ (cert_inv d -> cert_inv (m d).2).

Lemma store_ok_ret {A} (a : A) : store_ok (mret a : comp DB A).
Proof. by intros d. Qed.

Lemma store_ok_lift {A} (o : outcome A) : store_ok (lift o : comp DB A).
Proof. by intros d. Qed.

Lemma store_ok_bind {A B} (m : comp DB A) (f : A -> comp DB B) :
  store_ok m -> (forall a, store_ok (f a)) -> store_ok (m ≫= f).
Proof.
  intros Hm Hf d. unfold mbind, comp_bind. destruct (Hm d) as [G1 I1].
  destruct (m d) as [[a|e|p|p|] d1]; simpl in *; try done.
  destruct (Hf a d1) as [G2 I2]. split; [by transitivity d1|auto].
Qed.

Lemma store_ok_map_err {A} f (m : comp DB A) : store_ok m -> store_ok (map_err f m).
Proof. intros Hm d. specialize (Hm d). unfold map_err. by destruct (m d) as [[] ?]. Qed.

Lemma store_ok_statement {A} t (f : DB -> outcome A * DB) :
  (forall d, grows d (f d).2 /\ (cert_inv d -> cert_inv (f d).2)) -> store_ok (statement t f).
Proof.
  intros Hf d. destruct (statement_cases t f d) as [(msg & fs & ->)|(fs & ->)];
    [|apply (Hf (set_faults fs d))].
  split; [intros r Hr; by exists r|done].
Qed.

Lemma store_ok_query {A} t (f : DB -> outcome A) : store_ok (statement t (fun d => (f d, d))).
Proof. by apply store_ok_statement. Qed.

Lemma store_ok_exec {A} h t q (f : DB -> outcome A * DB) :
  store_ok (statement t f) -> store_ok (exec h t q f).
Proof. intros H. unfold exec. case_match; [done|apply store_ok_lift]. Qed.

Lemma store_ok_update {A} tb p t reason (n : DB -> outcome A) :
  store_ok (statement tb (fun d =>
    (n d,
     set_certificates (update_where p (mark_revoked (t d) reason) (certificates d)) d))).
Proof. apply store_ok_statement. intros d. split; [apply update_grows|apply update_cert_inv]. Qed.

Lemma store_ok_insert r : store_ok (exec_insert r).
Proof.
  apply store_ok_statement. intros d. destruct (existsb _ _) eqn:E; [done|]. simpl. split.
  - intros r' Hr'. exists r'. split; [|done]. simpl. set_solver.
  - unfold cert_inv. simpl. rewrite map_app. intros Hd. apply NoDup_snoc; [done|].
    by apply existsb_has_cert.
Qed.

(** The operations of the store. *)
Inductive cert_op :=
  | OpInsert (cr : CertificateRecord)
  | OpGetByID (id : string)
  | OpGet (serial aki : string)
  | OpUnexpired
  | OpRevokeByID (id : string) (reason : Z)
  | OpRevoke (serial aki : string) (reason : Z).

Definition run_cert_op (C : Crypto) (a : CertDBAccessor) (op : cert_op) (d : DB) : DB :=
  match op with
  | OpInsert cr => (InsertCertificate C a cr d).2
  | OpGetByID id => (GetCertificatesByID a id d).2
  | OpGet serial aki => (GetCertificate a serial aki d).2
  | OpUnexpired => (GetUnexpiredCertificates a d).2
  | OpRevokeByID id reason => (RevokeCertificatesByID a id reason d).2
  | OpRevoke serial aki reason => (RevokeCertificate a serial aki reason d).2
  end.

Lemma checkDB_store_ok a : store_ok (CertDBAccessor.checkDB a).
Proof. unfold CertDBAccessor.checkDB. case_match; [apply store_ok_ret|apply store_ok_lift]. Qed.

Lemma certsql_checkDB_store_ok a : store_ok (certsql.checkDB a).
Proof. unfold certsql.checkDB. case_match; [apply store_ok_ret|apply store_ok_lift]. Qed.

(** Follow the structure of a method. *)
Ltac store_solve :=
  repeat first
    [ apply store_ok_ret | apply store_ok_lift | apply store_ok_insert | apply checkDB_store_ok
    | apply certsql_checkDB_store_ok | apply store_ok_update | apply store_ok_map_err
    | apply store_ok_exec | apply store_ok_query
    | apply store_ok_bind; [|intros ?] | case_match ].

Lemma run_cert_op_ok C a op d :
  grows d (run_cert_op C a op d) /\ (cert_inv d -> cert_inv (run_cert_op C a op d)).
Proof.
  assert (Hd : forall {A} (m : comp DB A), store_ok m -> grows d (m d).2 /\ (cert_inv d -> cert_inv (m d).2))
    by (intros A m H; apply H).
  destruct op as [cr|id|s k| |id reason|s k reason]; simpl; apply Hd.
  - unfold InsertCertificate. store_solve.
  - unfold GetCertificatesByID. store_solve.
  - unfold GetCertificate, certsql.GetCertificate, wrapSQLError. store_solve.
  - unfold GetUnexpiredCertificates, certsql.GetUnexpiredCertificates, wrapSQLError. store_solve.
  - unfold RevokeCertificatesByID. store_solve.
  - unfold RevokeCertificate, certsql.RevokeCertificate, wrapSQLError. store_solve.
Qed.

(** One operation, whatever its outcome, or the clock advancing. *)
Inductive cert_step (C : Crypto) (a : CertDBAccessor) : DB -> DB -> Prop :=
  | step_op op d : cert_step C a d (run_cert_op C a op d)
  | step_time d t fs : (now d <= t)%Z ->
      cert_step C a d (mkDB (users d) (groups d) (certificates d) t (rnd d) (rnd_pos d) fs).

(** Whatever sequence of operations runs on the certificate store, with
    failures at any statement, serial number and key identifier stay a key of
    the table, no certificate is lost, and a certificate changes only by being
    revoked. *)
Theorem cert_store_history C a d d' :
  rtc (cert_step C a) d d' -> cert_inv d -> cert_inv d' /\ grows d d'.
Proof.
  induction 1 as [d|d d1 d' Hstep _ IH]; intros Hd; [done|].
  assert (grows d d1 /\ (cert_inv d -> cert_inv d1)) as [Hg Hi].
  { destruct Hstep as [op d|d t fs Ht]; [apply run_cert_op_ok|]. split; [|done].
    intros r Hr. by exists r. }
  destruct (IH (Hi Hd)) as [Hi' Hg']. split; [done|]. by transitivity d1.
Qed.

Definition sample_cert (serial : string) : CertificateRecord :=
  mkCertificateRecord serial "aki" "" "good" 0 50 0 (string_of_bytes [x01]).

Definition store_db : DB :=
  mkDB [] [] [mkCertRecord "admin" (sample_cert "1"); mkCertRecord "admin" (sample_cert "2");
              mkCertRecord "bob" (sample_cert "3")] 9 (fun _ => 0%Z) 0 [].

Lemma store_db_inv : cert_inv store_db.
Proof. apply (bool_decide_unpack _). vm_compute. exact I. Qed.

Lemma cert_store_history_witness :
  let a := NewCertDBAccessor (Some sqlite3) in
  let d1 := run_cert_op toy_crypto a (OpRevoke "1" "aki" 4) store_db in
  let d2 := run_cert_op toy_crypto a (OpInsert (sample_cert "4")) d1 in
  cert_inv d2 /\ grows store_db d2.
Proof.
  intros a d1 d2. apply (cert_store_history toy_crypto a store_db d2); [|apply store_db_inv].
  eapply rtc_l; [apply (step_op toy_crypto a (OpRevoke "1" "aki" 4) store_db)|].
  eapply rtc_l; [apply (step_op toy_crypto a (OpInsert (sample_cert "4")))|]. apply rtc_refl.
Defined.

(** ** What revocation does *)

Section revocation.
Context (a : CertDBAccessor) (h : DBHandle).
Hypothesis Ha : accessor a = Some h /\ CertDBAccessor.db a = Some h.

Lemma RevokeCertificatesByID_run d id reason :
  faults d = [] ->
  RevokeCertificatesByID a id reason d =
    (Ok (List.filter (live_of id) (certificates d)),
     set_certificates (update_where (live_of id) (mark_revoked (now d) reason) (certificates d)) d).
Proof.
  intros Hf. unfold RevokeCertificatesByID, CertDBAccessor.checkDB. rewrite (proj2 Ha).
  unfold mbind, comp_bind. simpl. rewrite exec_Rebind, statement_nofault by done.
  by rewrite statement_nofault.
Qed.

Lemma RevokeCertificate_run d serial aki reason :
  faults d = [] ->
  RevokeCertificate a serial aki reason d =
    (let n := affected h (has_cert serial aki) (mark_revoked (now d) reason) (certificates d) in
     (if (n =? 0)%Z then Err (ErrCFSSL 11200 "failed to revoke the certificate: certificate not found")
      else if negb (n =? 1)%Z
      then Err (cfssl_Wrap Unknown (Errorf "%d rows are affected, should be 1 row" [FInt n]))
      else Ok tt,
      set_certificates (update_where (has_cert serial aki) (mark_revoked (now d) reason)
                          (certificates d)) d)).
Proof.
  intros Hf. unfold RevokeCertificate, certsql.RevokeCertificate, certsql.checkDB. rewrite (proj1 Ha).
  unfold mbind, comp_bind, wrapSQLError, map_err. simpl. rewrite statement_nofault by done.
  destruct (_ =? 0)%Z; [done|]. by destruct (_ =? 1)%Z.
Qed.
End revocation.

Lemma count_cert_le1 l s k :
  NoDup (map cert_key l) -> (count_where (has_cert s k) l <= 1)%Z.
Proof.
  unfold count_where. induction l as [|r l IH]; intros Hd; simpl; [lia|].
  apply NoDup_cons in Hd as [Hr Hd]. rewrite has_cert_key. case_bool_decide as E; simpl; [|by apply IH].
  assert (List.filter (has_cert s k) l = []) as ->; [|simpl; lia].
  clear IH Hd. induction l as [|r' l IH]; simpl; [done|]. rewrite has_cert_key.
  cbn [map] in Hr. apply not_elem_of_cons in Hr as [Hne Hr].
  rewrite bool_decide_false by congruence. by apply IH.
Qed.

(** The certificate of a key is found under it. *)
Lemma find_cert l s k r :
  NoDup (map cert_key l) -> In r l -> has_cert s k r = true -> List.find (has_cert s k) l = Some r.
Proof.
  intros Hd Hin Hr. destruct (List.find _ _) as [r'|] eqn:E.
  - apply find_some in E as [Hin' Hr']. f_equal. rewrite has_cert_key in Hr, Hr'.
    apply bool_decide_eq_true in Hr, Hr'. revert Hd Hin Hin'. rewrite <- Hr in Hr'.
    clear -Hr'. induction l as [|x l IH]; simpl; [done|].
    intros [Hx Hd]%NoDup_cons [->|H] [->|H']; auto; exfalso; apply Hx;
      [rewrite <- Hr'|rewrite Hr']; by apply list_elem_of_In, in_map.
  - pose proof (find_none _ _ E r Hin). congruence.
Qed.

(** A recorded certificate whose revocation the driver reports: MySQL does not
    report a revocation that repeats the recorded reason and time. *)
Definition revocable (h : DBHandle) (t reason : Z) (serial aki : string) (r : CertRecord) : bool :=
  has_cert serial aki r &&
  negb (bool_decide (driverName h = "mysql") && bool_decide (mark_revoked t reason r = r)).

Lemma affected_revocable h t reason s k l :
  affected h (has_cert s k) (mark_revoked t reason) l = count_where (revocable h t reason s k) l.
Proof.
  unfold affected, revocable, count_where. case_bool_decide; simpl; [done|]. do 2 f_equal.
  apply filter_ext. intros r. by rewrite andb_true_r.
Qed.

Lemma revocable_other h t reason s k r :
  driverName h <> "mysql" -> revocable h t reason s k r = has_cert s k r.
Proof. intros H. unfold revocable. rewrite (bool_decide_false (_ = "mysql")) by done. apply andb_true_r. Qed.

Lemma count_where_existsb {A} (p : A -> bool) l : (count_where p l =? 0)%Z = negb (existsb p l).
Proof. unfold count_where. induction l as [|x l IH]; [done|]. simpl. by destruct (p x). Qed.

(** What [RevokeCertificate] does on a table with its key. *)
Lemma RevokeCertificate_revocable a h d serial aki reason :
  accessor a = Some h /\ CertDBAccessor.db a = Some h -> faults d = [] -> cert_inv d ->
  RevokeCertificate a serial aki reason d =
    if existsb (revocable h (now d) reason serial aki) (certificates d)
    then (Ok tt, set_certificates (update_where (has_cert serial aki) (mark_revoked (now d) reason)
                                     (certificates d)) d)
    else (Err (ErrCFSSL 11200 "failed to revoke the certificate: certificate not found"), d).
Proof.
  intros Ha Hf Hinv. rewrite (RevokeCertificate_run a h Ha) by done. cbv zeta.
  pose proof (affected_le h (has_cert serial aki) (mark_revoked (now d) reason) (certificates d)) as Hle.
  pose proof (count_cert_le1 (certificates d) serial aki Hinv) as Hle1.
  pose proof (count_where_existsb (revocable h (now d) reason serial aki) (certificates d)) as Hx.
  rewrite <- affected_revocable in Hx. rewrite Hx. destruct (existsb _ _); simpl.
  - apply Z.eqb_neq in Hx. by rewrite (proj2 (Z.eqb_eq _ 1)) by lia.
  - apply Z.eqb_eq in Hx. rewrite (affected_none h) by done. by rewrite set_certificates_id.
Qed.

(** Marking the live certificates of an ID leaves none of the ID's live. *)
Lemma live_revoked id t reason certs r :
  r ∈ update_where (live_of id) (mark_revoked t reason) certs -> c_ID r = id -> is_revoked r = true.
Proof.
  unfold update_where. rewrite list_elem_of_In. intros (r0 & <- & _)%in_map_iff.
  unfold live_of, cert_of. destruct (is_revoked r0) eqn:E; [by rewrite andb_false_r|].
  rewrite andb_true_r. case_bool_decide; simpl; [done|congruence].
Qed.

(** Revoking by enrollment ID: the certificates returned are exactly the
    ID's certificates that were not yet revoked; afterwards every certificate
    of the ID is revoked, those already revoked keep their reason and time,
    and nobody else's certificate is touched. *)
Theorem RevokeCertificatesByID_spec a h d id reason :
  accessor a = Some h /\ CertDBAccessor.db a = Some h -> faults d = [] ->
  exists crs d', RevokeCertificatesByID a id reason d = (Ok crs, d')
    /\ (forall r, r ∈ crs <-> r ∈ certificates d /\ c_ID r = id /\ is_revoked r = false)
    /\ (forall r, r ∈ certificates d' -> c_ID r = id -> is_revoked r = true)
    /\ (forall r, r ∈ certificates d -> c_ID r <> id \/ is_revoked r = true -> r ∈ certificates d')
    /\ length (certificates d') = length (certificates d).
Proof.
  intros Ha Hf. eexists _, _. split; [by apply (RevokeCertificatesByID_run a h)|].
  assert (Hlive : forall r, live_of id r = true <-> c_ID r = id /\ is_revoked r = false).
  { intros r. unfold live_of, cert_of. rewrite andb_true_iff, bool_decide_eq_true, negb_true_iff. done. }
  split; [|split; [|split]].
  - intros r. rewrite list_elem_of_In, filter_In, <- list_elem_of_In, Hlive. done.
  - intros r. apply live_revoked.
  - intros r Hr Hor. simpl. apply list_elem_of_In, in_map_iff. exists r. split; [|by apply list_elem_of_In].
    destruct (live_of id r) eqn:E; [|done]. apply Hlive in E as [? ?]. destruct Hor; congruence.
  - simpl. unfold update_where. by rewrite length_map.
Qed.

Lemma RevokeCertificatesByID_spec_witness :
  exists crs d', RevokeCertificatesByID (NewCertDBAccessor (Some sqlite3)) "admin" 1 store_db = (Ok crs, d')
    /\ map (fun r => cr_Serial (c_rec r)) crs = ["1"; "2"]
    /\ (forall r, r ∈ certificates d' -> c_ID r = "admin" -> is_revoked r = true).
Proof.
  destruct (RevokeCertificatesByID_spec (NewCertDBAccessor (Some sqlite3)) sqlite3 store_db "admin" 1)
    as (crs & d' & Hrun & _ & Hrev & _); [by split|reflexivity|].
  exists crs, d'. split; [exact Hrun|]. split; [|exact Hrev].
  vm_compute in Hrun. injection Hrun as <- _. reflexivity.
Defined.

(** Revoking by serial number and key identifier, on a table where they
    are a key: the one certificate is marked revoked with the given reason at
    the current time (even if it already was), and if there is none the
    operation reports CFSSL error 11200 and changes nothing.  So it does on
    MySQL when the certificate is already revoked with this reason at this
    time. *)
Theorem RevokeCertificate_spec a h d serial aki reason :
  accessor a = Some h /\ CertDBAccessor.db a = Some h -> faults d = [] -> cert_inv d ->
  match List.find (revocable h (now d) reason serial aki) (certificates d) with
  | Some r => exists d', RevokeCertificate a serial aki reason d = (Ok tt, d')
      /\ List.find (has_cert serial aki) (certificates d') = Some (mark_revoked (now d) reason r)
      /\ (forall s k, (s, k) <> (serial, aki) ->
            List.find (has_cert s k) (certificates d') = List.find (has_cert s k) (certificates d))
  | None => RevokeCertificate a serial aki reason d =
      (Err (ErrCFSSL 11200 "failed to revoke the certificate: certificate not found"), d)
  end.
Proof.
  intros Ha Hf Hinv. rewrite (RevokeCertificate_revocable a h) by done.
  destruct (List.find _ _) as [r|] eqn:E.
  - apply find_some in E as [Hin Hr].
    rewrite (proj2 (existsb_exists _ _)) by by exists r.
    eexists. split; [reflexivity|]. simpl. split.
    + rewrite find_update_where by done. unfold revocable in Hr. apply andb_true_iff in Hr as [Hr _].
      assert (List.find (has_cert serial aki) (certificates d) = Some r) as ->; [|simpl; by rewrite Hr].
      by apply find_cert.
    + intros s k Hne. rewrite find_update_where by done.
      destruct (List.find (has_cert s k) (certificates d)) as [r'|] eqn:E'; simpl; [|done].
      apply find_some in E' as [_ E']. rewrite has_cert_key in E' |- *.
      apply bool_decide_eq_true in E'. by rewrite bool_decide_false by congruence.
  - destruct (existsb _ _) eqn:Ex; [|done]. apply existsb_exists in Ex as (r & Hr & Hx).
    pose proof (find_none _ _ E r Hr). congruence.
Qed.

Lemma RevokeCertificate_spec_witness :
  exists d', RevokeCertificate (NewCertDBAccessor (Some sqlite3)) "1" "aki" 4 store_db = (Ok tt, d')
    /\ List.find (has_cert "1" "aki") (certificates d')
       = Some (mark_revoked 9 4 (mkCertRecord "admin" (sample_cert "1"))).
Proof.
  destruct (RevokeCertificate_spec (NewCertDBAccessor (Some sqlite3)) sqlite3 store_db "1" "aki" 4
    ltac:(by split) eq_refl store_db_inv) as (d' & H1 & H2 & _).
  exists d'. split; [exact H1|exact H2].
Defined.
