(* ===== verification/Util.v ===== *)
(** * Utilities (src/util/util.go, src/util/cryptoutil.go)

    [RandomString] over the source's stream of 63-bit integers, [RemoveQuotes]
    with its slice panic, [StrContained], the path helpers on top of Go's
    lexical [path.Clean], [GenNumber] and [ValidateCert].

    [RandomString] recurses on a fuel that counts loop iterations;
    [RandomString_spec] says exactly how much is enough: as many iterations as
    it takes the stream to offer [n] letter indices below 52. *)

From S2P Require Import Prelude GoStrings GoFmt CopError.

(** ** RandomString *)

Definition letterBytes : string := "abcdefghijklmnopqrstuvwxyzABCDEFGHIJKLMNOPQRSTUVWXYZ".
Definition letterIdxBits : Z := 6.
Definition letterIdxMask : Z := 1 ≪ letterIdxBits - 1.
Definition letterIdxMax : Z := 63 / letterIdxBits.

Definition letter (idx : Z) : ascii :=
  default "000"%char (String.get (Z.to_nat idx) letterBytes).

(** One pass of the loop body per unit of fuel.  [pos] is the number of
    [Int63] values drawn so far from [src]. *)
Fixpoint RandomString_loop (fuel : nat) (src : nat -> Z) (pos : nat) (i cache remain : Z)
    (b : list ascii) : option (list ascii * nat) :=
  if (i <? 0)%Z then Some (b, pos)
  else match fuel with
  | O => None
  | S fuel =>
      let '(cache, remain, pos) :=
        if (remain =? 0)%Z then (src pos, letterIdxMax, S pos) else (cache, remain, pos) in
      let idx := Z.land cache letterIdxMask in
      let '(b, i) :=
        if (idx <? Z.of_nat (String.length letterBytes))%Z
        then (<[Z.to_nat i := letter idx]> b, i - 1)%Z else (b, i) in
      RandomString_loop fuel src pos i (cache ≫ letterIdxBits) (remain - 1) b
  end.

(** [RandomString(n)]: the string and the new position of the source. *)
Definition RandomString (fuel : nat) (src : nat -> Z) (pos : nat) (n : Z) : outcome (string * nat) :=
  if (n <? 0)%Z then Panic "runtime error: makeslice: len out of range"
  else match RandomString_loop fuel src (S pos) (n - 1) (src pos) letterIdxMax
               (replicate (Z.to_nat n) "000"%char) with
       | Some (b, pos') => Ok (String.string_of_list_ascii b, pos')
       | None => OutOfFuel
       end.

(** ** Strings *)

(** [RemoveQuotes]: [str[1 : len(str)-1]] panics on a lone quote. *)
Definition RemoveQuotes (str : string) : outcome string :=
  let dq := String (Ascii.ascii_of_nat 34) "" in
  if bool_decide (str = "") then Ok str
  else if (HasPrefix str "'" && HasSuffix str "'") || (HasPrefix str dq && HasSuffix str dq)
  then match slice str 1 (Z.of_nat (String.length str) - 1) with
       | Some s => Ok s
       | None => Panic "runtime error: slice bounds out of range"
       end
  else Ok str.

(** [StrContained]: membership up to case. *)
Fixpoint StrContained (str : string) (strs : list string) : bool :=
  match strs with
  | [] => false
  | s :: strs => if bool_decide (ToLower s = ToLower str) then true else StrContained str strs
  end.

(** ** Paths *)

(** One component of [path.Clean]; the components kept so far, innermost
    first. *)
Definition clean_step (rooted : bool) (out : list string) (c : string) : list string :=
  if bool_decide (c = "") || bool_decide (c = ".") then out
  else if bool_decide (c = "..") then
    match out with
    | [] => if rooted then [] else [".."]
    | w :: out' => if bool_decide (w = "..") then ".." :: out else out'
    end
  else c :: out.

Definition is_abs (p : string) : bool := HasPrefix p "/".

(** [path.Clean]. *)
Definition Clean (p : string) : string :=
  let rooted := is_abs p in
  let comps := reverse (foldl (clean_step rooted) [] (Split p "/")) in
  if rooted then "/" +:+ Join comps "/"
  else match comps with [] => "." | _ => Join comps "/" end.

(** [path.Join]: leading empty elements are dropped. *)
Fixpoint path_Join (elems : list string) : string :=
  match elems with
  | [] => ""
  | "" :: elems' => path_Join elems'
  | _ => Clean (Join elems "/")
  end.

(** [filepath.Abs] for working directory [wd]. *)
Definition filepath_Abs (wd p : string) : string :=
  if is_abs p then Clean p else path_Join [wd; p].

(** [MakeFileAbs(file, dir)]. *)
Definition MakeFileAbs (wd file dir : string) : string :=
  if bool_decide (file = "") then ""
  else if is_abs file then file
  else filepath_Abs wd (path_Join [dir; file]).

(** [GetDefaultHomeDir], given the environment. *)
Definition GetDefaultHomeDir (getenv : string -> string) : string :=
  let home := getenv "COP_HOME" in
  if bool_decide (home = "") then
    let home := getenv "HOME" in
    if negb (bool_decide (home = "")) then path_Join [home; "/cop"]
    else "/var/hyperledger/fabric/dev/fabric-cop"
  else home.

(** ** Numbers and time *)

(** [big.Int.Exp(x, y, nil)]: 1 when [y <= 0]. *)
Definition big_Exp (x y : Z) : Z := if (y <=? 0)%Z then 1 else (x ^ y)%Z.

(** [GenNumber(numlen)], [randomNum] being what [rand.Int] returned. *)
Definition GenNumber (randomNum : Z -> Z) (numlen : Z) : Z :=
  let lowerBound := big_Exp 10 (numlen - 1) in
  let upperBound := big_Exp 10 numlen in
  let val := (randomNum upperBound + lowerBound)%Z in
  let valMod := (val `mod` upperBound)%Z in
  if (valMod <? lowerBound)%Z then (valMod + lowerBound)%Z else valMod.

(** [time.Time.Sub] saturates at the limits of [time.Duration]. *)
Definition time_Sub (t u : Z) : Z := Z.max (- 2 ^ 63) (Z.min (2 ^ 63 - 1) (t - u)).

(** [ValidateCert], on the certificate's validity and the current time. *)
Definition ValidateCert (notBefore notAfter currentTime : Z) : bool :=
  let diffFromExpiry := time_Sub notAfter currentTime in
  let diffFromStart := time_Sub currentTime notBefore in
  (diffFromExpiry >? 0)%Z && (diffFromStart >? 0)%Z.

(** ** The random token *)

(** The [k]-th letter index offered by the stream from position [pos0]: six
    bits of the [k/10]-th value, low bits first. *)
Definition candidate (src : nat -> Z) (pos0 k : nat) : Z :=
  Z.land (src (pos0 + k / 10)%nat ≫ (6 * Z.of_nat (k mod 10))) letterIdxMask.

Definition accepted (idx : Z) : bool := (idx <? 52)%Z.

(** The accepted indices among [K] candidates from the [k]-th on. *)
Definition accepted_from (src : nat -> Z) (pos0 k K : nat) : list Z :=
  List.filter accepted (map (candidate src pos0) (seq k K)).

(** Where the loop is before considering candidate [k]. *)
Definition loop_at (src : nat -> Z) (pos0 k pos : nat) (cache remain : Z) : Prop :=
  (remain = 0%Z /\ pos = (pos0 + k / 10)%nat /\ (k mod 10 = 0)%nat) \/
  (remain = 10 - Z.of_nat (k mod 10) /\ pos = S (pos0 + k / 10)%nat
   /\ cache = src (pos0 + k / 10)%nat ≫ (6 * Z.of_nat (k mod 10)))%Z.

Lemma loop_at_refresh src pos0 k pos cache remain :
  loop_at src pos0 k pos cache remain ->
  (if (remain =? 0)%Z then (src pos, letterIdxMax, S pos) else (cache, remain, pos)) =
  (src (pos0 + k / 10)%nat ≫ (6 * Z.of_nat (k mod 10)), 10 - Z.of_nat (k mod 10),
   S (pos0 + k / 10)%nat)%Z.
Proof.
  pose proof (Nat.mod_upper_bound k 10 ltac:(lia)) as Hk.
  intros [(-> & -> & Hm)|(-> & -> & ->)].
  - rewrite Hm. simpl. by rewrite Z.shiftr_0_r.
  - rewrite (proj2 (Z.eqb_neq _ _)) by lia. done.
Qed.

Lemma loop_at_next src pos0 k :
  loop_at src pos0 (S k) (S (pos0 + k / 10)%nat)
    (src (pos0 + k / 10)%nat ≫ (6 * Z.of_nat (k mod 10)) ≫ letterIdxBits)
    (10 - Z.of_nat (k mod 10) - 1).
Proof.
  pose proof (Nat.mod_upper_bound k 10 ltac:(lia)) as Hk.
  pose proof (Nat.div_mod_eq k 10) as Hd.
  destruct (decide (k mod 10 = 9)%nat) as [E|E].
  - left. assert (S k / 10 = S (k / 10) /\ S k mod 10 = 0)%nat as [-> ->].
    { split; symmetry; [apply (Nat.div_unique _ 10 _ 0)|apply (Nat.mod_unique _ 10 (S (k / 10)))];
        lia. }
    rewrite E. lia.
  - right. assert (S k / 10 = k / 10)%nat as Hq.
    { symmetry. apply (Nat.div_unique _ 10 _ (S (k mod 10))); lia. }
    assert (S k mod 10 = S (k mod 10))%nat as Hr.
    { symmetry. apply (Nat.mod_unique _ 10 (k / 10) _); lia. }
    rewrite Hq, Hr. split; [lia|]. split; [done|]. unfold letterIdxBits. rewrite Z.shiftr_shiftr by lia.
    f_equal. lia.
Qed.

Lemma RandomString_loop_spec src pos0 K : forall fuel k pos i cache remain b,
  loop_at src pos0 k pos cache remain -> (-1 <= i)%Z -> (i + 1 <= Z.of_nat (length b))%Z ->
  (i + 1 <= Z.of_nat (length (accepted_from src pos0 k K)))%Z -> (K <= fuel)%nat ->
  exists pos', RandomString_loop fuel src pos i cache remain b =
    Some (reverse (map letter (take (Z.to_nat (i + 1)) (accepted_from src pos0 k K)))
            ++ drop (Z.to_nat (i + 1)) b, pos').
Proof.
  induction K as [|K IH]; intros fuel k pos i cache remain b Hat Hi Hb Hacc Hf;
    (destruct (Z.ltb_spec i 0) as [Hneg|Hpos];
     [assert (i = -1)%Z as -> by lia; destruct fuel; eexists; simpl; by rewrite drop_0|]).
  { simpl in Hacc. lia. }
  destruct fuel as [|fuel]; [lia|]. cbn [RandomString_loop].
  rewrite (proj2 (Z.ltb_ge i 0)) by done. rewrite (loop_at_refresh _ _ _ _ _ _ Hat).
  cbv beta iota zeta. fold (candidate src pos0 k).
  change (accepted_from src pos0 k (S K)) with
    (if accepted (candidate src pos0 k)
     then candidate src pos0 k :: accepted_from src pos0 (S k) K
     else accepted_from src pos0 (S k) K) in *.
  unfold accepted in *. change (Z.of_nat (String.length letterBytes)) with 52%Z.
  destruct (candidate src pos0 k <? 52)%Z eqn:Ec.
  - cbn [length] in Hacc.
    edestruct (IH fuel (S k) (S (pos0 + k / 10)%nat) (i - 1)%Z) as [pos' ->];
      [apply loop_at_next|lia|rewrite length_insert; lia|lia|lia|].
    exists pos'. do 2 f_equal.
    replace (Z.to_nat (i - 1 + 1)) with (Z.to_nat i) by lia.
    replace (Z.to_nat (i + 1)) with (S (Z.to_nat i)) by lia.
    cbn [take map]. rewrite reverse_cons, <- app_assoc. f_equal.
    rewrite (drop_S _ (letter (candidate src pos0 k))).
    + simpl. f_equal. by rewrite drop_insert_lt by lia.
    + apply list_lookup_insert_eq. lia.
  - edestruct (IH fuel (S k) (S (pos0 + k / 10)%nat) i) as [pos' ->];
      [apply loop_at_next|lia|lia|lia|lia|]. by exists pos'.
Qed.

(** ... and while there are too few accepted indices the loop goes on. *)
Lemma RandomString_loop_more src pos0 fuel : forall k pos i cache remain b,
  loop_at src pos0 k pos cache remain -> (Z.of_nat (length (accepted_from src pos0 k fuel)) < i + 1)%Z ->
  RandomString_loop fuel src pos i cache remain b = None.
Proof.
  induction fuel as [|fuel IH]; intros k pos i cache remain b Hat Hacc; cbn [RandomString_loop].
  { by rewrite (proj2 (Z.ltb_ge i 0)) by lia. }
  rewrite (proj2 (Z.ltb_ge i 0)) by lia. rewrite (loop_at_refresh _ _ _ _ _ _ Hat).
  cbv beta iota zeta. fold (candidate src pos0 k).
  change (accepted_from src pos0 k (S fuel)) with
    (if accepted (candidate src pos0 k)
     then candidate src pos0 k :: accepted_from src pos0 (S k) fuel
     else accepted_from src pos0 (S k) fuel) in *.
  unfold accepted in *. change (Z.of_nat (String.length letterBytes)) with 52%Z.
  destruct (candidate src pos0 k <? 52)%Z eqn:Ec; apply (IH (S k)); try apply loop_at_next; [|done].
  cbn [length] in Hacc. lia.
Qed.

(** The letters drawn, in the order they were drawn. *)
Definition drawn (src : nat -> Z) (pos K : nat) (n : Z) : list ascii :=
  map letter (take (Z.to_nat n) (accepted_from src pos 0 K)).

Lemma string_of_list_ascii_length l : String.length (String.string_of_list_ascii l) = length l.
Proof. induction l; simpl; congruence. Qed.

Lemma RandomString_run src pos n K fuel :
  (0 <= n)%Z -> (n <= Z.of_nat (length (accepted_from src pos 0 K)))%Z -> (K <= fuel)%nat ->
  exists pos', RandomString fuel src pos n =
    Ok (String.string_of_list_ascii (reverse (drawn src pos K n)), pos').
Proof.
  intros Hn Hacc Hf. unfold RandomString. rewrite (proj2 (Z.ltb_ge n 0)) by done.
  edestruct (RandomString_loop_spec src pos K fuel 0 (S pos) (n - 1)%Z (src pos) letterIdxMax
    (replicate (Z.to_nat n) "000"%char)) as [pos' ->].
  - right. simpl. by rewrite Nat.add_0_r, Z.shiftr_0_r.
  - lia.
  - rewrite length_replicate. lia.
  - lia.
  - done.
  - exists pos'. replace (n - 1 + 1)%Z with n by lia.
    rewrite drop_ge by (rewrite length_replicate; lia). by rewrite app_nil_r.
Qed.

Lemma candidate_range src pos k : (0 <= candidate src pos k < 64)%Z.
Proof.
  unfold candidate. change letterIdxMask with (Z.ones 6). rewrite Z.land_ones by lia.
  apply Z.mod_pos_bound. lia.
Qed.

Lemma letter_in_letterBytes idx : (0 <= idx < 52)%Z -> Contains letterBytes (letter idx) = true.
Proof.
  intros H. unfold letter.
  assert (forallb (fun k => Contains letterBytes
    (default "000"%char (String.get k letterBytes))) (seq 0 52) = true) as HF by reflexivity.
  rewrite forallb_forall in HF. apply HF, in_seq. lia.
Qed.

Lemma drawn_letters src pos K n c : In c (drawn src pos K n) -> Contains letterBytes c = true.
Proof.
  unfold drawn. intros (idx & <- & Hidx)%in_map_iff. apply letter_in_letterBytes.
  assert (In idx (accepted_from src pos 0 K)) as [Hin Hlt]%filter_In.
  { rewrite <- (take_drop (Z.to_nat n) (accepted_from _ _ _ _)). apply in_or_app. by left. }
  apply in_map_iff in Hin as (k & <- & _). pose proof (candidate_range src pos k).
  unfold accepted in Hlt. lia.
Qed.

(** (C34) [RandomString(n)], for [n] not negative, over any source of numbers:
    after [fuel] iterations of its loop it has returned exactly when at least
    [n] of the first [fuel] letter indices the source offers are below 52; the
    result is then [n] characters long, all of them letters: the first [n]
    accepted letters, the last one drawn first.  While there are fewer it is
    still looping. *)
Theorem RandomString_spec src pos n fuel :
  (0 <= n)%Z ->
  if (n <=? Z.of_nat (length (accepted_from src pos 0 fuel)))%Z
  then exists s pos', RandomString fuel src pos n = Ok (s, pos')
    /\ String.list_ascii_of_string s = reverse (drawn src pos fuel n)
    /\ Z.of_nat (String.length s) = n
    /\ Forall (fun c => Contains letterBytes c = true) (String.list_ascii_of_string s)
  else RandomString fuel src pos n = OutOfFuel.
Proof.
  intros Hn. destruct (Z.leb_spec n (Z.of_nat (length (accepted_from src pos 0 fuel)))) as [Hacc|Hacc].
  - destruct (RandomString_run src pos n fuel fuel Hn Hacc (le_n _)) as [pos' Hrun].
    eexists _, pos'. split; [exact Hrun|].
    rewrite String.list_ascii_of_string_of_list_ascii. split; [done|]. split.
    + rewrite string_of_list_ascii_length, length_reverse. unfold drawn. rewrite length_map, length_take. lia.
    + rewrite Forall_reverse, List.Forall_forall. apply drawn_letters.
  - unfold RandomString. rewrite (proj2 (Z.ltb_ge n 0)) by done.
    rewrite (RandomString_loop_more src pos fuel 0); [done| |lia].
    right. simpl. by rewrite Nat.add_0_r, Z.shiftr_0_r.
Qed.

(** The stream [0, 0, ...] offers the letter [a] every time, the stream
    [2^63 - 1, ...] never a letter. *)
Lemma RandomString_spec_witness :
  (exists s pos', RandomString 12 (fun _ => 0%Z) 0 12 = Ok (s, pos')
    /\ String.list_ascii_of_string s = reverse (drawn (fun _ => 0%Z) 0 12 12)
    /\ Z.of_nat (String.length s) = 12%Z
    /\ Forall (fun c => Contains letterBytes c = true) (String.list_ascii_of_string s))
  /\ RandomString 12 (fun _ => (2 ^ 63 - 1)%Z) 0 12 = OutOfFuel.
Proof.
  split.
  - exact (RandomString_spec (fun _ => 0%Z) 0 12 12 ltac:(lia)).
  - exact (RandomString_spec (fun _ => (2 ^ 63 - 1)%Z) 0 12 12 ltac:(lia)).
Defined.

(** ** Strings, numbers and validity *)

Definition is_quote (c : ascii) : bool :=
  bool_decide (c = Ascii.ascii_of_nat 39) || bool_decide (c = Ascii.ascii_of_nat 34).

Lemma HasPrefix_char c d s : HasPrefix (String c s) (String d "") = bool_decide (c = d).
Proof.
  unfold HasPrefix. cbn [String.prefix]. destruct (ascii_dec d c) as [->|H].
  - rewrite bool_decide_true by done. by destruct s.
  - by rewrite bool_decide_false by congruence.
Qed.

Lemma RemoveQuotes_unfold str :
  RemoveQuotes str =
  match str with
  | EmptyString => Ok str
  | String c rest =>
      if is_quote c && HasSuffix str (String c "")
      then match slice str 1 (Z.of_nat (String.length str) - 1) with
           | Some s => Ok s
           | None => Panic "runtime error: slice bounds out of range"
           end
      else Ok str
  end.
Proof.
  destruct str as [|c rest]; [done|]. unfold RemoveQuotes, is_quote.
  rewrite bool_decide_false by done. change "'" with (String (Ascii.ascii_of_nat 39) "").
  rewrite !HasPrefix_char. destruct (decide (c = Ascii.ascii_of_nat 39)) as [->|H1];
    [|destruct (decide (c = Ascii.ascii_of_nat 34)) as [->|H2]].
  - rewrite bool_decide_true, bool_decide_false by done. simpl. by rewrite orb_false_r.
  - by rewrite bool_decide_false, bool_decide_true by done.
  - by rewrite !bool_decide_false by done.
Qed.

(** [RemoveQuotes] strips exactly one pair of equal quotes around any
    contents and returns every other string unchanged; but a lone quote
    character satisfies both the prefix and the suffix test, and slicing it
    panics. *)
Theorem RemoveQuotes_spec c s :
  (is_quote c = true -> RemoveQuotes (String c (s +:+ String c "")) = Ok s)
  /\ (is_quote c = true ->
      RemoveQuotes (String c "") = Panic "runtime error: slice bounds out of range")
  /\ (is_quote c = false -> RemoveQuotes (String c s) = Ok (String c s))
  /\ RemoveQuotes "" = Ok "".
Proof.
  split; [|split; [|split]]; rewrite RemoveQuotes_unfold; [intros Hq; rewrite ?Hq; cbn [andb]..|done].
  - rewrite (proj2 (HasSuffix_true _ _)) by by exists (String c s).
    pose proof (slice_middle (String c "") s (String c "")) as Hs.
    replace (Z.of_nat (String.length (String c (s +:+ String c ""))) - 1)%Z with
      (Z.of_nat (String.length (String c "") + String.length s)) by
      (simpl; rewrite length_app_str; simpl; lia).
    change (Z.of_nat (String.length (String c ""))) with 1%Z in Hs.
    change (String c "" +:+ s +:+ String c "") with (String c (s +:+ String c "")) in Hs.
    by rewrite Hs.
  - by rewrite (proj2 (HasSuffix_true _ _)) by by exists "".
  - done.
Qed.

Lemma RemoveQuotes_spec_witness :
  RemoveQuotes "'cop'" = Ok "cop"
  /\ RemoveQuotes "'" = Panic "runtime error: slice bounds out of range".
Proof.
  split; [exact (proj1 (RemoveQuotes_spec "'"%char "cop") eq_refl)|].
  exact (proj1 (proj2 (RemoveQuotes_spec "'"%char "")) eq_refl).
Defined.

(** [StrContained] is membership up to case. *)
Lemma StrContained_spec str strs :
  StrContained str strs = true <-> exists s, s ∈ strs /\ ToLower s = ToLower str.
Proof.
  induction strs as [|s strs IH]; simpl; [set_solver|].
  case_bool_decide as E; [split; [intros _; exists s; set_solver|done]|].
  rewrite IH. split; intros (t & Ht & Heq); exists t; set_solver.
Qed.

Lemma GenNumber_range rand numlen :
  (1 <= numlen)%Z -> (0 <= rand (big_Exp 10 numlen) < big_Exp 10 numlen)%Z ->
  (10 ^ (numlen - 1) <= GenNumber rand numlen < 10 ^ numlen)%Z.
Proof.
  intros Hn Hr. unfold GenNumber. set (v := rand (big_Exp 10 numlen)) in *. unfold big_Exp in *.
  rewrite (proj2 (Z.leb_gt numlen 0)) in * by lia.
  assert (Hl : (if (numlen - 1 <=? 0)%Z then 1 else 10 ^ (numlen - 1))%Z = (10 ^ (numlen - 1))%Z).
  { destruct (Z.leb_spec (numlen - 1) 0); [|done]. by replace (numlen - 1)%Z with 0%Z by lia. }
  rewrite Hl. assert (Hp : (10 ^ numlen = 10 * 10 ^ (numlen - 1))%Z).
  { rewrite <- Z.pow_succ_r by lia. f_equal. lia. }
  pose proof (Z.pow_pos_nonneg 10 (numlen - 1) ltac:(lia) ltac:(lia)) as Hpos.
  pose proof (Z.mod_pos_bound (v + 10 ^ (numlen - 1)) (10 ^ numlen) ltac:(lia)).
  destruct (Z.ltb_spec ((v + 10 ^ (numlen - 1)) `mod` 10 ^ numlen) (10 ^ (numlen - 1))); lia.
Qed.

(** [GenNumber(numlen)] has exactly [numlen] decimal digits, whatever
    [rand.Int] returned below its bound. *)
Theorem GenNumber_digits rand numlen :
  (1 <= numlen)%Z -> (forall m, 0 < m -> 0 <= rand m < m)%Z ->
  (10 ^ (numlen - 1) <= GenNumber rand numlen < 10 ^ numlen)%Z.
Proof.
  intros Hn Hr. apply GenNumber_range; [done|]. apply Hr. unfold big_Exp.
  destruct (Z.leb_spec numlen 0); [lia|]. apply Z.pow_pos_nonneg; lia.
Qed.

Lemma GenNumber_digits_witness :
  (10 ^ (20 - 1) <= GenNumber (fun m => m - 1)%Z 20 < 10 ^ 20)%Z.
Proof. apply (GenNumber_digits (fun m => m - 1)%Z 20); lia. Defined.

(** [ValidateCert] accepts exactly the instants strictly inside the validity
    period: the saturation of [time.Time.Sub] does not change the signs. *)
Lemma ValidateCert_spec notBefore notAfter now :
  ValidateCert notBefore notAfter now = true <-> (notBefore < now < notAfter)%Z.
Proof.
  unfold ValidateCert, time_Sub. rewrite andb_true_iff, !Z.gtb_lt. lia.
Qed.
