(* ===== verification/Mux.v ===== *)
(** * Go's [http.ServeMux]

    The table of patterns the server registers its endpoints in
    ([http.Handle]) and the choice of the handler of a request: paths are
    cleaned first, the longest pattern that matches wins, a pattern that ends
    in a slash stands for every path below it and makes, when nothing else is
    registered there, the pattern without that slash redirect to it.  The
    paths are those of requests without a query. *)

From S2P Require Import Prelude GoStrings GoFmt GoJson CopError Base64 Http GoUrl Util.

#[local] Arguments String.append !_ _ : simpl nomatch.

(** What a pattern leads to, and what a request is answered with. *)
Inductive mux_handler (H : Type) := MuxServe (h : H) | MuxRedirect (url : string).
Arguments MuxServe {H} _.
Arguments MuxRedirect {H} _.

Inductive route (H : Type) := RServe (h : H) | RRedirect (location : string) | RNotFound.
Arguments RServe {H} _.
Arguments RRedirect {H} _.
Arguments RNotFound {H}.

Record muxEntry (H : Type) := mkMuxEntry { explicit : bool; me_h : mux_handler H }.
Arguments mkMuxEntry {H} _ _.
Arguments explicit {H} _.
Arguments me_h {H} _.

Notation ServeMux H := (gmap string (muxEntry H)).

(** The string without its last byte. *)
Fixpoint chop (s : string) : string :=
  match s with
  | EmptyString => ""
  | String _ EmptyString => ""
  | String c s' => String c (chop s')
  end.

(** [(&url.URL{Path: p}).String()]. *)
Definition path_url (p : string) : string := URL_String (mkURL "" "" None "" p "" false "" "").

Section mux.
Context {H : Type}.

Definition is_explicit (m : ServeMux H) (pattern : string) : bool :=
  match m !! pattern with Some e => explicit e | None => false end.

(** [ServeMux.Handle]. *)
Definition mux_Handle (pattern : string) (h : H) (m : ServeMux H) : outcome (ServeMux H) :=
  if bool_decide (pattern = "") then Panic ("http: invalid pattern " +:+ pattern)
  else if is_explicit m pattern then Panic ("http: multiple registrations for " +:+ pattern)
  else
    let m := <[pattern := mkMuxEntry true (MuxServe h)]> m in
    Ok (if HasSuffix pattern "/" && negb (is_explicit m (chop pattern))
        then <[chop pattern := mkMuxEntry false (MuxRedirect (path_url pattern))]> m
        else m).

Definition pathMatch (pattern path : string) : bool :=
  if bool_decide (pattern = "") then false
  else if negb (HasSuffix pattern "/") then bool_decide (pattern = path)
  else HasPrefix path pattern.

(** One round of the loop of [ServeMux.match]. *)
Definition match_step (path : string) (best : option (string * muxEntry H)) (e : string * muxEntry H)
    : option (string * muxEntry H) :=
  if negb (pathMatch e.1 path) then best
  else match best with
       | None => Some e
       | Some (k, _) => if (String.length k <? String.length e.1)%nat then Some e else best
       end.

Definition mux_match (m : ServeMux H) (path : string) : option (mux_handler H) :=
  option_map (fun e => me_h e.2) (foldl (match_step path) None (map_to_list m)).

(** [cleanPath]. *)
Definition cleanPath (p : string) : string :=
  if bool_decide (p = "") then "/"
  else
    let p := if HasPrefix p "/" then p else "/" +:+ p in
    let np := Clean p in
    if HasSuffix p "/" && negb (bool_decide (np = "/")) then np +:+ "/" else np.

(** [http.Redirect]: the location, for a rooted URL without a query. *)
Definition redirect_location (urlStr : string) : string :=
  let np := Clean urlStr in
  if HasSuffix urlStr "/" && negb (HasSuffix np "/") then np +:+ "/" else np.

(** [ServeMux.Handler]. *)
Definition mux_Handler (m : ServeMux H) (r : Request) : route H :=
  let p := cleanPath (URL r) in
  if negb (bool_decide (Method r = "CONNECT")) && negb (bool_decide (p = URL r))
  then RRedirect (redirect_location (path_url p))
  else match mux_match m (URL r) with
       | None => RNotFound
       | Some (MuxServe h) => RServe h
       | Some (MuxRedirect url) => RRedirect (redirect_location url)
       end.
End mux.

(** [htmlReplacer]. *)
Fixpoint htmlEscape (s : string) : string :=
  match s with
  | EmptyString => ""
  | String c s' =>
      (if bool_decide (c = "&"%char) then "&amp;"
       else if bool_decide (c = "<"%char) then "&lt;"
       else if bool_decide (c = ">"%char) then "&gt;"
       else if bool_decide (c = quote) then "&#34;"
       else if bool_decide (c = "'"%char) then "&#39;"
       else String c "") +:+ htmlEscape s'
  end.

(** The body of a redirection: a link, for GET only. *)
Definition redirect_answer (method location : string) : Response :=
  mkResponse 301
    (if bool_decide (method = "GET")
     then "<a href=" +:+ String quote (htmlEscape location +:+ String quote ">Moved Permanently</a>.") +:+ newline +:+ newline
     else "").

(** ** The pattern that is chosen *)

Section lemmas.
Context {H : Type}.
Implicit Types m : ServeMux H.

Lemma pathMatch_length k path : pathMatch k path = true -> (String.length k <= String.length path)%nat.
Proof.
  unfold pathMatch. case_bool_decide; [done|]. destruct (HasSuffix k "/"); simpl.
  - intros [q ->]%HasPrefix_true. rewrite length_app_str. lia.
  - by intros ->%bool_decide_eq_true.
Qed.

Lemma pathMatch_full k path :
  pathMatch k path = true -> (String.length path <= String.length k)%nat -> k = path.
Proof.
  unfold pathMatch. case_bool_decide; [done|]. destruct (HasSuffix k "/"); simpl.
  - intros [q ->]%HasPrefix_true. rewrite length_app_str. intros Hl.
    destruct q; simpl in Hl; [by rewrite app_nil_r_str|lia].
  - by intros ->%bool_decide_eq_true.
Qed.

Lemma pathMatch_refl path : path <> "" -> pathMatch path path = true.
Proof.
  intros Hne. unfold pathMatch. rewrite (bool_decide_false (path = "")) by done.
  destruct (HasSuffix path "/"); simpl; [|by apply bool_decide_eq_true].
  apply HasPrefix_true. exists "". by rewrite app_nil_r_str.
Qed.

Lemma match_fold_inv path (l : list (string * muxEntry H)) : forall best k v,
  foldl (match_step path) best l = Some (k, v) ->
  best = Some (k, v) \/ ((k, v) ∈ l /\ pathMatch k path = true).
Proof.
  induction l as [|e l IH]; intros best k v; simpl; [by left|].
  intros [Hs|[? ?]]%IH; [|right; by split; [apply list_elem_of_further|]].
  unfold match_step in Hs. destruct (pathMatch e.1 path) eqn:E; simpl in Hs; [|by left].
  destruct best as [[k' v']|]; [case_match; [|by left]|];
    injection Hs as ->; right; (split; [apply list_elem_of_here|exact E]).
Qed.

Lemma match_fold_max path (l : list (string * muxEntry H)) : forall best e,
  (e ∈ l /\ pathMatch e.1 path = true) \/ best = Some e ->
  exists k v, foldl (match_step path) best l = Some (k, v) /\ (String.length e.1 <= String.length k)%nat.
Proof.
  induction l as [|e0 l IH]; intros best e Hin; simpl.
  { destruct Hin as [[Hin _]| ->]; [by apply elem_of_nil in Hin|]. destruct e. by eexists _, _. }
  destruct Hin as [[Hin Hm]| ->].
  - apply elem_of_cons in Hin as [->|Hin]; [|apply IH; left; by split].
    assert (exists e', match_step path best e0 = Some e' /\ (String.length e0.1 <= String.length e'.1)%nat) as (e' & -> & Hle).
    { unfold match_step. rewrite Hm. simpl. destruct best as [[k v]|]; [|by eexists].
      destruct (Nat.ltb_spec (String.length k) (String.length e0.1)); [by eexists|]. eexists. by split. }
    destruct (IH (Some e') e' (or_intror eq_refl)) as (k & v & E & Hk). exists k, v. split; [exact E|lia].
  - assert (exists e', match_step path (Some e) e0 = Some e' /\ (String.length e.1 <= String.length e'.1)%nat) as (e' & -> & Hle).
    { unfold match_step. destruct (pathMatch e0.1 path); simpl; [|by eexists]. destruct e as [k v]. simpl.
      destruct (Nat.ltb_spec (String.length k) (String.length e0.1)); eexists; (split; [reflexivity|simpl; lia]). }
    destruct (IH (Some e') e' (or_intror eq_refl)) as (k & v & E & Hk). exists k, v. split; [exact E|lia].
Qed.

Lemma mux_match_inv m path h :
  mux_match m path = Some h -> exists k e, m !! k = Some e /\ pathMatch k path = true /\ me_h e = h.
Proof.
  unfold mux_match. destruct (foldl _ _ _) as [[k v]|] eqn:E; [|done]. intros [= <-].
  apply match_fold_inv in E as [?|[Hin Hm]]; [done|]. exists k, v. split; [by apply elem_of_map_to_list|]. by split.
Qed.

(** The longest pattern that matches. *)
Lemma mux_match_longest m path k e :
  m !! k = Some e -> pathMatch k path = true ->
  (forall k' e', m !! k' = Some e' -> pathMatch k' path = true -> k' = k \/ (String.length k' < String.length k)%nat) ->
  mux_match m path = Some (me_h e).
Proof.
  intros Hk Hm Hmax. unfold mux_match. apply elem_of_map_to_list in Hk as Hin.
  destruct (match_fold_max path (map_to_list m) None (k, e) (or_introl (conj Hin Hm))) as (k' & v' & E & Hle).
  rewrite E. simpl. apply match_fold_inv in E as [?|[Hin' Hm']]; [done|]. apply elem_of_map_to_list in Hin'.
  simpl in Hle. destruct (Hmax k' v' Hin' Hm') as [->|?]; [|lia]. congruence.
Qed.

Lemma mux_match_exact m path e : path <> "" -> m !! path = Some e -> mux_match m path = Some (me_h e).
Proof.
  intros Hne Hk. apply (mux_match_longest m path path e Hk); [by apply pathMatch_refl|].
  intros k' e' _ Hm'. pose proof (pathMatch_length _ _ Hm').
  destruct (Nat.lt_ge_cases (String.length k') (String.length path)) as [?|Hge]; [by right|].
  left. by apply pathMatch_full.
Qed.

Lemma mux_match_none m path : (forall k e, m !! k = Some e -> pathMatch k path = false) -> mux_match m path = None.
Proof.
  intros Hno. destruct (mux_match m path) as [h|] eqn:E; [|done].
  apply mux_match_inv in E as (k & e & Hk & Hm & _). by rewrite (Hno k e Hk) in Hm.
Qed.
End lemmas.

(** ** Cleaned paths *)

(** A double slash; [b] tells whether a slash came just before. *)
Fixpoint has_double (b : bool) (s : string) : bool :=
  match s with
  | EmptyString => false
  | String c s' => if bool_decide (c = "/"%char) then b || has_double true s' else has_double false s'
  end.

Lemma has_double_word w b s : w <> "" -> Contains w "/" = false -> has_double b (w +:+ s) = has_double false s.
Proof.
  revert b. induction w as [|c w IH]; intros b Hne Hw; [done|]. simpl in *.
  apply orb_false_elim in Hw as [Hc Hw]. apply bool_decide_eq_false in Hc.
  rewrite bool_decide_false by congruence. destruct w as [|c' w]; [done|]. by apply IH.
Qed.

Lemma has_double_Join ws b s :
  Forall (fun w => w <> "" /\ Contains w "/" = false) ws -> ws <> [] ->
  has_double b (Join ws "/" +:+ s) = has_double false s.
Proof.
  intros Hws Hne. revert b. induction Hws as [|w ws [Hw1 Hw2] Hws IH]; intros b; [done|].
  destruct ws as [|w' ws]; [by apply has_double_word|].
  change (Join (w :: w' :: ws) "/") with (w +:+ "/" +:+ Join (w' :: ws) "/").
  rewrite <- app_assoc_str, has_double_word by done.
  change (("/" +:+ Join (w' :: ws) "/") +:+ s) with (String "/" (Join (w' :: ws) "/" +:+ s)).
  cbn [has_double]. rewrite bool_decide_true by done. cbn [orb]. by apply IH.
Qed.

Lemma clean_step_ok out c :
  Contains c "/" = false -> Forall (fun w => w <> "" /\ Contains w "/" = false) out ->
  Forall (fun w => w <> "" /\ Contains w "/" = false) (clean_step true out c).
Proof.
  intros Hc Ho. unfold clean_step. case_bool_decide as H1; [done|]. case_bool_decide; [done|]. simpl.
  case_bool_decide as H3; [|by constructor].
  destruct Ho as [|w out Hw Ho]; [done|]. case_bool_decide; [|done]. repeat (constructor; [done|]). done.
Qed.

(** A cleaned rooted path: its components. *)
Lemma Clean_rooted p : HasPrefix p "/" = true -> exists ws,
  Clean p = "/" +:+ Join ws "/" /\ Forall (fun w => w <> "" /\ Contains w "/" = false) ws.
Proof.
  intros Hp. unfold Clean, is_abs. rewrite Hp. eexists. split; [reflexivity|]. apply Forall_reverse.
  assert (Hs : Forall (fun w => Contains w "/" = false) (Split p "/")) by apply Split_parts_no_sep.
  assert (Ho : Forall (fun w => w <> "" /\ Contains w "/" = false) ([] : list string)) by constructor.
  revert Hs Ho. generalize (Split p "/") as l, ([] : list string) as out.
  induction l as [|c l IH]; intros out Hs Ho; simpl; [done|]. inversion Hs; subst.
  apply IH; [done|]. by apply clean_step_ok.
Qed.

Lemma cleanPath_no_double p : has_double false (cleanPath p) = false.
Proof.
  unfold cleanPath. case_bool_decide as Hp; [reflexivity|].
  set (p' := if HasPrefix p "/" then p else "/" +:+ p).
  assert (Hr : HasPrefix p' "/" = true).
  { subst p'. destruct (HasPrefix p "/") eqn:E; [exact E|]. apply HasPrefix_true. by eexists. }
  clearbody p'. destruct (Clean_rooted p' Hr) as (ws & -> & Hws). cbv zeta.
  destruct ws as [|w ws]; [destruct (HasSuffix p' "/"); reflexivity|].
  assert (Hd : forall s, has_double false ("/" +:+ (Join (w :: ws) "/" +:+ s)) = has_double false s).
  { intros s. change ("/" +:+ (Join (w :: ws) "/" +:+ s)) with (String "/" (Join (w :: ws) "/" +:+ s)).
    cbn [has_double]. rewrite bool_decide_true by done. cbn [orb]. by apply has_double_Join. }
  destruct (HasSuffix p' "/" && _); [rewrite <- app_assoc_str|rewrite <- (app_nil_r_str (Join (w :: ws) "/"))]; by rewrite Hd.
Qed.

Lemma has_double_prefix a q b : has_double b (a +:+ "//" +:+ q) = true.
Proof.
  revert b. induction a as [|c a IH]; intros b; simpl; [by rewrite orb_true_r|].
  rewrite !IH. by destruct (bool_decide _), b.
Qed.
