(* ===== verification/SignedJson.v ===== *)
(** * Messages signed in JSON (src/util/cryptoutil.go)

    A message is accompanied by a JSON text that holds the signer's
    certificate and the signature; the functions that make and check such a
    text, over the entries of file JsonMap.  The signature schemes and the
    certificate readers are those of [Crypto]; key generation, certificate
    creation and the clock are parameters over the world [W]. *)

From S2P Require Import Prelude GoStrings GoFmt GoJson CopError Base64 Http JsonMap Token Util.

(** [big.Int.SetString(s, 10)], where it succeeds. *)
Definition bigint (s : string) : option Z :=
  let '(neg, ds) := match s with
                    | String "-" t => (true, t)
                    | String "+" t => (false, t)
                    | _ => (false, s)
                    end in
  match ds with
  | EmptyString => None
  | _ => z ← read_digits 0 ds; Some (if neg : bool then - z else z)%Z
  end.

Inductive ExtKeyUsage := ExtKeyUsageClientAuth | ExtKeyUsageServerAuth.
Inductive SignatureAlgorithm := ECDSAWithSHA384.
Inductive KeyUsage := KeyUsageCertSign.

(** The fields of the [x509.Certificate] template of [NewSelfSignedCert]. *)
Record SelfSigned := mkSelfSigned {
  ss_SerialNumber : Z;
  ss_CommonName : string;
  ss_Organization : list string;
  ss_Country : list string;
  ss_ExtraNames : list (list Z * string);
  ss_NotBefore : Z;
  ss_NotAfter : Z;
  ss_SignatureAlgorithm : SignatureAlgorithm;
  ss_SubjectKeyId : list Z;
  ss_KeyUsage : KeyUsage;
  ss_ExtKeyUsage : list ExtKeyUsage;
  ss_UnknownExtKeyUsage : list (list Z);
  ss_BasicConstraintsValid : bool;
  ss_IsCA : bool;
  ss_OCSPServer : list string;
  ss_IssuingCertificateURL : list string;
  ss_DNSNames : list string;
  ss_EmailAddresses : list string;
  ss_IPAddresses : list string;
  ss_PolicyIdentifiers : list (list Z);
  ss_PermittedDNSDomains : list string;
  ss_CRLDistributionPoints : list string;
  ss_ExtraExtensions : list (list Z * string)
}.

Section SignedJson.
Context {W : Type} (C : Crypto).
(** [x509.ParseCertificates] and [x509.ParsePKIXPublicKey]; which of the keys
    that are neither RSA nor ECDSA are DSA keys (the others are nil). *)
Context (ParseCertificates : bytes -> outcome (list Certificate)) (ParsePKIXPublicKey : bytes -> outcome PublicKey).
Context (is_dsa : Z -> bool).
Context (time_Now : comp W Z) (GenerateKey : comp W (Z * Z)).
Context (CreateCertificate : SelfSigned -> Z -> Z -> comp W bytes).
(** What a failing [DecodeString] has decoded, and a failing [SetString] left. *)
Context (DecodePrefix : string -> bytes) (SetString_left : string -> Z).
(** The order a map with these entries is ranged over. *)
Context (range : list (string * string) -> list (string * string)).

Definition DecodeString (s : string) : bytes := default (DecodePrefix s) (StdDecode s).
Definition SetString (s : string) : Z := default (SetString_left s) (bigint s).

Definition GetPrivateKey (privateKey : string) : outcome Z :=
  match pem_Decode C (bytes_of_string privateKey) with
  | None => Err (NewErr "private key PEM block is empty")
  | Some block => on_err (fun _ => NewErr "Unable to parse private key") (ParsePKCS1PrivateKey C block)
  end.

(** [GetPublicKey]: a key of another kind fails the type assertion. *)
Definition GetPublicKey (publicKey : string) : outcome Z :=
  match pem_Decode C (bytes_of_string publicKey) with
  | None => Err (NewErr "public block key is empty")
  | Some block =>
      pubKey ← on_err (fun _ => NewErr "Unable to parse RSA public key") (ParsePKIXPublicKey block);
      match pubKey with
      | RSAKey k => Ok k
      | _ => Panic "interface conversion: interface {} is not *rsa.PublicKey"
      end
  end.

Definition RSASign (message : bytes) (rsaPrivateKey : Z) : outcome string :=
  match SignPKCS1v15 C rsaPrivateKey (sha384 C message) with
  | Ok signature => Ok (StdEncode signature)
  | Err err => Exit ("Error from signing: " +:+ Error err)
  | Panic p => Panic p
  | Exit p => Exit p
  | OutOfFuel => OutOfFuel
  end.

Definition RSAVerifySig (publicKey : Z) (signature : string) (message : bytes) : bool :=
  match VerifyPKCS1v15 C publicKey (sha384 C message) (DecodeString signature) with
  | Some _ => false
  | None => true
  end.

Definition VerifyRSAMessageImpl (jsonString signatureString : string) (publicKey : Z) : outcome bool :=
  signature ← ReadJSONAsMapString signatureString "RSASignature";
  mret (RSAVerifySig publicKey signature (bytes_of_string jsonString)).

Definition VerifyECMessageImpl (JSONString signatureString : string) (pub : Z) : outcome bool :=
  R ← ReadJSONAsMapString signatureString "ECSignature.R";
  S ← ReadJSONAsMapString signatureString "ECSignature.S";
  mret (ecdsa_Verify C pub (sha384 C (bytes_of_string JSONString)) (SetString R) (SetString S)).

(** [VerifyECMessage]: the certificate's validity is not looked at. *)
Definition VerifyECMessage (JSONString signatureString : string) : outcome bool :=
  ecert ← ReadJSONAsMapString signatureString "Certificate";
  match ParseCertificate C (DecodeString ecert) with
  | Ok cert =>
      match PubKey cert with
      | ECDSAKey pub => VerifyECMessageImpl JSONString signatureString pub
      | _ => Panic "interface conversion: interface {} is not *ecdsa.PublicKey"
      end
  | Err err => Exit ("Error parsing x509 certificate: " +:+ Error err)
  | Panic p => Panic p
  | Exit p => Exit p
  | OutOfFuel => OutOfFuel
  end.

(** The certificate of a signed text: PEM or DER, and inside its validity. *)
Definition valid_certificate (failure : string) (der : bytes) : comp W Certificate :=
  match ParseCertificates der with
  | Ok (cert :: _) =>
      now ← time_Now;
      if ValidateCert (NotBefore cert) (NotAfter cert) now then mret cert else lift (Exit "Certificate expired")
  | Ok [] => lift (Panic "runtime error: index out of range")
  | Err _ => lift (Exit failure)
  | Panic p => lift (Panic p)
  | Exit p => lift (Exit p)
  | OutOfFuel => lift OutOfFuel
  end.

Definition VerifyMessage (jsonString signatureString : string) : comp W bool :=
  ecert ← lift (ReadJSONAsMapString signatureString "Certificate");
  let certificate := DecodeString ecert in
  cert ← (match pem_Decode C certificate with
          | None => valid_certificate "Certificate Parse failed" certificate
          | Some block => valid_certificate "Certificatre Parse failed" block
          end);
  match PubKey cert with
  | RSAKey pub => lift (VerifyRSAMessageImpl jsonString signatureString pub)
  | ECDSAKey pub => lift (VerifyECMessageImpl jsonString signatureString pub)
  | OtherKey k => if is_dsa k then mret false else lift (Exit "Public Key is nil")
  end.

(** The template; time is in nanoseconds. *)
Definition self_signed (now : Z) : SelfSigned :=
  mkSelfSigned 1 "test.example.com" ["Σ Acme Co"] ["US"]
    [([2; 5; 4; 42], "Gopher"); ([2; 5; 4; 6], "NL")]%Z
    now (now + 60 * 60 * 1000000000) ECDSAWithSHA384 [1; 2; 3; 4]%Z KeyUsageCertSign
    [ExtKeyUsageClientAuth; ExtKeyUsageServerAuth] [[1; 2; 3]; [2; 59; 1]]%Z true true
    ["http://ocsp.example.com"] ["http://crt.example.com/ca1.crt"] ["test.example.com"]
    ["gopher@golang.org"] ["127.0.0.1"; "2001:4860:0:2001::68"] [[1; 2; 3]]%Z
    [".example.com"; "example.com"] ["http://crl1.example.com/ca1.crl"; "http://crl2.example.com/ca1.crl"]
    [([1; 2; 3; 4]%Z, "extra extension")].

(** [NewSelfSignedCert]: the certificate in DER and its private key. *)
Definition NewSelfSignedCert : comp W (bytes * Z) :=
  now ← time_Now;
  '(pub, privKey) ← GenerateKey;
  cert ← CreateCertificate (self_signed now) pub privKey;
  mret (cert, privKey).

Definition ECDSASignDirect (signKey : Z) (msg : bytes) : outcome (Z * Z) :=
  ecdsa_Sign C signKey (sha384 C msg).

Definition SignECMessage (JSONString signatureJSON : string) : comp W string :=
  fatal "Error in SignECMessage NewSelfSignedCert fails to create cert/privKey:" NewSelfSignedCert
    (fun '(cert, privKey) =>
       fatal "Error in SignECMessage ECDSASignDirect fails to sign:"
         (lift (ECDSASignDirect privKey (bytes_of_string JSONString)))
         (fun '(r, s) =>
            lift (WriteJSONToString signatureJSON
                    (range [("ECSignature.R", Itoa r); ("ECSignature.S", Itoa s); ("Certificate", StdEncode cert)])))).

Definition RSASignJSON (jsonString signatureJSON : string) (rsaPrivateKey : Z) (cert : string) : outcome string :=
  signature ← RSASign (bytes_of_string jsonString) rsaPrivateKey;
  WriteJSONToString signatureJSON (range [("RSASignature", signature); ("Certificate", cert)]).
End SignedJson.

(** ** Numbers and entries *)

Lemma bigint_digits s :
  Contains s "-" = false -> Contains s "+" = false -> s <> "" -> bigint s = read_digits 0 s.
Proof.
  destruct s as [|c s]; [done|]. cbn [Contains].
  intros [Hm%bool_decide_eq_false _]%orb_false_elim [Hp%bool_decide_eq_false _]%orb_false_elim _.
  transitivity (z ← read_digits 0 (String c s); Some z); [|by destruct (read_digits 0 (String c s))].
  unfold bigint. destruct c as [[] [] [] [] [] [] [] []]; first [reflexivity | by exfalso; apply Hm | by exfalso; apply Hp].
Qed.

Lemma pretty_positive n : (0 < n)%Z ->
  read_digits 0 (pretty_N_go (Z.to_N n) "") = Some n /\ pretty_N_go (Z.to_N n) "" <> "".
Proof.
  intros Hn. assert (read_digits 0 (pretty_N_go (Z.to_N n) "") = Some n) as H.
  { rewrite read_digits_pretty. simpl. f_equal. lia. }
  split; [exact H|]. intros E. rewrite E in H. simpl in H. injection H. lia.
Qed.

Lemma bigint_Itoa z : bigint (Itoa z) = Some z.
Proof.
  destruct (Itoa_cases z) as [E|[[Hz E]|[Hz E]]].
  - rewrite E. change "0" with (Itoa 0) in E. apply Itoa_inj in E as ->. reflexivity.
  - rewrite E. destruct (pretty_positive z) as [H Hne]; [lia|].
    by rewrite bigint_digits by (done || by apply pretty_N_go_Contains).
  - rewrite E. destruct (pretty_positive (- z)) as [H Hne]; [lia|]. unfold bigint.
    rewrite H. destruct (pretty_N_go (Z.to_N (- z)) ""); [done|]. simpl. f_equal. lia.
Qed.

(** The entry at a locator of one or two segments, in a form that survives
    the writing of other entries. *)
Definition entry_at (segs : list string) (v : string) (m : list (string * any)) : Prop :=
  match segs with
  | [c] => mget c m = Some (AStr v)
  | [f; _] => is_Some (mget f m) /\ get_path segs m = AStr v
  | _ => False
  end.

Lemma entry_at_get segs v m : entry_at segs v m -> get_path segs m = AStr v.
Proof. destruct segs as [|c [|g []]]; simpl; [done| |by intros [_ H]|done]. by intros ->. Qed.

Lemma entry_set_1 c v m : entry_at [c] v (set_path [c] (AStr v) m).
Proof. apply mget_mset_eq. Qed.

Lemma entry_set_2 f g v m : f <> g -> entry_at [f; g] v (set_path [f; g] (AStr v) m).
Proof.
  intros Hne. split; [|by apply get_set_path]. cbn [set_path]. destruct (mget f m) as [w|] eqn:Hf.
  - destruct w; try (rewrite mget_mset_ne by done; by eexists). rewrite mget_mset_eq. by eexists.
  - rewrite mget_mset_eq. by eexists.
Qed.

Lemma entry_keep_11 c v c' v' m : c <> c' -> entry_at [c] v m -> entry_at [c] v (set_path [c'] (AStr v') m).
Proof. intros Hne H. simpl. by rewrite mget_mset_ne. Qed.

Lemma entry_keep_12 c v f g v' m :
  c <> f -> c <> g -> entry_at [c] v m -> entry_at [c] v (set_path [f; g] (AStr v') m).
Proof. intros Hf Hg H. cbn [entry_at set_path]. destruct (mget f m) as [[]|]; by rewrite mget_mset_ne. Qed.

Lemma entry_keep_21 f g v c v' m :
  c <> f -> c <> g -> entry_at [f; g] v m -> entry_at [f; g] v (set_path [c] (AStr v') m).
Proof.
  intros Hf Hg [Hs H]. cbn [entry_at set_path get_path] in *. rewrite mget_mset_ne by done.
  split; [done|]. destruct (mget f m) as [[]|]; rewrite ?mget_mset_ne by done; exact H.
Qed.

Lemma entry_keep_22 f g v h v' m :
  h <> f -> h <> g -> entry_at [f; g] v m -> entry_at [f; g] v (set_path [f; h] (AStr v') m).
Proof.
  intros Hf Hg [[w Hw] H]. cbn [entry_at set_path get_path] in *. rewrite Hw in *.
  destruct w; rewrite ?mget_mset_ne by done; rewrite ?Hw; try (split; [by eexists|];
    rewrite ?mget_mset_ne by done; exact H).
  rewrite mget_mset_eq. split; [by eexists|]. by rewrite mget_mset_ne.
Qed.

(** The locators of signed texts. *)
Definition locators : list string := ["ECSignature.R"; "ECSignature.S"; "Certificate"; "RSASignature"].

Lemma locator_set k v m : k ∈ locators -> entry_at (Split k ".") v (set_path (Split k ".") (AStr v) m).
Proof.
  intros Hk. unfold locators in Hk. repeat (apply elem_of_cons in Hk as [->|Hk]); try (by inversion Hk);
    first [by apply entry_set_1 | by apply entry_set_2].
Qed.

Lemma locator_keep k v k' v' m :
  k ∈ locators -> k' ∈ locators -> k <> k' -> entry_at (Split k ".") v m ->
  entry_at (Split k ".") v (set_path (Split k' ".") (AStr v') m).
Proof.
  intros Hk Hk' Hne. unfold locators in Hk, Hk'.
  repeat (apply elem_of_cons in Hk as [->|Hk]); try (by inversion Hk);
    repeat (apply elem_of_cons in Hk' as [->|Hk']); try (by inversion Hk'); try done;
    first [by apply entry_keep_11 | by apply entry_keep_12 | by apply entry_keep_21 | by apply entry_keep_22].
Qed.

(** Writing entries under different locators, in any order, over any text:
    each is there at the end. *)
Lemma set_all_entries order m :
  Forall (fun e : string * string => e.1 ∈ locators) order -> NoDup (map fst order) -> members_ok m ->
  exists m', set_all order (Some m) = Ok (Some m') /\ members_ok m'
    /\ (forall k v, k ∈ locators -> k ∉ map fst order -> entry_at (Split k ".") v m -> entry_at (Split k ".") v m')
    /\ (forall k v, (k, v) ∈ order -> entry_at (Split k ".") v m').
Proof.
  revert m. induction order as [|[k0 v0] order IH]; intros m HK Hnd Hm.
  { exists m. split; [done|]. split; [done|]. split; [done|]. intros k v Hin. by inversion Hin. }
  apply Forall_cons in HK as [Hk0 HK]. apply NoDup_cons in Hnd as [Hk0n Hnd].
  destruct (IH (set_path (Split k0 ".") (AStr v0) m) HK Hnd) as (m' & E & Hwf & Hkeep & Hall).
  { by apply set_path_ok. }
  exists m'. split; [exact E|]. split; [exact Hwf|]. split.
  - intros k v Hk Hn He. apply not_elem_of_cons in Hn as [Hne Hn]. apply Hkeep; [done..|]. by apply locator_keep.
  - intros k v [[= -> ->]|Hin]%elem_of_cons; [|by apply Hall]. apply Hkeep; [done..|]. by apply locator_set.
Qed.

Lemma WriteJSONToString_read json order :
  is_Some (NewMapFromJSON json) ->
  Forall (fun e : string * string => e.1 ∈ locators) order -> NoDup (map fst order) ->
  exists out, WriteJSONToString json order = Ok out
    /\ forall k v, (k, v) ∈ order -> ReadJSONAsMapString out k = Ok v.
Proof.
  intros [m Em] HK Hnd. unfold WriteJSONToString. rewrite Em.
  destruct (set_all_entries order m HK Hnd) as (m' & E & Hwf & _ & Hall); [by eapply NewMapFromJSON_ok|].
  rewrite E. eexists. split; [reflexivity|]. intros k v Hin. apply read_written; [done|].
  by apply entry_at_get, Hall.
Qed.

(** ** Signing and verifying *)

Section theorems.
Context {W : Type} (C : Crypto) `{L : !CryptoLaws C}.
Context (ParseCertificates : bytes -> outcome (list Certificate)) (is_dsa : Z -> bool).
Context (time_Now : comp W Z) (GenerateKey : comp W (Z * Z)).
Context (CreateCertificate : SelfSigned -> Z -> Z -> comp W bytes).
Context (DecodePrefix : string -> bytes) (SetString_left : string -> Z).
Context (range : list (string * string) -> list (string * string)) (Hrange : forall l, range l ≡ₚ l).

#[local] Notation Verify := (VerifyMessage C ParseCertificates is_dsa time_Now DecodePrefix SetString_left).

Lemma DecodeString_encode b : DecodeString DecodePrefix (StdEncode b) = b.
Proof. unfold DecodeString. by rewrite StdDecode_StdEncode. Qed.

(** A text with the entries of an elliptic curve signature verifies. *)
Lemma VerifyECMessageImpl_entries json out pub priv r s :
  ec_pair pub priv -> ecdsa_Sign C priv (sha384 C (bytes_of_string json)) = Ok (r, s) ->
  ReadJSONAsMapString out "ECSignature.R" = Ok (Itoa r) ->
  ReadJSONAsMapString out "ECSignature.S" = Ok (Itoa s) ->
  VerifyECMessageImpl C SetString_left json out pub = Ok true.
Proof.
  intros Hp Hs HR HS. unfold VerifyECMessageImpl. rewrite HR. simpl. rewrite HS. simpl.
  unfold SetString. rewrite !bigint_Itoa. simpl. unfold mret, outcome_ret. f_equal. by eapply law_ecdsa.
Qed.

Lemma VerifyRSAMessageImpl_entries json out pub priv sig :
  rsa_pair pub priv -> SignPKCS1v15 C priv (sha384 C (bytes_of_string json)) = Ok sig ->
  ReadJSONAsMapString out "RSASignature" = Ok (StdEncode sig) ->
  VerifyRSAMessageImpl C DecodePrefix json out pub = Ok true.
Proof.
  intros Hp Hs HR. unfold VerifyRSAMessageImpl. rewrite HR. simpl. unfold RSAVerifySig.
  rewrite DecodeString_encode. by rewrite (law_rsa _ _ _ _ Hp Hs).
Qed.

Lemma valid_certificate_run msg der cert t w w' :
  ParseCertificates der = Ok [cert] -> time_Now w = (Ok t, w') -> (NotBefore cert < t < NotAfter cert)%Z ->
  valid_certificate ParseCertificates time_Now msg der w = (Ok cert, w').
Proof.
  intros Hp Ht Hv. unfold valid_certificate. rewrite Hp, (bind_ok _ _ _ _ _ Ht).
  by rewrite (proj2 (ValidateCert_spec _ _ _) Hv).
Qed.

(** (C33) Signed JSON, elliptic curves, once the certificate and the signature
    are made: over every text that is a JSON object whose numbers are in the
    range of a double, whatever else it holds, and whatever the order in which
    the new entries are written, [SignECMessage] yields a text that verifies
    for its message; with [VerifyMessage] while the certificate it made is
    valid.  Over any other text it panics. *)
Theorem SignECMessage_verifies json template w now w1 pub priv w2 der w3 cert r s :
  time_Now w = (Ok now, w1) -> GenerateKey w1 = (Ok (pub, priv), w2) -> ec_pair pub priv ->
  CreateCertificate (self_signed now) pub priv w2 = (Ok der, w3) ->
  ParseCertificate C der = Ok cert -> PubKey cert = ECDSAKey pub ->
  ecdsa_Sign C priv (sha384 C (bytes_of_string json)) = Ok (r, s) ->
  match NewMapFromJSON template with
  | Some _ =>
      exists out, SignECMessage C time_Now GenerateKey CreateCertificate range json template w = (Ok out, w3)
        /\ VerifyECMessage C DecodePrefix SetString_left json out = Ok true
        /\ (forall t w4, ParseCertificates der = Ok [cert] -> pem_Decode C der = None ->
              time_Now w3 = (Ok t, w4) -> (NotBefore cert < t < NotAfter cert)%Z ->
              Verify json out w3 = (Ok true, w4))
  | None => exists p, SignECMessage C time_Now GenerateKey CreateCertificate range json template w = (Panic p, w3)
  end.
Proof.
  intros Hnow Hgen Hpair Hcc Hparse Hkey Hsign.
  set (entries := [("ECSignature.R", Itoa r); ("ECSignature.S", Itoa s); ("Certificate", StdEncode der)]).
  assert (Hrun : SignECMessage C time_Now GenerateKey CreateCertificate range json template w
    = (WriteJSONToString template (range entries), w3)).
  { unfold SignECMessage, fatal, NewSelfSignedCert.
    assert ((now ← time_Now; '(pub, privKey) ← GenerateKey;
             cert ← CreateCertificate (self_signed now) pub privKey; mret (cert, privKey)) w = (Ok (der, priv), w3)) as E.
    { by rewrite (bind_ok _ _ _ _ _ Hnow), (bind_ok _ _ _ _ _ Hgen), (bind_ok _ _ _ _ _ Hcc). }
    rewrite (bind_attempt_ok _ _ _ _ _ E). cbv beta iota.
    by rewrite (bind_attempt_ok _ _ w3 (r, s) w3) by (unfold lift, ECDSASignDirect; by rewrite Hsign). }
  rewrite Hrun. destruct (NewMapFromJSON template) as [m|] eqn:Ht.
  2:{ unfold WriteJSONToString. rewrite Ht. pose proof (Hrange entries) as Hr.
      destruct (range entries) as [|[k v] l]; [by apply Permutation_nil_l in Hr|]. by eexists. }
  assert (Hs : is_Some (NewMapFromJSON template)) by (rewrite Ht; by eexists).
  clear Ht. rename Hs into Ht. destruct (WriteJSONToString_read template (range entries) Ht) as (out & Hout & Hread).
  { rewrite Hrange. unfold entries, locators. repeat constructor; set_solver. }
  { rewrite Hrange. apply (bool_decide_unpack (NoDup (map fst entries))). reflexivity. }
  assert (Hr : forall k v, (k, v) ∈ entries -> ReadJSONAsMapString out k = Ok v).
  { intros k v Hin. apply Hread. by rewrite Hrange. }
  pose proof (VerifyECMessageImpl_entries json out pub priv r s Hpair Hsign
    (Hr "ECSignature.R" (Itoa r) ltac:(by left)) (Hr "ECSignature.S" (Itoa s) ltac:(by right; left))) as Hec.
  assert (ReadJSONAsMapString out "Certificate" = Ok (StdEncode der)) as Hc by (apply Hr; by right; right; left).
  exists out. rewrite Hout. split; [done|]. split.
  - unfold VerifyECMessage. rewrite Hc. simpl. by rewrite DecodeString_encode, Hparse, Hkey.
  - intros t w4 Hps Hpem Hnow' Hval. unfold VerifyMessage.
    rewrite (bind_ok _ _ w3 (StdEncode der) w3) by (unfold lift; by rewrite Hc).
    rewrite DecodeString_encode, Hpem.
    rewrite (bind_ok _ _ _ _ _ (valid_certificate_run _ der cert t w3 w4 Hps Hnow' Hval)). rewrite Hkey.
    unfold lift. by rewrite Hec.
Qed.

(** Signed JSON, RSA: the certificate is the caller's, in PEM or DER. *)
Theorem RSASignJSON_verifies json template priv pub cert_der block cert sig w t w' :
  is_Some (NewMapFromJSON template) -> rsa_pair pub priv ->
  SignPKCS1v15 C priv (sha384 C (bytes_of_string json)) = Ok sig ->
  default cert_der (pem_Decode C cert_der) = block -> ParseCertificates block = Ok [cert] ->
  PubKey cert = RSAKey pub -> time_Now w = (Ok t, w') -> (NotBefore cert < t < NotAfter cert)%Z ->
  exists out, RSASignJSON C range json template priv (StdEncode cert_der) = Ok out
    /\ Verify json out w = (Ok true, w').
Proof.
  intros Ht Hpair Hsign Hblock Hps Hkey Hnow Hval.
  set (entries := [("RSASignature", StdEncode sig); ("Certificate", StdEncode cert_der)]).
  destruct (WriteJSONToString_read template (range entries) Ht) as (out & Hout & Hread).
  { rewrite Hrange. unfold entries, locators. repeat constructor; set_solver. }
  { rewrite Hrange. apply (bool_decide_unpack (NoDup (map fst entries))). reflexivity. }
  assert (Hr : forall k v, (k, v) ∈ entries -> ReadJSONAsMapString out k = Ok v).
  { intros k v Hin. apply Hread. by rewrite Hrange. }
  exists out. split.
  - unfold RSASignJSON, RSASign. rewrite Hsign. exact Hout.
  - unfold VerifyMessage.
    rewrite (bind_ok _ _ w (StdEncode cert_der) w) by (unfold lift; by rewrite (Hr "Certificate" (StdEncode cert_der) ltac:(by right; left))).
    rewrite DecodeString_encode.
    rewrite (bind_ok _ _ w cert w').
    2:{ destruct (pem_Decode C cert_der); simpl in Hblock; subst; by eapply valid_certificate_run. }
    rewrite Hkey. unfold lift.
    by rewrite (VerifyRSAMessageImpl_entries json out pub priv sig Hpair Hsign (Hr "RSASignature" (StdEncode sig) ltac:(by left))).
Qed.

(** (C32) [VerifyMessage] is sound: when it answers true, the certificate in the
    text reads, from PEM or DER, as one valid at that time, its key is an RSA
    or an ECDSA key, and the signature in the text is valid for the message
    under that key. *)
Theorem VerifyMessage_sound json sigtext w w' :
  Verify json sigtext w = (Ok true, w') ->
  exists ecert der cert rest now,
    ReadJSONAsMapString sigtext "Certificate" = Ok ecert
    /\ der = DecodeString DecodePrefix ecert
    /\ ParseCertificates (default der (pem_Decode C der)) = Ok (cert :: rest)
    /\ time_Now w = (Ok now, w') /\ (NotBefore cert < now < NotAfter cert)%Z
    /\ ((exists k sig, PubKey cert = RSAKey k /\ ReadJSONAsMapString sigtext "RSASignature" = Ok sig
           /\ VerifyPKCS1v15 C k (sha384 C (bytes_of_string json)) (DecodeString DecodePrefix sig) = None)
        \/ (exists k R S, PubKey cert = ECDSAKey k /\ ReadJSONAsMapString sigtext "ECSignature.R" = Ok R
             /\ ReadJSONAsMapString sigtext "ECSignature.S" = Ok S
             /\ ecdsa_Verify C k (sha384 C (bytes_of_string json)) (SetString SetString_left R)
                  (SetString SetString_left S) = true)).
Proof using.
  unfold VerifyMessage. intros (ecert & w1 & Hc & H)%bind_ok_inv. unfold lift in Hc. injection Hc as Hc <-.
  apply bind_ok_inv in H as (cert & w2 & Hv & H).
  assert (exists msg, valid_certificate ParseCertificates time_Now msg
    (default (DecodeString DecodePrefix ecert) (pem_Decode C (DecodeString DecodePrefix ecert))) w = (Ok cert, w2)) as [msg Hv']
    by (destruct (pem_Decode C (DecodeString DecodePrefix ecert)); by eexists).
  clear Hv. unfold valid_certificate in Hv'.
  destruct (ParseCertificates _) as [[|cert0 rest]| | | |] eqn:Hps; try done.
  apply bind_ok_inv in Hv' as (now & w3 & Hnow & Hv'). destruct (ValidateCert _ _ _) eqn:Hval; [|done].
  injection Hv' as <- <-. apply ValidateCert_spec in Hval.
  exists ecert, (DecodeString DecodePrefix ecert), cert0, rest, now.
  do 2 (split; [done|]). split; [done|].
  unfold lift in H. destruct (PubKey cert0) as [k|k|k] eqn:Hk.
  - unfold VerifyRSAMessageImpl in H. destruct (ReadJSONAsMapString sigtext "RSASignature") as [sig| | | |] eqn:Hs; try done.
    simpl in H. injection H as H <-. split; [done|]. split; [done|]. left. exists k, sig. do 2 (split; [done|]).
    unfold RSAVerifySig in H. by destruct (VerifyPKCS1v15 _ _ _ _).
  - unfold VerifyECMessageImpl in H. destruct (ReadJSONAsMapString sigtext "ECSignature.R") as [R| | | |] eqn:HR; try done.
    simpl in H. destruct (ReadJSONAsMapString sigtext "ECSignature.S") as [S| | | |] eqn:HS; try done.
    simpl in H. injection H as H <-. split; [done|]. split; [done|]. right. by exists k, R, S.
  - by destruct (is_dsa k).
Qed.
End theorems.

(** ** Witnesses *)

(** A world that is a clock; the keys and certificates of [toy_crypto]. *)
Definition toy_now : comp Z Z := fun w => (Ok w, (w + 1)%Z).
Definition toy_keys : comp Z (Z * Z) := mret (7, 7)%Z.
Definition toy_create (t : SelfSigned) (pub priv : Z) : comp Z bytes := mret [x02].
Definition toy_parse (der : bytes) : outcome (list Certificate) := c ← ParseCertificate toy_crypto der; mret [c].

(** A text whose entry [ECSignature] is not an object. *)
Definition toy_template : string := json_print (JObj [("note", JStr "x"); ("ECSignature", JNum "1"); ("rate", JNum "0.10")]).

Lemma SignECMessage_verifies_witness :
  (exists out, SignECMessage toy_crypto toy_now toy_keys toy_create (@reverse _) "pay 10" toy_template 5%Z = (Ok out, 6%Z)
     /\ VerifyECMessage toy_crypto (fun _ => []) (fun _ => 0%Z) "pay 10" out = Ok true)
  /\ exists p, SignECMessage toy_crypto toy_now toy_keys toy_create (@reverse _) "pay 10"
                 (json_print (JObj [("a", JNum "1e999")])) 5%Z = (Panic p, 6%Z).
Proof.
  assert (Hrun : forall template, _)
    by exact (fun template => SignECMessage_verifies toy_crypto toy_parse (fun _ => false) toy_now toy_keys toy_create
      (fun _ => []) (fun _ => 0%Z) (@reverse _) (fun l => reverse_Permutation l) "pay 10" template
      5%Z 5%Z 6%Z 7%Z 7%Z 6%Z [x02] 6%Z (toy_cert (ECDSAKey 7)) 7%Z 5%Z eq_refl eq_refl eq_refl eq_refl eq_refl eq_refl
      eq_refl).
  split.
  - specialize (Hrun toy_template). destruct (NewMapFromJSON toy_template) as [m|] eqn:E; [|vm_compute in E; discriminate E].
    destruct Hrun as (out & H1 & H2 & _). by exists out.
  - specialize (Hrun (json_print (JObj [("a", JNum "1e999")]))).
    destruct (NewMapFromJSON (json_print (JObj [("a", JNum "1e999")]))) as [m|] eqn:E; [vm_compute in E; discriminate E|].
    exact Hrun.
Defined.

Definition toy_signed : string :=
  match RSASignJSON toy_crypto (@reverse _) "pay 10" toy_template 7 (StdEncode [x01]) with Ok s => s | _ => "" end.

Lemma RSASignJSON_verifies_witness :
  exists out, RSASignJSON toy_crypto (@reverse _) "pay 10" toy_template 7 (StdEncode [x01]) = Ok out
    /\ VerifyMessage toy_crypto toy_parse (fun _ => false) toy_now (fun _ => []) (fun _ => 0%Z) "pay 10" out 5%Z
       = (Ok true, 6%Z).
Proof.
  apply (RSASignJSON_verifies toy_crypto toy_parse (fun _ => false) toy_now (fun _ => []) (fun _ => 0%Z)
    (@reverse _) (fun l => reverse_Permutation l) "pay 10" toy_template 7%Z 7%Z [x01] [x01]
    (toy_cert (RSAKey 7)) (Zbyte 7 :: bytes_of_string "pay 10") 5%Z 5%Z 6%Z);
    [by vm_compute; eexists|reflexivity|reflexivity|reflexivity|reflexivity|reflexivity|reflexivity|simpl; lia].
Defined.

Lemma VerifyMessage_sound_witness :
  exists ecert cert rest, ReadJSONAsMapString toy_signed "Certificate" = Ok ecert
    /\ toy_parse (DecodeString (fun _ => []) ecert) = Ok (cert :: rest) /\ (NotBefore cert < 5 < NotAfter cert)%Z.
Proof.
  destruct (VerifyMessage_sound toy_crypto toy_parse (fun _ => false) toy_now (fun _ => []) (fun _ => 0%Z)
    "pay 10" toy_signed 5%Z 6%Z) as (ecert & der & cert & rest & now & H1 & -> & H2 & [= <-] & H3 & _);
    [vm_compute; reflexivity|].
  exists ecert, cert, rest. split; [exact H1|]. split; [|exact H3].
  revert H2. unfold toy_crypto at 1. simpl. by destruct (DecodeString _ ecert).
Defined.
