(* ===== verification/Config.v ===== *)
(** * The server configuration (src/cli/server/config.go)

    The [Config] structure and the structures it contains (src/lib/tls/tls.go,
    src/cli/server/ldap/client.go), its JSON form, and [configInit], which
    reads it, makes its file names absolute and completes the CFSSL
    configuration from it.  The file system is a function from file names to
    contents, the environment a function from names to values. *)

From S2P Require Import Prelude GoStrings GoFmt GoJson CopError Registry GoUnmarshal Util.

(** [tls.KeyCertFiles] and [tls.ClientTLSConfig]. *)
Record KeyCertFiles := mkKeyCertFiles { KeyFile : string; CertFile : string }.

Record ClientTLSConfig := mkClientTLSConfig {
  CACertFiles : list string;
  tls_Client : KeyCertFiles
}.

Record TLSConfig := mkTLSConfig {
  TLSCertFile : string;
  TLSKeyFile : string;
  MutualTLSCAFile : string;
  DBClient : ClientTLSConfig
}.

(** [ldap.Config]. *)
Record LDAPConfig := mkLDAPConfig {
  ldap_URL : string;
  ldap_Base : string;
  ldap_UserFilter : string;
  ldap_GroupFilter : string
}.

(** [User] of config.go: a user the bootstrap registers. *)
Record ConfigUser := mkConfigUser {
  cu_Pass : string;
  cu_Type : string;
  cu_Group : string;
  cu_Attributes : list Attribute
}.

(** [Config].  The [users] map keeps the order in which it is ranged over. *)
Record Config := mkConfig {
  Debug : bool;
  Authentication : bool;
  Users : list (string * option ConfigUser);   (* a nil *User for a JSON null *)
  DBdriver : string;
  DataSource : string;
  MaxEnrollments : Z;            (* UsrReg.MaxEnrollments *)
  LDAP : option LDAPConfig;
  CAFile : string;
  CAKeyFile : string;            (* KeyFile, ca_key *)
  TLSConf : TLSConfig;
  TLSDisable : bool
}.

Definition zero_ClientTLS : ClientTLSConfig := mkClientTLSConfig [] (mkKeyCertFiles "" "").
Definition zero_TLS : TLSConfig := mkTLSConfig "" "" "" zero_ClientTLS.

(** [newConfig()], also the value [configInit] unmarshals into. *)
Definition newConfig : Config :=
  mkConfig false true [] "" "" 0 None "" "" zero_TLS false.

(** ** Decoding *)

Definition dec_KeyCertFiles : decoder KeyCertFiles :=
  dec_struct [("keyfile", dec_str (fun s c => mkKeyCertFiles s (CertFile c)));
              ("certfile", dec_str (fun s c => mkKeyCertFiles (KeyFile c) s))].

Definition dec_ClientTLSConfig : decoder ClientTLSConfig :=
  dec_struct
    [("ca_certfiles", dec_slice "" (dec_str (fun s _ => s)) (fun l c => mkClientTLSConfig l (tls_Client c)));
     ("client", dec_sub tls_Client dec_KeyCertFiles (fun k c => mkClientTLSConfig (CACertFiles c) k))].

Definition dec_TLSConfig : decoder TLSConfig :=
  dec_struct
    [("tls_cert", dec_str (fun s t => mkTLSConfig s (TLSKeyFile t) (MutualTLSCAFile t) (DBClient t)));
     ("tls_key", dec_str (fun s t => mkTLSConfig (TLSCertFile t) s (MutualTLSCAFile t) (DBClient t)));
     ("mutual_tls_ca", dec_str (fun s t => mkTLSConfig (TLSCertFile t) (TLSKeyFile t) s (DBClient t)));
     ("db_client", dec_sub DBClient dec_ClientTLSConfig
        (fun d t => mkTLSConfig (TLSCertFile t) (TLSKeyFile t) (MutualTLSCAFile t) d))].

Definition dec_LDAPConfig : decoder LDAPConfig :=
  dec_struct
    [("url", dec_str (fun s l => mkLDAPConfig s (ldap_Base l) (ldap_UserFilter l) (ldap_GroupFilter l)));
     ("base", dec_str (fun s l => mkLDAPConfig (ldap_URL l) s (ldap_UserFilter l) (ldap_GroupFilter l)));
     ("userfilter", dec_str (fun s l => mkLDAPConfig (ldap_URL l) (ldap_Base l) s (ldap_GroupFilter l)));
     ("groupfilter", dec_str (fun s l => mkLDAPConfig (ldap_URL l) (ldap_Base l) (ldap_UserFilter l) s))].

Definition dec_ConfigUser : decoder ConfigUser :=
  dec_struct
    [("pass", dec_str (fun s u => mkConfigUser s (cu_Type u) (cu_Group u) (cu_Attributes u)));
     ("type", dec_str (fun s u => mkConfigUser (cu_Pass u) s (cu_Group u) (cu_Attributes u)));
     ("group", dec_str (fun s u => mkConfigUser (cu_Pass u) (cu_Type u) s (cu_Attributes u)));
     ("attrs", dec_slice (mkAttribute "" "") dec_attribute
        (fun l u => mkConfigUser (cu_Pass u) (cu_Type u) (cu_Group u) l))].

Definition set_Debug (b : bool) (c : Config) : Config :=
  mkConfig b (Authentication c) (Users c) (DBdriver c) (DataSource c) (MaxEnrollments c) (LDAP c)
    (CAFile c) (CAKeyFile c) (TLSConf c) (TLSDisable c).

Definition set_Authentication (b : bool) (c : Config) : Config :=
  mkConfig (Debug c) b (Users c) (DBdriver c) (DataSource c) (MaxEnrollments c) (LDAP c)
    (CAFile c) (CAKeyFile c) (TLSConf c) (TLSDisable c).

Definition set_Users (l : list (string * option ConfigUser)) (c : Config) : Config :=
  mkConfig (Debug c) (Authentication c) l (DBdriver c) (DataSource c) (MaxEnrollments c) (LDAP c)
    (CAFile c) (CAKeyFile c) (TLSConf c) (TLSDisable c).

Definition set_DB (driver source : string) (c : Config) : Config :=
  mkConfig (Debug c) (Authentication c) (Users c) driver source (MaxEnrollments c) (LDAP c)
    (CAFile c) (CAKeyFile c) (TLSConf c) (TLSDisable c).

Definition set_MaxEnrollments (z : Z) (c : Config) : Config :=
  mkConfig (Debug c) (Authentication c) (Users c) (DBdriver c) (DataSource c) z (LDAP c)
    (CAFile c) (CAKeyFile c) (TLSConf c) (TLSDisable c).

Definition set_LDAP (l : option LDAPConfig) (c : Config) : Config :=
  mkConfig (Debug c) (Authentication c) (Users c) (DBdriver c) (DataSource c) (MaxEnrollments c) l
    (CAFile c) (CAKeyFile c) (TLSConf c) (TLSDisable c).

Definition set_CA (cert key : string) (c : Config) : Config :=
  mkConfig (Debug c) (Authentication c) (Users c) (DBdriver c) (DataSource c) (MaxEnrollments c)
    (LDAP c) cert key (TLSConf c) (TLSDisable c).

Definition set_TLSConf (t : TLSConfig) (c : Config) : Config :=
  mkConfig (Debug c) (Authentication c) (Users c) (DBdriver c) (DataSource c) (MaxEnrollments c)
    (LDAP c) (CAFile c) (CAKeyFile c) t (TLSDisable c).

Definition set_TLSDisable (b : bool) (c : Config) : Config :=
  mkConfig (Debug c) (Authentication c) (Users c) (DBdriver c) (DataSource c) (MaxEnrollments c)
    (LDAP c) (CAFile c) (CAKeyFile c) (TLSConf c) b.

(** Storing into a Go map: a later member of the same name replaces. *)
Definition map_store {V} (k : string) (v : V) (l : list (string * V)) : list (string * V) :=
  List.filter (fun p => negb (bool_decide (p.1 = k))) l ++ [(k, v)].

Definition dec_UserPtr (v : json) : option ConfigUser * bool :=
  match v with
  | JNull => (None, true)
  | _ => let '(u, ok) := dec_ConfigUser v (mkConfigUser "" "" "" []) in (Some u, ok)
  end.

Definition dec_Users : decoder Config := fun v c =>
  match v with
  | JObj l =>
      (set_Users (foldl (fun us kv => map_store kv.1 (dec_UserPtr kv.2).1 us) (Users c) l) c,
       forallb (fun kv => (dec_UserPtr kv.2).2) l)
  | JNull => (set_Users [] c, true)
  | _ => (c, false)
  end.

(** A pointer field: null makes it nil, otherwise it is allocated if needed. *)
Definition dec_LDAP : decoder Config := fun v c =>
  match v with
  | JNull => (set_LDAP None c, true)
  | _ => let '(l, ok) := dec_LDAPConfig v (default (mkLDAPConfig "" "" "" "") (LDAP c)) in
         (set_LDAP (Some l) c, ok)
  end.

Definition dec_Config : decoder Config :=
  dec_struct
    [("debug", dec_bool set_Debug);
     ("authentication", dec_bool set_Authentication);
     ("users", dec_Users);
     ("driver", dec_str (fun s c => set_DB s (DataSource c) c));
     ("data_source", dec_str (fun s c => set_DB (DBdriver c) s c));
     ("user_registry", dec_sub MaxEnrollments
        (dec_struct [("max_enrollments", dec_int (fun z _ => z))]) set_MaxEnrollments);
     ("ldap", dec_LDAP);
     ("ca_cert", dec_str (fun s c => set_CA s (CAKeyFile c) c));
     ("ca_key", dec_str (fun s c => set_CA (CAFile c) s c));
     ("tls", dec_sub TLSConf dec_TLSConfig set_TLSConf);
     ("tls_disable", dec_bool set_TLSDisable)].

(** ** configInit *)

(** The fields of CFSSL's [cli.Config] that the server and the client commands
    read or set. *)
Record CliConfig := mkCliConfig {
  cli_ConfigFile : string;
  cli_DBConfigFile : string;
  cli_TLSCertFile : string;
  cli_TLSKeyFile : string;
  cli_MutualTLSCAFile : string;
  cli_Address : string;
  cli_Port : Z;
  cli_IntDir : string;
  cli_Metadata : string;
  cli_Remote : string;
  cli_CABundleFile : string;
  cli_IntBundleFile : string;
  cli_Serial : string;
  cli_AKI : string;
  cli_Reason : string;
  cli_CAFile : string;
  cli_CAKeyFile : string;
  cli_KeyFile : string;
  cli_ResponderFile : string;
  cli_ResponderKeyFile : string;
  cli_Interval : Z
}.

(** The flags' values when only [-config], [-address] and [-port] are given. *)
Definition cli_flags (file address : string) (port : Z) : CliConfig :=
  mkCliConfig file "" "" "" "" address port "" "" "" "" "" "" "" "0" "" "" "" "" "" 345600000000000.

Definition set_cli_files (db cert key mca : string) (c : CliConfig) : CliConfig :=
  mkCliConfig (cli_ConfigFile c) db cert key mca (cli_Address c) (cli_Port c) (cli_IntDir c) (cli_Metadata c)
    (cli_Remote c) (cli_CABundleFile c) (cli_IntBundleFile c) (cli_Serial c) (cli_AKI c) (cli_Reason c)
    (cli_CAFile c) (cli_CAKeyFile c) (cli_KeyFile c) (cli_ResponderFile c) (cli_ResponderKeyFile c) (cli_Interval c).

(** [filepath.Dir]: everything but the last element, cleaned. *)
Definition filepath_Dir (p : string) : string :=
  match reverse (Split p "/") with
  | [] | [_] => "."
  | _ :: rest =>
      match reverse rest with
      | [ "" ] => "/"
      | d => Clean (Join d "/")
      end
  end.

(** [filepath.Base] of a path with no trailing slash. *)
Definition filepath_Base (p : string) : string :=
  if bool_decide (p = "") then "."
  else match List.filter (fun c => negb (bool_decide (c = ""))) (reverse (Split p "/")) with
       | [] => "/"
       | c :: _ => c
       end.

Section configInit.
Context (wd : string) (readFile : string -> option string) (getenv : string -> string).

(** [abs(file)]: relative to the configuration directory. *)
Definition abs (configDir file : string) : string := MakeFileAbs wd file configDir.

Definition absTLSClient (configDir : string) (cfg : ClientTLSConfig) : ClientTLSConfig :=
  mkClientTLSConfig (map (abs configDir) (CACertFiles cfg))
    (mkKeyCertFiles (abs configDir (KeyFile (tls_Client cfg)))
                    (abs configDir (CertFile (tls_Client cfg)))).

Definition orElse (a b : string) : string := if negb (bool_decide (a = "")) then a else b.

(** The part of [configInit] after the file has been read and parsed. *)
Definition configComplete (configDir : string) (cfg : CliConfig) (C : Config) : Config * CliConfig :=
  let C := set_CA (abs configDir (CAFile C)) (abs configDir (CAKeyFile C)) C in
  let t := TLSConf C in
  let C := set_TLSConf (mkTLSConfig (abs configDir (TLSCertFile t)) (abs configDir (TLSKeyFile t))
             (abs configDir (MutualTLSCAFile t)) (absTLSClient configDir (DBClient t))) C in
  let t := TLSConf C in
  let cfg := set_cli_files
               (if bool_decide (cli_DBConfigFile cfg = "") then cli_ConfigFile cfg
                else cli_DBConfigFile cfg)
               (orElse (TLSCertFile t) (CAFile C))
               (orElse (TLSKeyFile t) (CAKeyFile C))
               (orElse (MutualTLSCAFile t) (cli_MutualTLSCAFile cfg)) cfg in
  let C := if bool_decide (DBdriver C = "") then set_DB "sqlite3" "cop.db" C else C in
  let C := if bool_decide (DBdriver C = "sqlite3")
           then set_DB (DBdriver C) (abs configDir (DataSource C)) C else C in
  let dbg := getenv "COP_DEBUG" in
  let C := if negb (bool_decide (dbg = "")) then set_Debug (bool_decide (dbg = "true")) C else C in
  (C, cfg).

(** [configInit]: the COP configuration, the completed CFSSL configuration,
    the configuration file and its directory.  Failures panic. *)
Definition configInit (cfg : CliConfig) : outcome (Config * CliConfig * string * string) :=
  let configFile := filepath_Abs wd (cli_ConfigFile cfg) in
  let configDir := filepath_Dir configFile in
  match readFile configFile with
  | None => Panic ("open " +:+ configFile +:+ ": no such file or directory")
  | Some body =>
      match json_Unmarshal dec_Config body newConfig with
      | (_, Some err) => Panic (Sprintf "error parsing %s: %s" [FStr configFile; FStr (Error err)])
      | (C, None) =>
          let '(C, cfg) := configComplete configDir cfg C in
          Ok (C, cfg, configFile, configDir)
      end
  end.
End configInit.

(** ** Properties *)

Lemma Clean_abs p : is_abs p = true -> is_abs (Clean p) = true.
Proof.
  intros H. unfold Clean. rewrite H. apply HasPrefix_true. by eexists.
Qed.

Lemma is_abs_cons p : is_abs p = true -> exists q, p = String "/" q.
Proof. intros [q ->]%HasPrefix_true. by exists q. Qed.

Lemma path_Join_abs wd p : is_abs wd = true -> is_abs (path_Join [wd; p]) = true.
Proof.
  intros (q & ->)%is_abs_cons. cbn [path_Join Join]. apply Clean_abs, HasPrefix_true. by eexists.
Qed.

(** With an absolute working directory every non-empty name becomes absolute. *)
Lemma MakeFileAbs_abs wd file dir :
  is_abs wd = true -> file <> "" -> is_abs (MakeFileAbs wd file dir) = true.
Proof.
  intros Hwd Hf. unfold MakeFileAbs. rewrite bool_decide_false by done.
  destruct (is_abs file) eqn:E; [done|]. unfold filepath_Abs.
  destruct (is_abs (path_Join [dir; file])) eqn:E2; [by apply Clean_abs|by apply path_Join_abs].
Qed.

Lemma MakeFileAbs_id wd file dir : is_abs file = true -> MakeFileAbs wd file dir = file.
Proof.
  intros H. unfold MakeFileAbs. case_bool_decide; [by subst|]. by rewrite H.
Qed.

Definition abs_or_empty (p : string) : Prop := p = "" \/ is_abs p = true.

Lemma abs_abs_or_empty wd dir file : is_abs wd = true -> abs_or_empty (abs wd dir file).
Proof.
  intros H. destruct (decide (file = "")) as [->|Hf]; [by left|right].
  by apply MakeFileAbs_abs.
Qed.

(** Every file name of the configuration. *)
Definition config_files (C : Config) : list string :=
  let t := TLSConf C in
  [CAFile C; CAKeyFile C; TLSCertFile t; TLSKeyFile t; MutualTLSCAFile t;
   KeyFile (tls_Client (DBClient t)); CertFile (tls_Client (DBClient t))]
  ++ CACertFiles (DBClient t).

(** What the rest of the server relies on after [configInit]. *)
Definition config_ready (C : Config) (cfg : CliConfig) : Prop :=
  Forall abs_or_empty (config_files C)
  /\ DBdriver C <> ""
  /\ (DBdriver C = "sqlite3" -> abs_or_empty (DataSource C))
  /\ cli_TLSCertFile cfg = orElse (TLSCertFile (TLSConf C)) (CAFile C)
  /\ cli_TLSKeyFile cfg = orElse (TLSKeyFile (TLSConf C)) (CAKeyFile C).

Lemma configComplete_ready wd getenv dir cfg C C' cfg' :
  is_abs wd = true -> configComplete wd getenv dir cfg C = (C', cfg') -> config_ready C' cfg'.
Proof.
  intros Hwd. unfold configComplete. intros [= <- <-]. unfold config_ready, config_files.
  assert (Habs : forall f, abs_or_empty (abs wd dir f)) by (intros; by apply abs_abs_or_empty).
  assert (forall l, Forall abs_or_empty (map (abs wd dir) l)) as Hl.
  { intros l. induction l; constructor; auto. }
  destruct (negb (bool_decide (getenv "COP_DEBUG" = ""))); repeat case_bool_decide; simpl in *;
    (split; [repeat (apply Forall_cons; split; [apply Habs|]); apply Hl|]);
    (split; [congruence|]); (split; [intros ?; try congruence; apply Habs|]); split; reflexivity.
Qed.

(** After [configInit] succeeds in a process whose working directory is
    absolute, every file name of the configuration, the SQLite data source
    included, is empty or absolute, a database driver is selected, and the
    server's TLS pair falls back to the CA's. *)
Theorem configInit_ready wd readFile getenv cfg C cfg' configFile configDir :
  is_abs wd = true ->
  configInit wd readFile getenv cfg = Ok (C, cfg', configFile, configDir) ->
  config_ready C cfg'.
Proof.
  intros Hwd. unfold configInit. destruct (readFile _) as [body|]; [|done].
  destruct (json_Unmarshal _ _ _) as [C0 [err|]]; [done|].
  destruct (configComplete _ _ _ _ _) as [C1 cfg1] eqn:E. intros [= <- <- <- <-].
  by eapply configComplete_ready.
Qed.

(** A configuration with two users that names its CA files, with [ca_cert]
    relative. *)
Definition sample_user_json (pass type group : string) : json :=
  JObj [("pass", JStr pass); ("type", JStr type); ("group", JStr group); ("attrs", JArr [])].

Definition sample_config : string :=
  json_print (JObj [("users", JObj [("admin", sample_user_json "adminpw" "client" "bank_a");
                                    ("stray", sample_user_json "pw" "peer" "bank_z")]);
                    ("ca_cert", JStr "ca.pem"); ("ca_key", JStr "/keys/ca.pem");
                    ("user_registry", JObj [("max_enrollments", JNum "3")])]).

Definition sample_read (f : string) : option string :=
  if bool_decide (f = "/etc/cop/cop.json") then Some sample_config else None.

Lemma configInit_ready_witness :
  exists C cfg', configInit "/etc" sample_read (fun _ => "") (cli_flags "cop/cop.json" "" 8888)
    = Ok (C, cfg', "/etc/cop/cop.json", "/etc/cop")
  /\ CAFile C = "/etc/cop/ca.pem" /\ DataSource C = "/etc/cop/cop.db" /\ config_ready C cfg'.
Proof.
  eexists _, _. split; [vm_compute; reflexivity|]. split; [reflexivity|]. split; [reflexivity|].
  apply (configInit_ready "/etc" sample_read (fun _ => "") (cli_flags "cop/cop.json" "" 8888)
    _ _ "/etc/cop/cop.json" "/etc/cop"); vm_compute; reflexivity.
Defined.
