(* ===== verification/CommandLine.v ===== *)
(** * The command line (src/vendor/github.com/cloudflare/cfssl/cli: cli.go, config.go)

    The commands of the program are run by CFSSL's [cli.Start]: it takes a
    command's name from the arguments, reads the command's flags with Go's
    package [flag] into the configuration, loads CFSSL's configuration file
    when one is named, and calls the command's main function.  What is printed
    on the standard error output is not modelled. *)

From S2P Require Import Prelude GoStrings GoFmt GoJson CopError Config.

(** ** Package flag *)

(** The value of a flag, with the type of the variable it sets; durations are
    in nanoseconds. *)
Inductive FlagValue :=
  | VString (s : string)
  | VInt (z : Z)
  | VBool (b : bool)
  | VDuration (ns : Z).

#[export] Instance FlagValue_eq_dec : EqDecision FlagValue.
Proof. solve_decision. Defined.

(** The flags that are defined, with their present values. *)
Notation FlagSet := (gmap string FlagValue).

(** The digits of a number in base 8, 10 or 16. *)
Definition hex_value (c : ascii) : option Z :=
  let n := Ascii.nat_of_ascii c in
  if digit_char c then Some (digit_value c)
  else if (97 <=? n)%nat && (n <=? 122)%nat then Some (Z.of_nat n - 87)%Z
  else if (65 <=? n)%nat && (n <=? 90)%nat then Some (Z.of_nat n - 55)%Z
  else None.

Fixpoint read_base (base acc : Z) (s : string) : option Z :=
  match s with
  | EmptyString => Some acc
  | String c s' =>
      d ← hex_value c;
      if (d <? base)%Z then read_base base (base * acc + d) s' else None
  end.

(** [strconv.ParseInt(s, 0, 64)]: the prefix tells the base. *)
Definition ParseInt0 (s : string) : option Z :=
  let '(neg, ds) := match s with
                    | String "-" t => (true, t)
                    | String "+" t => (false, t)
                    | _ => (false, s)
                    end in
  let digits base t := match t with EmptyString => None | _ => read_base base 0 t end in
  z ← match ds with
      | String "0" (String "x" t) | String "0" (String "X" t) => digits 16%Z t
      | String "0" (String c t) => digits 8%Z (String c t)
      | _ => digits 10%Z ds
      end;
  let z := (if neg : bool then - z else z)%Z in
  if (- 2 ^ 63 <=? z)%Z && (z <? 2 ^ 63)%Z then Some z else None.

(** [strconv.ParseBool]. *)
Definition ParseBool (s : string) : option bool :=
  if bool_decide (s ∈ ["1"; "t"; "T"; "true"; "TRUE"; "True"]) then Some true
  else if bool_decide (s ∈ ["0"; "f"; "F"; "false"; "FALSE"; "False"]) then Some false
  else None.

(** The name and the value of [name=value]. *)
Fixpoint cut_equals (s : string) : string * option string :=
  match s with
  | EmptyString => ("", None)
  | String "=" t => ("", Some t)
  | String c t => let '(name, value) := cut_equals t in (String c name, value)
  end.

(** What an argument is to the parser. *)
Inductive Argument :=
  | Positional
  | Terminator
  | Malformed
  | Named (name : string) (value : option string).

Definition named (name : string) : Argument :=
  match name with
  | EmptyString | String "-" _ | String "=" _ => Malformed
  | _ => let '(n, v) := cut_equals name in Named n v
  end.

Definition classify (s : string) : Argument :=
  match s with
  | String "-" EmptyString => Positional
  | String "-" (String "-" EmptyString) => Terminator
  | String "-" (String "-" name) => named name
  | String "-" name => named name
  | _ => Positional
  end.

Section flag.
(** [time.ParseDuration], in nanoseconds. *)
Context (ParseDuration : string -> option Z).

(** The method [Set] of the variable. *)
Definition Set_value (v : FlagValue) (s : string) : option FlagValue :=
  match v with
  | VString _ => Some (VString s)
  | VInt _ => VInt <$> ParseInt0 s
  | VBool _ => VBool <$> ParseBool s
  | VDuration _ => VDuration <$> ParseDuration s
  end.

(** [FlagSet.Parse] with [ExitOnError]: the flags up to the first argument
    that is not one; what is wrong with them ends the process. *)
Fixpoint Parse (formal : FlagSet) (args : list string) : outcome (FlagSet * list string) :=
  match args with
  | [] => Ok (formal, [])
  | s :: rest =>
      match classify s with
      | Positional => Ok (formal, args)
      | Terminator => Ok (formal, rest)
      | Malformed => Exit ("bad flag syntax: " +:+ s)
      | Named name value =>
          match formal !! name with
          | None =>
              if bool_decide (name = "help") || bool_decide (name = "h") then Exit "flag: help requested"
              else Exit ("flag provided but not defined: -" +:+ name)
          | Some (VBool b) =>
              match Set_value (VBool b) (default "true" value) with
              | Some v => Parse (<[name := v]> formal) rest
              | None => Exit ("invalid boolean value for -" +:+ name)
              end
          | Some v0 =>
              match value, rest with
              | Some x, _ =>
                  match Set_value v0 x with
                  | Some v => Parse (<[name := v]> formal) rest
                  | None => Exit ("invalid value for flag -" +:+ name)
                  end
              | None, x :: rest' =>
                  match Set_value v0 x with
                  | Some v => Parse (<[name := v]> formal) rest'
                  | None => Exit ("invalid value for flag -" +:+ name)
                  end
              | None, [] => Exit ("flag needs an argument: -" +:+ name)
              end
          end
      end
  end.

(** ** The flags of CFSSL *)

(** [registerFlags]: every flag with its default. *)
Definition registered : list (string * FlagValue) :=
  [("hostname", VString ""); ("cert", VString ""); ("csr", VString ""); ("ca", VString ""); ("ca-key", VString "");
   ("tls-cert", VString ""); ("tls-key", VString ""); ("mutual-tls-ca", VString ""); ("mutual-tls-cn", VString "");
   ("tls-remote-ca", VString ""); ("mutual-tls-client-cert", VString ""); ("mutual-tls-client-key", VString "");
   ("key", VString ""); ("intermediates", VString ""); ("ca-bundle", VString ""); ("int-bundle", VString "");
   ("address", VString "127.0.0.1"); ("port", VInt 8888); ("config", VString ""); ("profile", VString "");
   ("initca", VBool false); ("renewca", VBool false); ("int-dir", VString ""); ("flavor", VString "ubiquitous");
   ("metadata", VString ""); ("domain", VString ""); ("ip", VString ""); ("remote", VString ""); ("label", VString "");
   ("authkey", VString ""); ("responder", VString ""); ("responder-key", VString ""); ("status", VString "good");
   ("reason", VString "0"); ("revoked-at", VString "now"); ("interval", VDuration 345600000000000);
   ("list", VBool false); ("family", VString ""); ("scanner", VString ""); ("timeout", VDuration 300000000000);
   ("csv", VString ""); ("num-workers", VInt 10); ("max-hosts", VInt 100); ("responses", VString "");
   ("path", VString "/"); ("crl", VString ""); ("password", VString "0"); ("usage", VString "");
   ("pgp-private", VString ""); ("pgp-name", VString ""); ("serial", VString ""); ("cn", VString "");
   ("aki", VString ""); ("db-config", VString ""); ("loglevel", VInt 1)].

Definition registerFlags : FlagSet := list_to_map registered.

Definition str_of (f : FlagSet) (name : string) : string :=
  match f !! name with Some (VString s) => s | _ => "" end.
Definition int_of (f : FlagSet) (name : string) : Z :=
  match f !! name with Some (VInt z) | Some (VDuration z) => z | _ => 0 end%Z.

(** The configuration whose fields the flags set. *)
Definition config_of (f : FlagSet) : CliConfig :=
  mkCliConfig (str_of f "config") (str_of f "db-config") (str_of f "tls-cert") (str_of f "tls-key")
    (str_of f "mutual-tls-ca") (str_of f "address") (int_of f "port") (str_of f "int-dir") (str_of f "metadata")
    (str_of f "remote") (str_of f "ca-bundle") (str_of f "int-bundle") (str_of f "serial") (str_of f "aki")
    (str_of f "reason") (str_of f "ca") (str_of f "ca-key") (str_of f "key") (str_of f "responder")
    (str_of f "responder-key") (int_of f "interval").
End flag.

(** ** cli.go *)

(** [cli.PopFirstArgument]. *)
Definition PopFirstArgument {S} (args : list string) : comp S (string * list string) :=
  match args with
  | [] => fail (NewErr "not enough arguments are supplied --- please refer to the usage")
  | a :: rest => mret (a, rest)
  end.

(** [cli.Command]; [Policy] is the type of CFSSL's own configuration, the field
    [CFG] of the configuration a command is given. *)
Record Command (W Policy : Type) := mkCommand {
  UsageText : string;
  Flags : list string;
  Main : list string -> CliConfig -> option Policy -> comp W unit
}.
Arguments mkCommand {_ _} _ _ _.
Arguments UsageText {_ _} _.
Arguments Flags {_ _} _.
Arguments Main {_ _} _ _ _ _.

(** What [cli.Start] uses: the flags that packages define on the global flag
    set, the reader of durations and [config.LoadFile]. *)
Record CommandEnv (W Policy : Type) := mkCommandEnv {
  toplevel : FlagSet;
  ParseDuration : string -> option Z;
  LoadFile : string -> comp W Policy
}.
Arguments mkCommandEnv {_ _} _ _ _.
Arguments toplevel {_ _} _.
Arguments ParseDuration {_ _} _ _.
Arguments LoadFile {_ _} _ _.

Section Start.
Context {W Policy : Type} (E : CommandEnv W Policy).

Definition find_command (cmds : list (string * Command W Policy)) (name : string) : option (Command W Policy) :=
  snd <$> List.find (fun e : string * Command W Policy => bool_decide (e.1 = name)) cmds.

(** CFSSL's own configuration, when a file is named. *)
Definition load_policy (file : string) : comp W (option Policy) :=
  if bool_decide (file = "") then mret None
  else p ← map_err (fun _ => NewErr "failed to load config file") (LoadFile E file); mret (Some p).

(** The part of [cli.Start] after the command is found. *)
Definition run_command (cmd : Command W Policy) (args : list string) : comp W unit :=
  '(f, args) ← lift (Parse (ParseDuration E) registerFlags args);
  let c := config_of f in
  policy ← load_policy (cli_ConfigFile c);
  Main cmd args c policy.

(** [cli.Start]; [os_Args] are the arguments of the program. *)
Definition cli_Start (cmds : list (string * Command W Policy)) (os_Args : list string) : comp W unit :=
  match os_Args with
  | [] => lift (Panic "runtime error: slice bounds out of range")
  | _ :: args =>
      '(_, args) ← lift (Parse (ParseDuration E) (toplevel E) args);
      match args with
      | [] => fail (NewErr "no command was given")
      | cmdName :: args =>
          match find_command cmds cmdName with
          | None => fail (NewErr "undefined command")
          | Some cmd => run_command cmd args
          end
      end
  end.
End Start.

(** ** Properties *)

(** [named] and [classify] on a proper flag. *)
Definition plain_name (n : string) : bool :=
  match n with
  | EmptyString | String "-" _ => false
  | _ => negb (Contains n "=")
  end.

Lemma cut_equals_plain n : Contains n "=" = false -> cut_equals n = (n, None).
Proof.
  induction n as [|c n IH]; [done|]. cbn [Contains]. intros [Hc Hn]%orb_false_iff.
  specialize (IH Hn). destruct c as [[] [] [] [] [] [] [] []]; cbn [cut_equals]; rewrite ?IH; done.
Qed.

Lemma cut_equals_value n v : Contains n "=" = false -> cut_equals (n +:+ String "=" v) = (n, Some v).
Proof.
  induction n as [|c n IH]; [done|]. cbn [Contains]. intros [Hc Hn]%orb_false_iff.
  change (String c n +:+ String "=" v) with (String c (n +:+ String "=" v)).
  specialize (IH Hn). destruct c as [[] [] [] [] [] [] [] []]; cbn [cut_equals]; rewrite ?IH; done.
Qed.

(** The two spellings of the dashes. *)
Definition dashes (two : bool) : string := if two then "--" else "-".

Lemma plain_name_cons n : plain_name n = true ->
  exists c t, n = String c t /\ c <> "-"%char /\ c <> "="%char /\ Contains n "=" = false.
Proof.
  destruct n as [|c t]; [done|]. intros H. exists c, t. split; [done|].
  assert (c <> "-"%char /\ Contains (String c t) "=" = false) as [H1 Hc].
  { destruct (decide (c = "-"%char)) as [->|H1]; [discriminate H|]. split; [done|].
    unfold plain_name in H. destruct c as [[] [] [] [] [] [] [] []]; (by apply negb_true_iff) || discriminate H || (by contradict H1). }
  split; [done|]. split; [intros ->; discriminate Hc|done].
Qed.

Lemma named_cut c t : c <> "-"%char -> c <> "="%char ->
  named (String c t) = let '(n, v) := cut_equals (String c t) in Named n v.
Proof. intros H1 H2. destruct c as [[] [] [] [] [] [] [] []]; done. Qed.

Lemma classify_dashes two c t : c <> "-"%char -> classify (dashes two +:+ String c t) = named (String c t).
Proof. intros H1. destruct two, c as [[] [] [] [] [] [] [] []]; done. Qed.

Lemma classify_named two n : plain_name n = true -> classify (dashes two +:+ n) = Named n None.
Proof.
  intros (c & t & -> & H1 & H2 & H)%plain_name_cons.
  by rewrite classify_dashes, named_cut, cut_equals_plain.
Qed.

Lemma classify_joined two n v :
  plain_name n = true -> classify (dashes two +:+ n +:+ "=" +:+ v) = Named n (Some v).
Proof.
  intros (c & t & -> & H1 & H2 & H)%plain_name_cons.
  change (dashes two +:+ String c t +:+ "=" +:+ v) with (dashes two +:+ String c (t +:+ "=" +:+ v)).
  rewrite classify_dashes, named_cut by done.
  change (String c (t +:+ "=" +:+ v)) with (String c t +:+ String "=" v). by rewrite cut_equals_value.
Qed.

(** ** Command lines *)

(** How a flag is written: with its text in the next argument, in the same
    one after an equals sign, or, for a boolean, without a text; with one dash
    or two. *)
Inductive Form := Separate | Joined | Bare.

Record Written := mkWritten { w_two : bool; w_name : string; w_form : Form; w_text : string }.

Definition flag_args (w : Written) : list string :=
  match w_form w with
  | Separate => [dashes (w_two w) +:+ w_name w; w_text w]
  | Joined => [dashes (w_two w) +:+ w_name w +:+ "=" +:+ w_text w]
  | Bare => [dashes (w_two w) +:+ w_name w]
  end.

Definition positional (args : list string) : Prop :=
  match args with [] => True | s :: _ => classify s = Positional end.

(** The last time a flag is written, and what a flag of each type is given:
    its text, or its default. *)
Definition last_written (fl : list Written) (n : string) : option Written :=
  List.find (fun w => bool_decide (w_name w = n)) (reverse fl).

Definition string_flag (fl : list Written) (n dflt : string) : string :=
  match last_written fl n with Some w => w_text w | None => dflt end.

Definition number_flag (read : string -> option Z) (fl : list Written) (n : string) (dflt : Z) : Z :=
  match last_written fl n with Some w => default 0%Z (read (w_text w)) | None => dflt end.

Section reading.
Context (PD : string -> option Z).

(** The value a written flag gives to a variable that holds [v0]. *)
Definition value_of (v0 : FlagValue) (w : Written) : option FlagValue :=
  match v0, w_form w with
  | VBool _, Bare => Some (VBool true)
  | VBool _, Separate => None
  | VBool _, Joined => Set_value PD v0 (w_text w)
  | _, Bare => None
  | _, _ => Set_value PD v0 (w_text w)
  end.

(** A flag that is defined, written in a form of its type with a text that its
    type accepts. *)
Definition settable (f : FlagSet) (w : Written) : Prop :=
  plain_name (w_name w) = true /\ exists v0 v, f !! w_name w = Some v0 /\ value_of v0 w = Some v.

Definition set_flag (f : FlagSet) (w : Written) : FlagSet :=
  match f !! w_name w ≫= fun v0 => value_of v0 w with
  | Some v => <[w_name w := v]> f
  | None => f
  end.

Definition set_flags : FlagSet -> list Written -> FlagSet := foldl set_flag.

(** Values of the same type. *)
Definition like (v v' : FlagValue) : Prop :=
  match v, v' with
  | VString _, VString _ | VInt _, VInt _ | VBool _, VBool _ | VDuration _, VDuration _ => True
  | _, _ => False
  end.

Lemma value_of_like v v' w : like v v' -> value_of v w = value_of v' w.
Proof. by destruct v, v'. Qed.

Lemma Set_value_like v0 s v : Set_value PD v0 s = Some v -> like v0 v.
Proof. destruct v0; simpl; [intros [= <-]|intros (? & ? & ->)%fmap_Some..]; done. Qed.

Lemma like_value_of v0 w v : value_of v0 w = Some v -> like v0 v.
Proof.
  unfold value_of. destruct v0; destruct (w_form w); try done; try apply Set_value_like. by intros [= <-].
Qed.

Lemma set_flag_settable f w v0 v :
  f !! w_name w = Some v0 -> value_of v0 w = Some v -> set_flag f w = <[w_name w := v]> f.
Proof. intros Hf Hv. unfold set_flag. rewrite Hf. cbn [mbind option_bind]. by rewrite Hv. Qed.

Lemma settable_set_flag f w w' : settable f w -> settable f w' -> settable (set_flag f w) w'.
Proof.
  intros (_ & v0 & v & Hf & Hv) (Hn & v1 & v1' & Hf' & Hv'). split; [done|].
  rewrite (set_flag_settable f w v0 v) by done. destruct (decide (w_name w = w_name w')) as [E|Hne].
  - exists v, v1'. rewrite E, lookup_insert_eq. split; [done|]. rewrite <- Hv'. symmetry. apply value_of_like.
    rewrite E in Hf. rewrite Hf in Hf'. simplify_eq. by eapply like_value_of.
  - exists v1, v1'. by rewrite lookup_insert_ne.
Qed.

(** One flag is read. *)
Lemma Parse_flag f w rest :
  settable f w -> Parse PD f (flag_args w ++ rest) = Parse PD (set_flag f w) rest.
Proof.
  intros (Hn & v0 & v & Hf & Hv). rewrite (set_flag_settable f w v0 v) by done.
  unfold flag_args. unfold value_of in Hv. destruct (w_form w) eqn:Ew; cbn [app Parse].
  - rewrite (classify_named (w_two w) (w_name w) Hn), Hf. by destruct v0; rewrite ?Hv.
  - rewrite (classify_joined (w_two w) (w_name w) _ Hn), Hf. destruct v0; cbn [from_option id]; by rewrite Hv.
  - rewrite (classify_named (w_two w) (w_name w) Hn), Hf. destruct v0; try done. by injection Hv as <-.
Qed.

(** The flags are read in their order, up to the first argument that is not a
    flag or to a terminator. *)
Lemma Parse_flags fl f rest :
  Forall (settable f) fl -> Parse PD f (concat (map flag_args fl) ++ rest) = Parse PD (set_flags f fl) rest.
Proof.
  revert f. induction fl as [|w fl IH]; intros f Hf; [done|].
  cbn [map concat]. apply Forall_cons in Hf as [He Hf]. rewrite <- app_assoc, Parse_flag by done.
  apply IH. eapply Forall_impl; [exact Hf|]. intros w'. by apply settable_set_flag.
Qed.

Lemma Parse_positional f rest : positional rest -> Parse PD f rest = Ok (f, rest).
Proof. destruct rest as [|s rest]; [done|]. simpl. by intros ->. Qed.

Lemma Parse_line fl f rest :
  Forall (settable f) fl -> positional rest ->
  Parse PD f (concat (map flag_args fl) ++ rest) = Ok (set_flags f fl, rest).
Proof. intros Hf Hr. by rewrite Parse_flags, Parse_positional. Qed.

(** What a variable holds in the end. *)
Lemma set_flags_lookup f fl n v0 :
  Forall (settable f) fl -> f !! n = Some v0 ->
  exists v, set_flags f fl !! n = Some v
    /\ match last_written fl n with Some w => value_of v0 w = Some v | None => v = v0 end.
Proof.
  intros Hf Hn. induction fl as [|w fl IH] using rev_ind; [by exists v0|].
  apply Forall_app in Hf as [Hf [Hw _]%Forall_cons]. specialize (IH Hf) as (v & Hv & Hl).
  unfold set_flags, last_written in *. rewrite foldl_app, reverse_app. cbn [foldl List.find reverse app].
  assert (Hs : settable (foldl set_flag f fl) w).
  { clear -Hf Hw. revert f Hf Hw. induction fl as [|w' fl IH]; intros f Hf Hw; [done|].
    apply Forall_cons in Hf as [Hw' Hf]. apply IH; [|by apply settable_set_flag].
    eapply Forall_impl; [exact Hf|]. intros w2. by apply settable_set_flag. }
  destruct Hs as (_ & v1 & v1' & Hs1 & Hs2). rewrite (set_flag_settable _ w v1 v1') by done.
  change (List.find _ (reverse [w] ++ reverse fl)) with
    (if bool_decide (w_name w = n) then Some w else List.find (fun w => bool_decide (w_name w = n)) (reverse fl)).
  case_bool_decide as E; [|exists v; by rewrite lookup_insert_ne].
  exists v1'. rewrite E, lookup_insert_eq. split; [done|].
  destruct Hw as (_ & v2 & v2' & Hw1 & Hw2). rewrite E, Hn in Hw1. injection Hw1 as <-.
  rewrite E, Hv in Hs1. injection Hs1 as <-. rewrite <- Hs2. apply value_of_like.
  destruct (List.find _ _) as [w'|]; [by eapply like_value_of|subst; by destruct v0].
Qed.

Lemma string_flag_read f fl n d :
  Forall (settable f) fl -> f !! n = Some (VString d) -> str_of (set_flags f fl) n = string_flag fl n d.
Proof.
  intros Hf Hn. destruct (set_flags_lookup f fl n _ Hf Hn) as (v & Hv & Hl). unfold str_of, string_flag. rewrite Hv.
  destruct (last_written fl n) as [w|]; [|by subst]. unfold value_of in Hl. destruct (w_form w); try done; by injection Hl as <-.
Qed.

Lemma int_flag_read f fl n d :
  Forall (settable f) fl -> f !! n = Some (VInt d) -> int_of (set_flags f fl) n = number_flag ParseInt0 fl n d.
Proof.
  intros Hf Hn. destruct (set_flags_lookup f fl n _ Hf Hn) as (v & Hv & Hl). unfold int_of, number_flag. rewrite Hv.
  destruct (last_written fl n) as [w|]; [|by subst]. unfold value_of in Hl.
  destruct (w_form w); try done; simpl in Hl; apply fmap_Some in Hl as (z & -> & ->); done.
Qed.

Lemma duration_flag_read f fl n d :
  Forall (settable f) fl -> f !! n = Some (VDuration d) -> int_of (set_flags f fl) n = number_flag PD fl n d.
Proof.
  intros Hf Hn. destruct (set_flags_lookup f fl n _ Hf Hn) as (v & Hv & Hl). unfold int_of, number_flag. rewrite Hv.
  destruct (last_written fl n) as [w|]; [|by subst]. unfold value_of in Hl.
  destruct (w_form w); try done; simpl in Hl; apply fmap_Some in Hl as (z & -> & ->); done.
Qed.
End reading.

(** ** Running a command *)

Section run.
Context {W Policy : Type} (E : CommandEnv W Policy).

Lemma run_command_Parse cmd args f rest w :
  Parse (ParseDuration E) registerFlags args = Ok (f, rest) ->
  run_command E cmd args w
  = (policy ← load_policy E (cli_ConfigFile (config_of f)); Main cmd rest (config_of f) policy) w.
Proof. intros H. unfold run_command. by rewrite H, bind_lift_ok. Qed.

Lemma cli_Start_found cmds prog name args cmd w :
  classify name = Positional -> find_command cmds name = Some cmd ->
  cli_Start E cmds (prog :: name :: args) w = run_command E cmd args w.
Proof. intros Hn Hc. unfold cli_Start. cbn [Parse]. by rewrite Hn, bind_lift_ok, Hc. Qed.

(** (C21) A command line is run as it is written.  For a command of the
    program, flags of CFSSL that the parser accepts (strings, integers in
    base 8, 10 or 16, durations, booleans with or without a text; one dash or
    two, the text in the same argument or in the next) and arguments after
    them, which begin with one that is not a flag or follow a [--], [cli.Start]
    calls the main function of that command once, with exactly those
    arguments, after loading the configuration file when one is named.  Every
    field of the configuration that the program reads has the value of the last
    flag of its name, or the documented default. *)
Theorem command_line_runs cmds prog name cmd fl (ended : bool) rest w :
  classify name = Positional -> find_command cmds name = Some cmd ->
  Forall (settable (ParseDuration E) registerFlags) fl -> (if ended then True else positional rest) ->
  exists c, cli_Start E cmds (prog :: name :: concat (map flag_args fl) ++ (if ended then "--" :: rest else rest)) w
      = (policy ← load_policy E (cli_ConfigFile c); Main cmd rest c policy) w
    /\ cli_ConfigFile c = string_flag fl "config" ""
    /\ cli_DBConfigFile c = string_flag fl "db-config" ""
    /\ cli_TLSCertFile c = string_flag fl "tls-cert" ""
    /\ cli_TLSKeyFile c = string_flag fl "tls-key" ""
    /\ cli_MutualTLSCAFile c = string_flag fl "mutual-tls-ca" ""
    /\ cli_Address c = string_flag fl "address" "127.0.0.1"
    /\ cli_Port c = number_flag ParseInt0 fl "port" 8888
    /\ cli_IntDir c = string_flag fl "int-dir" ""
    /\ cli_Metadata c = string_flag fl "metadata" ""
    /\ cli_Remote c = string_flag fl "remote" ""
    /\ cli_CABundleFile c = string_flag fl "ca-bundle" ""
    /\ cli_IntBundleFile c = string_flag fl "int-bundle" ""
    /\ cli_Serial c = string_flag fl "serial" ""
    /\ cli_AKI c = string_flag fl "aki" ""
    /\ cli_Reason c = string_flag fl "reason" "0"
    /\ cli_CAFile c = string_flag fl "ca" ""
    /\ cli_CAKeyFile c = string_flag fl "ca-key" ""
    /\ cli_KeyFile c = string_flag fl "key" ""
    /\ cli_ResponderFile c = string_flag fl "responder" ""
    /\ cli_ResponderKeyFile c = string_flag fl "responder-key" ""
    /\ cli_Interval c = number_flag (ParseDuration E) fl "interval" (4 * 24 * 3600 * 10 ^ 9).
Proof.
  intros Hn Hc Hf Hr. exists (config_of (set_flags (ParseDuration E) registerFlags fl)). split.
  { rewrite (cli_Start_found _ _ _ _ cmd) by done. apply run_command_Parse. rewrite Parse_flags by done.
    destruct ended; [done|]. by apply Parse_positional. }
  assert (Hs : forall n d, registerFlags !! n = Some (VString d) ->
    str_of (set_flags (ParseDuration E) registerFlags fl) n = string_flag fl n d) by (intros; by apply string_flag_read).
  do 6 (split; [apply Hs; vm_compute; reflexivity|]). split; [apply int_flag_read; [done|vm_compute; reflexivity]|].
  do 13 (split; [apply Hs; vm_compute; reflexivity|]). apply duration_flag_read; [done|vm_compute; reflexivity].
Qed.
End run.

(** A command that tells what it was given. *)
Definition toy_command : Command (list (list string)) unit :=
  mkCommand "" [] (fun args c policy w => (Ok tt, [args; [cli_Serial c; cli_AKI c; cli_Address c; Itoa (cli_Port c)]] ++ w)).

(** The reader of durations of the witness knows hours. *)
Definition toy_hours (s : string) : option Z :=
  match Split s "h" with
  | [n; ""] => (fun z => z * 3600 * 10 ^ 9)%Z <$> ParseInt0 n
  | _ => None
  end.

Definition toy_env : CommandEnv (list (list string)) unit := mkCommandEnv ∅ toy_hours (fun _ => mret tt).

Definition toy_flags : list Written :=
  [mkWritten false "serial" Separate "17"; mkWritten true "aki" Joined "2a"; mkWritten false "initca" Bare "";
   mkWritten false "serial" Separate "18"; mkWritten false "port" Separate "0x1f90"; mkWritten true "interval" Joined "8h"].

Example toy_flags_written :
  concat (map flag_args toy_flags)
  = ["-serial"; "17"; "--aki=2a"; "-initca"; "-serial"; "18"; "-port"; "0x1f90"; "--interval=8h"].
Proof. reflexivity. Qed.

Lemma toy_settable : Forall (settable toy_hours registerFlags) toy_flags.
Proof. repeat constructor; eexists _, _; (split; [reflexivity|]); vm_compute; reflexivity. Qed.

Lemma command_line_runs_witness :
  exists c, cli_Start toy_env [("revoke", toy_command)]
      ("client" :: "revoke" :: concat (map flag_args toy_flags) ++ ["--"; "-aki"; "ff"]) []
    = (Ok tt, [["-aki"; "ff"]; [cli_Serial c; cli_AKI c; cli_Address c; Itoa (cli_Port c)]])
    /\ cli_Serial c = "18" /\ cli_AKI c = "2a" /\ cli_Address c = "127.0.0.1" /\ cli_Port c = 8080%Z
    /\ cli_Interval c = 28800000000000%Z.
Proof.
  destruct (command_line_runs toy_env [("revoke", toy_command)] "client" "revoke" toy_command toy_flags true ["-aki"; "ff"] [])
    as (c & E & Hf & _ & _ & _ & _ & Ha & Hp & _ & _ & _ & _ & _ & Hs & Hk & _ & _ & _ & _ & _ & _ & Hi);
    [reflexivity|reflexivity|exact toy_settable|exact I|].
  exists c. rewrite Hf in E. split; [exact E|]. rewrite Hs, Hk, Ha, Hp, Hi.
  repeat split; vm_compute; reflexivity.
Defined.
