(* ===== verification/Register.v ===== *)
(** * Registration (src/cli/server/register.go)

    [RegisterUser] and the checks it makes, written against the registry
    interface of [Registry], so that the theorems hold of every read-write
    registry that keeps [RegistryLaws]; [spec_register] is the abstract
    operation on the map of users, and [RegisterUser_refines] the refinement.
    The database accessor is the instance at the end. *)

From S2P Require Import Prelude GoStrings GoFmt GoJson CopError Registry Database DbAccessor Util GoUnmarshal Config.

Definition peer : string := "peer".
Definition client : string := "client".
Definition registrarRoles : string := "hf.Registrar.Roles".

Module Register.
Section Register.
Context {W : Type} (userRegistry : UserRegistry W) (CFG : Config).
Context (randomString : Z -> comp W string).

(** [requireGroup(userType)]. *)
Definition requireGroup (userType : string) : bool :=
  let userType := ToLower userType in
  bool_decide (userType = peer) || bool_decide (userType = client).

(** [isValidGroup(group)]. *)
Definition isValidGroup (group : string) : comp W bool :=
  _ ← GetGroup userRegistry group; mret true.

(** [validateID(id, userType, group)]. *)
Definition validateID (id userType group : string) : comp W unit :=
  if requireGroup userType then
    valid ← isValidGroup group;
    if negb valid then fail (NewErr ("Invalid type " +:+ userType)) else mret tt
  else mret tt.

(** The roles a registrar may register: the comma-separated attribute. *)
Definition roles_of (rolesStr : string) : list string :=
  if negb (bool_decide (rolesStr = "")) then Split rolesStr "," else [].

(** [canRegister(registrar, userType)]. *)
Definition canRegister (registrar userType : string) : comp W unit :=
  user ← map_err (fun err => Errorf "Registrar does not exist: %s" [FStr (Error err)])
           (GetUser userRegistry registrar []);
  let rolesStr := GetAttribute user registrarRoles in
  if negb (StrContained userType (roles_of rolesStr))
  then fail (NewError RegisteringUserError "user %s may not register type %s"
               [FStr registrar; FStr userType])
  else mret tt.

(** The enrollment secret: the first optional argument, or a random one. *)
Definition token_for (opt : list string) : comp W string :=
  match opt with
  | o :: _ => if negb (bool_decide (o = "")) then mret o else randomString 12
  | [] => randomString 12
  end.

(** [registerUserID]: any error from [GetUser] is taken to mean that the id
    is free. *)
Definition registerUserID (id userType group : string) (attributes : list Attribute)
    (opt : list string) : comp W string :=
  tok ← token_for opt;
  let insert := mkUserInfo id tok userType group attributes in
  r ← attempt (GetUser userRegistry id []);
  match r with
  | inr _ => fail (NewError RegisteringUserError "User is already registered" [])
  | inl _ =>
      _ ← InsertUser userRegistry insert;
      _ ← UpdateField userRegistry id maxEnrollments (MaxEnrollments CFG);
      mret tok
  end.

(** [RegisterUser]: no permission check for an empty registrar. *)
Definition RegisterUser (id userType group : string) (attributes : list Attribute)
    (registrar : string) (opt : list string) : comp W string :=
  _ ← (if negb (bool_decide (registrar = "")) then canRegister registrar userType else mret tt);
  _ ← validateID id userType group;
  registerUserID id userType group attributes opt.
End Register.
End Register.

Import Register.

(** ** The abstract operation *)

(** Whether [registrar] may register identities of type [userType]. *)
Definition may_register (V : RegistryView) (registrar userType : string) : bool :=
  bool_decide (registrar = "") ||
  match rv_users V !! registrar with
  | Some v => StrContained userType
      (roles_of (default "" (attr_map (ui_Attributes (uv_info v)) !! registrarRoles)))
  | None => false
  end.

Definition group_ok (V : RegistryView) (userType group : string) : bool :=
  negb (requireGroup userType) || bool_decide (is_Some (rv_groups V !! group)).

(** Registering an identity: refused, or one new user with no login so far
    and the configured enrollment limit. *)
Definition spec_register (V : RegistryView) (limit : Z) (u : UserInfo) (registrar : string)
    : option RegistryView :=
  if may_register V registrar (ui_Type u) && group_ok V (ui_Type u) (ui_Group u)
     && bool_decide (rv_users V !! ui_Name u = None)
  then Some (mkRegistryView (<[ui_Name u := mkUserView u 0 limit]> (rv_users V)) (rv_groups V))
  else None.

Section refinement.
Context {W : Type} (R : UserRegistry W) `{L : !RegistryLaws R} (CFG : Config).
Context (randomString : Z -> comp W string).

(** Drawing the secret succeeds and leaves the registry as it was. *)
Definition draws (opt : list string) (w : W) (tok : string) (w1 : W) : Prop :=
  token_for randomString opt w = (Ok tok, w1) /\ reg_inv w1 /\ reg_view w1 = reg_view w.

Lemma validateID_run w id userType group :
  reg_inv w ->
  if group_ok (reg_view w) userType group
  then validateID R id userType group w = (Ok tt, w)
  else exists e, validateID R id userType group w = (Err e, w).
Proof.
  intros Hw. unfold group_ok, validateID, isValidGroup. destruct (requireGroup userType); [|done].
  simpl. destruct (rv_groups (reg_view w) !! group) as [p|] eqn:E.
  - rewrite bool_decide_true by by eexists. unfold mbind, comp_bind.
    by rewrite (law_GetGroup_found w group p).
  - rewrite bool_decide_false by by intros [? ?].
    destruct (law_GetGroup_missing w group Hw E) as [e He]. exists e.
    unfold mbind, comp_bind. by rewrite He.
Qed.

Lemma canRegister_run w registrar userType :
  reg_inv w -> registrar <> "" ->
  if may_register (reg_view w) registrar userType
  then canRegister R registrar userType w = (Ok tt, w)
  else exists e, canRegister R registrar userType w = (Err e, w).
Proof.
  intros Hw Hne. unfold may_register, canRegister. rewrite bool_decide_false by done. simpl.
  unfold mbind, comp_bind, map_err. destruct (rv_users (reg_view w) !! registrar) as [v|] eqn:E.
  - destruct (law_GetUser_found w registrar [] v Hw E) as (u & -> & _ & _ & Ha). rewrite Ha.
    destruct (StrContained _ _); simpl; [done|by eexists].
  - destruct (law_GetUser_missing w registrar [] Hw E) as [e ->]. by eexists.
Qed.

Lemma registerUserID_run w id userType group attrs opt tok w1 :
  draws opt w tok w1 ->
  if bool_decide (rv_users (reg_view w) !! id = None)
  then exists w', registerUserID R CFG randomString id userType group attrs opt w = (Ok tok, w')
    /\ reg_inv w'
    /\ reg_view w' = mkRegistryView
         (<[id := mkUserView (mkUserInfo id tok userType group attrs) 0 (MaxEnrollments CFG)]>
            (rv_users (reg_view w))) (rv_groups (reg_view w))
  else exists e, registerUserID R CFG randomString id userType group attrs opt w = (Err e, w1).
Proof.
  intros (Ht & Hw1 & Hv). unfold registerUserID. rewrite (bind_ok _ _ _ _ _ Ht), <- Hv.
  case_bool_decide as E.
  - destruct (law_GetUser_missing w1 id [] Hw1 E) as [e He].
    rewrite (bind_attempt_err _ _ _ _ _ He).
    set (u := mkUserInfo id tok userType group attrs).
    destruct (law_InsertUser w1 u Hw1 E) as (w2 & H2 & Hw2 & Hv2).
    rewrite (bind_ok _ _ _ _ _ H2).
    destruct (law_UpdateField_max w2 id (MaxEnrollments CFG) Hw2) as (w3 & H3 & Hw3 & Hv3).
    rewrite (bind_ok _ _ _ _ _ H3). exists w3. split; [done|]. split; [done|].
    rewrite Hv3, Hv2. simpl. f_equal. by rewrite alter_insert_eq.
  - destruct (rv_users (reg_view w1) !! id) as [v|] eqn:E2; [|done].
    destruct (law_GetUser_found w1 id [] v Hw1 E2) as (u & Hu & _).
    rewrite (bind_attempt_ok _ _ _ _ _ Hu). by eexists.
Qed.

(** The refinement, for every registry that keeps the laws. *)
Lemma RegisterUser_run w id userType group attrs registrar opt tok w1 :
  reg_inv w -> draws opt w tok w1 ->
  let u := mkUserInfo id tok userType group attrs in
  let run := RegisterUser R CFG randomString id userType group attrs registrar opt w in
  match spec_register (reg_view w) (MaxEnrollments CFG) u registrar with
  | Some V' => exists w', run = (Ok tok, w') /\ reg_inv w' /\ reg_view w' = V'
  | None => exists e w', run = (Err e, w') /\ reg_inv w' /\ reg_view w' = reg_view w
  end.
Proof.
  intros Hw Hd u run. subst run u. unfold RegisterUser, spec_register. simpl.
  assert (Hcan : if may_register (reg_view w) registrar userType
    then (if negb (bool_decide (registrar = "")) then canRegister R registrar userType else mret tt) w
           = (Ok tt, w)
    else exists e, (if negb (bool_decide (registrar = "")) then canRegister R registrar userType
                    else mret tt) w = (Err e, w)).
  { destruct (decide (registrar = "")) as [->|Hne]; [done|].
    rewrite bool_decide_false by done. by apply canRegister_run. }
  destruct (may_register _ _ _); simpl.
  2:{ destruct Hcan as [e He]. exists e, w. by rewrite (bind_err _ _ _ _ _ He). }
  rewrite (bind_ok _ _ _ _ _ Hcan).
  pose proof (validateID_run w id userType group Hw) as Hval.
  destruct (group_ok _ _ _); simpl.
  2:{ destruct Hval as [e He]. exists e, w. by rewrite (bind_err _ _ _ _ _ He). }
  rewrite (bind_ok _ _ _ _ _ Hval).
  pose proof (registerUserID_run w id userType group attrs opt tok w1 Hd) as Hreg.
  destruct (bool_decide (rv_users (reg_view w) !! id = None)); simpl; [exact Hreg|].
  destruct Hreg as [e He]. exists e, w1. rewrite He. by destruct Hd as (_ & ? & ?).
Qed.
End refinement.

(** ** The database-backed server *)

(** [util.RandomString] on the server's random source. *)
Definition db_RandomString (fuel : nat) (n : Z) : comp DB string := fun d =>
  match Util.RandomString fuel (rnd d) (rnd_pos d) n with
  | Ok (s, pos) => (Ok s, set_rnd_pos pos d)
  | Err e => (Err e, d)
  | Panic p => (Panic p, d)
  | Exit p => (Exit p, d)
  | OutOfFuel => (OutOfFuel, d)
  end.

(** The source offers twelve letters within the fuel. *)
Definition letters_within (fuel : nat) (d : DB) : Prop :=
  (12 <= length (accepted_from (rnd d) (rnd_pos d) 0 fuel))%nat.

(** [RegisterUser] on a database. *)
Definition db_RegisterUser (h : DBHandle) (CFG : Config) (fuel : nat) :=
  RegisterUser (accessor_registry (Accessor.mkAccessor (Some h))) CFG (db_RandomString fuel).

(** A drawn secret has twelve letters, and drawing moves the source only. *)
Lemma db_RandomString_run fuel d :
  letters_within fuel d ->
  exists tok pos, db_RandomString fuel 12 d = (Ok tok, set_rnd_pos pos d) /\ String.length tok = 12%nat.
Proof.
  intros Hl. destruct (RandomString_run (rnd d) (rnd_pos d) 12 fuel fuel) as [pos Hr];
    [lia|unfold letters_within in Hl; lia|done|].
  eexists _, pos. unfold db_RandomString. rewrite Hr. split; [done|].
  rewrite string_of_list_ascii_length, length_reverse. unfold drawn.
  rewrite length_map, length_take. unfold letters_within in Hl. lia.
Qed.

Lemma db_draws h fuel opt d :
  db_inv d -> letters_within fuel d ->
  exists tok d1, draws (accessor_registry (Accessor.mkAccessor (Some h))) (db_RandomString fuel)
                   opt d tok d1
    /\ (forall o rest, opt = o :: rest -> o <> "" -> tok = o)
    /\ ((opt = [] \/ exists rest, opt = "" :: rest) -> String.length tok = 12%nat).
Proof.
  intros Hd Hl.
  destruct (db_RandomString_run fuel d Hl) as (tok & pos & Hr & Hlen).
  assert (draws (accessor_registry (Accessor.mkAccessor (Some h))) (db_RandomString fuel) [] d tok
            (set_rnd_pos pos d)) as Hdraw by by (split; [exact Hr|]; split).
  destruct opt as [|o rest]; [by exists tok, (set_rnd_pos pos d)|].
  destruct (decide (o = "")) as [->|Ho].
  - exists tok, (set_rnd_pos pos d). by split; [|naive_solver].
  - exists o, d. split; [|naive_solver]. split; [|done]. unfold token_for.
    by rewrite bool_decide_false.
Qed.

(** (C7) Registration implements its specification on the database: with no
    database failure and a live random source, [RegisterUser] succeeds exactly
    when the registrar may register the type (or there is no registrar), the
    required group exists and the name is free; it then adds that one user,
    with the secret it returns, no login and the configured limit; otherwise
    it reports an error and no user or group has changed. *)
Theorem RegisterUser_refines h CFG fuel d id userType group attrs registrar opt :
  db_inv d -> letters_within fuel d ->
  exists tok,
    (forall o rest, opt = o :: rest -> o <> "" -> tok = o)
    /\ match spec_register (db_view d) (MaxEnrollments CFG)
               (mkUserInfo id tok userType group attrs) registrar with
       | Some V' => exists d', db_RegisterUser h CFG fuel id userType group attrs registrar opt d
                                 = (Ok tok, d') /\ db_inv d' /\ db_view d' = V'
       | None => exists e d', db_RegisterUser h CFG fuel id userType group attrs registrar opt d
                                = (Err e, d') /\ db_inv d' /\ db_view d' = db_view d
       end.
Proof.
  intros Hd Hl. destruct (db_draws h fuel opt d Hd Hl) as (tok & d1 & Hdraw & Ho & _).
  exists tok. split; [done|].
  exact (RegisterUser_run (accessor_registry (Accessor.mkAccessor (Some h))) CFG
           (db_RandomString fuel) d id userType group attrs registrar opt tok d1 Hd Hdraw).
Qed.

(** A server with one group and one registrar, who may register peers. *)
Definition sample_db : DB :=
  mkDB [Accessor.new_record (mkUserInfo "admin" "adminpw" "client" "bank_a"
          [mkAttribute registrarRoles "peer,Validator"])]
       [mkGroupRecord "bank_a" "banks" None] [] 0 (fun _ => 0%Z) 0 [].

Lemma sample_db_inv : db_inv sample_db.
Proof. split; [done|]. split; simpl; apply NoDup_singleton. Qed.

Lemma RegisterUser_refines_witness :
  exists d', db_RegisterUser sqlite3 newConfig 12 "p1" "Peer" "bank_a" [] "admin" ["pw"] sample_db
    = (Ok "pw", d')
  /\ db_inv d'
  /\ rv_users (db_view d') !! "p1"
      = Some (mkUserView (mkUserInfo "p1" "pw" "Peer" "bank_a" []) 0 0).
Proof.
  destruct (RegisterUser_refines sqlite3 newConfig 12 sample_db "p1" "Peer" "bank_a" [] "admin"
    ["pw"] sample_db_inv) as (tok & Ht & Hrun); [vm_compute; lia|].
  rewrite (Ht "pw" [] eq_refl) in Hrun by done.
  assert (E : spec_register (db_view sample_db) (MaxEnrollments newConfig)
    (mkUserInfo "p1" "pw" "Peer" "bank_a" []) "admin" =
    Some (mkRegistryView (<["p1" := mkUserView (mkUserInfo "p1" "pw" "Peer" "bank_a" []) 0 0]>
            (rv_users (db_view sample_db))) (rv_groups (db_view sample_db))))
    by (vm_compute; reflexivity).
  rewrite E in Hrun. destruct Hrun as (d' & H1 & H2 & H3). exists d'.
  split; [exact H1|]. split; [exact H2|]. rewrite H3. apply lookup_insert_eq.
Defined.

(** ** Failing statements *)

Import Accessor.

(** Registration is not atomic: when the statement that sets the limit
    fails, an error is returned but the user stays in the table, with limit 0,
    which [Login] treats as unlimited: every login with the secret given to
    the failed registration is accepted, whatever the configured limit. *)
Theorem RegisterUser_partial h CFG fuel d id userType group attrs pw msg fs :
  requireGroup userType = false -> pw <> "" -> id ∉ map ur_Name (users d) ->
  faults d = [Pass; Pass; Fail msg] ++ fs ->
  exists d', db_RegisterUser h CFG fuel id userType group attrs "" [pw] d
               = (Err (ErrPlain msg), d')
    /\ users d' = users d ++ [new_record (mkUserInfo id pw userType group attrs)]
    /\ (forall n, spec_login (mkUserView (mkUserInfo id pw userType group attrs) n 0) pw <> None).
Proof.
  intros Hg Hpw Hid Hf. unfold db_RegisterUser, RegisterUser. simpl.
  rewrite (bind_ok _ _ _ tt d) by done.
  rewrite (bind_ok _ _ _ tt d) by (unfold validateID; by rewrite Hg).
  unfold registerUserID. rewrite (bind_ok _ _ _ pw d) by (unfold token_for; by rewrite bool_decide_false).
  rewrite (bind_attempt_err _ _ _ errNoRows (set_faults ([Pass; Fail msg] ++ fs) d)).
  2:{ simpl. unfold GetUser, checkDB, mbind, comp_bind. simpl. rewrite exec_Rebind.
      unfold statement. rewrite Hf. simpl. by rewrite (proj2 (find_id_None _ _)). }
  rewrite (bind_ok _ _ _ tt (set_users (users d ++ [new_record (mkUserInfo id pw userType group attrs)])
                               (set_faults (Fail msg :: fs) d))).
  2:{ simpl. unfold InsertUser, checkDB, exec_insertUser, mbind, comp_bind, statement. simpl.
      rewrite (proj2 (existsb_has_id _ _)) by done. by rewrite andb_false_r. }
  eexists. split.
  - apply bind_err. simpl. unfold UpdateField, checkDB, mbind, comp_bind. simpl.
    rewrite exec_Rebind. unfold statement. simpl. reflexivity.
  - split; [done|]. intros n. unfold spec_login. simpl. by rewrite bool_decide_true.
Qed.

Lemma RegisterUser_partial_witness :
  exists d', db_RegisterUser sqlite3 (set_MaxEnrollments 1 newConfig) 12 "v1" "validator" "" [] "" ["pw"]
       (set_faults [Pass; Pass; Fail "database is locked"] sample_db)
     = (Err (ErrPlain "database is locked"), d')
   /\ users d' = users sample_db ++ [new_record (mkUserInfo "v1" "pw" "validator" "" [])].
Proof.
  destruct (RegisterUser_partial sqlite3 (set_MaxEnrollments 1 newConfig) 12
    (set_faults [Pass; Pass; Fail "database is locked"] sample_db) "v1" "validator" "" [] "pw"
    "database is locked" []) as (d' & H1 & H2 & _);
    [reflexivity|done|by apply find_id_None|reflexivity|].
  by exists d'.
Defined.

(** A transient failure of the look-up is taken for "not registered": a
    second row with the same id is inserted (only MySQL's primary key
    prevents it), and the successful registration of an existing user gives
    the id two rows. *)
Theorem RegisterUser_duplicate h CFG fuel d id userType group attrs pw msg :
  driverName h <> "mysql" -> requireGroup userType = false -> pw <> "" ->
  faults d = [Fail msg] ->
  exists d', db_RegisterUser h CFG fuel id userType group attrs "" [pw] d = (Ok pw, d')
    /\ count_where (has_id id) (users d') = (count_where (has_id id) (users d) + 1)%Z.
Proof.
  intros Hh Hg Hpw Hf. unfold db_RegisterUser, RegisterUser. simpl.
  rewrite (bind_ok _ _ _ tt d) by done.
  rewrite (bind_ok _ _ _ tt d) by (unfold validateID; by rewrite Hg).
  unfold registerUserID. rewrite (bind_ok _ _ _ pw d) by (unfold token_for; by rewrite bool_decide_false).
  rewrite (bind_attempt_err _ _ _ (ErrPlain msg) (set_faults [] d)).
  2:{ simpl. unfold GetUser, checkDB, mbind, comp_bind. simpl. rewrite exec_Rebind.
      unfold statement. by rewrite Hf. }
  set (u := mkUserInfo id pw userType group attrs).
  rewrite (bind_ok _ _ _ tt (set_users (users d ++ [new_record u]) (set_faults [] d))).
  2:{ simpl. unfold InsertUser, checkDB, exec_insertUser, mbind, comp_bind, statement. simpl.
      by rewrite bool_decide_false. }
  eexists. split; [erewrite bind_ok by (by apply UpdateField_max_run); reflexivity|]. simpl. unfold count_where.
  rewrite filter_update_where by done. rewrite length_map, filter_app_List, length_app.
  simpl. unfold has_id at 2. simpl. rewrite bool_decide_true by done. simpl. lia.
Qed.

Lemma RegisterUser_duplicate_witness :
  exists d', db_RegisterUser sqlite3 newConfig 12 "admin" "validator" "" [] "" ["pw"]
       (set_faults [Fail "database is locked"] sample_db) = (Ok "pw", d')
   /\ count_where (has_id "admin") (users d') = 2%Z.
Proof.
  destruct (RegisterUser_duplicate sqlite3 newConfig 12
    (set_faults [Fail "database is locked"] sample_db) "admin" "validator" "" [] "pw"
    "database is locked") as (d' & H1 & H2); [done|reflexivity|done|reflexivity|].
  by exists d'.
Defined.
