(* ===== verification/Bootstrap.v ===== *)
(** * Bootstrapping the database (src/cli/server/bootstrap.go, server.go)

    The groups and users of the configuration file are registered when the
    server finds no database.  The configuration library (viper) is a
    parameter: the keys below a path, and the string list at a path.  The Go
    maps are ranged over in an arbitrary order, so the theorems are about
    every order.  [bootstrapDB_idempotent] matters because the server may run
    the bootstrap at every start (see [DbUtil]). *)

From S2P Require Import Prelude GoStrings GoFmt GoJson CopError Registry Database DbAccessor Util GoUnmarshal Config Register.

Module Bootstrap.
Section Bootstrap.
Context {W : Type} (userRegistry : UserRegistry W) (CFG : Config).
Context (randomString : Z -> comp W string).
Context (configFile : string).
(** [viper.GetStringMapString], keys only, and [viper.GetStringSlice]. *)
Context (GetStringMapString GetStringSlice : string -> list string).

(** [registerGroup(name, parentName)]. *)
Definition registerGroup (name parentName : string) : comp W unit :=
  r ← attempt (GetGroup userRegistry name);
  match r with
  | inr _ => fail (NewErr "Group already registered")
  | inl _ => InsertGroup userRegistry name parentName
  end.

(** A call whose error result is dropped. *)
Definition ignore {A} (m : comp W A) : comp W unit := _ ← attempt m; mret tt.

(** [populateGroup(name, parent, key, level)]. *)
Fixpoint populateGroup (name parent key : string) (level : nat) : comp W unit :=
  _ ← ignore (registerGroup name parent);
  let newKey := key +:+ "." +:+ name in
  match level with
  | O => mforM (fun child => ignore (registerGroup child name)) (GetStringSlice newKey)
  | S level => mforM (fun child => populateGroup child name newKey level) (GetStringMapString newKey)
  end.

(** [PopulateGroupsTable]: the configuration file's name must have an
    extension. *)
Definition PopulateGroupsTable : comp W unit :=
  match Split (filepath_Base configFile) "." with
  | _ :: _ :: _ =>
      mforM (fun name => populateGroup name "" "groups" 1) (GetStringMapString "groups")
  | _ => lift (Panic "runtime error: index out of range")
  end.

(** [PopulateUsersTable]: a nil user is dereferenced. *)
Definition PopulateUsersTable : comp W unit :=
  mforM (fun entry : string * option ConfigUser =>
    match entry.2 with
    | None => lift (Panic "invalid memory address or nil pointer dereference")
    | Some info =>
        ignore (Register.RegisterUser userRegistry CFG randomString entry.1 (cu_Type info)
                  (cu_Group info) (cu_Attributes info) "" [cu_Pass info; Itoa (MaxEnrollments CFG)])
    end) (Users CFG).

(** [bootstrapDB] of server.go. *)
Definition bootstrapDB : comp W unit :=
  _ ← PopulateGroupsTable;
  PopulateUsersTable.

(** The groups registered, in order, with their parents. *)
Fixpoint group_entries (name parent key : string) (level : nat) : list (string * string) :=
  let newKey := key +:+ "." +:+ name in
  (name, parent) ::
  match level with
  | O => map (fun child => (child, name)) (GetStringSlice newKey)
  | S level => flat_map (fun child => group_entries child name newKey level)
                 (GetStringMapString newKey)
  end.

Definition all_group_entries : list (string * string) :=
  flat_map (fun name => group_entries name "" "groups" 1) (GetStringMapString "groups").
End Bootstrap.
End Bootstrap.

Import Bootstrap.

(** ** The abstract bootstrap *)

(** The first registration of a group wins. *)
Definition add_group (m : gmap string string) (e : string * string) : gmap string string :=
  match m !! e.1 with Some _ => m | None => <[e.1 := e.2]> m end.

Definition spec_groups (l : list (string * string)) (V : RegistryView) : RegistryView :=
  mkRegistryView (rv_users V) (foldl add_group (rv_groups V) l).

Definition config_info (e : string * ConfigUser) : UserInfo :=
  mkUserInfo e.1 (cu_Pass e.2) (cu_Type e.2) (cu_Group e.2) (cu_Attributes e.2).

Definition spec_user (limit : Z) (V : RegistryView) (e : string * ConfigUser) : RegistryView :=
  default V (spec_register V limit (config_info e) "").

Definition spec_bootstrap (limit : Z) (groups : list (string * string))
    (users : list (string * ConfigUser)) (V : RegistryView) : RegistryView :=
  foldl (spec_user limit) (spec_groups groups V) users.

Section refinement.
Context {W : Type} (R : UserRegistry W) `{L : !RegistryLaws R} (CFG : Config).
Context (randomString : Z -> comp W string) (configFile : string).
Context (GSM GSS : string -> list string).

(** [m] runs to completion and changes the view by [f]. *)
Definition transforms (m : comp W unit) (f : RegistryView -> RegistryView) : Prop :=
  forall w, reg_inv w -> exists w', m w = (Ok tt, w') /\ reg_inv w' /\ reg_view w' = f (reg_view w).

Lemma transforms_bind m1 m2 f1 f2 :
  transforms m1 f1 -> transforms m2 f2 ->
  transforms (m1 ≫= fun _ => m2) (fun V => f2 (f1 V)).
Proof.
  intros H1 H2 w Hw. destruct (H1 w Hw) as (w1 & E1 & Hw1 & <-).
  rewrite (bind_ok _ _ _ _ _ E1). by apply H2.
Qed.

Lemma transforms_mforM {A} (f : A -> comp W unit) (g : RegistryView -> A -> RegistryView) l :
  (forall x, x ∈ l -> transforms (f x) (fun V => g V x)) ->
  transforms (mforM f l) (fun V => foldl g V l).
Proof.
  induction l as [|x l IH]; intros Hf; [intros w Hw; by exists w|]. simpl.
  refine (transforms_bind _ _ _ (fun V => foldl g V l) (Hf x _) (IH _)); set_solver.
Qed.

Lemma transforms_ext m f g : transforms m f -> (forall V, f V = g V) -> transforms m g.
Proof.
  intros H Hfg w Hw. destruct (H w Hw) as (w' & ? & ? & E). exists w'. by rewrite <- Hfg.
Qed.

Lemma registerGroup_transforms name parent :
  transforms (ignore (registerGroup R name parent)) (spec_groups [(name, parent)]).
Proof.
  intros w Hw. unfold ignore, registerGroup, spec_groups, add_group. simpl.
  destruct (rv_groups (reg_view w) !! name) as [p|] eqn:E.
  - exists w. rewrite (bind_attempt_err _ _ _ (NewErr "Group already registered") w).
    + by destruct (reg_view w).
    + by rewrite (bind_attempt_ok _ _ _ _ _ (law_GetGroup_found w name p Hw E)).
  - destruct (law_GetGroup_missing w name Hw E) as [e He].
    destruct (law_InsertGroup w name parent Hw E) as (w' & Hi & Hw' & Hv).
    exists w'. split; [|done]. erewrite bind_attempt_ok; [done|].
    by rewrite (bind_attempt_err _ _ _ _ _ He).
Qed.

Lemma spec_groups_app l1 l2 V : spec_groups l2 (spec_groups l1 V) = spec_groups (l1 ++ l2) V.
Proof. unfold spec_groups. simpl. by rewrite foldl_app. Qed.

Lemma spec_groups_flat {A} (g : A -> list (string * string)) l V :
  foldl (fun V x => spec_groups (g x) V) V l = spec_groups (flat_map g l) V.
Proof.
  revert V. induction l as [|x l IH]; intros V; [by destruct V|]. simpl.
  by rewrite IH, spec_groups_app.
Qed.

Lemma populateGroup_transforms level : forall name parent key,
  transforms (populateGroup R GSM GSS name parent key level)
    (spec_groups (group_entries GSM GSS name parent key level)).
Proof.
  induction level as [|level IH]; intros name parent key; cbn [populateGroup group_entries];
    set (newKey := key +:+ "." +:+ name).
  - apply transforms_ext with (f := fun V =>
      foldl (fun V x => spec_groups [(x, name)] V) (spec_groups [(name, parent)] V) (GSS newKey)).
    + refine (transforms_bind _ _ _ (fun V => foldl _ V _) (registerGroup_transforms name parent)
        (transforms_mforM _ _ _ _)). intros child _. apply registerGroup_transforms.
    + intros V. by rewrite (spec_groups_flat (fun x => [(x, name)])), spec_groups_app.
  - apply transforms_ext with (f := fun V =>
      foldl (fun V x => spec_groups (group_entries GSM GSS x name newKey level) V)
        (spec_groups [(name, parent)] V) (GSM newKey)).
    + refine (transforms_bind _ _ _ (fun V => foldl _ V _) (registerGroup_transforms name parent)
        (transforms_mforM _ _ _ _)). intros child _. apply IH.
    + intros V. by rewrite (spec_groups_flat (fun x => group_entries GSM GSS x name newKey level)),
        spec_groups_app.
Qed.

Lemma PopulateGroupsTable_transforms :
  (2 <= length (Split (filepath_Base configFile) "."))%nat ->
  transforms (PopulateGroupsTable R configFile GSM GSS) (spec_groups (all_group_entries GSM GSS)).
Proof.
  intros Hext. unfold PopulateGroupsTable, all_group_entries.
  destruct (Split _ _) as [|? [|? ?]]; [simpl in Hext; lia..|].
  eapply transforms_ext.
  - apply transforms_mforM with
      (g := fun V x => spec_groups (group_entries GSM GSS x "" "groups" 1) V).
    intros name _. apply populateGroup_transforms.
  - intros V. cbv beta. apply spec_groups_flat.
Qed.

Lemma PopulateUsersTable_transforms us :
  Users CFG = map (fun e : string * ConfigUser => (e.1, Some e.2)) us ->
  Forall (fun e => cu_Pass e.2 <> "") us ->
  transforms (PopulateUsersTable R CFG randomString)
    (fun V => foldl (spec_user (MaxEnrollments CFG)) V us).
Proof.
  intros Hus Hp. unfold PopulateUsersTable. rewrite Hus. clear Hus.
  induction us as [|[n u] us IH]; [intros w Hw; by exists w|].
  apply Forall_cons in Hp as [Hpu Hp]. cbn [map mforM foldl].
  refine (transforms_bind _ _ (fun V => spec_user _ V (n, u)) _ _ (IH Hp)). simpl.
  intros w Hw. unfold ignore. simpl in Hpu.
  assert (draws R randomString [cu_Pass u; Itoa (MaxEnrollments CFG)] w (cu_Pass u) w) as Hd.
  { split; [|done]. unfold Register.token_for. by rewrite bool_decide_false. }
  pose proof (RegisterUser_run R CFG randomString w n (cu_Type u) (cu_Group u) (cu_Attributes u) ""
    _ _ _ Hw Hd) as Hrun. cbv zeta in Hrun. unfold spec_user, config_info. simpl.
  destruct (spec_register _ _ _ _) as [V'|].
  - destruct Hrun as (w' & Hr & Hw' & Hv). exists w'. by rewrite (bind_attempt_ok _ _ _ _ _ Hr).
  - destruct Hrun as (e & w' & Hr & Hw' & Hv). exists w'. by rewrite (bind_attempt_err _ _ _ _ _ Hr).
Qed.

Lemma bootstrapDB_transforms us :
  (2 <= length (Split (filepath_Base configFile) "."))%nat ->
  Users CFG = map (fun e : string * ConfigUser => (e.1, Some e.2)) us ->
  Forall (fun e => cu_Pass e.2 <> "") us ->
  transforms (bootstrapDB R CFG randomString configFile GSM GSS)
    (spec_bootstrap (MaxEnrollments CFG) (all_group_entries GSM GSS) us).
Proof.
  intros Hext Hus Hp.
  exact (transforms_bind _ _ _ _ (PopulateGroupsTable_transforms Hext)
           (PopulateUsersTable_transforms us Hus Hp)).
Qed.
End refinement.

(** ** Running it again *)

Lemma add_group_grows m e n : is_Some (m !! n) -> is_Some (add_group m e !! n).
Proof.
  intros Hn. unfold add_group. case_match; [done|]. destruct (decide (e.1 = n)) as [<-|Hne].
  - rewrite lookup_insert_eq. by eexists.
  - by rewrite lookup_insert_ne.
Qed.

Lemma add_groups_grow l m n : is_Some (m !! n) -> is_Some (foldl add_group m l !! n).
Proof.
  revert m. induction l as [|e l IH]; intros m Hn; [exact Hn|]. simpl. by apply IH, add_group_grows.
Qed.

Lemma add_groups_present l m e : e ∈ l -> is_Some (foldl add_group m l !! e.1).
Proof.
  revert m. induction l as [|e' l IH]; intros m; [set_solver|]. simpl.
  intros [->|He]%elem_of_cons; [|by apply IH].
  apply add_groups_grow. unfold add_group. case_match; [by eexists|].
  rewrite lookup_insert_eq. by eexists.
Qed.

Lemma add_groups_noop l m : (forall e, e ∈ l -> is_Some (m !! e.1)) -> foldl add_group m l = m.
Proof.
  induction l as [|e l IH]; intros H; [reflexivity|]. simpl.
  destruct (H e) as [p Hp]; [set_solver|]. unfold add_group at 2. rewrite Hp. apply IH. set_solver.
Qed.

(** Registering a configured user never removes or overwrites anything, and
    depends on the groups only through [group_ok]. *)
Lemma spec_user_cases limit V e :
  rv_groups (spec_user limit V e) = rv_groups V
  /\ (forall n, is_Some (rv_users V !! n) -> is_Some (rv_users (spec_user limit V e) !! n))
  /\ (group_ok V (cu_Type e.2) (cu_Group e.2) = true ->
      is_Some (rv_users (spec_user limit V e) !! e.1))
  /\ ((group_ok V (cu_Type e.2) (cu_Group e.2) = false \/ is_Some (rv_users V !! e.1)) ->
      spec_user limit V e = V).
Proof.
  unfold spec_user, spec_register, may_register. simpl.
  destruct (group_ok V _ _); simpl.
  2:{ split; [done|]. split; [done|]. split; [done|]. done. }
  case_bool_decide as E; simpl.
  - split; [done|]. split; [|split].
    + intros n Hn. destruct (decide (n = e.1)) as [->|Hne];
        [rewrite lookup_insert_eq; by eexists|by rewrite lookup_insert_ne].
    + intros _. rewrite lookup_insert_eq. by eexists.
    + intros [?|Hs]; [done|]. rewrite E in Hs. by destruct Hs.
  - split; [done|]. split; [done|]. split; [|done].
    intros _. by apply not_eq_None_Some.
Qed.

Lemma spec_users_groups limit us V : rv_groups (foldl (spec_user limit) V us) = rv_groups V.
Proof.
  revert V. induction us as [|e us IH]; intros V; [done|]. simpl. rewrite IH.
  apply spec_user_cases.
Qed.

Lemma spec_users_grow limit us V n :
  is_Some (rv_users V !! n) -> is_Some (rv_users (foldl (spec_user limit) V us) !! n).
Proof.
  revert V. induction us as [|e us IH]; intros V Hn; [done|]. simpl. apply IH.
  by apply spec_user_cases.
Qed.

Lemma group_ok_groups V V' t g : rv_groups V = rv_groups V' -> group_ok V t g = group_ok V' t g.
Proof. unfold group_ok. by intros ->. Qed.

(** Every configured user is registered or refused for its group. *)
Lemma spec_users_settled limit us V e :
  e ∈ us ->
  group_ok V (cu_Type e.2) (cu_Group e.2) = false
  \/ is_Some (rv_users (foldl (spec_user limit) V us) !! e.1).
Proof.
  revert V. induction us as [|e' us IH]; intros V; [set_solver|]. simpl.
  intros [->|He]%elem_of_cons.
  - destruct (group_ok V (cu_Type e'.2) (cu_Group e'.2)) eqn:E; [right|by left].
    by apply spec_users_grow, spec_user_cases.
  - destruct (IH (spec_user limit V e') He) as [H|H]; [left|by right].
    rewrite <- H. apply group_ok_groups. symmetry. apply spec_user_cases.
Qed.

Lemma spec_users_noop limit us V :
  (forall e, e ∈ us -> group_ok V (cu_Type e.2) (cu_Group e.2) = false \/ is_Some (rv_users V !! e.1)) ->
  foldl (spec_user limit) V us = V.
Proof.
  induction us as [|e us IH]; intros H; [done|]. simpl.
  destruct (spec_user_cases limit V e) as (_ & _ & _ & ->); [|apply H; set_solver].
  apply IH. set_solver.
Qed.

(** The bootstrap only adds: what is registered keeps its data. *)
Lemma add_groups_subseteq l m : m ⊆ foldl add_group m l.
Proof.
  revert m. induction l as [|e l IH]; intros m; simpl; [done|]. etrans; [|apply IH].
  unfold add_group. case_match eqn:E; [done|]. by apply insert_subseteq.
Qed.

Lemma spec_user_subseteq limit V e : rv_users V ⊆ rv_users (spec_user limit V e).
Proof.
  unfold spec_user, spec_register, may_register. simpl. destruct (group_ok V _ _); simpl; [|done].
  case_bool_decide; simpl; [|done]. by apply insert_subseteq.
Qed.

Lemma spec_bootstrap_keeps limit gs us V :
  rv_users V ⊆ rv_users (spec_bootstrap limit gs us V) /\ rv_groups V ⊆ rv_groups (spec_bootstrap limit gs us V).
Proof.
  unfold spec_bootstrap. rewrite spec_users_groups. split; [|apply add_groups_subseteq].
  change (rv_users V) with (rv_users (spec_groups gs V)). generalize (spec_groups gs V) as V1.
  induction us as [|e us IH]; intros V1; simpl; [done|]. etrans; [apply (spec_user_subseteq limit V1 e)|apply IH].
Qed.

(** Each configured user that is new and whose group, where its type requires
    one, is known is registered with its configured data; users of other names
    do not touch it. *)
Lemma spec_users_other limit us V n : n ∉ map fst us -> rv_users (foldl (spec_user limit) V us) !! n = rv_users V !! n.
Proof.
  revert V. induction us as [|e us IH]; intros V; [done|]. cbn [map foldl]. intros [Hne Hn]%not_elem_of_cons.
  rewrite IH by done. unfold spec_user, spec_register. destruct (_ && _); [|done]. simpl. by rewrite lookup_insert_ne.
Qed.

Lemma spec_bootstrap_user limit gs us V e :
  NoDup (map fst us) -> e ∈ us -> rv_users V !! e.1 = None ->
  Register.requireGroup (cu_Type e.2) = false \/ cu_Group e.2 ∈ map fst gs \/ is_Some (rv_groups V !! cu_Group e.2) ->
  rv_users (spec_bootstrap limit gs us V) !! e.1 = Some (mkUserView (config_info e) 0 limit).
Proof.
  intros Hnd He HV Hg. unfold spec_bootstrap.
  assert (Hok : group_ok (spec_groups gs V) (cu_Type e.2) (cu_Group e.2) = true).
  { unfold group_ok. destruct Hg as [->|Hg]; [done|]. rewrite orb_comm, bool_decide_true; [done|]. simpl.
    destruct Hg as [Hg|Hg]; [|by apply add_groups_grow].
    apply list_elem_of_In, in_map_iff in Hg as (e' & <- & He'). by apply add_groups_present, list_elem_of_In. }
  change (rv_users V !! e.1 = None) with (rv_users (spec_groups gs V) !! e.1 = None) in HV. clear Hg.
  generalize dependent (spec_groups gs V). intros V1. revert V1.
  induction us as [|e' us IH]; intros V1 HV Hok; [by apply elem_of_nil in He|].
  cbn [map] in Hnd. apply NoDup_cons in Hnd as [Hn Hnd]. cbn [foldl].
  apply elem_of_cons in He as [<-|He].
  - rewrite spec_users_other by done. unfold spec_user, spec_register, may_register. simpl.
    rewrite Hok, (bool_decide_true (_ = None)) by done. simpl. by rewrite lookup_insert_eq.
  - apply IH; [done|done| |].
    + destruct (spec_users_other limit [e'] V1 e.1); [|done]. cbn [map]. apply not_elem_of_cons.
      split; [|apply not_elem_of_nil]. intros E. apply Hn. rewrite <- E. by apply list_elem_of_In, in_map, list_elem_of_In.
    + rewrite <- Hok. apply group_ok_groups. apply spec_user_cases.
Qed.

(** The groups after it: those there were, and those of the configuration. *)
Lemma spec_bootstrap_groups limit gs us V g :
  is_Some (rv_groups (spec_bootstrap limit gs us V) !! g) <-> is_Some (rv_groups V !! g) \/ g ∈ map fst gs.
Proof.
  unfold spec_bootstrap. rewrite spec_users_groups. unfold spec_groups. cbn [rv_groups].
  generalize (rv_groups V) as m. induction gs as [|e gs IH]; intros m; cbn [foldl map].
  - split; [by left|]. by intros [?| ?%elem_of_nil].
  - rewrite IH, elem_of_cons. unfold add_group. destruct (m !! e.1) as [p|] eqn:E.
    + split; [naive_solver|]. intros [?|[->|?]]; [by left|left; by exists p|by right].
    + destruct (decide (g = e.1)) as [->|Hne]; [rewrite lookup_insert_eq; naive_solver|].
      rewrite lookup_insert_ne by done. naive_solver.
Qed.

(** A second bootstrap, in any order, finds everything settled. *)
Lemma spec_bootstrap_settled limit limit' gs us gs' us' V :
  (forall e, e ∈ gs' -> e.1 ∈ map fst gs) -> (forall e, e ∈ us' -> e ∈ us) ->
  spec_bootstrap limit' gs' us' (spec_bootstrap limit gs us V) = spec_bootstrap limit gs us V.
Proof.
  intros Hg Hu. unfold spec_bootstrap at 1. set (V1 := spec_bootstrap limit gs us V).
  assert (spec_groups gs' V1 = V1) as ->.
  { unfold spec_groups. rewrite add_groups_noop; [by destruct V1|]. intros e He.
    unfold V1, spec_bootstrap. rewrite spec_users_groups. simpl.
    apply Hg, list_elem_of_In, in_map_iff in He as (e0 & <- & He0).
    by apply add_groups_present, list_elem_of_In. }
  apply spec_users_noop. intros e He. unfold V1, spec_bootstrap.
  destruct (spec_users_settled limit us (spec_groups gs V) e (Hu e He)) as [H|H]; [left|by right].
  rewrite <- H. apply group_ok_groups. apply spec_users_groups.
Qed.

(** ** The database-backed server *)

Definition db_bootstrap (h : DBHandle) (CFG : Config) (fuel : nat) (configFile : string)
    (GSM GSS : string -> list string) : comp DB unit :=
  bootstrapDB (accessor_registry (Accessor.mkAccessor (Some h))) CFG (db_RandomString fuel)
    configFile GSM GSS.

Lemma db_bootstrap_run h CFG fuel configFile GSM GSS us d :
  db_inv d -> (2 <= length (Split (filepath_Base configFile) "."))%nat ->
  Users CFG = map (fun e : string * ConfigUser => (e.1, Some e.2)) us ->
  Forall (fun e => cu_Pass e.2 <> "") us ->
  exists d', db_bootstrap h CFG fuel configFile GSM GSS d = (Ok tt, d') /\ db_inv d'
    /\ db_view d' = spec_bootstrap (MaxEnrollments CFG) (all_group_entries GSM GSS) us (db_view d).
Proof.
  intros Hd Hext Hus Hp.
  exact (bootstrapDB_transforms (accessor_registry (Accessor.mkAccessor (Some h))) CFG
           (db_RandomString fuel) configFile GSM GSS us Hext Hus Hp d Hd).
Qed.

(** [bootstrapDB] ends normally and brings the database to the state the
    configuration describes: every configured group (a name keeps the parent
    of its first registration), then every configured user whose required
    group exists and whose name is free, with its secret and the limit. *)
Theorem bootstrapDB_refines h CFG fuel configFile GSM GSS us d :
  db_inv d -> (2 <= length (Split (filepath_Base configFile) "."))%nat ->
  Users CFG = map (fun e : string * ConfigUser => (e.1, Some e.2)) us ->
  Forall (fun e => cu_Pass e.2 <> "") us ->
  exists d', db_bootstrap h CFG fuel configFile GSM GSS d = (Ok tt, d') /\ db_inv d'
    /\ db_view d' = spec_bootstrap (MaxEnrollments CFG) (all_group_entries GSM GSS) us (db_view d).
Proof.
  apply db_bootstrap_run.
Qed.

(** The bootstrap is idempotent: run again on the database it left, with
    the maps ranged over in any other order, it changes no user and no group,
    so a user's enrollment count and secret survive a restart. *)
Theorem bootstrapDB_idempotent h CFG CFG' fuel configFile GSM GSS GSM' GSS' us us' d d1 :
  db_inv d -> (2 <= length (Split (filepath_Base configFile) "."))%nat ->
  Users CFG = map (fun e : string * ConfigUser => (e.1, Some e.2)) us ->
  Users CFG' = map (fun e : string * ConfigUser => (e.1, Some e.2)) us' ->
  Forall (fun e => cu_Pass e.2 <> "") us -> (forall e, e ∈ us' -> e ∈ us) ->
  (forall e, e ∈ all_group_entries GSM' GSS' -> e.1 ∈ map fst (all_group_entries GSM GSS)) ->
  db_bootstrap h CFG fuel configFile GSM GSS d = (Ok tt, d1) ->
  exists d2, db_bootstrap h CFG' fuel configFile GSM' GSS' d1 = (Ok tt, d2) /\ db_inv d2
    /\ db_view d2 = db_view d1.
Proof.
  intros Hd Hext Hus Hus' Hp Hu Hg Hrun.
  assert (Hp' : Forall (fun e => cu_Pass e.2 <> "") us').
  { rewrite Forall_forall in *. auto. }
  destruct (db_bootstrap_run h CFG fuel configFile GSM GSS us d Hd Hext Hus Hp)
    as (d1' & E1 & Hd1 & Hv1).
  rewrite E1 in Hrun. injection Hrun as <-.
  destruct (db_bootstrap_run h CFG' fuel configFile GSM' GSS' us' d1' Hd1 Hext Hus' Hp')
    as (d2 & E2 & Hd2 & Hv2).
  exists d2. split; [exact E2|]. split; [exact Hd2|].
  rewrite Hv2, Hv1. by apply spec_bootstrap_settled.
Qed.

(** The configuration of the witnesses: one tree of groups, two users of whom
    one names a group that does not exist. *)
Definition sample_maps (key : string) : list string :=
  if bool_decide (key = "groups") then ["banks"]
  else if bool_decide (key = "groups.banks") then ["europe"] else [].

Definition sample_slices (key : string) : list string :=
  if bool_decide (key = "groups.banks.europe") then ["bank_a"; "bank_b"] else [].

Definition sample_users : list (string * ConfigUser) :=
  [("admin", mkConfigUser "adminpw" "client" "bank_a" []);
   ("stray", mkConfigUser "pw" "peer" "bank_z" [])].

Definition sample_CFG : Config :=
  set_MaxEnrollments 2 (set_Users (map (fun e => (e.1, Some e.2)) sample_users) newConfig).

Definition empty_db : DB := mkDB [] [] [] 0 (fun _ => 0%Z) 0 [].

Lemma empty_db_inv : db_inv empty_db.
Proof. split; [done|]. split; apply NoDup_nil_2. Qed.

Lemma bootstrapDB_refines_witness :
  exists d', db_bootstrap sqlite3 sample_CFG 0 "/etc/cop.json" sample_maps sample_slices empty_db
    = (Ok tt, d')
  /\ map_to_list (rv_users (db_view d')) =
      [("admin", mkUserView (mkUserInfo "admin" "adminpw" "client" "bank_a" []) 0 2)].
Proof.
  destruct (bootstrapDB_refines sqlite3 sample_CFG 0 "/etc/cop.json" sample_maps sample_slices
    sample_users empty_db empty_db_inv) as (d' & H1 & _ & H2);
    [vm_compute; lia|reflexivity|by repeat constructor|].
  exists d'. split; [exact H1|]. rewrite H2. vm_compute. reflexivity.
Defined.

Lemma bootstrapDB_idempotent_witness :
  exists d1 d2, db_bootstrap sqlite3 sample_CFG 0 "/etc/cop.json" sample_maps sample_slices empty_db
    = (Ok tt, d1)
  /\ db_bootstrap sqlite3 sample_CFG 0 "/etc/cop.json" sample_maps sample_slices d1 = (Ok tt, d2)
  /\ db_view d2 = db_view d1.
Proof.
  eexists. edestruct (bootstrapDB_idempotent sqlite3 sample_CFG sample_CFG 0 "/etc/cop.json"
    sample_maps sample_slices sample_maps sample_slices sample_users sample_users empty_db)
    as (d2 & H1 & _ & H2);
    [apply empty_db_inv|vm_compute; lia|reflexivity|reflexivity|by repeat constructor|done| |
     vm_compute; reflexivity|].
  - intros e He. by apply list_elem_of_In, in_map, list_elem_of_In.
  - exists d2. split; [vm_compute; reflexivity|]. by split.
Defined.
