(* ===== verification/LoginLimit.v ===== *)
(** * The enrollment limit, one request at a time

    A login is two database statements made by different calls
    (src/cli/server/auth.go: [GetUser], then [Login] on the object it
    returned; src/cli/server/dbaccessor.go).  Run one after the other, logins
    respect the limit, for every registry that keeps the laws; file EnrollRace
    has what happens when they are interleaved. *)

From S2P Require Import Prelude GoStrings GoFmt GoJson CopError Registry Database DbAccessor Util GoUnmarshal Config Register.

Section sequential.
Context {W : Type} (R : UserRegistry W) `{L : !RegistryLaws R}.

(** What the authentication wrapper does for one request. *)
Definition login (id pwd : string) : comp W unit :=
  u ← GetUser R id []; Login u pwd.

(** Requests one after the other: how many were accepted, and the state. *)
Fixpoint run_logins (id : string) (pwds : list string) (w : W) : Z * W :=
  match pwds with
  | [] => (0%Z, w)
  | p :: pwds =>
      let '(o, w') := login id p w in
      let '(n, w'') := run_logins id pwds w' in
      ((if is_ok o then n + 1 else n)%Z, w'')
  end.

Lemma login_run w id v p :
  reg_inv w -> rv_users (reg_view w) !! id = Some v ->
  match spec_login v p with
  | Some v' => exists w', login id p w = (Ok tt, w') /\ reg_inv w'
      /\ rv_users (reg_view w') !! id = Some v'
  | None => exists e, login id p w = (Err e, w)
  end.
Proof.
  intros Hw Hv. destruct (law_GetUser_found w id [] v Hw Hv) as (u & Hu & _).
  pose proof (law_Login w id [] v u p Hw Hv Hu) as HL. unfold login.
  rewrite (bind_ok _ _ _ _ _ Hu). destruct (spec_login v p) as [v'|]; [|exact HL].
  destruct HL as (w' & HL & Hw' & Hvw). exists w'. split; [done|]. split; [done|].
  rewrite Hvw. apply lookup_insert_eq.
Qed.

Lemma run_logins_bound id pwds : forall w v,
  reg_inv w -> rv_users (reg_view w) !! id = Some v ->
  (0 < uv_max v < 2 ^ 63)%Z -> (0 <= uv_state v)%Z ->
  (0 <= (run_logins id pwds w).1 <= Z.max 0 (uv_max v - uv_state v))%Z
  /\ reg_inv (run_logins id pwds w).2
  /\ exists v', rv_users (reg_view (run_logins id pwds w).2) !! id = Some v'
     /\ uv_state v' = (uv_state v + (run_logins id pwds w).1)%Z /\ uv_max v' = uv_max v.
Proof.
  induction pwds as [|p pwds IH]; intros w v Hw Hv Hmax Hst; simpl.
  { split; [lia|]. split; [done|]. exists v. split; [done|]. lia. }
  pose proof (login_run w id v p Hw Hv) as HL.
  destruct (spec_login v p) as [v'|] eqn:Es.
  - destruct HL as (w' & -> & Hw' & Hv').
    unfold spec_login in Es. destruct (negb _); [done|].
    rewrite (proj2 (Z.ltb_ge (uv_max v) 0)) in Es by lia.
    rewrite (proj2 (Z.eqb_neq (uv_max v) 0)), Z.geb_leb in Es by lia. simpl in Es.
    destruct (Z.leb_spec (uv_max v) (uv_state v)); [done|]. injection Es as <-.
    assert (E : wrap64 (uv_state v + 1) = (uv_state v + 1)%Z) by (apply wrap64_id; unfold int64_range; lia).
    rewrite E in Hv'. destruct (IH w' _ Hw' Hv') as (Hb & Hi & v2 & Hv2 & Hs2 & Hm2); simpl; [lia..|].
    destruct (run_logins id pwds w') as [n w2]; simpl in *.
    split; [lia|]. split; [done|]. exists v2. split; [done|]. lia.
  - destruct HL as [e ->]. destruct (IH w v Hw Hv Hmax Hst) as (Hb & Hi & H).
    by destruct (run_logins id pwds w) as [n w2].
Qed.
End sequential.

(** (C27) Sequential logins respect the enrollment limit on the database: of any
    sequence of login attempts, with any passwords, at most as many are
    accepted as the limit leaves, and the user's counter has grown by exactly
    the number accepted. *)
Theorem sequential_logins_bounded h d id v pwds :
  db_inv d -> rv_users (db_view d) !! id = Some v ->
  (0 < uv_max v < 2 ^ 63)%Z -> (0 <= uv_state v)%Z ->
  let R := accessor_registry (Accessor.mkAccessor (Some h)) in
  (0 <= (run_logins R id pwds d).1 <= Z.max 0 (uv_max v - uv_state v))%Z
  /\ exists v', rv_users (db_view (run_logins R id pwds d).2) !! id = Some v'
     /\ uv_state v' = (uv_state v + (run_logins R id pwds d).1)%Z.
Proof.
  intros Hd Hv Hmax Hst R.
  destruct (@run_logins_bound _ R (accessor_laws h) id pwds d v Hd Hv Hmax Hst) as (Hb & _ & v' & H1 & H2 & _).
  split; [done|]. by exists v'.
Qed.

Definition race_user (limit : Z) : UserRecord :=
  Accessor.set_max limit (Accessor.new_record (mkUserInfo "bob" "pw" "client" "" [])).

Definition race_db (limit : Z) : DB := mkDB [race_user limit] [] [] 0 (fun _ => 0%Z) 0 [].

Lemma race_db_inv limit : db_inv (race_db limit).
Proof. split; [done|]. split; [apply NoDup_singleton|apply NoDup_nil_2]. Qed.

Lemma sequential_logins_bounded_witness :
  (0 <= (run_logins (accessor_registry (Accessor.mkAccessor (Some sqlite3))) "bob"
           ["pw"; "no"; "pw"; "pw"] (race_db 2)).1 <= 2)%Z
  /\ exists v', rv_users (db_view (run_logins (accessor_registry (Accessor.mkAccessor (Some sqlite3)))
       "bob" ["pw"; "no"; "pw"; "pw"] (race_db 2)).2) !! "bob" = Some v' /\ uv_state v' = 2%Z.
Proof.
  destruct (sequential_logins_bounded sqlite3 (race_db 2) "bob"
    (mkUserView (mkUserInfo "bob" "pw" "client" "" []) 0 2) ["pw"; "no"; "pw"; "pw"]
    (race_db_inv 2) ltac:(vm_compute; reflexivity) ltac:(simpl; lia) ltac:(simpl; lia)) as [H1 [v' [H2 H3]]].
  split; [exact H1|]. exists v'. split; [exact H2|]. rewrite H3. vm_compute. reflexivity.
Defined.
