(* ===== verification/Auth.v ===== *)
(** * Authentication (src/cli/server/auth.go)

    The wrapper every endpoint is served through: basic authentication
    against the user registry for [sign] and [enroll], token authentication
    for the others, and CFSSL's [revoke.VerifyCertificate] for expiry and
    revocation lists.  Fetching a revocation list is a parameter. *)

From S2P Require Import Prelude GoStrings GoFmt GoJson CopError Base64 Http Registry Token Database DbAccessor Util GoUnmarshal Config Register.

(** [authError]. *)
Definition authError : error := NewBadRequest (NewErr "authorization failure").

(** [wrappedPath]. *)
Definition wrappedPath (path : string) : string := "/api/v1/cfssl/" +:+ path.

(** [copAuthHandler]; [next] is the wrapped handler, over the server's state. *)
Record copAuthHandler (W : Type) := mkCopAuthHandler {
  basic : bool;
  token : bool;
  next : Request -> comp W Response
}.
Arguments mkCopAuthHandler {W} _ _ _.
Arguments basic {W} _.
Arguments token {W} _.
Arguments next {W} _ _.

Section Auth.
Context {W : Type}.
Context (C : Crypto) (CFG : Config) (userRegistry : UserRegistry DB).
(** [checkCRL cert url]: whether the list (or the OCSP responder) at [url]
    revokes the certificate, and whether it could be consulted. *)
Context (checkCRL : Certificate -> string -> bool * bool).

(** [revCheck], with [HardFail] false; LDAP distribution points are skipped. *)
Fixpoint revCheck (cert : Certificate) (urls : list string) : bool * bool :=
  match urls with
  | [] => (false, true)
  | url :: urls =>
      if HasPrefix url "ldap:" then revCheck cert urls
      else match checkCRL cert url with
           | (_, false) => (false, false)
           | (true, true) => (true, true)
           | (false, true) => revCheck cert urls
           end
  end.

(** [revoke.VerifyCertificate]: revoked or expired, and successfully checked. *)
Definition VerifyCertificate (cert : Certificate) : comp DB (bool * bool) :=
  t ← gets now;
  mret (if negb (t <? NotAfter cert)%Z then (true, true)
        else if negb (NotBefore cert <? t)%Z then (true, true)
        else revCheck cert (CRLDistributionPoints cert)).


Definition newAuthHandler (basic token : bool) (handler : Request -> comp W Response)
    (errArg : option error) : error + copAuthHandler W :=
  match errArg with
  | Some e => inl e
  | None => inr (mkCopAuthHandler basic token handler)
  end.

Definition newBasicAuthHandler handler errArg := newAuthHandler true false handler errArg.

Definition newTokenAuthHandler handler errArg := newAuthHandler false true handler errArg.

(** [NewAuthWrapper]. *)
Definition NewAuthWrapper (path : string) (handler : Request -> comp W Response)
    (err : option error) : string * (error + copAuthHandler W) :=
  if bool_decide (path = "sign") || bool_decide (path = "enroll")
  then (wrappedPath path, newBasicAuthHandler handler err)
  else (wrappedPath path, newTokenAuthHandler handler err).

(** [serveHTTP]: the request handed to the next handler, or the error. *)
Definition serveHTTP (ah : copAuthHandler W) (r : Request) : comp DB Request :=
  let r := (HTTPRequestToString r).2 in
  if negb (Authentication CFG) then mret r
  else
    let authHdr := authorization r in
    if bool_decide (authHdr = "") then fail errNoAuthHdr
    else match BasicAuth r with
    | Some (user, pwd) =>
        if negb (basic ah) then fail errBasicAuthNotAllowed
        else
          u ← GetUser userRegistry user [];
          _ ← Login u pwd;
          mret (set_eid user r)
    | None =>
        if token ah then
          b ← map_err (fun _ => authError) (ReadAll r);
          let r := set_Body b r in
          cert ← map_err (fun _ => authError) (lift (VerifyToken C authHdr (bytes_of_string b)));
          '(revokedOrExpired, checked) ← VerifyCertificate cert;
          if revokedOrExpired : bool then fail authError
          else if negb checked then fail authError
          else mret (set_eid (GetEnrollmentIDFromX509Certificate cert) r)
        else mret r
    end.

(** [ServeHTTP]; [onDB] runs the authentication on the database part of the
    server's state. *)
Definition ServeHTTP (onDB : comp DB Request -> comp W Request) (ah : copAuthHandler W)
    (r : Request) : comp W Response :=
  x ← attempt (onDB (serveHTTP ah r));
  match x with
  | inl err => mret (HandleError err)
  | inr r => next ah r
  end.
End Auth.

(** ** Theorems *)

Section theorems.
Context {W : Type} (C : Crypto) (CFG : Config) (userRegistry : UserRegistry DB).
Context (checkCRL : Certificate -> string -> bool * bool).

Lemma revCheck_clean cert urls :
  revCheck checkCRL cert urls = (false, true) <->
  Forall (fun url => HasPrefix url "ldap:" = true \/ checkCRL cert url = (false, true)) urls.
Proof.
  induction urls as [|u urls IH]; simpl; [done|]. rewrite Forall_cons.
  destruct (HasPrefix u "ldap:"); [rewrite IH; naive_solver|].
  destruct (checkCRL cert u) as [[] []]; rewrite ?IH; naive_solver.
Qed.

Lemma serveHTTP_token_run (ah : copAuthHandler W) r d :
  Authentication CFG = true -> basic ah = false -> token ah = true ->
  BasicAuth r = None -> authorization r <> "" ->
  serveHTTP C CFG userRegistry checkCRL ah r d =
    match VerifyToken C (authorization r) (bytes_of_string (body r)) with
    | Ok cert =>
        if negb (now d <? NotAfter cert)%Z || negb (NotBefore cert <? now d)%Z
           || negb (bool_decide (revCheck checkCRL cert (CRLDistributionPoints cert) = (false, true)))
        then (Err authError, d)
        else (Ok (set_eid (CommonName cert) (set_Body (body r) r)), d)
    | Err _ => (Err authError, d)
    | Panic p => (Panic p, d)
    | Exit p => (Exit p, d)
    | OutOfFuel => (OutOfFuel, d)
    end.
Proof.
  intros Ha Hb Ht Hba Hne. unfold serveHTTP. rewrite Ha. cbn [negb].
  rewrite bool_decide_false by done.
  change (BasicAuth (HTTPRequestToString r).2) with (BasicAuth r). rewrite Hba, Ht.
  unfold mbind, comp_bind, map_err. simpl. destruct (VerifyToken _ _ _) as [cert|e|p|p|]; try done.
  simpl. destruct (negb (now d <? NotAfter cert)%Z); [done|]. simpl.
  destruct (negb (NotBefore cert <? now d)%Z); [done|]. simpl.
  destruct (revCheck _ _ _) as [[] []]; simpl; repeat case_bool_decide; try done; congruence.
Qed.
End theorems.

(** (C8) Token authentication: on a token endpoint, with authentication on, a
    request reaches the handler only if its authorization header is a token
    that verifies over the very body the handler will read, with a certificate
    that is inside its validity period and on no consulted revocation list;
    the handler then sees the certificate's common name as the caller, and
    the database is unchanged. *)
Theorem token_auth_sound {W} C CFG R checkCRL (h : Request -> comp W Response) r d r' d' :
  Authentication CFG = true ->
  serveHTTP C CFG R checkCRL (mkCopAuthHandler false true h) r d = (Ok r', d') ->
  exists cert, VerifyToken C (authorization r) (bytes_of_string (body r')) = Ok cert
    /\ (NotBefore cert < now d < NotAfter cert)%Z
    /\ Forall (fun url => HasPrefix url "ldap:" = true \/ checkCRL cert url = (false, true))
         (CRLDistributionPoints cert)
    /\ eid r' = CommonName cert /\ body_err r' = None /\ d' = d.
Proof.
  intros Ha Hrun. destruct (decide (authorization r = "")) as [E|E].
  { unfold serveHTTP in Hrun. rewrite Ha in Hrun. simpl in Hrun. by rewrite E in Hrun. }
  destruct (BasicAuth r) as [[u p]|] eqn:Hb.
  { unfold serveHTTP in Hrun. rewrite Ha in Hrun. cbn [negb] in Hrun.
    rewrite bool_decide_false in Hrun by done.
    change (BasicAuth (HTTPRequestToString r).2) with (BasicAuth r) in Hrun. by rewrite Hb in Hrun. }
  rewrite serveHTTP_token_run in Hrun by done.
  destruct (VerifyToken _ _ _) as [cert|e|p|p|] eqn:Hv; try done.
  destruct (_ || _) eqn:Hor; [done|]. injection Hrun as <- <-.
  apply orb_false_iff in Hor as [[H1 H2]%orb_false_iff H3].
  rewrite negb_false_iff in H1, H2, H3. apply bool_decide_eq_true, revCheck_clean in H3.
  exists cert. simpl. split; [exact Hv|]. split; [lia|]. done.
Qed.

(** A request with credentials, on the database. *)
Lemma serveHTTP_basic_run {W} C CFG hd checkCRL (h : Request -> comp W Response) r d user pwd :
  Authentication CFG = true -> db_inv d -> authorization r <> "" -> BasicAuth r = Some (user, pwd) ->
  let R := accessor_registry (Accessor.mkAccessor (Some hd)) in
  let run := serveHTTP C CFG R checkCRL (mkCopAuthHandler true false h) r d in
  match rv_users (db_view d) !! user ≫= (fun v => spec_login v pwd) with
  | Some v' => exists d', run = (Ok (set_eid user (set_Body (body r) r)), d') /\ db_inv d'
      /\ db_view d' = mkRegistryView (<[user := v']> (rv_users (db_view d))) (rv_groups (db_view d))
  | None => exists e, run = (Err e, d)
  end.
Proof.
  intros Ha Hd Hne Hb R run. subst run. unfold serveHTTP. rewrite Ha. cbn [negb].
  rewrite bool_decide_false by done.
  change (BasicAuth (HTTPRequestToString r).2) with (BasicAuth r). rewrite Hb. cbn [negb basic].
  destruct (rv_users (db_view d) !! user) as [v|] eqn:Eu; simpl.
  - destruct (@law_GetUser_found _ _ (accessor_laws hd) d user [] v Hd Eu) as (u & Hu & _).
    rewrite (bind_ok _ _ _ _ _ Hu).
    pose proof (@law_Login _ _ (accessor_laws hd) d user [] v u pwd Hd Eu Hu) as HL.
    destruct (spec_login v pwd) as [v'|].
    + destruct HL as (d' & HL & Hd' & Hv). rewrite (bind_ok _ _ _ _ _ HL).
      by exists d'.
    + destruct HL as [e HL]. exists e. by rewrite (bind_err _ _ _ _ _ HL).
  - destruct (@law_GetUser_missing _ _ (accessor_laws hd) d user [] Hd Eu) as [e He]. exists e.
    by rewrite (bind_err _ _ _ _ _ He).
Qed.

(** Basic authentication refines the abstract login on the database: a
    request with credentials passes exactly when the user exists and
    [spec_login] accepts, the login is then counted in that user's row and
    nothing else changes; otherwise the request is refused and no user or
    group changes. *)
Theorem basic_auth_refines {W} C CFG hd checkCRL (h : Request -> comp W Response) r d user pwd :
  Authentication CFG = true -> db_inv d -> authorization r <> "" -> BasicAuth r = Some (user, pwd) ->
  let R := accessor_registry (Accessor.mkAccessor (Some hd)) in
  let run := serveHTTP C CFG R checkCRL (mkCopAuthHandler true false h) r d in
  match rv_users (db_view d) !! user ≫= (fun v => spec_login v pwd) with
  | Some v' => exists r' d', run = (Ok r', d') /\ eid r' = user /\ db_inv d'
      /\ db_view d' = mkRegistryView (<[user := v']> (rv_users (db_view d))) (rv_groups (db_view d))
  | None => exists e, run = (Err e, d)
  end.
Proof.
  intros Ha Hd Hne Hb R run.
  pose proof (serveHTTP_basic_run C CFG hd checkCRL h r d user pwd Ha Hd Hne Hb) as H. cbv zeta in H.
  destruct (_ ≫= _) as [v'|]; [|exact H]. destruct H as (d' & H & Hi & Hv). eauto 10.
Qed.

Definition sample_request : Request :=
  mkRequest "POST" "/api/v1/cfssl/enroll" (SetBasicAuth "admin" "adminpw") "" "{}" None.

Lemma basic_auth_refines_witness :
  exists r' d', serveHTTP toy_crypto newConfig
      (accessor_registry (Accessor.mkAccessor (Some sqlite3))) (fun _ _ => (false, true))
      (mkCopAuthHandler true false (fun _ => mret (mkResponse 200 "") : comp DB Response)) sample_request sample_db
    = (Ok r', d') /\ eid r' = "admin"
    /\ (uv_state <$> rv_users (db_view d') !! "admin") = Some 1%Z.
Proof.
  pose proof (basic_auth_refines toy_crypto newConfig sqlite3 (fun _ _ => (false, true))
    (fun _ => mret (mkResponse 200 "") : comp DB Response) sample_request sample_db "admin" "adminpw" eq_refl
    sample_db_inv ltac:(done) eq_refl) as H.
  cbv zeta in H.
  destruct (rv_users (db_view sample_db) !! "admin" ≫= (fun v => spec_login v "adminpw"))
    as [v'|] eqn:E; [|vm_compute in E; discriminate E].
  destruct H as (r' & d' & H1 & H2 & _ & H3). exists r', d'. split; [exact H1|]. split; [exact H2|].
  rewrite H3. cbn [rv_users]. rewrite lookup_insert_eq. vm_compute in E. by injection E as <-.
Defined.

(** On the endpoints that use basic authentication ([sign], [enroll]) a
    request whose authorization header is present but is not well-formed basic
    credentials passes without any check of any kind. *)
Theorem basic_auth_bypass {W} C CFG R checkCRL (h : Request -> comp W Response) r d :
  authorization r <> "" -> BasicAuth r = None ->
  serveHTTP C CFG R checkCRL (mkCopAuthHandler true false h) r d = (Ok (set_Body (body r) r), d).
Proof.
  intros Hne Hb. unfold serveHTTP. destruct (Authentication CFG); [|done]. cbn [negb].
  rewrite bool_decide_false by done.
  change (BasicAuth (HTTPRequestToString r).2) with (BasicAuth r). by rewrite Hb.
Qed.

Lemma basic_auth_bypass_witness :
  serveHTTP toy_crypto newConfig (accessor_registry (Accessor.mkAccessor (Some sqlite3)))
      (fun _ _ => (false, true)) (mkCopAuthHandler true false (fun _ => mret (mkResponse 200 "") : comp DB Response))
      (mkRequest "POST" "/api/v1/cfssl/enroll" "x" "" "{}" None) sample_db
    = (Ok (mkRequest "POST" "/api/v1/cfssl/enroll" "x" "" "{}" None), sample_db).
Proof.
  apply (basic_auth_bypass toy_crypto newConfig (accessor_registry (Accessor.mkAccessor (Some sqlite3)))
    (fun _ _ => (false, true)) (fun _ => mret (mkResponse 200 "") : comp DB Response)
    (mkRequest "POST" "/api/v1/cfssl/enroll" "x" "" "{}" None) sample_db); [done|reflexivity].
Defined.

(** Token authentication reads nothing of the database but the clock. *)
Lemma token_auth_db {W} C CFG R checkCRL (h : Request -> comp W Response) r d d1 r' :
  Authentication CFG = true -> now d1 = now d ->
  serveHTTP C CFG R checkCRL (mkCopAuthHandler false true h) r d = (Ok r', d) ->
  serveHTTP C CFG R checkCRL (mkCopAuthHandler false true h) r d1 = (Ok r', d1).
Proof.
  intros Ha Hn Hrun. destruct (decide (authorization r = "")) as [E|E].
  { unfold serveHTTP in Hrun. rewrite Ha in Hrun. simpl in Hrun. by rewrite E in Hrun. }
  destruct (BasicAuth r) as [[u p]|] eqn:Hb.
  { unfold serveHTTP in Hrun. rewrite Ha in Hrun. cbn [negb] in Hrun.
    rewrite bool_decide_false in Hrun by done.
    change (BasicAuth (HTTPRequestToString r).2) with (BasicAuth r) in Hrun. by rewrite Hb in Hrun. }
  rewrite serveHTTP_token_run in Hrun |- * by done. rewrite Hn.
  destruct (VerifyToken _ _ _); try done. destruct (_ || _); [done|]. by injection Hrun as <-.
Qed.

Lemma token_auth_sound_witness :
  let r := mkRequest "POST" "/api/v1/cfssl/reenroll" toy_token "" (string_of_bytes [x55; x66]) None in
  let d := mkDB [] [] [] 9 (fun _ => 0%Z) 0 [] in
  exists cert r', serveHTTP toy_crypto newConfig
      (accessor_registry (Accessor.mkAccessor (Some sqlite3))) (fun _ _ => (false, true))
      (mkCopAuthHandler false true (fun _ => mret (mkResponse 200 "") : comp DB Response)) r d = (Ok r', d)
    /\ VerifyToken toy_crypto toy_token [x55; x66] = Ok cert /\ (NotBefore cert < 9 < NotAfter cert)%Z
    /\ eid r' = "admin".
Proof.
  intros r d.
  destruct (token_auth_sound toy_crypto newConfig
    (accessor_registry (Accessor.mkAccessor (Some sqlite3))) (fun _ _ => (false, true))
    (fun _ => mret (mkResponse 200 "") : comp DB Response) r d (set_eid "admin" r) d eq_refl) as (cert & Hv & Hn & _ & He & _).
  { vm_compute. reflexivity. }
  exists cert, (set_eid "admin" r). split; [vm_compute; reflexivity|].
  split; [exact Hv|]. split; [exact Hn|reflexivity].
Defined.
