(* ===== verification/Handlers.v ===== *)
(** * The request handlers (src/cli/server: register.go, enroll.go, revoke.go, user.go)

    Each handler with the method filter CFSSL wraps it in.  Handlers run
    after authentication (see [Auth]); they read the body the authentication
    wrapper left.  Signing a certificate request is CFSSL's: a parameter that
    yields the certificate and the record CFSSL then stores through the
    certificate accessor. *)

From S2P Require Import Prelude GoStrings GoFmt GoJson CopError Base64 Http Registry GoUnmarshal Token Database DbAccessor CertDB Util Config Register Auth.

Section Handlers.
Context (C : Crypto) (CFG : Config) (userRegistry : UserRegistry DB).
(** The global variable; nil until a signer with a database is made. *)
Context (certDBAccessor : option CertDBAccessor.CertDBAccessor).
Context (randomString : Z -> comp DB string).
(** CFSSL's [signer.SignRequest], its JSON form and the signing itself. *)
Context {SignRequest : Type} (zero_SignRequest : SignRequest) (dec_SignRequest : decoder SignRequest).
Context (issue : SignRequest -> outcome (bytes * CertificateRecord)).

(** ** user.go *)

Definition getUserAttrValue (username attrname : string) : comp DB string :=
  user ← GetUser userRegistry username [attrname];
  mret (GetAttribute user attrname).

Definition userHasAttribute (username attrname : string) : comp DB unit :=
  val ← getUserAttrValue username attrname;
  if bool_decide (val = "")
  then fail (Errorf "user '%s' does not have attribute '%s'" [FStr username; FStr attrname])
  else mret tt.

(** ** register.go *)

(** [registerHandler.Handle]: the registrar is the one the body names. *)
Definition registerHandler_Handle (r : Request) : comp DB Response :=
  b ← ReadAll r;
  req ← decode dec_RegisterRequest b zero_RegisterRequest;
  tok ← Register.RegisterUser userRegistry CFG randomString (rr_User req) (rr_Type req) (rr_Group req)
          (rr_Attributes req) (rr_CallerID req) [];
  mret (SendResponse (bytes_json (bytes_of_string tok))).

Definition NewRegisterHandler : Request -> comp DB Response :=
  HTTPHandler ["POST"] registerHandler_Handle.

(** ** enroll.go *)

(** [enrollSigner.Sign]: the certificate is stored before it is returned, if the
    signer was given an accessor. *)
Definition enrollSigner_Sign (req : SignRequest) : comp DB bytes :=
  '(cert, record) ← lift (issue req);
  _ ← match certDBAccessor with
      | Some acc => CertDBAccessor.InsertCertificate C acc record
      | None => mret tt
      end;
  mret cert.

Definition signHandler_Handle (endpoint : string) (r : Request) : comp DB Response :=
  b ← ReadAll r;
  req ← Unmarshal dec_SignRequest b zero_SignRequest endpoint;
  cert ← map_err (fun err => Errorf "Failed signing for endpoint %s: %s"
                               [FStr endpoint; FStr (Error err)]) (enrollSigner_Sign req);
  mret (SendResponse (bytes_json cert)).

Definition newSignHandler (endpoint : string) : Request -> comp DB Response :=
  HTTPHandler ["POST"] (signHandler_Handle endpoint).

Definition NewEnrollHandler := newSignHandler "enroll".

Definition NewReenrollHandler := newSignHandler "reenroll".

(** ** revoke.go *)

(** The action of a decoded revocation request; the response on failure. *)
Definition revoke_request (req : RevocationRequest) : comp DB Response :=
  if negb (bool_decide (rv_Serial req = "")) && negb (bool_decide (rv_AKI req = "")) then
    x ← attempt (deref certDBAccessor (fun acc =>
           CertDBAccessor.RevokeCertificate acc (rv_Serial req) (rv_AKI req) (rv_Reason req)));
    match x with
    | inl err => mret (notFound err)
    | inr _ => mret (SendResponse (JObj []))
    end
  else if negb (bool_decide (rv_Name req = "")) then
    x ← attempt (GetUser userRegistry (rv_Name req) []);
    match x with
    | inl err => mret (notFound (Errorf "Failed to get user %s: %s"
                                   [FStr (rv_Name req); FStr (Error err)]))
    | inr _ =>
        x ← attempt (UpdateField userRegistry (rv_Name req) state (-1));
        match x with
        | inl err => mret (dbErr (Errorf "Failed to disable user %s: %s"
                                    [FStr (rv_Name req); FStr (Error err)]))
        | inr _ =>
            x ← attempt (deref certDBAccessor (fun acc =>
                   CertDBAccessor.RevokeCertificatesByID acc (rv_Name req) (rv_Reason req)));
            match x with
            | inl err => mret (dbErr (Errorf "Failed to revoke certificates for user %s: %s"
                                        [FStr (rv_Name req); FStr (Error err)]))
            | inr _ => mret (SendResponse (JObj []))
            end
        end
    end
  else mret (badRequest (NewErr "either Name or Serial and AKI are required for a revoke request")).

(** [revokeHandler.Handle]. *)
Definition revokeHandler_Handle (r : Request) : comp DB Response :=
  let authHdr := authorization r in
  if bool_decide (authHdr = "") then mret (authErr (NewErr "no authorization header"))
  else
    x ← attempt (ReadAll r);
    match x with
    | inl err => mret (badRequest err)
    | inr b =>
        x ← attempt (lift (VerifyToken C authHdr (bytes_of_string b)));
        match x with
        | inl err => mret (authErr err)
        | inr cert =>
            x ← attempt (userHasAttribute (CommonName cert) "hf.Revoker");
            match x with
            | inl err => mret (authErr err)
            | inr _ =>
                x ← attempt (decode dec_RevocationRequest b zero_RevocationRequest);
                match x with
                | inl err => mret (badRequest err)
                | inr req => revoke_request req
                end
            end
        end
    end.

Definition NewRevokeHandler : Request -> comp DB Response :=
  HTTPHandler ["POST"] revokeHandler_Handle.
End Handlers.

(** ** Lemmas on the wrappers *)

Lemma HTTPHandler_post {S} (Handle : Request -> comp S Response) r s :
  Method r = "POST" ->
  HTTPHandler ["POST"] Handle r s =
    match Handle r s with
    | (Ok resp, s') => (Ok resp, s')
    | (Err e, s') => (Ok (HandleError e), s')
    | (Panic p, s') => (Panic p, s')
    | (Exit p, s') => (Exit p, s')
    | (OutOfFuel, s') => (OutOfFuel, s')
    end.
Proof.
  intros Hm. unfold HTTPHandler. rewrite bool_decide_true by (rewrite Hm; set_solver).
  unfold mbind, comp_bind, attempt. by destruct (Handle r s) as [[] ?].
Qed.

(** A handler behind the [POST] filter answers every request, whatever the
    handler returned. *)
Lemma HTTPHandler_other {S} (Handle : Request -> comp S Response) r s :
  Method r <> "POST" ->
  HTTPHandler ["POST"] Handle r s = (Ok (HandleError (NewMethodNotAllowed (Method r))), s).
Proof.
  intros Hm. unfold HTTPHandler. rewrite bool_decide_false by set_solver. done.
Qed.

(** ** Registration over HTTP *)

Section register.
Context (h : DBHandle) (CFG : Config) (fuel : nat).
Let R := accessor_registry (Accessor.mkAccessor (Some h)).
Let handler := NewRegisterHandler CFG R (db_RandomString fuel).

Lemma register_handler_run r d req :
  Method r = "POST" -> body_err r = None -> body r = json_print (RegisterRequest_json req) ->
  db_inv d -> letters_within fuel d ->
  exists tok, String.length tok = 12%nat
    /\ match spec_register (db_view d) (MaxEnrollments CFG)
               (mkUserInfo (rr_User req) tok (rr_Type req) (rr_Group req) (rr_Attributes req))
               (rr_CallerID req) with
       | Some V' => exists d', handler r d = (Ok (SendResponse (bytes_json (bytes_of_string tok))), d')
           /\ db_inv d' /\ db_view d' = V'
       | None => exists e d', handler r d = (Ok (HandleError e), d')
           /\ Register.RegisterUser R CFG (db_RandomString fuel) (rr_User req) (rr_Type req) (rr_Group req)
                (rr_Attributes req) (rr_CallerID req) [] d = (Err e, d')
           /\ db_inv d' /\ db_view d' = db_view d
       end.
Proof.
  intros Hm He Hb Hd Hl. destruct (db_draws h fuel [] d Hd Hl) as (tok & d1 & Hdraw & _ & Hlen).
  exists tok. split; [apply Hlen; by left|].
  unfold handler, NewRegisterHandler. rewrite HTTPHandler_post by done.
  unfold registerHandler_Handle, ReadAll. rewrite He, Hb.
  assert (Hdec : decode dec_RegisterRequest (json_print (RegisterRequest_json req))
            zero_RegisterRequest d = (Ok req, d)) by apply decode_RegisterRequest.
  rewrite bind_mret.
  rewrite (bind_ok _ _ _ _ _ Hdec).
  pose proof (@RegisterUser_run _ R (accessor_laws h) CFG (db_RandomString fuel) d (rr_User req) (rr_Type req)
    (rr_Group req) (rr_Attributes req) (rr_CallerID req) [] tok d1 Hd Hdraw) as Hrun.
  cbv zeta in Hrun. change (@reg_view _ R (accessor_laws h) d) with (db_view d) in Hrun.
  destruct (spec_register _ _ _ _) as [V'|].
  - destruct Hrun as (d' & Hr & Hi & Hv). exists d'. rewrite (bind_ok _ _ _ _ _ Hr). done.
  - destruct Hrun as (e & d' & Hr & Hi & Hv). exists e, d'. rewrite (bind_err _ _ _ _ _ Hr). done.
Qed.
End register.

(** The register endpoint's handler refines the abstract registration: for
    a request a client marshalled, the answer is the new secret, of twelve
    letters, and the user is in the database, exactly when the caller named
    in the body may register the type, the group exists where required and
    the name is free; otherwise it is an error response and no user or group
    has changed. *)
Theorem register_handler_refines h CFG fuel r d req :
  Method r = "POST" -> body_err r = None -> body r = json_print (RegisterRequest_json req) ->
  db_inv d -> letters_within fuel d ->
  let handler := NewRegisterHandler CFG (accessor_registry (Accessor.mkAccessor (Some h)))
                   (db_RandomString fuel) in
  exists tok, String.length tok = 12%nat
    /\ match spec_register (db_view d) (MaxEnrollments CFG)
               (mkUserInfo (rr_User req) tok (rr_Type req) (rr_Group req) (rr_Attributes req))
               (rr_CallerID req) with
       | Some V' => exists d', handler r d = (Ok (SendResponse (bytes_json (bytes_of_string tok))), d')
           /\ db_inv d' /\ db_view d' = V'
       | None => exists e d', handler r d = (Ok (HandleError e), d')
           /\ db_inv d' /\ db_view d' = db_view d
       end.
Proof.
  intros Hm He Hb Hd Hl. destruct (register_handler_run h CFG fuel r d req Hm He Hb Hd Hl) as (tok & Hlen & H).
  exists tok. split; [done|]. destruct (spec_register _ _ _ _); [exact H|].
  destruct H as (e & d' & H & _ & Hi & Hv). eauto.
Qed.

Definition register_body (req : RegisterRequest) : Request :=
  mkRequest "POST" "/api/v1/cfssl/register" "" "" (json_print (RegisterRequest_json req)) None.

Lemma register_handler_refines_witness :
  exists e d', NewRegisterHandler newConfig (accessor_registry (Accessor.mkAccessor (Some sqlite3)))
      (db_RandomString 12)
      (register_body (mkRegisterRequest "bob" "bank_a" "client" [] "admin")) sample_db
    = (Ok (HandleError e), d') /\ db_view d' = db_view sample_db.
Proof.
  destruct (register_handler_refines sqlite3 newConfig 12
    (register_body (mkRegisterRequest "bob" "bank_a" "client" [] "admin")) sample_db
    (mkRegisterRequest "bob" "bank_a" "client" [] "admin") eq_refl eq_refl eq_refl sample_db_inv)
    as (tok & _ & H); [vm_compute; lia|].
  assert (E : forall tok, spec_register (db_view sample_db) (MaxEnrollments newConfig)
    (mkUserInfo "bob" tok "client" "bank_a" []) "admin" = None) by (intros; vm_compute; reflexivity).
  cbn [rr_User rr_Type rr_Group rr_Attributes rr_CallerID] in H. rewrite E in H.
  destruct H as (e & d' & H1 & _ & H2). by exists e, d'.
Defined.

(** (C36) The caller's identity plays no part in registration: whatever
    certificate authenticated the request (its identity is in the [__eid__]
    header), a body that names no caller skips the registrar check, and the
    user is registered with whatever type and attributes it asks for, the
    right to register or revoke included. *)
Theorem register_without_caller h CFG fuel r d user group userType attrs :
  Method r = "POST" -> body_err r = None ->
  body r = json_print (RegisterRequest_json (mkRegisterRequest user group userType attrs "")) ->
  db_inv d -> letters_within fuel d ->
  group_ok (db_view d) userType group = true -> rv_users (db_view d) !! user = None ->
  exists tok d', NewRegisterHandler CFG (accessor_registry (Accessor.mkAccessor (Some h)))
        (db_RandomString fuel) r d = (Ok (SendResponse (bytes_json (bytes_of_string tok))), d')
    /\ rv_users (db_view d') !! user
       = Some (mkUserView (mkUserInfo user tok userType group attrs) 0 (MaxEnrollments CFG)).
Proof.
  intros Hm He Hb Hd Hl Hg Hu.
  destruct (register_handler_run h CFG fuel r d _ Hm He Hb Hd Hl) as (tok & _ & Hrun).
  cbn [rr_User rr_Type rr_Group rr_Attributes rr_CallerID] in Hrun.
  unfold spec_register in Hrun. cbn [ui_Type ui_Group ui_Name] in Hrun.
  rewrite Hg, bool_decide_true in Hrun by done.
  assert (may_register (db_view d) "" userType = true) as Hmay by reflexivity.
  rewrite Hmay in Hrun. simpl in Hrun.
  destruct Hrun as (d' & Hrun & _ & Hv). exists tok, d'. split; [done|].
  rewrite Hv. apply lookup_insert_eq.
Qed.

Lemma register_without_caller_witness :
  exists tok d', NewRegisterHandler newConfig (accessor_registry (Accessor.mkAccessor (Some sqlite3)))
      (db_RandomString 12)
      (register_body (mkRegisterRequest "eve" "" "auditor" [mkAttribute "hf.Revoker" "true"] "")) sample_db
    = (Ok (SendResponse (bytes_json (bytes_of_string tok))), d')
  /\ rv_users (db_view d') !! "eve"
     = Some (mkUserView (mkUserInfo "eve" tok "auditor" "" [mkAttribute "hf.Revoker" "true"]) 0 0).
Proof.
  apply (register_without_caller sqlite3 newConfig 12
    (register_body (mkRegisterRequest "eve" "" "auditor" [mkAttribute "hf.Revoker" "true"] "")) sample_db
    "eve" "" "auditor" [mkAttribute "hf.Revoker" "true"]);
    [reflexivity|reflexivity|reflexivity|apply sample_db_inv|vm_compute; lia|reflexivity|reflexivity].
Defined.

(** ** Enrollment over HTTP *)

Section enroll.
Context (C : Crypto) (a : CertDBAccessor.CertDBAccessor) (h : DBHandle).
Context {SR : Type} (zero : SR) (dec : decoder SR) (issue : SR -> outcome (bytes * CertificateRecord)).
Hypothesis Ha : CertDBAccessor.db a = Some h.

Definition stored (id : string) (cr : CertificateRecord) : CertRecord :=
  mkCertRecord id (mkCertificateRecord (cr_Serial cr) (cr_AKI cr) (cr_CALabel cr) (cr_Status cr)
    (cr_Reason cr) (cr_Expiry cr) (cr_RevokedAt cr) (cr_PEM cr)).

Lemma InsertCertificate_run d cr id :
  faults d = [] -> GetEnrollmentIDFromPEM C (bytes_of_string (cr_PEM cr)) = Ok id ->
  existsb (has_cert (cr_Serial cr) (cr_AKI cr)) (certificates d) = false ->
  CertDBAccessor.InsertCertificate C a cr d
    = (Ok tt, set_certificates (certificates d ++ [stored id cr]) d).
Proof.
  intros Hf Hid Hk. unfold CertDBAccessor.InsertCertificate, CertDBAccessor.checkDB. rewrite Ha, Hid.
  unfold mbind, comp_bind, CertDBAccessor.exec_insert. simpl. rewrite statement_nofault by done.
  simpl. by rewrite Hk.
Qed.

Lemma signHandler_run endpoint r d req cert cr id :
  Method r = "POST" -> body_err r = None -> json_Unmarshal dec (body r) zero = (req, None) ->
  issue req = Ok (cert, cr) -> faults d = [] ->
  GetEnrollmentIDFromPEM C (bytes_of_string (cr_PEM cr)) = Ok id ->
  existsb (has_cert (cr_Serial cr) (cr_AKI cr)) (certificates d) = false ->
  newSignHandler C (Some a) zero dec issue endpoint r d =
    (Ok (SendResponse (bytes_json cert)), set_certificates (certificates d ++ [stored id cr]) d).
Proof.
  intros Hm He Hj Hi Hf Hid Hk. unfold newSignHandler. rewrite HTTPHandler_post by done.
  unfold signHandler_Handle, ReadAll. rewrite He, bind_mret.
  unfold Unmarshal, decode. rewrite Hj.
  rewrite (bind_ok _ _ _ req d) by done.
  rewrite (bind_ok _ _ _ cert (set_certificates (certificates d ++ [stored id cr]) d)); [done|].
  unfold map_err, enrollSigner_Sign. rewrite Hi.
  rewrite (bind_ok _ _ _ (cert, cr) d) by done.
  by rewrite (bind_ok _ _ _ _ _ (InsertCertificate_run d cr id Hf Hid Hk)).
Qed.
End enroll.

(** (C37) Anyone can be issued a certificate for any identity: a request to the
    [enroll] endpoint whose authorization header is not basic credentials is
    not authenticated, the certificate CFSSL makes from its certificate
    request is stored under whatever common name it carries and is returned
    with status 200. *)
Theorem enroll_unauthenticated C CFG R checkCRL a h {SR} (zero : SR) dec issue r d req cert cr cn :
  CertDBAccessor.db a = Some h -> Authentication CFG = true ->
  authorization r <> "" -> BasicAuth r = None ->
  Method r = "POST" -> json_Unmarshal dec (body r) zero = (req, None) ->
  issue req = Ok (cert, cr) -> faults d = [] ->
  GetEnrollmentIDFromPEM C (bytes_of_string (cr_PEM cr)) = Ok cn ->
  existsb (has_cert (cr_Serial cr) (cr_AKI cr)) (certificates d) = false ->
  exists ah, NewAuthWrapper "enroll" (NewEnrollHandler C (Some a) zero dec issue) None
               = ("/api/v1/cfssl/enroll", inr ah)
    /\ ServeHTTP C CFG R checkCRL id ah r d =
       (Ok (SendResponse (bytes_json cert)), set_certificates (certificates d ++ [stored cn cr]) d).
Proof.
  intros Ha HA Hne Hb Hm Hj Hi Hf Hid Hk. eexists. split; [reflexivity|].
  unfold ServeHTTP, serveHTTP. rewrite HA. cbn [negb]. rewrite bool_decide_false by done.
  change (BasicAuth (HTTPRequestToString r).2) with (BasicAuth r). rewrite Hb. cbn [token].
  unfold id at 1. rewrite (bind_attempt_ok _ _ _ (set_Body (body r) r) d) by done. cbn [next].
  by apply (signHandler_run C a h zero dec issue Ha "enroll" (set_Body (body r) r) d req cert cr cn).
Qed.

(** A certificate authority that certifies the identity named in the body. *)
Definition toy_sign_dec : decoder string := dec_struct [("certificate_request", dec_str (fun s _ => s))].

Definition toy_issue (req : string) : outcome (bytes * CertificateRecord) :=
  Ok ([x01], mkCertificateRecord "77" "aki" "" "good" 0 50 0 (string_of_bytes [x01])).

Lemma enroll_unauthenticated_witness :
  exists ah, NewAuthWrapper "enroll" (NewEnrollHandler toy_crypto
      (Some (CertDBAccessor.NewCertDBAccessor (Some sqlite3))) "" toy_sign_dec toy_issue) None
      = ("/api/v1/cfssl/enroll", inr ah)
    /\ ServeHTTP toy_crypto newConfig (accessor_registry (Accessor.mkAccessor (Some sqlite3)))
         (fun _ _ => (false, true)) id ah
         (mkRequest "POST" "/api/v1/cfssl/enroll" "anything" ""
            (json_print (JObj [("certificate_request", JStr "CSR")])) None) sample_db
       = (Ok (SendResponse (bytes_json [x01])),
          set_certificates [mkCertRecord "admin" (mkCertificateRecord "77" "aki" "" "good" 0 50 0
                                                    (string_of_bytes [x01]))] sample_db).
Proof.
  exact (enroll_unauthenticated toy_crypto newConfig
    (accessor_registry (Accessor.mkAccessor (Some sqlite3))) (fun _ _ => (false, true))
    (CertDBAccessor.NewCertDBAccessor (Some sqlite3)) sqlite3 "" toy_sign_dec toy_issue
    (mkRequest "POST" "/api/v1/cfssl/enroll" "anything" ""
       (json_print (JObj [("certificate_request", JStr "CSR")])) None) sample_db "CSR" [x01]
    (mkCertificateRecord "77" "aki" "" "good" 0 50 0 (string_of_bytes [x01])) "admin"
    eq_refl eq_refl ltac:(done) eq_refl eq_refl eq_refl eq_refl eq_refl eq_refl eq_refl).
Defined.

(** ** Revocation over HTTP *)

(** What the user registry says of a caller's attribute. *)
Definition view_attr (V : RegistryView) (user attr : string) : string :=
  match rv_users V !! user with
  | Some v => default "" (attr_map (ui_Attributes (uv_info v)) !! attr)
  | None => ""
  end.

Section revoke.
Context (C : Crypto) (h : DBHandle).
Let R := accessor_registry (Accessor.mkAccessor (Some h)).
Let a := CertDBAccessor.NewCertDBAccessor (Some h).

Lemma userHasAttribute_run d u attr :
  db_inv d ->
  if bool_decide (view_attr (db_view d) u attr = "")
  then exists e, userHasAttribute R u attr d = (Err e, d)
  else userHasAttribute R u attr d = (Ok tt, d).
Proof.
  intros Hd. unfold userHasAttribute, getUserAttrValue, view_attr.
  destruct (rv_users (db_view d) !! u) as [v|] eqn:E.
  - destruct (@law_GetUser_found _ R (accessor_laws h) d u [attr] v Hd E) as (x & Hx & _ & _ & Hattr).
    unfold mbind, comp_bind. rewrite Hx. simpl. rewrite Hattr. case_bool_decide; [by eexists|done].
  - rewrite bool_decide_true by done.
    destruct (@law_GetUser_missing _ R (accessor_laws h) d u [attr] Hd E) as [e He].
    exists e. unfold mbind, comp_bind. by rewrite He.
Qed.

(** Revoking a user by name: the abstract effect on both tables. *)
Lemma revoke_name_run d name reason v :
  db_inv d -> name <> "" -> rv_users (db_view d) !! name = Some v ->
  exists d', revoke_request R (Some a) (mkRevocationRequest name "" "" reason) d
               = (Ok (SendResponse (JObj [])), d')
    /\ db_inv d' /\ now d' = now d
    /\ db_view d' = mkRegistryView (<[name := set_uv_state (-1) v]> (rv_users (db_view d)))
                                   (rv_groups (db_view d))
    /\ certificates d' = update_where (CertDBAccessor.live_of name)
                           (mark_revoked (now d) reason) (certificates d).
Proof.
  intros Hd Hn Hv. unfold revoke_request. cbn [rv_Serial rv_AKI rv_Name rv_Reason].
  rewrite (bool_decide_false (name = "")) by done. simpl.
  destruct (@law_GetUser_found _ R (accessor_laws h) d name [] v Hd Hv) as (u & Hu & _).
  rewrite (bind_attempt_ok _ _ _ _ _ Hu).
  pose proof (UpdateField_state_run h d name (-1) (proj1 Hd)) as Hup.
  destruct (@law_UpdateField_state _ R (accessor_laws h) d name (-1)%Z Hd) as (d1 & Hup' & Hd1 & Hv1).
  change (UpdateField R) with (Accessor.UpdateField (Accessor.mkAccessor (Some h))) in Hup' |- *.
  rewrite Hup in Hup'. injection Hup' as <-.
  rewrite (bind_attempt_ok _ _ _ _ _ Hup).
  rewrite (bind_attempt_ok _ _ _ _ _
    (RevokeCertificatesByID_run a h (conj eq_refl eq_refl) _ name reason (proj1 Hd1))).
  eexists. split; [reflexivity|]. split; [exact Hd1|]. split; [done|]. split; [|done].
  change (db_view _) with (db_view (set_users (update_where (Accessor.has_id name)
    (Accessor.set_state (-1)) (users d)) d)) at 1.
  change (@reg_view _ R (accessor_laws h)) with db_view in Hv1. rewrite Hv1. f_equal.
  apply map_eq. intros i. destruct (decide (i = name)) as [->|Hne].
  - by rewrite lookup_alter_eq, lookup_insert_eq, Hv.
  - by rewrite lookup_alter_ne, lookup_insert_ne by done.
Qed.

(** The handler up to the revocation proper. *)
Lemma revokeHandler_run r d :
  db_inv d -> body_err r = None -> authorization r <> "" ->
  revokeHandler_Handle C R (Some a) r d =
    match VerifyToken C (authorization r) (bytes_of_string (body r)) with
    | Ok cert =>
        match userHasAttribute R (CommonName cert) "hf.Revoker" d with
        | (Ok _, _) =>
            match json_Unmarshal dec_RevocationRequest (body r) zero_RevocationRequest with
            | (req, None) => revoke_request R (Some a) req d
            | (_, Some err) => (Ok (badRequest err), d)
            end
        | (Err e, _) => (Ok (authErr e), d)
        | (Panic p, _) => (Panic p, d)
        | (Exit p, _) => (Exit p, d)
        | (OutOfFuel, _) => (OutOfFuel, d)
        end
    | Err e => (Ok (authErr e), d)
    | Panic p => (Panic p, d)
    | Exit p => (Exit p, d)
    | OutOfFuel => (OutOfFuel, d)
    end.
Proof.
  intros Hd He Hne. unfold revokeHandler_Handle, ReadAll. rewrite bool_decide_false by done.
  rewrite He. rewrite (bind_attempt_ok _ _ _ (body r) d) by done.
  destruct (VerifyToken C _ _) as [cert|e|p|p|]; try done.
  rewrite (bind_attempt_ok _ _ _ cert d) by done.
  pose proof (userHasAttribute_run d (CommonName cert) "hf.Revoker" Hd) as Hattr.
  case_bool_decide.
  - destruct Hattr as [e Ha']. rewrite (bind_attempt_err _ _ _ _ _ Ha'). by rewrite Ha'.
  - rewrite (bind_attempt_ok _ _ _ _ _ Hattr), Hattr. unfold decode.
    destruct (json_Unmarshal _ _ _) as [req [err|]].
    + by rewrite (bind_attempt_err _ _ _ err d).
    + by rewrite (bind_attempt_ok _ _ _ req d).
Qed.
End revoke.

(** (C10) Revocation is authorized: when no statement fails, a revoke request
    that changes anything in the database carries a token that verifies over
    its body, and the certificate's owner has the [hf.Revoker] attribute in
    the user registry. *)
Theorem revoke_authorized C h r d :
  db_inv d ->
  let R := accessor_registry (Accessor.mkAccessor (Some h)) in
  let a := CertDBAccessor.NewCertDBAccessor (Some h) in
  (NewRevokeHandler C R (Some a) r d).2 <> d ->
  exists cert, VerifyToken C (authorization r) (bytes_of_string (body r)) = Ok cert
    /\ view_attr (db_view d) (CommonName cert) "hf.Revoker" <> "".
Proof.
  intros Hd R a Hch. subst R a. unfold NewRevokeHandler in Hch.
  destruct (decide (Method r = "POST")) as [Hm|Hm].
  2:{ by rewrite HTTPHandler_other in Hch. }
  rewrite HTTPHandler_post in Hch by done.
  destruct (decide (authorization r = "")) as [E|Hne].
  { unfold revokeHandler_Handle in Hch. by rewrite bool_decide_true in Hch. }
  destruct (body_err r) as [e|] eqn:He.
  { unfold revokeHandler_Handle, ReadAll in Hch. rewrite bool_decide_false in Hch by done.
    by rewrite He, (bind_attempt_err _ _ _ e d) in Hch. }
  rewrite revokeHandler_run in Hch by done.
  destruct (VerifyToken C _ _) as [cert|e|p|p|]; try done.
  exists cert. split; [done|]. intros Hattr.
  pose proof (userHasAttribute_run h d (CommonName cert) "hf.Revoker" Hd) as Ha.
  rewrite bool_decide_true in Ha by done. destruct Ha as [e Ha]. by rewrite Ha in Hch.
Qed.

(** Revoking a user by name, asked by a holder of [hf.Revoker]: the answer
    is success, the user's state becomes -1, every certificate of the user is
    marked revoked and no other user or certificate changes. *)
Theorem revoke_user_spec C h r d cert name reason v :
  let R := accessor_registry (Accessor.mkAccessor (Some h)) in
  let a := CertDBAccessor.NewCertDBAccessor (Some h) in
  db_inv d -> Method r = "POST" -> body_err r = None -> authorization r <> "" ->
  VerifyToken C (authorization r) (bytes_of_string (body r)) = Ok cert ->
  view_attr (db_view d) (CommonName cert) "hf.Revoker" <> "" ->
  json_Unmarshal dec_RevocationRequest (body r) zero_RevocationRequest
    = (mkRevocationRequest name "" "" reason, None) ->
  name <> "" -> rv_users (db_view d) !! name = Some v ->
  exists d', NewRevokeHandler C R (Some a) r d = (Ok (SendResponse (JObj [])), d')
    /\ db_inv d'
    /\ db_view d' = mkRegistryView (<[name := set_uv_state (-1) v]> (rv_users (db_view d)))
                                   (rv_groups (db_view d))
    /\ certificates d' = update_where (CertDBAccessor.live_of name)
                           (mark_revoked (now d) reason) (certificates d).
Proof.
  intros R a Hd Hm He Hne Hv Hattr Hj Hn Hu. subst R a. unfold NewRevokeHandler.
  rewrite HTTPHandler_post, revokeHandler_run by done. rewrite Hv, Hj.
  pose proof (userHasAttribute_run h d (CommonName cert) "hf.Revoker" Hd) as Ha.
  rewrite bool_decide_false in Ha by done. rewrite Ha.
  destruct (revoke_name_run h d name reason v Hd Hn Hu) as (d' & Hr & Hi & _ & Hvw & Hc).
  exists d'. rewrite Hr. done.
Qed.

(** Revoking a user does not stop the user logging in; it gives a user who
    had used up the enrollments a new one: the state -1 written by the revoke
    handler is below every limit. *)
Theorem revoked_user_can_login h d name reason v :
  let R := accessor_registry (Accessor.mkAccessor (Some h)) in
  let a := CertDBAccessor.NewCertDBAccessor (Some h) in
  db_inv d -> name <> "" -> rv_users (db_view d) !! name = Some v ->
  (0 < uv_max v <= uv_state v)%Z ->
  spec_login v (ui_Pass (uv_info v)) = None
  /\ exists d', revoke_request R (Some a) (mkRevocationRequest name "" "" reason) d
                  = (Ok (SendResponse (JObj [])), d')
     /\ exists v1, rv_users (db_view d') !! name = Some v1
          /\ spec_login v1 (ui_Pass (uv_info v)) = Some (set_uv_state 0 v).
Proof.
  intros R a Hd Hn Hv Hmax. split.
  - unfold spec_login. rewrite bool_decide_true by done. simpl.
    rewrite (proj2 (Z.ltb_ge _ _)), (proj2 (Z.eqb_neq _ _)), Z.geb_leb, (proj2 (Z.leb_le _ _)) by lia.
    done.
  - destruct (revoke_name_run h d name reason v Hd Hn Hv) as (d' & Hr & _ & _ & Hvw & _).
    exists d'. split; [exact Hr|]. exists (set_uv_state (-1) v). rewrite Hvw.
    split; [apply lookup_insert_eq|].
    unfold spec_login. simpl. rewrite bool_decide_true by done. simpl.
    rewrite (proj2 (Z.ltb_ge _ _)), Z.geb_leb, (proj2 (Z.leb_gt _ _)) by lia.
    by rewrite andb_false_r.
Qed.

(** Token authentication does not consult the certificate table: after all
    certificates of an identity have been marked revoked, a token made with
    one of them is still accepted, as long as no revocation list names it. *)
Theorem revoked_cert_still_authenticates {W} C CFG R checkCRL hd (hnd : Request -> comp W Response) r d r' id reason :
  let a := CertDBAccessor.NewCertDBAccessor (Some hd) in
  Authentication CFG = true -> faults d = [] ->
  serveHTTP C CFG R checkCRL (mkCopAuthHandler false true hnd) r d = (Ok r', d) ->
  exists crs d', CertDBAccessor.RevokeCertificatesByID a id reason d = (Ok crs, d')
    /\ (forall c, c ∈ certificates d' -> c_ID c = id -> is_revoked c = true)
    /\ serveHTTP C CFG R checkCRL (mkCopAuthHandler false true hnd) r d' = (Ok r', d').
Proof.
  intros a HA Hf Hrun. eexists _, _. split; [by apply (RevokeCertificatesByID_run a hd)|]. split.
  - intros c. apply live_revoked.
  - by apply (token_auth_db _ _ _ _ _ _ d).
Qed.

(** The server of the revocation witnesses: a revoker, and a user who has
    used up three enrollments. *)
Definition revoke_db : DB :=
  mkDB [Accessor.new_record (mkUserInfo "admin" "adminpw" "client" "bank_a" [mkAttribute "hf.Revoker" "true"]);
        Accessor.set_state 3 (Accessor.set_max 3
          (Accessor.new_record (mkUserInfo "bob" "bobpw" "peer" "bank_a" [])))]
       [mkGroupRecord "bank_a" "banks" None]
       [mkCertRecord "bob" (sample_cert "1"); mkCertRecord "admin" (sample_cert "2")] 9 (fun _ => 0%Z) 0 [].

Lemma revoke_db_inv : db_inv revoke_db.
Proof. split; [done|]. split; apply (bool_decide_unpack _); vm_compute; exact I. Qed.

Definition token_over (b : string) : string :=
  match CreateToken toy_crypto [x01] [x09] (bytes_of_string b) with Ok t => t | _ => "" end.

Definition revoke_bob : string := json_print (JObj [("id", JStr "bob")]).

Definition revoke_req : Request :=
  mkRequest "POST" "/api/v1/cfssl/revoke" (token_over revoke_bob) "" revoke_bob None.

Definition bob_view : UserView := mkUserView (mkUserInfo "bob" "bobpw" "peer" "bank_a" []) 3 3.

Lemma revoke_authorized_witness :
  exists cert, VerifyToken toy_crypto (token_over revoke_bob) (bytes_of_string revoke_bob) = Ok cert
    /\ view_attr (db_view revoke_db) (CommonName cert) "hf.Revoker" <> "".
Proof.
  apply (revoke_authorized toy_crypto sqlite3 revoke_req revoke_db revoke_db_inv).
  intros H. apply (f_equal (fun d => map ur_State (users d))) in H. vm_compute in H. discriminate H.
Defined.

Lemma revoke_user_spec_witness :
  exists d', NewRevokeHandler toy_crypto (accessor_registry (Accessor.mkAccessor (Some sqlite3)))
      (Some (CertDBAccessor.NewCertDBAccessor (Some sqlite3))) revoke_req revoke_db
    = (Ok (SendResponse (JObj [])), d')
    /\ map is_revoked (certificates d') = [true; false].
Proof.
  destruct (revoke_user_spec toy_crypto sqlite3 revoke_req revoke_db (toy_cert (RSAKey 7)) "bob" 0 bob_view
    revoke_db_inv eq_refl eq_refl ltac:(vm_compute; discriminate) ltac:(vm_compute; reflexivity)
    ltac:(vm_compute; discriminate) ltac:(vm_compute; reflexivity) ltac:(done) ltac:(vm_compute; reflexivity))
    as (d' & H1 & _ & _ & H2).
  exists d'. split; [exact H1|]. rewrite H2. vm_compute. reflexivity.
Defined.

Lemma revoked_user_can_login_witness :
  exists d' v1, revoke_request (accessor_registry (Accessor.mkAccessor (Some sqlite3)))
      (Some (CertDBAccessor.NewCertDBAccessor (Some sqlite3))) (mkRevocationRequest "bob" "" "" 1) revoke_db
    = (Ok (SendResponse (JObj [])), d')
    /\ rv_users (db_view d') !! "bob" = Some v1 /\ spec_login v1 "bobpw" = Some (set_uv_state 0 bob_view).
Proof.
  destruct (revoked_user_can_login sqlite3 revoke_db "bob" 1 bob_view revoke_db_inv ltac:(done)
    ltac:(vm_compute; reflexivity) ltac:(simpl; lia)) as (_ & d' & H1 & v1 & H2 & H3).
  by exists d', v1.
Defined.

Lemma revoked_cert_still_authenticates_witness :
  exists crs d' r', CertDBAccessor.RevokeCertificatesByID
      (CertDBAccessor.NewCertDBAccessor (Some sqlite3)) "admin" 1 revoke_db = (Ok crs, d')
    /\ (forall c, c ∈ certificates d' -> c_ID c = "admin" -> is_revoked c = true)
    /\ serveHTTP toy_crypto newConfig (accessor_registry (Accessor.mkAccessor (Some sqlite3)))
         (fun _ _ => (false, true)) (mkCopAuthHandler false true (fun _ => mret (mkResponse 200 "") : comp DB Response))
         revoke_req d' = (Ok r', d').
Proof.
  destruct (revoked_cert_still_authenticates toy_crypto newConfig
    (accessor_registry (Accessor.mkAccessor (Some sqlite3))) (fun _ _ => (false, true)) sqlite3
    (fun _ => mret (mkResponse 200 "") : comp DB Response) revoke_req revoke_db (set_eid "admin" revoke_req) "admin" 1
    eq_refl eq_refl ltac:(vm_compute; reflexivity)) as (crs & d' & H1 & H2 & H3).
  by exists crs, d', (set_eid "admin" revoke_req).
Defined.
