(* ===== verification/DbUtil.v ===== *)
(** * Opening the database and choosing the registry (src/cli/server: dbutil/dbutil.go, factory.go, server.go)

    What happens when the server starts: the user registry is the LDAP client
    when LDAP is configured, otherwise the database, which is created and
    bootstrapped when it is taken not to exist.  The machine's state is what
    the drivers see of it: the databases that exist, each found by its driver
    and its name and with the tables that were created in it and their rows,
    and the failures of the next driver calls.  Which database a data source
    names, and which names can stand in a statement, are the drivers' matter
    and fields of the machine.  A handle stands for the database its data
    source names, whether it exists or not: a statement on a table that is not
    there fails. *)

From S2P Require Import Prelude GoStrings GoFmt GoJson CopError Base64 Http Registry GoUrl GoUnmarshal Token Database DbAccessor CertDB Util Config Register Bootstrap Auth Handlers Ldap.

#[local] Arguments String.append !_ _ : simpl nomatch.

(** ** Names and connection strings

    The three regular expressions of dbutil.go, each as a scan from the left. *)

Fixpoint span (p : ascii -> bool) (s : string) : string * string :=
  match s with
  | EmptyString => ("", "")
  | String c s' => if p c then let '(a, b) := span p s' in (String c a, b) else ("", s)
  end.

Fixpoint strip (p s : string) : option string :=
  match p, s with
  | EmptyString, _ => Some s
  | String c p', String d s' => if bool_decide (c = d) then strip p' s' else None
  | _, EmptyString => None
  end.

(** [[^\/?]] and [[^\s]]. *)
Definition name_char (c : ascii) : bool := negb (bool_decide (c = "/"%char)) && negb (bool_decide (c = "?"%char)).
Definition not_space (c : ascii) : bool :=
  let n := Ascii.nat_of_ascii c in
  negb ((n =? 9)%nat || (n =? 10)%nat || (n =? 12)%nat || (n =? 13)%nat || (n =? 32)%nat).

(** The first match of [(?:\/([^\/?]+))|(?:dbname=([^\s]+))], the group of the
    alternative that matched. *)
Fixpoint find_name (s : string) : string :=
  match s with
  | EmptyString => ""
  | String c s' =>
      let slash := if bool_decide (c = "/"%char) then (span name_char s').1 else "" in
      if negb (bool_decide (slash = "")) then slash
      else match strip "dbname=" s with
           | Some r => let n := (span not_space r).1 in
                       if negb (bool_decide (n = "")) then n else find_name s'
           | None => find_name s'
           end
  end.

Definition getDBName (datasource : string) : string := find_name (ToLower datasource).

(** [ReplaceAllString] of [(dbname=)([^\s]+)] by nothing: [skip] counts the
    characters of the current match that are still to be dropped. *)
Fixpoint remove_dbname (skip : nat) (s : string) : string :=
  match s with
  | EmptyString => ""
  | String c s' =>
      match skip with
      | S k => remove_dbname k s'
      | O =>
          match strip "dbname=" s with
          | Some r => let n := String.length (span not_space r).1 in
                      if (0 <? n)%nat then remove_dbname (6 + n) s' else String c (remove_dbname 0 s')
          | None => String c (remove_dbname 0 s')
          end
      end
  end.

Definition getConnStr (datasource : string) : string := remove_dbname 0 datasource.

(** [ReplaceAllString] of [\/([a-zA-z]+)] by ["/"] in [NewUserRegistryMySQL];
    the range A-z holds the six characters between Z and a, but no digit. *)
Definition az_char (c : ascii) : bool :=
  let n := Ascii.nat_of_ascii c in (65 <=? n)%nat && (n <=? 122)%nat.

Fixpoint strip_schema (skip : nat) (s : string) : string :=
  match s with
  | EmptyString => ""
  | String c s' =>
      match skip with
      | S k => strip_schema k s'
      | O => String c (strip_schema (if bool_decide (c = "/"%char) then String.length (span az_char s').1 else 0) s')
      end
  end.

(** ** The machine *)

Definition all_tables : list string := ["users"; "groups"; "certificates"].

(** A SQLite file, or a database of a server: the tables it has and their
    rows. *)
Record Store := mkStore { st_tables : list string; st_db : DB }.

(** What the drivers see: the stores, by driver and name; the store that a
    driver takes a data source to name, and the names it takes without quotes
    in [CREATE DATABASE] (both decided by the driver and its server); the
    contents of a new store; a reason for which [os.Stat] fails; and the
    failures of the next driver calls. *)
Record Machine := mkMachine {
  m_stores : gmap (string * string) Store;
  m_database : string -> string -> string;
  m_identifier : string -> string -> bool;
  m_fresh : DB;
  m_stat_err : option string;
  m_faults : list (option string)
}.

Definition set_m_stores l m := mkMachine l (m_database m) (m_identifier m) (m_fresh m) (m_stat_err m) (m_faults m).
Definition set_m_fresh d m := mkMachine (m_stores m) (m_database m) (m_identifier m) d (m_stat_err m) (m_faults m).
Definition set_m_faults l m := mkMachine (m_stores m) (m_database m) (m_identifier m) (m_fresh m) (m_stat_err m) l.

(** One driver call: a pending failure, or its effect. *)
Definition call {A} (f : Machine -> outcome A * Machine) : comp Machine A := fun m =>
  match m_faults m with
  | Some msg :: fs => (Err (ErrPlain msg), set_m_faults fs m)
  | None :: fs => f (set_m_faults fs m)
  | [] => f m
  end.

(** [sqlx.Open]: no connection is made yet. *)
Definition opened (m : Machine) (driver dsn : string) : DBHandle := mkDBHandle driver (m_database m driver dsn).

Definition sql_Open (driver dsn : string) : comp Machine DBHandle := call (fun m => (Ok (opened m driver dsn), m)).

Definition store_key (h : DBHandle) : string * string := (driverName h, databaseName h).

(** Whether a connection can be made: SQLite makes its file, and a connection
    to MySQL may be to no database. *)
Definition connects (h : DBHandle) (m : Machine) : bool :=
  bool_decide (driverName h = "sqlite3")
  || bool_decide (driverName h = "mysql") && bool_decide (databaseName h = "")
  || bool_decide (is_Some (m_stores m !! store_key h)).

Definition unknown_database (h : DBHandle) : error := NewErr ("unknown database " +:+ databaseName h).

(** A call through a connection. *)
Definition through {A} (h : DBHandle) (f : Machine -> outcome A * Machine) : comp Machine A := call (fun m =>
  if connects h m then f m else (Err (unknown_database h), m)).

Definition Ping (h : DBHandle) : comp Machine unit := through h (fun m => (Ok tt, m)).

Definition add_table (t : string) (st : Store) : Store := mkStore (st_tables st ++ [t]) (st_db st).

(** [CREATE TABLE t]. *)
Definition create_table (h : DBHandle) (t : string) : comp Machine unit := through h (fun m =>
  match m_stores m !! store_key h with
  | None => (Err (unknown_database h), m)
  | Some st =>
      if bool_decide (t ∈ st_tables st) then (Err (NewErr ("relation " +:+ t +:+ " already exists")), m)
      else (Ok tt, set_m_stores (<[store_key h := add_table t st]> (m_stores m)) m)
  end).

(** [CREATE TABLE IF NOT EXISTS t] through SQLite, which creates the file. *)
Definition create_table_sqlite (h : DBHandle) (t : string) : comp Machine unit := through h (fun m =>
  let st := default (mkStore [] (m_fresh m)) (m_stores m !! store_key h) in
  (Ok tt, set_m_stores (<[store_key h := if bool_decide (t ∈ st_tables st) then st else add_table t st]> (m_stores m)) m)).

(** Whether the server behind a connection has the database [n]. *)
Definition database_exists (h : DBHandle) (n : string) : comp Machine bool := through h (fun m =>
  (Ok (bool_decide (is_Some (m_stores m !! (driverName h, n)))), m)).

(** [CREATE DATABASE n]. *)
Definition create_database (h : DBHandle) (n : string) : comp Machine unit := through h (fun m =>
  if negb (m_identifier m (driverName h) n) then (Err (NewErr ("syntax error at or near " +:+ n)), m)
  else match m_stores m !! (driverName h, n) with
       | Some _ => (Err (NewErr ("database " +:+ n +:+ " already exists")), m)
       | None => (Ok tt, set_m_stores (<[(driverName h, n) := mkStore [] (m_fresh m)]> (m_stores m)) m)
       end).

(** What the statements through a handle meet: the rows of its store, with
    the failures that its missing tables make; all the tables are missing when
    the store is. *)
Definition missing (st : Store) : list string :=
  List.filter (fun t => negb (bool_decide (t ∈ st_tables st))) all_tables.

Definition content (h : DBHandle) (m : Machine) : DB :=
  match m_stores m !! store_key h with
  | Some st => match missing st with [] => st_db st | ts => set_faults [Gone ts] (st_db st) end
  | None => set_faults [Gone all_tables] (m_fresh m)
  end.

Definition put_content (h : DBHandle) (d : DB) (m : Machine) : Machine :=
  match m_stores m !! store_key h with
  | Some st =>
      let d := match missing st with [] => d | _ => set_faults (faults (st_db st)) d end in
      set_m_stores (<[store_key h := mkStore (st_tables st) d]> (m_stores m)) m
  | None => set_m_fresh (set_faults (faults (m_fresh m)) d) m
  end.

(** Statements of the accessors through a handle. *)
Definition on_db {A} (h : DBHandle) (f : comp DB A) : comp Machine A := fun m =>
  let '(o, d) := f (content h m) in (o, put_content h d m).

(** ** SQLite *)

Definition createSQLiteDBTables (datasource : string) : comp Machine unit :=
  db ← map_err (fun err => wrapped err DatabaseError "Failed to connect to database" []) (sql_Open "sqlite3" datasource);
  _ ← create_table_sqlite db "users";
  _ ← create_table_sqlite db "groups";
  create_table_sqlite db "certificates".

Inductive stat_result := StatOK | StatNotExist | StatErr.

(** [os.Stat] of a SQLite file. *)
Definition os_Stat (file : string) : comp Machine stat_result := gets (fun m =>
  if m_stat_err m then StatErr
  else if m_stores m !! ("sqlite3", file) then StatOK else StatNotExist).

(** [util.FileExists]: a file that cannot be examined is taken to exist. *)
Definition FileExists {S} (stat : string -> comp S stat_result) (name : string) : comp S bool :=
  st ← stat name;
  mret (match st with StatNotExist => false | _ => true end).

(** [util.GetDB]. *)
Definition GetDB (driver dbPath : string) : comp Machine DBHandle := sql_Open driver dbPath.

(** [NewUserRegistrySQLLite3]: [exists] is set only where the file cannot be
    examined. *)
Definition NewUserRegistrySQLLite3 (datasource : string) : comp Machine (DBHandle * bool) :=
  let datasource := path_Join [datasource] in
  exists_ ← (if negb (bool_decide (datasource = "")) then
               st ← os_Stat datasource;
               match st with
               | StatOK => mret false
               | StatNotExist => _ ← createSQLiteDBTables datasource; mret false
               | StatErr => mret true
               end
             else mret false);
  db ← sql_Open "sqlite3" datasource;
  mret (db, exists_).

(** ** Postgres *)

Definition createPostgresDBTables (datasource dbName : string) (db : DBHandle) : comp Machine unit :=
  _ ← map_err (fun err => wrapped err DatabaseError "Failed to create Postgres database" []) (create_database db dbName);
  r ← attempt (sql_Open "postgres" datasource);
  match r with
  | inl _ => lift (Panic nil_deref)
  | inr database =>
      _ ← create_table database "users";
      _ ← create_table database "groups";
      create_table database "certificates"
  end.

(** The connection string with the client's TLS files. *)
Definition postgres_connStr (datasource : string) (tls : ClientTLSConfig) : string :=
  let connStr := getConnStr datasource in
  let connStr := match CACertFiles tls with
                 | root :: _ => Sprintf "%s sslrootcert=%s" [FStr connStr; FStr root]
                 | [] => connStr
                 end in
  Sprintf "%s sslcert=%s sslkey=%s" [FStr connStr; FStr (CertFile (tls_Client tls)); FStr (KeyFile (tls_Client tls))].

(** [NewUserRegistryPostgres]: a failing query wraps the nil error of the ping
    before it.  The handle returned is opened on the data source as it was
    given. *)
Definition NewUserRegistryPostgres (datasource : string) (tls : ClientTLSConfig) : comp Machine (DBHandle * bool) :=
  let dbName := getDBName datasource in
  let connStr := postgres_connStr datasource tls in
  db ← map_err (fun err => wrapped err DatabaseError "Failed to open database" []) (sql_Open "postgres" connStr);
  _ ← Ping db;
  r ← attempt (database_exists db dbName);
  match r with
  | inl _ => e ← lift (WrapError None DatabaseError "Failed to query 'pg_database' table" []); fail e
  | inr found =>
      exists_ ← (if negb found then
                   _ ← createPostgresDBTables (connStr +:+ " dbname=" +:+ dbName) dbName db; mret false
                 else mret true);
      db ← sql_Open "postgres" datasource;
      mret (db, exists_)
  end.

(** ** MySQL *)

Definition createMySQLTables (datasource dbName : string) (db : DBHandle) : comp Machine unit :=
  r ← attempt (create_database db dbName);
  match r with
  | inl err => lift (Panic (Error err))
  | inr _ =>
      r ← attempt (sql_Open "mysql" datasource);
      match r with
      | inl _ => lift (Panic nil_deref)
      | inr database =>
          _ ← create_table database "users";
          _ ← create_table database "groups";
          create_table database "certificates"
      end
  end.

(** [NewUserRegistryMySQL]: a failing ping is only logged, and so is a failure
    to create the tables.  (Registering the TLS configuration with the driver
    cannot fail the call and is left out.) *)
Definition NewUserRegistryMySQL (datasource : string) (tls : ClientTLSConfig) : comp Machine (DBHandle * bool) :=
  let dbName := getDBName datasource in
  let connStr := strip_schema 0 datasource in
  db ← map_err (fun err => wrapped err DatabaseError "Failed to open database" []) (sql_Open "mysql" connStr);
  _ ← attempt (Ping db);
  found ← map_err (fun err => wrapped err DatabaseError "Failed to query 'INFORMATION_SCHEMA.SCHEMATA table" [])
            (database_exists db dbName);
  let name := if (found : bool) then dbName else "" in
  exists_ ← (if bool_decide (name = "") then _ ← attempt (createMySQLTables datasource dbName db); mret false
             else mret true);
  db ← sql_Open "mysql" datasource;
  mret (db, exists_).

(** ** factory.go *)

Inductive Registry_t := RegistryLDAP (lc : LDAP.Client) | RegistryDB (db : DBHandle).

Section InitUserRegistry.
Context (fuel : nat) (configFile : string) (GetStringMapString GetStringSlice : string -> list string).

(** [InitUserRegistry]: the registry it installs. *)
Definition InitUserRegistry (cfg : Config) : comp Machine Registry_t :=
  match LDAP cfg with
  | Some l => lc ← lift (LDAP.NewClient (Some l)); mret (RegistryLDAP lc)
  | None =>
      '(db, exists_) ←
        (if bool_decide (DBdriver cfg = "sqlite3") then NewUserRegistrySQLLite3 (DataSource cfg)
         else if bool_decide (DBdriver cfg = "postgres")
         then NewUserRegistryPostgres (DataSource cfg) (DBClient (TLSConf cfg))
         else if bool_decide (DBdriver cfg = "mysql")
         then NewUserRegistryMySQL (DataSource cfg) (DBClient (TLSConf cfg))
         else fail (Errorf "invalid 'DBDriver' in config file: %s" [FStr (DBdriver cfg)]));
      if negb exists_ then
        _ ← on_db db (db_bootstrap db cfg fuel configFile GetStringMapString GetStringSlice);
        mret (RegistryDB db)
      else mret (RegistryDB db)
  end.
End InitUserRegistry.

(** [InitCertificateAccessor]. *)
Definition InitCertificateAccessor (db : DBHandle) : CertDBAccessor.CertDBAccessor :=
  CertDBAccessor.NewCertDBAccessor (Some db).

(** [Server.CreateHome]: the directory, made unless it is there; a failure to
    examine it is ignored. *)
Definition CreateHome {S} (getenv : string -> string) (stat : string -> comp S stat_result)
    (MkdirAll : string -> comp S unit) : comp S string :=
  let home := getenv "COP_HOME" in
  let home := if bool_decide (home = "") then
                let home := getenv "HOME" in
                if negb (bool_decide (home = "")) then home +:+ "/.cop" else home
              else home in
  let home := if bool_decide (home = "") then "/var/hyperledger/fabric/dev/.fabric-cop" else home in
  st ← stat home;
  match st with
  | StatNotExist => _ ← MkdirAll home; mret home
  | _ => mret home
  end.

(** ** Data sources *)

Lemma span_all p s : all_chars p s = true -> span p s = (s, "").
Proof. induction s as [|c s IH]; simpl; [done|]. intros [-> Hs]%andb_prop. by rewrite IH. Qed.

Lemma span_stop p s c r : all_chars p s = true -> p c = false -> span p (s +:+ String c r) = (s, String c r).
Proof. intros Hs Hc. induction s as [|d s IH]; simpl in *; [by rewrite Hc|]. apply andb_prop in Hs as [-> Hs]. by rewrite IH. Qed.

Lemma ToLower_app s t : ToLower (s +:+ t) = ToLower s +:+ ToLower t.
Proof. induction s as [|c s IH]; simpl; [done|]. by rewrite IH. Qed.

Lemma ToLower_spaces s : all_chars not_space s = true -> all_chars not_space (ToLower s) = true.
Proof.
  induction s as [|c s IH]; [done|]. simpl. intros [Hc Hs]%andb_prop. rewrite IH by done. rewrite andb_true_r.
  revert Hc. destruct c as [[] [] [] [] [] [] [] []]; vm_compute; congruence.
Qed.

(** No [dbname=] anywhere in the text. *)
Fixpoint no_dbname (s : string) : bool :=
  match s with
  | EmptyString => true
  | String _ s' => (match strip "dbname=" s with Some _ => false | None => true end) && no_dbname s'
  end.

(** A match that would have to run over a space does not exist. *)
Lemma strip_space p s t :
  Contains p " " = false -> p <> "" -> strip p s = None -> strip p (s +:+ String " " t) = None.
Proof.
  revert s. induction p as [|c p IH]; intros s Hp Hne Hs; [done|]. simpl in Hp.
  apply orb_false_elim in Hp as [Hc%bool_decide_eq_false Hp].
  destruct s as [|d s]; cbn [strip String.append] in *; [rewrite bool_decide_false; congruence|].
  case_bool_decide; [|done]. destruct (decide (p = "")) as [->|Hn]; [by destruct s|]. by apply IH.
Qed.

Lemma find_name_skip a t :
  Contains a "/" = false -> no_dbname a = true -> find_name (a +:+ String " " t) = find_name t.
Proof.
  induction a as [|c a IH]; [done|]. intros [Hc%bool_decide_eq_false Ha]%orb_false_elim.
  cbn [no_dbname]. destruct (strip "dbname=" (String c a)) eqn:Es; [done|]. intros Hn. simpl in Hn.
  cbn [String.append find_name]. rewrite (bool_decide_false (c = "/"%char)) by congruence. simpl (negb _).
  change (String c (a +:+ String " " t)) with (String c a +:+ String " " t).
  rewrite strip_space by done. by apply IH.
Qed.

Lemma remove_dbname_skip a t :
  no_dbname a = true -> remove_dbname 0 (a +:+ String " " t) = a +:+ String " " (remove_dbname 0 t).
Proof.
  induction a as [|c a IH]; [done|]. cbn [no_dbname].
  destruct (strip "dbname=" (String c a)) eqn:Es; [done|]. intros Hn. simpl in Hn.
  cbn [String.append remove_dbname].
  change (String c (a +:+ String " " t)) with (String c a +:+ String " " t).
  rewrite strip_space by done. by rewrite IH.
Qed.

Lemma remove_dbname_drop n : forall k, k = String.length n -> remove_dbname k n = "".
Proof. induction n as [|c n IH]; intros k ->; simpl; [done|]. by apply IH. Qed.

(** For a Postgres data source in key-value form that ends with the
    database, the name found is that database's, in lower case, and the
    connection string used to look for it is the data source without it. *)
Theorem postgres_datasource a n :
  ToLower a = a -> Contains a "/" = false -> no_dbname a = true ->
  all_chars not_space n = true -> n <> "" ->
  getDBName (a +:+ " dbname=" +:+ n) = ToLower n /\ getConnStr (a +:+ " dbname=" +:+ n) = a +:+ " ".
Proof.
  intros Hl Hs Hd Hn Hne. split.
  - unfold getDBName. rewrite !ToLower_app, Hl.
    change (ToLower " dbname=" +:+ ToLower n) with (String " " ("dbname=" +:+ ToLower n)).
    rewrite find_name_skip by done.
    assert (strip "dbname=" ("dbname=" +:+ ToLower n) = Some (ToLower n)) as Hst by (by destruct n).
    cbn [find_name String.append] in *. rewrite Hst, (span_all not_space) by by apply ToLower_spaces.
    rewrite (bool_decide_false ("d"%char = "/"%char)) by discriminate. simpl.
    by rewrite bool_decide_false by (by destruct n).
  - unfold getConnStr. change (" dbname=" +:+ n) with (String " " ("dbname=" +:+ n)).
    rewrite remove_dbname_skip by done. f_equal.
    assert (strip "dbname=" ("dbname=" +:+ n) = Some n) as Hst by (by destruct n).
    cbn [remove_dbname String.append] in *. rewrite Hst, span_all by done. simpl fst.
    assert ((0 <? String.length n)%nat = true) as -> by (by destruct n). cbn [Nat.add].
    f_equal. by apply remove_dbname_drop.
Qed.

Lemma postgres_datasource_witness :
  getDBName ("host=localhost port=5432" +:+ " dbname=" +:+ "COP") = "cop"
  /\ getConnStr ("host=localhost port=5432" +:+ " dbname=" +:+ "COP") = "host=localhost port=5432 ".
Proof. exact (postgres_datasource "host=localhost port=5432" "COP" eq_refl eq_refl eq_refl eq_refl ltac:(discriminate)). Defined.

Lemma strip_schema_keep s : Contains s "/" = false -> strip_schema 0 s = s.
Proof.
  induction s as [|c s IH]; [done|]. intros [Hc%bool_decide_eq_false Hs]%orb_false_elim. cbn [strip_schema].
  rewrite bool_decide_false by congruence. by rewrite IH.
Qed.

Lemma strip_schema_drop n r : strip_schema (String.length n) (n +:+ r) = strip_schema 0 r.
Proof. induction n as [|c n IH]; [done|]. simpl. apply IH. Qed.

(** Only the letters of a MySQL schema name are taken out of the data source:
    what follows them, digits included, stays in the connection string the
    server first connects with. *)
Theorem mysql_schema_rest a n c r :
  Contains a "/" = false -> all_chars az_char n = true -> az_char c = false -> Contains (String c r) "/" = false ->
  strip_schema 0 (a +:+ "/" +:+ n +:+ String c r) = a +:+ "/" +:+ String c r.
Proof.
  intros Ha Hn Hc Hr.
  assert (Hskip : forall t, strip_schema 0 (a +:+ String "/" t) = a +:+ strip_schema 0 (String "/" t)).
  { intros t. clear - Ha. induction a as [|d a IH]; [done|]. simpl in Ha.
    apply orb_false_elim in Ha as [Hd%bool_decide_eq_false Ha]. cbn [String.append strip_schema].
    rewrite bool_decide_false by congruence. by rewrite IH. }
  change ("/" +:+ n +:+ String c r) with (String "/" (n +:+ String c r)). rewrite Hskip. f_equal.
  cbn [strip_schema]. rewrite bool_decide_true by done.
  rewrite span_stop by done. simpl fst. rewrite strip_schema_drop. by rewrite strip_schema_keep.
Qed.

(** ** Starting the server *)

Definition rowless (d : DB) : Prop := users d = [] /\ groups d = [] /\ certificates d = [] /\ faults d = [].

(** The machine answers: no pending failure, files can be examined, and a new
    store has no rows. *)
Definition answers (m : Machine) : Prop := m_faults m = [] /\ m_stat_err m = None /\ rowless (m_fresh m).

Lemma rowless_inv d : rowless d -> db_inv d.
Proof. intros (Hu & Hg & _ & Hf). split; [done|]. unfold db_unique. rewrite Hu, Hg. split; apply NoDup_nil_2. Qed.

Lemma through_run {A} h (f : Machine -> outcome A * Machine) m :
  answers m -> connects h m = true -> through h f m = f m.
Proof. intros [Hf _] Hc. unfold through, call. by rewrite Hf, Hc. Qed.

Lemma sql_Open_run driver dsn m : answers m -> sql_Open driver dsn m = (Ok (opened m driver dsn), m).
Proof. intros [Hf _]. unfold sql_Open, call. by rewrite Hf. Qed.

Lemma map_err_ok {S A} f (c : comp S A) s a s' : c s = (Ok a, s') -> map_err f c s = (Ok a, s').
Proof. intros H. unfold map_err. by rewrite H. Qed.

Lemma connects_store h m st : m_stores m !! store_key h = Some st -> connects h m = true.
Proof. intros H. unfold connects. rewrite H. by rewrite orb_comm, (bool_decide_true (is_Some _)). Qed.

Lemma database_exists_run h n m :
  answers m -> connects h m = true ->
  database_exists h n m = (Ok (bool_decide (is_Some (m_stores m !! (driverName h, n)))), m).
Proof. intros Hm Hc. unfold database_exists. by rewrite through_run. Qed.

Lemma set_m_stores_twice a b m : set_m_stores b (set_m_stores a m) = set_m_stores b m.
Proof. done. Qed.

(** A new store with its three tables. *)
Definition created (k : string * string) (m : Machine) : Machine :=
  set_m_stores (<[k := mkStore all_tables (m_fresh m)]> (m_stores m)) m.

Lemma create_table_sqlite_run h t ts d m :
  answers m -> driverName h = "sqlite3" -> m_stores m !! store_key h = Some (mkStore ts d) -> t ∉ ts ->
  create_table_sqlite h t m = (Ok tt, set_m_stores (<[store_key h := mkStore (ts ++ [t]) d]> (m_stores m)) m).
Proof.
  intros Hm Hd Hs Ht. unfold create_table_sqlite. rewrite through_run by (done || by eapply connects_store).
  rewrite Hs. simpl. by rewrite bool_decide_false.
Qed.

(** A SQLite file that is not there is made with its three tables. *)
Lemma createSQLiteDBTables_run f m :
  answers m -> m_database m "sqlite3" f = f -> m_stores m !! ("sqlite3", f) = None ->
  createSQLiteDBTables f m = (Ok tt, created ("sqlite3", f) m).
Proof.
  intros Hm Hn Hs. unfold createSQLiteDBTables.
  rewrite (bind_ok _ _ _ _ _ (map_err_ok _ _ _ _ _ (sql_Open_run "sqlite3" f m Hm))).
  unfold opened. rewrite Hn. set (h := mkDBHandle "sqlite3" f). change ("sqlite3", f) with (store_key h) in *.
  set (m1 := set_m_stores (<[store_key h := mkStore ["users"] (m_fresh m)]> (m_stores m)) m).
  rewrite (bind_ok _ _ _ tt m1).
  2:{ unfold create_table_sqlite. rewrite through_run, Hs by done. reflexivity. }
  rewrite (bind_ok _ _ _ _ _ (create_table_sqlite_run h "groups" ["users"] (m_fresh m) m1 Hm eq_refl
    (lookup_insert_eq _ _ _) ltac:(set_solver))).
  rewrite (create_table_sqlite_run h "certificates" ["users"; "groups"] (m_fresh m)); [|done..| |set_solver].
  - unfold m1, created. rewrite !set_m_stores_twice. cbn [m_stores set_m_stores]. by rewrite !insert_insert_eq.
  - apply lookup_insert_eq.
Qed.

Lemma create_table_run h t ts d m :
  answers m -> m_stores m !! store_key h = Some (mkStore ts d) -> t ∉ ts ->
  create_table h t m = (Ok tt, set_m_stores (<[store_key h := mkStore (ts ++ [t]) d]> (m_stores m)) m).
Proof.
  intros Hm Hs Ht. unfold create_table. rewrite through_run by (done || by eapply connects_store).
  rewrite Hs. simpl. by rewrite bool_decide_false.
Qed.

(** The three tables, in a database that has none. *)
Lemma create_tables_run h d m :
  answers m -> m_stores m !! store_key h = Some (mkStore [] d) ->
  (_ ← create_table h "users"; _ ← create_table h "groups"; create_table h "certificates") m
  = (Ok tt, set_m_stores (<[store_key h := mkStore all_tables d]> (m_stores m)) m).
Proof.
  intros Hm Hs.
  rewrite (bind_ok _ _ _ _ _ (create_table_run h "users" [] d m Hm Hs ltac:(set_solver))).
  set (m1 := set_m_stores _ m).
  rewrite (bind_ok _ _ _ _ _ (create_table_run h "groups" ["users"] d m1 Hm (lookup_insert_eq _ _ _) ltac:(set_solver))).
  rewrite (create_table_run h "certificates" ["users"; "groups"] d); [|done|apply lookup_insert_eq|set_solver].
  unfold m1. rewrite !set_m_stores_twice. cbn [m_stores set_m_stores]. by rewrite !insert_insert_eq.
Qed.

(** Making a database and, through a data source that names it, its tables. *)
Lemma create_database_run h n m :
  answers m -> connects h m = true -> m_identifier m (driverName h) n = true -> m_stores m !! (driverName h, n) = None ->
  create_database h n m
  = (Ok tt, set_m_stores (<[(driverName h, n) := mkStore [] (m_fresh m)]> (m_stores m)) m).
Proof. intros Hm Hc Hi Hs. unfold create_database. rewrite through_run by done. by rewrite Hi, Hs. Qed.

Lemma create_tables_created h m :
  answers m ->
  (_ ← create_table h "users"; _ ← create_table h "groups"; create_table h "certificates")
    (set_m_stores (<[store_key h := mkStore [] (m_fresh m)]> (m_stores m)) m)
  = (Ok tt, created (store_key h) m).
Proof.
  intros Hm. rewrite (create_tables_run h (m_fresh m)); [|done|apply lookup_insert_eq].
  unfold created. rewrite set_m_stores_twice. cbn [m_stores set_m_stores]. by rewrite insert_insert_eq.
Qed.

(** Opening SQLite always reports a database to bootstrap; a missing file is
    created with its three tables. *)
Lemma NewUserRegistrySQLLite3_run ds m :
  let f := path_Join [ds] in
  answers m -> f <> "" -> m_database m "sqlite3" f = f ->
  NewUserRegistrySQLLite3 ds m =
    (Ok (mkDBHandle "sqlite3" f, false),
     match m_stores m !! ("sqlite3", f) with Some _ => m | None => created ("sqlite3", f) m end).
Proof.
  intros f Hm Hf Hn. unfold NewUserRegistrySQLLite3. fold f. rewrite (bool_decide_false (f = "")) by done. cbn [negb].
  destruct (m_stores m !! ("sqlite3", f)) as [st|] eqn:Es.
  - rewrite (bind_ok _ _ m false m).
    2:{ erewrite bind_ok by (unfold os_Stat, gets; by rewrite (proj1 (proj2 Hm)), Es). done. }
    rewrite (bind_ok _ _ _ _ _ (sql_Open_run "sqlite3" f m Hm)). unfold opened. by rewrite Hn.
  - rewrite (bind_ok _ _ m false (created ("sqlite3", f) m)).
    2:{ erewrite bind_ok by (unfold os_Stat, gets; by rewrite (proj1 (proj2 Hm)), Es).
        cbv beta iota. by rewrite (bind_ok _ _ _ _ _ (createSQLiteDBTables_run f m Hm Hn Es)). }
    rewrite (bind_ok _ _ _ _ _ (sql_Open_run "sqlite3" f (created ("sqlite3", f) m) Hm)). unfold opened.
    change (m_database (created _ m)) with (m_database m). by rewrite Hn.
Qed.

(** Postgres: a database that is there is used as it is; one that is not is
    created with its tables, through the connection string with the name put
    back in lower case.  The handle is on what the data source names. *)
Lemma NewUserRegistryPostgres_run ds tls m :
  let n := getDBName ds in
  let conn := postgres_connStr ds tls in
  answers m -> connects (opened m "postgres" conn) m = true -> m_identifier m "postgres" n = true ->
  m_database m "postgres" (conn +:+ " dbname=" +:+ n) = n ->
  NewUserRegistryPostgres ds tls m =
    match m_stores m !! ("postgres", n) with
    | Some _ => (Ok (opened m "postgres" ds, true), m)
    | None => (Ok (opened m "postgres" ds, false), created ("postgres", n) m)
    end.
Proof.
  intros n conn Hm Hc Hi Hn. unfold NewUserRegistryPostgres. fold n conn.
  rewrite (bind_ok _ _ _ _ _ (map_err_ok _ _ _ _ _ (sql_Open_run "postgres" _ m Hm))).
  rewrite (bind_ok _ _ m tt m) by by apply through_run.
  rewrite (bind_attempt_ok _ _ _ _ _ (database_exists_run _ n m Hm Hc)). cbn [driverName opened].
  destruct (m_stores m !! ("postgres", n)) as [st|] eqn:Es.
  - rewrite (bool_decide_true (is_Some _)) by done. cbn [negb]. rewrite bind_mret.
    by rewrite (bind_ok _ _ _ _ _ (sql_Open_run "postgres" ds m Hm)).
  - rewrite (bool_decide_false (is_Some _)) by (by intros []). cbn [negb].
    assert (createPostgresDBTables (conn +:+ " dbname=" +:+ n) n (opened m "postgres" conn) m
      = (Ok tt, created ("postgres", n) m)) as E.
    { unfold createPostgresDBTables.
      rewrite (bind_ok _ _ _ _ _ (map_err_ok _ _ _ _ _ (create_database_run _ n m Hm Hc Hi Es))).
      set (m1 := set_m_stores _ m). rewrite (bind_attempt_ok _ _ m1 _ m1 (sql_Open_run "postgres" _ m1 Hm)).
      unfold opened. change (m_database m1) with (m_database m). rewrite Hn.
      exact (create_tables_created (mkDBHandle "postgres" n) m Hm). }
    rewrite (bind_ok _ _ m false (created ("postgres", n) m)) by (by rewrite (bind_ok _ _ _ _ _ E)).
    by rewrite (bind_ok _ _ _ _ _ (sql_Open_run "postgres" ds (created ("postgres", n) m) Hm)).
Qed.

(** The same on MySQL, where the tables are made through the data source. *)
Lemma NewUserRegistryMySQL_run ds tls m :
  let n := getDBName ds in
  answers m -> n <> "" -> connects (opened m "mysql" (strip_schema 0 ds)) m = true -> m_identifier m "mysql" n = true ->
  m_database m "mysql" ds = n ->
  NewUserRegistryMySQL ds tls m =
    match m_stores m !! ("mysql", n) with
    | Some _ => (Ok (opened m "mysql" ds, true), m)
    | None => (Ok (opened m "mysql" ds, false), created ("mysql", n) m)
    end.
Proof.
  intros n Hm Hne Hc Hi Hn. unfold NewUserRegistryMySQL. fold n.
  rewrite (bind_ok _ _ _ _ _ (map_err_ok _ _ _ _ _ (sql_Open_run "mysql" _ m Hm))).
  rewrite (bind_attempt_ok _ _ m tt m) by by apply through_run.
  rewrite (bind_ok _ _ _ _ _ (map_err_ok _ _ _ _ _ (database_exists_run _ n m Hm Hc))). cbn [driverName opened].
  destruct (m_stores m !! ("mysql", n)) as [st|] eqn:Es.
  - rewrite (bool_decide_true (is_Some _)), (bool_decide_false (n = "")), bind_mret by done.
    by rewrite (bind_ok _ _ _ _ _ (sql_Open_run "mysql" ds m Hm)).
  - rewrite (bool_decide_false (is_Some _)) by (by intros []). rewrite (bool_decide_true ("" = "")) by done.
    assert (createMySQLTables ds n (opened m "mysql" (strip_schema 0 ds)) m = (Ok tt, created ("mysql", n) m)) as E.
    { unfold createMySQLTables. rewrite (bind_attempt_ok _ _ _ _ _ (create_database_run _ n m Hm Hc Hi Es)).
      set (m1 := set_m_stores _ m). cbv beta iota.
      rewrite (bind_attempt_ok _ _ m1 _ m1 (sql_Open_run "mysql" ds m1 Hm)).
      unfold opened. change (m_database m1) with (m_database m). rewrite Hn.
      exact (create_tables_created (mkDBHandle "mysql" n) m Hm). }
    rewrite (bind_ok _ _ m false (created ("mysql", n) m)) by (by rewrite (bind_attempt_ok _ _ _ _ _ E)).
    by rewrite (bind_ok _ _ _ _ _ (sql_Open_run "mysql" ds (created ("mysql", n) m) Hm)).
Qed.

Lemma missing_created d : missing (mkStore all_tables d) = [].
Proof. reflexivity. Qed.

Lemma missing_none st : missing st = [] -> forall t, t ∈ ["users"; "groups"; "certificates"] -> t ∈ st_tables st.
Proof.
  intros H t Ht. unfold missing in H.
  assert (~ In t (List.filter (fun t => negb (bool_decide (t ∈ st_tables st))) all_tables)) as Hn by (rewrite H; auto).
  rewrite filter_In in Hn. destruct (decide (t ∈ st_tables st)) as [|Hne]; [done|]. destruct Hn.
  split; [by apply list_elem_of_In|]. by rewrite bool_decide_false.
Qed.

Lemma content_complete h m st : m_stores m !! store_key h = Some st -> missing st = [] -> content h m = st_db st.
Proof. intros Hs Ht. unfold content. by rewrite Hs, Ht. Qed.

(** The rows behind a handle before the server starts: none when there is no
    store. *)
Definition stored_rows (h : DBHandle) (m : Machine) : DB := default (m_fresh m) (st_db <$> m_stores m !! store_key h).

(** SQLite can be started on: the data source is the name of a file, and a
    file that is there has the tables. *)
Definition sqlite_file (cfg : Config) : DBHandle := mkDBHandle "sqlite3" (path_Join [DataSource cfg]).

Record sqlite_ready (cfg : Config) (m : Machine) : Prop := {
  sr_ldap : LDAP cfg = None;
  sr_driver : DBdriver cfg = "sqlite3";
  sr_answers : answers m;
  sr_name : path_Join [DataSource cfg] <> "";
  sr_file : m_database m "sqlite3" (path_Join [DataSource cfg]) = path_Join [DataSource cfg];
  sr_tables : forall st, m_stores m !! store_key (sqlite_file cfg) = Some st -> missing st = [] /\ db_inv (st_db st)
}.

Section start.
Context (fuel : nat) (configFile : string) (GSM GSS : string -> list string) (cfg : Config).
Context (us : list (string * ConfigUser)).
Context (Hext : (2 <= length (Split (filepath_Base configFile) "."))%nat).
Context (Hus : Users cfg = map (fun e : string * ConfigUser => (e.1, Some e.2)) us).
Context (Hpass : Forall (fun e => cu_Pass e.2 <> "") us).

(** The registry the configuration describes, over what is in the database. *)
Definition configured (d : DB) : RegistryView :=
  spec_bootstrap (MaxEnrollments cfg) (Bootstrap.all_group_entries GSM GSS) us (db_view d).

(** [m'] is [m] with the registry the configuration describes, over the rows
    there were, in the store of [h], which has its tables. *)
Definition filled (h : DBHandle) (m m' : Machine) : Prop :=
  exists st, m' = set_m_stores (<[store_key h := st]> (m_stores m)) m /\ missing st = []
    /\ db_inv (st_db st) /\ db_view (st_db st) = configured (stored_rows h m).

Lemma on_db_bootstrap h m st :
  m_stores m !! store_key h = Some st -> missing st = [] -> db_inv (st_db st) ->
  exists m', on_db h (db_bootstrap h cfg fuel configFile GSM GSS) m = (Ok tt, m') /\ filled h m m'.
Proof.
  intros Hs Ht Hd. destruct (db_bootstrap_run h cfg fuel configFile GSM GSS us (st_db st) Hd Hext Hus Hpass)
    as (d' & E & Hd' & Hv).
  eexists. unfold on_db. rewrite (content_complete h m st Hs Ht), E. split; [reflexivity|].
  unfold put_content. rewrite Hs, Ht. exists (mkStore (st_tables st) d'). split; [done|]. split; [exact Ht|].
  split; [done|]. unfold stored_rows. by rewrite Hs.
Qed.

(** The same in a store that has just been created. *)
Lemma on_db_created h m :
  answers m -> m_stores m !! store_key h = None ->
  exists m', on_db h (db_bootstrap h cfg fuel configFile GSM GSS) (created (store_key h) m) = (Ok tt, m') /\ filled h m m'.
Proof.
  intros Hm Hs.
  destruct (on_db_bootstrap h (created (store_key h) m) (mkStore all_tables (m_fresh m)) (lookup_insert_eq _ _ _)
    (missing_created _) (rowless_inv _ (proj2 (proj2 Hm)))) as (m' & E & st & -> & Ht & Hd & Hv).
  eexists. split; [exact E|]. exists st. split.
  - unfold created. rewrite set_m_stores_twice. cbn [m_stores set_m_stores]. by rewrite insert_insert_eq.
  - split; [done|]. split; [done|]. rewrite Hv. unfold stored_rows, created. cbn [m_stores set_m_stores m_fresh].
    by rewrite lookup_insert_eq, Hs.
Qed.

Lemma InitUserRegistry_sqlite m :
  sqlite_ready cfg m ->
  exists m', InitUserRegistry fuel configFile GSM GSS cfg m = (Ok (RegistryDB (sqlite_file cfg)), m')
    /\ filled (sqlite_file cfg) m m'.
Proof.
  intros [Hl Hdrv Hm Hne Hf Ht]. unfold InitUserRegistry. rewrite Hl, Hdrv.
  rewrite (bool_decide_true ("sqlite3" = "sqlite3")) by reflexivity.
  rewrite (bind_ok _ _ _ _ _ (NewUserRegistrySQLLite3_run (DataSource cfg) m Hm Hne Hf)). cbn [negb].
  change (mkDBHandle "sqlite3" (path_Join [DataSource cfg])) with (sqlite_file cfg).
  change ("sqlite3", path_Join [DataSource cfg]) with (store_key (sqlite_file cfg)).
  destruct (m_stores m !! store_key (sqlite_file cfg)) as [st|] eqn:Es.
  - destruct (Ht st eq_refl) as [Hs Hd]. destruct (on_db_bootstrap (sqlite_file cfg) m st Es Hs Hd) as (m' & E & Hfl).
    exists m'. by rewrite (bind_ok _ _ _ _ _ E).
  - destruct (on_db_created (sqlite_file cfg) m Hm Es) as (m' & E & Hfl). exists m'. by rewrite (bind_ok _ _ _ _ _ E).
Qed.
End start.

(** What a filled store answers with. *)
Lemma filled_content GSM GSS cfg us h m m' :
  filled GSM GSS cfg us h m m' ->
  db_inv (content h m') /\ db_view (content h m') = configured GSM GSS cfg us (stored_rows h m).
Proof.
  intros (st & -> & Ht & Hd & Hv). rewrite (content_complete h _ st); [by split|apply lookup_insert_eq|done].
Qed.

Lemma filled_ready GSM GSS cfg cfg' us m m' :
  LDAP cfg' = None -> DBdriver cfg' = "sqlite3" -> DataSource cfg' = DataSource cfg ->
  sqlite_ready cfg m -> filled GSM GSS cfg us (sqlite_file cfg) m m' -> sqlite_ready cfg' m'.
Proof.
  intros Hl Hdrv Hds [_ _ Hm Hne Hf _] (st & -> & Ht & Hd & _). unfold sqlite_file in *.
  split; rewrite ?Hds; try done. intros st' Hs. unfold sqlite_file in Hs. rewrite Hds in Hs.
  cbn [m_stores set_m_stores] in Hs. rewrite lookup_insert_eq in Hs. by injection Hs as <-.
Qed.


(** The machine of the witnesses, before the first start: Postgres has its
    own database, and every driver reads a data source by the name in it. *)
Definition plain_database (driver dsn : string) : string :=
  if bool_decide (driver = "sqlite3") then dsn
  else if bool_decide (driver = "postgres") then (if bool_decide (find_name dsn = "") then "postgres" else find_name dsn)
  else find_name dsn.

Definition bare_machine : Machine :=
  mkMachine {[("postgres", "postgres") := mkStore [] empty_db]} plain_database (fun _ _ => true) empty_db None [].

Definition sqlite_CFG : Config := set_DB "sqlite3" "cop.db" sample_CFG.

Lemma bare_answers : answers bare_machine.
Proof. by repeat split. Qed.

Lemma sqlite_CFG_ready : sqlite_ready sqlite_CFG bare_machine.
Proof. by split. Qed.


(** A file without the tables is opened all the same, and holds no user: every
    statement on it fails, and the failures of the bootstrap are dropped. *)
Lemma sqlite_without_tables :
  let m := set_m_stores {[("sqlite3", "cop.db") := mkStore [] empty_db]} bare_machine in
  let '(o, m') := InitUserRegistry 0 "/etc/cop.json" sample_maps sample_slices sqlite_CFG m in
  o = Ok (RegistryDB sqlite3) /\ users (content sqlite3 m') = [] /\ groups (content sqlite3 m') = []
  /\ (Accessor.GetUser (Accessor.mkAccessor (Some sqlite3)) "admin" [] (content sqlite3 m')).1
     = Err (ErrPlain "no such table: users").
Proof. vm_compute. done. Qed.


Definition postgres_CFG : Config := set_DB "postgres" "host=localhost dbname=cop" sample_CFG.
Definition mysql_CFG : Config := set_DB "mysql" "root:pw@tcp(localhost:3306)/cop?parseTime=true" sample_CFG.

Definition used_machine : Machine :=
  set_m_stores (<[("postgres", "cop") := mkStore all_tables empty_db]> (m_stores bare_machine)) bare_machine.


(** A name with a capital letter: the code creates the database under the
    lower-case name and then opens the data source as it is written, which
    names another.  The start succeeds on a database that is not there: it
    has no user, and every statement on it fails. *)
Lemma sql_capital_lost :
  let capital := mkDBHandle "postgres" "COP" in
  let '(o, m') := InitUserRegistry 0 "/etc/cop.json" sample_maps sample_slices
                    (set_DB "postgres" "host=localhost dbname=COP" sample_CFG) bare_machine in
  o = Ok (RegistryDB capital)
  /\ st_tables <$> m_stores m' !! ("postgres", "cop") = Some ["users"; "groups"; "certificates"]
  /\ users (content postgres m') = []
  /\ (Accessor.GetUser (Accessor.mkAccessor (Some capital)) "admin" [] (content capital m')).1
     = Err (ErrPlain "no such table: users").
Proof. vm_compute. done. Qed.

(** A failing query for the database name does not return an error: the nil
    error of the ping is wrapped, which panics. *)
Theorem postgres_query_panics ds tls m msg :
  connects (opened m "postgres" (postgres_connStr ds tls)) m = true ->
  m_faults m = [None; None; Some msg] -> exists p, (NewUserRegistryPostgres ds tls m).1 = Panic p.
Proof.
  intros Hc H. unfold NewUserRegistryPostgres, sql_Open, Ping, database_exists, through, call, map_err, attempt, mbind, comp_bind.
  rewrite H. cbn [set_m_faults m_faults].
  change (connects (opened (set_m_faults [None; Some msg] m) "postgres" (postgres_connStr ds tls))
    (set_m_faults [Some msg] (set_m_faults [None; Some msg] m))) with (connects (opened m "postgres" (postgres_connStr ds tls)) m).
  rewrite Hc. simpl. by eexists.
Qed.

Lemma postgres_query_panics_witness :
  exists p, (NewUserRegistryPostgres "host=localhost dbname=cop" zero_ClientTLS
               (set_m_faults [None; None; Some "permission denied"] bare_machine)).1 = Panic p.
Proof. apply (postgres_query_panics _ _ _ "permission denied"); reflexivity. Defined.
