(* ===== verification/TCertUtil.v ===== *)
(** * TCert utilities (src/lib/tcert/util.go)

    UUIDs, PKCS7 padding with its panics, CBC encryption and decryption, and
    the readers of certificates and private keys.  The AES block cipher, the
    source of random bytes, the file system and the DER parsers are
    parameters.  [CBCDecrypt] decrypts in place: it also yields what the
    caller's buffer holds afterwards. *)

From S2P Require Import Prelude GoStrings GoFmt GoJson CopError Base64 Token Util.

Definition AESKeyLength : nat := 32.
Definition BlockSize : nat := 16.
Definition RootPreKeySize : nat := 48.

(** [GenNumber] and [ValidateCert] are the same code as in src/util. *)
Definition tcert_GenNumber := GenNumber.
Definition tcert_ValidateCert := ValidateCert.

(** Go's [&], [|], [&^] on bytes. *)
Definition byte_and (a : byte) (m : Z) : byte := Zbyte (Z.land (byteZ a) m).
Definition byte_or (a : byte) (m : Z) : byte := Zbyte (Z.lor (byteZ a) m).
Definition byte_andnot (a : byte) (m : Z) : byte := Zbyte (Z.ldiff (byteZ a) m).

Definition xor_byte (a b : byte) : byte := Zbyte (Z.lxor (byteZ a) (byteZ b)).

Definition xor_bytes (l k : bytes) : bytes := zip_with xor_byte l k.

(** [big.Int.SetBytes]: big-endian. *)
Definition SetBytes (b : bytes) : Z := foldl (fun z x => (256 * z + byteZ x)%Z) 0%Z b.

(** ** PKCS7 padding *)

Definition PKCS7Padding (src : bytes) : bytes :=
  let padding := (BlockSize - length src mod BlockSize)%nat in
  src ++ replicate padding (Zbyte (Z.of_nat padding)).

Definition errIndex : string := "runtime error: index out of range".
Definition errSlice : string := "runtime error: slice bounds out of range".

(** [PKCS7UnPadding]: indexes the last byte, then slices. *)
Definition PKCS7UnPadding (src : bytes) : outcome bytes :=
  let length := Z.of_nat (length src) in
  match last src with
  | None => Panic errIndex
  | Some b =>
      let unpadding := byteZ b in
      if (unpadding >? Z.of_nat BlockSize)%Z || (unpadding =? 0)%Z then Err (NewErr "invalid padding")
      else if (length - unpadding <? 0)%Z then Panic errSlice
      else
        let pad := drop (Z.to_nat (length - unpadding)) src in
        if forallb (fun x => bool_decide (x = Zbyte unpadding)) pad
        then Ok (take (Z.to_nat (length - unpadding)) src)
        else Err (NewErr "invalid padding")
  end.

(** ** CBC *)

(** An AES-like block cipher: defined for the key lengths [aes.NewCipher]
    accepts, on blocks of 16 bytes. *)
Record BlockCipher := mkBlockCipher {
  EncryptBlock : bytes -> bytes -> bytes;
  DecryptBlock : bytes -> bytes -> bytes
}.

Class CipherLaws (B : BlockCipher) := {
  law_dec_enc : forall k b, length b = BlockSize -> DecryptBlock B k (EncryptBlock B k b) = b;
  law_enc_length : forall k b, length b = BlockSize -> length (EncryptBlock B k b) = BlockSize
}.

Definition valid_key (key : bytes) : bool :=
  bool_decide (length key = 16%nat) || bool_decide (length key = 24%nat)
  || bool_decide (length key = 32%nat).

(** Whole blocks of a buffer. *)
Definition blocks (s : bytes) : list bytes := reshape (replicate (length s / BlockSize) BlockSize) s.

Section CBC.
Context (B : BlockCipher).

Fixpoint cbc_encrypt (key iv : bytes) (ps : list bytes) : list bytes :=
  match ps with
  | [] => []
  | p :: ps => let c := EncryptBlock B key (xor_bytes p iv) in c :: cbc_encrypt key c ps
  end.

Fixpoint cbc_decrypt (key iv : bytes) (cs : list bytes) : list bytes :=
  match cs with
  | [] => []
  | c :: cs => xor_bytes (DecryptBlock B key c) iv :: cbc_decrypt key c cs
  end.

Section with_random.
Context {W : Type} (ReadFull : nat -> comp W bytes).

Definition NewCipher (key : bytes) : outcome bytes :=
  if valid_key key then Ok key
  else Err (ErrPlain ("crypto/aes: invalid key size " +:+ Itoa (Z.of_nat (length key)))).

(** [CBCEncrypt(key, s)]: the random IV comes first. *)
Definition CBCEncrypt (key s : bytes) : comp W bytes :=
  if negb (length s mod BlockSize =? 0)%nat
  then fail (NewErr "CBCEncrypt failure: plaintext is not a multiple of the block size")
  else
    block ← lift (NewCipher key);
    iv ← map_err (fun err => Errorf "CBCEncrypt failure in io.ReadFull: %s" [FStr (Error err)])
           (ReadFull BlockSize);
    mret (iv ++ mjoin (cbc_encrypt block iv (blocks s))).

Definition CBCPKCS7Encrypt (key src : bytes) : comp W bytes := CBCEncrypt key (PKCS7Padding src).

(** [GenerateBytesUUID]. *)
Definition set_uuid_bits (uuid : bytes) : bytes :=
  let uuid := alter (fun b => byte_or (byte_andnot b 0xc0) 0x80) 8%nat uuid in
  alter (fun b => byte_or (byte_andnot b 0xf0) 0x40) 6%nat uuid.

Definition GenerateBytesUUID : comp W bytes := uuid ← ReadFull 16; mret (set_uuid_bits uuid).

Definition GenerateIntUUID : comp W Z := uuid ← GenerateBytesUUID; mret (SetBytes uuid).

(** [CreateRootPreKey]. *)
Definition CreateRootPreKey : comp W string := key ← ReadFull RootPreKeySize; mret (StdEncode key).
End with_random.

(** [CBCDecrypt(key, src)]: the result, and the caller's buffer afterwards. *)
Definition CBCDecrypt (key src : bytes) : outcome bytes * bytes :=
  match NewCipher key with
  | Ok block =>
      if (length src <? BlockSize)%nat then (Err (NewErr "ciphertext too short"), src)
      else
        let iv := take BlockSize src in
        let src' := drop BlockSize src in
        if negb (length src' mod BlockSize =? 0)%nat
        then (Err (NewErr "ciphertext is not a multiple of the block size"), src)
        else let pt := mjoin (cbc_decrypt block iv (blocks src')) in (Ok pt, iv ++ pt)
  | Err e => (Err e, src)
  | Panic p => (Panic p, src)
  | Exit p => (Exit p, src)
  | OutOfFuel => (OutOfFuel, src)
  end.

Definition CBCPKCS7Decrypt (key src : bytes) : outcome bytes * bytes :=
  let '(r, buf) := CBCDecrypt key src in
  (pt ← r; PKCS7UnPadding pt, buf).
End CBC.

(** ** Certificates and keys *)

(** A parsed private key. *)
Inductive PrivateKey := RSAPriv (k : Z) | ECPriv (k : Z) | OtherPriv (k : Z).

Section certs.
Context (C : Crypto).
Context (ParseCertificates : bytes -> outcome (list Certificate)).
Context (ParsePKCS8PrivateKey : bytes -> outcome PrivateKey).
Context (now : Z).

Definition GetEnrollmentIDFromCert (ecert : Certificate) : string := CommonName ecert.

Definition first_valid (certificates : list Certificate) : outcome Certificate :=
  match certificates with
  | [] => Panic errIndex
  | c :: _ => if negb (ValidateCert (NotBefore c) (NotAfter c) now)
              then Err (NewErr "Certificate expired") else Ok c
  end.

(** [GetCertificate]: a PEM block that does not parse ends the process
    ([log.Fatal]). *)
Definition GetCertificate (certificate : bytes) : outcome Certificate :=
  match pem_Decode C certificate with
  | None => match ParseCertificates certificate with
            | Ok cs => first_valid cs
            | Err _ => Err (NewErr "DER Certificate Parse failed")
            | Panic p => Panic p
            | Exit p => Exit p
            | OutOfFuel => OutOfFuel
            end
  | Some block => match ParseCertificates block with
                  | Ok cs => first_valid cs
                  | Err _ => Exit "PEM Certificatre Parse failed"
                  | Panic p => Panic p
                  | Exit p => Exit p
                  | OutOfFuel => OutOfFuel
                  end
  end.

(** The serial number, or -1 with the error. *)
Definition GetCertitificateSerialNumber (certificatebyte : bytes) : outcome Certificate * Z :=
  match GetCertificate certificatebyte with
  | Ok c => (Ok c, SerialNumber c)
  | o => (o, -1)%Z
  end.

Definition ParsePrivateKey (der : bytes) : outcome PrivateKey :=
  match ParsePKCS1PrivateKey C der with
  | Ok k => Ok (RSAPriv k)
  | _ =>
      match ParsePKCS8PrivateKey der with
      | Ok (OtherPriv _) => Err (NewErr "Key is neither RSA nor ECDSA")
      | Ok key => Ok key
      | _ =>
          k ← on_err (fun err => Errorf "Failure parsing private key: %s" [FStr (Error err)])
                (ParseECPrivateKey C der);
          Ok (ECPriv k)
      end
  end.

Definition GetPrivateKey (buf : bytes) : outcome PrivateKey :=
  privateKey ←
    match pem_Decode C buf with
    | None => on_err (fun err => Errorf "Failure parsing DER-encoded private key: %s" [FStr (Error err)])
                (ParsePrivateKey buf)
    | Some block => on_err (fun err => Errorf "Failure parsing PEM private key: %s" [FStr (Error err)])
                      (ParsePrivateKey block)
    end;
  match privateKey with
  | OtherPriv _ => Err (NewErr "Key is neither RSA nor ECDSA")
  | _ => Ok privateKey
  end.

Definition LoadCert (readFile : string -> outcome bytes) (path : string) : outcome Certificate :=
  certBuf ← readFile path; GetCertificate certBuf.

Definition LoadKey (readFile : string -> outcome bytes) (path : string) : outcome PrivateKey :=
  keyBuf ← readFile path; GetPrivateKey keyBuf.

(** The last check of [GetPrivateKey] is never the one that rejects. *)
Lemma ParsePrivateKey_kind der k : ParsePrivateKey der <> Ok (OtherPriv k).
Proof.
  unfold ParsePrivateKey. destruct (ParsePKCS1PrivateKey C der); try done;
    destruct (ParsePKCS8PrivateKey der) as [[]|?|?|?|]; try done;
    destruct (ParseECPrivateKey C der); done.
Qed.
End certs.

(** ** Padding *)

Lemma padding_range (src : bytes) :
  (1 <= BlockSize - length src mod BlockSize <= BlockSize)%nat.
Proof.
  pose proof (Nat.mod_upper_bound (length src) BlockSize ltac:(done)). unfold BlockSize in *. lia.
Qed.

Lemma byteZ_small n : (0 <= n < 256)%Z -> byteZ (Zbyte n) = n.
Proof. intros. rewrite byteZ_Zbyte. by apply Z.mod_small. Qed.

Lemma last_replicate {A} n (x : A) : (1 <= n)%nat -> last (replicate n x) = Some x.
Proof.
  intros Hn. destruct n as [|n]; [lia|]. by rewrite replicate_S_end, last_snoc.
Qed.

Lemma last_app_some {A} (l1 l2 : list A) x : last l2 = Some x -> last (l1 ++ l2) = Some x.
Proof. intros H. by rewrite last_app, H. Qed.

Lemma forallb_replicate (p : byte -> bool) n x : p x = true -> forallb p (replicate n x) = true.
Proof. intros H. induction n as [|n IH]; simpl; [done|]. by rewrite H. Qed.

(** Removing [n] bytes of value [n] appended to [s]. *)
Lemma UnPadding_replicate s n :
  (1 <= n <= BlockSize)%nat -> PKCS7UnPadding (s ++ replicate n (Zbyte (Z.of_nat n))) = Ok s.
Proof.
  intros Hn. unfold PKCS7UnPadding, BlockSize in *.
  rewrite (last_app_some _ _ (Zbyte (Z.of_nat n))) by (apply last_replicate; lia).
  rewrite byteZ_small by lia.
  rewrite Z.gtb_ltb, (proj2 (Z.ltb_ge _ _)), (proj2 (Z.eqb_neq _ _)) by lia. cbn [orb].
  rewrite length_app, length_replicate. rewrite (proj2 (Z.ltb_ge _ _)) by lia.
  replace (Z.to_nat _) with (length s) by lia. rewrite drop_app_length, take_app_length.
  rewrite forallb_replicate; [done|]. by rewrite bool_decide_true.
Qed.

Lemma all_eq_replicate (b : byte) l :
  forallb (fun x => bool_decide (x = b)) l = true -> l = replicate (length l) b.
Proof.
  induction l as [|x l IH]; simpl; [done|]. rewrite andb_true_iff, bool_decide_eq_true.
  intros [-> H]. by rewrite <- IH.
Qed.

Lemma UnPadding_Padding src : PKCS7UnPadding (PKCS7Padding src) = Ok src.
Proof. apply UnPadding_replicate, padding_range. Qed.

Lemma Padding_whole_blocks src : (length (PKCS7Padding src) mod BlockSize = 0)%nat.
Proof.
  unfold PKCS7Padding. rewrite length_app, length_replicate.
  pose proof (Nat.div_mod_eq (length src) BlockSize) as Hd. pose proof (padding_range src).
  replace (length src + (BlockSize - length src mod BlockSize))%nat
    with ((length src / BlockSize + 1) * BlockSize)%nat by (unfold BlockSize in *; lia).
  apply Nat.Div0.mod_mul.
Qed.

(** [PKCS7UnPadding] inverts [PKCS7Padding] on every input, and succeeds on
    exactly the inputs that are some bytes followed by [n] bytes of value [n],
    1 <= n <= 16, returning those bytes. *)
Theorem PKCS7UnPadding_spec src :
  PKCS7UnPadding (PKCS7Padding src) = Ok src
  /\ (length (PKCS7Padding src) mod BlockSize = 0)%nat
  /\ (forall r, PKCS7UnPadding src = Ok r <->
        exists n, (1 <= n <= BlockSize)%nat /\ src = r ++ replicate n (Zbyte (Z.of_nat n))).
Proof.
  split; [|split].
  - apply UnPadding_Padding.
  - apply Padding_whole_blocks.
  - intros r. split; [|intros (n & Hn & ->); by apply UnPadding_replicate].
    unfold PKCS7UnPadding. destruct (last src) as [b|] eqn:El; [|done].
    pose proof (byteZ_range b). rewrite Z.gtb_ltb.
    destruct (Z.ltb_spec (Z.of_nat BlockSize) (byteZ b)); [done|].
    destruct (Z.eqb_spec (byteZ b) 0); [done|]. cbn [orb].
    destruct (Z.ltb_spec (Z.of_nat (length src) - byteZ b) 0); [done|].
    destruct (forallb _ _) eqn:Ef; [|done]. intros [= <-].
    exists (Z.to_nat (byteZ b)). unfold BlockSize in *. split; [lia|].
    apply all_eq_replicate in Ef. rewrite length_drop in Ef.
    replace (length src - Z.to_nat (Z.of_nat (length src) - byteZ b))%nat
      with (Z.to_nat (byteZ b)) in Ef by lia.
    rewrite Z2Nat.id by lia. rewrite <- Ef. by rewrite take_drop.
Qed.

(** ** CBC *)

Lemma xor_byte_invol a b : xor_byte (xor_byte a b) b = a.
Proof.
  unfold xor_byte. rewrite byteZ_small.
  - by rewrite Z.lxor_assoc, Z.lxor_nilpotent, Z.lxor_0_r, Zbyte_byteZ.
  - pose proof (byteZ_range a). pose proof (byteZ_range b). split; [apply Z.lxor_nonneg; lia|].
    destruct (Z.eq_dec (Z.lxor (byteZ a) (byteZ b)) 0%Z) as [->|Hne]; [lia|].
    apply (Z.log2_lt_pow2 _ 8%Z).
    + assert (0 <= Z.lxor (byteZ a) (byteZ b))%Z by (apply Z.lxor_nonneg; lia). lia.
    + pose proof (Z.log2_lxor (byteZ a) (byteZ b) ltac:(lia) ltac:(lia)) as HL.
      assert (forall z, (0 <= z < 256)%Z -> (Z.log2 z < 8)%Z) as Hlog.
      { intros z Hz. destruct (Z.eq_dec z 0%Z) as [->|]; [done|]. apply Z.log2_lt_pow2; lia. }
      pose proof (Hlog (byteZ a) ltac:(lia)). pose proof (Hlog (byteZ b) ltac:(lia)). lia.
Qed.

Lemma xor_bytes_length l k : length k = length l -> length (xor_bytes l k) = length l.
Proof. intros H. unfold xor_bytes. rewrite length_zip_with. lia. Qed.

Lemma xor_bytes_invol l k : length k = length l -> xor_bytes (xor_bytes l k) k = l.
Proof.
  revert k. induction l as [|a l IH]; intros [|b k] H; simpl in *; try done.
  unfold xor_bytes in *. simpl. rewrite xor_byte_invol, IH by lia. done.
Qed.

Lemma reshape_blocks n (s : bytes) :
  length s = (n * BlockSize)%nat ->
  Forall (fun b => length b = BlockSize) (reshape (replicate n BlockSize) s)
  /\ mjoin (reshape (replicate n BlockSize) s) = s.
Proof.
  revert s. induction n as [|n IH]; intros s Hs.
  { destruct s; [done|]. done. }
  cbn [replicate reshape]. destruct (IH (drop BlockSize s)) as [H1 H2].
  { rewrite length_drop. unfold BlockSize in *. lia. }
  split.
  - constructor; [|done]. rewrite length_take. unfold BlockSize in *. lia.
  - etrans; [|apply (take_drop BlockSize s)].
    by apply (f_equal (app (take BlockSize s))).
Qed.

Lemma blocks_spec s :
  (length s mod BlockSize = 0)%nat ->
  Forall (fun b => length b = BlockSize) (blocks s) /\ mjoin (blocks s) = s.
Proof.
  intros Hm. apply reshape_blocks. pose proof (Nat.div_mod_eq (length s) BlockSize). unfold BlockSize in *. lia.
Qed.

Lemma length_join_blocks (bs : list bytes) :
  Forall (fun b => length b = BlockSize) bs -> length (mjoin bs) = (length bs * BlockSize)%nat.
Proof.
  induction 1 as [|b bs Hb _ IH]; [done|]. change (mjoin (b :: bs)) with (b ++ mjoin bs).
  rewrite length_app, IH, Hb. simpl. lia.
Qed.

Lemma reshape_join (bs : list bytes) :
  Forall (fun b => length b = BlockSize) bs ->
  reshape (replicate (length bs) BlockSize) (mjoin bs) = bs.
Proof.
  induction 1 as [|b bs Hb _ IH]; [done|].
  change (mjoin (b :: bs)) with (b ++ mjoin bs).
  cbn [length replicate reshape]. rewrite <- Hb at 1 3. rewrite take_app_length, drop_app_length.
  by rewrite IH.
Qed.

Lemma blocks_join (bs : list bytes) :
  Forall (fun b => length b = BlockSize) bs -> blocks (mjoin bs) = bs.
Proof.
  intros H. unfold blocks. rewrite length_join_blocks, Nat.div_mul by done. by apply reshape_join.
Qed.

Section roundtrip.
Context (B : BlockCipher) `{!CipherLaws B}.

Lemma cbc_roundtrip key ps : forall iv,
  length iv = BlockSize -> Forall (fun b => length b = BlockSize) ps ->
  cbc_decrypt B key iv (cbc_encrypt B key iv ps) = ps
  /\ Forall (fun b => length b = BlockSize) (cbc_encrypt B key iv ps).
Proof.
  induction ps as [|p ps IH]; intros iv Hiv Hps; [done|]. apply Forall_cons in Hps as [Hp Hps].
  cbn [cbc_encrypt cbc_decrypt].
  assert (length (xor_bytes p iv) = BlockSize) as Hx by (rewrite xor_bytes_length; congruence).
  destruct (IH (EncryptBlock B key (xor_bytes p iv))) as [H1 H2];
    [by apply law_enc_length|done|].
  split; [|by constructor; [apply law_enc_length|]].
  rewrite law_dec_enc, xor_bytes_invol, H1 by congruence. done.
Qed.

Lemma CBCEncrypt_run {W} (ReadFull : nat -> comp W bytes) key s w iv w' :
  valid_key key = true -> (length s mod BlockSize = 0)%nat -> ReadFull BlockSize w = (Ok iv, w') ->
  CBCEncrypt B ReadFull key s w = (Ok (iv ++ mjoin (cbc_encrypt B key iv (blocks s))), w').
Proof.
  intros Hk Hs Hiv. unfold CBCEncrypt, NewCipher. rewrite Hk, Hs. cbn [Nat.eqb negb].
  rewrite (bind_ok _ _ _ key w) by done.
  rewrite (bind_ok _ _ _ iv w'); [done|]. unfold map_err. by rewrite Hiv.
Qed.

Lemma CBCDecrypt_run key iv s :
  valid_key key = true -> length iv = BlockSize -> (length s mod BlockSize = 0)%nat ->
  CBCDecrypt B key (iv ++ mjoin (cbc_encrypt B key iv (blocks s))) = (Ok s, iv ++ s).
Proof.
  intros Hk Hiv Hs. destruct (blocks_spec s Hs) as [Hb Hj].
  destruct (cbc_roundtrip key (blocks s) iv Hiv Hb) as [Hr Hc].
  unfold CBCDecrypt, NewCipher. rewrite Hk.
  rewrite (proj2 (Nat.ltb_ge _ _)) by (rewrite length_app, Hiv; lia).
  rewrite !drop_app_length', take_app_length' by done.
  rewrite length_join_blocks, Nat.Div0.mod_mul by done. cbn [Nat.eqb negb].
  by rewrite blocks_join, Hr, Hj.
Qed.
End roundtrip.

Lemma CBCPKCS7_run B `{!CipherLaws B} {W} (ReadFull : nat -> comp W bytes) key src w iv w' :
  valid_key key = true -> ReadFull BlockSize w = (Ok iv, w') -> length iv = BlockSize ->
  exists ct, CBCPKCS7Encrypt B ReadFull key src w = (Ok ct, w')
    /\ CBCPKCS7Decrypt B key ct = (Ok src, iv ++ PKCS7Padding src).
Proof.
  intros Hk Hiv Hl. pose proof (Padding_whole_blocks src) as Hm.
  eexists. split; [by apply (CBCEncrypt_run B)|].
  unfold CBCPKCS7Decrypt. rewrite CBCDecrypt_run by done. simpl. by rewrite UnPadding_Padding.
Qed.

(** What [CBCPKCS7Encrypt] makes of any message under a 16, 24 or 32 byte
    key, with any random IV, [CBCPKCS7Decrypt] turns back into the message;
    the caller's ciphertext buffer is overwritten with the padded message. *)
Theorem CBCPKCS7_roundtrip B `{!CipherLaws B} {W} (ReadFull : nat -> comp W bytes) key src w iv w' :
  valid_key key = true -> ReadFull BlockSize w = (Ok iv, w') -> length iv = BlockSize ->
  exists ct, CBCPKCS7Encrypt B ReadFull key src w = (Ok ct, w')
    /\ CBCPKCS7Decrypt B key ct = (Ok src, iv ++ PKCS7Padding src).
Proof. by apply CBCPKCS7_run. Qed.

(** [CBCPKCS7Decrypt] panics, instead of reporting an error, on a
    ciphertext that consists of an IV only. *)
Theorem CBCPKCS7Decrypt_panics B key iv :
  valid_key key = true -> length iv = BlockSize ->
  (CBCPKCS7Decrypt B key iv).1 = Panic errIndex.
Proof.
  intros Hk Hl. unfold CBCPKCS7Decrypt, CBCDecrypt, NewCipher. rewrite Hk.
  rewrite (proj2 (Nat.ltb_ge _ _)) by lia. rewrite drop_ge by lia. reflexivity.
Qed.

(** A cipher that adds the length of the key to each byte. *)
Definition toy_cipher : BlockCipher :=
  mkBlockCipher (fun k => map (fun b => xor_byte b (Zbyte (Z.of_nat (length k)))))
                (fun k => map (fun b => xor_byte b (Zbyte (Z.of_nat (length k))))).

#[export] Instance toy_cipher_laws : CipherLaws toy_cipher.
Proof.
  split; simpl.
  - intros k b _. rewrite map_map. induction b as [|x b IH]; simpl; [done|].
    by rewrite xor_byte_invol, IH.
  - intros k b. by rewrite length_map.
Defined.

Definition toy_random (n : nat) : comp unit bytes := mret (replicate n xaa).

Lemma CBCPKCS7_roundtrip_witness :
  exists ct, CBCPKCS7Encrypt toy_cipher toy_random (replicate 32 x01) [x68; x69] tt = (Ok ct, tt)
    /\ CBCPKCS7Decrypt toy_cipher (replicate 32 x01) ct
       = (Ok [x68; x69], replicate 16 xaa ++ PKCS7Padding [x68; x69]).
Proof.
  apply (CBCPKCS7_roundtrip toy_cipher toy_random (replicate 32 x01) [x68; x69] tt (replicate 16 xaa) tt);
    reflexivity.
Defined.

Lemma CBCPKCS7Decrypt_panics_witness :
  (CBCPKCS7Decrypt toy_cipher (replicate 16 x01) (replicate 16 xaa)).1 = Panic errIndex.
Proof. apply (CBCPKCS7Decrypt_panics toy_cipher (replicate 16 x01) (replicate 16 xaa)); reflexivity. Defined.

(** ** UUIDs *)

Lemma SetBytes_acc b z : foldl (fun z x => (256 * z + byteZ x)%Z) z b = (z * 256 ^ Z.of_nat (length b) + SetBytes b)%Z.
Proof.
  unfold SetBytes. revert z. induction b as [|x b IH]; intros z; cbn [foldl length]; [lia|].
  rewrite IH, (IH (256 * 0 + byteZ x)%Z), Nat2Z.inj_succ, Z.pow_succ_r by lia. lia.
Qed.

Lemma SetBytes_range b : (0 <= SetBytes b < 256 ^ Z.of_nat (length b))%Z.
Proof.
  induction b as [|x b IH]; [done|]. unfold SetBytes. cbn [foldl].
  rewrite SetBytes_acc. pose proof (byteZ_range x). simpl length.
  rewrite Nat2Z.inj_succ, Z.pow_succ_r by lia.
  assert (0 < 256 ^ Z.of_nat (length b))%Z by (apply Z.pow_pos_nonneg; lia). nia.
Qed.

Lemma version_bits x : (Z.shiftr (byteZ (byte_or (byte_andnot x 0xf0) 0x40)) 4 = 4)%Z.
Proof.
  apply Z.eqb_eq, (bytes_check (fun x =>
    (Z.shiftr (byteZ (byte_or (byte_andnot x 0xf0) 0x40)) 4 =? 4)%Z)). reflexivity.
Qed.

Lemma variant_bits x : (Z.shiftr (byteZ (byte_or (byte_andnot x 0xc0) 0x80)) 6 = 2)%Z.
Proof.
  apply Z.eqb_eq, (bytes_check (fun x =>
    (Z.shiftr (byteZ (byte_or (byte_andnot x 0xc0) 0x80)) 6 =? 2)%Z)). reflexivity.
Qed.

(** [GenerateBytesUUID] yields a version 4, variant 1 UUID of RFC 4122:
    the version nibble and the variant bits are set whatever bytes were read,
    every other byte is as read, and the integer form is below 2^128. *)
Theorem UUID_rfc4122 b :
  length b = 16%nat ->
  exists b6 b8, set_uuid_bits b !! 6%nat = Some b6 /\ set_uuid_bits b !! 8%nat = Some b8
    /\ (Z.shiftr (byteZ b6) 4 = 4)%Z /\ (Z.shiftr (byteZ b8) 6 = 2)%Z
    /\ (forall i, i <> 6%nat -> i <> 8%nat -> set_uuid_bits b !! i = b !! i)
    /\ (0 <= SetBytes (set_uuid_bits b) < 2 ^ 128)%Z.
Proof.
  intros Hl. unfold set_uuid_bits. cbv zeta. unfold bytes in *.
  destruct (lookup_lt_is_Some_2 b 6) as [x6 H6]; [lia|].
  destruct (lookup_lt_is_Some_2 b 8) as [x8 H8]; [lia|].
  exists (byte_or (byte_andnot x6 0xf0) 0x40), (byte_or (byte_andnot x8 0xc0) 0x80).
  split; [by rewrite list_lookup_alter_eq, list_lookup_alter_ne, H6|].
  split; [by rewrite list_lookup_alter_ne, list_lookup_alter_eq, H8|].
  split; [apply version_bits|]. split; [apply variant_bits|].
  split.
  - intros i Hi6 Hi8. by rewrite !list_lookup_alter_ne.
  - pose proof (SetBytes_range (alter (fun b => byte_or (byte_andnot b 0xf0) 0x40) 6%nat
      (alter (fun b => byte_or (byte_andnot b 0xc0) 0x80) 8%nat b))) as Hr.
    rewrite !length_alter, Hl in Hr. exact Hr.
Qed.

Lemma UUID_rfc4122_witness :
  exists b6 b8, set_uuid_bits (replicate 16 xff) !! 6%nat = Some b6
    /\ set_uuid_bits (replicate 16 xff) !! 8%nat = Some b8
    /\ (Z.shiftr (byteZ b6) 4 = 4)%Z /\ (Z.shiftr (byteZ b8) 6 = 2)%Z
    /\ (forall i, i <> 6%nat -> i <> 8%nat ->
          set_uuid_bits (replicate 16 xff) !! i = replicate 16 xff !! i)
    /\ (0 <= SetBytes (set_uuid_bits (replicate 16 xff)) < 2 ^ 128)%Z.
Proof. apply (UUID_rfc4122 (replicate 16 xff)). reflexivity. Defined.
