(* ===== verification/KeyTree.v ===== *)
(** * The key tree (src/lib/tcert/keytree.go)

    A cache of derived keys indexed by the joined path.  [derive] is the
    specification: the key at a path is obtained from the root by one
    derivation per name.  The derivation itself (BCCSP's [KeyDeriv]) is a
    parameter. *)

From S2P Require Import Prelude GoStrings GoFmt GoJson CopError.

Definition keyPathSep : ascii := "/".

Section KeyTree.
Context {Key : Type} (KeyDeriv : Key -> string -> outcome Key).

(** [KeyTree]. *)
Record KeyTree := mkKeyTree { rootKey : Key; keys : gmap string Key }.

Definition NewKeyTree (root : Key) : KeyTree := mkKeyTree root ∅.

Definition pathStr (path : list string) : string := Join path (String keyPathSep "").

(** [deriveChildKey]. *)
Definition deriveChildKey (parentKey : Key) (childName path : string) : comp KeyTree Key :=
  map_err (fun err => Errorf "Failed to derive key %s: %s" [FStr path; FStr (Error err)])
    (lift (KeyDeriv parentKey childName)).

(** [GetKey], on the reversed path: the last name is the head. *)
Fixpoint GetKey_rev (rpath : list string) : comp KeyTree Key :=
  match rpath with
  | [] => gets rootKey
  | childName :: parent =>
      let p := pathStr (reverse rpath) in
      cached ← gets (fun t => keys t !! p);
      match cached with
      | Some key => mret key
      | None =>
          parentKey ← GetKey_rev parent;
          key ← deriveChildKey parentKey childName p;
          _ ← modify (fun t => mkKeyTree (rootKey t) (<[p := key]> (keys t)));
          mret key
      end
  end.

Definition GetKey (path : list string) : comp KeyTree Key := GetKey_rev (reverse path).

(** ** Specification *)

(** The key at [path] below [k]; [None] if a derivation fails. *)
Definition derive (k : Key) (path : list string) : option Key :=
  foldl (fun acc name => k ← acc; match KeyDeriv k name with Ok k' => Some k' | _ => None end)
    (Some k) path.

(** Every cached key is the one its path specifies. *)
Definition cache_ok (t : KeyTree) : Prop :=
  forall s key, keys t !! s = Some key -> derive (rootKey t) (Split s keyPathSep) = Some key.

(** Names without the separator. *)
Definition plain_path (path : list string) : Prop :=
  Forall (fun name => Contains name keyPathSep = false) path.

Lemma derive_snoc k path name :
  derive k (path ++ [name]) =
    (x ← derive k path; match KeyDeriv x name with Ok k' => Some k' | _ => None end).
Proof. unfold derive. by rewrite foldl_app. Qed.

Lemma derive_none path :
  foldl (fun acc name => k ← acc; match KeyDeriv k name with Ok k' => Some k' | _ => None end)
    None path = None.
Proof. by induction path. Qed.

Lemma derive_app k p q k1 : derive k p = Some k1 -> derive k (p ++ q) = derive k1 q.
Proof. intros H. unfold derive in *. by rewrite foldl_app, H. Qed.

Lemma Split_pathStr path : path <> [] -> plain_path path -> Split (pathStr path) keyPathSep = path.
Proof. apply Split_Join. Qed.

(** What a query returns, and that the tree it leaves is still right. *)
Definition query_ok (t : KeyTree) (path : list string) (r : outcome Key * KeyTree) : Prop :=
  cache_ok r.2 /\ rootKey r.2 = rootKey t
  /\ (forall key, r.1 = Ok key <-> derive (rootKey t) path = Some key).

Lemma GetKey_rev_ok rpath : forall t,
  cache_ok t -> plain_path (reverse rpath) -> query_ok t (reverse rpath) (GetKey_rev rpath t).
Proof.
  induction rpath as [|name rpath IH]; intros t Ht Hp.
  { split; [done|]. split; [done|]. intros key. unfold derive. simpl. naive_solver. }
  assert (Hsplit : Split (pathStr (reverse (name :: rpath))) keyPathSep = reverse (name :: rpath)).
  { apply Split_pathStr; [|done]. rewrite reverse_cons. by destruct (reverse rpath). }
  cbn [GetKey_rev]. rewrite reverse_cons in *. set (p := pathStr (reverse rpath ++ [name])) in *.
  rewrite (bind_ok _ _ _ (keys t !! p) t) by done.
  destruct (keys t !! p) as [key|] eqn:Ec.
  { apply Ht in Ec. rewrite Hsplit in Ec. split; [done|]. split; [done|]. simpl. intros k.
    rewrite Ec. naive_solver. }
  apply Forall_app in Hp as [Hp _]. destruct (IH t Ht Hp) as (Hc & Hroot & Hres).
  unfold mbind at 1, comp_bind at 1.
  assert (Hfail : forall t1 (o : outcome Key), cache_ok t1 -> rootKey t1 = rootKey t ->
    (forall k, o <> Ok k) -> derive (rootKey t) (reverse rpath ++ [name]) = None ->
    query_ok t (reverse rpath ++ [name]) (o, t1)).
  { intros t1 o H1 H2 Ho Hd. split; [done|]. split; [done|]. intros k. simpl. rewrite Hd.
    split; [intros E; by destruct (Ho k)|done]. }
  assert (Hnone : forall o : outcome Key, (GetKey_rev rpath t).1 = o -> (forall k, o <> Ok k) ->
    derive (rootKey t) (reverse rpath ++ [name]) = None).
  { intros o Ho Hk. rewrite derive_snoc. destruct (derive (rootKey t) (reverse rpath)) as [k|]; [|done].
    pose proof (proj2 (Hres k) eq_refl) as E. rewrite Ho in E. by destruct (Hk k). }
  destruct (GetKey_rev rpath t) as [[pk|e|q|q|] t1] eqn:Eg; simpl in Hc, Hroot, Hres;
    try (apply Hfail; [done|done|done|by eapply Hnone]).
  assert (Hd : derive (rootKey t) (reverse rpath) = Some pk) by by apply Hres.
  unfold deriveChildKey, map_err, mbind, comp_bind. simpl.
  destruct (KeyDeriv pk name) as [k|e|q|q|] eqn:Ek; simpl;
    try (apply Hfail; [done|done|done|by rewrite derive_snoc, Hd; simpl; rewrite Ek]).
  assert (Hd' : derive (rootKey t) (reverse rpath ++ [name]) = Some k).
  { rewrite derive_snoc, Hd. simpl. by rewrite Ek. }
  split; [|split; [done|]].
  - intros s key. simpl. destruct (decide (s = p)) as [->|Hne].
    + rewrite lookup_insert_eq. intros [= <-]. by rewrite Hroot, Hsplit.
    + rewrite lookup_insert_ne by done. apply Hc.
  - intros key. simpl. rewrite Hd'. naive_solver.
Qed.

(** A query that succeeds leaves its key in the cache. *)
Lemma GetKey_rev_cached name rpath t key :
  (GetKey_rev (name :: rpath) t).1 = Ok key ->
  keys (GetKey_rev (name :: rpath) t).2 !! pathStr (reverse (name :: rpath)) = Some key.
Proof.
  cbn [GetKey_rev]. set (p := pathStr (reverse (name :: rpath))).
  unfold mbind, comp_bind, gets. destruct (keys t !! p) as [k|] eqn:E.
  { simpl. by intros [= <-]. }
  destruct (GetKey_rev rpath t) as [[pk|?|?|?|] t1]; try done.
  unfold deriveChildKey, map_err, lift. destruct (KeyDeriv pk name) as [k|?|?|?|]; try done.
  simpl. intros [= <-]. apply lookup_insert_eq.
Qed.
End KeyTree.

(** (C31) The cache is transparent: starting from a tree whose cached keys are
    right, a query for a path of names without the separator succeeds exactly
    when the derivations along the path do, with the key they give, and leaves
    a tree whose cached keys are right, whatever was asked before and also
    when a derivation failed; and from the key of a node the keys of its
    sub-tree, and they alone, follow. *)
Theorem GetKey_refines {Key} (KeyDeriv : Key -> string -> outcome Key) t path :
  cache_ok KeyDeriv t -> plain_path path ->
  cache_ok KeyDeriv (GetKey KeyDeriv path t).2
  /\ rootKey (GetKey KeyDeriv path t).2 = rootKey t
  /\ (forall key, (GetKey KeyDeriv path t).1 = Ok key <-> derive KeyDeriv (rootKey t) path = Some key)
  /\ (forall key below, (GetKey KeyDeriv path t).1 = Ok key ->
        derive KeyDeriv (rootKey t) (path ++ below) = derive KeyDeriv key below).
Proof.
  intros Ht Hp. pose proof (GetKey_rev_ok KeyDeriv (reverse path) t Ht) as H.
  rewrite reverse_involutive in H. destruct (H Hp) as (H1 & H2 & H3).
  split; [done|]. split; [done|]. split; [done|].
  intros key below Hk. apply H3 in Hk. by apply derive_app.
Qed.

(** With a separator inside a name two paths share a cache entry: once the
    key of ["a","b"] is cached, asking for ["a/b"] returns it, whatever the
    derivation from the root would give. *)
Theorem GetKey_collision {Key} (KeyDeriv : Key -> string -> outcome Key) t a b key :
  (GetKey KeyDeriv [a; b] t).1 = Ok key ->
  GetKey KeyDeriv [a +:+ "/" +:+ b] (GetKey KeyDeriv [a; b] t).2
    = (Ok key, (GetKey KeyDeriv [a; b] t).2).
Proof.
  intros Hk.
  assert (Hc : keys (GetKey KeyDeriv [a; b] t).2 !! (a +:+ "/" +:+ b) = Some key).
  { exact (GetKey_rev_cached KeyDeriv b [a] t key Hk). }
  unfold GetKey at 1. change (reverse [a +:+ "/" +:+ b]) with [a +:+ "/" +:+ b]. cbn [GetKey_rev].
  change (pathStr (reverse [a +:+ "/" +:+ b])) with (a +:+ "/" +:+ b).
  set (t' := (GetKey KeyDeriv [a; b] t).2) in *.
  rewrite (bind_ok _ _ _ (keys t' !! (a +:+ "/" +:+ b)) t') by done. by rewrite Hc.
Qed.

(** Keys that record how they were derived. *)
Definition toy_deriv (k : list string) (name : string) : outcome (list string) :=
  if bool_decide (name = "!") then Err (ErrPlain "no key") else Ok (k ++ [name]).

Lemma GetKey_refines_witness :
  let t := (GetKey toy_deriv ["a"; "b"] (NewKeyTree [])).2 in
  cache_ok toy_deriv t /\ (GetKey toy_deriv ["a"; "c"] t).1 = Ok ["a"; "c"].
Proof.
  assert (H0 : cache_ok toy_deriv (NewKeyTree [])) by (intros s k Hs; simpl in Hs; by rewrite lookup_empty in Hs).
  destruct (GetKey_refines toy_deriv (NewKeyTree []) ["a"; "b"] H0) as (H1 & H2 & _);
    [by repeat constructor|].
  split; [exact H1|].
  destruct (GetKey_refines toy_deriv (GetKey toy_deriv ["a"; "b"] (NewKeyTree [])).2 ["a"; "c"] H1)
    as (_ & _ & H3 & _); [by repeat constructor|].
  apply H3. reflexivity.
Defined.

Lemma GetKey_collision_witness :
  GetKey toy_deriv ["a/b"] (GetKey toy_deriv ["a"; "b"] (NewKeyTree [])).2
    = (Ok ["a"; "b"], (GetKey toy_deriv ["a"; "b"] (NewKeyTree [])).2)
  /\ (GetKey toy_deriv ["a/b"] (NewKeyTree [])).1 = Ok ["a/b"].
Proof.
  split; [|reflexivity].
  apply (GetKey_collision toy_deriv (NewKeyTree []) "a" "b" ["a"; "b"]). reflexivity.
Defined.
