(* ===== verification/TCert.v ===== *)
(** * Transaction certificates (src/lib/tcert/tcert.go, api.go)

    The TCert manager: [GetBatch] and the extensions it puts in each
    certificate.  HMAC, the curve of the enrollment key, certificate creation,
    the random source, the clock and the order in which a map is ranged over
    are parameters. *)

From S2P Require Import Prelude GoStrings GoFmt GoJson CopError Base64 Pem Registry Token Util TCertUtil.

Definition TCertEncTCertIndex : list Z := [1; 2; 3; 4; 5; 6; 7]%Z.
Definition TCertEncEnrollmentID : list Z := [1; 2; 3; 4; 5; 6; 8]%Z.
Definition TCertAttributesHeaders : list Z := [1; 2; 3; 4; 5; 6; 9]%Z.
Definition Padding : bytes := replicate 16 xff.

(** [GetBatchRequest], [TCert] and [GetBatchResponse] of api.go. *)
Record GetBatchRequest := mkGetBatchRequest {
  Count : Z;
  Attrs : list Attribute;
  EncryptAttrs : bool;
  ValidityPeriod : Z;        (* nanoseconds *)
  PreKey : bytes             (* the bytes of the string *)
}.

Record TCert := mkTCert { tc_Cert : bytes; tc_Keys : gmap string bytes }.

Record GetBatchResponse := mkGetBatchResponse {
  gb_ID : Z;
  gb_TS : Z;
  gb_Key : bytes;
  gb_TCerts : list TCert
}.

(** [Mgr]. *)
Record Mgr := mkMgr {
  CAKey : PrivateKey;
  CACert : Certificate;
  mgr_ValidityPeriod : Z;
  MaxAllowedBatchSize : Z
}.

Definition hour : Z := 3600 * 1000000000.

Definition NewMgr (caKey : PrivateKey) (caCert : Certificate) : Mgr :=
  mkMgr caKey caCert (hour * 24 * 365) 1000.

Definition LoadMgr (loadKey : string -> outcome PrivateKey) (loadCert : string -> outcome Certificate)
    (caKeyFile caCertFile : string) : outcome Mgr :=
  caKey ← loadKey caKeyFile;
  caCert ← loadCert caCertFile;
  Ok (NewMgr caKey caCert).

(** [big.Int.Bytes] of a non-negative integer: big-endian, no leading zero. *)
Fixpoint be_bytes (fuel : nat) (z : Z) (acc : bytes) : bytes :=
  match fuel with
  | O => acc
  | S fuel => if (z <=? 0)%Z then acc else be_bytes fuel (z / 256) (Zbyte z :: acc)
  end.

Definition Bytes (z : Z) : bytes := be_bytes (S (Z.to_nat (Z.log2 z))) z [].

(** What [x509.CreateCertificate] is given of the template and the key. *)
Record Template := mkTemplate {
  t_NotBefore : Z;
  t_NotAfter : Z;
  t_PublicKey : Z * Z;
  t_Extensions : list Extension;
  t_SerialNumber : Z
}.

(** The curve of a public key: its order and point operations. *)
Record Curve := mkCurve {
  curve_N : Z;
  point : Z -> Z * Z;                           (* the key's own point *)
  ScalarBaseMult : bytes -> Z * Z;
  curve_Add : Z * Z -> Z * Z -> Z * Z
}.

Section TCert.
Context (B : BlockCipher) (hmac384 : bytes -> bytes -> bytes).
Context (range : gmap string Z -> list (string * Z)).
Context (curve : Curve) (MarshalPKIXPublicKey : Z -> bytes).
Context (CreateCertificate : Template -> Certificate -> PrivateKey -> outcome bytes).
Context {W : Type} (ReadFull : nat -> comp W bytes) (clock : comp W Z) (rand_Int : Z -> comp W Z).

(** [buildAttributesHeader]. *)
Definition buildAttributesHeader (attributesHeader : gmap string Z) : bytes :=
  bytes_of_string (foldl (fun s kv => s +:+ kv.1 +:+ "->" +:+ Itoa kv.2 +:+ "#") ""
                     (range attributesHeader)).

(** The key that encrypts an entry: 32 bytes of the HMAC of its name. *)
Definition entry_key (preK0 : bytes) (name : string) : bytes :=
  take 32 (hmac384 preK0 (bytes_of_string name)).

(** The loop over the attributes: extensions, keys and header so far. *)
Fixpoint attr_extensions (preK0 : bytes) (encrypt : bool) (count : Z) (attrs : list Attribute)
    (ks : gmap string bytes) (header : gmap string Z)
    : comp W (list Extension * gmap string bytes * gmap string Z) :=
  match attrs with
  | [] => mret ([], ks, header)
  | a :: attrs =>
      let count := (count + 1)%Z in
      let name := attr_name a in
      let value := bytes_of_string (attr_value a) in
      let header := <[name := count]> header in
      '(value, ks) ←
        (if encrypt then
           let attributeKey := entry_key preK0 name in
           v ← CBCPKCS7Encrypt B ReadFull attributeKey (value ++ Padding);
           mret (v, <[name := attributeKey]> ks)
         else mret (value, ks));
      let ext := mkExtension [1; 2; 3; 4; 5; 6; 9 + count]%Z false value in
      '(exts, ks, header) ← attr_extensions preK0 encrypt count attrs ks header;
      mret (ext :: exts, ks, header)
  end.

(** [generateExtensions]. *)
Definition generateExtensions (tcertid : Z) (tidx : bytes) (enrollmentCert : Certificate)
    (batchRequest : GetBatchRequest) : comp W (list Extension * gmap string bytes) :=
  let attrs := Attrs batchRequest in
  let preK1 := PreKey batchRequest in
  let preK0 := hmac384 preK1 (Bytes tcertid) in
  let enrollmentIDKey := entry_key preK0 "enrollmentID" in
  let enrollmentID := bytes_of_string (GetEnrollmentIDFromCert enrollmentCert) ++ Padding in
  encEnrollmentID ← CBCPKCS7Encrypt B ReadFull enrollmentIDKey enrollmentID;
  let ks := <["enrollmentId" := enrollmentIDKey]> ∅ in
  '(exts, ks, attributesHeader) ← attr_extensions preK0 (EncryptAttrs batchRequest) 0 attrs ks ∅;
  let exts := exts ++ [mkExtension TCertEncTCertIndex true tidx] in
  let exts := exts ++ [mkExtension TCertEncEnrollmentID false encEnrollmentID] in
  let exts := if (0 <? length attrs)%nat
              then exts ++ [mkExtension TCertAttributesHeaders false
                              (buildAttributesHeader attributesHeader)]
              else exts in
  mret (exts, ks).

(** [createHMACKey]: a failing read leaves zero bytes. *)
Definition read_or_zero (n : nat) : comp W bytes :=
  r ← attempt (ReadFull n);
  mret (match r with inr b => b | inl _ => replicate n x00 end).

Definition createHMACKey : comp W string := key ← read_or_zero 49; mret (StdEncode key).

(** One TCert: the body of the loop of [GetBatch]. *)
Definition make_tcert (tm : Mgr) (req : GetBatchRequest) (ecert : Certificate) (pub : Z)
    (nonce kdfKey : bytes) (notBefore notAfter : Z) (i : nat) : comp W TCert :=
  tcertid ← map_err (fun err => Errorf "Failure generating UUID: %s" [FStr (Error err)])
              (GenerateIntUUID ReadFull);
  let tidx := bytes_of_string (Itoa (2 * Z.of_nat i + 1)) ++ nonce ++ Padding in
  let extKey := take 32 (hmac384 kdfKey [x01]) in
  let m := hmac384 (hmac384 kdfKey [x02]) tidx in
  let k := (SetBytes m `mod` (curve_N curve - 1) + 1)%Z in
  let txPub := curve_Add curve (point curve pub) (ScalarBaseMult curve (Bytes k)) in
  encryptedTidx ← CBCPKCS7Encrypt B ReadFull extKey tidx;
  '(extensions, ks) ← generateExtensions tcertid encryptedTidx ecert req;
  raw ← map_err (fun err => Errorf "Failed in TCert x509.CreateCertificate: %s" [FStr (Error err)])
          (lift (CreateCertificate (mkTemplate notBefore notAfter txPub extensions tcertid)
                   (CACert tm) (CAKey tm)));
  mret (mkTCert (ConvertDERToPEM raw "CERTIFICATE") ks).

Fixpoint make_tcerts (mk : nat -> comp W TCert) (i n : nat) : comp W (list TCert) :=
  match n with
  | O => mret []
  | S n => t ← mk i; ts ← make_tcerts mk (S i) n; mret (t :: ts)
  end.

(** The number of TCerts a request gets. *)
Definition batch_size (tm : Mgr) (req : GetBatchRequest) : option Z :=
  if (Count req =? 0)%Z then Some (MaxAllowedBatchSize tm)
  else if (Count req <=? MaxAllowedBatchSize tm)%Z then Some (Count req)
  else None.

Definition validity (tm : Mgr) (req : GetBatchRequest) : Z :=
  let vp := mgr_ValidityPeriod tm in
  if (ValidityPeriod req >? 0)%Z && (ValidityPeriod req <? vp)%Z then ValidityPeriod req else vp.

(** [GetBatch].  Only the first half of the nonce is filled. *)
Definition GetBatch (tm : Mgr) (req : GetBatchRequest) (ecert : Certificate)
    : comp W GetBatchResponse :=
  match batch_size tm req with
  | None => fail (Errorf "You may not request %d TCerts; the maximum is %d"
                    [FInt (Count req); FInt (MaxAllowedBatchSize tm)])
  | Some numTCertsInBatch =>
      let vp := validity tm req in
      notBefore ← clock;
      let notAfter := (notBefore + vp)%Z in
      half ← read_or_zero 8;
      let nonce := half ++ replicate 8 x00 in
      match PubKey ecert with
      | ECDSAKey pub =>
          hmacKey ← createHMACKey;
          let kdfKey := hmac384 (bytes_of_string hmacKey) (MarshalPKIXPublicKey pub) in
          set ← make_tcerts (make_tcert tm req ecert pub nonce kdfKey notBefore notAfter) 0
                  (Z.to_nat numTCertsInBatch);
          randomNum ← rand_Int (big_Exp 10 20);
          let tcertID := GenNumber (fun _ => randomNum) 20 in
          ts ← clock;
          mret (mkGetBatchResponse tcertID ts kdfKey set)
      | _ => lift (Panic "interface conversion: interface is not *ecdsa.PublicKey")
      end
  end.
End TCert.

(** ** What a batch contains *)

(** The environment works: random bytes and the clock are available, HMAC has
    its length, and [x509.CreateCertificate] returns, with a certificate or
    with an error. *)
Class TCertEnv {W : Type} (hmac384 : bytes -> bytes -> bytes) (ReadFull : nat -> comp W bytes)
    (clock : comp W Z) (rand_Int : Z -> comp W Z)
    (CreateCertificate : Template -> Certificate -> PrivateKey -> outcome bytes) := {
  env_read : forall n w, exists b w', ReadFull n w = (Ok b, w') /\ length b = n;
  env_hmac : forall k m, length (hmac384 k m) = 48%nat;
  env_clock : forall w, exists t w', clock w = (Ok t, w');
  env_rand : forall m w, (0 < m)%Z -> exists z w', rand_Int m w = (Ok z, w') /\ (0 <= z < m)%Z;
  env_create : forall t c k,
    (exists raw, CreateCertificate t c k = Ok raw) \/ (exists e, CreateCertificate t c k = Err e)
}.

(** How an attribute's value appears in its extension. *)
Definition value_ok (B : BlockCipher) (key : bytes) (encrypt : bool) (plain value : bytes) : Prop :=
  if encrypt then (CBCPKCS7Decrypt B key value).1 = Ok (plain ++ Padding) else value = plain.

(** The keys handed back, and the header: a later attribute wins. *)
Definition add_keys (key_of : string -> bytes) (attrs : list Attribute) (ks : gmap string bytes)
    : gmap string bytes :=
  foldl (fun ks a => <[attr_name a := key_of (attr_name a)]> ks) ks attrs.

Fixpoint add_header (count : Z) (attrs : list Attribute) (m : gmap string Z) : gmap string Z :=
  match attrs with
  | [] => m
  | a :: attrs => add_header (count + 1) attrs (<[attr_name a := (count + 1)%Z]> m)
  end.

Section batch.
Context (B : BlockCipher) `{!CipherLaws B} (hmac384 : bytes -> bytes -> bytes).
Context (range : gmap string Z -> list (string * Z)).
Context (curve : Curve) (MarshalPKIXPublicKey : Z -> bytes).
Context (CreateCertificate : Template -> Certificate -> PrivateKey -> outcome bytes).
Context {W : Type} (ReadFull : nat -> comp W bytes) (clock : comp W Z) (rand_Int : Z -> comp W Z).
Context `{E : !TCertEnv hmac384 ReadFull clock rand_Int CreateCertificate}.

Lemma entry_key_valid preK0 name : valid_key (entry_key hmac384 preK0 name) = true.
Proof.
  unfold valid_key, entry_key. rewrite length_take, (env_hmac (TCertEnv := E)). done.
Qed.

Lemma encrypt_total key msg w :
  valid_key key = true ->
  exists ct w', CBCPKCS7Encrypt B ReadFull key msg w = (Ok ct, w')
    /\ (CBCPKCS7Decrypt B key ct).1 = Ok msg.
Proof.
  intros Hk. destruct (env_read (TCertEnv := E) BlockSize w) as (iv & w' & Hr & Hl).
  destruct (CBCPKCS7_run B ReadFull key msg w iv w' Hk Hr Hl) as (ct & He & Hd).
  exists ct, w'. by rewrite Hd.
Qed.

Lemma attr_extensions_run preK0 encrypt attrs : forall count ks header w,
  exists exts w', attr_extensions B hmac384 ReadFull preK0 encrypt count attrs ks header w
      = (Ok (exts, if encrypt then add_keys (entry_key hmac384 preK0) attrs ks else ks,
             add_header count attrs header), w')
    /\ length exts = length attrs
    /\ forall i a, attrs !! i = Some a -> exists e, exts !! i = Some e
         /\ ext_Id e = [1; 2; 3; 4; 5; 6; 9 + (count + Z.of_nat i + 1)]%Z
         /\ value_ok B (entry_key hmac384 preK0 (attr_name a)) encrypt
              (bytes_of_string (attr_value a)) (ext_Value e).
Proof.
  induction attrs as [|a attrs IH]; intros count ks header w.
  { exists [], w. destruct encrypt; done. }
  cbn [attr_extensions add_header].
  assert (exists value w1, (if encrypt then
      v ← CBCPKCS7Encrypt B ReadFull (entry_key hmac384 preK0 (attr_name a))
            (bytes_of_string (attr_value a) ++ Padding);
      mret (v, <[attr_name a := entry_key hmac384 preK0 (attr_name a)]> ks)
    else mret (bytes_of_string (attr_value a), ks) : comp W _) w =
      (Ok (value, if encrypt then <[attr_name a := entry_key hmac384 preK0 (attr_name a)]> ks else ks), w1)
      /\ value_ok B (entry_key hmac384 preK0 (attr_name a)) encrypt (bytes_of_string (attr_value a)) value)
    as (value & w1 & Hv & Hok).
  { destruct encrypt; [|by exists (bytes_of_string (attr_value a)), w].
    destruct (encrypt_total (entry_key hmac384 preK0 (attr_name a))
      (bytes_of_string (attr_value a) ++ Padding) w (entry_key_valid _ _)) as (ct & w1 & He & Hd).
    exists ct, w1. by rewrite (bind_ok _ _ _ _ _ He). }
  rewrite (bind_ok _ _ _ _ _ Hv).
  edestruct IH as (exts & w2 & Hrun & Hlen & Hexts).
  rewrite (bind_ok _ _ _ _ _ Hrun). eexists (_ :: exts), w2. split; [by destruct encrypt|].
  split; [simpl; by rewrite Hlen|]. intros [|i] a' Ha'.
  - injection Ha' as <-. eexists. split; [reflexivity|]. split; [|exact Hok].
    simpl. do 8 f_equal. lia.
  - destruct (Hexts i a' Ha') as (e & He & Hid & Hval). exists e. split; [done|].
    split; [|done]. rewrite Hid. do 8 f_equal. lia.
Qed.

(** The extensions of one TCert. *)
Lemma generateExtensions_run tcertid tidx ecert req w :
  let preK0 := hmac384 (PreKey req) (Bytes tcertid) in
  exists aexts eid w',
    generateExtensions B hmac384 range ReadFull tcertid tidx ecert req w =
      (Ok (aexts ++ [mkExtension TCertEncTCertIndex true tidx;
                     mkExtension TCertEncEnrollmentID false eid]
                 ++ (if (0 <? length (Attrs req))%nat
                     then [mkExtension TCertAttributesHeaders false
                             (buildAttributesHeader range (add_header 0 (Attrs req) ∅))]
                     else []),
           let ks := <["enrollmentId" := entry_key hmac384 preK0 "enrollmentID"]> ∅ in
           if EncryptAttrs req then add_keys (entry_key hmac384 preK0) (Attrs req) ks else ks), w')
    /\ length aexts = length (Attrs req)
    /\ (CBCPKCS7Decrypt B (entry_key hmac384 preK0 "enrollmentID") eid).1
         = Ok (bytes_of_string (CommonName ecert) ++ Padding)
    /\ forall i a, Attrs req !! i = Some a -> exists e, aexts !! i = Some e
         /\ ext_Id e = [1; 2; 3; 4; 5; 6; 9 + (Z.of_nat i + 1)]%Z
         /\ value_ok B (entry_key hmac384 preK0 (attr_name a)) (EncryptAttrs req)
              (bytes_of_string (attr_value a)) (ext_Value e).
Proof.
  intros preK0. unfold generateExtensions.
  destruct (encrypt_total (entry_key hmac384 preK0 "enrollmentID")
    (bytes_of_string (CommonName ecert) ++ Padding) w (entry_key_valid _ _)) as (eid & w1 & He & Hd).
  rewrite (bind_ok _ _ _ _ _ He).
  edestruct attr_extensions_run as (aexts & w2 & Hrun & Hlen & Hexts).
  rewrite (bind_ok _ _ _ _ _ Hrun). exists aexts, eid, w2.
  split; [|split; [done|]; split; [done|exact Hexts]].
  destruct (0 <? length (Attrs req))%nat; by rewrite <- ?app_assoc.
Qed.
End batch.

Lemma add_keys_lookup key_of attrs ks n :
  add_keys key_of attrs ks !! n =
    if decide (n ∈ map attr_name attrs) then Some (key_of n) else ks !! n.
Proof.
  unfold add_keys. revert ks. induction attrs as [|a attrs IH]; intros ks; [done|].
  cbn [foldl map]. rewrite IH. destruct (decide (n ∈ map attr_name attrs)) as [H|H].
  - rewrite decide_True by set_solver. done.
  - destruct (decide (n = attr_name a)) as [->|Hne].
    + rewrite lookup_insert_eq, decide_True by set_solver. done.
    + rewrite lookup_insert_ne, decide_False by set_solver. done.
Qed.


(** An encrypted attribute called [enrollmentId] takes the place of the
    enrollment ID's key: what is returned under that name is derived from the
    label [enrollmentId], while the identity was encrypted under the key of
    the label [enrollmentID]. *)
Theorem tcert_enrollment_key_lost B `{!CipherLaws B} hmac384 range CreateCertificate
    {W} (ReadFull : nat -> comp W bytes) clock rand_Int
    `{E : !TCertEnv hmac384 ReadFull clock rand_Int CreateCertificate} tcertid tidx ecert req w :
  EncryptAttrs req = true -> "enrollmentId" ∈ map attr_name (Attrs req) ->
  let preK0 := hmac384 (PreKey req) (Bytes tcertid) in
  exists exts ks w' e,
    generateExtensions B hmac384 range ReadFull tcertid tidx ecert req w = (Ok (exts, ks), w')
    /\ exts !! (length (Attrs req) + 1)%nat = Some e /\ ext_Id e = TCertEncEnrollmentID
    /\ (CBCPKCS7Decrypt B (take 32 (hmac384 preK0 (bytes_of_string "enrollmentID"))) (ext_Value e)).1
         = Ok (bytes_of_string (CommonName ecert) ++ Padding)
    /\ ks !! "enrollmentId" = Some (take 32 (hmac384 preK0 (bytes_of_string "enrollmentId"))).
Proof.
  intros Henc Hin preK0.
  destruct (generateExtensions_run B hmac384 range CreateCertificate ReadFull clock rand_Int
    tcertid tidx ecert req w) as (aexts & eid & w' & Hrun & Hlen & Heid & _).
  eexists _, _, w', _. split; [exact Hrun|]. cbv zeta.
  split; [rewrite lookup_app_r by lia;
          replace (length (Attrs req) + 1 - length aexts)%nat with 1%nat by lia; reflexivity|].
  split; [done|]. split; [exact Heid|].
  by rewrite Henc, add_keys_lookup, decide_True.
Qed.

(** An environment for the witnesses. *)
Definition toy_hmac (k m : bytes) : bytes := take 48 (m ++ k ++ replicate 48 x00).

#[export] Instance toy_env :
  TCertEnv toy_hmac toy_random (mret 5%Z) (fun m => mret 0%Z) (fun _ _ _ => Ok [x30]).
Proof.
  split.
  - intros n w. exists (replicate n xaa), w. split; [done|]. by rewrite length_replicate.
  - intros k m. unfold toy_hmac. rewrite length_take, !length_app, length_replicate. lia.
  - intros w. by eexists _, _.
  - intros m w Hm. exists 0%Z, w. split; [done|lia].
  - intros. left. by eexists.
Defined.

Definition toy_range (m : gmap string Z) : list (string * Z) := map_to_list m.

Definition toy_req (name : string) : GetBatchRequest :=
  mkGetBatchRequest 2 [mkAttribute name "v"] true 0 [x70].

Lemma tcert_enrollment_key_lost_witness :
  exists exts ks w' e,
    generateExtensions toy_cipher toy_hmac toy_range toy_random 9 [x01] (toy_cert (ECDSAKey 7))
      (toy_req "enrollmentId") tt = (Ok (exts, ks), w')
    /\ exts !! 2%nat = Some e /\ ext_Id e = TCertEncEnrollmentID
    /\ (CBCPKCS7Decrypt toy_cipher (take 32 (toy_hmac (toy_hmac [x70] (Bytes 9))
          (bytes_of_string "enrollmentID"))) (ext_Value e)).1 = Ok (bytes_of_string "admin" ++ Padding)
    /\ ks !! "enrollmentId" = Some (take 32 (toy_hmac (toy_hmac [x70] (Bytes 9))
          (bytes_of_string "enrollmentId"))).
Proof.
  exact (tcert_enrollment_key_lost toy_cipher toy_hmac toy_range (fun _ _ _ => Ok [x30]) toy_random
    (mret 5%Z) (fun m => mret 0%Z) 9 [x01] (toy_cert (ECDSAKey 7)) (toy_req "enrollmentId") tt
    eq_refl ltac:(by left)).
Defined.


Section batch_total.
Context (B : BlockCipher) `{!CipherLaws B} (hmac384 : bytes -> bytes -> bytes).
Context (range : gmap string Z -> list (string * Z)).
Context (curve : Curve) (MarshalPKIXPublicKey : Z -> bytes).
Context (CreateCertificate : Template -> Certificate -> PrivateKey -> outcome bytes).
Context {W : Type} (ReadFull : nat -> comp W bytes) (clock : comp W Z) (rand_Int : Z -> comp W Z).
Context `{E : !TCertEnv hmac384 ReadFull clock rand_Int CreateCertificate}.

(** The certificate that is made for the [i]th TCert of a batch, and the keys
    that go with it: the template has the period and the serial number; its
    public key is the owner's moved by a number derived from the batch key and
    the index; its extensions are one per attribute, in order, then the index,
    the owner's identity and, when there are attributes, their header.  The
    index is under a key derived from the batch key, the identity and the
    attributes' values (when encryption is asked for) under keys derived from
    the pre-key and the serial number, which are the keys handed back. *)
Definition tcert_template (req : GetBatchRequest) (ecert : Certificate) (pub : Z) (nonce kdfKey : bytes)
    (notBefore notAfter : Z) (i : nat) (serial : Z) (tmpl : Template) (ks : gmap string bytes) : Prop :=
  let tidx := bytes_of_string (Itoa (2 * Z.of_nat i + 1)) ++ nonce ++ replicate 16 xff in
  let k := (SetBytes (hmac384 (hmac384 kdfKey [x02]) tidx) `mod` (curve_N curve - 1) + 1)%Z in
  let preK0 := hmac384 (PreKey req) (Bytes serial) in
  let key_of name := take 32 (hmac384 preK0 (bytes_of_string name)) in
  exists aexts idx eid,
    tmpl = mkTemplate notBefore notAfter (curve_Add curve (point curve pub) (ScalarBaseMult curve (Bytes k)))
             (aexts ++ [mkExtension [1; 2; 3; 4; 5; 6; 7]%Z true idx; mkExtension [1; 2; 3; 4; 5; 6; 8]%Z false eid]
                ++ match Attrs req with
                   | [] => []
                   | _ => [mkExtension [1; 2; 3; 4; 5; 6; 9]%Z false
                             (buildAttributesHeader range (add_header 0 (Attrs req) ∅))]
                   end) serial
    /\ (CBCPKCS7Decrypt B (take 32 (hmac384 kdfKey [x01])) idx).1 = Ok tidx
    /\ (CBCPKCS7Decrypt B (key_of "enrollmentID") eid).1 = Ok (bytes_of_string (CommonName ecert) ++ replicate 16 xff)
    /\ length aexts = length (Attrs req)
    /\ (forall j a, Attrs req !! j = Some a -> exists e, aexts !! j = Some e
         /\ ext_Id e = [1; 2; 3; 4; 5; 6; 9 + (Z.of_nat j + 1)]%Z
         /\ if EncryptAttrs req
            then (CBCPKCS7Decrypt B (key_of (attr_name a)) (ext_Value e)).1
                 = Ok (bytes_of_string (attr_value a) ++ replicate 16 xff)
            else ext_Value e = bytes_of_string (attr_value a))
    /\ forall name, ks !! name =
         if bool_decide (EncryptAttrs req = true /\ name ∈ map attr_name (Attrs req)) then Some (key_of name)
         else if bool_decide (name = "enrollmentId") then Some (key_of "enrollmentID") else None.

(** A TCert of the batch, and one that could not be created. *)
Definition tcert_made (tm : Mgr) (req : GetBatchRequest) (ecert : Certificate) (pub : Z) (nonce kdfKey : bytes)
    (notBefore notAfter : Z) (i : nat) (t : TCert) : Prop :=
  exists serial tmpl raw,
    tcert_template req ecert pub nonce kdfKey notBefore notAfter i serial tmpl (tc_Keys t)
    /\ CreateCertificate tmpl (CACert tm) (CAKey tm) = Ok raw
    /\ tc_Cert t = ConvertDERToPEM raw "CERTIFICATE".

Definition tcert_failed (tm : Mgr) (req : GetBatchRequest) (ecert : Certificate) (pub : Z) (nonce kdfKey : bytes)
    (notBefore notAfter : Z) (i : nat) : Prop :=
  exists serial tmpl ks e,
    tcert_template req ecert pub nonce kdfKey notBefore notAfter i serial tmpl ks
    /\ CreateCertificate tmpl (CACert tm) (CAKey tm) = Err e.

Lemma make_tcert_run tm req ecert pub nonce kdfKey nb na i w :
  exists o w', make_tcert B hmac384 range curve CreateCertificate ReadFull
                 tm req ecert pub nonce kdfKey nb na i w = (o, w')
    /\ ((exists t, o = Ok t /\ tcert_made tm req ecert pub nonce kdfKey nb na i t)
        \/ exists e, o = Err e /\ tcert_failed tm req ecert pub nonce kdfKey nb na i).
Proof.
  unfold make_tcert, GenerateIntUUID, GenerateBytesUUID.
  destruct (env_read (TCertEnv := E) 16 w) as (u & w1 & Hu & _).
  set (serial := SetBytes (set_uuid_bits u)). rewrite (bind_ok _ _ _ serial w1).
  2:{ unfold map_err, mbind, comp_bind. by rewrite Hu. }
  assert (Hk : valid_key (take 32 (hmac384 kdfKey [x01])) = true).
  { unfold valid_key. rewrite length_take, (env_hmac (TCertEnv := E)). done. }
  destruct (encrypt_total B hmac384 CreateCertificate ReadFull clock rand_Int _
    (bytes_of_string (Itoa (2 * Z.of_nat i + 1)) ++ nonce ++ Padding) w1 Hk) as (ct & w2 & Hct & Hidx).
  rewrite (bind_ok _ _ _ _ _ Hct).
  destruct (generateExtensions_run B hmac384 range CreateCertificate ReadFull clock rand_Int
    serial ct ecert req w2) as (aexts & eid & w3 & Hg & Hlen & Heid & Hexts).
  rewrite (bind_ok _ _ _ _ _ Hg). cbv zeta.
  match goal with |- context [CreateCertificate ?t ?c ?k] => set (tmpl := t) end.
  set (ks := if EncryptAttrs req then _ else _).
  assert (Ht : tcert_template req ecert pub nonce kdfKey nb na i serial tmpl ks).
  { exists aexts, ct, eid. split; [|split; [exact Hidx|split; [exact Heid|split; [exact Hlen|split; [exact Hexts|]]]]].
    - unfold tmpl. do 3 f_equal. by destruct (Attrs req).
    - intros n. unfold ks. destruct (EncryptAttrs req).
      + rewrite add_keys_lookup. case_decide.
        * by rewrite bool_decide_true.
        * rewrite (bool_decide_false (true = true /\ _)) by naive_solver. case_bool_decide as En; [subst; by rewrite lookup_insert_eq|].
          rewrite lookup_insert_ne by done. by rewrite lookup_empty.
      + rewrite (bool_decide_false (false = true /\ _)) by naive_solver. case_bool_decide as En; [subst; by rewrite lookup_insert_eq|].
        rewrite lookup_insert_ne by done. by rewrite lookup_empty. }
  destruct (env_create (TCertEnv := E) tmpl (CACert tm) (CAKey tm)) as [[raw Hraw]|[e Hraw]].
  - eexists _, w3. split; [by rewrite (bind_ok _ _ _ raw w3) by (unfold map_err, lift; by rewrite Hraw)|].
    left. eexists. split; [reflexivity|]. by exists serial, tmpl, raw.
  - eexists _, w3. split; [eapply bind_err; unfold map_err, lift; by rewrite Hraw|].
    right. eexists. split; [reflexivity|]. by exists serial, tmpl, ks, e.
Qed.

Lemma make_tcerts_run made failed mk n :
  (forall i w, exists o w', mk i w = (o, w')
     /\ ((exists t, o = Ok t /\ made i t) \/ exists e, o = Err e /\ failed i)) ->
  forall i (w : W), exists o w', make_tcerts mk i n w = (o, w')
    /\ ((exists ts : list TCert, o = Ok ts /\ length ts = n /\ forall j t, ts !! j = Some t -> made (i + j)%nat t)
        \/ exists e j, o = Err e /\ (j < n)%nat /\ failed (i + j)%nat).
Proof.
  intros Hmk. induction n as [|n IH]; intros i w.
  { eexists _, w. split; [reflexivity|]. left. exists []. split; [done|]. split; [done|]. by intros j t. }
  cbn [make_tcerts]. destruct (Hmk i w) as (o & w1 & Ht & [(t & -> & Hok)|(e & -> & Hbad)]).
  2:{ eexists _, w1. split; [exact (bind_err _ _ _ _ _ Ht)|]. right. exists e, 0%nat. rewrite Nat.add_0_r.
      split; [done|]. split; [lia|done]. }
  rewrite (bind_ok _ _ _ _ _ Ht). destruct (IH (S i) w1) as (o & w2 & Hts & [(ts & -> & Hl & Hall)|(e & j & -> & Hj & Hbad)]).
  - eexists _, w2. split; [by rewrite (bind_ok _ _ _ _ _ Hts)|]. left. exists (t :: ts). split; [done|].
    split; [simpl; lia|]. intros [|j] t' Hj; [rewrite Nat.add_0_r; by injection Hj as <-|].
    rewrite Nat.add_succ_r. by apply (Hall j t').
  - eexists _, w2. split; [exact (bind_err _ _ _ _ _ Hts)|]. right. exists e, (S j). rewrite Nat.add_succ_r.
    split; [done|]. split; [lia|done].
Qed.

Lemma read_or_zero_run n w : exists b w', read_or_zero ReadFull n w = (Ok b, w') /\ length b = n.
Proof.
  destruct (env_read (TCertEnv := E) n w) as (b & w' & Hr & Hl). exists b, w'. split; [|done].
  unfold read_or_zero. by rewrite (bind_attempt_ok _ _ _ _ _ Hr).
Qed.

(** What a batch of [n] TCerts is: made for the request, from [notBefore] for
    the smaller of the period asked for, if any, and the manager's, under one
    nonce and one batch key, derived from the owner's public key and 49 random
    bytes; or the failure to create one of its certificates. *)
Definition batch_result (tm : Mgr) (req : GetBatchRequest) (ecert : Certificate) (pub : Z) (n : Z) (notBefore : Z)
    (o : outcome GetBatchResponse) : Prop :=
  let period := (if 0 <? ValidityPeriod req then Z.min (ValidityPeriod req) (mgr_ValidityPeriod tm)
                 else mgr_ValidityPeriod tm)%Z in
  exists half hmacKey,
    length half = 8%nat /\ length hmacKey = 49%nat /\
    let nonce := half ++ replicate 8 x00 in
    let kdfKey := hmac384 (bytes_of_string (StdEncode hmacKey)) (MarshalPKIXPublicKey pub) in
    match o with
    | Ok resp =>
        gb_Key resp = kdfKey /\ Z.of_nat (length (gb_TCerts resp)) = n /\ (10 ^ 19 <= gb_ID resp < 10 ^ 20)%Z
        /\ forall i t, gb_TCerts resp !! i = Some t ->
             tcert_made tm req ecert pub nonce kdfKey notBefore (notBefore + period) i t
    | Err _ => exists i, (Z.of_nat i < n)%Z /\ tcert_failed tm req ecert pub nonce kdfKey notBefore (notBefore + period) i
    | _ => False
    end.

Lemma validity_min tm req :
  validity tm req = (if 0 <? ValidityPeriod req then Z.min (ValidityPeriod req) (mgr_ValidityPeriod tm)
                     else mgr_ValidityPeriod tm)%Z.
Proof.
  unfold validity. rewrite Z.gtb_ltb. destruct (Z.ltb_spec 0 (ValidityPeriod req)); [|done]. cbn [andb].
  destruct (Z.ltb_spec (ValidityPeriod req) (mgr_ValidityPeriod tm)); lia.
Qed.

Lemma GetBatch_run tm req ecert pub n w :
  PubKey ecert = ECDSAKey pub -> batch_size tm req = Some n -> (0 <= n)%Z ->
  exists nb w1 o w', clock w = (Ok nb, w1)
    /\ GetBatch B hmac384 range curve MarshalPKIXPublicKey CreateCertificate
         ReadFull clock rand_Int tm req ecert w = (o, w')
    /\ batch_result tm req ecert pub n nb o.
Proof.
  intros Hpub Hn Hpos. unfold GetBatch. rewrite Hn.
  destruct (env_clock (TCertEnv := E) w) as (nb & w1 & Hc). exists nb, w1.
  rewrite (bind_ok _ _ _ _ _ Hc).
  destruct (read_or_zero_run 8 w1) as (half & w2 & Hh & Hlh). rewrite (bind_ok _ _ _ _ _ Hh), Hpub.
  destruct (read_or_zero_run 49 w2) as (hk & w3 & Hhk & Hlk).
  rewrite (bind_ok _ _ _ (StdEncode hk) w3) by (unfold createHMACKey; by rewrite (bind_ok _ _ _ _ _ Hhk)).
  set (kdf := hmac384 (bytes_of_string (StdEncode hk)) (MarshalPKIXPublicKey pub)).
  set (na := (nb + validity tm req)%Z).
  destruct (make_tcerts_run (tcert_made tm req ecert pub (half ++ replicate 8 x00) kdf nb na)
    (tcert_failed tm req ecert pub (half ++ replicate 8 x00) kdf nb na)
    (make_tcert B hmac384 range curve CreateCertificate ReadFull tm req ecert pub
       (half ++ replicate 8 x00) kdf nb na) (Z.to_nat n)
    (fun i w => make_tcert_run tm req ecert pub _ _ _ _ i w) 0 w3)
    as (o & w4 & Hts & [(ts & -> & Hlen & Hall)|(e & j & -> & Hj & Hbad)]).
  2:{ eexists _, w4. split; [done|]. split; [exact (bind_err _ _ _ _ _ Hts)|].
      exists half, hk. split; [done|]. split; [done|]. cbv zeta. exists j. split; [lia|].
      rewrite <- validity_min. exact Hbad. }
  rewrite (bind_ok _ _ _ _ _ Hts).
  destruct (env_rand (TCertEnv := E) (big_Exp 10 20) w4) as (z & w5 & Hz & Hzr); [done|].
  rewrite (bind_ok _ _ _ _ _ Hz). destruct (env_clock (TCertEnv := E) w5) as (ts' & w6 & Hc').
  rewrite (bind_ok _ _ _ _ _ Hc'). eexists _, w6. split; [done|]. split; [reflexivity|].
  exists half, hk. split; [done|]. split; [done|]. cbv zeta. cbn [gb_Key gb_TCerts gb_ID].
  split; [done|]. split; [lia|]. split; [apply (GenNumber_range (fun _ => z) 20); [lia|done]|].
  rewrite <- validity_min. exact Hall.
Qed.
End batch_total.

(** [GetBatch] for an ECDSA enrollment certificate: asked for no count it
    makes the maximum, asked for at most the maximum it makes that many, as
    [batch_result] specifies, or fails because a certificate could not be
    created; asked for more it refuses and nothing happens. *)
Theorem GetBatch_spec B `{!CipherLaws B} hmac384 range curve pkix CreateCertificate
    {W} (ReadFull : nat -> comp W bytes) clock rand_Int
    `{E : !TCertEnv hmac384 ReadFull clock rand_Int CreateCertificate} tm req ecert pub w :
  PubKey ecert = ECDSAKey pub -> (0 <= Count req)%Z -> (0 <= MaxAllowedBatchSize tm)%Z ->
  let run := GetBatch B hmac384 range curve pkix CreateCertificate ReadFull clock rand_Int
               tm req ecert w in
  if (Count req <=? MaxAllowedBatchSize tm)%Z
  then exists nb w1 o w', clock w = (Ok nb, w1) /\ run = (o, w')
    /\ batch_result B hmac384 range curve pkix CreateCertificate tm req ecert pub
         (if (Count req =? 0)%Z then MaxAllowedBatchSize tm else Count req) nb o
  else exists e, run = (Err e, w).
Proof.
  intros Hpub Hc Hm run. subst run. destruct (Z.leb_spec (Count req) (MaxAllowedBatchSize tm)) as [Hle|Hgt].
  - apply (GetBatch_run B hmac384 range curve pkix CreateCertificate ReadFull clock rand_Int
      tm req ecert pub (if (Count req =? 0)%Z then MaxAllowedBatchSize tm else Count req) w Hpub).
    { unfold batch_size. destruct (Count req =? 0)%Z; [done|]. by rewrite (proj2 (Z.leb_le _ _)). }
    { destruct (Count req =? 0)%Z; lia. }
  - unfold GetBatch, batch_size. rewrite (proj2 (Z.eqb_neq _ _)), (proj2 (Z.leb_gt _ _)) by lia.
    by eexists.
Qed.

(** [GetBatch] panics for an enrollment certificate whose key is not ECDSA
    (the program otherwise supports RSA enrollment keys). *)
Theorem GetBatch_rsa_panics B `{!CipherLaws B} hmac384 range curve pkix CreateCertificate
    {W} (ReadFull : nat -> comp W bytes) clock rand_Int
    `{E : !TCertEnv hmac384 ReadFull clock rand_Int CreateCertificate} tm req ecert k w :
  PubKey ecert = RSAKey k -> (0 < Count req <= MaxAllowedBatchSize tm)%Z ->
  exists p, (GetBatch B hmac384 range curve pkix CreateCertificate ReadFull clock rand_Int
               tm req ecert w).1 = Panic p.
Proof.
  intros Hk Hc. unfold GetBatch, batch_size.
  rewrite (proj2 (Z.eqb_neq _ _)), (proj2 (Z.leb_le _ _)) by lia.
  destruct (env_clock (TCertEnv := E) w) as (nb & w1 & Hcl). rewrite (bind_ok _ _ _ _ _ Hcl).
  destruct (read_or_zero_run hmac384 CreateCertificate ReadFull clock rand_Int 8 w1) as (half & w2 & Hh & _).
  rewrite (bind_ok _ _ _ _ _ Hh), Hk. by eexists.
Qed.

Definition toy_curve : Curve := mkCurve 97 (fun k => (k, k)) (fun b => (SetBytes b, 0%Z)) (fun p q => p).

Definition toy_mgr : Mgr := NewMgr (ECPriv 1) (toy_cert (ECDSAKey 1)).

Lemma GetBatch_spec_witness :
  exists resp w', GetBatch toy_cipher toy_hmac toy_range toy_curve (fun _ => []) (fun _ _ _ => Ok [x30])
      toy_random (mret 5%Z) (fun m => mret 0%Z) toy_mgr (toy_req "role")
      (toy_cert (ECDSAKey 7)) tt = (Ok resp, w')
    /\ Z.of_nat (length (gb_TCerts resp)) = 2%Z.
Proof.
  pose proof (GetBatch_spec toy_cipher toy_hmac toy_range toy_curve (fun _ => []) (fun _ _ _ => Ok [x30])
    toy_random (mret 5%Z) (fun m => mret 0%Z) toy_mgr (toy_req "role")
    (toy_cert (ECDSAKey 7)) 7 tt eq_refl ltac:(done) ltac:(done)) as H.
  change (2 <=? 1000)%Z with true in H. cbv iota zeta in H.
  destruct H as (nb & w1 & o & w' & _ & H1 & H). unfold batch_result in H.
  destruct H as (half & hk & _ & _ & H2).
  destruct o as [resp|e|q|q|]; [|destruct H2 as (i & _ & serial & tmpl & ks & e' & _ & H2); discriminate H2|destruct H2..].
  exists resp, w'. split; [exact H1|]. apply H2.
Defined.

Lemma GetBatch_rsa_panics_witness :
  exists p, (GetBatch toy_cipher toy_hmac toy_range toy_curve (fun _ => []) (fun _ _ _ => Ok [x30])
      toy_random (mret 5%Z) (fun m => mret 0%Z) toy_mgr (toy_req "role")
      (toy_cert (RSAKey 7)) tt).1 = Panic p.
Proof.
  apply (GetBatch_rsa_panics toy_cipher toy_hmac toy_range toy_curve (fun _ => []) (fun _ _ _ => Ok [x30])
    toy_random (mret 5%Z) (fun m => mret 0%Z) toy_mgr (toy_req "role")
    (toy_cert (RSAKey 7)) 7 tt); [reflexivity|simpl; lia].
Defined.
