(* ===== verification/Server.v ===== *)
(** * The server (src/cli/server: tcert.go, server.go)

    The TCert endpoint, the table of the COP endpoints with the
    authentication wrapper around each, and the server as a transition
    system: requests in any order, to any endpoint, interleaved with the
    passing of time and with database failures.  The server's state is the
    database and the TCert handler's key tree. *)

From S2P Require Import Prelude GoStrings GoFmt GoJson CopError Base64 Pem Http Registry GoUnmarshal Token Database DbAccessor CertDB Util Config Register Auth Handlers TCertUtil KeyTree TCert.

Record Srv (Key : Type) := mkSrv { s_db : DB; s_tree : KeyTree (Key := Key) }.
Arguments mkSrv {Key} _ _.
Arguments s_db {Key} _.
Arguments s_tree {Key} _.

(** A computation on one part of the state. *)
Definition onDB {Key A} (m : comp DB A) : comp (Srv Key) A := fun s =>
  let '(o, d) := m (s_db s) in (o, mkSrv d (s_tree s)).

Definition onTree {Key A} (m : comp (KeyTree (Key := Key)) A) : comp (Srv Key) A := fun s =>
  let '(o, t) := m (s_tree s) in (o, mkSrv (s_db s) t).

Section Server.
Context {Key : Type} (KeyDeriv : Key -> string -> outcome Key) (SKI : Key -> bytes).
Context (C : Crypto) (CFG : Config) (userRegistry : UserRegistry DB).
Context (certDBAccessor : option CertDBAccessor.CertDBAccessor).
Context (checkCRL : Certificate -> string -> bool * bool).
Context (randomString : Z -> comp DB string).
Context {SignRequest : Type} (zero_SignRequest : SignRequest) (dec_SignRequest : decoder SignRequest).
Context (issue : SignRequest -> outcome (bytes * CertificateRecord)).
(** The TCert manager's [GetBatch] (see [TCert]) and its response as JSON. *)
Context (mgr_GetBatch : GetBatchRequest -> Certificate -> comp (Srv Key) GetBatchResponse).
Context (GetBatchResponse_json : GetBatchResponse -> json).

(** ** tcert.go *)

(** [getCertFromAuthHdr]: the signature is not verified again here. *)
Definition getCertFromAuthHdr {S} (r : Request) : comp S Certificate :=
  let authHdr := authorization r in
  if bool_decide (authHdr = "") then fail errNoAuthHdr
  else
    '(cert, _, _) ← lift (DecodeToken C authHdr);
    mret cert.

(** The attributes with a value, in the order they were asked for. *)
Fixpoint select_attrs (get : string -> string) (attrNames : list string) : list Attribute :=
  match attrNames with
  | [] => []
  | name :: names =>
      let value := get name in
      if negb (bool_decide (value = "")) then mkAttribute name value :: select_attrs get names
      else select_attrs get names
  end.

Definition getUserInfo (id : string) (attrNames : list string)
    : comp DB (list Attribute * list string) :=
  user ← GetUser userRegistry id attrNames;
  mret (select_attrs (GetAttribute user) attrNames, GetAffiliationPath user).

(** [tcertHandler.handle]. *)
Definition tcertHandler_handle (r : Request) : comp (Srv Key) Response :=
  b ← map_err (fun err => Errorf "Failure reading request body: %s" [FStr (Error err)]) (ReadAll r);
  req ← Unmarshal dec_GetPrivateSignersRequest b zero_GetPrivateSignersRequest "tcert request";
  cert ← getCertFromAuthHdr r;
  let id := GetEnrollmentIDFromCert cert in
  '(attrs, affiliationPath) ← onDB (getUserInfo id (gp_AttrNames req));
  prekey ← map_err (fun err => Errorf "Failed to get prekey for user %s: %s"
                                 [FStr id; FStr (Error err)])
             (onTree (GetKey KeyDeriv affiliationPath));
  let prekeyStr := SKI prekey in
  let tcertReq := mkGetBatchRequest (gp_Count req) attrs (gp_EncryptAttrs req)
                    (gp_ValidityPeriod req) prekeyStr in
  resp ← mgr_GetBatch tcertReq cert;
  mret (SendResponse (GetBatchResponse_json resp)).

(** [tcertHandler.Handle]: every error is a bad request. *)
Definition tcertHandler_Handle (r : Request) : comp (Srv Key) Response :=
  map_err NewBadRequest (tcertHandler_handle r).

Definition NewTCertHandler : Request -> comp (Srv Key) Response :=
  HTTPHandler ["POST"] tcertHandler_Handle.

(** ** server.go *)

(** The COP part of the [endpoints] map. *)
Definition endpoints : list (string * (Request -> comp (Srv Key) Response)) :=
  [("register", fun r => onDB (NewRegisterHandler CFG userRegistry randomString r));
   ("enroll", fun r => onDB (NewEnrollHandler C certDBAccessor zero_SignRequest dec_SignRequest issue r));
   ("reenroll", fun r => onDB (NewReenrollHandler C certDBAccessor zero_SignRequest dec_SignRequest issue r));
   ("revoke", fun r => onDB (NewRevokeHandler C userRegistry certDBAccessor r));
   ("tcert", NewTCertHandler)].

(** [registerHandlers]: path and wrapped handler of every endpoint. *)
Definition registerHandlers : list (string * copAuthHandler (Srv Key)) :=
  omap (fun e : string * (Request -> comp (Srv Key) Response) =>
          match NewAuthWrapper e.1 e.2 None with
          | (path, inr ah) => Some (path, ah)
          | (_, inl _) => None
          end) endpoints.

(** The HTTP server: the handler registered for the request's path. *)
Definition serve (r : Request) : comp (Srv Key) Response :=
  match List.find (fun e : string * copAuthHandler (Srv Key) => bool_decide (e.1 = URL r))
          registerHandlers with
  | Some (_, ah) => ServeHTTP C CFG userRegistry checkCRL onDB ah r
  | None => mret (http_Error "404 page not found" 404)
  end.

(** One step of the server. *)
Inductive srv_step : Srv Key -> Srv Key -> Prop :=
  | srv_request r s : srv_step s (serve r s).2
  | srv_clock s t fs : (now (s_db s) <= t)%Z ->
      srv_step s (mkSrv (mkDB (users (s_db s)) (groups (s_db s)) (certificates (s_db s)) t
                           (rnd (s_db s)) (rnd_pos (s_db s)) fs) (s_tree s)).
End Server.

(** ** Histories of the server *)

(** The user tables' statements leave the certificates alone. *)
Lemma store_ok_users {A} t (f : DB -> outcome A * DB) :
  (forall d, certificates (f d).2 = certificates d) -> store_ok (statement t f).
Proof.
  intros Hf. apply store_ok_statement. intros d. unfold grows, cert_inv. rewrite Hf. split; [|done].
  intros r Hr. by exists r.
Qed.

Lemma store_ok_attempt {A} (m : comp DB A) : store_ok m -> store_ok (attempt m).
Proof. intros Hm d. specialize (Hm d). unfold attempt. by destruct (m d) as [[] ?]. Qed.

Lemma store_ok_gets {A} (f : DB -> A) : store_ok (gets f).
Proof. by intros d. Qed.

Lemma store_ok_random fuel n : store_ok (db_RandomString fuel n).
Proof.
  intros d. unfold db_RandomString. destruct (Util.RandomString _ _ _ _) as [[s p]|?|?|?|]; try done.
  split; [|done]. intros r Hr. by exists r.
Qed.

Section accessor_store.
Context (h : DBHandle).
Let R := accessor_registry (Accessor.mkAccessor (Some h)).

Ltac accessor_store :=
  unfold Accessor.checkDB; simpl;
  repeat first
    [ apply store_ok_ret | apply store_ok_lift | apply store_ok_map_err
    | apply store_ok_bind; [|intros ?] | apply store_ok_exec
    | apply store_ok_users; intros ?; simpl; repeat case_match; done | case_match ].

Lemma GetUser_store id names : store_ok (GetUser R id names).
Proof. unfold R. simpl. unfold Accessor.GetUser. accessor_store. Qed.

Lemma GetGroup_store g : store_ok (GetGroup R g).
Proof. unfold R. simpl. unfold Accessor.GetGroup. accessor_store. Qed.

Lemma InsertUser_store u : store_ok (InsertUser R u).
Proof. unfold R. simpl. unfold Accessor.InsertUser, Accessor.exec_insertUser. accessor_store. Qed.

Lemma UpdateField_store id f z : store_ok (UpdateField R id f z).
Proof. unfold R. simpl. unfold Accessor.UpdateField. accessor_store. Qed.

(** The user object a successful query returns is built from a row. *)
Lemma GetUser_object id names d u d' :
  GetUser R id names d = (Ok u, d') -> exists r, u = Accessor.as_User (Accessor.newDBUser h r).
Proof.
  unfold R. simpl. unfold Accessor.GetUser. intros H. inv_bind H. injection H0 as <- <-.
  inv_bind H. injection H as <- <-. by eexists.
Qed.

Lemma Login_store r p : store_ok (Login (Accessor.as_User (Accessor.newDBUser h r)) p).
Proof. simpl. unfold Accessor.Login. accessor_store. Qed.
End accessor_store.

(** Sequencing, for a continuation that is fine on the values produced. *)
Lemma store_ok_bind_on {A B} (m : comp DB A) (f : A -> comp DB B) :
  store_ok m -> (forall a s s', m s = (Ok a, s') -> store_ok (f a)) -> store_ok (m ≫= f).
Proof.
  intros Hm Hf d. unfold mbind, comp_bind. destruct (Hm d) as [G1 I1].
  destruct (m d) as [[a|e|p|p|] d1] eqn:E; simpl in *; try done.
  destruct (Hf a d d1 E d1) as [G2 I2]. split; [by transitivity d1|auto].
Qed.

Section handlers_store.
Context (C : Crypto) (CFG : Config) (h : DBHandle) (fuel : nat).
Context (checkCRL : Certificate -> string -> bool * bool).
Context {SR : Type} (zero : SR) (dec : decoder SR) (issue : SR -> outcome (bytes * CertificateRecord)).
Let R := accessor_registry (Accessor.mkAccessor (Some h)).
Let a := CertDBAccessor.NewCertDBAccessor (Some h).

Ltac solve_store :=
  repeat first
    [ apply store_ok_ret | apply store_ok_lift | apply store_ok_gets | apply store_ok_map_err
    | apply store_ok_attempt | apply store_ok_random | apply GetUser_store | apply GetGroup_store
    | apply InsertUser_store | apply UpdateField_store
    | apply store_ok_bind; [|intros ?] | case_match ].

Lemma serveHTTP_store {W} (ah : copAuthHandler W) r : store_ok (serveHTTP C CFG R checkCRL ah r).
Proof.
  unfold serveHTTP, VerifyCertificate, ReadAll.
  destruct (negb (Authentication CFG)); [apply store_ok_ret|].
  destruct (bool_decide _); [apply store_ok_lift|].
  destruct (BasicAuth _) as [[u p]|]; [|solve_store].
  destruct (negb (basic ah)); [apply store_ok_lift|].
  apply store_ok_bind_on; [apply GetUser_store|]. intros x s s' [r' ->]%GetUser_object.
  apply store_ok_bind; [apply Login_store|intros _; apply store_ok_ret].
Qed.

Lemma RegisterUser_store id t g attrs registrar opt :
  store_ok (Register.RegisterUser R CFG (db_RandomString fuel) id t g attrs registrar opt).
Proof.
  unfold Register.RegisterUser, Register.canRegister, Register.validateID, Register.isValidGroup,
    Register.registerUserID, Register.token_for. solve_store.
Qed.

Lemma HTTPHandler_store methods handle r :
  store_ok (handle r) -> store_ok (HTTPHandler methods handle r : comp DB Response).
Proof.
  intros H. unfold HTTPHandler.
  apply store_ok_bind; [apply store_ok_attempt|intros []; apply store_ok_ret].
  case_match; [done|apply store_ok_lift].
Qed.

Lemma register_store r : store_ok (NewRegisterHandler CFG R (db_RandomString fuel) r).
Proof.
  apply HTTPHandler_store. unfold registerHandler_Handle, ReadAll, decode.
  apply store_ok_bind; [solve_store|intros b]. apply store_ok_bind; [solve_store|intros req].
  apply store_ok_bind; [apply RegisterUser_store|intros tok; apply store_ok_ret].
Qed.

(** The operations of the certificate store, as computations. *)
Lemma InsertCertificate_store cr : store_ok (CertDBAccessor.InsertCertificate C a cr).
Proof. intros d. apply (run_cert_op_ok C a (OpInsert cr)). Qed.

Lemma RevokeCertificate_store serial aki reason :
  store_ok (CertDBAccessor.RevokeCertificate a serial aki reason).
Proof. intros d. apply (run_cert_op_ok C a (OpRevoke serial aki reason)). Qed.

Lemma RevokeCertificatesByID_store id reason :
  store_ok (CertDBAccessor.RevokeCertificatesByID a id reason).
Proof. intros d. apply (run_cert_op_ok C a (OpRevokeByID id reason)). Qed.

Lemma sign_store endpoint r : store_ok (newSignHandler C (Some a) zero dec issue endpoint r).
Proof.
  apply HTTPHandler_store. unfold signHandler_Handle, ReadAll, Unmarshal, decode, enrollSigner_Sign.
  apply store_ok_bind; [solve_store|intros b]. apply store_ok_bind; [solve_store|intros req].
  apply store_ok_bind; [|intros cert; apply store_ok_ret]. apply store_ok_map_err.
  apply store_ok_bind; [apply store_ok_lift|intros [cert record]].
  apply store_ok_bind; [apply InsertCertificate_store|intros _; apply store_ok_ret].
Qed.

Lemma revoke_request_store req : store_ok (revoke_request R (Some a) req).
Proof.
  unfold revoke_request. case_match; [|case_match; [|apply store_ok_ret]].
  - apply store_ok_bind; [apply store_ok_attempt, RevokeCertificate_store|].
    intros []; apply store_ok_ret.
  - apply store_ok_bind; [solve_store|intros [e|u]; [apply store_ok_ret|]].
    apply store_ok_bind; [solve_store|intros [e|x]; [apply store_ok_ret|]].
    apply store_ok_bind; [apply store_ok_attempt, RevokeCertificatesByID_store|].
    intros []; apply store_ok_ret.
Qed.

Lemma revoke_store r : store_ok (NewRevokeHandler C R (Some a) r).
Proof.
  apply HTTPHandler_store. unfold revokeHandler_Handle, ReadAll, decode, userHasAttribute, getUserAttrValue.
  case_match; [apply store_ok_ret|].
  apply store_ok_bind; [solve_store|intros [e|b]; [apply store_ok_ret|]].
  apply store_ok_bind; [solve_store|intros [e|cert]; [apply store_ok_ret|]].
  apply store_ok_bind; [solve_store|intros [e|u]; [apply store_ok_ret|]].
  apply store_ok_bind; [solve_store|intros [e|req]; [apply store_ok_ret|]].
  apply revoke_request_store.
Qed.
End handlers_store.

(** ** The whole state *)

Section history.
Context {Key : Type} (KeyDeriv : Key -> string -> outcome Key) (SKI : Key -> bytes).
Context (C : Crypto) (CFG : Config) (h : DBHandle) (fuel : nat).
Context (checkCRL : Certificate -> string -> bool * bool).
Context {SR : Type} (zero : SR) (dec : decoder SR) (issue : SR -> outcome (bytes * CertificateRecord)).
Context (mgr_GetBatch : GetBatchRequest -> Certificate -> comp (Srv Key) GetBatchResponse).
Context (resp_json : GetBatchResponse -> json).
Hypothesis Hbatch : forall req c, readonly (mgr_GetBatch req c).
Let R := accessor_registry (Accessor.mkAccessor (Some h)).
Let a := CertDBAccessor.NewCertDBAccessor (Some h).

(** A computation keeps the store's promises and the key tree's. *)
Definition srv_ok {A} (m : comp (Srv Key) A) : Prop := forall s,
  grows (s_db s) (s_db (m s).2) /\ (cert_inv (s_db s) -> cert_inv (s_db (m s).2))
  /\ (cache_ok KeyDeriv (s_tree s) -> cache_ok KeyDeriv (s_tree (m s).2)).

Lemma srv_ok_ret {A} (x : A) : srv_ok (mret x).
Proof. by intros s. Qed.

Lemma srv_ok_lift {A} (o : outcome A) : srv_ok (lift o).
Proof. by intros s. Qed.

Lemma srv_ok_readonly {A} (m : comp (Srv Key) A) : readonly m -> srv_ok m.
Proof. intros H s. by rewrite H. Qed.

Lemma srv_ok_bind_on {A B} (m : comp (Srv Key) A) (f : A -> comp (Srv Key) B) :
  srv_ok m -> (forall x s s', m s = (Ok x, s') -> srv_ok (f x)) -> srv_ok (m ≫= f).
Proof.
  intros Hm Hf s. unfold mbind, comp_bind. destruct (Hm s) as (G1 & I1 & T1).
  destruct (m s) as [[x|e|p|p|] s1] eqn:E; simpl in *; try done.
  destruct (Hf x s s1 E s1) as (G2 & I2 & T2). split; [by transitivity (s_db s1)|auto].
Qed.

Lemma srv_ok_bind {A B} (m : comp (Srv Key) A) (f : A -> comp (Srv Key) B) :
  srv_ok m -> (forall x, srv_ok (f x)) -> srv_ok (m ≫= f).
Proof. intros Hm Hf. by apply srv_ok_bind_on. Qed.

Lemma srv_ok_map_err {A} f (m : comp (Srv Key) A) : srv_ok m -> srv_ok (map_err f m).
Proof. intros Hm s. specialize (Hm s). unfold map_err. by destruct (m s) as [[] ?]. Qed.

Lemma srv_ok_attempt {A} (m : comp (Srv Key) A) : srv_ok m -> srv_ok (attempt m).
Proof. intros Hm s. specialize (Hm s). unfold attempt. by destruct (m s) as [[] ?]. Qed.

Lemma srv_ok_onDB {A} (m : comp DB A) : store_ok m -> srv_ok (onDB m).
Proof.
  intros Hm s. specialize (Hm (s_db s)) as [G I]. unfold onDB. by destruct (m (s_db s)) as [o d].
Qed.

Lemma srv_ok_GetKey path : plain_path path -> srv_ok (onTree (GetKey KeyDeriv path)).
Proof.
  intros Hp s. unfold onTree. destruct (GetKey KeyDeriv path (s_tree s)) as [o t] eqn:E. simpl.
  split; [done|]. split; [done|]. intros Ht.
  pose proof (GetKey_rev_ok KeyDeriv (reverse path) (s_tree s) Ht) as H.
  rewrite reverse_involutive in H. destruct (H Hp) as [Hc _]. unfold GetKey in E. by rewrite E in Hc.
Qed.

(** A user's affiliation path is a slash-separated group name. *)
Lemma getUserInfo_plain id names d attrs path d' :
  getUserInfo R id names d = (Ok (attrs, path), d') -> plain_path path.
Proof.
  unfold getUserInfo. intros H. inv_bind H. injection H as <- <- <-.
  apply GetUser_object in H0 as [r ->]. apply Split_parts_no_sep.
Qed.

Lemma tcert_ok r :
  srv_ok (NewTCertHandler KeyDeriv SKI C R mgr_GetBatch resp_json r).
Proof.
  unfold NewTCertHandler, HTTPHandler. apply srv_ok_bind; [apply srv_ok_attempt|intros []; apply srv_ok_ret].
  case_match; [|apply srv_ok_lift]. unfold tcertHandler_Handle, tcertHandler_handle. apply srv_ok_map_err.
  apply srv_ok_bind; [apply srv_ok_map_err; unfold ReadAll; case_match; apply srv_ok_ret || apply srv_ok_lift|intros b].
  apply srv_ok_bind; [unfold Unmarshal, decode; apply srv_ok_map_err; repeat case_match;
                      apply srv_ok_ret || apply srv_ok_lift|intros req].
  apply srv_ok_bind.
  { unfold getCertFromAuthHdr. case_match; [apply srv_ok_lift|].
    apply srv_ok_bind; [apply srv_ok_lift|intros [[? ?] ?]; apply srv_ok_ret]. }
  intros cert. apply srv_ok_bind_on.
  { apply srv_ok_onDB. unfold getUserInfo.
    apply store_ok_bind; [apply GetUser_store|intros u; apply store_ok_ret]. }
  intros [attrs path] s s' Hrun. unfold onDB in Hrun.
  destruct (getUserInfo R _ _ _) as [o d] eqn:E. injection Hrun as -> <-.
  apply getUserInfo_plain in E.
  apply srv_ok_bind; [by apply srv_ok_map_err, srv_ok_GetKey|intros prekey].
  apply srv_ok_bind; [apply srv_ok_readonly, Hbatch|intros resp; apply srv_ok_ret].
Qed.

Lemma serve_ok r :
  srv_ok (serve KeyDeriv SKI C CFG R (Some a) checkCRL (db_RandomString fuel) zero dec issue
            mgr_GetBatch resp_json r).
Proof.
  unfold serve. destruct (List.find _ _) as [[path ah]|] eqn:E; [|apply srv_ok_ret].
  apply find_some in E as [Hin _].
  assert (Hnext : srv_ok (next ah r) /\ forall r', srv_ok (next ah r')).
  { assert (forall r', srv_ok (next ah r')) as H; [|by split].
    intros r'. simpl in Hin.
    destruct Hin as [E|[E|[E|[E|[E|[]]]]]]; injection E as <- <-; cbn [next];
      [apply srv_ok_onDB, register_store|apply srv_ok_onDB, sign_store|apply srv_ok_onDB, sign_store
      |apply srv_ok_onDB, revoke_store|apply tcert_ok]. }
  unfold ServeHTTP. apply srv_ok_bind; [apply srv_ok_attempt, srv_ok_onDB, serveHTTP_store|].
  intros [e|r']; [apply srv_ok_ret|apply Hnext].
Qed.

Lemma srv_steps_ok s s' :
  rtc (srv_step KeyDeriv SKI C CFG R (Some a) checkCRL (db_RandomString fuel) zero dec issue
         mgr_GetBatch resp_json) s s' ->
  cert_inv (s_db s) -> cache_ok KeyDeriv (s_tree s) ->
  cert_inv (s_db s') /\ grows (s_db s) (s_db s') /\ cache_ok KeyDeriv (s_tree s').
Proof.
  induction 1 as [s|s s1 s' Hstep _ IH]; intros Hc Ht; [done|].
  assert (grows (s_db s) (s_db s1) /\ cert_inv (s_db s1) /\ cache_ok KeyDeriv (s_tree s1))
    as (G & I & T).
  { destruct Hstep as [r s|s t fs _].
    - destruct (serve_ok r s) as (G & I & T). auto.
    - split; [|done]. intros r Hr. by exists r. }
  destruct (IH I T) as (I' & G' & T'). split; [done|]. split; [by transitivity (s_db s1)|done].
Qed.
End history.

(** For every history of the database-backed server (any requests to any of
    the COP endpoints in any order, authenticated or not, with the clock advancing and
    database statements failing at will): the certificate table keeps its key,
    no certificate disappears or changes owner or contents, a certificate
    once revoked stays revoked, and the TCert key tree only ever holds keys
    its paths specify. *)
Theorem server_history {Key} (KeyDeriv : Key -> string -> outcome Key) SKI C CFG h fuel checkCRL
    {SR} (zero : SR) dec issue mgr_GetBatch resp_json s s' :
  (forall req c, readonly (mgr_GetBatch req c)) ->
  rtc (srv_step KeyDeriv SKI C CFG (accessor_registry (Accessor.mkAccessor (Some h)))
         (Some (CertDBAccessor.NewCertDBAccessor (Some h))) checkCRL (db_RandomString fuel) zero dec issue
         mgr_GetBatch resp_json) s s' ->
  cert_inv (s_db s) -> cache_ok KeyDeriv (s_tree s) ->
  cert_inv (s_db s') /\ grows (s_db s) (s_db s') /\ cache_ok KeyDeriv (s_tree s').
Proof. intros Hb. by apply srv_steps_ok. Qed.

(** [GetBatch] leaves the server's state alone when random bytes and the
    clock come from the operating system. *)
Lemma readonly_map_err {S A} f (m : comp S A) : readonly m -> readonly (map_err f m).
Proof. intros Hm s. specialize (Hm s). unfold map_err. by destruct (m s) as [[] ?]. Qed.

Section GetBatch_readonly.
Context (B : BlockCipher) (hmac384 : bytes -> bytes -> bytes) (range : gmap string Z -> list (string * Z)).
Context (curve : Curve) (pkix : Z -> bytes).
Context (CreateCertificate : Template -> Certificate -> PrivateKey -> outcome bytes).
Context {W : Type} (ReadFull : nat -> comp W bytes) (clock : comp W Z) (rand_Int : Z -> comp W Z).
Hypothesis Hread : forall n, readonly (ReadFull n).
Hypothesis Hclock : readonly clock.
Hypothesis Hrand : forall m, readonly (rand_Int m).

Ltac solve_readonly :=
  repeat first
    [ apply Hread | apply Hclock | apply Hrand | apply readonly_ret | apply readonly_lift
    | apply readonly_map_err | apply readonly_attempt | apply readonly_bind; [|intros ?] | case_match ].

Lemma attr_extensions_readonly preK0 encrypt attrs : forall count ks header,
  readonly (attr_extensions B hmac384 ReadFull preK0 encrypt count attrs ks header).
Proof.
  induction attrs as [|x attrs IH]; intros count ks header; cbn [attr_extensions]; [apply readonly_ret|].
  apply readonly_bind.
  - unfold CBCPKCS7Encrypt, CBCEncrypt. solve_readonly.
  - intros [v ks']. apply readonly_bind; [apply IH|intros [[? ?] ?]; apply readonly_ret].
Qed.

Lemma make_tcert_readonly tm req ecert pub nonce kdfKey nb na i :
  readonly (make_tcert B hmac384 range curve CreateCertificate ReadFull tm req ecert pub nonce
              kdfKey nb na i).
Proof.
  unfold make_tcert, GenerateIntUUID, GenerateBytesUUID, generateExtensions, CBCPKCS7Encrypt, CBCEncrypt.
  repeat first [apply attr_extensions_readonly | progress solve_readonly].
Qed.

Lemma make_tcerts_readonly (mk : nat -> comp W TCert) n : (forall i, readonly (mk i)) ->
  forall i, readonly (make_tcerts mk i n).
Proof.
  intros Hmk. induction n as [|n IH]; intros i; cbn [make_tcerts]; [apply readonly_ret|].
  apply readonly_bind; [apply Hmk|intros t]. apply readonly_bind; [apply IH|intros; apply readonly_ret].
Qed.

Lemma GetBatch_readonly tm req ecert :
  readonly (GetBatch B hmac384 range curve pkix CreateCertificate ReadFull clock rand_Int tm req ecert).
Proof.
  unfold GetBatch, createHMACKey, read_or_zero. case_match; [|apply readonly_lift].
  apply readonly_bind; [apply Hclock|intros nb]. apply readonly_bind; [solve_readonly|intros half].
  case_match; try apply readonly_lift. apply readonly_bind; [solve_readonly|intros hk].
  apply readonly_bind; [apply make_tcerts_readonly; intros; apply make_tcert_readonly|].
  intros ts. solve_readonly.
Qed.
End GetBatch_readonly.

(** A server for the witnesses: the sample database and an empty key tree. *)
Definition toy_batch (req : GetBatchRequest) (c : Certificate) : comp (Srv (list string)) GetBatchResponse :=
  GetBatch toy_cipher toy_hmac toy_range toy_curve (fun _ => []) (fun _ _ _ => Ok [x30])
    (fun n => mret (replicate n xaa)) (mret 5%Z) (fun m => mret 0%Z) toy_mgr req c.

Definition toy_serve (r : Request) : comp (Srv (list string)) Response :=
  serve toy_deriv (fun k => bytes_of_string (Join k "/")) toy_crypto newConfig
    (accessor_registry (Accessor.mkAccessor (Some sqlite3)))
    (Some (CertDBAccessor.NewCertDBAccessor (Some sqlite3))) (fun _ _ => (false, true)) (db_RandomString 12)
    "" toy_sign_dec toy_issue toy_batch (fun _ => JNull) r.

Definition toy_srv : Srv (list string) := mkSrv revoke_db (NewKeyTree []).

Lemma server_history_witness :
  let s' := (toy_serve revoke_req toy_srv).2 in
  cert_inv (s_db s') /\ grows (s_db toy_srv) (s_db s') /\ cache_ok toy_deriv (s_tree s').
Proof.
  intros s'.
  apply (server_history toy_deriv (fun k => bytes_of_string (Join k "/")) toy_crypto newConfig sqlite3 12
    (fun _ _ => (false, true)) "" toy_sign_dec toy_issue toy_batch (fun _ => JNull) toy_srv s').
  - intros req c. apply GetBatch_readonly; intros; apply readonly_ret.
  - apply rtc_once. apply (srv_request toy_deriv).
  - apply (bool_decide_unpack _). vm_compute. exact I.
  - intros k key Hk. simpl in Hk. by rewrite lookup_empty in Hk.
Defined.

(** ** The user tables, when no statement fails *)

(** Users stay, with the same registration data and limit. *)
Definition users_grow (V V' : RegistryView) : Prop :=
  (forall id v, rv_users V !! id = Some v -> exists v', rv_users V' !! id = Some v'
     /\ uv_info v' = uv_info v /\ uv_max v' = uv_max v)
  /\ rv_groups V' = rv_groups V.

#[export] Instance users_grow_preorder : PreOrder users_grow.
Proof.
  split.
  - intros V. split; [|done]. intros id v Hv. by exists v.
  - intros V1 V2 V3 [H1 G1] [H2 G2]. split; [|congruence]. intros id v Hv.
    destruct (H1 id v Hv) as (v2 & Hv2 & E1 & E2). destruct (H2 id v2 Hv2) as (v3 & Hv3 & E3 & E4).
    exists v3. split; [done|]. split; congruence.
Qed.

Definition udb_ok {A} (m : comp DB A) : Prop := forall d, db_inv d ->
  db_inv (m d).2 /\ users_grow (db_view d) (db_view (m d).2).

Lemma udb_ok_ret {A} (x : A) : udb_ok (mret x).
Proof. by intros d. Qed.

Lemma udb_ok_lift {A} (o : outcome A) : udb_ok (lift o).
Proof. by intros d. Qed.

Lemma udb_ok_gets {A} (f : DB -> A) : udb_ok (gets f).
Proof. by intros d. Qed.

Lemma udb_ok_bind {A B} (m : comp DB A) (f : A -> comp DB B) :
  udb_ok m -> (forall x, udb_ok (f x)) -> udb_ok (m ≫= f).
Proof.
  intros Hm Hf d Hd. unfold mbind, comp_bind. destruct (Hm d Hd) as [I1 G1].
  destruct (m d) as [[x|e|p|p|] d1]; simpl in *; try done.
  destruct (Hf x d1 I1) as [I2 G2]. split; [done|]. by transitivity (db_view d1).
Qed.

Lemma udb_ok_map_err {A} f (m : comp DB A) : udb_ok m -> udb_ok (map_err f m).
Proof. intros Hm d Hd. specialize (Hm d Hd). unfold map_err. by destruct (m d) as [[] ?]. Qed.

Lemma udb_ok_attempt {A} (m : comp DB A) : udb_ok m -> udb_ok (attempt m).
Proof. intros Hm d Hd. specialize (Hm d Hd). unfold attempt. by destruct (m d) as [[] ?]. Qed.

(** Statements on the certificate table. *)
Lemma udb_ok_certs {A} t (f : DB -> outcome A * DB) :
  (forall d, users (f d).2 = users d /\ groups (f d).2 = groups d /\ faults (f d).2 = faults d) ->
  udb_ok (statement t f).
Proof.
  intros Hf d [Hn Hu]. rewrite statement_nofault by done. destruct (Hf d) as (E1 & E2 & E3).
  unfold db_inv, db_unique, db_view. rewrite E1, E2, E3. done.
Qed.

Lemma udb_ok_random fuel n : udb_ok (db_RandomString fuel n).
Proof.
  intros d Hd. unfold db_RandomString. by destruct (Util.RandomString _ _ _ _) as [[s p]|?|?|?|].
Qed.

Section users.
Context (C : Crypto) (CFG : Config) (h : DBHandle) (fuel : nat).
Context (checkCRL : Certificate -> string -> bool * bool).
Context {SR : Type} (zero : SR) (dec : decoder SR) (issue : SR -> outcome (bytes * CertificateRecord)).
Let R := accessor_registry (Accessor.mkAccessor (Some h)).
Let a := CertDBAccessor.NewCertDBAccessor (Some h).

Lemma GetUser_same id names d : db_inv d -> (GetUser R id names d).2 = d.
Proof. intros [Hf _]. exact (f_equal snd (GetUser_run h d id names Hf)). Qed.

Lemma GetUser_udb id names : udb_ok (GetUser R id names).
Proof. intros d Hd. by rewrite GetUser_same. Qed.

Lemma GetGroup_udb g : udb_ok (GetGroup R g).
Proof.
  intros d Hd. pose proof Hd as [Hf _].
  assert ((GetGroup R g d).2 = d) as -> by exact (f_equal snd (GetGroup_run h d g Hf)). done.
Qed.

Lemma users_grow_insert V id v v' :
  rv_users V !! id = Some v -> uv_info v' = uv_info v -> uv_max v' = uv_max v ->
  users_grow V (mkRegistryView (<[id := v']> (rv_users V)) (rv_groups V)).
Proof.
  intros Hv E1 E2. split; [|done]. intros i w Hw. simpl. destruct (decide (i = id)) as [->|Hne].
  - rewrite lookup_insert_eq. exists v'. split; [done|]. split; congruence.
  - rewrite lookup_insert_ne by done. by exists w.
Qed.

Lemma login_udb id p {A} (k : User DB -> comp DB A) :
  (forall u, udb_ok (k u)) ->
  udb_ok (u ← GetUser R id []; _ ← Login u p; k u).
Proof.
  intros Hk d Hd. destruct (rv_users (db_view d) !! id) as [v|] eqn:E.
  - destruct (@law_GetUser_found _ R (accessor_laws h) d id [] v Hd E) as (u & Hu & _).
    pose proof (@law_Login _ R (accessor_laws h) d id [] v u p Hd E Hu) as HL.
    rewrite (bind_ok _ _ _ _ _ Hu). destruct (spec_login v p) as [v'|] eqn:Es.
    + destruct HL as (d' & HL & Hd' & Hv). rewrite (bind_ok _ _ _ _ _ HL).
      destruct (Hk u d' Hd') as [I2 G2]. split; [done|]. transitivity (db_view d'); [|done].
      change (@reg_view _ R (accessor_laws h)) with db_view in Hv. rewrite Hv.
      destruct (spec_login_Some _ _ _ Es) as [Ev _].
      apply (users_grow_insert _ _ v); [done|by rewrite Ev|by rewrite Ev].
    + destruct HL as [e HL]. by rewrite (bind_err _ _ _ _ _ HL).
  - destruct (@law_GetUser_missing _ R (accessor_laws h) d id [] Hd E) as [e He].
    by rewrite (bind_err _ _ _ _ _ He).
Qed.

Lemma registerUserID_udb id t g attrs opt :
  udb_ok (Register.registerUserID R CFG (db_RandomString fuel) id t g attrs opt).
Proof.
  unfold Register.registerUserID. apply udb_ok_bind.
  { unfold Register.token_for. repeat case_match; apply udb_ok_ret || apply udb_ok_random. }
  intros tok d Hd. destruct (rv_users (db_view d) !! id) as [v|] eqn:E.
  - destruct (@law_GetUser_found _ R (accessor_laws h) d id [] v Hd E) as (u & Hu & _).
    by rewrite (bind_attempt_ok _ _ _ _ _ Hu).
  - destruct (@law_GetUser_missing _ R (accessor_laws h) d id [] Hd E) as [e He].
    rewrite (bind_attempt_err _ _ _ _ _ He).
    destruct (@law_InsertUser _ R (accessor_laws h) d (mkUserInfo id tok t g attrs) Hd E)
      as (d1 & H1 & Hd1 & Hv1).
    rewrite (bind_ok _ _ _ _ _ H1).
    destruct (@law_UpdateField_max _ R (accessor_laws h) d1 id (MaxEnrollments CFG) Hd1)
      as (d2 & H2 & Hd2 & Hv2).
    rewrite (bind_ok _ _ _ _ _ H2). split; [done|].
    change (@reg_view _ R (accessor_laws h)) with db_view in *. simpl. rewrite Hv2, Hv1. simpl.
    split; [|done]. intros i w Hw. simpl.
    assert (i <> id) by congruence. rewrite lookup_alter_ne, lookup_insert_ne by done. by exists w.
Qed.

Lemma RegisterUser_udb id t g attrs registrar opt :
  udb_ok (Register.RegisterUser R CFG (db_RandomString fuel) id t g attrs registrar opt).
Proof.
  unfold Register.RegisterUser, Register.canRegister, Register.validateID, Register.isValidGroup.
  apply udb_ok_bind; [case_match; [|apply udb_ok_ret]|intros _].
  - apply udb_ok_bind; [apply udb_ok_map_err, GetUser_udb|intros u].
    case_match; [apply udb_ok_lift|apply udb_ok_ret].
  - apply udb_ok_bind; [case_match; [|apply udb_ok_ret]|intros _; apply registerUserID_udb].
    apply udb_ok_bind; [apply udb_ok_bind; [apply GetGroup_udb|intros; apply udb_ok_ret]|intros v].
    case_match; [apply udb_ok_lift|apply udb_ok_ret].
Qed.

Lemma UpdateState_udb id z : udb_ok (UpdateField R id state z).
Proof.
  intros d Hd. destruct (@law_UpdateField_state _ R (accessor_laws h) d id z Hd) as (d1 & H1 & Hd1 & Hv1).
  rewrite H1. split; [done|]. change (@reg_view _ R (accessor_laws h)) with db_view in *.
  cbn [snd]. rewrite Hv1.
  split; [|done]. intros i w Hw. cbn [rv_users]. destruct (decide (i = id)) as [->|Hne].
  - rewrite lookup_alter_eq, Hw. by eexists.
  - rewrite lookup_alter_ne by done. by exists w.
Qed.

Ltac solve_udb :=
  repeat first
    [ apply udb_ok_ret | apply udb_ok_lift | apply udb_ok_gets | apply udb_ok_map_err
    | apply udb_ok_attempt | apply GetUser_udb | apply GetGroup_udb
    | apply udb_ok_bind; [|intros ?] | case_match ].

Lemma serveHTTP_udb {W} (ah : copAuthHandler W) r : udb_ok (serveHTTP C CFG R checkCRL ah r).
Proof.
  unfold serveHTTP, VerifyCertificate, ReadAll.
  destruct (negb (Authentication CFG)); [apply udb_ok_ret|].
  destruct (bool_decide _); [apply udb_ok_lift|].
  destruct (BasicAuth _) as [[u p]|]; [|solve_udb].
  destruct (negb (basic ah)); [apply udb_ok_lift|].
  apply (login_udb u p (fun _ => mret _)). intros; apply udb_ok_ret.
Qed.

Lemma HTTPHandler_udb methods handle r :
  udb_ok (handle r) -> udb_ok (HTTPHandler methods handle r : comp DB Response).
Proof.
  intros H. unfold HTTPHandler.
  apply udb_ok_bind; [apply udb_ok_attempt|intros []; apply udb_ok_ret].
  case_match; [done|apply udb_ok_lift].
Qed.

Lemma register_udb r : udb_ok (NewRegisterHandler CFG R (db_RandomString fuel) r).
Proof.
  apply HTTPHandler_udb. unfold registerHandler_Handle, ReadAll, decode.
  apply udb_ok_bind; [solve_udb|intros b]. apply udb_ok_bind; [solve_udb|intros req].
  apply udb_ok_bind; [apply RegisterUser_udb|intros tok; apply udb_ok_ret].
Qed.

Lemma InsertCertificate_udb cr : udb_ok (CertDBAccessor.InsertCertificate C a cr).
Proof.
  unfold CertDBAccessor.InsertCertificate, CertDBAccessor.checkDB, CertDBAccessor.exec_insert. simpl.
  apply udb_ok_bind; [apply udb_ok_ret|intros ?]. apply udb_ok_bind; [apply udb_ok_lift|intros id].
  apply udb_ok_bind; [apply udb_ok_certs; intros d; by case_match|intros n].
  repeat case_match; apply udb_ok_ret || apply udb_ok_lift.
Qed.

Lemma RevokeCertificate_udb serial aki reason :
  udb_ok (CertDBAccessor.RevokeCertificate a serial aki reason).
Proof.
  unfold CertDBAccessor.RevokeCertificate, certsql.RevokeCertificate, wrapSQLError. simpl.
  apply udb_ok_bind; [apply udb_ok_ret|intros ?].
  apply udb_ok_bind; [apply udb_ok_map_err; by apply udb_ok_certs|intros n].
  repeat case_match; apply udb_ok_ret || apply udb_ok_lift.
Qed.

Lemma RevokeCertificatesByID_udb id reason :
  udb_ok (CertDBAccessor.RevokeCertificatesByID a id reason).
Proof.
  unfold CertDBAccessor.RevokeCertificatesByID, CertDBAccessor.checkDB. simpl.
  apply udb_ok_bind; [apply udb_ok_ret|intros ?].
  apply udb_ok_bind; [rewrite exec_Rebind; by apply udb_ok_certs|intros crs].
  apply udb_ok_bind; [by apply udb_ok_certs|intros; apply udb_ok_ret].
Qed.

Lemma sign_udb endpoint r : udb_ok (newSignHandler C (Some a) zero dec issue endpoint r).
Proof.
  apply HTTPHandler_udb. unfold signHandler_Handle, ReadAll, Unmarshal, decode, enrollSigner_Sign.
  apply udb_ok_bind; [solve_udb|intros b]. apply udb_ok_bind; [solve_udb|intros req].
  apply udb_ok_bind; [|intros cert; apply udb_ok_ret]. apply udb_ok_map_err.
  apply udb_ok_bind; [apply udb_ok_lift|intros [cert record]].
  apply udb_ok_bind; [apply InsertCertificate_udb|intros _; apply udb_ok_ret].
Qed.

Lemma revoke_udb r : udb_ok (NewRevokeHandler C R (Some a) r).
Proof.
  apply HTTPHandler_udb. unfold revokeHandler_Handle, ReadAll, decode, userHasAttribute, getUserAttrValue.
  case_match; [apply udb_ok_ret|].
  apply udb_ok_bind; [solve_udb|intros [e|b]; [apply udb_ok_ret|]].
  apply udb_ok_bind; [solve_udb|intros [e|cert]; [apply udb_ok_ret|]].
  apply udb_ok_bind; [solve_udb|intros [e|u]; [apply udb_ok_ret|]].
  apply udb_ok_bind; [solve_udb|intros [e|req]; [apply udb_ok_ret|]].
  unfold revoke_request. case_match; [|case_match; [|apply udb_ok_ret]].
  - apply udb_ok_bind; [apply udb_ok_attempt, RevokeCertificate_udb|]. intros []; apply udb_ok_ret.
  - apply udb_ok_bind; [solve_udb|intros [e|v]; [apply udb_ok_ret|]].
    apply udb_ok_bind; [apply udb_ok_attempt, UpdateState_udb|intros [e|x]; [apply udb_ok_ret|]].
    apply udb_ok_bind; [apply udb_ok_attempt, RevokeCertificatesByID_udb|].
    intros []; apply udb_ok_ret.
Qed.
End users.

Section users_history.
Context {Key : Type} (KeyDeriv : Key -> string -> outcome Key) (SKI : Key -> bytes).
Context (C : Crypto) (CFG : Config) (h : DBHandle) (fuel : nat).
Context (checkCRL : Certificate -> string -> bool * bool).
Context {SR : Type} (zero : SR) (dec : decoder SR) (issue : SR -> outcome (bytes * CertificateRecord)).
Context (mgr_GetBatch : GetBatchRequest -> Certificate -> comp (Srv Key) GetBatchResponse).
Context (resp_json : GetBatchResponse -> json).
Hypothesis Hbatch : forall req c, readonly (mgr_GetBatch req c).
Let R := accessor_registry (Accessor.mkAccessor (Some h)).
Let a := CertDBAccessor.NewCertDBAccessor (Some h).

(** A computation on the server's state whose database part is fine. *)
Definition sdb_ok {A} (m : comp (Srv Key) A) : Prop := forall s, db_inv (s_db s) ->
  db_inv (s_db (m s).2) /\ users_grow (db_view (s_db s)) (db_view (s_db (m s).2)).

Lemma sdb_ok_readonly {A} (m : comp (Srv Key) A) : readonly m -> sdb_ok m.
Proof. intros H s. by rewrite H. Qed.

Lemma sdb_ok_bind {A B} (m : comp (Srv Key) A) (f : A -> comp (Srv Key) B) :
  sdb_ok m -> (forall x, sdb_ok (f x)) -> sdb_ok (m ≫= f).
Proof.
  intros Hm Hf s Hs. unfold mbind, comp_bind. destruct (Hm s Hs) as [I1 G1].
  destruct (m s) as [[x|e|p|p|] s1]; simpl in *; try done.
  destruct (Hf x s1 I1) as [I2 G2]. split; [done|]. by transitivity (db_view (s_db s1)).
Qed.

Lemma sdb_ok_map_err {A} f (m : comp (Srv Key) A) : sdb_ok m -> sdb_ok (map_err f m).
Proof. intros Hm s Hs. specialize (Hm s Hs). unfold map_err. by destruct (m s) as [[] ?]. Qed.

Lemma sdb_ok_attempt {A} (m : comp (Srv Key) A) : sdb_ok m -> sdb_ok (attempt m).
Proof. intros Hm s Hs. specialize (Hm s Hs). unfold attempt. by destruct (m s) as [[] ?]. Qed.

Lemma sdb_ok_onDB {A} (m : comp DB A) : udb_ok m -> sdb_ok (onDB m).
Proof.
  intros Hm s Hs. specialize (Hm (s_db s) Hs) as [G I]. unfold onDB. by destruct (m (s_db s)) as [o d].
Qed.

Lemma sdb_ok_onTree {A} (m : comp (KeyTree (Key := Key)) A) : sdb_ok (onTree m).
Proof. intros s Hs. unfold onTree. by destruct (m (s_tree s)) as [o t]. Qed.

Lemma tcert_sdb r : sdb_ok (NewTCertHandler KeyDeriv SKI C R mgr_GetBatch resp_json r).
Proof.
  assert (Hret : forall A (o : outcome A), sdb_ok (lift o)) by (intros; by apply sdb_ok_readonly).
  assert (Hmret : forall A (x : A), sdb_ok (mret x)) by (intros; by apply sdb_ok_readonly).
  unfold NewTCertHandler, HTTPHandler. apply sdb_ok_bind; [apply sdb_ok_attempt|intros []; apply Hmret].
  case_match; [|apply Hret]. unfold tcertHandler_Handle, tcertHandler_handle. apply sdb_ok_map_err.
  apply sdb_ok_bind; [apply sdb_ok_map_err; unfold ReadAll; case_match; apply Hmret || apply Hret|intros b].
  apply sdb_ok_bind; [unfold Unmarshal, decode; apply sdb_ok_map_err; repeat case_match;
                      apply Hmret || apply Hret|intros req].
  apply sdb_ok_bind.
  { unfold getCertFromAuthHdr. case_match; [apply Hret|].
    apply sdb_ok_bind; [apply Hret|intros [[? ?] ?]; apply Hmret]. }
  intros cert. apply sdb_ok_bind.
  { apply sdb_ok_onDB. unfold getUserInfo. apply udb_ok_bind; [apply GetUser_udb|intros; apply udb_ok_ret]. }
  intros [attrs path]. apply sdb_ok_bind; [apply sdb_ok_map_err, sdb_ok_onTree|intros prekey].
  apply sdb_ok_bind; [apply sdb_ok_readonly, Hbatch|intros resp; apply Hmret].
Qed.

Lemma serve_sdb r :
  sdb_ok (serve KeyDeriv SKI C CFG R (Some a) checkCRL (db_RandomString fuel) zero dec issue
            mgr_GetBatch resp_json r).
Proof.
  unfold serve. destruct (List.find _ _) as [[path ah]|] eqn:E; [|by apply sdb_ok_readonly].
  apply find_some in E as [Hin _].
  assert (Hnext : forall r', sdb_ok (next ah r')).
  { intros r'. simpl in Hin.
    destruct Hin as [E|[E|[E|[E|[E|[]]]]]]; injection E as <- <-; cbn [next];
      [apply sdb_ok_onDB, register_udb|apply sdb_ok_onDB, sign_udb|apply sdb_ok_onDB, sign_udb
      |apply sdb_ok_onDB, revoke_udb|apply tcert_sdb]. }
  unfold ServeHTTP. apply sdb_ok_bind; [apply sdb_ok_attempt, sdb_ok_onDB, serveHTTP_udb|].
  intros [e|r']; [by apply sdb_ok_readonly|apply Hnext].
Qed.

Lemma requests_sdb s rs :
  db_inv (s_db s) ->
  let run := foldl (fun s r => (serve KeyDeriv SKI C CFG R (Some a) checkCRL (db_RandomString fuel) zero dec
               issue mgr_GetBatch resp_json r s).2) s rs in
  db_inv (s_db run) /\ users_grow (db_view (s_db s)) (db_view (s_db run)).
Proof.
  revert s. induction rs as [|r rs IH]; intros s Hs; [done|]. simpl.
  destruct (serve_sdb r s Hs) as [I G]. destruct (IH _ I) as [I' G']. split; [done|].
  by etrans.
Qed.
End users_history.

(** (C4) When requests are served one at a time and no database statement fails,
    user ids and group names stay unique through any sequence of requests to the
    COP endpoints, no request removes a user, changes a user's secret, type,
    group, attributes or enrollment limit (only the login counter), or touches
    the groups. *)
Theorem server_users_stable {Key} (KeyDeriv : Key -> string -> outcome Key) SKI C CFG h fuel checkCRL
    {SR} (zero : SR) dec issue mgr_GetBatch resp_json s rs :
  (forall req c, readonly (mgr_GetBatch req c)) -> db_inv (s_db s) ->
  let run := foldl (fun s r => (serve KeyDeriv SKI C CFG
               (accessor_registry (Accessor.mkAccessor (Some h)))
               (Some (CertDBAccessor.NewCertDBAccessor (Some h))) checkCRL (db_RandomString fuel) zero dec
               issue mgr_GetBatch resp_json r s).2) s rs in
  db_inv (s_db run) /\ users_grow (db_view (s_db s)) (db_view (s_db run)).
Proof. intros Hb. by apply requests_sdb. Qed.

Lemma server_users_stable_witness :
  let run := foldl (fun s r => (toy_serve r s).2) toy_srv [revoke_req; sample_request; revoke_req] in
  db_inv (s_db run) /\ users_grow (db_view revoke_db) (db_view (s_db run)).
Proof.
  apply (server_users_stable toy_deriv (fun k => bytes_of_string (Join k "/")) toy_crypto newConfig
    sqlite3 12 (fun _ _ => (false, true)) "" toy_sign_dec toy_issue toy_batch (fun _ => JNull) toy_srv
    [revoke_req; sample_request; revoke_req]).
  - intros req c. apply GetBatch_readonly; intros; apply readonly_ret.
  - apply revoke_db_inv.
Defined.
