(* ===== verification/Client.v ===== *)
(** * The client library (src/lib: client.go, identity.go, signer.go, temporalsigner.go, verifier.go; src/lib/tls/tls.go)

    The client as computations over a world [W]: the network ([Do], the
    [http.Client]'s), the files and the key generator are parameters over
    that world.  A Go slice that may be nil is an [option]. *)

From S2P Require Import Prelude GoStrings GoFmt GoJson GoFloat JsonMap CopError Base64 Http Registry GoUrl GoUnmarshal Token Util Config.

#[local] Arguments String.append !_ _ : simpl nomatch.

(** ** Data *)

(** [csr.Name], [csr.BasicKeyRequest], [csr.CAConfig] and
    [csr.CertificateRequest] of CFSSL. *)
Record csr_Name := mkName {
  n_C : string; n_ST : string; n_L : string; n_O : string; n_OU : string; n_SerialNumber : string
}.

Record BasicKeyRequest := mkBasicKeyRequest { kr_A : string; kr_S : Z }.

Record CAConfig := mkCAConfig { ca_PathLength : Z; ca_PathLenZero : bool; ca_Expiry : string }.

Record CertificateRequest := mkCertificateRequest {
  cq_CN : string;
  cq_Names : list csr_Name;
  cq_Hosts : list string;
  cq_KeyRequest : option BasicKeyRequest;
  cq_CA : option CAConfig;
  cq_SerialNumber : string
}.

(** [idp.CSRInfo]. *)
Record CSRInfo := mkCSRInfo {
  ci_CN : string;
  ci_Names : list csr_Name;
  ci_Hosts : option (list string);
  ci_KeyRequest : option BasicKeyRequest;
  ci_CA : option CAConfig;
  ci_SerialNumber : string
}.

(** The fields of CFSSL's [signer.SignRequest] the client sets; the others
    keep their zero values. *)
Record SignRequest := mkSignRequest {
  sr_Hosts : option (list string);
  sr_Request : string;
  sr_Profile : string;
  sr_Label : string
}.

Definition SignRequest_json (r : SignRequest) : json :=
  JObj [("hosts", match sr_Hosts r with Some l => JArr (map JStr l) | None => JNull end);
        ("certificate_request", JStr (sr_Request r));
        ("profile", JStr (sr_Profile r)); ("crl_override", JStr ""); ("label", JStr (sr_Label r))].

(** [signer.SplitHosts]. *)
Definition SplitHosts (hostList : string) : option (list string) :=
  if bool_decide (hostList = "") then None else Some (Split hostList ",").

(** [Client]. *)
Record Client := mkClient { ServerURL : string; HomeDir : string }.

Definition dec_Client : decoder Client :=
  dec_struct [("serverURL", dec_str (fun s c => mkClient s (HomeDir c)));
              ("homeDir", dec_str (fun s c => mkClient (ServerURL c) s))].

(** [Verifier], [Signer] and [TemporalSigner] embed one another. *)
Record Verifier := mkVerifier { v_Cert : option bytes }.
Record Signer := mkSigner { s_Verifier : Verifier; s_Key : option bytes }.
Record TemporalSigner := mkTemporalSigner { t_Signer : Signer }.

(** [Identity]; its client pointer may be nil. *)
Record Identity := mkIdentity {
  i_client : option Client;
  i_Name : string;
  i_PublicSigner : TemporalSigner
}.

(** [idp.RegistrationRequest], [idp.EnrollmentRequest] and
    [idp.ReenrollmentRequest]; an interface holding an identity may be nil. *)
Record RegistrationRequest := mkRegistrationRequest {
  rg_Name : string;
  rg_Type : string;
  rg_Group : string;
  rg_Attributes : list Attribute;
  rg_Registrar : option Identity
}.

Record EnrollmentRequest := mkEnrollmentRequest {
  en_Name : string;
  en_Secret : string;
  en_Hosts : string;
  en_Profile : string;
  en_Label : string;
  en_CSR : option CSRInfo
}.

Record ReenrollmentRequest := mkReenrollmentRequest {
  re_ID : option Identity;
  re_Hosts : string;
  re_Profile : string;
  re_Label : string;
  re_CSR : option CSRInfo
}.

(** [idp.Capability]. *)
Inductive Capability := REGISTRATION | ENROLLMENT | ATTRIBUTES | ANONYMITY | UNLINKABILITY.

(** CFSSL's [api.Response] as the client decodes it. *)
Record APIResponse := mkAPIResponse {
  ar_Success : bool;
  ar_Result : json;
  ar_Errors : list (Z * string)
}.

Definition zero_APIResponse : APIResponse := mkAPIResponse false JNull [].

Definition dec_message : decoder (Z * string) :=
  dec_struct [("code", dec_int (fun z m => (z, m.2))); ("message", dec_str (fun s m => (m.1, s)))].

(** [result] is an [interface{}]: any value is stored; a number out of the
    range of a double is an error. *)
Definition dec_APIResponse : decoder APIResponse :=
  dec_struct
    [("success", dec_bool (fun b r => mkAPIResponse b (ar_Result r) (ar_Errors r)));
     ("result", fun v r => (mkAPIResponse (ar_Success r) v (ar_Errors r), in_range v));
     ("errors", dec_slice (0%Z, "") dec_message (fun l r => mkAPIResponse (ar_Success r) (ar_Result r) l));
     ("messages", fun v r => (r, (dec_slice (0%Z, "") dec_message (fun _ u => u) v tt).2))].

(** A pointer field: null makes it nil, otherwise it is allocated if needed. *)
Definition dec_ptr {A B} (zero : B) (d : decoder B) (get : A -> option B) (set : option B -> A -> A)
    : decoder A := fun v a =>
  match v with
  | JNull => (set None a, true)
  | _ => let '(b, ok) := d v (default zero (get a)) in (set (Some b) a, ok)
  end.

Definition dec_Name : decoder csr_Name :=
  dec_struct
    [("C", dec_str (fun s n => mkName s (n_ST n) (n_L n) (n_O n) (n_OU n) (n_SerialNumber n)));
     ("ST", dec_str (fun s n => mkName (n_C n) s (n_L n) (n_O n) (n_OU n) (n_SerialNumber n)));
     ("L", dec_str (fun s n => mkName (n_C n) (n_ST n) s (n_O n) (n_OU n) (n_SerialNumber n)));
     ("O", dec_str (fun s n => mkName (n_C n) (n_ST n) (n_L n) s (n_OU n) (n_SerialNumber n)));
     ("OU", dec_str (fun s n => mkName (n_C n) (n_ST n) (n_L n) (n_O n) s (n_SerialNumber n)));
     ("SerialNumber", dec_str (fun s n => mkName (n_C n) (n_ST n) (n_L n) (n_O n) (n_OU n) s))].

Definition dec_KeyRequest : decoder BasicKeyRequest :=
  dec_struct [("algo", dec_str (fun s k => mkBasicKeyRequest s (kr_S k)));
              ("size", dec_int (fun z k => mkBasicKeyRequest (kr_A k) z))].

Definition dec_CAConfig : decoder CAConfig :=
  dec_struct [("pathlen", dec_int (fun z c => mkCAConfig z (ca_PathLenZero c) (ca_Expiry c)));
              ("pathlenzero", dec_bool (fun b c => mkCAConfig (ca_PathLength c) b (ca_Expiry c)));
              ("expiry", dec_str (fun s c => mkCAConfig (ca_PathLength c) (ca_PathLenZero c) s))].

Definition zero_CSRInfo : CSRInfo := mkCSRInfo "" [] None None None "".

(** The hosts, nil or a slice. *)
Definition dec_hosts : decoder CSRInfo := fun v c =>
  let set h := mkCSRInfo (ci_CN c) (ci_Names c) h (ci_KeyRequest c) (ci_CA c) (ci_SerialNumber c) in
  match v with
  | JNull => (set None, true)
  | JArr _ => let '(l, ok) := dec_slice "" (dec_str (fun s _ => s)) (fun l _ => l) v [] in (set (Some l), ok)
  | _ => (c, false)
  end.

Definition dec_CSRInfo : decoder CSRInfo :=
  dec_struct
    [("cn", dec_str (fun s c => mkCSRInfo s (ci_Names c) (ci_Hosts c) (ci_KeyRequest c) (ci_CA c) (ci_SerialNumber c)));
     ("names", dec_slice (mkName "" "" "" "" "" "") dec_Name
        (fun l c => mkCSRInfo (ci_CN c) l (ci_Hosts c) (ci_KeyRequest c) (ci_CA c) (ci_SerialNumber c)));
     ("hosts", dec_hosts);
     ("key", dec_ptr (mkBasicKeyRequest "" 0) dec_KeyRequest ci_KeyRequest
        (fun k c => mkCSRInfo (ci_CN c) (ci_Names c) (ci_Hosts c) k (ci_CA c) (ci_SerialNumber c)));
     ("ca", dec_ptr (mkCAConfig 0 false "") dec_CAConfig ci_CA
        (fun a c => mkCSRInfo (ci_CN c) (ci_Names c) (ci_Hosts c) (ci_KeyRequest c) a (ci_SerialNumber c)));
     ("serial", dec_str (fun s c => mkCSRInfo (ci_CN c) (ci_Names c) (ci_Hosts c) (ci_KeyRequest c) (ci_CA c) s))].

(** [json.Marshal] of [idp.GetPrivateSignersRequest]. *)
Definition GetPrivateSignersRequest_json (r : GetPrivateSignersRequest) : json :=
  JObj ([("count", JNum (Itoa (gp_Count r)))]
    ++ (match gp_AttrNames r with [] => [] | l => [("attr_names", JArr (map JStr l))] end)
    ++ (if gp_EncryptAttrs r then [("encrypt_attrs", JBool true)] else [])
    ++ (if (gp_ValidityPeriod r =? 0)%Z then []
        else [("validity_period", JNum (Itoa (gp_ValidityPeriod r)))])).

(** ** signer.go, temporalsigner.go, verifier.go *)

Definition errNotImplemented : error := NewErr "NotImplemented".

Definition newVerifier (cert : option bytes) : Verifier := mkVerifier cert.
Definition newSigner (key cert : option bytes) : Signer := mkSigner (newVerifier cert) key.
Definition newTemporalSigner (key cert : option bytes) : TemporalSigner :=
  mkTemporalSigner (newSigner key cert).

Definition GetMyCert (v : Verifier) : option bytes := v_Cert v.
Definition getMyKey (s : Signer) : option bytes := s_Key s.

(** [Verifier.Serialize]: a nil certificate is written as null. *)
Definition Verifier_Serialize (v : Verifier) : bytes :=
  bytes_of_string (json_print (JObj [("cert", match v_Cert v with Some b => JStr (StdEncode b) | None => JNull end)])).

(** The methods that are declared and not implemented; [O] stands for the
    options and proof specifications they take. *)
Section not_implemented.
Context {S O : Type}.

Definition VerifySelf (v : Verifier) : comp S unit := fail errNotImplemented.
Definition Verify (v : Verifier) (msg sig : bytes) : comp S unit := fail errNotImplemented.
Definition VerifyOpts (v : Verifier) (msg sig : bytes) (opts : O) : comp S unit := fail errNotImplemented.
Definition VerifyAttributes (v : Verifier) (proof : list bytes) (spec : O) : comp S unit := fail errNotImplemented.
Definition Sign (s : Signer) (msg : bytes) : comp S bytes := fail errNotImplemented.
Definition SignOpts (s : Signer) (msg : bytes) (opts : O) : comp S bytes := fail errNotImplemented.
Definition NewAttributeProof (s : Signer) (spec : O) : comp S bytes := fail errNotImplemented.
Definition Renew (ts : TemporalSigner) : comp S unit := fail errNotImplemented.
Definition TemporalSigner_Revoke (ts : TemporalSigner) : comp S unit := fail errNotImplemented.
Definition GetAttributeNames (i : Identity) : comp S (list string) := fail errNotImplemented.
Definition Delete (i : Identity) : comp S unit := fail errNotImplemented.
Definition ImportSigner (c : Client) (req : O) : comp S Signer := fail errNotImplemented.
End not_implemented.

(** [hex.EncodeToString]. *)
Definition hex_byte (b : byte) : string :=
  let d z := String.String (Ascii.ascii_of_nat (Z.to_nat (if (z <? 10)%Z then 48 + z else 87 + z)%Z)) "" in
  d (byteZ b / 16)%Z +:+ d (byteZ b mod 16)%Z.

Definition EncodeToString (b : bytes) : string := Join (map hex_byte b) "".

Section Verifier.
Context (C : Crypto).

Definition GetX509Cert (v : Verifier) : outcome Certificate :=
  match pem_Decode C (default [] (v_Cert v)) with
  | None => Err (NewErr "pem decode failed")
  | Some dcert => ParseCertificate C dcert
  end.

(** [GetSerial]: the serial number in decimal and the authority key
    identifier in hexadecimal. *)
Definition GetSerial (v : Verifier) : outcome (string * string) :=
  cert ← GetX509Cert v;
  mret (Itoa (SerialNumber cert), EncodeToString (AuthorityKeyId cert)).
End Verifier.

(** ** normalizeURL *)

Definition defaultServerPort : string := "8888".
Definition clientConfigFile : string := "cop_client.json".

Definition normalizeURL (addr : string) : outcome URL_t :=
  u ← url_Parse (TrimSpace addr);
  let u :=
    if negb (bool_decide (u_Opaque u = "")) then
      set_Opaque "" (set_Host (JoinHostPort (u_Scheme u) (u_Opaque u)) u)
    else if negb (bool_decide (u_Path u = "")) && negb (Contains (u_Path u) ":") then
      set_Path "" (set_Host (JoinHostPort (u_Path u) defaultServerPort) u)
    else if bool_decide (u_Scheme u = "") then set_Path "" (set_Host (u_Path u) u)
    else u in
  let u := if negb (bool_decide (u_Scheme u = "https")) then set_Scheme "http" u else u in
  '(_, port) ← match SplitHostPort (u_Host u) with
               | Ok hp => Ok hp
               | _ => SplitHostPort (u_Host u +:+ ":" +:+ defaultServerPort)
               end;
  if negb (bool_decide (port = "")) then
    match Atoi port with
    | Some _ => Ok u
    | None => Err (NewErr "strconv.ParseInt: parsing the port: invalid syntax")
    end
  else Ok u.

(** ** The client's operations *)

(** What the client makes of the client's TLS files: key pairs, possibly the
    zero one, and the trusted roots. *)
Record tls_Config := mkTlsConfig { tc_Certificates : list (option (string * string)); tc_RootCAs : list bytes }.

Section Client.
Context {W : Type} (C : Crypto).
Context (getenv : string -> string) (hostname : string).
Context (ioutil_ReadFile : string -> comp W bytes) (ioutil_WriteFile : string -> bytes -> Z -> comp W unit).
(** [tls.LoadX509KeyPair] and [CertPool.AppendCertsFromPEM]. *)
Context (LoadX509KeyPair : string -> string -> comp W (string * string)) (AppendCertsFromPEM : bytes -> bool).
(** [http.Client.Do] with a transport of that TLS configuration: the response
    and the error its body ends with. *)
Context (Do : option tls_Config -> Request -> comp W (Response * option error)).
(** CFSSL's [csr.ParseRequest]: the request in PEM and its private key. *)
Context (ParseRequest : CertificateRequest -> comp W (bytes * bytes)).

Definition ReadFile (file : string) : comp W bytes :=
  map_err (fun err => wrapped err ReadFileError "failed reading file at %s" [FStr file]) (ioutil_ReadFile file).

Definition WriteFile (file : string) (buf : bytes) (perm : Z) : comp W unit :=
  map_err (fun err => wrapped err WriteFileError "failed reading file at %s" [FStr file])
    (ioutil_WriteFile file buf perm).

(** [util.Marshal]: marshalling the types used here does not fail. *)
Definition Marshal (v : json) : comp W bytes := mret (bytes_of_string (json_print v)).

(** [tls.GetClientTLSConfig]. *)
Fixpoint load_roots (files : list string) : comp W (list bytes) :=
  match files with
  | [] => mret []
  | cacert :: files =>
      caCert ← ioutil_ReadFile cacert;
      if negb (AppendCertsFromPEM caCert)
      then fail (NewError TLSError "Failed to parse and append certificate [certificate: %s]" [FStr cacert])
      else rest ← load_roots files; mret (caCert :: rest)
  end.

Definition GetClientTLSConfig (cfg : ClientTLSConfig) : comp W tls_Config :=
  x ← attempt (LoadX509KeyPair (CertFile (tls_Client cfg)) (KeyFile (tls_Client cfg)));
  let certs := [match x with inl _ => None | inr clientCert => Some clientCert end] in
  caCertPool ← load_roots (CACertFiles cfg);
  mret (mkTlsConfig certs caCertPool).

(** [NewClient]. *)
Definition NewClient (config : string) : comp W Client :=
  let c := mkClient "http://localhost:8888" (GetDefaultHomeDir getenv) in
  if negb (bool_decide (config = "")) then Unmarshal dec_Client config c "NewClient" else mret c.

Definition Capabilities (c : Client) : list Capability :=
  [REGISTRATION; ENROLLMENT; ATTRIBUTES; ANONYMITY; UNLINKABILITY].

Definition GetMyEnrollmentDir (c : Client) : string :=
  let dir := getenv "COP_ENROLLMENT_DIR" in if bool_decide (dir = "") then HomeDir c else dir.

Definition GetMyKeyFile (c : Client) : string :=
  let file := getenv "COP_KEY_FILE" in
  if bool_decide (file = "") then path_Join [GetMyEnrollmentDir c; "key.pem"] else file.

Definition GetMyCertFile (c : Client) : string :=
  let file := getenv "COP_CERT_FILE" in
  if bool_decide (file = "") then path_Join [GetMyEnrollmentDir c; "cert.pem"] else file.

(** [StoreMyIdentity], with modes 0600 and 0644. *)
Definition StoreMyIdentity (c : Client) (key cert : bytes) : comp W unit :=
  _ ← WriteFile (GetMyKeyFile c) key 384;
  WriteFile (GetMyCertFile c) cert 420.

Definition newIdentity (client : option Client) (name : string) (key cert : option bytes) : Identity :=
  mkIdentity client name (newTemporalSigner key cert).

Definition NewIdentity (c : Client) (key cert : option bytes) : comp W Identity :=
  name ← lift (GetEnrollmentIDFromPEM C (default [] cert));
  mret (newIdentity (Some c) name key cert).

Definition LoadIdentity (c : Client) (keyFile certFile : string) : comp W Identity :=
  key ← ReadFile keyFile;
  cert ← ReadFile certFile;
  NewIdentity c (Some key) (Some cert).

Definition LoadMyIdentity (c : Client) : comp W Identity :=
  LoadIdentity c (GetMyKeyFile c) (GetMyCertFile c).

Definition LoadCSRInfo (path : string) : comp W CSRInfo :=
  csrJSON ← ioutil_ReadFile path;
  Unmarshal dec_CSRInfo (string_of_bytes csrJSON) zero_CSRInfo "LoadCSRInfo".

Definition RegisterAndEnroll (c : Client) (req : RegistrationRequest) : comp W Identity := fail errNotImplemented.

(** [newCertificateRequest] and [GenCSR]. *)
Definition newCertificateRequest (req : option CSRInfo) : CertificateRequest :=
  match req with
  | None =>
      mkCertificateRequest "" [] (if negb (bool_decide (hostname = "")) then [hostname] else []) None None ""
  | Some r =>
      mkCertificateRequest "" (ci_Names r)
        (match ci_Hosts r with
         | Some hosts => hosts
         | None => if negb (bool_decide (hostname = "")) then [hostname] else []
         end) (ci_KeyRequest r) (ci_CA r) (ci_SerialNumber r)
  end.

Definition GenCSR (req : option CSRInfo) (id : string) : comp W (bytes * bytes) :=
  let cr := newCertificateRequest req in
  ParseRequest (mkCertificateRequest id (cq_Names cr) (cq_Hosts cr) (cq_KeyRequest cr) (cq_CA cr)
                  (cq_SerialNumber cr)).

(** [getURL] and [NewPost]; [http.NewRequest] parses the URL again. *)
Definition getURL (c : Client) (endpoint : string) : comp W string :=
  match normalizeURL (ServerURL c) with
  | Ok nurl => mret (Sprintf "%s/api/v1/cfssl/%s" [FStr (URL_String nurl); FStr endpoint])
  | Err err => fail (wrapped err CFSSL "error getting URL for %s" [FStr endpoint])
  | Panic p => lift (Panic p)
  | Exit p => lift (Exit p)
  | OutOfFuel => lift OutOfFuel
  end.

Definition NewPost (c : Client) (endpoint : string) (reqBody : bytes) : comp W Request :=
  curl ← getURL c endpoint;
  match url_Parse curl with
  | Ok u => mret (mkRequest "POST" (URL_String u) "" "" (string_of_bytes reqBody) None)
  | Err err =>
      let msg := Sprintf "failed to create new request to %s: %v" [FStr curl; FStr (Error err)] in
      fail (NewError CFSSL msg [])
  | Panic p => lift (Panic p)
  | Exit p => lift (Exit p)
  | OutOfFuel => lift OutOfFuel
  end.

Definition getClientConfig (path : string) : comp W bytes :=
  ioutil_ReadFile (path_Join [path; clientConfigFile]).

Definition zero_ClientTLSConfig : ClientTLSConfig := mkClientTLSConfig [] (mkKeyCertFiles "" "").

(** [SendPost]: failures to read the client's TLS files are only logged. *)
Definition SendPost (c : Client) (req : Request) : comp W bytes :=
  let req := (HTTPRequestToString req).2 in
  f ← attempt (getClientConfig (HomeDir c));
  let configFile := match f with inl _ => [] | inr b => b end in
  let cfg := (json_Unmarshal dec_ClientTLSConfig (string_of_bytes configFile) zero_ClientTLSConfig).1 in
  t ← attempt (GetClientTLSConfig cfg);
  let tlsConfig := match t with inl _ => None | inr t => Some t end in
  x ← attempt (Do tlsConfig req);
  match x with
  | inl err => fail (NewErr (Sprintf "POST failed: %v" [FStr (Error err)]))
  | inr (_, Some err) => fail (NewErr (Sprintf "failed to read response: %v" [FStr (Error err)]))
  | inr (resp, None) =>
      let respBody := resp_body resp in
      if (400 <=? status resp)%Z then
        let '(b, err) := json_Unmarshal dec_APIResponse respBody zero_APIResponse in
        let msg :=
          match err, ar_Errors b with
          | Some _, (_, m) :: _ => m
          | _, _ => Sprintf "HTTP status code=%d; %s" [FInt (status resp); FStr respBody]
          end in
        fail (NewErr (Sprintf "Error response from COP server; %s" [FStr msg]))
      else mret (bytes_of_string respBody)
  end.

(** ** identity.go *)

Definition id_GetMyCert (i : Identity) : option bytes :=
  GetMyCert (s_Verifier (t_Signer (i_PublicSigner i))).
Definition id_GetMyKey (i : Identity) : option bytes := getMyKey (t_Signer (i_PublicSigner i)).

Definition set_authorization (hdr : string) (r : Request) : Request :=
  mkRequest (Method r) (URL r) hdr (eid r) (body r) (body_err r).

Definition addTokenAuthHdr (i : Identity) (req : Request) (body : bytes) : comp W Request :=
  match id_GetMyCert i, id_GetMyKey i with
  | Some cert, Some key =>
      token ← map_err (fun err => wrapped err 1 "test" []) (lift (CreateToken C cert key body));
      mret (set_authorization token req)
  | _, _ => fail (NewError AuthorizationFailure "Failed to set authorization header token" [])
  end.

Definition Post (i : Identity) (endpoint : string) (reqBody : bytes) : comp W bytes :=
  match i_client i with
  | None => lift (Panic "runtime error: invalid memory address or nil pointer dereference")
  | Some c =>
      req ← NewPost c endpoint reqBody;
      req ← addTokenAuthHdr i req reqBody;
      SendPost c req
  end.

(** [GetPrivateSigners]: the response is dropped and no signer returned. *)
Definition GetPrivateSigners (i : Identity) (req : GetPrivateSignersRequest) : comp W (list TemporalSigner) :=
  reqBody ← Marshal (GetPrivateSignersRequest_json req);
  _ ← Post i "tcert" reqBody;
  mret [].

Definition Revoke (i : Identity) (req : RevocationRequest) : comp W unit :=
  reqBody ← Marshal (RevocationRequest_json req);
  _ ← Post i "revoke" reqBody;
  mret tt.

Definition RevokeSelf (i : Identity) : comp W unit :=
  '(serial, aki) ← lift (GetSerial C (s_Verifier (t_Signer (i_PublicSigner i))));
  Revoke i (mkRevocationRequest (i_Name i) serial aki 0).

Definition Store (i : Identity) : comp W unit :=
  match i_client i with
  | None => fail (NewErr "An identity with no client may not be stored")
  | Some c => StoreMyIdentity c (default [] (id_GetMyKey i)) (default [] (id_GetMyCert i))
  end.

(** ** client.go: registration and enrollment *)

Definition errNotString : string := "interface conversion: interface {} is not string".

(** [Register]: the secret is the result of the response as it is. *)
Definition Client_Register (c : Client) (req : RegistrationRequest) : comp W string :=
  if bool_decide (rg_Name req = "") then fail (NewErr "Register was called without a Name set")
  else if bool_decide (rg_Group req = "") then fail (NewErr "Register was called without a Group set")
  else match rg_Registrar req with
  | None => fail (NewErr "Register was called without a Registrar identity set")
  | Some registrar =>
      let request := mkRegisterRequest (rg_Name req) (rg_Group req) (rg_Type req) (rg_Attributes req)
                       (i_Name registrar) in
      reqBody ← Marshal (RegisterRequest_json request);
      buf ← Post registrar "register" reqBody;
      let response := (json_Unmarshal dec_APIResponse (string_of_bytes buf) zero_APIResponse).1 in
      match ar_Result response with
      | JStr secret => mret secret
      | _ => lift (Panic errNotString)
      end
  end.

(** [base64.StdEncoding.DecodeString] with its error dropped: what was
    decoded before it. *)
Context (DecodePrefix : string -> bytes).

Definition newIdentityFromResponse (c : Client) (id : string) (cert key : bytes) : comp W Identity :=
  resp ← decode dec_APIResponse (string_of_bytes cert) zero_APIResponse;
  match ar_Result resp with
  | JStr s =>
      let certByte := default (DecodePrefix s) (StdDecode s) in
      if ar_Success resp then mret (newIdentity (Some c) id (Some key) (Some certByte))
      else fail (NewError EnrollingUserError "Failed to reenroll user" [])
  | _ => lift (Panic errNotString)
  end.

Definition Enroll (c : Client) (req : EnrollmentRequest) : comp W Identity :=
  '(csrPEM, key) ← GenCSR (en_CSR req) (en_Name req);
  let sreq := mkSignRequest (SplitHosts (en_Hosts req)) (string_of_bytes csrPEM) (en_Profile req) (en_Label req) in
  body ← Marshal (SignRequest_json sreq);
  post ← NewPost c "enroll" body;
  let post := set_authorization (SetBasicAuth (en_Name req) (en_Secret req)) post in
  cert ← SendPost c post;
  newIdentityFromResponse c (en_Name req) cert key.

Definition Reenroll (c : Client) (req : ReenrollmentRequest) : comp W Identity :=
  match re_ID req with
  | None => fail (NewErr "ReenrollmentRequest.ID was not set")
  | Some id =>
      '(csrPEM, key) ← GenCSR (re_CSR req) (i_Name id);
      let sreq := mkSignRequest (SplitHosts (re_Hosts req)) (string_of_bytes csrPEM) (re_Profile req) (re_Label req) in
      body ← Marshal (SignRequest_json sreq);
      cert ← Post id "reenroll" body;
      newIdentityFromResponse c (i_Name id) cert key
  end.
End Client.

(** ** Server addresses *)

Definition http_url (addr : string) : URL_t := mkURL "http" "" None addr "" "" false "" "".

Lemma normalize_port h p z :
  all_chars host_char h = true -> all_digits p = true -> Atoi p = Some z ->
  ('(_, port) ← match SplitHostPort (h +:+ String ":" p) with
                | Ok hp => Ok hp
                | _ => SplitHostPort ((h +:+ String ":" p) +:+ ":" +:+ defaultServerPort)
                end;
   if negb (bool_decide (port = "")) then
     match Atoi port with
     | Some _ => Ok (http_url (h +:+ String ":" p))
     | None => Err (NewErr "strconv.ParseInt: parsing the port: invalid syntax")
     end
   else Ok (http_url (h +:+ String ":" p))) = Ok (http_url (h +:+ String ":" p)).
Proof.
  intros Hh Hp Hz. rewrite SplitHostPort_plain by done. simpl. rewrite Hz. by case_bool_decide.
Qed.

Lemma plain_not_white s : all_chars addr_char s = true -> all_chars (fun c => negb (is_white c)) s = true.
Proof.
  apply all_chars_impl. intros c H. destruct (char_facts c) as (_ & H1 & _).
  destruct (H1 H) as (_ & _ & ->). done.
Qed.

(** The server address of a client, in the form [http://host:port]. *)
Lemma normalizeURL_http h p z :
  all_chars host_char h = true -> all_digits p = true -> Atoi p = Some z ->
  normalizeURL ("http://" +:+ h +:+ String ":" p) = Ok (http_url (h +:+ String ":" p)).
Proof.
  intros Hh Hp Hz.
  assert (all_chars addr_char (h +:+ String ":" p) = true) as Ha.
  { rewrite all_chars_app, all_host_addr by done. simpl. by rewrite all_host_addr by by apply all_digits_host. }
  unfold normalizeURL. rewrite TrimSpace_plain.
  2:{ simpl. by apply plain_not_white. }
  rewrite <- (app_nil_r_str (h +:+ String ":" p)).
  rewrite url_Parse_http by auto. rewrite outcome_bind_ret.
  cbn [u_Opaque u_Path u_Scheme u_Host]. simpl. rewrite app_nil_r_str.
  by apply (normalize_port h p z).
Qed.

(** A server address may be given as [http://host:port], as [host:port], or
    as a host name, whose port is then 8888; all are normalized to the same
    plain HTTP URL.  (The host name [https] is taken for the scheme.) *)
Theorem normalizeURL_forms h p z :
  all_chars host_char h = true -> h <> "" -> h <> "https" ->
  all_digits p = true -> p <> "" -> Atoi p = Some z ->
  normalizeURL ("http://" +:+ h +:+ ":" +:+ p) = Ok (http_url (h +:+ ":" +:+ p))
  /\ normalizeURL (h +:+ ":" +:+ p) = Ok (http_url (h +:+ ":" +:+ p))
  /\ normalizeURL h = Ok (http_url (h +:+ ":8888")).
Proof.
  intros Hh Hne Hs' Hp Hpn Hz. split; [by apply (normalizeURL_http h p z)|].
  assert (all_chars addr_char (String ":" p) = true) as Hr
    by (simpl; by rewrite all_host_addr by by apply all_digits_host).
  assert (all_chars addr_char h = true) as Ha by by apply all_host_addr.
  change (":" +:+ p) with (String ":" p). unfold normalizeURL. split.
  - rewrite TrimSpace_plain by (apply plain_not_white; by rewrite all_chars_app, Ha).
    destruct (getscheme_at_colon h p Hh Hne) as [Hs|Hs].
    + rewrite parse_path by done. rewrite outcome_bind_ret. cbn [u_Opaque u_Path u_Scheme].
      rewrite (bool_decide_true ("" = "")) by done. rewrite Contains_app, orb_true_r, andb_false_r. simpl.
      by apply (normalize_port h p z).
    + rewrite parse_opaque by done. rewrite outcome_bind_ret. cbn [u_Opaque u_Path u_Scheme].
      rewrite (bool_decide_false (p = "")), ToLower_host, JoinHostPort_plain by done. simpl.
      rewrite (bool_decide_false (h = "https")) by done. by apply (normalize_port h p z).
  - rewrite TrimSpace_plain by by apply plain_not_white.
    rewrite <- (app_nil_r_str h) at 1. rewrite parse_path by (done || by rewrite app_nil_r_str, getscheme_at_plain).
    rewrite outcome_bind_ret, app_nil_r_str. cbn [u_Opaque u_Path u_Scheme].
    rewrite (bool_decide_true ("" = "")), (bool_decide_false (h = "")) by done.
    rewrite (all_chars_Contains host_char h) by done. simpl.
    rewrite JoinHostPort_plain by done. by apply (normalize_port h "8888" 8888).
Qed.

Lemma normalizeURL_forms_witness :
  normalizeURL ("http://" +:+ "cop.example.com" +:+ ":" +:+ "7054") = Ok (http_url ("cop.example.com" +:+ ":" +:+ "7054"))
  /\ normalizeURL ("cop.example.com" +:+ ":" +:+ "7054") = Ok (http_url ("cop.example.com" +:+ ":" +:+ "7054"))
  /\ normalizeURL "cop.example.com" = Ok (http_url ("cop.example.com" +:+ ":8888")).
Proof.
  exact (normalizeURL_forms "cop.example.com" "7054" 7054 eq_refl ltac:(discriminate) ltac:(discriminate)
    eq_refl ltac:(discriminate) eq_refl).
Defined.

(** A server URL that has a path, be it a single slash, is normalized to an
    address made of that path: host and port are lost, whatever they were. *)
Theorem normalizeURL_path_loses_host a q :
  all_chars addr_char a = true -> all_chars path_char q = true ->
  normalizeURL ("http://" +:+ a +:+ "/" +:+ q) = Ok (http_url ("/" +:+ q +:+ ":8888")).
Proof.
  intros Ha Hq. unfold normalizeURL.
  assert (all_chars path_char ("/" +:+ q) = true) as Hp by (simpl; by rewrite Hq).
  rewrite TrimSpace_plain.
  2:{ rewrite !all_chars_app. rewrite (plain_not_white a) by done. simpl.
      revert Hq. apply all_chars_impl. intros c H. destruct (char_facts c) as (_ & _ & H1 & _).
      destruct (H1 H) as [_ ->]. done. }
  rewrite url_Parse_http by eauto. rewrite outcome_bind_ret. cbn [u_Opaque u_Path u_Scheme].
  rewrite (bool_decide_true ("" = "")), (bool_decide_false ("/" +:+ q = "")) by done.
  rewrite (all_chars_Contains path_char ("/" +:+ q)) by done. cbn [negb andb].
  unfold JoinHostPort. rewrite !(all_chars_Contains path_char ("/" +:+ q)) by done. cbn [orb].
  unfold set_Path, set_Host. cbn [u_Scheme u_Opaque u_User u_Host u_RawPath u_ForceQuery u_RawQuery u_Fragment].
  rewrite (bool_decide_false ("http" = "https")) by done. cbn [negb].
  unfold set_Scheme. cbn [u_Scheme u_Opaque u_User u_Host u_Path u_RawPath u_ForceQuery u_RawQuery u_Fragment].
  change (":" +:+ defaultServerPort) with (String ":" "8888"). unfold SplitHostPort.
  rewrite cut_last_app by done.
  change (HasPrefix _ "[") with false. cbn iota. rewrite !Contains_app.
  rewrite !(all_chars_Contains path_char q) by done. done.
Qed.

Lemma normalizeURL_path_loses_host_witness :
  normalizeURL ("http://" +:+ "cop.example.com:7054" +:+ "/" +:+ "") = Ok (http_url ("/" +:+ "" +:+ ":8888")).
Proof. exact (normalizeURL_path_loses_host "cop.example.com:7054" "" eq_refl eq_refl). Defined.
