(* ===== verification/Interfaces.v ===== *)
(** * The interfaces (src/idp/idp.go, src/api/api.go, src/api.go, src/factory.go)

    A value of a Go interface type is a record of its methods, each a
    computation over a world.  The client library's signers and identities
    are given as such values; the interfaces of package api, which nothing in
    the program implements, are given with the variable that holds the
    manager. *)

From S2P Require Import Prelude GoStrings GoFmt GoJson CopError Base64 Http Registry GoUrl GoUnmarshal Token Util Config Client.

(** ** Package idp *)

Module Idp.

Record SignatureOpts := mkSignatureOpts { Policy : list string; Label : string }.

Record AttributeProofSpec := mkAttributeProofSpec { ap_Attributes : list string; ap_Message : bytes }.

Record RegistrationResponse := mkRegistrationResponse { Secret : string }.

Record ImportSignerRequest := mkImportSignerRequest { is_Cert : bytes; is_Key : bytes }.

Section interfaces.
Context (W : Type).

Record Verifier := mkVerifier {
  VerifySelf : comp W unit;
  Verify : bytes -> bytes -> comp W unit;
  VerifyOpts : bytes -> bytes -> SignatureOpts -> comp W unit;
  VerifyAttributes : list bytes -> AttributeProofSpec -> comp W unit
}.

Record Signer := mkSigner {
  signer_Verifier : Verifier;
  Sign : bytes -> comp W bytes;
  SignOpts : bytes -> SignatureOpts -> comp W bytes;
  NewAttributeProof : AttributeProofSpec -> comp W bytes
}.

(** A peer can sign and verify; a chaincode has no methods yet. *)
Definition PeerAPI : Type := Signer.
Definition ChaincodeAPI : Type := unit.

Record TemporalSigner := mkTemporalSigner {
  temporal_Signer : Signer;
  Renew : comp W unit;
  Revoke : comp W unit
}.

Record Identity := mkIdentity {
  GetName : string;
  GetPublicSigner : TemporalSigner;
  GetPrivateSigners : GetPrivateSignersRequest -> comp W (list TemporalSigner);
  GetAttributeNames : comp W (list string);
  Delete : comp W unit
}.

Record ClientAPI := mkClientAPI {
  Capabilities : list Capability;
  Register : RegistrationRequest -> comp W RegistrationResponse;
  Enroll : EnrollmentRequest -> comp W Identity;
  RegisterAndEnroll : RegistrationRequest -> comp W Identity;
  ImportSigner : ImportSignerRequest -> comp W Signer
}.
End interfaces.
Arguments mkVerifier {_} _ _ _ _.
Arguments mkSigner {_} _ _ _ _.
Arguments mkTemporalSigner {_} _ _ _.
Arguments mkIdentity {_} _ _ _ _ _.
Arguments mkClientAPI {_} _ _ _ _ _.
Arguments signer_Verifier {_} _.
Arguments temporal_Signer {_} _.
Arguments VerifySelf {_} _.
Arguments Verify {_} _ _ _.
Arguments VerifyOpts {_} _ _ _ _.
Arguments VerifyAttributes {_} _ _ _.
Arguments Sign {_} _ _.
Arguments SignOpts {_} _ _ _.
Arguments NewAttributeProof {_} _ _.
Arguments Renew {_} _.
Arguments Revoke {_} _.
Arguments GetName {_} _.
Arguments GetPublicSigner {_} _.
Arguments GetPrivateSigners {_} _ _.
Arguments GetAttributeNames {_} _.
Arguments Delete {_} _.
End Idp.

(** ** The client library's values *)

Section library.
Context {W : Type} (C : Crypto).
Context (ioutil_ReadFile : string -> comp W bytes).
Context (LoadX509KeyPair : string -> string -> comp W (string * string)) (AppendCertsFromPEM : bytes -> bool).
Context (Do : option tls_Config -> Request -> comp W (Response * option error)).

Definition idp_verifier (v : Verifier) : Idp.Verifier W :=
  Idp.mkVerifier (VerifySelf v) (Verify v) (VerifyOpts v) (VerifyAttributes v).

Definition idp_signer (s : Signer) : Idp.Signer W :=
  Idp.mkSigner (idp_verifier (s_Verifier s)) (Sign s) (SignOpts s) (NewAttributeProof s).

Definition idp_temporal_signer (ts : TemporalSigner) : Idp.TemporalSigner W :=
  Idp.mkTemporalSigner (idp_signer (t_Signer ts)) (Renew ts) (TemporalSigner_Revoke ts).

(** [GetName] and [GetPublicSigner]. *)
Definition Identity_GetName (i : Identity) : string := i_Name i.
Definition Identity_GetPublicSigner (i : Identity) : Idp.TemporalSigner W := idp_temporal_signer (i_PublicSigner i).

Definition idp_identity (i : Identity) : Idp.Identity W :=
  Idp.mkIdentity (Identity_GetName i) (Identity_GetPublicSigner i)
    (fun req => ts ← GetPrivateSigners C ioutil_ReadFile LoadX509KeyPair AppendCertsFromPEM Do i req;
                mret (map idp_temporal_signer ts))
    (GetAttributeNames i) (Delete i).

(** The signers of an identity never say yes: whatever is signed or checked
    through the interface, and whatever the certificate, the answer is an
    error and nothing happens. *)
Theorem identity_signer_inert (i : Identity) (w : W) msg sig opts proof spec :
  let ts := Idp.GetPublicSigner (idp_identity i) in
  let sg := Idp.temporal_Signer ts in
  let v := Idp.signer_Verifier sg in
  Idp.VerifySelf v w = (Err errNotImplemented, w)
  /\ Idp.Verify v msg sig w = (Err errNotImplemented, w)
  /\ Idp.VerifyOpts v msg sig opts w = (Err errNotImplemented, w)
  /\ Idp.VerifyAttributes v proof spec w = (Err errNotImplemented, w)
  /\ Idp.Sign sg msg w = (Err errNotImplemented, w)
  /\ Idp.SignOpts sg msg opts w = (Err errNotImplemented, w)
  /\ Idp.NewAttributeProof sg spec w = (Err errNotImplemented, w)
  /\ Idp.Renew ts w = (Err errNotImplemented, w)
  /\ Idp.Revoke ts w = (Err errNotImplemented, w).
Proof. repeat split. Qed.

(** The private signers asked for are never returned. *)
Lemma private_signers_dropped (i : Identity) req w l w' :
  Idp.GetPrivateSigners (idp_identity i) req w = (Ok l, w') -> l = [].
Proof.
  cbn [Idp.GetPrivateSigners idp_identity]. intros (ts & w1 & H & [= <- _])%bind_ok_inv.
  unfold GetPrivateSigners in H. apply bind_ok_inv in H as (b & w2 & _ & H).
  apply bind_ok_inv in H as (x & w3 & _ & [= <- _]). done.
Qed.
End library.

(** ** Package api *)

Module Api.

Inductive JoinRequestStatus := JRSWaiting | JRSApproved | JRSDenied.
Inductive JoinResponseType := JRTApprove | JRTDeny | JRTAbstain.

(** The number of the types, [JRTCount]. *)
Definition JRTCount : nat := 3.

(** [Responses] is an array with the names for each type of response. *)
Record JoinRequest := mkJoinRequest {
  ID : string;
  Info : string;
  Status : JoinRequestStatus;
  Responses : JoinResponseType -> list string
}.

Definition JoinRequestListener (W : Type) : Type := JoinRequest -> comp W unit.

Record EnrollRequest := mkEnrollRequest { User : string; er_Token : bytes; er_CSR : bytes }.
Record Enrollment := mkEnrollment { enrollment_ID : string; EnrollSecret : bytes }.

Section interfaces.
Context (W : Type) (Identity : Type).

Record CertHandler := mkCertHandler {
  GetID : string;
  GetParticipantID : string;
  IsType : string -> bool;
  Verify : bytes -> bytes -> comp W bool
}.

Record KeyHandler := mkKeyHandler {
  key_CertHandler : CertHandler;
  Sign : bytes -> comp W bytes
}.

Record CertMgr := mkCertMgr {
  GenCert : string -> string -> string -> comp W unit;
  InitSelfSign : string -> string -> comp W unit;
  InitLego : string -> comp W unit;
  SetECAKey : bytes -> comp W unit;
  SetTCAKey : bytes -> comp W unit;
  SetParticipantFilePath : string -> comp W unit;
  UpdateParticipantFile : comp W unit;
  NewCertHandler : bytes -> comp W CertHandler;
  NewKeyHandler : bytes -> comp W KeyHandler
}.

Record Mgr := mkMgr { Mgr_NewCertMgr : comp W CertMgr }.

Record Client := mkClient {
  GetTcertBatch : string -> string -> comp W string;
  GetHomeDir : comp W string;
  SetHomeDir : string -> comp W unit;
  GetServerAddr : comp W string;
  SetServerAddr : string -> comp W unit;
  Register : RegisterRequest -> comp W bytes;
  Enroll : EnrollRequest -> string -> comp W bytes;
  RegisterAndEnroll : RegisterRequest -> comp W Identity
}.
End interfaces.
Arguments Mgr_NewCertMgr {_} _.
Arguments mkMgr {_} _.

(** The variable [mgr], nil at first, beside the world. *)
Section mgr.
Context {W : Type}.
Notation S := (option (Mgr W) * W)%type.

Definition SetMgr (m : option (Mgr W)) : comp S unit := fun '(_, w) => (Ok tt, (m, w)).

Definition NewCertMgr : comp S (CertMgr W) := fun '(m, w) =>
  match m with
  | None => (Panic nil_deref, (m, w))
  | Some mgr => let '(o, w') := Mgr_NewCertMgr mgr w in (o, (m, w'))
  end.

(** The calls of a program: it sets the manager, or makes a certificate
    manager and goes on when that returns. *)
Inductive call := CSet (m : option (Mgr W)) | CNew.

Fixpoint calls (l : list call) : comp S unit :=
  match l with
  | [] => mret tt
  | CSet m :: l => _ ← SetMgr m; calls l
  | CNew :: l => _ ← attempt NewCertMgr; calls l
  end.

(** The manager that was set last. *)
Fixpoint last_set (m : option (Mgr W)) (l : list call) : option (Mgr W) :=
  match l with
  | [] => m
  | CSet m' :: l => last_set m' l
  | CNew :: l => last_set m l
  end.

(** A certificate manager is made by the manager that was set last, and
    asking for one when none is set panics. *)
Theorem NewCertMgr_last l m w s :
  calls l (m, w) = (Ok tt, s) ->
  s.1 = last_set m l
  /\ NewCertMgr s = match last_set m l with
                    | None => (Panic nil_deref, s)
                    | Some mgr => let '(o, w') := Mgr_NewCertMgr mgr s.2 in (o, (Some mgr, w'))
                    end.
Proof.
  intros H. assert (s.1 = last_set m l) as Hs.
  { revert m w H. induction l as [|[m'|] l IH]; intros m w H.
    - by injection H as <-.
    - exact (IH m' w H).
    - cbn [calls last_set] in *. apply bind_ok_inv in H as (x & [m1 w1] & H1 & H).
      rewrite <- (IH m w1); [done|]. assert (m1 = m) as ->; [|done].
      unfold attempt, NewCertMgr in H1. destruct m as [mgr|]; [|done].
      destruct (Mgr_NewCertMgr mgr w) as [[] w2]; by simplify_eq. }
  split; [exact Hs|]. destruct s as [m1 w1]. cbn [fst snd] in *. subst m1. unfold NewCertMgr. by destruct (last_set m l).
Qed.
End mgr.
End Api.

(** ** Package cop: the mirror of the interfaces, and the factory *)

Module Cop.
Record JoinRequest := mkJoinRequest { real_JoinRequest : Api.JoinRequest }.
Definition JoinRequestListener (W : Type) : Type := Api.JoinRequestListener W.
Definition JoinRequestStatus : Type := Api.JoinRequestStatus.
Definition JoinResponseType : Type := Api.JoinResponseType.
Definition Mgr (W : Type) : Type := Api.Mgr W.
Definition CertMgr (W : Type) : Type := Api.CertMgr W.
Definition CertHandler (W : Type) : Type := Api.CertHandler W.
Definition KeyHandler (W : Type) : Type := Api.KeyHandler W.
Record RegisterRequest := mkRegisterRequest { real_RegisterRequest : GoUnmarshal.RegisterRequest }.
Record EnrollRequest := mkEnrollRequest { real_EnrollRequest : Api.EnrollRequest }.

Definition JRSWaiting : JoinRequestStatus := Api.JRSWaiting.
Definition JRSApproved : JoinRequestStatus := Api.JRSApproved.
Definition JRSDenied : JoinRequestStatus := Api.JRSDenied.
Definition JRTApprove : JoinResponseType := Api.JRTApprove.
Definition JRTDeny : JoinResponseType := Api.JRTDeny.
Definition JRTAbstain : JoinResponseType := Api.JRTAbstain.
Definition JRTCount : nat := Api.JRTCount.

Definition NotImplemented : Z := CopError.NotImplemented.
Definition NotSupported : Z := CopError.NotSupported.
Definition InvalidProviderName : Z := CopError.InvalidProviderName.
Definition TooManyArgs : Z := CopError.TooManyArgs.
Definition NotInitialized : Z := CopError.NotInitialized.

(** [NewClient] of factory.go. *)
Definition NewClient {W} (getenv : string -> string) (config : string) : comp W Client.Client :=
  Client.NewClient getenv config.
End Cop.

(** The codes the mirror exports are distinct. *)
Lemma mirrored_codes_distinct :
  NoDup [Cop.NotImplemented; Cop.NotSupported; Cop.InvalidProviderName; Cop.TooManyArgs; Cop.NotInitialized].
Proof. repeat constructor; rewrite ?elem_of_cons, elem_of_nil; vm_compute; intuition congruence. Qed.
