(* ===== verification/Commands.v ===== *)
(** * The commands (src/cli/cop.go, src/cli/client, src/cli/server/init.go)

    The client's commands [enroll], [reenroll], [register] and [revoke], the
    server's [init], and the choice of a command from the program's
    arguments, which CFSSL's [cli.Start] (file CommandLine) then runs.  The
    world, the network, the files and the key generator are those of file
    Client. *)

From S2P Require Import Prelude GoStrings GoFmt GoJson CopError Base64 Http Registry GoUrl GoUnmarshal Token Util Config CommandLine DbUtil Client.

(** [idp.RegistrationRequest] as it is read from a file: only null can be
    decoded into the interface [Registrar]. *)
Definition zero_RegistrationRequest : RegistrationRequest := mkRegistrationRequest "" "" "" [] None.

Definition dec_RegistrationRequest : decoder RegistrationRequest :=
  dec_struct
    [("id", dec_str (fun s r => mkRegistrationRequest s (rg_Type r) (rg_Group r) (rg_Attributes r) (rg_Registrar r)));
     ("type", dec_str (fun s r => mkRegistrationRequest (rg_Name r) s (rg_Group r) (rg_Attributes r) (rg_Registrar r)));
     ("group", dec_str (fun s r => mkRegistrationRequest (rg_Name r) (rg_Type r) s (rg_Attributes r) (rg_Registrar r)));
     ("attrs", dec_slice (mkAttribute "" "") dec_attribute
        (fun l r => mkRegistrationRequest (rg_Name r) (rg_Type r) (rg_Group r) l (rg_Registrar r)));
     ("registrar", fun v r => (r, match v with JNull => true | _ => false end))].

(** [strings.Replace(s, old, new, -1)] for a non-empty [old]; [skip] counts the
    characters of the current match still to be dropped. *)
Fixpoint replace_from (skip : nat) (s old new : string) : string :=
  match s with
  | EmptyString => ""
  | String c s' =>
      match skip with
      | S k => replace_from k s' old new
      | O => if HasPrefix s old then new +:+ replace_from (String.length old - 1) s' old new
             else String c (replace_from 0 s' old new)
      end
  end.

Definition ReplaceAll (s old new : string) : string := replace_from 0 s old new.

Example ReplaceAll_usage : ReplaceAll "cfssl sign -- cfsslcfssl" "cfssl" "cop cfssl" = "cop cfssl sign -- cop cfsslcop cfssl".
Proof. reflexivity. Qed.

(** ** The texts of the commands *)

(** Lines of text, each ended by a newline. *)
Definition text_of (lines : list string) : string :=
  foldr (fun l t => l +:+ String (Ascii.ascii_of_nat 10) t) "" lines.

Definition registerUsageText : string := text_of
  ["cop client register -- Register an ID with COP server and return an enrollment secret";
   "";
   "Usage of client register command:";
   "    Register a client with COP server:";
   "        cop client register REGISTER-REQUEST-FILE COP-SERVER-ADDR";
   "";
   "Arguments:";
   "        RRJSON:             File contains registration info";
   "        COP-SERVER-ADDR:    COP server address";
   "Flags:"].

Definition register_flags : list string := [].

Definition enrollUsageText : string := text_of
  ["cop client enroll -- Enroll with COP server";
   "";
   "Usage of client enroll command:";
   "    Enroll a client and get an ecert:";
   "        cop client enroll ID SECRET COP-SERVER-ADDR";
   "";
   "Arguments:";
   "        ID:               Enrollment ID";
   "        SECRET:           Enrollment secret returned by register";
   "        COP-SERVER-ADDR:  COP server address";
   "	     CSRJSON:          Certificate Signing Request JSON information (Optional)";
   "";
   "Flags:"].

Definition enrollFlags : list string := [].

Definition reenrollUsageText : string := text_of
  ["cop client reenroll -- Reenroll with COP server";
   "";
   "Usage of client enroll command:";
   "   cop client reenroll COP-SERVER-ADDR";
   "";
   "Arguments:";
   "        COP-SERVER-ADDR:  COP server address";
   "		  CSRJSON:          Certificate Signing Request JSON information (Optional)";
   "";
   "Flags:"].

Definition reenrollFlags : list string := [].

Definition revokeUsageTxt : string := text_of
  ["cop client revoke -- revokes one or more certificates";
   "";
   "Usage:";
   "";
   "Revoke certificate(s):";
   "	   cop client revoke COP_SERVER_URL [ENROLLMENT_ID]";
   "";
   "Arguments:";
   "     COP_SERVER_URL:     The URL of the COP server";
   "     ENROLLMENT_ID:      Optional enrollment ID";
   "";
   "Flags:"].

Definition revokeFlags : list string := ["aki"; "serial"; "reason"].

Definition initUsageText : string := text_of
  ["cop server init CSRJSON -- generates a new private key and self-signed certificate";
   "Usage:";
   "        cop server init CSRJSON";
   "Arguments:";
   "        CSRJSON:    JSON file containing the request, use '-' for reading JSON from stdin";
   "Flags:"].

Definition initFlags : list string := ["remote"; "u"].

(** The usage of the program. *)
Definition usage_text : string :=
  let q := String quote "" in text_of
  ["cop client       - client-related commands";
   "cop server       - server related commands";
   "cop cfssl        - all cfssl commands";
   "";
   ("For help, type " +:+ q +:+ "cop client" +:+ q +:+ ", " +:+ q +:+ "cop server" +:+ q +:+ ", or " +:+ q +:+ "cop cfssl" +:+ q +:+ ".")].

Section Commands.
Context {W : Type} (C : Crypto).
Context (getenv : string -> string) (hostname : string).
Context (ioutil_ReadFile : string -> comp W bytes) (ioutil_WriteFile : string -> bytes -> Z -> comp W unit).
Context (LoadX509KeyPair : string -> string -> comp W (string * string)) (AppendCertsFromPEM : bytes -> bool).
Context (Do : option tls_Config -> Request -> comp W (Response * option error)).
Context (ParseRequest : CertificateRequest -> comp W (bytes * bytes)).
Context (DecodePrefix : string -> bytes) (Printf : string -> comp W unit).

(** [NewClient(url)] of cli/client/util.go: the URL goes into the JSON text as
    it is. *)
Definition cmd_NewClient (url : string) : comp W Client :=
  let q := String quote "" in
  NewClient getenv ("{" +:+ q +:+ "serverURL" +:+ q +:+ ":" +:+ q +:+ url +:+ q +:+ "}").

(** The optional last argument: a file with the certificate request's data. *)
Definition csr_argument (args : list string) : comp W (option CSRInfo) :=
  match args with
  | [] => mret None
  | path :: _ => info ← LoadCSRInfo ioutil_ReadFile path; mret (Some info)
  end.

Definition enrollMain (args : list string) : comp W unit :=
  '(id, args) ← PopFirstArgument args;
  '(secret, args) ← PopFirstArgument args;
  '(copServer, args) ← PopFirstArgument args;
  client ← cmd_NewClient copServer;
  csr ← csr_argument args;
  ID ← Enroll hostname ioutil_ReadFile LoadX509KeyPair AppendCertsFromPEM Do ParseRequest DecodePrefix client
         (mkEnrollmentRequest id secret "" "" "" csr);
  map_err (fun err => Errorf "failed to store enrollment information: %s" [FStr (Error err)])
    (Store getenv ioutil_WriteFile ID).

Definition reenrollMain (args : list string) : comp W unit :=
  '(copServer, args) ← PopFirstArgument args;
  client ← cmd_NewClient copServer;
  id ← map_err (fun err => Errorf "Client is not yet enrolled: %s" [FStr (Error err)])
         (LoadMyIdentity C getenv ioutil_ReadFile client);
  csr ← csr_argument args;
  newID ← map_err (fun err => Errorf "failed to store enrollment information: %s" [FStr (Error err)])
            (Reenroll C hostname ioutil_ReadFile LoadX509KeyPair AppendCertsFromPEM Do ParseRequest DecodePrefix
               client (mkReenrollmentRequest (Some id) "" "" "" csr));
  Store getenv ioutil_WriteFile newID.

(** [registerMain]: the file is read before the second argument; an error in
    decoding the secret is made and dropped. *)
Definition registerMain (args : list string) : comp W unit :=
  '(regFile, args) ← PopFirstArgument args;
  buf ← ReadFile ioutil_ReadFile regFile;
  regReq ← decode dec_RegistrationRequest (string_of_bytes buf) zero_RegistrationRequest;
  '(copServer, _) ← PopFirstArgument args;
  client ← cmd_NewClient copServer;
  id ← LoadMyIdentity C getenv ioutil_ReadFile client;
  secret ← Client_Register C ioutil_ReadFile LoadX509KeyPair AppendCertsFromPEM Do client
             (mkRegistrationRequest (rg_Name regReq) (rg_Type regReq) (rg_Group regReq) (rg_Attributes regReq) (Some id));
  let secretBytes := default (DecodePrefix secret) (StdDecode secret) in
  Printf (Sprintf "One time password: %s" [FStr (string_of_bytes secretBytes)] +:+ String (Ascii.ascii_of_nat 10) "").

(** [revokeMain]: of the flags, [-reason] is not used. *)
Definition revokeMain (args : list string) (c : CliConfig) : comp W unit :=
  '(copServer, args) ← PopFirstArgument args;
  let enrollmentID := match args with [] => "" | a :: _ => a end in
  client ← cmd_NewClient copServer;
  id ← LoadMyIdentity C getenv ioutil_ReadFile client;
  if bool_decide (enrollmentID = "") && bool_decide (cli_Serial c = "")
  then fail (NewErr "Invalid usage; either ENROLLMENT_ID or both -serial and -aki are required")
  else Revoke C ioutil_ReadFile LoadX509KeyPair AppendCertsFromPEM Do id
         (mkRevocationRequest enrollmentID (cli_Serial c) (cli_AKI c) 0).

(** ** init.go *)

Context (ReadStdin : string -> comp W bytes) (GetDefault : comp W unit).
(** [csr.NewBasicKeyRequest] and the decoder of [csr.CertificateRequest];
    [initca.New]: the certificate and the key. *)
Context (dec_CertificateRequest : decoder CertificateRequest) (NewBasicKeyRequest : BasicKeyRequest).
Context (initca_New : CertificateRequest -> comp W (bytes * bytes)).
Context (os_Stat : string -> comp W stat_result) (MkdirAll : string -> comp W unit).

(** [errors.New(err.Error())]. *)
Definition replain {A} (m : comp W A) : comp W A := map_err (fun err => NewErr (Error err)) m.

(** [initMain]: both files are written with mode 0755, and a failure to write
    one ends the process. *)
Definition initMain (args : list string) : comp W unit :=
  '(csrFile, _) ← replain (PopFirstArgument args);
  csrFileBytes ← replain (ReadStdin csrFile);
  req ← replain (decode dec_CertificateRequest (string_of_bytes csrFileBytes)
                   (mkCertificateRequest "" [] [] (Some NewBasicKeyRequest) None ""));
  _ ← replain GetDefault;
  '(cert, key) ← replain (initca_New req);
  COPHome ← replain (CreateHome getenv os_Stat MkdirAll);
  certerr ← attempt (ioutil_WriteFile (COPHome +:+ "/server-cert.pem") cert 493);
  match certerr with
  | inl _ => lift (Exit "Error writing server-cert.pem to $COPHome directory")
  | inr _ =>
      keyerr ← attempt (ioutil_WriteFile (COPHome +:+ "/server-key.pem") key 493);
      match keyerr with
      | inl _ => lift (Exit "Error writing server-key.pem to $COPHome directory")
      | inr _ => mret tt
      end
  end.

(** ** The commands *)

Context {Policy : Type}.
#[local] Notation Cmd := (Command W Policy).

Definition RegisterCommand : Cmd := mkCommand registerUsageText register_flags (fun args _ _ => registerMain args).
Definition EnrollCommand : Cmd := mkCommand enrollUsageText enrollFlags (fun args _ _ => enrollMain args).
Definition ReenrollCommand : Cmd := mkCommand reenrollUsageText reenrollFlags (fun args _ _ => reenrollMain args).
Definition RevokeCommand : Cmd := mkCommand revokeUsageTxt revokeFlags (fun args c _ => revokeMain args c).
Definition InitServerCommand : Cmd := mkCommand initUsageText initFlags (fun args _ _ => initMain args).

Definition client_commands : list (string * Cmd) :=
  [("register", RegisterCommand); ("enroll", EnrollCommand); ("reenroll", ReenrollCommand); ("revoke", RevokeCommand)].
End Commands.

(** The server's commands; [StartCommand] is in file Start. *)
Definition server_commands {W Policy} (InitServerCommand StartCommand : Command W Policy)
    : list (string * Command W Policy) := [("init", InitServerCommand); ("start", StartCommand)].

(** ** cop.go *)

Definition cfssl_names : list string :=
  ["bundle"; "certinfo"; "sign"; "serve"; "version"; "genkey"; "gencert"; "gencrl"; "ocspdump"; "ocsprefresh";
   "ocspsign"; "ocspserve"; "selfsign"; "scan"; "info"; "print-defaults"; "revoke"].

Section cop.
Context {W Policy : Type} (E : CommandEnv W Policy) (Printf : string -> comp W unit).
#[local] Notation Cmd := (Command W Policy).
(** CFSSL's own commands, and the tables of the packages client and server. *)
Context (cfssl_Command : string -> Cmd) (client_cmds server_cmds : list (string * Cmd)).

(** [cfsslCommand]. *)
Definition cfsslCommand (args : list string) : comp W unit :=
  cli_Start E (map (fun n => let cmd := cfssl_Command n in
                       (n, mkCommand (ReplaceAll (UsageText cmd) "cfssl" "cop cfssl") (Flags cmd) (Main cmd)))
           cfssl_names) args.

(** [fmt.Println(usage)]. *)
Definition print_usage : comp W unit := Printf (usage_text +:+ String (Ascii.ascii_of_nat 10) "").

(** The exit status of a command. *)
Definition exit_status (m : comp W unit) : comp W Z :=
  r ← attempt m; mret (match r with inl _ => 1 | inr _ => 0 end)%Z.

(** [COPMain]: the exit status. *)
Definition COPMain (args : list string) : comp W Z :=
  match args with
  | _ :: ((cmd :: _) as args') =>
      if bool_decide (cmd = "client") then exit_status (cli_Start E client_cmds args')
      else if bool_decide (cmd = "server") then exit_status (cli_Start E server_cmds args')
      else if bool_decide (cmd = "cfssl") then exit_status (cfsslCommand args')
      else _ ← print_usage; mret 1%Z
  | _ => _ ← print_usage; mret 1%Z
  end.

Definition main (os_Args : list string) : comp W unit :=
  status ← COPMain os_Args; lift (Exit ("exit status " +:+ Itoa status)).

Lemma COPMain_client args w : COPMain ("cop" :: "client" :: args) w = exit_status (cli_Start E client_cmds ("client" :: args)) w.
Proof. done. Qed.

Lemma COPMain_server args w : COPMain ("cop" :: "server" :: args) w = exit_status (cli_Start E server_cmds ("server" :: args)) w.
Proof. done. Qed.

(** Only what the command does in the present state matters. *)
Lemma attempt_bind_ext {A B} (m m' : comp W A) (k : error + A -> comp W B) w :
  m w = m' w -> (attempt m ≫= k) w = (attempt m' ≫= k) w.
Proof. intros H. unfold attempt, mbind, comp_bind. by rewrite H. Qed.

Lemma exit_status_ok m w w' : m w = (Ok tt, w') -> exit_status m w = (Ok 0%Z, w').
Proof. intros H. unfold exit_status. by rewrite (bind_attempt_ok _ _ _ _ _ H). Qed.

Lemma exit_status_err m w e w' : m w = (Err e, w') -> exit_status m w = (Ok 1%Z, w').
Proof. intros H. unfold exit_status. by rewrite (bind_attempt_err _ _ _ _ _ H). Qed.

Lemma exit_status_ext m w m' w' : m w = m' w' -> exit_status m w = exit_status m' w'.
Proof. intros H. unfold exit_status, attempt, mbind, comp_bind. by rewrite H. Qed.
End cop.

(** ** What a command leaves on disk *)

(** The files as the commands rely on them: a written file reads back, and
    writing one file leaves the others alone; reading changes nothing. *)
Class FileLaws {W} (read : string -> comp W bytes) (write : string -> bytes -> Z -> comp W unit) := {
  law_read_back : forall f b perm w w', write f b perm w = (Ok tt, w') -> read f w' = (Ok b, w');
  law_read_other : forall f g b perm w w' x, f <> g ->
    write g b perm w = (Ok tt, w') -> read f w = (Ok x, w) -> read f w' = (Ok x, w')
}.

Section storage.
Context {W : Type} (C : Crypto) (getenv : string -> string) (hostname : string).
Context (read : string -> comp W bytes) (write : string -> bytes -> Z -> comp W unit) `{L : !FileLaws read write}.

Lemma map_err_ok_inv {A} f (m : comp W A) w a w' : map_err f m w = (Ok a, w') -> m w = (Ok a, w').
Proof. unfold map_err. destruct (m w) as [[] ?]; naive_solver. Qed.

(** An identity that was stored is loaded again: same key and certificate,
    under the name in the certificate. *)
Lemma Store_LoadMyIdentity c name key cert w w' cn :
  GetMyKeyFile getenv c <> GetMyCertFile getenv c ->
  GetEnrollmentIDFromPEM C cert = Ok cn ->
  Store getenv write (newIdentity (Some c) name (Some key) (Some cert)) w = (Ok tt, w') ->
  LoadMyIdentity C getenv read c w' = (Ok (newIdentity (Some c) cn (Some key) (Some cert)), w').
Proof.
  intros Hne Hcn Hs. unfold Store in Hs. simpl in Hs.
  apply bind_ok_inv in Hs as ([] & w1 & H1 & H2). apply map_err_ok_inv in H1, H2.
  pose proof (law_read_back _ _ _ _ _ H1) as R1. pose proof (law_read_back _ _ _ _ _ H2) as R2.
  pose proof (law_read_other _ _ _ _ _ _ _ Hne H2 R1) as R1'.
  unfold LoadMyIdentity, LoadIdentity, ReadFile.
  rewrite (bind_ok _ _ _ _ _ (map_err_ok _ _ _ _ _ R1')), (bind_ok _ _ _ _ _ (map_err_ok _ _ _ _ _ R2)).
  unfold NewIdentity. simpl default. rewrite (bind_ok _ _ w' cn w') by (unfold lift; by rewrite Hcn). done.
Qed.

Context (LoadX509KeyPair : string -> string -> comp W (string * string)) (AppendCertsFromPEM : bytes -> bool).
Context (Do : option tls_Config -> Request -> comp W (Response * option error)).
Context (ParseRequest : CertificateRequest -> comp W (bytes * bytes)) (DecodePrefix : string -> bytes).

#[local] Notation enroll := (Enroll hostname read LoadX509KeyPair AppendCertsFromPEM Do ParseRequest DecodePrefix).

(** What the identity made from a response holds. *)
Lemma newIdentityFromResponse_form c id b key (w : W) i w' :
  newIdentityFromResponse DecodePrefix c id b key w = (Ok i, w') ->
  exists cert, i = newIdentity (Some c) id (Some key) (Some cert).
Proof.
  unfold newIdentityFromResponse. intros (resp & w1 & _ & H)%bind_ok_inv.
  destruct (ar_Result resp); try done. destruct (ar_Success resp); [|done]. injection H as <- <-. by eexists.
Qed.

Lemma Enroll_form c req w i w' :
  enroll c req w = (Ok i, w') -> exists key cert, i = newIdentity (Some c) (en_Name req) (Some key) (Some cert).
Proof.
  unfold Enroll. intros ([csrPEM key] & w1 & _ & H)%bind_ok_inv.
  apply bind_ok_inv in H as (body & w2 & _ & H). apply bind_ok_inv in H as (post & w3 & _ & H).
  apply bind_ok_inv in H as (cert & w4 & _ & H). apply newIdentityFromResponse_form in H as [x ->]. by exists key, x.
Qed.

(** Enrollment is durable: when the [enroll] command succeeds, the client
    it made enrolled the given name with the given secret, and from then on
    that client loads from disk an identity with the key and the certificate
    of the enrollment; its name is the one in the certificate. *)
Theorem enrollMain_durable id secret server rest w w' :
  enrollMain getenv hostname read write LoadX509KeyPair AppendCertsFromPEM Do ParseRequest DecodePrefix
    (id :: secret :: server :: rest) w = (Ok tt, w') ->
  exists c w0 csr w1 key cert w2,
    cmd_NewClient getenv server w = (Ok c, w0)
    /\ csr_argument read rest w0 = (Ok csr, w1)
    /\ enroll c (mkEnrollmentRequest id secret "" "" "" csr) w1
        = (Ok (newIdentity (Some c) id (Some key) (Some cert)), w2)
    /\ (forall cn, GetMyKeyFile getenv c <> GetMyCertFile getenv c -> GetEnrollmentIDFromPEM C cert = Ok cn ->
          LoadMyIdentity C getenv read c w' = (Ok (newIdentity (Some c) cn (Some key) (Some cert)), w')).
Proof.
  unfold enrollMain. intros H. simpl PopFirstArgument in H.
  apply bind_ok_inv in H as ([? ?] & ? & [= <- <- <-] & H). apply bind_ok_inv in H as ([? ?] & ? & [= <- <- <-] & H).
  apply bind_ok_inv in H as ([? ?] & ? & [= <- <- <-] & H). apply bind_ok_inv in H as (c & w0 & Hc & H).
  apply bind_ok_inv in H as (csr & w1 & Hcsr & H). apply bind_ok_inv in H as (i & w2 & He & H).
  apply map_err_ok_inv in H. destruct (Enroll_form _ _ _ _ _ He) as (key & cert & ->).
  exists c, w0, csr, w1, key, cert, w2. do 3 (split; [done|]).
  intros cn Hne Hcn. by eapply Store_LoadMyIdentity.
Qed.
End storage.

(** A disk, and a server that issues the certificate of [toy_crypto]. *)
Notation disk := (gmap string bytes).

Definition disk_read (f : string) : comp disk bytes := fun d =>
  (match d !! f with Some b => Ok b | None => Err (NewErr ("open " +:+ f +:+ ": no such file or directory")) end, d).

Definition disk_write (f : string) (b : bytes) (perm : Z) : comp disk unit := fun d => (Ok tt, <[f := b]> d).

#[export] Instance disk_laws : FileLaws disk_read disk_write.
Proof.
  split.
  - intros f b perm w w' [= <-]. unfold disk_read. by rewrite lookup_insert_eq.
  - intros f g b perm w w' x Hne [= <-] H. unfold disk_read in *. rewrite lookup_insert_ne by done.
    destruct (w !! f); [|done]. by injection H as ->.
Qed.

Definition toy_issue (t : option tls_Config) (r : Request) : comp disk (Response * option error) :=
  mret (SendResponse (bytes_json [x01]), None).

(** The disk after a first enrollment. *)
Definition toy_enrolled : outcome unit * disk :=
  enrollMain (fun _ => "") "host" disk_read disk_write (fun _ _ => fail (NewErr "no key")) (fun _ => true)
    toy_issue (fun _ => mret ([x10], [x20])) (fun _ => []) ["admin"; "adminpw"; "localhost:8888"] ∅.

Lemma toy_enrolled_ok : toy_enrolled = (Ok tt, toy_enrolled.2).
Proof. vm_compute. reflexivity. Qed.

Lemma enrollMain_durable_witness :
  exists c key cert, forall cn,
    GetMyKeyFile (fun _ => "") c <> GetMyCertFile (fun _ => "") c -> GetEnrollmentIDFromPEM toy_crypto cert = Ok cn ->
    LoadMyIdentity toy_crypto (fun _ => "") disk_read c toy_enrolled.2
    = (Ok (newIdentity (Some c) cn (Some key) (Some cert)), toy_enrolled.2).
Proof.
  destruct (enrollMain_durable toy_crypto (fun _ => "") "host" disk_read disk_write (fun _ _ => fail (NewErr "no key"))
    (fun _ => true) toy_issue (fun _ => mret ([x10], [x20])) (fun _ => []) "admin" "adminpw" "localhost:8888" [] ∅
    toy_enrolled.2 toy_enrolled_ok) as (c & _ & _ & _ & key & cert & _ & _ & _ & _ & Hload).
  exists c, key, cert. exact Hload.
Defined.

(** The identity on that disk is the one enrolled. *)
Lemma toy_enrolled_identity :
  let c := mkClient "localhost:8888" (GetDefaultHomeDir (fun _ => "")) in
  (LoadMyIdentity toy_crypto (fun _ => "") disk_read c toy_enrolled.2).1
  = Ok (newIdentity (Some c) "admin" (Some [x20]) (Some [x01])).
Proof. vm_compute. reflexivity. Qed.
