(* ===== verification/ClientServer.v ===== *)
(** * Client and server together

    The client library (file Client) talking to the server (file Server)
    over a network that delivers a request to the server listening at the
    address its URL names.  A handler that panics closes the connection, as
    Go's HTTP server does, and the client sees an error. *)

From S2P Require Import Prelude GoStrings GoFmt GoJson CopError Base64 Http Registry GoUrl GoUnmarshal Token Database DbAccessor CertDB Util Config Register Auth Handlers TCertUtil KeyTree TCert Server Client.

#[local] Arguments String.append !_ _ : simpl nomatch.

Definition set_URL (u : string) (r : Request) : Request :=
  mkRequest (Method r) u (authorization r) (eid r) (body r) (body_err r).

(** The connection of a handler that panicked is closed. *)
Definition recovered {S A} (m : comp S A) : comp S A := fun s =>
  match m s with
  | (Panic _, s') => (Err (NewErr "EOF"), s')
  | r => r
  end.

(** The network: a server listening at [addr]. *)
Definition deliver {S} (listening : Request -> comp S Response) (addr : string)
    (tls : option tls_Config) (r : Request) : comp S (Response * option error) :=
  match url_Parse (URL r) with
  | Ok u =>
      if bool_decide (u_Host u = addr) then
        resp ← recovered (listening (set_URL (u_Path u) r)); mret (resp, None)
      else fail (NewErr "dial tcp: connection refused")
  | _ => fail (NewErr "unsupported protocol scheme")
  end.

(** Files that do not change while the client runs. *)
Definition read_file {S} (files : string -> option bytes) (f : string) : comp S bytes :=
  match files f with
  | Some b => mret b
  | None => fail (NewErr ("open " +:+ f +:+ ": no such file or directory"))
  end.

Definition load_pair {S} (pair : string -> string -> option (string * string)) (c k : string)
    : comp S (string * string) :=
  match pair c k with Some p => mret p | None => fail (NewErr "tls: failed to find any PEM data") end.

(** ** Errors are reported as such *)

(** The status of the response to an error is an error status. *)
Definition failing (e : error) : bool :=
  match e with ErrHTTP st _ => (400 <=? st)%Z | _ => true end.

Lemma HandleError_status e : failing e = true -> (400 <=? status (HandleError e))%Z = true.
Proof. by destruct e. Qed.

Definition errs_fail {S A} (m : comp S A) : Prop := forall s e s', m s = (Err e, s') -> failing e = true.

Lemma errs_fail_ret {S A} (x : A) : errs_fail (mret (M := comp S) x).
Proof. by intros s e s' [= ]. Qed.

Lemma errs_fail_fail {S A} e : failing e = true -> errs_fail (fail (S := S) (A := A) e).
Proof. by intros H s e' s' [= <- _]. Qed.

Lemma errs_fail_gets {S A} (f : S -> A) : errs_fail (gets f).
Proof. by intros s e s' [= ]. Qed.

Lemma errs_fail_bind {S A B} (m : comp S A) (f : A -> comp S B) :
  errs_fail m -> (forall x, errs_fail (f x)) -> errs_fail (m ≫= f).
Proof.
  intros Hm Hf s e s'. unfold mbind, comp_bind. destruct (m s) as [[] s1] eqn:E; try done.
  - apply Hf.
  - intros [= <- _]. by eapply Hm.
Qed.

(** Sequencing, for a continuation that is fine on the values produced. *)
Lemma errs_fail_bind_on {S A B} (m : comp S A) (f : A -> comp S B) :
  errs_fail m -> (forall x s s', m s = (Ok x, s') -> errs_fail (f x)) -> errs_fail (m ≫= f).
Proof.
  intros Hm Hf s e s'. unfold mbind, comp_bind. destruct (m s) as [[] s1] eqn:E; try done.
  - by eapply Hf.
  - intros [= <- _]. by eapply Hm.
Qed.

Lemma errs_fail_attempt {S A} (m : comp S A) : errs_fail (attempt m).
Proof. intros s e s'. unfold attempt. by destruct (m s) as [[] ?]. Qed.

Lemma errs_fail_map_err {S A} f (m : comp S A) : (forall e, failing (f e) = true) -> errs_fail (map_err f m).
Proof. intros Hf s e s'. unfold map_err. destruct (m s) as [[] ?]; try done. intros [= <- _]. apply Hf. Qed.

Lemma errs_fail_statement {A} t (f : DB -> outcome A * DB) : errs_fail f -> errs_fail (statement t f).
Proof.
  intros Hf s e s'. destruct (statement_cases t f s) as [(msg & fs & ->)|(fs & ->)]; [|apply Hf].
  by intros [= <- _].
Qed.

Lemma errs_fail_exec {A} h t q (f : DB -> outcome A * DB) : errs_fail f -> errs_fail (exec h t q f).
Proof. intros Hf. unfold exec. case_match; [by apply errs_fail_statement|by apply errs_fail_fail]. Qed.

Lemma errs_fail_random fuel n : errs_fail (db_RandomString fuel n).
Proof.
  intros s e s'. unfold db_RandomString, Util.RandomString.
  destruct (n <? 0)%Z; [done|]. by destruct (RandomString_loop _ _ _ _ _ _ _) as [[]|].
Qed.

Lemma errs_fail_decode {S A} (d : decoder A) b a : errs_fail (decode (S := S) d b a).
Proof.
  unfold decode, json_Unmarshal. destruct (json_parse b) as [v|]; [|by apply errs_fail_fail].
  destruct (d v a) as [a' []]; [apply errs_fail_ret|by apply errs_fail_fail].
Qed.

Ltac errs_step :=
  first
    [ apply errs_fail_ret | apply errs_fail_gets | apply errs_fail_random | apply errs_fail_decode
    | apply errs_fail_attempt | apply errs_fail_fail; reflexivity
    | apply errs_fail_map_err; intros ?; reflexivity
    | apply errs_fail_bind; [|intros ?] | apply errs_fail_exec | apply errs_fail_statement | case_match
    | (intros ? ? ? ?; simplify_eq; done) ].

Ltac solve_errs := repeat errs_step.

Section accessor_errors.
Context (h : DBHandle).
Let R := accessor_registry (Accessor.mkAccessor (Some h)).

Ltac accessor_errs :=
  unfold R; simpl; unfold Accessor.GetUser, Accessor.GetGroup, Accessor.InsertUser, Accessor.UpdateField,
    Accessor.exec_insertUser, Accessor.update_users, Accessor.Login, Accessor.checkDB; simpl; solve_errs;
  try (intros ? ? ?; case_match; intros [= <- _]; reflexivity).

Lemma GetUser_errs id names : errs_fail (GetUser R id names).
Proof. accessor_errs. Qed.

Lemma GetGroup_errs g : errs_fail (GetGroup R g).
Proof. accessor_errs. Qed.

Lemma InsertUser_errs u : errs_fail (InsertUser R u).
Proof. accessor_errs. Qed.

Lemma UpdateField_errs id f v : errs_fail (UpdateField R id f v).
Proof. accessor_errs. Qed.

Lemma Login_errs r p : errs_fail (Login (Accessor.as_User (Accessor.newDBUser h r)) p).
Proof. accessor_errs. Qed.

Lemma RegisterUser_errs CFG fuel id t g attrs registrar opt :
  errs_fail (Register.RegisterUser R CFG (db_RandomString fuel) id t g attrs registrar opt).
Proof.
  unfold Register.RegisterUser, Register.canRegister, Register.validateID, Register.isValidGroup,
    Register.registerUserID, Register.token_for.
  repeat first [apply GetUser_errs | apply GetGroup_errs | apply InsertUser_errs | apply UpdateField_errs
               | errs_step].
Qed.

Lemma basic_errs {W} C CFG checkCRL (nx : Request -> comp W Response) r :
  errs_fail (serveHTTP C CFG R checkCRL (mkCopAuthHandler true false nx) r).
Proof.
  unfold serveHTTP. cbn [basic token negb]. case_match; [apply errs_fail_ret|].
  case_match; [by apply errs_fail_fail|]. case_match; [|apply errs_fail_ret]. case_match.
  apply errs_fail_bind_on; [apply GetUser_errs|]. intros u s1 s2 [rec ->]%GetUser_object.
  apply errs_fail_bind; [apply Login_errs|intros _; apply errs_fail_ret].
Qed.
End accessor_errors.

(** ** A post to the server *)

Lemma json_parse_response v : json_wf v = true -> json_parse (json_print v +:+ newline) = Some v.
Proof.
  intros Hwf. unfold json_parse. pose proof (json_size_length v Hwf).
  rewrite (parse_value_print v Hwf); [done| |done]. rewrite length_app_str. lia.
Qed.

Section post.
Context {S : Type} (C : Crypto) (files : string -> option bytes).
Context (pair : string -> string -> option (string * string)) (roots : bytes -> bool).
Context (listening : Request -> comp S Response).
Context (h p : string) (z : Z) (home : string).
Hypothesis Hh : all_chars host_char h = true.
Hypothesis Hp : all_digits p = true.
Hypothesis Hz : Atoi p = Some z.
Let addr : string := h +:+ String ":" p.
Let c : Client := mkClient ("http://" +:+ addr) home.
Let Do := deliver listening addr.
Let send := SendPost (read_file files) (load_pair pair) roots Do.

(** A computation that returns, one way or the other, without an effect. *)
Definition returns {A} (m : comp S A) (s : S) : Prop :=
  (exists x, m s = (Ok x, s)) \/ (exists e, m s = (Err e, s)).

Lemma returns_attempt {A} (m : comp S A) s : returns m s -> exists x, attempt m s = (Ok x, s).
Proof. intros [[x H]|[e H]]; unfold attempt; rewrite H; by eexists. Qed.

Lemma load_roots_pure fs s : returns (load_roots (read_file files) roots fs) s.
Proof.
  induction fs as [|f fs IH]; [by left; eexists|]. cbn [load_roots].
  assert (read_file (S := S) files f s = (match files f with
    | Some b => Ok b
    | None => Err (NewErr ("open " +:+ f +:+ ": no such file or directory"))
    end, s)) as Hf by (unfold read_file; by destruct (files f)).
  destruct (files f) as [b|]; unfold returns;
    [|right; eexists; exact (bind_err _ _ _ _ _ Hf)].
  rewrite (bind_ok _ _ _ _ _ Hf). destruct (roots b); [|by right; eexists]. simpl.
  destruct IH as [[x H]|[e H]]; [left|right]; eexists;
    [exact (bind_ok _ _ _ _ _ H)|exact (bind_err _ _ _ _ _ H)].
Qed.

Lemma tls_config_pure cfg s :
  returns (GetClientTLSConfig (read_file files) (load_pair pair) roots cfg) s.
Proof.
  unfold GetClientTLSConfig.
  assert (exists x, attempt (load_pair (S := S) pair (CertFile (tls_Client cfg)) (KeyFile (tls_Client cfg))) s
            = (Ok x, s)) as [x Hx].
  { apply returns_attempt. unfold load_pair, returns. destruct (pair _ _); [left|right]; by eexists. }
  unfold returns. rewrite (bind_ok _ _ _ _ _ Hx).
  destruct (load_roots_pure (CACertFiles cfg) s) as [[y H]|[e H]]; [left|right]; eexists;
    [exact (bind_ok _ _ _ _ _ H)|exact (bind_err _ _ _ _ _ H)].
Qed.

Lemma addr_chars : all_chars addr_char addr = true.
Proof.
  unfold addr. rewrite all_chars_app, all_host_addr by done. simpl.
  by rewrite all_host_addr by by apply all_digits_host.
Qed.

Lemma SendPost_run path hdr b s :
  all_chars path_char path = true ->
  send c (mkRequest "POST" ("http://" +:+ addr +:+ "/" +:+ path) hdr "" b None) s =
    match recovered (listening (mkRequest "POST" ("/" +:+ path) hdr "" b None)) s with
    | (Ok resp, s') =>
        if (400 <=? status resp)%Z
        then (Err (NewErr (Sprintf "Error response from COP server; %s"
                [FStr (match json_Unmarshal dec_APIResponse (resp_body resp) zero_APIResponse with
                       | (mkAPIResponse _ _ ((_, m) :: _), Some _) => m
                       | _ => Sprintf "HTTP status code=%d; %s" [FInt (status resp); FStr (resp_body resp)]
                       end)])), s')
        else (Ok (bytes_of_string (resp_body resp)), s')
    | (Err err, s') => (Err (NewErr (Sprintf "POST failed: %v" [FStr (Error err)])), s')
    | (Panic q, s') => (Panic q, s')
    | (Exit q, s') => (Exit q, s')
    | (OutOfFuel, s') => (OutOfFuel, s')
    end.
Proof.
  intros Hpath. unfold send, SendPost.
  assert (exists x, attempt (getClientConfig (read_file (S := S) files) (HomeDir c)) s = (Ok x, s)) as [f Hf].
  { unfold getClientConfig, read_file. destruct (files _); by eexists. }
  rewrite (bind_ok _ _ _ _ _ Hf).
  set (cfg := (json_Unmarshal _ _ _).1). destruct (returns_attempt _ _ (tls_config_pure cfg s)) as [t Ht].
  rewrite (bind_ok _ _ _ _ _ Ht).
  change ((HTTPRequestToString (mkRequest "POST" ("http://" +:+ addr +:+ "/" +:+ path) hdr "" b None)).2)
    with (mkRequest "POST" ("http://" +:+ addr +:+ "/" +:+ path) hdr "" b None).
  unfold Do, deliver. cbn [URL].
  rewrite url_Parse_http by (eauto using addr_chars). cbn [u_Host u_Path].
  rewrite bool_decide_true by done. unfold set_URL. cbn [Method authorization eid body body_err].
  unfold attempt, mbind, comp_bind.
  destruct (recovered (listening _) s) as [[resp|e|q|q|] s']; try done. simpl.
  destruct (400 <=? status resp)%Z; [|done].
  destruct (json_Unmarshal dec_APIResponse (resp_body resp) zero_APIResponse) as [r [e|]];
    destruct r as [ok res [|[]]]; done.
Qed.

Lemma NewPost_run endpoint b s :
  all_chars host_char endpoint = true ->
  NewPost (W := S) c endpoint b s =
    (Ok (mkRequest "POST" ("http://" +:+ addr +:+ "/" +:+ ("api/v1/cfssl/" +:+ endpoint)) "" ""
           (string_of_bytes b) None), s).
Proof.
  intros He. unfold NewPost, getURL. unfold c. cbn [ServerURL]. unfold addr.
  rewrite (normalizeURL_http h p z) by done. rewrite bind_mret. fold addr.
  assert (Hs : Sprintf "%s/api/v1/cfssl/%s" [FStr (URL_String (http_url addr)); FStr endpoint]
    = "http://" +:+ addr +:+ "/" +:+ ("api/v1/cfssl/" +:+ endpoint)).
  { unfold http_url. rewrite (URL_String_http addr "") by (auto using addr_chars).
    rewrite app_nil_r_str. generalize addr. intros a. simpl. by rewrite app_nil_r_str, <- ?app_assoc_str. }
  rewrite Hs.
  assert (all_chars path_char ("/" +:+ ("api/v1/cfssl/" +:+ endpoint)) = true) as Hpath
    by (rewrite !all_chars_app; simpl; by apply all_host_path).
  rewrite url_Parse_http by (eauto using addr_chars).
  by rewrite URL_String_http by (eauto using addr_chars).
Qed.

Lemma Post_run name key der endpoint b token s :
  all_chars host_char endpoint = true -> CreateToken C der key b = Ok token ->
  Post C (read_file files) (load_pair pair) roots Do (newIdentity (Some c) name (Some key) (Some der)) endpoint b s
  = send c (mkRequest "POST" ("http://" +:+ addr +:+ "/" +:+ ("api/v1/cfssl/" +:+ endpoint)) token ""
       (string_of_bytes b) None) s.
Proof.
  intros He Ht. unfold Post. cbn [i_client newIdentity].
  rewrite (bind_ok _ _ _ _ _ (NewPost_run endpoint b s He)).
  unfold addTokenAuthHdr, id_GetMyCert, id_GetMyKey, newIdentity, newTemporalSigner, newSigner, newVerifier, GetMyCert, getMyKey.
  cbn [i_PublicSigner t_Signer s_Verifier v_Cert s_Key]. rewrite Ht. done.
Qed.

(** What the client makes of the server's response. *)
Definition answered (resp : Response) : (error -> Prop) -> (bytes -> Prop) -> Prop := fun P Q =>
  if (400 <=? status resp)%Z then exists e, P e else Q (bytes_of_string (resp_body resp)).

Lemma SendPost_answer endpoint hdr b s resp s' :
  all_chars host_char endpoint = true ->
  listening (mkRequest "POST" ("/api/v1/cfssl/" +:+ endpoint) hdr "" b None) s = (Ok resp, s') ->
  let run := send c (mkRequest "POST" ("http://" +:+ addr +:+ "/" +:+ ("api/v1/cfssl/" +:+ endpoint)) hdr "" b None) s in
  answered resp (fun e => run = (Err e, s')) (fun buf => run = (Ok buf, s')).
Proof.
  intros He Hl. cbv zeta. unfold answered.
  rewrite SendPost_run by (rewrite all_chars_app; simpl; by apply all_host_path).
  unfold recovered. change ("/" +:+ "api/v1/cfssl/" +:+ endpoint) with ("/api/v1/cfssl/" +:+ endpoint).
  rewrite Hl. destruct (400 <=? status resp)%Z; [by eexists|done].
Qed.

Lemma Post_answer name key der endpoint b token s resp s' :
  all_chars host_char endpoint = true -> CreateToken C der key (bytes_of_string b) = Ok token ->
  listening (mkRequest "POST" ("/api/v1/cfssl/" +:+ endpoint) token "" b None) s = (Ok resp, s') ->
  let run := Post C (read_file files) (load_pair pair) roots Do (newIdentity (Some c) name (Some key) (Some der))
               endpoint (bytes_of_string b) s in
  answered resp (fun e => run = (Err e, s')) (fun buf => run = (Ok buf, s')).
Proof.
  intros He Ht Hl. cbv zeta. rewrite (Post_run name key der endpoint _ token s He Ht).
  rewrite string_of_bytes_of_string. by apply SendPost_answer.
Qed.
End post.

(** ** Registration and enrollment, end to end *)

Lemma token_not_basic r der sig :
  authorization r = B64Encode der +:+ "." +:+ B64Encode sig -> BasicAuth r = None.
Proof.
  intros Hr. unfold BasicAuth. rewrite Hr.
  destruct (HasPrefix _ "Basic ") eqn:E; [|done]. exfalso. apply HasPrefix_true in E as [q Hq].
  assert (Contains (B64Encode der +:+ "." +:+ B64Encode sig) " " = false) as Hc.
  { rewrite !Contains_app. rewrite !(plain_no_char (B64Encode _) " ") by (apply enc_plain || reflexivity). done. }
  rewrite Hq in Hc. done.
Qed.

Lemma bytes_of_string_length s : length (bytes_of_string s) = String.length s.
Proof. unfold bytes_of_string. induction s; simpl; [done|]. unfold String.list_byte_of_string in *. simpl. congruence. Qed.

Lemma StdEncode_length b : b <> [] -> (length b < String.length (StdEncode b))%nat.
Proof.
  intros Hne. unfold StdEncode. rewrite length_app_str.
  assert (length b < String.length (B64Encode b))%nat; [|lia]. revert b Hne.
  apply (bytes3_ind (fun b => b <> [] -> (length b < String.length (B64Encode b))%nat)); simpl; try lia; [done|].
  intros x y w rest IH _. destruct rest; [simpl; lia|]. specialize (IH ltac:(done)). simpl in *. lia.
Qed.

Section end_to_end.
Context {Key : Type} (KeyDeriv : Key -> string -> outcome Key) (SKI : Key -> bytes).
Context (C : Crypto) `{!CryptoLaws C} (CFG : Config) (hd : DBHandle) (fuel : nat).
Context (checkCRL : Certificate -> string -> bool * bool).
Context {SR : Type} (zero : SR) (dec : decoder SR) (issue : SR -> outcome (bytes * CertificateRecord)).
Context (mgr_GetBatch : GetBatchRequest -> Certificate -> comp (Srv Key) GetBatchResponse).
Context (resp_json : GetBatchResponse -> json).
Let R := accessor_registry (Accessor.mkAccessor (Some hd)).
Let a := CertDBAccessor.NewCertDBAccessor (Some hd).
Let listening := serve KeyDeriv SKI C CFG R (Some a) checkCRL (db_RandomString fuel) zero dec issue mgr_GetBatch resp_json.

Lemma serve_register r s :
  URL r = "/api/v1/cfssl/register" ->
  listening r s = ServeHTTP C CFG R checkCRL onDB
    (mkCopAuthHandler false true (fun r => onDB (NewRegisterHandler CFG R (db_RandomString fuel) r))) r s.
Proof. intros Hu. unfold listening, serve. by rewrite Hu. Qed.

Lemma serve_enroll r s :
  URL r = "/api/v1/cfssl/enroll" ->
  listening r s = ServeHTTP C CFG R checkCRL onDB
    (mkCopAuthHandler true false (fun r => onDB (NewEnrollHandler C (Some a) zero dec issue r))) r s.
Proof. intros Hu. unfold listening, serve. by rewrite Hu. Qed.

(** A certificate the server accepts now. *)
Definition current (d : DB) (cert : Certificate) : Prop :=
  (NotBefore cert < now d < NotAfter cert)%Z
  /\ revCheck checkCRL cert (CRLDistributionPoints cert) = (false, true).

Lemma token_admitted {W} (nx : Request -> comp W Response) r d cert der sig :
  Authentication CFG = true -> authorization r = B64Encode der +:+ "." +:+ B64Encode sig ->
  VerifyToken C (authorization r) (bytes_of_string (body r)) = Ok cert -> current d cert ->
  serveHTTP C CFG R checkCRL (mkCopAuthHandler false true nx) r d
    = (Ok (set_eid (CommonName cert) (set_Body (body r) r)), d).
Proof.
  intros HA Hr Hv [Hn Hc].
  rewrite serveHTTP_token_run; [|done..|by eapply token_not_basic|].
  2:{ rewrite Hr. by destruct (B64Encode der). }
  rewrite Hv, Hc, bool_decide_true by done. simpl.
  by rewrite (proj2 (Z.ltb_lt _ _)), (proj2 (Z.ltb_lt _ _)) by lia.
Qed.

Lemma onDB_run {A} (m : comp DB A) s o d' : m (s_db s) = (o, d') -> onDB (Key := Key) m s = (o, mkSrv d' (s_tree s)).
Proof. intros H. unfold onDB. by rewrite H. Qed.

(** The register endpoint as the network sees it, for an admitted token. *)
Lemma register_served r s req cert der sig :
  Authentication CFG = true -> URL r = "/api/v1/cfssl/register" -> Method r = "POST" ->
  body r = json_print (RegisterRequest_json req) ->
  authorization r = B64Encode der +:+ "." +:+ B64Encode sig ->
  VerifyToken C (authorization r) (bytes_of_string (body r)) = Ok cert -> current (s_db s) cert ->
  db_inv (s_db s) -> letters_within fuel (s_db s) ->
  exists tok, String.length tok = 12%nat
    /\ match spec_register (db_view (s_db s)) (MaxEnrollments CFG)
               (mkUserInfo (rr_User req) tok (rr_Type req) (rr_Group req) (rr_Attributes req))
               (rr_CallerID req) with
       | Some V' => exists s', listening r s = (Ok (SendResponse (bytes_json (bytes_of_string tok))), s')
           /\ db_inv (s_db s') /\ db_view (s_db s') = V'
       | None => exists e s', listening r s = (Ok (HandleError e), s') /\ failing e = true
           /\ db_inv (s_db s') /\ db_view (s_db s') = db_view (s_db s)
       end.
Proof.
  intros HA Hu Hm Hb Hr Hv Hcur Hd Hl.
  destruct (register_handler_run hd CFG fuel (set_eid (CommonName cert) (set_Body (body r) r)) (s_db s) req
    Hm eq_refl Hb Hd Hl) as (tok & Hlen & Hrun).
  exists tok. split; [done|]. rewrite serve_register by done. unfold ServeHTTP.
  pose proof (token_admitted (fun r => onDB (Key := Key) (NewRegisterHandler CFG R (db_RandomString fuel) r))
    r (s_db s) cert der sig HA Hr Hv Hcur) as Hadm.
  rewrite (bind_attempt_ok _ _ _ _ _ (onDB_run _ _ _ _ Hadm)). cbn [next].
  destruct (spec_register _ _ _ _) as [V'|].
  - destruct Hrun as (d' & Hrun & Hi & HV). eexists. split; [by apply onDB_run|]. done.
  - destruct Hrun as (e & d' & Hrun & Hreg & Hi & HV).
    exists e. eexists. split; [by apply onDB_run|]. split; [|done]. by eapply RegisterUser_errs.
Qed.

Context (files : string -> option bytes) (pair : string -> string -> option (string * string)).
Context (roots : bytes -> bool) (h p : string) (z : Z) (home : string).
Hypothesis Hh : all_chars host_char h = true.
Hypothesis Hp : all_digits p = true.
Hypothesis Hz : Atoi p = Some z.
Let addr : string := h +:+ String ":" p.
Let c : Client := mkClient ("http://" +:+ addr) home.
Let Do := deliver listening addr.

Lemma recovered_ok {S A} (m : comp S A) s x s' : m s = (Ok x, s') -> recovered m s = (Ok x, s').
Proof. intros H. unfold recovered. by rewrite H. Qed.

(** The response to a success, as the client decodes it. *)
Lemma decode_success x :
  json_Unmarshal dec_APIResponse (resp_body (SendResponse (JStr x))) zero_APIResponse
  = (mkAPIResponse true (JStr x) [], None).
Proof.
  unfold json_Unmarshal, SendResponse. cbn [resp_body]. by rewrite json_parse_response by done.
Qed.

(** The identity made of the response to a granted request. *)
Lemma newIdentity_issued {W} prefix client name key issued (w : W) :
  newIdentityFromResponse prefix client name (bytes_of_string (resp_body (SendResponse (bytes_json issued)))) key w
    = (Ok (newIdentity (Some client) name (Some key) (Some issued)), w).
Proof.
  unfold newIdentityFromResponse, decode. rewrite string_of_bytes_of_string.
  unfold bytes_json. rewrite decode_success, bind_mret. cbn [ar_Result ar_Success].
  by rewrite StdDecode_StdEncode.
Qed.

Lemma Register_run name key der cert req s :
  Authentication CFG = true ->
  GetX509CertificateFromPEM C der = Ok cert -> der <> [] -> matching_key C cert key ->
  (forall b, exists t, CreateToken C der key b = Ok t) -> current (s_db s) cert ->
  db_inv (s_db s) -> letters_within fuel (s_db s) ->
  rg_Name req <> "" -> rg_Group req <> "" ->
  rg_Registrar req = Some (newIdentity (Some c) name (Some key) (Some der)) ->
  exists tok, String.length tok = 12%nat
    /\ match spec_register (db_view (s_db s)) (MaxEnrollments CFG)
               (mkUserInfo (rg_Name req) tok (rg_Type req) (rg_Group req) (rg_Attributes req)) name with
       | Some V' => exists s', Client_Register C (read_file files) (load_pair pair) roots Do c req s
                                 = (Ok (StdEncode (bytes_of_string tok)), s')
           /\ db_inv (s_db s') /\ db_view (s_db s') = V'
       | None => exists e s', Client_Register C (read_file files) (load_pair pair) roots Do c req s = (Err e, s')
           /\ db_inv (s_db s') /\ db_view (s_db s') = db_view (s_db s)
       end.
Proof.
  intros HA Hcert Hne Hkey Htok Hcur Hd Hl Hn Hg Hreg.
  set (request := mkRegisterRequest (rg_Name req) (rg_Group req) (rg_Type req) (rg_Attributes req) name).
  set (b := json_print (RegisterRequest_json request)).
  destruct (Htok (bytes_of_string b)) as [t Ht].
  destruct (CreateToken_verifies C der key (bytes_of_string b) cert t Hcert Hne Hkey Ht) as [Hv [sig Hsig]].
  destruct (register_served (mkRequest "POST" "/api/v1/cfssl/register" t "" b None) s request cert der sig
    HA eq_refl eq_refl eq_refl Hsig Hv Hcur Hd Hl) as (tok & Hlen & Hrun).
  exists tok. split; [done|]. unfold Client_Register. rewrite !bool_decide_false by done. rewrite Hreg.
  cbn [i_Name newIdentity]. unfold Marshal. rewrite bind_mret. fold request b.
  destruct (spec_register _ _ _ _) as [V'|].
  - destruct Hrun as (s' & Hrun & Hi & HV). exists s'. split; [|done].
    pose proof (Post_answer C files pair roots listening h p z home Hh Hp Hz name key der "register" b t s
      _ s' eq_refl Ht Hrun) as Hpost.
    rewrite (bind_ok _ _ _ _ _ Hpost), string_of_bytes_of_string.
    unfold bytes_json. by rewrite decode_success.
  - destruct Hrun as (e & s' & Hrun & Hf & Hi & HV).
    pose proof (Post_answer C files pair roots listening h p z home Hh Hp Hz name key der "register" b t s
      _ s' eq_refl Ht Hrun) as Hpost.
    unfold answered in Hpost. rewrite HandleError_status in Hpost by done. destruct Hpost as [e' He'].
    exists e', s'. split; [exact (bind_err _ _ _ _ _ He')|done].
Qed.

(** A login changes no certificate. *)
Lemma preserves_bind_on {S A B} (P : S -> Prop) (m : comp S A) (f : A -> comp S B) :
  preserves P m -> (forall x s s', m s = (Ok x, s') -> preserves P (f x)) -> preserves P (m ≫= f).
Proof.
  intros Hm Hf s Hs. unfold mbind, comp_bind. specialize (Hm s Hs).
  destruct (m s) as [[] s1] eqn:E; try done. by eapply Hf.
Qed.

Lemma basic_certs {W} (nx : Request -> comp W Response) r cs :
  preserves (fun d => certificates d = cs) (serveHTTP C CFG R checkCRL (mkCopAuthHandler true false nx) r).
Proof.
  unfold serveHTTP. cbn [basic token negb]. case_match; [apply preserves_ret|].
  case_match; [apply preserves_lift|]. case_match; [|apply preserves_ret]. case_match.
  apply preserves_bind_on.
  - unfold R. simpl. unfold Accessor.GetUser, Accessor.checkDB. simpl.
    apply preserves_bind; [apply preserves_ret|intros hh]. apply preserves_bind; [|intros; apply preserves_ret].
    apply preserves_exec; [by intros ? ? ?|]. by intros d Hd.
  - intros u s1 s2 [rec ->]%GetUser_object. apply preserves_bind; [|intros; apply preserves_ret]. simpl.
    unfold Accessor.Login. repeat case_match; try apply preserves_lift; try apply preserves_ret.
    apply preserves_bind; [apply preserves_map_err, preserves_exec; [by intros ? ? ?|by intros d Hd]|].
    intros n. repeat case_match; try apply preserves_lift; apply preserves_ret.
Qed.

Context (gen : CertificateRequest -> bytes * bytes) (hostname : string) (prefix : string -> bytes).
Let ParseRequest (q : CertificateRequest) : comp (Srv Key) (bytes * bytes) := mret (gen q).

(** The certificate request and the key the client generates. *)
Definition client_csr (req : EnrollmentRequest) : bytes * bytes :=
  let cr := newCertificateRequest hostname (en_CSR req) in
  gen (mkCertificateRequest (en_Name req) (cq_Names cr) (cq_Hosts cr) (cq_KeyRequest cr) (cq_CA cr) (cq_SerialNumber cr)).

Definition client_sign_request (req : EnrollmentRequest) : SignRequest :=
  mkSignRequest (SplitHosts (en_Hosts req)) (string_of_bytes (client_csr req).1) (en_Profile req) (en_Label req).

Let enroll := Enroll hostname (read_file files) (load_pair pair) roots Do ParseRequest prefix c.

Let send := SendPost (read_file files) (load_pair pair) roots Do c.

(** The request the client posts, as the server receives it. *)
Definition enroll_request (req : EnrollmentRequest) : Request :=
  mkRequest "POST" "/api/v1/cfssl/enroll" (SetBasicAuth (en_Name req) (en_Secret req)) ""
    (json_print (SignRequest_json (client_sign_request req))) None.

Lemma Enroll_sent req s resp s' :
  listening (enroll_request req) s = (Ok resp, s') ->
  answered resp (fun e => enroll req s = (Err e, s'))
    (fun buf => enroll req s = newIdentityFromResponse prefix c (en_Name req) buf (client_csr req).2 s').
Proof.
  intros Hl. unfold enroll, Enroll, GenCSR, ParseRequest. rewrite bind_mret.
  fold (client_csr req). unfold enroll_request, client_sign_request in Hl.
  destruct (client_csr req) as [csrPEM key]. cbn [fst snd] in *. unfold Marshal. rewrite bind_mret.
  set (b := json_print _) in *.
  rewrite (bind_ok _ _ _ _ _ (NewPost_run h p z home Hh Hp Hz "enroll" (bytes_of_string b) s eq_refl)).
  rewrite string_of_bytes_of_string. unfold set_authorization. cbn [Method URL eid body body_err].
  pose proof (SendPost_answer files pair roots listening h p home Hh Hp "enroll" _ b s _ s' eq_refl Hl) as Hs.
  unfold answered in *. destruct (400 <=? status resp)%Z.
  - destruct Hs as [e He]. exists e. exact (bind_err _ _ _ _ _ He).
  - exact (bind_ok _ _ _ _ _ Hs).
Qed.

Lemma enroll_credentials req :
  Contains (en_Name req) ":" = false -> BasicAuth (enroll_request req) = Some (en_Name req, en_Secret req).
Proof. intros. by apply BasicAuth_roundtrip. Qed.

Lemma Enroll_refused req s :
  Authentication CFG = true -> db_inv (s_db s) -> Contains (en_Name req) ":" = false ->
  rv_users (db_view (s_db s)) !! en_Name req ≫= (fun v => spec_login v (en_Secret req)) = None ->
  exists e, enroll req s = (Err e, s).
Proof.
  intros HA Hd Hcol Hspec.
  pose proof (serveHTTP_basic_run C CFG hd checkCRL
    (fun r => onDB (Key := Key) (NewEnrollHandler C (Some a) zero dec issue r)) (enroll_request req) (s_db s) _ _ HA Hd
    ltac:(done) (enroll_credentials req Hcol)) as Hrun.
  cbv zeta in Hrun. rewrite Hspec in Hrun. destruct Hrun as [e Hrun].
  assert (failing e = true) as Hf by by eapply basic_errs.
  assert (listening (enroll_request req) s = (Ok (HandleError e), s)) as Hl.
  { rewrite serve_enroll by done. unfold ServeHTTP.
    rewrite (bind_attempt_err _ _ _ _ _ (onDB_run _ _ _ _ Hrun)). by destruct s. }
  pose proof (Enroll_sent req s _ _ Hl) as Hs. unfold answered in Hs.
  by rewrite HandleError_status in Hs.
Qed.

Lemma Enroll_accepted req s v' sr cert cr cn :
  Authentication CFG = true -> db_inv (s_db s) -> Contains (en_Name req) ":" = false ->
  rv_users (db_view (s_db s)) !! en_Name req ≫= (fun v => spec_login v (en_Secret req)) = Some v' ->
  json_Unmarshal dec (json_print (SignRequest_json (client_sign_request req))) zero = (sr, None) ->
  issue sr = Ok (cert, cr) -> GetEnrollmentIDFromPEM C (bytes_of_string (cr_PEM cr)) = Ok cn ->
  existsb (has_cert (cr_Serial cr) (cr_AKI cr)) (certificates (s_db s)) = false ->
  exists s', enroll req s = (Ok (newIdentity (Some c) (en_Name req) (Some (client_csr req).2) (Some cert)), s')
    /\ db_inv (s_db s')
    /\ db_view (s_db s') = mkRegistryView (<[en_Name req := v']> (rv_users (db_view (s_db s))))
                             (rv_groups (db_view (s_db s)))
    /\ certificates (s_db s') = certificates (s_db s) ++ [stored cn cr].
Proof.
  intros HA Hd Hcol Hspec Hdec Hiss Hid Hk.
  set (nx := fun r => onDB (Key := Key) (NewEnrollHandler C (Some a) zero dec issue r)).
  pose proof (serveHTTP_basic_run C CFG hd checkCRL nx (enroll_request req) (s_db s) _ _ HA Hd
    ltac:(done) (enroll_credentials req Hcol)) as Hrun.
  cbv zeta in Hrun. rewrite Hspec in Hrun. destruct Hrun as (d1 & Hrun & Hd1 & Hv1).
  assert (certificates d1 = certificates (s_db s)) as Hc1.
  { pose proof (basic_certs nx (enroll_request req) (certificates (s_db s)) (s_db s) eq_refl) as H.
    unfold R in H. by rewrite Hrun in H. }
  pose proof (signHandler_run C a hd zero dec issue eq_refl "enroll"
    (set_eid (en_Name req) (set_Body (body (enroll_request req)) (enroll_request req))) d1 sr cert cr cn
    eq_refl eq_refl Hdec Hiss (proj1 Hd1) Hid ltac:(by rewrite Hc1)) as Hsign.
  set (d2 := set_certificates (certificates d1 ++ [stored cn cr]) d1) in *.
  assert (listening (enroll_request req) s = (Ok (SendResponse (bytes_json cert)), mkSrv d2 (s_tree s))) as Hl.
  { rewrite serve_enroll by done. unfold ServeHTTP.
    rewrite (bind_attempt_ok _ _ _ _ _ (onDB_run _ _ _ _ Hrun)). cbn [next]. unfold onDB. cbn [s_db s_tree].
    unfold NewEnrollHandler. by rewrite Hsign. }
  exists (mkSrv d2 (s_tree s)). cbn [s_db]. split.
  2:{ split; [exact Hd1|]. split; [exact Hv1|]. unfold d2. simpl. by rewrite Hc1. }
  pose proof (Enroll_sent req s _ _ Hl) as Hs. unfold answered in Hs.
  change (400 <=? status (SendResponse (bytes_json cert)))%Z with false in Hs. cbn iota in Hs. rewrite Hs.
  apply newIdentity_issued.
Qed.



(** (C39) The secret [Register] returns is not the one [Enroll] takes, although
    the enrollment request documents its secret as the one returned: it is
    the base64 text of the password, an enrollment with it is refused and
    changes nothing. *)
Theorem returned_secret_refused name key der cert req ereq s secret s1 :
  Authentication CFG = true ->
  GetX509CertificateFromPEM C der = Ok cert -> der <> [] -> matching_key C cert key ->
  (forall b, exists t, CreateToken C der key b = Ok t) -> current (s_db s) cert ->
  db_inv (s_db s) -> letters_within fuel (s_db s) ->
  rg_Name req <> "" -> rg_Group req <> "" -> Contains (rg_Name req) ":" = false ->
  rg_Registrar req = Some (newIdentity (Some c) name (Some key) (Some der)) ->
  Client_Register C (read_file files) (load_pair pair) roots Do c req s = (Ok secret, s1) ->
  en_Name ereq = rg_Name req -> en_Secret ereq = secret ->
  (exists v, rv_users (db_view (s_db s1)) !! rg_Name req = Some v
     /\ StdDecode secret = Some (bytes_of_string (ui_Pass (uv_info v))))
  /\ exists e, enroll ereq s1 = (Err e, s1).
Proof.
  intros HA Hcert Hne Hkey Htok Hcur Hd Hl Hn Hg Hcol Hreg Hrun HeN HeS.
  destruct (Register_run name key der cert req s HA Hcert Hne Hkey Htok Hcur Hd Hl Hn Hg Hreg)
    as (tok & Hlen & H).
  destruct (spec_register _ _ _ _) as [V'|] eqn:Espec.
  2:{ destruct H as (e & s' & H & _). rewrite H in Hrun. discriminate Hrun. }
  destruct H as (s' & H & Hi & HV). rewrite H in Hrun. injection Hrun as <- <-.
  assert (rv_users (db_view (s_db s')) !! rg_Name req =
    Some (mkUserView (mkUserInfo (rg_Name req) tok (rg_Type req) (rg_Group req) (rg_Attributes req)) 0
      (MaxEnrollments CFG))) as Hu.
  { rewrite HV. unfold spec_register in Espec. destruct (_ && _); [|done]. injection Espec as <-.
    apply lookup_insert_eq. }
  split; [eexists; split; [exact Hu|by rewrite StdDecode_StdEncode]|].
  apply Enroll_refused; [done|done|by rewrite HeN|]. rewrite HeN, Hu, HeS. simpl.
  unfold spec_login. simpl. rewrite bool_decide_false; [done|]. intros E.
  apply (f_equal String.length) in E. pose proof (StdEncode_length (bytes_of_string tok)) as Hle.
  rewrite <- E, bytes_of_string_length, Hlen in Hle.
  assert (12 < 12)%nat by (apply Hle; intros E2; apply (f_equal length) in E2;
    rewrite bytes_of_string_length, Hlen in E2; done). lia.
Qed.
End end_to_end.

(** ** A concrete client and server *)

Definition toy_client : Client := mkClient ("http://" +:+ ("localhost" +:+ String ":" "8888")) "/home/cop".

Definition toy_listen : Request -> comp (Srv (list string)) Response :=
  serve toy_deriv (fun k => bytes_of_string (Join k "/")) toy_crypto newConfig
    (accessor_registry (Accessor.mkAccessor (Some sqlite3)))
    (Some (CertDBAccessor.NewCertDBAccessor (Some sqlite3))) (fun _ _ => (false, true)) (db_RandomString 12)
    "" toy_sign_dec toy_issue toy_batch (fun _ => JNull).

Definition toy_net := deliver toy_listen ("localhost" +:+ String ":" "8888").

Definition toy_state : Srv (list string) :=
  mkSrv (mkDB (users sample_db) (groups sample_db) [] 9 (fun _ => 0%Z) 0 []) (NewKeyTree []).

Lemma toy_state_inv : db_inv (s_db toy_state).
Proof. split; [done|]. split; apply (bool_decide_unpack _); vm_compute; exact I. Qed.

Definition toy_registration : RegistrationRequest :=
  mkRegistrationRequest "bob" "peer" "bank_a" []
    (Some (newIdentity (Some toy_client) "admin" (Some [x09]) (Some [x01]))).

Definition toy_registered : outcome string * Srv (list string) :=
  Client_Register toy_crypto (read_file (fun _ => None)) (load_pair (fun _ _ => None)) (fun _ => true) toy_net
    toy_client toy_registration toy_state.

Lemma toy_current : current (fun _ _ => (false, true)) (s_db toy_state) (toy_cert (RSAKey 7)).
Proof. split; [vm_compute; done|reflexivity]. Qed.


Definition toy_enroll (secret : string) : EnrollmentRequest :=
  mkEnrollmentRequest "admin" secret "" "" "" None.

Definition toy_Enroll (req : EnrollmentRequest) : comp (Srv (list string)) Identity :=
  Enroll "host" (read_file (fun _ => None)) (load_pair (fun _ _ => None)) (fun _ => true) toy_net
    (fun q => mret ([x43], [x4b])) (fun _ => []) toy_client req.


Lemma returned_secret_refused_witness :
  exists secret s1 e, toy_registered = (Ok secret, s1)
    /\ toy_Enroll (mkEnrollmentRequest "bob" secret "" "" "" None) s1 = (Err e, s1).
Proof.
  destruct toy_registered as [o s1] eqn:E.
  assert (exists secret, o = Ok secret) as [secret ->].
  { apply (f_equal fst) in E. vm_compute in E. rewrite <- E. by eexists. }
  exists secret, s1. unfold toy_registered, toy_net, toy_client, toy_listen in E.
  destruct (returned_secret_refused toy_deriv (fun k => bytes_of_string (Join k "/")) toy_crypto newConfig sqlite3 12
    (fun _ _ => (false, true)) "" toy_sign_dec toy_issue toy_batch (fun _ => JNull) (fun _ => None) (fun _ _ => None)
    (fun _ => true) "localhost" "8888" 8888 "/home/cop" eq_refl eq_refl eq_refl (fun q => ([x43], [x4b])) "host"
    (fun _ => []) "admin" [x09] [x01] (toy_cert (RSAKey 7)) toy_registration
    (mkEnrollmentRequest "bob" secret "" "" "" None) toy_state secret s1 eq_refl eq_refl ltac:(discriminate)
    ltac:(exists 7%Z; split; reflexivity) ltac:(intros b; eexists; reflexivity) toy_current toy_state_inv ltac:(vm_compute; lia)
    ltac:(discriminate) ltac:(discriminate) eq_refl eq_refl E eq_refl eq_refl) as [_ [e He]].
  exists e. split; [reflexivity|exact He].
Defined.

