(* ===== verification/TCertJson.v ===== *)
(** * The tcert response in JSON (src/lib/tcert/api.go, src/cli/server/tcert.go)

    [json.Marshal] of a batch, as [api.SendResponse] writes it: byte slices in
    base64, a map with its keys in order, and [omitempty] for a certificate
    without keys.  How a time is written depends on the time zone of the
    server and is a parameter. *)

From stdpp Require Import sorting.
From S2P Require Import Prelude GoStrings GoFmt GoJson CopError Base64 Http Registry GoUnmarshal Token Util TCertUtil TCert GoUrl Database DbAccessor CertDB Config Register Auth Handlers KeyTree Server Client.

(** The order in which [encoding/json] writes the entries of a map. *)
Definition key_le (x y : string * bytes) : Prop := String.leb x.1 y.1 = true.

#[export] Instance key_le_dec x y : Decision (key_le x y).
Proof. unfold key_le. apply _. Defined.

Definition keys_json (ks : gmap string bytes) : list (string * json) :=
  map (fun e : string * bytes => (e.1, bytes_json e.2)) (merge_sort key_le (map_to_list ks)).

Definition TCert_json (t : TCert) : json :=
  JObj ([("cert", bytes_json (tc_Cert t))]
    ++ (if bool_decide (tc_Keys t = ∅) then [] else [("keys", JObj (keys_json (tc_Keys t)))])).

(** A nil slice is written as null. *)
Definition TCerts_json (ts : list TCert) : json :=
  match ts with [] => JNull | _ => JArr (map TCert_json ts) end.

Definition GetBatchResponse_json (time_text : Z -> string) (r : GetBatchResponse) : json :=
  JObj [("id", JNum (Itoa (gb_ID r))); ("ts", JStr (time_text (gb_TS r))); ("key", bytes_json (gb_Key r));
        ("tcerts", TCerts_json (gb_TCerts r))].
