(* ===== verification/Concurrent.v ===== *)
(** * Concurrent requests (src/cli/server, src/lib/tcert/keytree.go)

    The COP endpoints as threads (file Interleave): the same handlers as in
    Register, Auth, Handlers and Server, with every database statement, every
    access to the key tree's map, the clock and the random source as a step
    of its own between which other requests run.  Nothing in the program
    orders requests: no handler takes a lock, and no two statements are in
    one transaction.  [serve_run] shows that a thread run without
    interruption is the handler of file Server. *)

From S2P Require Import Prelude GoStrings GoFmt GoJson CopError Base64 Http Registry GoUnmarshal Token Database DbAccessor CertDB Util Config Register Auth Handlers TCertUtil KeyTree TCert Server Interleave.

(** A statement, and a computation that shares nothing. *)
Notation stmt m := (atom OnDatabase m).
Notation own m := (atom OnOwn m).

Module Threads.

(** ** register.go *)

Section Register.
Context (userRegistry : UserRegistry DB) (CFG : Config) (randomString : Z -> comp DB string).

Definition validateID (id userType group : string) : thread DB unit :=
  if Register.requireGroup userType then
    valid ← stmt (Register.isValidGroup userRegistry group);
    if negb valid then Done (Err (NewErr ("Invalid type " +:+ userType))) else mret tt
  else mret tt.

Definition canRegister (registrar userType : string) : thread DB unit :=
  user ← thread_map_err (fun err => Errorf "Registrar does not exist: %s" [FStr (Error err)])
           (stmt (GetUser userRegistry registrar []));
  let rolesStr := GetAttribute user registrarRoles in
  if negb (StrContained userType (Register.roles_of rolesStr))
  then Done (Err (NewError RegisteringUserError "user %s may not register type %s"
                    [FStr registrar; FStr userType]))
  else mret tt.

(** Three statements: the look-up, the insertion and the enrollment limit. *)
Definition registerUserID (id userType group : string) (attributes : list Attribute)
    (opt : list string) : thread DB string :=
  tok ← own (Register.token_for randomString opt);
  let insert := mkUserInfo id tok userType group attributes in
  r ← thread_attempt (stmt (GetUser userRegistry id []));
  match r with
  | inr _ => Done (Err (NewError RegisteringUserError "User is already registered" []))
  | inl _ =>
      _ ← stmt (InsertUser userRegistry insert);
      _ ← stmt (UpdateField userRegistry id maxEnrollments (MaxEnrollments CFG));
      mret tok
  end.

Definition RegisterUser (id userType group : string) (attributes : list Attribute)
    (registrar : string) (opt : list string) : thread DB string :=
  _ ← (if negb (bool_decide (registrar = "")) then canRegister registrar userType else mret tt);
  _ ← validateID id userType group;
  registerUserID id userType group attributes opt.
End Register.

(** ** The handlers *)

Definition HTTPHandler {W} (methods : list string) (Handle : Request -> thread W Response)
    (r : Request) : thread W Response :=
  x ← thread_attempt (if bool_decide (Method r ∈ methods) then Handle r
                      else Done (Err (NewMethodNotAllowed (Method r))));
  match x with inl err => mret (HandleError err) | inr resp => mret resp end.

Section Handlers.
Context (C : Crypto) (CFG : Config) (userRegistry : UserRegistry DB).
Context (certDBAccessor : option CertDBAccessor.CertDBAccessor).
Context (checkCRL : Certificate -> string -> bool * bool).
Context (randomString : Z -> comp DB string).
Context {SignRequest : Type} (zero_SignRequest : SignRequest) (dec_SignRequest : decoder SignRequest).
Context (issue : SignRequest -> outcome (bytes * CertificateRecord)).

(** auth.go: the user is loaded by one statement, the login counted by another. *)
Definition serveHTTP (basic token : bool) (r : Request) : thread DB Request :=
  let r := (HTTPRequestToString r).2 in
  if negb (Authentication CFG) then mret r
  else
    let authHdr := authorization r in
    if bool_decide (authHdr = "") then Done (Err errNoAuthHdr)
    else match BasicAuth r with
    | Some (user, pwd) =>
        if negb basic then Done (Err errBasicAuthNotAllowed)
        else
          u ← stmt (GetUser userRegistry user []);
          _ ← stmt (Login u pwd);
          mret (set_eid user r)
    | None =>
        if token then
          b ← thread_map_err (fun _ => authError) (own (ReadAll r));
          let r := set_Body b r in
          cert ← thread_map_err (fun _ => authError) (Done (VerifyToken C authHdr (bytes_of_string b)));
          '(revokedOrExpired, checked) ← own (VerifyCertificate checkCRL cert);
          if revokedOrExpired : bool then Done (Err authError)
          else if negb checked then Done (Err authError)
          else mret (set_eid (GetEnrollmentIDFromX509Certificate cert) r)
        else mret r
    end.

Definition registerHandler_Handle (r : Request) : thread DB Response :=
  b ← own (ReadAll r);
  req ← own (decode dec_RegisterRequest b zero_RegisterRequest);
  tok ← RegisterUser userRegistry CFG randomString (rr_User req) (rr_Type req) (rr_Group req)
          (rr_Attributes req) (rr_CallerID req) [];
  mret (SendResponse (bytes_json (bytes_of_string tok))).

Definition signHandler_Handle (endpoint : string) (r : Request) : thread DB Response :=
  b ← own (ReadAll r);
  req ← own (Unmarshal dec_SignRequest b zero_SignRequest endpoint);
  cert ← thread_map_err (fun err => Errorf "Failed signing for endpoint %s: %s"
                               [FStr endpoint; FStr (Error err)])
           (stmt (enrollSigner_Sign C certDBAccessor issue req));
  mret (SendResponse (bytes_json cert)).

(** certdbaccessor.go: the rows are selected, then updated. *)
Definition RevokeCertificatesByID (a : CertDBAccessor.CertDBAccessor) (id : string) (reasonCode : Z)
    : thread DB (list CertRecord) :=
  h ← own (CertDBAccessor.checkDB a);
  crs ← stmt (exec h "certificates" (Rebind h selectLiveSQL) (fun d =>
           (Ok (List.filter (CertDBAccessor.live_of id) (certificates d)), d)));
  _ ← stmt (statement "certificates" (fun d =>
    (Ok tt, set_certificates (update_where (CertDBAccessor.live_of id) (mark_revoked (now d) reasonCode)
                                (certificates d)) d)));
  mret crs.

Definition thread_deref {W A B} (p : option A) (f : A -> thread W B) : thread W B :=
  match p with Some a => f a | None => Done (Panic nil_deref) end.

Definition revoke_request (req : RevocationRequest) : thread DB Response :=
  if negb (bool_decide (rv_Serial req = "")) && negb (bool_decide (rv_AKI req = "")) then
    x ← thread_attempt (thread_deref certDBAccessor (fun acc =>
           stmt (CertDBAccessor.RevokeCertificate acc (rv_Serial req) (rv_AKI req) (rv_Reason req))));
    match x with
    | inl err => mret (notFound err)
    | inr _ => mret (SendResponse (JObj []))
    end
  else if negb (bool_decide (rv_Name req = "")) then
    x ← thread_attempt (stmt (GetUser userRegistry (rv_Name req) []));
    match x with
    | inl err => mret (notFound (Errorf "Failed to get user %s: %s"
                                   [FStr (rv_Name req); FStr (Error err)]))
    | inr _ =>
        x ← thread_attempt (stmt (UpdateField userRegistry (rv_Name req) state (-1)));
        match x with
        | inl err => mret (dbErr (Errorf "Failed to disable user %s: %s"
                                    [FStr (rv_Name req); FStr (Error err)]))
        | inr _ =>
            x ← thread_attempt (thread_deref certDBAccessor (fun acc =>
                   RevokeCertificatesByID acc (rv_Name req) (rv_Reason req)));
            match x with
            | inl err => mret (dbErr (Errorf "Failed to revoke certificates for user %s: %s"
                                        [FStr (rv_Name req); FStr (Error err)]))
            | inr _ => mret (SendResponse (JObj []))
            end
        end
    end
  else mret (badRequest (NewErr "either Name or Serial and AKI are required for a revoke request")).

Definition revokeHandler_Handle (r : Request) : thread DB Response :=
  let authHdr := authorization r in
  if bool_decide (authHdr = "") then mret (authErr (NewErr "no authorization header"))
  else
    x ← thread_attempt (own (ReadAll r));
    match x with
    | inl err => mret (badRequest err)
    | inr b =>
        x ← thread_attempt (Done (VerifyToken C authHdr (bytes_of_string b)));
        match x with
        | inl err => mret (authErr err)
        | inr cert =>
            x ← thread_attempt (stmt (userHasAttribute userRegistry (CommonName cert) "hf.Revoker"));
            match x with
            | inl err => mret (authErr err)
            | inr _ =>
                x ← thread_attempt (own (decode dec_RevocationRequest b zero_RevocationRequest));
                match x with
                | inl err => mret (badRequest err)
                | inr req => revoke_request req
                end
            end
        end
    end.
End Handlers.

(** ** keytree.go: the map is read and written without a lock *)

Section KeyTree.
Context {Key : Type} (KeyDeriv : Key -> string -> outcome Key).

Fixpoint GetKey_rev (rpath : list string) : thread (KeyTree (Key := Key)) Key :=
  match rpath with
  | [] => own (gets rootKey)
  | childName :: parent =>
      let p := pathStr (reverse rpath) in
      cached ← atom ReadsKeys (gets (fun t => keys t !! p));
      match cached with
      | Some key => mret key
      | None =>
          parentKey ← GetKey_rev parent;
          key ← own (deriveChildKey KeyDeriv parentKey childName p);
          _ ← atom WritesKeys (modify (fun t => mkKeyTree (rootKey t) (<[p := key]> (keys t))));
          mret key
      end
  end.

Definition GetKey (path : list string) : thread (KeyTree (Key := Key)) Key := GetKey_rev (reverse path).
End KeyTree.

Definition onDB {Key A} : thread DB A -> thread (Srv Key) A :=
  zoom s_db (fun d s => mkSrv d (s_tree s)).

Definition onTree {Key A} : thread (KeyTree (Key := Key)) A -> thread (Srv Key) A :=
  zoom s_tree (fun t s => mkSrv (s_db s) t).

(** ** The endpoints *)

Section Server.
Context {Key : Type} (KeyDeriv : Key -> string -> outcome Key) (SKI : Key -> bytes).
Context (C : Crypto) (CFG : Config) (userRegistry : UserRegistry DB).
Context (certDBAccessor : option CertDBAccessor.CertDBAccessor).
Context (checkCRL : Certificate -> string -> bool * bool).
Context (randomString : Z -> comp DB string).
Context {SignRequest : Type} (zero_SignRequest : SignRequest) (dec_SignRequest : decoder SignRequest).
Context (issue : SignRequest -> outcome (bytes * CertificateRecord)).
Context (mgr_GetBatch : GetBatchRequest -> Certificate -> comp (Srv Key) GetBatchResponse).
Context (GetBatchResponse_json : GetBatchResponse -> json).

Definition tcertHandler_handle (r : Request) : thread (Srv Key) Response :=
  b ← thread_map_err (fun err => Errorf "Failure reading request body: %s" [FStr (Error err)])
        (own (ReadAll r));
  req ← own (Unmarshal dec_GetPrivateSignersRequest b zero_GetPrivateSignersRequest "tcert request");
  cert ← own (getCertFromAuthHdr C r);
  let id := GetEnrollmentIDFromCert cert in
  '(attrs, affiliationPath) ← onDB (stmt (getUserInfo userRegistry id (gp_AttrNames req)));
  prekey ← thread_map_err (fun err => Errorf "Failed to get prekey for user %s: %s"
                                 [FStr id; FStr (Error err)])
             (onTree (GetKey KeyDeriv affiliationPath));
  let prekeyStr := SKI prekey in
  let tcertReq := mkGetBatchRequest (gp_Count req) attrs (gp_EncryptAttrs req)
                    (gp_ValidityPeriod req) prekeyStr in
  resp ← own (mgr_GetBatch tcertReq cert);
  mret (SendResponse (GetBatchResponse_json resp)).

Definition endpoints : list (string * (Request -> thread (Srv Key) Response)) :=
  [("register", fun r => onDB (HTTPHandler ["POST"] (registerHandler_Handle CFG userRegistry randomString) r));
   ("enroll", fun r => onDB (HTTPHandler ["POST"]
      (signHandler_Handle C certDBAccessor zero_SignRequest dec_SignRequest issue "enroll") r));
   ("reenroll", fun r => onDB (HTTPHandler ["POST"]
      (signHandler_Handle C certDBAccessor zero_SignRequest dec_SignRequest issue "reenroll") r));
   ("revoke", fun r => onDB (HTTPHandler ["POST"] (revokeHandler_Handle C userRegistry certDBAccessor) r));
   ("tcert", HTTPHandler ["POST"] (fun r => thread_map_err NewBadRequest (tcertHandler_handle r)))].

(** The authentication an endpoint is wrapped in. *)
Definition basic_endpoint (path : string) : bool :=
  bool_decide (path = "sign") || bool_decide (path = "enroll").

(** The goroutine that serves a request. *)
Definition serve (r : Request) : thread (Srv Key) Response :=
  match List.find (fun e : string * (Request -> thread (Srv Key) Response) =>
                     bool_decide (wrappedPath e.1 = URL r)) endpoints with
  | Some (path, next) =>
      x ← thread_attempt (onDB (serveHTTP C CFG userRegistry checkCRL (basic_endpoint path)
                                  (negb (basic_endpoint path)) r));
      match x with
      | inl err => mret (HandleError err)
      | inr r => next r
      end
  | None => mret (http_Error "404 page not found" 404)
  end.
End Server.

End Threads.

(** ** A thread alone is the sequential handler *)

Lemma run_onDB {Key A} (t : thread DB A) :
  run (Threads.onDB t) ≡ (Server.onDB (run t) : comp (Srv Key) A).
Proof.
  intros s. unfold Threads.onDB, Server.onDB. revert s.
  induction t as [o|l u k IH]; intros [d tr]; simpl; [done|]. by rewrite IH.
Qed.

Lemma run_onTree {Key A} (t : thread (KeyTree (Key := Key)) A) :
  run (Threads.onTree t) ≡ (Server.onTree (run t) : comp (Srv Key) A).
Proof.
  intros s. unfold Threads.onTree, Server.onTree. revert s.
  induction t as [o|l u k IH]; intros [d tr]; simpl; [done|]. by rewrite IH.
Qed.

#[export] Instance onDB_proper {Key A} : Proper ((≡@{comp DB A}) ==> (≡)) (@Server.onDB Key A).
Proof. intros m1 m2 H s. unfold Server.onDB. by rewrite (H (s_db s)). Qed.

#[export] Instance onTree_proper {Key A} :
  Proper ((≡@{comp (KeyTree (Key := Key)) A}) ==> (≡)) (@Server.onTree Key A).
Proof. intros m1 m2 H s. unfold Server.onTree. by rewrite (H (s_tree s)). Qed.

#[export] Instance map_err_proper {S A} f : Proper ((≡@{comp S A}) ==> (≡)) (map_err f).
Proof. intros m1 m2 H s. unfold map_err. by rewrite (H s). Qed.

Lemma run_bind_eq {W A B} (t : thread W A) (f : A -> thread W B) m g :
  run t ≡ m -> (forall a, run (f a) ≡ g a) -> run (t ≫= f) ≡ (m ≫= g).
Proof. intros Ht Hf. rewrite run_bind. by apply comp_bind_proper. Qed.

Lemma run_attempt_eq {W A} (t : thread W A) m : run t ≡ m -> run (thread_attempt t) ≡ attempt m.
Proof. intros H. by rewrite run_attempt, H. Qed.

Lemma run_map_err_eq {W A} f (t : thread W A) m : run t ≡ m -> run (thread_map_err f t) ≡ map_err f m.
Proof. intros H. by rewrite run_map_err, H. Qed.

Ltac run_eq :=
  repeat first
    [ apply run_atom | apply run_bind_eq; [|intros ?] | apply run_attempt_eq | apply run_map_err_eq
    | reflexivity | case_match ].

Section run_eq.
Context (C : Crypto) (CFG : Config) (R : UserRegistry DB) (acc : option CertDBAccessor.CertDBAccessor).
Context (checkCRL : Certificate -> string -> bool * bool) (rs : Z -> comp DB string).
Context {SR : Type} (zero : SR) (dec : decoder SR) (issue : SR -> outcome (bytes * CertificateRecord)).

Lemma HTTPHandler_run {W} methods (H : Request -> thread W Response) H' r :
  run (H r) ≡ H' r -> run (Threads.HTTPHandler methods H r) ≡ HTTPHandler methods H' r.
Proof. intros E. unfold Threads.HTTPHandler, HTTPHandler. run_eq. exact E. Qed.

Lemma RegisterUser_thread_run id t g attrs registrar opt :
  run (Threads.RegisterUser R CFG rs id t g attrs registrar opt)
    ≡ Register.RegisterUser R CFG rs id t g attrs registrar opt.
Proof.
  unfold Threads.RegisterUser, Register.RegisterUser, Threads.canRegister, Register.canRegister,
    Threads.validateID, Register.validateID, Threads.registerUserID, Register.registerUserID. run_eq.
Qed.

Lemma serveHTTP_thread_run {W} (ah : copAuthHandler W) r :
  run (Threads.serveHTTP C CFG R checkCRL (basic ah) (token ah) r) ≡ serveHTTP C CFG R checkCRL ah r.
Proof. unfold Threads.serveHTTP, serveHTTP. run_eq. Qed.

Lemma register_thread_run r :
  run (Threads.registerHandler_Handle CFG R rs r) ≡ registerHandler_Handle CFG R rs r.
Proof.
  unfold Threads.registerHandler_Handle, registerHandler_Handle.
  repeat (apply run_bind_eq; [first [apply run_atom|apply RegisterUser_thread_run]|intros ?]). done.
Qed.

Lemma sign_thread_run endpoint r :
  run (Threads.signHandler_Handle C acc zero dec issue endpoint r)
    ≡ signHandler_Handle C acc zero dec issue endpoint r.
Proof. unfold Threads.signHandler_Handle, signHandler_Handle. run_eq. Qed.

Lemma RevokeCertificatesByID_thread_run a id reason :
  run (Threads.RevokeCertificatesByID a id reason) ≡ CertDBAccessor.RevokeCertificatesByID a id reason.
Proof. unfold Threads.RevokeCertificatesByID, CertDBAccessor.RevokeCertificatesByID. run_eq. Qed.

Lemma revoke_request_thread_run req :
  run (Threads.revoke_request R acc req) ≡ revoke_request R acc req.
Proof.
  unfold Threads.revoke_request, revoke_request, Threads.thread_deref, deref.
  repeat first [apply RevokeCertificatesByID_thread_run | progress run_eq].
Qed.

Lemma revoke_thread_run r :
  run (Threads.revokeHandler_Handle C R acc r) ≡ revokeHandler_Handle C R acc r.
Proof.
  unfold Threads.revokeHandler_Handle, revokeHandler_Handle.
  repeat first [apply revoke_request_thread_run | progress run_eq].
Qed.
End run_eq.

Lemma GetKey_rev_run {Key} (KeyDeriv : Key -> string -> outcome Key) rpath :
  run (Threads.GetKey_rev KeyDeriv rpath) ≡ GetKey_rev KeyDeriv rpath.
Proof.
  induction rpath as [|name rpath IH]; cbn [Threads.GetKey_rev GetKey_rev]; [apply run_atom|].
  apply run_bind_eq; [apply run_atom|]. intros [key|]; [done|].
  apply run_bind_eq; [exact IH|]. intros k. run_eq.
Qed.

Section serve_run.
Context {Key : Type} (KeyDeriv : Key -> string -> outcome Key) (SKI : Key -> bytes).
Context (C : Crypto) (CFG : Config) (R : UserRegistry DB) (acc : option CertDBAccessor.CertDBAccessor).
Context (checkCRL : Certificate -> string -> bool * bool) (rs : Z -> comp DB string).
Context {SR : Type} (zero : SR) (dec : decoder SR) (issue : SR -> outcome (bytes * CertificateRecord)).
Context (mgr_GetBatch : GetBatchRequest -> Certificate -> comp (Srv Key) GetBatchResponse).
Context (resp_json : GetBatchResponse -> json).

Lemma tcert_thread_run r :
  run (Threads.tcertHandler_handle KeyDeriv SKI C R mgr_GetBatch resp_json r)
    ≡ tcertHandler_handle KeyDeriv SKI C R mgr_GetBatch resp_json r.
Proof.
  unfold Threads.tcertHandler_handle, tcertHandler_handle.
  do 3 (apply run_bind_eq; [run_eq|intros ?]).
  apply run_bind_eq; [by rewrite run_onDB, run_atom|intros [attrs path]].
  apply run_bind_eq; [apply run_map_err_eq; rewrite run_onTree; apply onTree_proper, GetKey_rev_run|intros k].
  run_eq.
Qed.

(** The thread of every endpoint, next to the endpoint. *)
Lemma endpoints_run :
  Forall2 (fun e e' => e.1 = e'.1 /\ forall r, run (e.2 r) ≡ e'.2 r)
    (Threads.endpoints KeyDeriv SKI C CFG R acc rs zero dec issue mgr_GetBatch resp_json)
    (endpoints KeyDeriv SKI C CFG R acc rs zero dec issue mgr_GetBatch resp_json).
Proof.
  repeat constructor; intros r; cbn [snd]; rewrite ?run_onDB; try apply onDB_proper.
  - apply HTTPHandler_run, register_thread_run.
  - apply HTTPHandler_run, sign_thread_run.
  - apply HTTPHandler_run, sign_thread_run.
  - apply HTTPHandler_run, revoke_thread_run.
  - apply HTTPHandler_run, run_map_err_eq, tcert_thread_run.
Qed.

(** The endpoints behind the authentication each is wrapped in. *)
Lemma find_handler r :
  List.find (fun e : string * copAuthHandler (Srv Key) => bool_decide (e.1 = URL r))
    (registerHandlers KeyDeriv SKI C CFG R acc rs zero dec issue mgr_GetBatch resp_json)
  = (fun e : string * (Request -> comp (Srv Key) Response) =>
       (wrappedPath e.1, mkCopAuthHandler (Threads.basic_endpoint e.1) (negb (Threads.basic_endpoint e.1)) e.2))
    <$> List.find (fun e : string * (Request -> comp (Srv Key) Response) => bool_decide (wrappedPath e.1 = URL r))
          (endpoints KeyDeriv SKI C CFG R acc rs zero dec issue mgr_GetBatch resp_json).
Proof.
  unfold registerHandlers. induction (endpoints _ _ _ _ _ _ _ _ _ _ _ _) as [|[path next] es IH]; [done|].
  cbn [omap list_omap fst snd]. unfold NewAuthWrapper.
  change (bool_decide (path = "sign") || bool_decide (path = "enroll")) with (Threads.basic_endpoint path).
  destruct (Threads.basic_endpoint path) eqn:E;
    cbn [newBasicAuthHandler newTokenAuthHandler newAuthHandler List.find fst];
    (case_bool_decide; [simpl; by rewrite E|exact IH]).
Qed.

Lemma serve_run r :
  run (Threads.serve KeyDeriv SKI C CFG R acc checkCRL rs zero dec issue mgr_GetBatch resp_json r)
    ≡ serve KeyDeriv SKI C CFG R acc checkCRL rs zero dec issue mgr_GetBatch resp_json r.
Proof.
  unfold Threads.serve, serve. rewrite find_handler.
  induction endpoints_run as [|[path th] [path' hd] es es' [E Hrun] _ IH]; [done|].
  cbn [List.find fst snd] in *. subst path'. case_bool_decide; [|exact IH].
  cbn [fmap option_fmap option_map]. unfold ServeHTTP. apply run_bind_eq.
  - apply run_attempt_eq. rewrite run_onDB. apply onDB_proper.
    exact (serveHTTP_thread_run C CFG R checkCRL (mkCopAuthHandler (W := Srv Key) _ _ _) r).
  - intros [err|r']; [done|]. apply Hrun.
Qed.
End serve_run.
