(* ===== verification/Protocol.v ===== *)
(** * What concurrent requests keep to

    The threads of file Concurrent against protocols of file Interleave: a
    traversal of all endpoints for protocols that every database operation
    of the server keeps to ([serve_keeps]), and its first use, the history
    of the server under any interleaving of the steps of its requests. *)

From S2P Require Import Prelude GoStrings GoFmt GoJson CopError Base64 Http Registry GoUnmarshal Token Database DbAccessor CertDB Util Config Register Auth Handlers TCertUtil KeyTree TCert Server Interleave Concurrent.

Lemma readonly_decode {S A} (D : decoder A) b z : readonly (decode (S := S) D b z).
Proof. unfold decode. repeat case_match; apply readonly_ret || apply readonly_lift. Qed.

Section traversal.
Context (C : Crypto) (CFG : Config) (h : DBHandle) (fuel : nat).
Context (checkCRL : Certificate -> string -> bool * bool).
Context {SR : Type} (zero : SR) (dec : decoder SR) (issue : SR -> outcome (bytes * CertificateRecord)).
Let R := accessor_registry (Accessor.mkAccessor (Some h)).
Let a := CertDBAccessor.NewCertDBAccessor (Some h).

Context {X : Type} (I : DB -> Prop) (St : X -> DB -> X -> DB -> Prop) (x : X).

(** The operation is a step that leaves the thread's knowledge as it is. *)
Definition keeps {A} (m : comp DB A) : Prop := forall d, I d -> St x d x (m d).2.

(** Every operation of the server's database does. *)
Record db_keeps : Prop := {
  keep_same : forall d, I d -> St x d x d;
  keep_random : forall n, keeps (db_RandomString fuel n);
  keep_GetUser : forall id names, keeps (GetUser R id names);
  keep_GetGroup : forall g, keeps (GetGroup R g);
  keep_Login : forall r p, keeps (Accessor.Login (Accessor.newDBUser h r) p);
  keep_InsertUser : forall u, keeps (InsertUser R u);
  keep_limit : forall id, keeps (UpdateField R id maxEnrollments (MaxEnrollments CFG));
  keep_disable : forall id, keeps (UpdateField R id state (-1));
  keep_sign : forall req, keeps (enrollSigner_Sign C (Some a) issue req);
  keep_revoke : forall serial aki reason, keeps (CertDBAccessor.RevokeCertificate a serial aki reason);
  keep_select : forall h' id q, keeps (exec h' "certificates" q (fun d =>
    (Ok (List.filter (CertDBAccessor.live_of id) (certificates d)), d)));
  keep_revoke_by : forall id reason, keeps (statement "certificates" (fun d =>
    (Ok tt, set_certificates (update_where (CertDBAccessor.live_of id) (mark_revoked (now d) reason)
                                (certificates d)) d)))
}.

Hypothesis H : db_keeps.

(** A thread that keeps its knowledge to the end. *)
Definition thread_keeps {A} (t : thread DB A) : Prop :=
  follows I St (fun y _ => y = x) (fun y _ => y = x) t x.

Lemma tk_atom {A} l (m : comp DB A) : keeps m -> thread_keeps (atom l m).
Proof. intros Hm. apply follows_atom. intros d Hd. exists x. split; [by apply Hm|]. by destruct (m d).1. Qed.

Lemma tk_own {A} l (m : comp DB A) : readonly m -> thread_keeps (atom l m).
Proof. intros Hm. apply tk_atom. intros d Hd. rewrite Hm. by apply (keep_same H). Qed.

Lemma tk_done {A} (o : outcome A) : thread_keeps (Done o).
Proof. by destruct o. Qed.

Lemma tk_bind {A B} (t : thread DB A) (f : A -> thread DB B) :
  thread_keeps t -> (forall y, thread_keeps (f y)) -> thread_keeps (t ≫= f).
Proof. intros Ht Hf. eapply follows_bind; [exact Ht|]. intros y b ->. apply Hf. Qed.

Lemma tk_attempt {A} (t : thread DB A) : thread_keeps t -> thread_keeps (thread_attempt t).
Proof.
  intros Ht. eapply follows_mono; [| |exact (follows_attempt _ _ _ _ (fun y _ => y = x) _ _ Ht)]; [|done].
  by intros y [].
Qed.

Lemma tk_map_err {A} f (t : thread DB A) : thread_keeps t -> thread_keeps (thread_map_err f t).
Proof. intros Ht. eapply follows_map_err; [exact Ht|done]. Qed.

Lemma tk_HTTPHandler methods (handle : Request -> thread DB Response) r :
  thread_keeps (handle r) -> thread_keeps (Threads.HTTPHandler methods handle r).
Proof.
  intros Hh. unfold Threads.HTTPHandler. apply tk_bind; [|intros []; apply tk_done].
  apply tk_attempt. case_match; [done|apply tk_done].
Qed.

Ltac solve_tk :=
  repeat first
    [ apply tk_done | apply tk_attempt | apply tk_map_err
    | apply tk_own; first [apply readonly_ret | apply readonly_lift | by intros ? | by unfold ReadAll; case_match]
    | apply tk_atom; first
        [ apply (keep_GetUser H) | apply (keep_GetGroup H) | apply (keep_InsertUser H) | apply (keep_limit H)
        | apply (keep_disable H) | apply (keep_sign H) | apply (keep_revoke H) | apply (keep_select H)
        | apply (keep_revoke_by H) ]
    | apply tk_bind; [|intros ?] | case_match ].

Lemma keeps_bind_pure {A B} (m : comp DB A) (f : A -> outcome B) :
  keeps m -> keeps (m ≫= fun y => lift (f y)).
Proof.
  intros Hm d Hd. specialize (Hm d Hd). unfold mbind, comp_bind. by destruct (m d) as [[] ?].
Qed.

Lemma serveHTTP_tk basic token r : thread_keeps (Threads.serveHTTP C CFG R checkCRL basic token r).
Proof.
  unfold Threads.serveHTTP. case_match; [apply tk_done|]. case_match; [apply tk_done|].
  destruct (BasicAuth _) as [[user pwd]|]; [|solve_tk]. case_match; [apply tk_done|].
  eapply follows_bind with (P := fun y u => y = x /\ exists rec, u = Accessor.as_User (Accessor.newDBUser h rec)).
  - apply follows_atom. intros d Hd. exists x. split; [by apply (keep_GetUser H)|].
    destruct (GetUser R user [] d) as [[] d'] eqn:E; try done.
    split; [done|]. eapply GetUser_object, E.
  - intros y u [-> [rec ->]]. apply tk_bind; [|intros; apply tk_done].
    apply tk_atom, (keep_Login H).
Qed.

Lemma keeps_bind {A B} (m : comp DB A) (f : A -> comp DB B) :
  keeps m -> (forall y, readonly (f y)) -> keeps (m ≫= f).
Proof.
  intros Hm Hf d Hd. specialize (Hm d Hd). unfold mbind, comp_bind.
  destruct (m d) as [[] ?]; try done. by rewrite Hf.
Qed.

Lemma token_for_tk opt : thread_keeps (own (Register.token_for (db_RandomString fuel) opt)).
Proof.
  unfold Register.token_for. repeat case_match; (apply tk_atom, (keep_random H)) || by apply tk_own.
Qed.

Lemma canRegister_tk registrar t : thread_keeps (Threads.canRegister R registrar t).
Proof. unfold Threads.canRegister. solve_tk. Qed.

Lemma validateID_tk id t g : thread_keeps (Threads.validateID R id t g).
Proof.
  unfold Threads.validateID, Register.isValidGroup. case_match; [|apply tk_done].
  apply tk_bind; [|intros; solve_tk]. apply tk_atom, keeps_bind; [apply (keep_GetGroup H)|done].
Qed.

Lemma RegisterUser_tk id t g attrs registrar opt :
  thread_keeps (Threads.RegisterUser R CFG (db_RandomString fuel) id t g attrs registrar opt).
Proof.
  unfold Threads.RegisterUser, Threads.registerUserID.
  apply tk_bind; [case_match; [apply canRegister_tk|apply tk_done]|intros _].
  apply tk_bind; [apply validateID_tk|intros _]. apply tk_bind; [apply token_for_tk|intros tok]. solve_tk.
Qed.

Lemma register_tk r :
  thread_keeps (Threads.registerHandler_Handle CFG R (db_RandomString fuel) r).
Proof.
  unfold Threads.registerHandler_Handle. apply tk_bind; [solve_tk|intros b].
  apply tk_bind; [apply tk_own, readonly_decode|intros req].
  apply tk_bind; [apply RegisterUser_tk|intros; apply tk_done].
Qed.

Lemma sign_tk endpoint r : thread_keeps (Threads.signHandler_Handle C (Some a) zero dec issue endpoint r).
Proof.
  unfold Threads.signHandler_Handle. apply tk_bind; [solve_tk|intros b].
  apply tk_bind; [apply tk_own, readonly_map_err, readonly_decode|intros req]. solve_tk.
Qed.

Lemma revoke_tk r : thread_keeps (Threads.revokeHandler_Handle C R (Some a) r).
Proof.
  unfold Threads.revokeHandler_Handle, Threads.revoke_request, Threads.RevokeCertificatesByID, Threads.thread_deref.
  case_match; [apply tk_done|].
  apply tk_bind; [solve_tk|intros [e|b]; [apply tk_done|]].
  apply tk_bind; [solve_tk|intros [e|cert]; [apply tk_done|]].
  apply tk_bind; [|intros [e|u]; [apply tk_done|]].
  { apply tk_attempt, tk_atom, keeps_bind; [apply keeps_bind; [apply (keep_GetUser H)|done]|].
    intros v. case_match; apply readonly_lift || apply readonly_ret. }
  apply tk_bind; [apply tk_attempt, tk_own, readonly_decode|intros [e|req]; [apply tk_done|]].
  solve_tk.
Qed.
End traversal.

(** ** The whole state *)

Section server.
Context {Key : Type} (KeyDeriv : Key -> string -> outcome Key) (SKI : Key -> bytes) (root : Key).
Context {X : Type} (I : DB -> Prop) (St : X -> DB -> X -> DB -> Prop).

(** The key tree holds derived keys, whichever requests use it. *)
Definition tree_ok (t : KeyTree (Key := Key)) : Prop := cache_ok KeyDeriv t /\ rootKey t = root.

Definition srv_inv (s : Srv Key) : Prop := I (s_db s) /\ tree_ok (s_tree s).

Definition srv_st (x : X) (s : Srv Key) (x' : X) (s' : Srv Key) : Prop :=
  St x (s_db s) x' (s_db s') /\ tree_ok (s_tree s').

Lemma onDB_follows {A} (P : X -> A -> Prop) E (t : thread DB A) x :
  follows I St P E t x -> follows srv_inv srv_st P E (Threads.onDB t) x.
Proof.
  intros Ht. eapply follows_conseq; [| |apply (follows_zoom s_db (fun d s => mkSrv d (s_tree s))), Ht]; [| |done].
  - by intros s [? _].
  - intros y s y' s' [_ Hs] [H1 [d ->]]. by split.
Qed.

Definition tree_st (x : X) (t : KeyTree (Key := Key)) (x' : X) (t' : KeyTree) : Prop :=
  x' = x /\ tree_ok t'.

Lemma onTree_follows {A} (P : X -> A -> Prop) E (t : thread (KeyTree (Key := Key)) A) x :
  (forall y d, I d -> St y d y d) ->
  follows tree_ok tree_st P E t x -> follows srv_inv srv_st P E (Threads.onTree t) x.
Proof.
  intros Hsame Ht.
  eapply follows_conseq; [| |apply (follows_zoom s_tree (fun t s => mkSrv (s_db s) t)), Ht]; [| |done].
  - by intros s [_ ?].
  - intros y s y' s' [Hs _] [[-> H1] [t' ->]]. split; [by apply Hsame|done].
Qed.

(** A request that looks a key up while others do gets the key its path
    specifies. *)
Lemma GetKey_rev_follows rpath x :
  plain_path (reverse rpath) ->
  follows tree_ok tree_st (fun y k => y = x /\ derive KeyDeriv root (reverse rpath) = Some k)
    (fun y _ => y = x) (Threads.GetKey_rev KeyDeriv rpath) x.
Proof.
  induction rpath as [|name rpath IH]; intros Hp; cbn [Threads.GetKey_rev].
  { apply follows_atom. intros t Ht. exists x. split; [by split|]. simpl. by rewrite (proj2 Ht). }
  assert (Hsplit : Split (pathStr (reverse (name :: rpath))) keyPathSep = reverse (name :: rpath)).
  { apply Split_pathStr; [|done]. rewrite reverse_cons. by destruct (reverse rpath). }
  rewrite reverse_cons in *. set (p := pathStr (reverse rpath ++ [name])) in *.
  apply Forall_app in Hp as [Hp _].
  eapply follows_bind with (P := fun y c => y = x /\ forall k, c = Some k ->
    derive KeyDeriv root (reverse rpath ++ [name]) = Some k).
  { apply follows_atom. intros t [Hc Hr]. exists x. split; [done|]. simpl. split; [done|].
    intros k Hk. apply Hc in Hk. by rewrite Hsplit, Hr in Hk. }
  intros y [k|] [-> Hk]; [by split; [|apply Hk]|].
  eapply follows_bind; [by apply IH|]. intros y pk [-> Hpk].
  eapply follows_bind with (P := fun y k => y = x /\ derive KeyDeriv root (reverse rpath ++ [name]) = Some k).
  { apply follows_atom. intros t Ht. exists x. unfold deriveChildKey, map_err, lift.
    destruct (KeyDeriv pk name) eqn:E; simpl; (split; [by split|]); try done.
    split; [done|]. rewrite derive_snoc, Hpk. simpl. by rewrite E. }
  intros y k [-> Hd]. eapply follows_bind with (P := fun y _ => y = x); [|by intros y _ ->].
  apply follows_atom. intros t [Hc Hr]. exists x. split; [|done]. split; [done|]. split; [|done].
  intros q key. simpl. destruct (decide (q = p)) as [->|Hne].
  - rewrite lookup_insert_eq. intros [= <-]. by rewrite Hr, Hsplit.
  - rewrite lookup_insert_ne by done. apply Hc.
Qed.

Section endpoints.
Context (C : Crypto) (CFG : Config) (h : DBHandle) (fuel : nat).
Context (checkCRL : Certificate -> string -> bool * bool).
Context {SR : Type} (zero : SR) (dec : decoder SR) (issue : SR -> outcome (bytes * CertificateRecord)).
Context (mgr_GetBatch : GetBatchRequest -> Certificate -> comp (Srv Key) GetBatchResponse).
Context (resp_json : GetBatchResponse -> json).
Hypothesis Hbatch : forall req c, readonly (mgr_GetBatch req c).
Let R := accessor_registry (Accessor.mkAccessor (Some h)).
Let a := CertDBAccessor.NewCertDBAccessor (Some h).
Context (x : X) (H : db_keeps C CFG h fuel issue I St x) (Hsame : forall y d, I d -> St y d y d).

Definition srv_keeps {A} (t : thread (Srv Key) A) : Prop :=
  follows srv_inv srv_st (fun y _ => y = x) (fun y _ => y = x) t x.

Lemma sk_done {A} (o : outcome A) : srv_keeps (Done o).
Proof. by destruct o. Qed.

Lemma sk_own {A} l (m : comp (Srv Key) A) : readonly m -> srv_keeps (atom l m).
Proof.
  intros Hm. apply follows_atom. intros s [Hs Ht]. exists x. rewrite Hm. split; [split; [by apply Hsame|done]|].
  by destruct (m s).1.
Qed.

Lemma sk_bind {A B} (t : thread (Srv Key) A) (f : A -> thread (Srv Key) B) :
  srv_keeps t -> (forall y, srv_keeps (f y)) -> srv_keeps (t ≫= f).
Proof. intros Ht Hf. eapply follows_bind; [exact Ht|]. intros y b ->. apply Hf. Qed.

Lemma sk_map_err {A} f (t : thread (Srv Key) A) : srv_keeps t -> srv_keeps (thread_map_err f t).
Proof. intros Ht. eapply follows_map_err; [exact Ht|done]. Qed.

Lemma sk_attempt {A} (t : thread (Srv Key) A) : srv_keeps t -> srv_keeps (thread_attempt t).
Proof.
  intros Ht. eapply follows_mono; [| |exact (follows_attempt _ _ _ _ (fun y _ => y = x) _ _ Ht)]; [|done].
  by intros y [].
Qed.

Lemma tcert_keeps r : srv_keeps (Threads.tcertHandler_handle KeyDeriv SKI C R mgr_GetBatch resp_json r).
Proof.
  unfold Threads.tcertHandler_handle.
  apply sk_bind; [apply sk_map_err, sk_own; intros s; unfold ReadAll; by case_match|intros b].
  apply sk_bind; [apply sk_own, readonly_map_err, readonly_decode|intros req].
  apply sk_bind; [apply sk_own|intros cert].
  { intros s. unfold getCertFromAuthHdr. case_match; [done|]. unfold mbind, comp_bind, lift.
    by destruct (DecodeToken C (authorization r)) as [[[? ?] ?]|?|?|?|]. }
  eapply follows_bind with (P := fun y v => y = x /\ plain_path v.2).
  { apply onDB_follows, follows_atom. intros d Hd. exists x.
    split; [|destruct (getUserInfo R _ _ d) as [[[attrs path]|e|p|p|] d'] eqn:E; try done].
    - revert d Hd. unfold getUserInfo. apply (keeps_bind I St x); [apply (keep_GetUser _ _ _ _ _ _ _ _ H)|done].
    - split; [done|]. eapply getUserInfo_plain, E. }
  intros y [attrs path] [-> Hp]. eapply follows_bind.
  { apply sk_map_err. unfold srv_keeps. apply onTree_follows; [done|].
    eapply follows_mono; [| |apply GetKey_rev_follows]; [by intros y k [-> _]|done|].
    by rewrite reverse_involutive. }
  intros y k ->. apply sk_bind; [apply sk_own, Hbatch|intros; apply sk_done].
Qed.

Lemma HTTPHandler_sk methods (handle : Request -> thread (Srv Key) Response) r :
  srv_keeps (handle r) -> srv_keeps (Threads.HTTPHandler methods handle r).
Proof.
  intros Hh. unfold Threads.HTTPHandler. apply sk_bind; [|intros []; apply sk_done].
  apply sk_attempt. case_match; [done|apply sk_done].
Qed.

Lemma endpoints_keep :
  Forall (fun e => forall r, srv_keeps (e.2 r))
    (Threads.endpoints KeyDeriv SKI C CFG R (Some a) (db_RandomString fuel) zero dec issue mgr_GetBatch resp_json).
Proof.
  repeat constructor; intros r; cbn [snd]; try apply onDB_follows.
  - apply tk_HTTPHandler, (register_tk _ _ _ _ _ _ _ _ H).
  - apply tk_HTTPHandler, (sign_tk _ _ _ _ _ _ _ _ _ _ H).
  - apply tk_HTTPHandler, (sign_tk _ _ _ _ _ _ _ _ _ _ H).
  - apply tk_HTTPHandler, (revoke_tk _ _ _ _ _ _ _ _ H).
  - apply HTTPHandler_sk, sk_map_err, tcert_keeps.
Qed.

Lemma serve_keeps r :
  srv_keeps (Threads.serve KeyDeriv SKI C CFG R (Some a) checkCRL (db_RandomString fuel) zero dec issue
               mgr_GetBatch resp_json r).
Proof.
  unfold Threads.serve. destruct (List.find _ _) as [[path next]|] eqn:E; [|apply sk_done].
  apply find_some in E as [E%list_elem_of_In _].
  pose proof (proj1 (Forall_forall _ _) endpoints_keep _ E) as Hnext.
  apply sk_bind; [|intros [e|r']; [apply sk_done|apply Hnext]].
  apply sk_attempt, onDB_follows, (serveHTTP_tk _ _ _ _ _ _ _ _ _ H).
Qed.
End endpoints.
End server.

(** ** From what a statement does to a table *)

(** A relation that the effect of every statement of the server's database on
    its tables is in. *)
Record primitive (CFG : Config) (h : DBHandle) (T : DB -> DB -> Prop) : Prop := {
  prim_faults : forall d fs, T d (set_faults fs d);
  prim_random : forall d n, T d (set_rnd_pos n d);
  prim_insert : forall d u,
    (driverName h = "mysql" -> ui_Name u ∉ map ur_Name (users d)) ->
    T d (set_users (users d ++ [Accessor.new_record u]) d);
  prim_state : forall d id z, T d (set_users (update_where (Accessor.has_id id) (Accessor.set_state z) (users d)) d);
  prim_limit : forall d id,
    T d (set_users (update_where (Accessor.has_id id) (Accessor.set_max (MaxEnrollments CFG)) (users d)) d);
  prim_certificate : forall d r,
    existsb (has_cert (cr_Serial (c_rec r)) (cr_AKI (c_rec r))) (certificates d) = false ->
    T d (set_certificates (certificates d ++ [r]) d);
  prim_revoke : forall d p t reason,
    T d (set_certificates (update_where p (mark_revoked t reason) (certificates d)) d)
}.

Section primitive.
Context (C : Crypto) (CFG : Config) (h : DBHandle) (fuel : nat).
Context {SR : Type} (issue : SR -> outcome (bytes * CertificateRecord)).
Context (T : DB -> DB -> Prop) `{!PreOrder T} (HT : primitive CFG h T).
Let R := accessor_registry (Accessor.mkAccessor (Some h)).
Let a := CertDBAccessor.NewCertDBAccessor (Some h).

Definition moves {A} (m : comp DB A) : Prop := forall d, T d (m d).2.

Lemma moves_readonly {A} (m : comp DB A) : readonly m -> moves m.
Proof. intros Hm d. rewrite Hm. done. Qed.

Lemma moves_bind {A B} (m : comp DB A) (f : A -> comp DB B) :
  moves m -> (forall y, moves (f y)) -> moves (m ≫= f).
Proof.
  intros Hm Hf d. specialize (Hm d). unfold mbind, comp_bind. destruct (m d) as [[y|e|p|p|] d1]; try done.
  etrans; [exact Hm|apply Hf].
Qed.

Lemma moves_map_err {A} f (m : comp DB A) : moves m -> moves (map_err f m).
Proof. intros Hm d. specialize (Hm d). unfold map_err. by destruct (m d) as [[] ?]. Qed.

Lemma moves_statement {A} t (f : DB -> outcome A * DB) : (forall d, T d (f d).2) -> moves (statement t f).
Proof.
  intros Hf d. destruct (statement_cases t f d) as [(msg & fs & ->)|(fs & ->)]; [apply (prim_faults _ _ _ HT)|].
  etrans; [apply (prim_faults _ _ _ HT)|apply Hf].
Qed.

Lemma moves_exec {A} h' t q (f : DB -> outcome A * DB) : (forall d, T d (f d).2) -> moves (exec h' t q f).
Proof. intros Hf. unfold exec. case_match; [by apply moves_statement|by apply moves_readonly]. Qed.

Lemma moves_ret_bind {A B} (y : A) (f : A -> comp DB B) : moves (f y) -> moves ((mret y : comp DB A) ≫= f).
Proof. done. Qed.

Ltac moves_step :=
  first
    [ by apply moves_readonly | apply moves_map_err | apply moves_ret_bind | apply moves_bind; [|intros ?]
    | apply moves_exec; intros ?; simpl | apply moves_statement; intros ?; simpl
    | case_match | reflexivity
    | apply (prim_state _ _ _ HT) | apply (prim_limit _ _ _ HT) | apply (prim_revoke _ _ _ HT)
    | by apply (prim_certificate _ _ _ HT) ].

Lemma moves_random n : moves (db_RandomString fuel n).
Proof.
  intros d. unfold db_RandomString. destruct (Util.RandomString _ _ _ _) as [[s p]|?|?|?|]; try done.
  apply (prim_random _ _ _ HT).
Qed.

Lemma moves_InsertUser u : moves (InsertUser R u).
Proof.
  unfold R. simpl. unfold Accessor.InsertUser, Accessor.exec_insertUser, Accessor.checkDB. simpl.
  apply moves_ret_bind. apply moves_bind; [|intros n; repeat case_match; by apply moves_readonly].
  apply moves_statement. intros d. case_match eqn:E; [done|]. apply (prim_insert _ _ _ HT).
  intros Hh. rewrite bool_decide_true in E by done. by apply existsb_has_id in E.
Qed.

Lemma moves_sign req : moves (enrollSigner_Sign C (Some a) issue req).
Proof.
  unfold enrollSigner_Sign, CertDBAccessor.InsertCertificate, CertDBAccessor.checkDB, CertDBAccessor.exec_insert.
  simpl. apply moves_bind; [by apply moves_readonly|intros [cert record]].
  apply moves_bind; [|intros; by apply moves_readonly]. apply moves_ret_bind. repeat moves_step.
Qed.

Lemma moves_RevokeCertificate serial aki reason : moves (CertDBAccessor.RevokeCertificate a serial aki reason).
Proof.
  unfold CertDBAccessor.RevokeCertificate, certsql.RevokeCertificate, wrapSQLError, certsql.checkDB. simpl.
  repeat moves_step.
Qed.

(** Then every operation keeps to any protocol that allows the relation. *)
Lemma primitive_keeps {X} (I : DB -> Prop) (St : X -> DB -> X -> DB -> Prop) x :
  (forall d d', I d -> T d d' -> St x d x d') -> db_keeps C CFG h fuel issue I St x.
Proof.
  intros HS.
  assert (Hm : forall A (m : comp DB A), moves m -> keeps I St x m).
  { intros A m Hm d Hd. apply HS; [done|apply Hm]. }
  split; intros; try apply Hm.
  - by apply HS.
  - apply moves_random.
  - simpl. unfold Accessor.GetUser, Accessor.checkDB. simpl. repeat moves_step.
  - simpl. unfold Accessor.GetGroup, Accessor.checkDB. simpl. repeat moves_step.
  - unfold Accessor.Login. repeat moves_step.
  - apply moves_InsertUser.
  - simpl. unfold Accessor.UpdateField, Accessor.checkDB. simpl. repeat moves_step.
  - simpl. unfold Accessor.UpdateField, Accessor.checkDB. simpl. repeat moves_step.
  - apply moves_sign.
  - apply moves_RevokeCertificate.
  - repeat moves_step.
  - repeat moves_step.
Qed.
End primitive.

(** ** The history of the server, whatever the interleaving *)

(** What happens outside of the requests: time passes, and statements are
    going to fail. *)
Inductive srv_env {Key} : Srv Key -> Srv Key -> Prop :=
  | env_clock s t fs : (now (s_db s) <= t)%Z ->
      srv_env s (mkSrv (mkDB (users (s_db s)) (groups (s_db s)) (certificates (s_db s)) t
                          (rnd (s_db s)) (rnd_pos (s_db s)) fs) (s_tree s)).

(** The columns of a user's row that registration fills. *)
Definition row_core (r : UserRecord) : string * string * string * string * string :=
  (ur_Name r, ur_Pass r, ur_Type r, ur_Group r, ur_Attributes r).

(** Rows are only ever added, and keep those columns; groups stay. *)
Definition rows_kept (d d' : DB) : Prop :=
  map row_core (users d) `prefix_of` map row_core (users d') /\ groups d' = groups d.

#[export] Instance rows_kept_preorder : PreOrder rows_kept.
Proof.
  split; [by intros d|]. intros d1 d2 d3 [H1 E1] [H2 E2]. split; [by etrans|congruence].
Qed.

Lemma rows_kept_update d p f :
  (forall r, row_core (f r) = row_core r) -> rows_kept d (set_users (update_where p f (users d)) d).
Proof. intros Hf. split; [|done]. simpl. by rewrite update_where_map. Qed.

Lemma rows_kept_same d d' : users d' = users d -> groups d' = groups d -> rows_kept d d'.
Proof. intros E1 E2. split; [by rewrite E1|done]. Qed.

(** What every statement does to the tables. *)
Definition kept (d d' : DB) : Prop :=
  grows d d' /\ (cert_inv d -> cert_inv d') /\ rows_kept d d'.

#[export] Instance kept_preorder : PreOrder kept.
Proof.
  split; [by intros d|]. intros d1 d2 d3 (G1 & I1 & R1) (G2 & I2 & R2).
  split; [by etrans|]. split; [auto|by etrans].
Qed.

Lemma kept_certificates d d' : certificates d' = certificates d -> rows_kept d d' -> kept d d'.
Proof.
  intros E Hr. split; [intros r Hin; exists r; by rewrite E|]. split; [|done].
  unfold cert_inv. by rewrite E.
Qed.

Lemma kept_primitive CFG h : primitive CFG h kept.
Proof.
  split; intros; try (apply kept_certificates; [done|]).
  - by apply rows_kept_same.
  - by apply rows_kept_same.
  - split; [|done]. simpl. rewrite map_app. by apply prefix_app_r.
  - by apply rows_kept_update.
  - by apply rows_kept_update.
  - split; [intros r' Hr'; exists r'; split; [simpl; set_solver|done]|]. split; [|by apply rows_kept_same].
    unfold cert_inv. simpl. rewrite map_app. intros Hd. apply NoDup_snoc; [done|]. by apply existsb_has_cert.
  - split; [apply update_grows|]. split; [apply update_cert_inv|by apply rows_kept_same].
Qed.

Section history.
Context {Key : Type} (KeyDeriv : Key -> string -> outcome Key) (SKI : Key -> bytes).
Context (C : Crypto) (CFG : Config) (h : DBHandle) (fuel : nat).
Context (checkCRL : Certificate -> string -> bool * bool).
Context {SR : Type} (zero : SR) (dec : decoder SR) (issue : SR -> outcome (bytes * CertificateRecord)).
Context (mgr_GetBatch : GetBatchRequest -> Certificate -> comp (Srv Key) GetBatchResponse).
Context (resp_json : GetBatchResponse -> json).
Hypothesis Hbatch : forall req c, readonly (mgr_GetBatch req c).
Let R := accessor_registry (Accessor.mkAccessor (Some h)).
Let a := CertDBAccessor.NewCertDBAccessor (Some h).
Let start := Threads.serve KeyDeriv SKI C CFG R (Some a) checkCRL (db_RandomString fuel) zero dec issue
               mgr_GetBatch resp_json.

(** A relation on the database that statements and the environment are in
    holds between the states of any execution. *)
Lemma pool_kept (I : DB -> Prop) (T : DB -> DB -> Prop) `{!PreOrder T} s s' ts' :
  primitive CFG h T -> (forall d d', I d -> T d d' -> I d') ->
  (forall d t fs, T d (mkDB (users d) (groups d) (certificates d) t (rnd d) (rnd_pos d) fs)) ->
  rtc (pool_step start srv_env) (s, []) (s', ts') ->
  I (s_db s) -> cache_ok KeyDeriv (s_tree s) ->
  I (s_db s') /\ T (s_db s) (s_db s') /\ cache_ok KeyDeriv (s_tree s') /\ rootKey (s_tree s') = rootKey (s_tree s).
Proof.
  intros HT HI Henv Hrun Hs Ht. set (root := rootKey (s_tree s)).
  set (G := fun s1 s2 : Srv Key => T (s_db s1) (s_db s2)).
  assert (PreOrder G) by (unfold G; split; [by intros ?|intros ? ? ? H1 H2; by etrans]).
  set (St := fun (_ : unit) (d : DB) (_ : unit) (d' : DB) => I d' /\ T d d').
  assert (srv_inv KeyDeriv root I s' /\ G s s') as Hfin; [|by destruct Hfin as [[? [? ?]] ?]].
  assert (Hstart : forall r, follows (srv_inv KeyDeriv root I)
    (fun _ w _ w' => srv_inv KeyDeriv root I w' /\ G w w') (fun _ _ => True) (fun _ _ => True) (start r) tt).
  { intros r. assert (Hk : db_keeps C CFG h fuel issue I St tt).
    { apply (primitive_keeps C CFG h fuel issue T HT). intros d d' Hd Hdd. split; [by eapply HI|done]. }
    assert (Hsame : forall y d, I d -> St y d y d) by (intros [] d Hd; by split).
    eapply (follows_conseq _ _ (srv_st KeyDeriv root St)); [done| |].
    - intros [] w [] w' Hw [[H1 H2] H3]. by split.
    - eapply follows_mono; [done|done|].
      exact (serve_keeps KeyDeriv SKI root I St C CFG h fuel checkCRL zero dec issue mgr_GetBatch resp_json
               Hbatch tt Hk Hsame r). }
  destruct (pool_guarantee start srv_env (srv_inv KeyDeriv root I) G (fun _ _ => True) Hstart) with
    (c := (s, [] : pool Request (Srv Key) Response)) (c' := (s', ts')) as (H1 & H2 & _); try done.
  intros w w' [s1 t fs Hle] [H1 H2]. specialize (Henv (s_db s1) t fs). split; [split; [by eapply HI|done]|done].
Qed.
End history.

(** (C1) For every concurrent execution of the database-backed server (requests
    to any of the COP endpoints arriving at any time, their statements and
    accesses to the key tree interleaved in any way, the clock advancing and
    statements failing at will), at every moment: the certificate table keeps
    its key, every certificate that was recorded still is, either unchanged or
    revoked with everything but its status, reason and revocation time as
    before, no user's row or group has disappeared and no registered data of a
    user has changed, and the key tree holds only keys its paths specify. *)
Theorem concurrent_history {Key} (KeyDeriv : Key -> string -> outcome Key) SKI C CFG h fuel checkCRL
    {SR} (zero : SR) dec issue mgr_GetBatch resp_json s s' ts' :
  (forall req c, readonly (mgr_GetBatch req c)) ->
  rtc (pool_step (Threads.serve KeyDeriv SKI C CFG (accessor_registry (Accessor.mkAccessor (Some h)))
         (Some (CertDBAccessor.NewCertDBAccessor (Some h))) checkCRL (db_RandomString fuel) zero dec issue
         mgr_GetBatch resp_json) srv_env) (s, []) (s', ts') ->
  cert_inv (s_db s) -> cache_ok KeyDeriv (s_tree s) ->
  cert_inv (s_db s') /\ grows (s_db s) (s_db s') /\ rows_kept (s_db s) (s_db s')
  /\ cache_ok KeyDeriv (s_tree s') /\ rootKey (s_tree s') = rootKey (s_tree s).
Proof.
  intros Hb Hrun Hc Ht.
  destruct (pool_kept KeyDeriv SKI C CFG h fuel checkCRL zero dec issue mgr_GetBatch resp_json Hb
    cert_inv kept s s' ts') as (H1 & (H2 & _ & H3) & H4); try done.
  - apply kept_primitive.
  - intros d d' Hd (_ & H & _). auto.
  - intros d t fs. by apply kept_certificates; [|apply rows_kept_same].
Qed.

(** Two requests in lock step: every round is one step of each. *)
Definition toy_start (h : DBHandle) : Request -> thread (Srv (list string)) Response :=
  Threads.serve toy_deriv (fun k => bytes_of_string (Join k "/")) toy_crypto newConfig
    (accessor_registry (Accessor.mkAccessor (Some h)))
    (Some (CertDBAccessor.NewCertDBAccessor (Some h))) (fun _ _ => (false, true)) (db_RandomString 12)
    "" toy_sign_dec toy_issue toy_batch (fun _ => JNull).

Lemma lock_step h rs n s :
  rtc (pool_step (toy_start h) srv_env) (s, []) (rounds n s (map (fun r => (r, toy_start h r)) rs)).
Proof. etrans; [apply (arrive_all _ _ rs s [])|apply rounds_reach]. Qed.

Lemma concurrent_history_witness :
  let '(s', _) := rounds 12 toy_srv (map (fun r => (r, toy_start sqlite3 r)) [revoke_req; sample_request; revoke_req]) in
  cert_inv (s_db s') /\ grows (s_db toy_srv) (s_db s') /\ rows_kept (s_db toy_srv) (s_db s')
  /\ cache_ok toy_deriv (s_tree s') /\ rootKey (s_tree s') = [].
Proof.
  pose proof (lock_step sqlite3 [revoke_req; sample_request; revoke_req] 12 toy_srv) as Hrun.
  destruct (rounds 12 _ _) as [s' ts'].
  apply (concurrent_history toy_deriv (fun k => bytes_of_string (Join k "/")) toy_crypto newConfig sqlite3 12
    (fun _ _ => (false, true)) "" toy_sign_dec toy_issue toy_batch (fun _ => JNull) toy_srv s' ts').
  - intros req c. apply GetBatch_readonly; intros; apply readonly_ret.
  - exact Hrun.
  - apply (bool_decide_unpack _). vm_compute. exact I.
  - intros k key Hk. simpl in Hk. by rewrite lookup_empty in Hk.
Defined.

(** The sequential server of file Server is one of the interleavings: a
    request that arrives while others are being served and whose steps run
    without interruption leaves the state and the answer of its handler,
    statement for statement, and the others where they were. *)
Theorem serve_alone {Key} (KeyDeriv : Key -> string -> outcome Key) SKI C CFG R acc checkCRL rs
    {SR} (zero : SR) dec issue mgr_GetBatch resp_json env s ts r :
  let start := Threads.serve KeyDeriv SKI C CFG R acc checkCRL rs zero dec issue mgr_GetBatch resp_json in
  let '(o, s') := serve KeyDeriv SKI C CFG R acc checkCRL rs zero dec issue mgr_GetBatch resp_json r s in
  rtc (pool_step start env) (s, ts) (s', ts ++ [(r, Done o)]).
Proof.
  intros start. pose proof (serve_run KeyDeriv SKI C CFG R acc checkCRL rs zero dec issue mgr_GetBatch
    resp_json r s) as Hrun. destruct (serve _ _ _ _ _ _ _ _ _ _ _ _ _ _ _) as [o s'].
  eapply rtc_l; [apply pool_arrive|]. pose proof (run_reach start env (start r) s ts r []) as H.
  unfold start in H at 3 4. by rewrite Hrun in H.
Qed.
