(* ===== verification/Races.v ===== *)
(** * What concurrent requests can do to each other

    Executions of the threads of file Concurrent in which the handlers'
    statements of several requests mix: the key tree's map accessed without
    a lock, the same name registered more than once; and what holds in all of them: a registration that was answered
    with success has added a row, so that on MySQL, whose table has a primary
    key, a name is registered once. *)

From S2P Require Import Prelude GoStrings GoFmt GoJson CopError Base64 Http Registry GoUrl GoUnmarshal Token Database DbAccessor CertDB Util Config Register Auth Handlers TCertUtil KeyTree TCert Server Client ClientServer Interleave Concurrent Protocol.

Section races.
Context {Key : Type} (KeyDeriv : Key -> string -> outcome Key) (SKI : Key -> bytes).
Context (C : Crypto) (CFG : Config) (h : DBHandle) (fuel : nat).
Context (checkCRL : Certificate -> string -> bool * bool).
Context {SR : Type} (zero : SR) (dec : decoder SR) (issue : SR -> outcome (bytes * CertificateRecord)).
Context (mgr_GetBatch : GetBatchRequest -> Certificate -> comp (Srv Key) GetBatchResponse).
Context (resp_json : GetBatchResponse -> json).
Let R := accessor_registry (Accessor.mkAccessor (Some h)).
Let a := CertDBAccessor.NewCertDBAccessor (Some h).
Let start := Threads.serve KeyDeriv SKI C CFG R (Some a) checkCRL (db_RandomString fuel) zero dec issue
               mgr_GetBatch resp_json.
Let table := Threads.endpoints KeyDeriv SKI C CFG R (Some a) (db_RandomString fuel) zero dec issue
               mgr_GetBatch resp_json.

(** A request with a token that is admitted to an endpoint at time [t]. *)
Record bears_token (path : string) (t : Z) (r : Request) (cert : Certificate) : Prop := {
  ta_URL : URL r = wrappedPath path;
  ta_method : Method r = "POST";
  ta_body : body_err r = None;
  ta_header : authorization r <> "";
  ta_basic : BasicAuth r = None;
  ta_token : VerifyToken C (authorization r) (bytes_of_string (body r)) = Ok cert;
  ta_time : (NotBefore cert < t < NotAfter cert)%Z;
  ta_crl : revCheck checkCRL cert (CRLDistributionPoints cert) = (false, true)
}.

(** The request the handler sees. *)
Definition admitted (r : Request) (cert : Certificate) : Request :=
  set_eid (CommonName cert) (set_Body (body r) r).

Lemma serve_endpoint path next r :
  (path, next) ∈ table -> URL r = wrappedPath path ->
  start r = (thread_attempt (Threads.onDB (Threads.serveHTTP C CFG R checkCRL (Threads.basic_endpoint path)
                               (negb (Threads.basic_endpoint path)) r)) ≫= fun x =>
             match x with inl err => mret (HandleError err) | inr r => next r end).
Proof.
  intros Hin Hu. unfold start, Threads.serve. fold table.
  assert (List.find (fun e : string * (Request -> thread (Srv Key) Response) =>
            bool_decide (wrappedPath e.1 = URL r)) table = Some (path, next)) as ->; [|done].
  rewrite Hu. unfold table, Threads.endpoints in *.
  repeat (apply elem_of_cons in Hin as [Hin|Hin]; [injection Hin as -> ->; reflexivity|]).
  by apply not_elem_of_nil in Hin.
Qed.

Lemma adv_onDB {A} (t : thread DB A) t' d' (s : Srv Key) :
  advances t (s_db s) t' d' ->
  advances (Threads.onDB t) s (Threads.onDB t') (mkSrv d' (s_tree s)).
Proof. intros H. apply (adv_zoom s_db (fun d s => mkSrv d (s_tree s)) t (s_db s) t' d' s); try done. by destruct s. Qed.

Lemma adv_onTree {A} (t : thread (KeyTree (Key := Key)) A) t' tr' (s : Srv Key) :
  advances t (s_tree s) t' tr' ->
  advances (Threads.onTree t) s (Threads.onTree t') (mkSrv (s_db s) tr').
Proof. intros H. apply (adv_zoom s_tree (fun t s => mkSrv (s_db s) t) t (s_tree s) t' tr' s); try done. by destruct s. Qed.

(** An admitted request comes to its handler without an effect. *)
Lemma adv_admitted path next r cert s t' s' :
  Authentication CFG = true -> (path, next) ∈ table -> Threads.basic_endpoint path = false ->
  bears_token path (now (s_db s)) r cert ->
  advances (next (admitted r cert)) s t' s' -> advances (start r) s t' s'.
Proof.
  intros Ha Hin Hb Hta Hnext. rewrite (serve_endpoint path next r Hin (ta_URL _ _ _ _ Hta)), Hb.
  apply (adv_bind_ok _ _ s (inr (admitted r cert)) s); [|exact Hnext].
  assert (advances (Threads.onDB (Threads.serveHTTP C CFG R checkCRL false true r)) s
    (Done (Ok (admitted r cert))) s) as H; [|exact (adv_then _ _ _ _ _ H)].
  pose proof (adv_run (Threads.serveHTTP C CFG R checkCRL false true r) (s_db s)) as H.
  rewrite (serveHTTP_thread_run C CFG R checkCRL
    (mkCopAuthHandler false true (fun _ => mret (mkResponse 0 "") : comp DB Response)) r (s_db s)) in H.
  destruct Hta as [Hu Hm Hbo Hh Hba Ht [Ht1 Ht2] Hc].
  rewrite serveHTTP_token_run, Ht in H by done.
  rewrite (proj2 (Z.ltb_lt _ _) Ht1), (proj2 (Z.ltb_lt _ _) Ht2), bool_decide_true in H by done.
  simpl in H. apply adv_onDB in H. by destruct s.
Qed.

(** ** The key tree's map *)

Lemma GetKey_rev_poised name rpath (t : KeyTree (Key := Key)) k :
  keys t = ∅ -> KeyDeriv (rootKey t) (List.last (name :: rpath) "") = Ok k ->
  poised WritesKeys (Threads.GetKey_rev KeyDeriv (name :: rpath)) t.
Proof.
  intros Hk. revert name. induction rpath as [|name' rpath IH]; intros name Hd;
    cbn [Threads.GetKey_rev];
    (eapply poised_bind_ok; [apply adv_atom; unfold gets; by rewrite Hk, lookup_empty|]).
  - cbn [List.last] in Hd. eapply poised_bind_ok; [by apply adv_atom|].
    eapply poised_bind_ok; [apply adv_atom; unfold deriveChildKey, map_err, lift; by rewrite Hd|].
    apply poised_then, poised_step.
  - apply poised_then. by apply IH.
Qed.

(** A verified token was decoded to the certificate. *)
Lemma VerifyToken_decoded token b cert :
  VerifyToken C token b = Ok cert -> exists c sg, DecodeToken C token = Ok (cert, c, sg).
Proof.
  unfold VerifyToken. intros ([[x c] sg] & Hd & H)%outcome_bind_Ok. exists c, sg. rewrite Hd.
  destruct (B64Decode sg); [|done]. destruct (PubKey x).
  - destruct (VerifyPKCS1v15 _ _ _ _); [done|]. by injection H as <-.
  - apply outcome_bind_Ok in H as (rs & _ & H). destruct (ecdsa_Verify _ _ _ _ _); [|done]. by injection H as <-.
  - by injection H as <-.
Qed.

(** The request is one for transaction certificates of a user in the group
    [g]/..., and the key of [g] can be derived. *)
Definition tcert_ready (s : Srv Key) (r : Request) : Prop :=
  exists cert req rec g gs k,
    bears_token "tcert" (now (s_db s)) r cert
    /\ json_Unmarshal dec_GetPrivateSignersRequest (body r) zero_GetPrivateSignersRequest = (req, None)
    /\ List.find (Accessor.has_id (CommonName cert)) (users (s_db s)) = Some rec
    /\ Split (ur_Group rec) "/" = g :: gs /\ KeyDeriv (rootKey (s_tree s)) g = Ok k.

Lemma tcert_poised s r :
  Authentication CFG = true -> faults (s_db s) = [] -> keys (s_tree s) = ∅ -> tcert_ready s r ->
  poised WritesKeys (start r) s.
Proof.
  intros Ha Hf Hk (cert & req & rec & g & gs & k & Hta & Hreq & Hu & Hg & Hd).
  assert (Hp : poised WritesKeys (Threads.tcertHandler_handle KeyDeriv SKI C R mgr_GetBatch resp_json (admitted r cert)) s).
  { unfold Threads.tcertHandler_handle.
    apply (poised_bind_ok _ _ _ _ (body r)); [exact (adv_then _ _ _ _ _ (adv_atom OnOwn (ReadAll (admitted r cert)) s (Ok (body r)) s eq_refl))|].
    apply (poised_bind_ok _ _ _ _ req).
    { apply adv_atom. unfold Unmarshal, map_err, decode. by rewrite Hreq. }
    apply (poised_bind_ok _ _ _ _ cert).
    { apply adv_atom. unfold getCertFromAuthHdr. change (authorization (admitted r cert)) with (authorization r).
      rewrite bool_decide_false by apply Hta.
      destruct (VerifyToken_decoded _ _ _ (ta_token _ _ _ _ Hta)) as (c & sg & ->). done. }
    eapply (poised_bind_ok _ _ _ _ (_, g :: gs)).
    { assert (Hui : getUserInfo R (CommonName cert) (gp_AttrNames req) (s_db s)
        = (Ok (select_attrs (GetAttribute (Accessor.as_User (Accessor.newDBUser h rec))) (gp_AttrNames req), g :: gs),
           s_db s)).
      { unfold getUserInfo, R. erewrite bind_ok by (simpl; rewrite GetUser_run, Hu by done; done).
        simpl. unfold Accessor.GetAffiliationPath. simpl. by rewrite Hg. }
      pose proof (adv_onDB _ _ _ s (adv_atom OnDatabase _ _ _ _ Hui)) as H. by destruct s. }
    apply poised_then, poised_then.
    destruct (reverse (g :: gs)) as [|n ns] eqn:Er.
    { rewrite reverse_cons in Er. by destruct (reverse gs). }
    destruct (GetKey_rev_poised n ns (s_tree s) k Hk) as (t' & Ht' & Hh).
    { rewrite <- Er, reverse_cons, List.last_last. exact Hd. }
    exists (Threads.onTree t'). split; [|by destruct t'].
    unfold Threads.GetKey. rewrite Er. pose proof (adv_onTree _ _ _ s Ht') as H. by destruct s. }
  apply (poised_then WritesKeys (fun o => match o with Err e => Done (Err (NewBadRequest e)) | o => Done o end)) in Hp.
  destruct Hp as (t' & Ht' & Hh).
  unfold poised. eexists. split.
  - eapply (adv_admitted "tcert"); [done| |done|done|].
    + unfold table, Threads.endpoints. do 4 apply list_elem_of_further. apply list_elem_of_here.
    + unfold Threads.HTTPHandler. change (Method (admitted r cert)) with (Method r).
      rewrite (ta_method _ _ _ _ Hta), bool_decide_true by set_solver.
      do 2 apply adv_then. exact Ht'.
  - by destruct t'.
Qed.
End races.

(** (C15) Two requests for transaction certificates race on the key tree: on a
    server that has derived no key yet, any two admitted requests whose users
    exist can both come to the point of writing the tree's map at the same
    moment, with no lock between them, which the Go runtime answers by ending
    the process. *)
Theorem key_tree_race {Key} (KeyDeriv : Key -> string -> outcome Key) SKI C CFG h fuel checkCRL
    {SR} (zero : SR) dec issue mgr_GetBatch resp_json s r1 r2 :
  Authentication CFG = true -> faults (s_db s) = [] -> keys (s_tree s) = ∅ ->
  tcert_ready KeyDeriv C checkCRL s r1 -> tcert_ready KeyDeriv C checkCRL s r2 ->
  exists ts, rtc (pool_step (Threads.serve KeyDeriv SKI C CFG
         (accessor_registry (Accessor.mkAccessor (Some h)))
         (Some (CertDBAccessor.NewCertDBAccessor (Some h))) checkCRL (db_RandomString fuel) zero dec issue
         mgr_GetBatch resp_json) srv_env) (s, []) (s, ts) /\ races ts.
Proof.
  intros Ha Hf Hk H1 H2.
  destruct (poised_races (Threads.serve KeyDeriv SKI C CFG (accessor_registry (Accessor.mkAccessor (Some h)))
    (Some (CertDBAccessor.NewCertDBAccessor (Some h))) checkCRL (db_RandomString fuel) zero dec issue
    mgr_GetBatch resp_json) srv_env r1 r2 _ _ s
    (tcert_poised KeyDeriv SKI C CFG h fuel checkCRL zero dec issue mgr_GetBatch resp_json s r1 Ha Hf Hk H1)
    (tcert_poised KeyDeriv SKI C CFG h fuel checkCRL zero dec issue mgr_GetBatch resp_json s r2 Ha Hf Hk H2))
    as (ts & Hrun & Hr).
  exists ts. split; [|done]. etrans; [|exact Hrun].
  exact (arrive_all _ _ [r1; r2] s []).
Qed.

Definition tcert_body : string := json_print (JObj [("count", JNum "1")]).

Definition tcert_req : Request :=
  mkRequest "POST" "/api/v1/cfssl/tcert" (token_over tcert_body) "" tcert_body None.

Lemma tcert_req_ready : tcert_ready toy_deriv toy_crypto (fun _ _ => (false, true)) toy_srv tcert_req.
Proof.
  eexists (toy_cert (RSAKey 7)), _, _, "bank_a", [], ["bank_a"].
  split; [|split; [vm_compute; reflexivity|split; [reflexivity|split; reflexivity]]].
  split; try reflexivity; [done|]. split; reflexivity.
Qed.

Lemma key_tree_race_witness :
  exists ts, rtc (pool_step (toy_start sqlite3) srv_env) (toy_srv, []) (toy_srv, ts) /\ races ts.
Proof.
  apply (key_tree_race toy_deriv (fun k => bytes_of_string (Join k "/")) toy_crypto newConfig sqlite3 12
    (fun _ _ => (false, true)) "" toy_sign_dec toy_issue toy_batch (fun _ => JNull) toy_srv tcert_req tcert_req);
    [reflexivity|reflexivity|reflexivity|exact tcert_req_ready|exact tcert_req_ready].
Defined.

(** ** Registrations *)

(** The rows of a name. *)
Definition rows_of (id : string) (d : DB) : nat := length (List.filter (Accessor.has_id id) (users d)).

(** The request asks for the registration of that name. *)
Definition registers (id : string) (r : Request) : bool :=
  bool_decide (URL r = wrappedPath "register") && bool_decide (body_err r = None)
  && bool_decide (rr_User (json_Unmarshal dec_RegisterRequest (body r) zero_RegisterRequest).1 = id).

(** It has been answered with success. *)
Definition registered {Key} (id : string) (j : Request * thread (Srv Key) Response) : bool :=
  registers id j.1 && match j.2 with Done (Ok resp) => (status resp <? 400)%Z | _ => false end.

Lemma rows_of_app id d l : rows_of id (set_users (users d ++ l) d)
  = (rows_of id d + length (List.filter (Accessor.has_id id) l))%nat.
Proof. unfold rows_of. simpl. by rewrite filter_app_List, length_app. Qed.

Lemma rows_of_update id d p f :
  (forall r, ur_Name (f r) = ur_Name r) -> rows_of id (set_users (update_where p f (users d)) d) = rows_of id d.
Proof.
  intros Hf. unfold rows_of. simpl. rewrite filter_update_where; [by rewrite length_map|].
  intros r. unfold Accessor.has_id. by rewrite Hf.
Qed.

(** No statement takes a row away; on MySQL none doubles one. *)
Definition names_ok (h : DBHandle) (d : DB) : Prop :=
  driverName h = "mysql" -> NoDup (map ur_Name (users d)).

Definition rows_grow (h : DBHandle) (id : string) (d d' : DB) : Prop :=
  (names_ok h d -> names_ok h d') /\ rows_of id d <= rows_of id d'.

#[export] Instance rows_grow_preorder h id : PreOrder (rows_grow h id).
Proof.
  split; [by intros d|]. intros d1 d2 d3 [H1 E1] [H2 E2]. split; [auto|lia].
Qed.

Lemma rows_grow_update h id d p f :
  (forall r, ur_Name (f r) = ur_Name r) -> rows_grow h id d (set_users (update_where p f (users d)) d).
Proof.
  intros Hf. split; [|by rewrite rows_of_update]. unfold names_ok. simpl. by rewrite update_where_map.
Qed.

Lemma rows_grow_primitive CFG h id : primitive CFG h (rows_grow h id).
Proof.
  split; intros; try done; try by apply rows_grow_update.
  split; [|rewrite rows_of_app; lia]. intros Hd Hm. simpl. rewrite map_app.
  apply NoDup_snoc; [by apply Hd|]. auto.
Qed.

(** An insertion that is reported done added a row. *)
Lemma InsertUser_adds h u d d' :
  InsertUser (accessor_registry (Accessor.mkAccessor (Some h))) u d = (Ok tt, d') ->
  rows_of (ui_Name u) d' = S (rows_of (ui_Name u) d).
Proof.
  simpl. unfold Accessor.InsertUser, Accessor.checkDB, Accessor.exec_insertUser. simpl.
  rewrite bind_mret. intros (n & d1 & H1 & H2)%bind_ok_inv.
  assert (d' = d1) as ->.
  { destruct (n =? 0)%Z; [done|]. destruct (negb _); [done|]. by injection H2. }
  clear H2.
  assert (forall d0, users d0 = users d ->
    rows_of (ui_Name u) (set_users (users d0 ++ [Accessor.new_record u]) d0) = S (rows_of (ui_Name u) d)) as Hadd.
  { intros d0 E. rewrite rows_of_app. unfold rows_of. rewrite E. simpl. unfold Accessor.has_id at 2. simpl.
    rewrite bool_decide_true by done. simpl. lia. }
  match type of H1 with statement ?t ?f d = _ =>
    destruct (statement_cases t f d) as [(msg & fs & E)|(fs & E)] end; rewrite E in H1; [done|].
  case_match; simplify_eq; by apply Hadd.
Qed.

(** The errors of a thread are answered with an error status. *)
Definition fails {A} (o : outcome A) : Prop :=
  match o with Err e => failing e = true | _ => True end.

Notation errs t := (ends fails t).

Lemma errs_atom {W A} l (m : comp W A) : errs_fail m -> errs (atom l m).
Proof. intros Hm. apply ends_atom. intros w. unfold fails. destruct (m w) as [[] ?] eqn:E; try done. by eapply Hm. Qed.

Lemma errs_bind {W A B} (t : thread W A) (f : A -> thread W B) :
  errs t -> (forall y, errs (f y)) -> errs (t ≫= f).
Proof. intros Ht Hf. eapply ends_then; [exact Ht|]. intros [] Ho; simpl; try done. Qed.

Lemma ends_any {W A} (t : thread W A) : ends (fun _ => True) t.
Proof. induction t; simpl; auto. Qed.

Lemma errs_attempt {W A} (t : thread W A) : errs (thread_attempt t).
Proof. eapply ends_then; [apply (ends_any t)|]. by intros []. Qed.

Lemma errs_map_err {W A} f (t : thread W A) :
  (forall e, failing (f e) = true) -> errs (thread_map_err f t).
Proof. intros Hf. eapply ends_then; [apply (ends_any t)|]. intros []; simpl; auto. Qed.

Section accounts.
Context {Key : Type} (KeyDeriv : Key -> string -> outcome Key) (SKI : Key -> bytes).
Context (C : Crypto) (CFG : Config) (h : DBHandle) (fuel : nat).
Context (checkCRL : Certificate -> string -> bool * bool).
Context {SR : Type} (zero : SR) (dec : decoder SR) (issue : SR -> outcome (bytes * CertificateRecord)).
Context (mgr_GetBatch : GetBatchRequest -> Certificate -> comp (Srv Key) GetBatchResponse).
Context (resp_json : GetBatchResponse -> json).
Hypothesis Hbatch : forall req c, readonly (mgr_GetBatch req c).
Let R := accessor_registry (Accessor.mkAccessor (Some h)).
Let a := CertDBAccessor.NewCertDBAccessor (Some h).
Let start := Threads.serve KeyDeriv SKI C CFG R (Some a) checkCRL (db_RandomString fuel) zero dec issue
               mgr_GetBatch resp_json.

Lemma RegisterUser_thread_errs id t g attrs registrar opt :
  errs (Threads.RegisterUser R CFG (db_RandomString fuel) id t g attrs registrar opt).
Proof.
  unfold Threads.RegisterUser, Threads.canRegister, Threads.validateID, Threads.registerUserID,
    Register.isValidGroup, Register.token_for.
  repeat first
    [ apply errs_attempt | apply errs_map_err; done | apply errs_bind; [|intros ?]
    | apply errs_atom; repeat first [apply GetUser_errs | apply GetGroup_errs | apply InsertUser_errs
                                    | apply UpdateField_errs | errs_step]
    | case_match | done ].
Qed.

Lemma serveHTTP_thread_errs token r : errs (Threads.serveHTTP C CFG R checkCRL (negb token) token r).
Proof.
  unfold Threads.serveHTTP. case_match; [done|]. case_match; [done|].
  destruct (BasicAuth _) as [[user pwd]|].
  - case_match; [done|].
    apply (ends_then (fun o => match o with Ok u => exists rec, u = Accessor.as_User (Accessor.newDBUser h rec)
                                      | Err e => failing e = true | _ => True end)).
    + apply ends_atom. intros d. destruct (GetUser R user [] d) as [[] d'] eqn:E; try done.
      * eapply GetUser_object, E.
      * eapply GetUser_errs, E.
    + intros [u|?|?|?|] Ho; try done. destruct Ho as [rec ->].
      apply errs_bind; [apply errs_atom, Login_errs|done].
  - destruct token; [|done]. apply errs_bind; [by apply errs_map_err|intros b].
    apply errs_bind; [by apply errs_map_err|intros cert].
    apply errs_bind; [apply errs_atom|intros [rv ch]; repeat case_match; done].
    unfold VerifyCertificate. solve_errs.
Qed.

(** Authentication does not touch the body. *)
Lemma serveHTTP_same_body basic token r :
  ends (fun o => match o with Ok r' => body r' = body r /\ body_err r' = None | _ => True end)
    (Threads.serveHTTP C CFG R checkCRL basic token r).
Proof.
  unfold Threads.serveHTTP. case_match; [done|]. case_match; [done|].
  destruct (BasicAuth _) as [[user pwd]|]; [case_match; [done|]|destruct token; [|done]].
  - eapply ends_then with (Q := fun _ => True); [by apply ends_atom|]. intros [] _; try done.
    eapply ends_then with (Q := fun _ => True); [by apply ends_atom|]. by intros [] _.
  - eapply ends_then with (Q := fun o => match o with Ok b => b = body r | _ => True end).
    { eapply ends_then with (Q := fun o => match o with Ok b => b = body r | _ => True end).
      - apply ends_atom. intros d. unfold ReadAll. simpl. done.
      - by intros []. }
    intros [b|?|?|?|] Hb; try done. subst b.
    eapply ends_then with (Q := fun _ => True).
    { unfold thread_map_err. simpl. by destruct (VerifyToken _ _ _). }
    intros [cert|?|?|?|] _; try done.
    eapply ends_then with (Q := fun _ => True); [by apply ends_atom|].
    intros [[rv ch]|?|?|?|] _; try done. by repeat case_match.
Qed.

Context (id : string).

(** What a request owes: a row, if it asks for the registration of [id]. *)
Definition owed (r : Request) : nat := if registers id r then 1 else 0.

Definition db_pays (n : nat) (d : DB) (n' : nat) (d' : DB) : Prop :=
  names_ok h d' /\ n' <= n /\ rows_of id d + n <= rows_of id d' + n'.

Lemma db_keeps_debt n : db_keeps C CFG h fuel issue (names_ok h) db_pays n.
Proof.
  apply (primitive_keeps C CFG h fuel issue (rows_grow h id) (rows_grow_primitive CFG h id)).
  intros d d' Hd [H1 H2]. split; [auto|]. lia.
Qed.

Lemma db_pays_refl n d : names_ok h d -> db_pays n d n d.
Proof. intros Hd. split; [done|]. lia. Qed.

Lemma RegisterUser_pays t g attrs registrar opt :
  follows (names_ok h) db_pays (fun n _ => n = 0) (fun _ _ => True)
    (Threads.RegisterUser R CFG (db_RandomString fuel) id t g attrs registrar opt) 1.
Proof.
  assert (Hweak : forall A (m : thread DB A) n, thread_keeps (names_ok h) db_pays n m ->
    follows (names_ok h) db_pays (fun n' _ => n' = n) (fun _ _ => True) m n).
  { intros A m n Hm. by eapply follows_mono; [| |exact Hm]. }
  pose proof (db_keeps_debt 1) as K1. pose proof (db_keeps_debt 0) as K0.
  unfold Threads.RegisterUser, Threads.registerUserID.
  eapply follows_bind; [apply Hweak; case_match; [apply (canRegister_tk _ _ _ _ _ _ _ _ K1)|apply tk_done]|].
  intros n [] ->. eapply follows_bind; [apply Hweak, (validateID_tk _ _ _ _ _ _ _ _ K1)|].
  intros n [] ->. eapply follows_bind; [apply Hweak, (token_for_tk _ _ _ _ _ _ _ _ K1)|].
  intros n tok ->. eapply follows_bind.
  { apply Hweak, tk_attempt, tk_atom, (keep_GetUser _ _ _ _ _ _ _ _ K1). }
  intros n [e|u] ->; [|done]. eapply follows_bind with (P := fun n _ => n = 0).
  - apply follows_atom. intros d Hd.
    destruct (InsertUser R _ d) as [[[]|e'|p|p|] d'] eqn:E;
      [exists 0|exists 1|exists 1|exists 1|exists 1]; (split; [|done]); cbn [snd].
    2-5: pose proof (keep_InsertUser _ _ _ _ _ _ _ _ K1 (mkUserInfo id tok t g attrs) d Hd) as K;
         unfold R in E; rewrite E in K; exact K.
    pose proof (InsertUser_adds h _ _ _ E) as Hadd. simpl in Hadd.
    pose proof (moves_InsertUser CFG h (rows_grow h id) (rows_grow_primitive CFG h id)
      (mkUserInfo id tok t g attrs) d) as [Hn _]. unfold R in E. rewrite E in Hn.
    split; [auto|]. lia.
  - intros n [] ->. eapply follows_bind; [apply Hweak, tk_atom, (keep_limit _ _ _ _ _ _ _ _ K0)|].
    by intros n [] ->.
Qed.

Lemma register_pays r :
  body_err r = None -> rr_User (json_Unmarshal dec_RegisterRequest (body r) zero_RegisterRequest).1 = id ->
  follows (names_ok h) db_pays (fun n _ => n = 0) (fun _ e => failing e = true)
    (Threads.registerHandler_Handle CFG R (db_RandomString fuel) r) 1.
Proof.
  intros Hb Hid. unfold Threads.registerHandler_Handle, ReadAll. rewrite Hb.
  eapply follows_bind with (P := fun n b => n = 1 /\ b = body r).
  { apply follows_atom. intros d Hd. exists 1. split; [by apply db_pays_refl|done]. }
  intros n b [-> ->]. eapply follows_bind with (P := fun n req => n = 1 /\ rr_User req = id).
  { apply follows_atom. intros d Hd. exists 1. rewrite readonly_decode. split; [by apply db_pays_refl|].
    unfold decode. destruct (json_Unmarshal _ _ _) as [req [e|]] eqn:E; simpl in *; [|by rewrite Hid].
    pose proof (errs_fail_decode dec_RegisterRequest (body r) zero_RegisterRequest d e d) as H.
    apply H. unfold decode. by rewrite E. }
  intros n req [-> Hreq]. eapply follows_bind with (P := fun n _ => n = 0); [|by intros n tok ->].
  eapply follows_mono; [| |apply follows_ends; [rewrite Hreq; apply RegisterUser_pays|apply RegisterUser_thread_errs]].
  - by intros n tok [-> _].
  - by intros n e [_ He].
Qed.

(** A request owes a row until it has made one; if it ends without, the
    answer is an error. *)
Lemma serve_pays root r :
  follows (srv_inv KeyDeriv root (names_ok h)) (srv_st KeyDeriv root db_pays)
    (fun n resp => (status resp <? 400)%Z = true -> n = 0) (fun _ _ => True) (start r) (owed r).
Proof.
  unfold owed. destruct (registers id r) eqn:Hr.
  2:{ eapply follows_mono; [| |apply serve_keeps]; [by intros n resp ->|done|done|apply db_keeps_debt|apply db_pays_refl]. }
  unfold registers in Hr. apply andb_prop in Hr as [[Hu%bool_decide_eq_true Hb%bool_decide_eq_true]%andb_prop Hid%bool_decide_eq_true].
  unfold start, R, a. erewrite serve_endpoint; [|apply list_elem_of_here|exact Hu].
  eapply follows_bind with (P := fun n x => match x with
    | inl e => failing e = true | inr r' => n = 1 /\ body r' = body r /\ body_err r' = None end).
  { eapply follows_mono with (E := fun _ _ => True); [| |apply follows_attempt, onDB_follows, follows_ends;
      [apply follows_ends; [apply (serveHTTP_tk _ _ _ _ _ _ _ _ _ (db_keeps_debt 1))|apply (serveHTTP_thread_errs true)]
      |apply serveHTTP_same_body]]; [|done].
    intros n [e|r'] H; [apply H|]. destruct H as [[-> _] H]. done. }
  intros n [e|r']; [intros He; simpl; pose proof (HandleError_status e He); intros; lia|].
  intros (-> & Hb' & Hbe). apply onDB_follows. unfold Threads.HTTPHandler.
  eapply follows_bind with (P := fun n x => match x with inl e => failing e = true | inr _ => n = 0 end).
  { apply follows_attempt. case_match; [|done]. apply register_pays; [done|]. by rewrite Hb'. }
  intros n [e|resp]; [|by intros ->]. intros He. simpl. pose proof (HandleError_status e He). intros; lia.
Qed.
End accounts.

Lemma paid_registered {Key} id (ts : pool Request (Srv Key) Response) :
  sum_list_with (paid (owed id) (fun _ resp => (status resp <? 400)%Z)) ts
  = length (List.filter (registered id) ts).
Proof.
  induction ts as [|[r t] ts IH]; [done|]. cbn [sum_list_with List.filter]. rewrite IH.
  unfold registered at 2, paid, owed. cbn [fst snd]. destruct t as [[resp|?|?|?|]|l u k]; rewrite ?andb_false_r; try done.
  destruct (registers id r), (status resp <? 400)%Z; simpl; lia.
Qed.

Lemma rows_of_unique id d : NoDup (map ur_Name (users d)) -> rows_of id d <= 1.
Proof.
  intros Hd. pose proof (count_where_unique (users d) id Hd) as H. unfold count_where in H. unfold rows_of.
  case_decide; lia.
Qed.

(** (C11) Whatever the interleaving of the requests' statements and the failures of
    the database: every registration of a name that was answered with success
    has added a row of that name.  On MySQL, whose table has a primary key, a
    name keeps at most one row, so that at most one registration of it is
    answered with success, and none if it was registered before. *)
Theorem registrations_counted {Key} (KeyDeriv : Key -> string -> outcome Key) SKI C CFG h fuel checkCRL
    {SR} (zero : SR) dec issue mgr_GetBatch resp_json s s' ts' id :
  (forall req c, readonly (mgr_GetBatch req c)) ->
  rtc (pool_step (Threads.serve KeyDeriv SKI C CFG (accessor_registry (Accessor.mkAccessor (Some h)))
         (Some (CertDBAccessor.NewCertDBAccessor (Some h))) checkCRL (db_RandomString fuel) zero dec issue
         mgr_GetBatch resp_json) srv_env) (s, []) (s', ts') ->
  cache_ok KeyDeriv (s_tree s) -> names_ok h (s_db s) ->
  rows_of id (s_db s) + length (List.filter (registered id) ts') <= rows_of id (s_db s')
  /\ (driverName h = "mysql" ->
      rows_of id (s_db s) + length (List.filter (registered id) ts') <= 1).
Proof.
  intros Hb Hrun Ht Hn. set (root := rootKey (s_tree s)).
  destruct (pool_paid (Threads.serve KeyDeriv SKI C CFG (accessor_registry (Accessor.mkAccessor (Some h)))
    (Some (CertDBAccessor.NewCertDBAccessor (Some h))) checkCRL (db_RandomString fuel) zero dec issue
    mgr_GetBatch resp_json) srv_env (srv_inv KeyDeriv root (names_ok h)) (fun s => rows_of id (s_db s))
    (owed id) (fun _ resp => (status resp <? 400)%Z)) with (w := s) (w' := s') (ts' := ts') as [[Hn' _] H]; try done.
  - intros r. eapply follows_conseq; [done| |by apply serve_pays].
    intros n w n' w' Hw [(H1 & H2 & H3) H4]. by split.
  - intros w w' [s1 t fs Hle] [H1 H2]. done.
  - rewrite paid_registered in H. split; [done|]. intros Hm.
    pose proof (rows_of_unique id (s_db s') (Hn' Hm)). lia.
Qed.

Definition carol_body : string :=
  json_print (RegisterRequest_json (mkRegisterRequest "carol" "bank_a" "client" [] "")).

Definition carol_req : Request :=
  mkRequest "POST" "/api/v1/cfssl/register" (token_over carol_body) "" carol_body None.

Definition carol_twice (h : DBHandle) : Srv (list string) * pool Request (Srv (list string)) Response :=
  rounds 12 toy_srv (map (fun r => (r, toy_start h r)) [carol_req; carol_req]).

Lemma registrations_counted_witness :
  let '(s', ts') := carol_twice mysql in
  length (List.filter (registered "carol") ts') = 1
  /\ (0 + length (List.filter (registered "carol") ts') <= rows_of "carol" (s_db s')
      /\ (driverName mysql = "mysql" -> 0 + length (List.filter (registered "carol") ts') <= 1)).
Proof.
  pose proof (lock_step mysql [carol_req; carol_req] 12 toy_srv) as Hrun.
  assert (length (List.filter (registered "carol") (carol_twice mysql).2) = 1) as Hone by (vm_compute; reflexivity).
  change (rounds 12 _ _) with (carol_twice mysql) in Hrun.
  destruct (carol_twice mysql) as [s' ts']. split; [exact Hone|].
  apply (registrations_counted toy_deriv (fun k => bytes_of_string (Join k "/")) toy_crypto newConfig mysql 12
    (fun _ _ => (false, true)) "" toy_sign_dec toy_issue toy_batch (fun _ => JNull) toy_srv s' ts' "carol").
  - intros req c. apply GetBatch_readonly; intros; apply readonly_ret.
  - exact Hrun.
  - intros k key Hk. simpl in Hk. by rewrite lookup_empty in Hk.
  - intros _. apply (bool_decide_unpack _). vm_compute. exact I.
Defined.

(** ** The same name registered by several requests *)

Section duplicates.
Context {Key : Type} (KeyDeriv : Key -> string -> outcome Key) (SKI : Key -> bytes).
Context (C : Crypto) (CFG : Config) (h : DBHandle) (fuel : nat).
Context (checkCRL : Certificate -> string -> bool * bool).
Context {SR : Type} (zero : SR) (dec : decoder SR) (issue : SR -> outcome (bytes * CertificateRecord)).
Context (mgr_GetBatch : GetBatchRequest -> Certificate -> comp (Srv Key) GetBatchResponse).
Context (resp_json : GetBatchResponse -> json).
Let R := accessor_registry (Accessor.mkAccessor (Some h)).
Let a := CertDBAccessor.NewCertDBAccessor (Some h).
Let start := Threads.serve KeyDeriv SKI C CFG R (Some a) checkCRL (db_RandomString fuel) zero dec issue
               mgr_GetBatch resp_json.
Hypothesis Ha : Authentication CFG = true.

(** The rows after a registration that has looked the name up before. *)
Definition add_user (u : UserInfo) (d : DB) : DB :=
  set_users (update_where (Accessor.has_id (ui_Name u)) (Accessor.set_max (MaxEnrollments CFG))
               (users d ++ [Accessor.new_record u])) d.

Lemma pauses_onDB {A} (t : thread DB A) (s : Srv Key) d1 ok o eff :
  pauses t (s_db s) d1 ok o eff ->
  pauses (Threads.onDB t) s (mkSrv d1 (s_tree s)) (fun s2 => ok (s_db s2)) o
    (fun s2 => mkSrv (eff (s_db s2)) (s_tree s2)).
Proof.
  intros (t' & H1 & H2). exists (Threads.onDB t'). split; [by apply adv_onDB|].
  intros s2 Hs. apply (adv_onDB _ (Done o)). auto.
Qed.

Lemma adv_comp {W A} (t : thread W A) (m : comp W A) w o w' :
  run t ≡ m -> m w = (o, w') -> advances t w (Done o) w'.
Proof. intros Hr Hm. pose proof (adv_run t w) as H. by rewrite (Hr w), Hm in H. Qed.

(** The two writing statements, whatever the table holds meanwhile. *)
Lemma insert_run u d :
  driverName h <> "mysql" -> faults d = [] ->
  InsertUser R u d = (Ok tt, set_users (users d ++ [Accessor.new_record u]) d).
Proof.
  intros Hm Hf. simpl. unfold Accessor.InsertUser, Accessor.checkDB, Accessor.exec_insertUser, mbind, comp_bind.
  simpl. rewrite statement_nofault by done. by rewrite bool_decide_false.
Qed.

(** A registration comes to its insertion when the name is free. *)
Lemma RegisterUser_pauses d id t g attrs registrar :
  driverName h <> "mysql" -> db_inv d -> letters_within fuel d ->
  id ∉ map ur_Name (users d) -> may_register (db_view d) registrar t = true -> group_ok (db_view d) t g = true ->
  exists tok pos, String.length tok = 12
    /\ pauses (Threads.RegisterUser R CFG (db_RandomString fuel) id t g attrs registrar []) d
         (set_rnd_pos pos d) (fun d2 => faults d2 = []) (Ok tok) (add_user (mkUserInfo id tok t g attrs)).
Proof.
  intros Hm Hd Hl Hid Hmay Hg. destruct (db_RandomString_run fuel d Hl) as (tok & pos & Hr & Hlen).
  exists tok, pos. split; [done|]. unfold Threads.RegisterUser.
  apply (pauses_after _ _ _ tt d).
  { case_bool_decide as E; [apply adv_refl|]. simpl.
    pose proof (@canRegister_run _ R (accessor_laws h) d registrar t Hd E) as H.
    change (@reg_view _ R (accessor_laws h)) with db_view in H. rewrite Hmay in H.
    eapply adv_comp; [|exact H]. unfold Threads.canRegister, Register.canRegister. run_eq. }
  apply (pauses_after _ _ _ tt d).
  { pose proof (@validateID_run _ R (accessor_laws h) d id t g Hd) as H.
    change (@reg_view _ R (accessor_laws h)) with db_view in H. rewrite Hg in H.
    eapply adv_comp; [|exact H]. unfold Threads.validateID, Register.validateID. run_eq. }
  apply (pauses_after _ _ _ tok (set_rnd_pos pos d)); [by apply adv_atom|].
  apply (pauses_after _ _ _ (inl errNoRows) (set_rnd_pos pos d)).
  { assert (GetUser R id [] (set_rnd_pos pos d) = (Err errNoRows, set_rnd_pos pos d)) as Hu.
    { unfold R. simpl. rewrite GetUser_run by apply Hd. simpl. by rewrite (proj2 (find_id_None _ _) Hid). }
    exact (adv_then _ _ _ _ _ (adv_atom OnDatabase _ _ _ _ Hu)). }
  apply pauses_here. intros d2 Hf. eapply adv_bind_ok; [apply adv_atom, insert_run; done|].
  eapply adv_bind_ok; [apply adv_atom, (UpdateField_max_run h); done|]. apply adv_refl.
Qed.

(** A request that registers [id], in the state it is admitted in. *)
Definition register_ready (id : string) (d : DB) (r : Request) (req : RegisterRequest) : Prop :=
  exists cert, bears_token C checkCRL "register" (now d) r cert
    /\ json_Unmarshal dec_RegisterRequest (body r) zero_RegisterRequest = (req, None)
    /\ rr_User req = id
    /\ may_register (db_view d) (rr_CallerID req) (rr_Type req) = true
    /\ group_ok (db_view d) (rr_Type req) (rr_Group req) = true.

(** Its answer carries a new secret, and its effect is a row. *)
Definition registers_row (r : Request) (resp : Response) (eff : Srv Key -> Srv Key) : Prop :=
  exists req tok, json_Unmarshal dec_RegisterRequest (body r) zero_RegisterRequest = (req, None)
    /\ String.length tok = 12 /\ resp = SendResponse (bytes_json (bytes_of_string tok))
    /\ forall s, eff s = mkSrv (add_user (mkUserInfo (rr_User req) tok (rr_Type req) (rr_Group req)
                                           (rr_Attributes req)) (s_db s)) (s_tree s).

Lemma register_pauses s r id req :
  driverName h <> "mysql" -> db_inv (s_db s) -> letters_within fuel (s_db s) ->
  id ∉ map ur_Name (users (s_db s)) -> register_ready id (s_db s) r req ->
  exists pos resp eff, registers_row r resp eff
    /\ pauses (start r) s (mkSrv (set_rnd_pos pos (s_db s)) (s_tree s)) (fun s2 => faults (s_db s2) = []) (Ok resp) eff.
Proof.
  intros Hm Hd Hl Hid (cert & Hta & Hreq & <- & Hmay & Hg).
  destruct (RegisterUser_pauses (s_db s) (rr_User req) (rr_Type req) (rr_Group req) (rr_Attributes req)
    (rr_CallerID req) Hm Hd Hl Hid Hmay Hg) as (tok & pos & Hlen & Hp).
  exists pos, (SendResponse (bytes_json (bytes_of_string tok))), (fun s2 => mkSrv (add_user (mkUserInfo
    (rr_User req) tok (rr_Type req) (rr_Group req) (rr_Attributes req)) (s_db s2)) (s_tree s2)).
  split; [by exists req, tok|].
  assert (Hh : pauses (Threads.registerHandler_Handle CFG R (db_RandomString fuel) (admitted r cert)) (s_db s)
    (set_rnd_pos pos (s_db s)) (fun d2 => faults d2 = []) (Ok (SendResponse (bytes_json (bytes_of_string tok))))
    (add_user (mkUserInfo (rr_User req) tok (rr_Type req) (rr_Group req) (rr_Attributes req)))).
  { unfold Threads.registerHandler_Handle. apply (pauses_after _ _ _ (body r) (s_db s)); [by apply adv_atom|].
    apply (pauses_after _ _ _ req (s_db s)); [apply adv_atom; unfold decode; by rewrite Hreq|].
    by eapply pauses_then; [exact Hp|]. }
  assert (Hn : pauses (Threads.onDB (Threads.HTTPHandler ["POST"] (Threads.registerHandler_Handle CFG R
      (db_RandomString fuel)) (admitted r cert))) s (mkSrv (set_rnd_pos pos (s_db s)) (s_tree s))
    (fun s2 => faults (s_db s2) = []) (Ok (SendResponse (bytes_json (bytes_of_string tok))))
    (fun s2 => mkSrv (add_user (mkUserInfo (rr_User req) tok (rr_Type req) (rr_Group req) (rr_Attributes req))
                        (s_db s2)) (s_tree s2))).
  { apply (pauses_onDB _ s _ (fun d2 => faults d2 = []) _ (add_user (mkUserInfo (rr_User req) tok (rr_Type req)
      (rr_Group req) (rr_Attributes req)))). unfold Threads.HTTPHandler. change (Method (admitted r cert)) with (Method r).
    rewrite (ta_method _ _ _ _ _ _ Hta), bool_decide_true by set_solver.
    eapply pauses_then; [eapply pauses_then; [exact Hh|done]|done]. }
  destruct Hn as (t' & H1 & H2). exists t'. split; [|exact H2].
  eapply (adv_admitted _ _ _ _ _ _ _ _ _ _ _ _ "register"); [done|apply list_elem_of_here|done|exact Hta|exact H1].
Qed.

(** The rows several registrations of one name leave. *)
Lemma add_users_rows us : forall U d id,
  Forall (fun u => ui_Name u = id) us -> id ∉ map ur_Name U ->
  forall prev, Forall (fun r => ur_Name r = id /\ ur_MaxEnrollments r = MaxEnrollments CFG) prev ->
  users d = U ++ prev ->
  exists rows, users (foldl (fun d u => add_user u d) d us) = U ++ rows
    /\ length rows = (length prev + length us)%nat
    /\ Forall (fun r => ur_Name r = id /\ ur_MaxEnrollments r = MaxEnrollments CFG) rows.
Proof.
  induction us as [|u us IH]; intros U d id Hus HU prev Hprev Hd.
  { exists prev. simpl. split; [done|]. split; [lia|done]. }
  apply Forall_cons in Hus as [Hu Hus].
  assert (Hup : forall l, id ∉ map ur_Name l ->
    update_where (Accessor.has_id id) (Accessor.set_max (MaxEnrollments CFG)) l = l).
  { clear. induction l as [|r l IH]; [done|]. cbn [map]. intros [Hne Hl]%not_elem_of_cons. simpl.
    unfold Accessor.has_id at 1. rewrite bool_decide_false by congruence. f_equal. by apply IH. }
  simpl. destruct (IH U (add_user u d) id Hus HU
    (prev ++ [Accessor.set_max (MaxEnrollments CFG) (Accessor.new_record u)])) as (rows & H1 & H2 & H3).
  - apply Forall_app. split; [done|]. by apply Forall_singleton.
  - unfold add_user. cbn [users set_users]. rewrite Hu, Hd. unfold update_where in *. rewrite !map_app.
    rewrite Hup, <- app_assoc by done. f_equal. f_equal.
    + clear -Hprev. induction Hprev as [|r l [<- Hmax] _ IH]; [done|]. simpl. rewrite IH. f_equal.
      case_match; [|done]. destruct r. simpl in *. by rewrite <- Hmax.
    + simpl. unfold Accessor.has_id. simpl. by rewrite bool_decide_true.
  - exists rows. split; [done|]. split; [|done]. rewrite H2, length_app. simpl. lia.
Qed.
End duplicates.

(** A name with two rows, none of them exempt from counting. *)
Definition locked (id : string) (d : DB) : Prop :=
  2 <= rows_of id d /\ Forall (fun r => ur_Name r = id -> (0 <= ur_MaxEnrollments r)%Z) (users d).

Lemma locked_primitive CFG h id :
  (0 <= MaxEnrollments CFG)%Z -> primitive CFG h (fun d d' => locked id d -> locked id d').
Proof.
  intros Hmax.
  assert (Hup : forall d p f, (forall r, ur_Name (f r) = ur_Name r) ->
    (forall r, ur_MaxEnrollments (f r) = ur_MaxEnrollments r \/ (0 <= ur_MaxEnrollments (f r))%Z) ->
    locked id d -> locked id (set_users (update_where p f (users d)) d)).
  { intros d p f Hn Hf [H1 H2]. split; [by rewrite rows_of_update|]. simpl. unfold update_where.
    apply Forall_fmap. eapply Forall_impl; [exact H2|]. intros r Hr. simpl. case_match; [|done].
    rewrite Hn. destruct (Hf r) as [->|H0]; auto. }
  split; try done.
  - intros d u _ [H1 H2]. split; [rewrite rows_of_app; lia|]. apply Forall_app. split; [done|].
    by apply Forall_singleton.
  - intros d i z. apply Hup; [done|]. by left.
  - intros d i. apply Hup; [done|]. by right.
Qed.

Section lockout.
Context {Key : Type} (KeyDeriv : Key -> string -> outcome Key) (SKI : Key -> bytes).
Context (C : Crypto) (CFG : Config) (h : DBHandle) (fuel : nat).
Context (checkCRL : Certificate -> string -> bool * bool).
Context {SR : Type} (zero : SR) (dec : decoder SR) (issue : SR -> outcome (bytes * CertificateRecord)).
Context (mgr_GetBatch : GetBatchRequest -> Certificate -> comp (Srv Key) GetBatchResponse).
Context (resp_json : GetBatchResponse -> json).
Hypothesis Hbatch : forall req c, readonly (mgr_GetBatch req c).
Let R := accessor_registry (Accessor.mkAccessor (Some h)).
Let a := CertDBAccessor.NewCertDBAccessor (Some h).
Let start := Threads.serve KeyDeriv SKI C CFG R (Some a) checkCRL (db_RandomString fuel) zero dec issue
               mgr_GetBatch resp_json.
Hypothesis Ha : Authentication CFG = true.
Hypothesis Hmax : (0 <= MaxEnrollments CFG)%Z.
Hypothesis Hmy : driverName h <> "mysql".
Context (id : string).
Let St (x : unit) (d : DB) (x' : unit) (d' : DB) : Prop := locked id d'.

Lemma locked_keeps : db_keeps C CFG h fuel issue (locked id) St tt.
Proof.
  assert (PreOrder (fun d d' => locked id d -> locked id d')) by (split; [by intros ?|intros ? ? ?; auto]).
  apply (primitive_keeps C CFG h fuel issue _ (locked_primitive CFG h id Hmax)).
  intros d d' Hd Hdd. exact (Hdd Hd).
Qed.

(** A login updates two rows and is refused. *)
Lemma Login_locked rec pwd d :
  ur_Name rec = id -> (0 <= ur_MaxEnrollments rec)%Z -> locked id d ->
  exists e, (Accessor.Login (Accessor.newDBUser h rec) pwd d).1 = Err e.
Proof.
  intros Hid Hm [Hc _]. unfold Accessor.Login. cbn [Accessor.newDBUser Accessor.pass Accessor.du_maxEnrollments
    Accessor.du_state Accessor.du_db Accessor.name].
  destruct (negb (bool_decide _)); [by eexists|]. rewrite Z.geb_leb, (proj2 (Z.leb_le _ _) Hm).
  destruct (_ && _); [by eexists|]. unfold mbind, comp_bind, map_err. rewrite exec_Rebind, Hid.
  assert (Hup : forall d0, users d0 = users d -> Accessor.update_users h id
    (Accessor.set_state (wrap64 (ur_State rec + 1))) d0 = (Ok (Z.of_nat (rows_of id d)),
      set_users (update_where (Accessor.has_id id) (Accessor.set_state (wrap64 (ur_State rec + 1))) (users d0)) d0)).
  { intros d0 E. unfold Accessor.update_users. rewrite affected_matched by done.
    unfold count_where, rows_of. by rewrite E. }
  match goal with |- context [statement ?t ?f d] =>
    destruct (statement_cases t f d) as [(msg & fs & ->)|(fs & ->)] end; [by eexists|]. rewrite Hup by done.
  rewrite (proj2 (Z.eqb_neq _ 0)) by lia. rewrite (proj2 (Z.eqb_neq _ 1)) by lia. by eexists.
Qed.

Lemma serveHTTP_locked basic token r pwd :
  BasicAuth r = Some (id, pwd) ->
  follows (locked id) St (fun _ _ => False) (fun _ e => failing e = true)
    (Threads.serveHTTP C CFG R checkCRL basic token r) tt.
Proof.
  intros Hb. unfold Threads.serveHTTP. rewrite Ha. simpl negb. cbv iota. case_match; [done|].
  change (BasicAuth (HTTPRequestToString r).2) with (BasicAuth r). rewrite Hb. case_match; [done|].
  eapply follows_bind with (P := fun _ u => exists rec, u = Accessor.as_User (Accessor.newDBUser h rec)
    /\ ur_Name rec = id /\ (0 <= ur_MaxEnrollments rec)%Z).
  - apply follows_atom. intros d Hd. exists tt. split; [by apply (keep_GetUser _ _ _ _ _ _ _ _ locked_keeps)|].
    destruct (GetUser R id [] d) as [[u|e|p|p|] d'] eqn:E; try done; [|by eapply GetUser_errs, E].
    unfold R in E. cbn [GetUser accessor_registry] in E. unfold Accessor.GetUser, Accessor.checkDB in E.
    cbn [Accessor.db] in E. rewrite bind_mret in E.
    apply bind_ok_inv in E as (rec & d1 & Hq & E). injection E as <- <-. exists rec. split; [done|].
    rewrite exec_Rebind in Hq. destruct Hd as [_ Hd].
    assert (List.find (Accessor.has_id id) (users d) = Some rec) as [Hin Hid]%find_some.
    { match type of Hq with statement ?t ?f d = _ =>
        destruct (statement_cases t f d) as [(msg & fs & E)|(fs & E)] end; rewrite E in Hq; [done|].
      simpl in Hq. destruct (List.find _ _); [by simplify_eq|done]. }
    apply bool_decide_eq_true in Hid. split; [done|].
    rewrite Forall_forall in Hd. apply Hd; [by apply list_elem_of_In|done].
  - intros [] u (rec & -> & Hid & Hm). eapply follows_bind with (P := fun _ _ => False); [|done].
    apply follows_atom. intros d Hd. exists tt. split; [by apply (keep_Login _ _ _ _ _ _ _ _ locked_keeps)|].
    simpl. destruct (Login_locked rec pwd d Hid Hm Hd) as [e He]. rewrite He.
    destruct (Accessor.Login (Accessor.newDBUser h rec) pwd d) as [o d'] eqn:E. simpl in He. subst o.
    eapply (Login_errs h rec pwd), E.
Qed.

Lemma serve_locked root r :
  follows (srv_inv KeyDeriv root (locked id)) (srv_st KeyDeriv root St)
    (fun _ resp => forall pwd, BasicAuth r = Some (id, pwd) -> (400 <= status resp)%Z) (fun _ _ => True) (start r) tt.
Proof.
  destruct (BasicAuth r) as [[u p]|] eqn:Hb.
  2:{ eapply follows_mono; [| |apply serve_keeps]; try done; [apply locked_keeps]. }
  destruct (decide (u = id)) as [->|Hne].
  2:{ eapply follows_mono; [| |apply serve_keeps]; try done; [|apply locked_keeps].
      intros y resp _ pwd [= Hu _]. congruence. }
  unfold start, Threads.serve. destruct (List.find _ _) as [[path nx]|]; [|done].
  eapply follows_bind with (P := fun _ x => match x with inl e => failing e = true | inr _ => False end).
  - apply follows_attempt, onDB_follows. by eapply serveHTTP_locked.
  - intros [] [e|r'] He; [|done]. simpl. intros pwd _. pose proof (HandleError_status e He). lia.
Qed.

(** Nobody gets in with the name from then on. *)
Lemma locked_out s ts s'' ts'' :
  locked id (s_db s) -> cache_ok KeyDeriv (s_tree s) ->
  Forall (fun j => BasicAuth j.1 = None /\ exists resp, j.2 = Done (Ok resp)) ts ->
  rtc (pool_step start srv_env) (s, ts) (s'', ts'') ->
  forall r resp pwd, (r, Done (Ok resp)) ∈ ts'' -> BasicAuth r = Some (id, pwd) -> (400 <= status resp)%Z.
Proof.
  intros Hs Ht Hts Hrun. set (root := rootKey (s_tree s)).
  set (P := fun (r : Request) (resp : Response) => forall pwd, BasicAuth r = Some (id, pwd) -> (400 <= status resp)%Z).
  assert (PreOrder (fun _ _ : Srv Key => True)) by by split.
  destruct (pool_guarantee start srv_env (srv_inv KeyDeriv root (locked id)) (fun _ _ => True) P) with
    (c := (s, ts)) (c' := (s'', ts'')) as (_ & _ & Hall); try done.
  - intros r. eapply follows_conseq; [done| |apply (serve_locked root r)].
    intros [] w [] w' Hw [H1 H2]. done.
  - intros w w' [s1 t fs Hle] [H1 H2]. done.
  - simpl. eapply Forall_impl; [exact Hts|]. intros [r t] [Hb [resp Hj]]. simpl in *. subst t. simpl.
    intros pwd. congruence.
  - intros r resp pwd Hin Hb. rewrite Forall_forall in Hall. exact (Hall _ Hin pwd Hb).
Qed.
End lockout.

(** What has been added and answered, from the requests' effects. *)
Lemma effects_rows {Key} CFG id rs (es : list (Response * (Srv Key -> Srv Key))) :
  Forall2 (fun r e => registers_row CFG r e.1 e.2) rs es ->
  Forall (fun r => rr_User (json_Unmarshal dec_RegisterRequest (body r) zero_RegisterRequest).1 = id) rs ->
  exists us, Forall (fun u => ui_Name u = id) us /\ length us = length rs
    /\ (forall s, foldl (fun s e => e.2 s) s es
          = mkSrv (foldl (fun d u => add_user CFG u d) (s_db s) us) (s_tree s))
    /\ map fst es = map (fun u => SendResponse (bytes_json (bytes_of_string (ui_Pass u)))) us
    /\ Forall (fun u => String.length (ui_Pass u) = 12) us.
Proof.
  induction 1 as [|r [resp eff] rs es (req & tok & Hreq & Hlen & Hresp & Heff) _ IH]; intros Hid.
  { exists []. split; [done|]. split; [done|]. split; [by intros []|done]. }
  apply Forall_cons in Hid as [Hr Hid]. rewrite Hreq in Hr. simpl in *.
  destruct (IH Hid) as (us & H1 & H2 & H3 & H4 & H5).
  exists (mkUserInfo (rr_User req) tok (rr_Type req) (rr_Group req) (rr_Attributes req) :: us).
  split; [by constructor|]. split; [simpl; by rewrite H2|]. split; [|split; [simpl; by rewrite Hresp, H4|by constructor]].
  intros s. simpl. rewrite H3, Heff. done.
Qed.

Definition answers {Key} (rs : list Request) (toks : list string) : pool Request (Srv Key) Response :=
  zip_with (fun r tok => (r, Done (Ok (SendResponse (bytes_json (bytes_of_string tok)))))) rs toks.

Lemma rows_of_new id U rows :
  id ∉ map ur_Name U -> Forall (fun r => ur_Name r = id) rows ->
  length (List.filter (Accessor.has_id id) (U ++ rows)) = length rows.
Proof.
  intros HU Hrows. rewrite filter_app_List, length_app.
  assert (List.filter (Accessor.has_id id) U = []) as ->.
  { induction U as [|r U IH]; [done|]. cbn [map] in HU. apply not_elem_of_cons in HU as [Hne HU]. simpl.
    unfold Accessor.has_id at 1. rewrite bool_decide_false by congruence. by apply IH. }
  simpl. clear HU. induction Hrows as [|r rows Hr _ IH]; [done|]. simpl. unfold Accessor.has_id at 1.
  rewrite bool_decide_true by done. simpl. by rewrite IH.
Qed.

(** (C14) Concurrent registrations of one name: on SQLite and Postgres, whose
    users tables have no key, any number of admitted requests for a free name,
    each acceptable by itself, can all be answered with success and a secret of
    its own, leaving as many rows of the name. From two on, when the configured
    enrollment limit is not negative (a negative one exempts the user from the
    counting that fails), nobody can use the name: in every execution that
    follows, every request with its basic credentials, whatever the password, is
    answered with an error. *)
Theorem register_race {Key} (KeyDeriv : Key -> string -> outcome Key) SKI C CFG h fuel checkCRL
    {SR} (zero : SR) dec issue mgr_GetBatch resp_json s id rs :
  (forall req c, readonly (mgr_GetBatch req c)) ->
  driverName h <> "mysql" -> Authentication CFG = true ->
  db_inv (s_db s) -> cache_ok KeyDeriv (s_tree s) ->
  (forall pos, letters_within fuel (set_rnd_pos pos (s_db s))) ->
  id ∉ map ur_Name (users (s_db s)) ->
  Forall (fun r => exists req, register_ready C checkCRL id (s_db s) r req) rs ->
  let step := pool_step (Threads.serve KeyDeriv SKI C CFG (accessor_registry (Accessor.mkAccessor (Some h)))
         (Some (CertDBAccessor.NewCertDBAccessor (Some h))) checkCRL (db_RandomString fuel) zero dec issue
         mgr_GetBatch resp_json) srv_env in
  exists s' toks, length toks = length rs /\ Forall (fun tok => String.length tok = 12) toks
    /\ rtc step (s, []) (s', answers rs toks) /\ rows_of id (s_db s') = length rs
    /\ (2 <= length rs -> (0 <= MaxEnrollments CFG)%Z -> forall s'' ts'', rtc step (s', answers rs toks) (s'', ts'') ->
        forall r resp pwd, (r, Done (Ok resp)) ∈ ts'' -> BasicAuth r = Some (id, pwd) -> (400 <= status resp)%Z).
Proof.
  intros Hb Hm Ha Hd Ht Hl Hid Hrs step.
  assert (Hbasic : Forall (fun r => BasicAuth r = None) rs).
  { eapply Forall_impl; [exact Hrs|]. intros r (req & cert & Hta & _). apply Hta. }
  destruct (race_all (Threads.serve KeyDeriv SKI C CFG (accessor_registry (Accessor.mkAccessor (Some h)))
         (Some (CertDBAccessor.NewCertDBAccessor (Some h))) checkCRL (db_RandomString fuel) zero dec issue
         mgr_GetBatch resp_json) srv_env (fun s1 => exists pos, s1 = mkSrv (set_rnd_pos pos (s_db s)) (s_tree s))
    (fun r => exists req, register_ready C checkCRL id (s_db s) r req)
    (fun _ s1 => faults (s_db s1) = []) (registers_row CFG)) with (rs := rs) (w := s) as (w1 & es & [pos ->] & Hes & Hrun).
  - intros r w [req Hr] [pos ->].
    destruct (register_pauses KeyDeriv SKI C CFG h fuel checkCRL zero dec issue mgr_GetBatch resp_json Ha
      (mkSrv (set_rnd_pos pos (s_db s)) (s_tree s)) r id req Hm Hd (Hl pos) Hid Hr) as (pos' & resp & eff & Hrow & Hp).
    exists (mkSrv (set_rnd_pos pos' (s_db s)) (s_tree s)), resp, eff. split; [by exists pos'|]. split; [done|].
    eapply pauses_weaken; [|exact Hp]. by intros w2 [_ ?].
  - intros r _ v eff w (req & tok & _ & _ & _ & ->) Hw. exact Hw.
  - done.
  - exists (rnd_pos (s_db s)). destruct s as [[] ?]. done.
  - intros w1 [pos ->]. apply Hd.
  - assert (Hids : Forall (fun r => rr_User (json_Unmarshal dec_RegisterRequest (body r) zero_RegisterRequest).1 = id) rs).
    { eapply Forall_impl; [exact Hrs|]. intros r (req & cert & _ & -> & Hr & _). done. }
    destruct (effects_rows CFG id rs es Hes Hids) as (us & Hus & Hlen & Heff & Hans & Htok).
    destruct (add_users_rows CFG us (users (s_db s)) (set_rnd_pos pos (s_db s)) id Hus Hid [] (Forall_nil_2 _))
      as (rows & Hrows & Hn & Hall); [by rewrite app_nil_r|]. rewrite Heff in Hrun. cbn [s_db s_tree] in Hrun.
    set (s' := mkSrv _ _) in Hrun. exists s', (map ui_Pass us).
    assert (Hans' : zip_with (fun r e => (r, Done (Ok e.1))) rs es = answers (Key := Key) rs (map ui_Pass us)).
    { unfold answers. clear -Hans. revert es us Hans. induction rs as [|r rs IH]; intros es us Hans; [done|].
      destruct es as [|e es], us as [|u us]; simplify_eq/=; [done|]. f_equal; [congruence|by apply IH]. }
    rewrite Hans' in Hrun. split; [by rewrite length_map|]. split; [by apply Forall_fmap|]. split; [exact Hrun|].
    assert (Hcount : rows_of id (s_db s') = length rs).
    { unfold rows_of, s'. cbn [s_db]. rewrite Hrows, rows_of_new; [simpl in Hn; lia|done|].
      eapply Forall_impl; [exact Hall|]. by intros r [? _]. }
    split; [done|]. intros Htwo Hmax s'' ts'' Hrun2.
    assert (Hlock : locked id (s_db s')).
    { split; [lia|]. unfold s'. cbn [s_db]. rewrite Hrows. apply Forall_app. split.
      - apply Forall_forall. intros r Hr Hn'. destruct Hid. rewrite <- Hn'. by apply list_elem_of_In, in_map, list_elem_of_In.
      - eapply Forall_impl; [exact Hall|]. intros r [_ ->]. done. }
    eapply (locked_out KeyDeriv SKI C CFG h fuel checkCRL zero dec issue mgr_GetBatch resp_json Hb Ha Hmax Hm id
      s' (answers rs (map ui_Pass us))); [done|done| |exact Hrun2].
    unfold answers. clear -Hbasic. generalize (map ui_Pass us). induction Hbasic as [|r rs Hr _ IH]; intros [|t ts]; try done.
    simpl. constructor; [|apply IH]. simpl. eauto.
Qed.

Lemma carol_ready :
  register_ready toy_crypto (fun _ _ => (false, true)) "carol" revoke_db carol_req
    (mkRegisterRequest "carol" "bank_a" "client" [] "").
Proof.
  exists (toy_cert (RSAKey 7)). split; [split; try reflexivity; [done|by split]|].
  split; [vm_compute; reflexivity|]. split; [reflexivity|]. split; reflexivity.
Qed.

Lemma register_race_witness :
  exists s' toks, length toks = 2 /\ Forall (fun tok => String.length tok = 12) toks
    /\ rtc (pool_step (toy_start sqlite3) srv_env) (toy_srv, []) (s', answers [carol_req; carol_req] toks)
    /\ rows_of "carol" (s_db s') = 2
    /\ (2 <= 2 -> (0 <= MaxEnrollments newConfig)%Z -> forall s'' ts'',
        rtc (pool_step (toy_start sqlite3) srv_env) (s', answers [carol_req; carol_req] toks) (s'', ts'') ->
        forall r resp pwd, (r, Done (Ok resp)) ∈ ts'' -> BasicAuth r = Some ("carol", pwd) -> (400 <= status resp)%Z).
Proof.
  apply (register_race toy_deriv (fun k => bytes_of_string (Join k "/")) toy_crypto newConfig sqlite3 12
    (fun _ _ => (false, true)) "" toy_sign_dec toy_issue toy_batch (fun _ => JNull) toy_srv "carol"
    [carol_req; carol_req]).
  - intros req c. apply GetBatch_readonly; intros; apply readonly_ret.
  - done.
  - reflexivity.
  - apply revoke_db_inv.
  - intros k key Hk. simpl in Hk. by rewrite lookup_empty in Hk.
  - intros pos. unfold letters_within. vm_compute. lia.
  - apply (bool_decide_unpack _). vm_compute. exact I.
  - repeat constructor; (exists (mkRegisterRequest "carol" "bank_a" "client" [] ""); exact carol_ready).
Defined.
