(* ===== verification/EnrollRace.v ===== *)
(** * Enrollments that overtake each other (src/cli/server/auth.go, dbaccessor.go)

    A login is two statements made by different calls: [GetUser] reads the
    row, and [Login], on the object it returned, writes the counter computed
    from what was read.  Enrollments that all read before the first writes
    are all granted, and counted as one. *)

From S2P Require Import Prelude GoStrings GoFmt GoJson CopError Base64 Http Registry GoUrl GoUnmarshal Token Database DbAccessor CertDB Util Config Register Auth Handlers TCertUtil KeyTree TCert Server Client ClientServer Interleave Concurrent Protocol Races.

Section enroll.
Context {Key : Type} (KeyDeriv : Key -> string -> outcome Key) (SKI : Key -> bytes).
Context (C : Crypto) (CFG : Config) (h : DBHandle) (fuel : nat).
Context (checkCRL : Certificate -> string -> bool * bool).
Context {SR : Type} (zero : SR) (dec : decoder SR) (issue : SR -> outcome (bytes * CertificateRecord)).
Context (mgr_GetBatch : GetBatchRequest -> Certificate -> comp (Srv Key) GetBatchResponse).
Context (resp_json : GetBatchResponse -> json).
Let R := accessor_registry (Accessor.mkAccessor (Some h)).
Let a := CertDBAccessor.NewCertDBAccessor (Some h).
Let start := Threads.serve KeyDeriv SKI C CFG R (Some a) checkCRL (db_RandomString fuel) zero dec issue
               mgr_GetBatch resp_json.
Hypothesis Ha : Authentication CFG = true.
Context (id pwd : string) (rec : UserRecord) (v : UserView).
Hypothesis Hmy : driverName h <> "mysql".
Hypothesis Hlogin : spec_login (row_view rec) pwd = Some v.

(** A request to enroll with these credentials, the certificate the signer
    makes for it and the row that is stored. *)
Definition enroll_ready (r : Request) (cert : bytes) (row : CertRecord) : Prop :=
  URL r = wrappedPath "enroll" /\ Method r = "POST" /\ body_err r = None /\ authorization r <> ""
  /\ BasicAuth r = Some (id, pwd)
  /\ exists req cr cid, json_Unmarshal dec (body r) zero = (req, None) /\ issue req = Ok (cert, cr)
     /\ GetEnrollmentIDFromPEM C (bytes_of_string (cr_PEM cr)) = Ok cid /\ row = stored cid cr.

(** The database after the login of an object read earlier. *)
Definition login_effect (d : DB) : DB :=
  if (ur_MaxEnrollments rec <? 0)%Z then d
  else set_users (update_where (Accessor.has_id (ur_Name rec)) (Accessor.set_state (uv_state v)) (users d)) d.

Definition enroll_effect (row : CertRecord) (d : DB) : DB :=
  set_certificates (certificates d ++ [row]) (login_effect d).

(** The states in which the enrollments [rest], each with its row, can go on. *)
Definition can_enroll (rest : list CertRecord) (d : DB) : Prop :=
  db_inv d /\ ur_Name rec ∈ map ur_Name (users d) /\ NoDup (map cert_key (certificates d ++ rest)).

Lemma login_effect_inv d :
  db_inv d -> ur_Name rec ∈ map ur_Name (users d) ->
  db_inv (login_effect d) /\ ur_Name rec ∈ map ur_Name (users (login_effect d)).
Proof.
  intros Hd Hin. unfold login_effect. case_match; [done|]. split; [by apply db_inv_update|].
  simpl. by rewrite update_where_map.
Qed.

Lemma login_effect_certificates d : certificates (login_effect d) = certificates d.
Proof. unfold login_effect. by case_match. Qed.

Lemma can_enroll_next row rest d : can_enroll (row :: rest) d -> can_enroll rest (enroll_effect row d).
Proof.
  intros (Hd & Hin & Hn). destruct (login_effect_inv d Hd Hin) as [H1 H2]. split; [exact H1|]. split; [exact H2|].
  unfold enroll_effect. simpl. by rewrite <- app_assoc.
Qed.

(** What is left of a request after its look-up. *)
Lemma sign_rest r cert row d :
  enroll_ready r cert row -> faults d = [] ->
  existsb (has_cert (cr_Serial (c_rec row)) (cr_AKI (c_rec row))) (certificates d) = false ->
  advances (Threads.HTTPHandler ["POST"] (Threads.signHandler_Handle C (Some a) zero dec issue "enroll")
              (set_eid id (HTTPRequestToString r).2)) d
    (Done (Ok (SendResponse (bytes_json cert)))) (set_certificates (certificates d ++ [row]) d).
Proof.
  intros (Hu & Hm & Hb & Hh & Hba & req & cr & cid & Hreq & Hi & Hcid & ->) Hf Hk.
  eapply adv_comp; [apply HTTPHandler_run, sign_thread_run|].
  exact (signHandler_run C a h zero dec issue eq_refl "enroll" (set_eid id (HTTPRequestToString r).2) d req cert cr cid
    Hm eq_refl Hreq Hi Hf Hcid Hk).
Qed.

Lemma enroll_pauses r cert row s :
  enroll_ready r cert row -> db_inv (s_db s) ->
  List.find (Accessor.has_id id) (users (s_db s)) = Some rec ->
  pauses (start r) s s (fun s2 => exists rest, can_enroll (row :: rest) (s_db s2))
    (Ok (SendResponse (bytes_json cert))) (fun s2 => mkSrv (enroll_effect row (s_db s2)) (s_tree s2)).
Proof.
  intros Hr Hd Hf. pose proof Hr as (Hu & Hm & Hb & Hh & Hba & _).
  unfold start, R, a. rewrite (serve_endpoint KeyDeriv SKI C CFG h fuel checkCRL zero dec issue mgr_GetBatch
    resp_json "enroll" _ r (list_elem_of_further _ _ _ (list_elem_of_here _ _)) Hu).
  assert (Hauth : pauses (Threads.serveHTTP C CFG R checkCRL true false r) (s_db s) (s_db s)
    (fun d2 => exists rest, can_enroll (row :: rest) d2) (Ok (set_eid id (HTTPRequestToString r).2)) login_effect).
  { unfold Threads.serveHTTP. rewrite Ha. cbn [negb]. rewrite bool_decide_false by done.
    change (BasicAuth (HTTPRequestToString r).2) with (BasicAuth r). rewrite Hba.
    apply (pauses_after _ _ _ (Accessor.as_User (Accessor.newDBUser h rec)) (s_db s)).
    { apply adv_atom. unfold R. cbn [GetUser accessor_registry]. rewrite GetUser_run by apply Hd. by rewrite Hf. }
    apply pauses_here. intros d2 (rest & Hd2 & Hin & _). eapply adv_bind_ok; [|apply adv_refl].
    apply adv_atom. exact (Login_run h d2 rec pwd v Hd2 Hin (or_introl Hmy) Hlogin). }
  apply (pauses_onDB _ s) in Hauth. destruct s as [d tr]. cbn [s_db s_tree] in *.
  eapply pauses_go; [eapply pauses_then; [exact Hauth|reflexivity]|].
  intros [d2 tr2] (rest & Hd2 & Hin & Hn). cbn [s_db s_tree] in *.
  apply (adv_onDB _ (Done _) _ (mkSrv (login_effect d2) tr2)). cbn [s_db].
  unfold enroll_effect. rewrite <- login_effect_certificates. apply (sign_rest r cert row); [done| |].
  - by destruct (login_effect_inv d2 Hd2 Hin) as [[? _] _].
  - rewrite login_effect_certificates. rewrite map_app in Hn. apply NoDup_app in Hn as (_ & Hn & _).
    apply not_true_iff_false. intros (r0 & Hin0 & Hk)%existsb_exists. rewrite has_cert_key in Hk.
    apply bool_decide_eq_true in Hk. apply (Hn (cert_key r0)); [by apply list_elem_of_In, in_map|].
    rewrite Hk. apply list_elem_of_here.
Qed.
End enroll.

(** What the login does to the user, from the row read or from its result. *)
Lemma login_effect_view rec pwd v d w :
  spec_login (row_view rec) pwd = Some v -> w = row_view rec \/ w = v ->
  users_view (users d) !! ur_Name rec = Some w ->
  users_view (users (login_effect rec v d)) !! ur_Name rec = Some v.
Proof.
  intros Hs Hw Hl. destruct (spec_login_Some _ _ _ Hs) as [Hv Hneg]. unfold login_effect.
  destruct (Z.ltb_spec (ur_MaxEnrollments rec) 0).
  - rewrite Hl. destruct Hw as [->| ->]; [|done]. by rewrite (Hneg ltac:(done)).
  - cbn [users set_users]. rewrite (users_view_update _ _ _ (set_uv_state (uv_state v))) by done.
    rewrite lookup_alter_eq, Hl. simpl. f_equal. destruct Hw as [->| ->]; [by rewrite <- Hv|by destruct v].
Qed.

Lemma enroll_effects_view rec pwd v rows d w :
  spec_login (row_view rec) pwd = Some v -> w = row_view rec \/ w = v ->
  users_view (users d) !! ur_Name rec = Some w ->
  let d' := foldl (fun d row => enroll_effect rec v row d) d rows in
  certificates d' = certificates d ++ rows
  /\ users_view (users d') !! ur_Name rec = Some (if decide (rows = []) then w else v).
Proof.
  intros Hs. revert d w. induction rows as [|row rows IH]; intros d w Hw Hl; simpl; [by rewrite app_nil_r|].
  pose proof (login_effect_view rec pwd v d w Hs Hw Hl) as Hl'.
  destruct (IH (enroll_effect rec v row d) v (or_intror eq_refl) Hl') as [H1 H2]. split.
  - rewrite H1. unfold enroll_effect. simpl. by rewrite <- app_assoc.
  - rewrite H2. by case_decide.
Qed.

(** The answer and the row are those the signer makes for the request. *)
Lemma enroll_ready_det C {SR} (zero : SR) dec issue id pwd r c1 w1 c2 w2 :
  enroll_ready C zero dec issue id pwd r c1 w1 -> enroll_ready C zero dec issue id pwd r c2 w2 ->
  c1 = c2 /\ w1 = w2.
Proof.
  intros (_ & _ & _ & _ & _ & q1 & cr1 & i1 & Hq1 & Hi1 & Hc1 & ->)
    (_ & _ & _ & _ & _ & q2 & cr2 & i2 & Hq2 & Hi2 & Hc2 & ->).
  rewrite Hq1 in Hq2. injection Hq2 as <-. rewrite Hi1 in Hi2. injection Hi2 as <- <-. split; congruence.
Qed.

(** What a request that goes on after its look-up answers and does. *)
Definition enrolls {Key} C {SR} (zero : SR) dec issue id pwd rec v (r : Request) (resp : Response)
    (eff : Srv Key -> Srv Key) : Prop :=
  exists cert row, enroll_ready C zero dec issue id pwd r cert row
    /\ resp = SendResponse (bytes_json cert)
    /\ forall s, eff s = mkSrv (enroll_effect rec v row (s_db s)) (s_tree s).

Lemma enrolls_all {Key} C {SR} (zero : SR) dec issue id pwd rec v rs certs rows
    (es : list (Response * (Srv Key -> Srv Key))) :
  Forall3 (enroll_ready C zero dec issue id pwd) rs certs rows ->
  Forall2 (fun r e => enrolls C zero dec issue id pwd rec v r e.1 e.2) rs es ->
  (forall s, foldl (fun s e => e.2 s) s es
     = mkSrv (foldl (fun d row => enroll_effect rec v row d) (s_db s) rows) (s_tree s))
  /\ zip_with (fun r e => (r, Done (Ok e.1))) rs es
     = zip_with (fun r cert => (r, Done (W := Srv Key) (Ok (SendResponse (bytes_json cert))))) rs certs.
Proof.
  intros Hrs. revert es. induction Hrs as [|r cert row rs certs rows Hr Hrs IH]; intros es Hes.
  { apply Forall2_nil_inv_l in Hes as ->. split; [by intros []|done]. }
  apply Forall2_cons_inv_l in Hes as ([resp eff] & es' & (c2 & row2 & Hr2 & Hresp & Heff) & Hes & ->).
  destruct (enroll_ready_det _ _ _ _ _ _ _ _ _ _ _ Hr Hr2) as [<- <-]. simpl in *.
  destruct (IH es' Hes) as [H1 H2]. split; [intros s; by rewrite H1, Heff|]. by rewrite Hresp, H2.
Qed.

(** The requests that have still to go on, with rows that do not collide. *)
Definition enrolling {Key} C {SR} (zero : SR) dec issue id pwd rec (rest : list Request) (s : Srv Key) : Prop :=
  exists rows, Forall2 (fun r row => exists cert, enroll_ready C zero dec issue id pwd r cert row) rest rows
    /\ can_enroll rec rows (s_db s).

Lemma enrolling_cons {Key} C {SR} (zero : SR) dec issue id pwd rec r rest (s : Srv Key) cert row :
  enroll_ready C zero dec issue id pwd r cert row -> enrolling C zero dec issue id pwd rec (r :: rest) s ->
  exists rows, Forall2 (fun r row => exists cert, enroll_ready C zero dec issue id pwd r cert row) rest rows
    /\ can_enroll rec (row :: rows) (s_db s).
Proof.
  intros Hr (rows2 & H2 & Hc). apply Forall2_cons_inv_l in H2 as (row2 & rows3 & [c2 Hr2] & H3 & ->).
  destruct (enroll_ready_det _ _ _ _ _ _ _ _ _ _ _ Hr Hr2) as [_ <-]. by exists rows3.
Qed.

(** (C13) On SQLite and Postgres the enrollment limit does not hold under
    concurrency: for a user that may enroll once more, any number of
    enrollments with its credentials, for which the signer makes different
    certificates, can all be answered with their certificates, all of them
    recorded, and leave the user as one enrollment does.  (On MySQL a login
    that writes the counter another one has just written affects no row and
    is refused.) *)
Theorem enroll_race {Key} (KeyDeriv : Key -> string -> outcome Key) SKI C CFG h fuel checkCRL
    {SR} (zero : SR) dec issue mgr_GetBatch resp_json s id pwd u v rs certs rows :
  driverName h <> "mysql" -> Authentication CFG = true -> db_inv (s_db s) ->
  rv_users (db_view (s_db s)) !! id = Some u -> spec_login u pwd = Some v ->
  Forall3 (enroll_ready C zero dec issue id pwd) rs certs rows ->
  NoDup (map cert_key (certificates (s_db s) ++ rows)) -> rs <> [] ->
  exists s', rtc (pool_step (Threads.serve KeyDeriv SKI C CFG (accessor_registry (Accessor.mkAccessor (Some h)))
         (Some (CertDBAccessor.NewCertDBAccessor (Some h))) checkCRL (db_RandomString fuel) zero dec issue
         mgr_GetBatch resp_json) srv_env) (s, [])
       (s', zip_with (fun r cert => (r, Done (Ok (SendResponse (bytes_json cert))))) rs certs)
    /\ certificates (s_db s') = certificates (s_db s) ++ rows
    /\ rv_users (db_view (s_db s')) !! id = Some v.
Proof.
  intros Hmy Ha Hd Hu Hs Hrs Hn Hne. simpl in Hu. rewrite users_view_lookup in Hu.
  destruct (List.find (Accessor.has_id id) (users (s_db s))) as [rec|] eqn:Hf; [|done].
  injection Hu as <-. pose proof (find_has_id _ _ _ Hf) as [Hid Hin].
  destruct (race_all (Threads.serve KeyDeriv SKI C CFG (accessor_registry (Accessor.mkAccessor (Some h)))
         (Some (CertDBAccessor.NewCertDBAccessor (Some h))) checkCRL (db_RandomString fuel) zero dec issue
         mgr_GetBatch resp_json) srv_env (fun s1 => s1 = s)
    (fun r => exists cert row, enroll_ready C zero dec issue id pwd r cert row)
    (enrolling C zero dec issue id pwd rec) (enrolls C zero dec issue id pwd rec v))
    with (rs := rs) (w := s) as (w1 & es & -> & Hes & Hrun).
  - intros r w (cert & row & Hr) ->.
    exists s, (SendResponse (bytes_json cert)), (fun s2 => mkSrv (enroll_effect rec v row (s_db s2)) (s_tree s2)).
    split; [done|]. split; [by exists cert, row|]. eapply pauses_weaken; [|by eapply enroll_pauses].
    intros w2 (rest & Hrest). destruct (enrolling_cons _ _ _ _ _ _ _ _ _ _ _ _ Hr Hrest) as (rows2 & _ & Hc).
    by exists rows2.
  - intros r rest resp eff w (cert & row & Hr & _ & Heff) Hrest. rewrite Heff.
    destruct (enrolling_cons _ _ _ _ _ _ _ _ _ _ _ _ Hr Hrest) as (rows2 & H2 & Hc). exists rows2.
    split; [done|]. by apply can_enroll_next.
  - clear -Hrs. induction Hrs; constructor; eauto.
  - done.
  - intros w1 ->. exists rows. split; [clear -Hrs; induction Hrs; constructor; eauto|].
    split; [done|]. split; [by apply list_elem_of_In, in_map|done].
  - destruct (enrolls_all C zero dec issue id pwd rec v rs certs rows es Hrs Hes) as [Hfold Hz].
    rewrite Hz, Hfold in Hrun. eexists. split; [exact Hrun|]. cbn [s_db].
    destruct (enroll_effects_view rec pwd v rows (s_db s) (row_view rec) Hs (or_introl eq_refl)) as [H1 H2].
    { by rewrite users_view_lookup, Hid, Hf. }
    split; [exact H1|]. simpl. rewrite <- Hid, H2. destruct rows; [|done]. by inversion Hrs; subst.
Qed.

(** A user with one enrollment, and a signer that numbers its certificates
    after the requests. *)
Definition once_db : DB :=
  mkDB [Accessor.set_max 1 (Accessor.new_record (mkUserInfo "bob" "bobpw" "client" "" []))]
    [] [] 9 (fun _ => 0%Z) 0 [].

Definition numbered_issue (csr : string) : outcome (bytes * CertificateRecord) :=
  Ok ([x01], sample_cert csr).

Definition bob_enroll (csr : string) : Request :=
  mkRequest "POST" "/api/v1/cfssl/enroll" (SetBasicAuth "bob" "bobpw") ""
    (json_print (JObj [("certificate_request", JStr csr)])) None.

Lemma bob_enroll_ready csr :
  csr ∈ ["1"; "2"; "3"] ->
  enroll_ready toy_crypto "" toy_sign_dec numbered_issue "bob" "bobpw" (bob_enroll csr) [x01]
    (stored "admin" (sample_cert csr)).
Proof.
  intros Hcsr. do 4 (split; [done|]). split; [reflexivity|]. exists csr, (sample_cert csr), "admin".
  split; [|done]. set_unfold. destruct Hcsr as [->|[->|[->|[]]]]; vm_compute; reflexivity.
Qed.

Lemma enroll_race_witness :
  exists s', rtc (pool_step (Threads.serve toy_deriv (fun k => bytes_of_string (Join k "/")) toy_crypto newConfig
         (accessor_registry (Accessor.mkAccessor (Some sqlite3)))
         (Some (CertDBAccessor.NewCertDBAccessor (Some sqlite3))) (fun _ _ => (false, true)) (db_RandomString 12)
         "" toy_sign_dec numbered_issue toy_batch (fun _ => JNull)) srv_env) (mkSrv once_db (NewKeyTree []), [])
       (s', zip_with (fun r cert => (r, Done (Ok (SendResponse (bytes_json cert)))))
              (map bob_enroll ["1"; "2"; "3"]) [[x01]; [x01]; [x01]])
    /\ certificates (s_db s') = [] ++ map (fun n => stored "admin" (sample_cert n)) ["1"; "2"; "3"]
    /\ rv_users (db_view (s_db s')) !! "bob" = Some (mkUserView (mkUserInfo "bob" "bobpw" "client" "" []) 1 1).
Proof.
  apply (enroll_race toy_deriv (fun k => bytes_of_string (Join k "/")) toy_crypto newConfig sqlite3 12
    (fun _ _ => (false, true)) "" toy_sign_dec numbered_issue toy_batch (fun _ => JNull)
    (mkSrv once_db (NewKeyTree [])) "bob" "bobpw" (mkUserView (mkUserInfo "bob" "bobpw" "client" "" []) 0 1)).
  - done.
  - reflexivity.
  - split; [done|]. split; [apply NoDup_singleton|apply NoDup_nil_2].
  - vm_compute. reflexivity.
  - vm_compute. reflexivity.
  - repeat constructor; apply bob_enroll_ready; set_solver.
  - apply (bool_decide_unpack _). vm_compute. exact I.
  - done.
Defined.
