(* ===== verification/Revocation.v ===== *)
(** * Revocation, end to end

    What a client's [Revoke] and [RevokeSelf] do to the server's database:
    the revocation as a partial function on the users and the certificates,
    and the theorem that a client with an accepted token gets exactly that,
    through the JSON of the request, the network, the authentication wrapper
    and the handler. *)

From S2P Require Import Prelude GoStrings GoFmt GoJson CopError Base64 Http Registry GoUrl GoUnmarshal Token Database DbAccessor CertDB Util Config Register Auth Handlers TCertUtil KeyTree TCert Server Client ClientServer.

(** ** The request in JSON *)

Lemma digit_sign d (t : string) : is_digit d = true ->
  match String d t with String "-" t => (true, t) | String "+" t => (false, t) | _ => (false, String d t) end
  = (false, String d t).
Proof. destruct d as [[] [] [] [] [] [] [] []]; try discriminate; reflexivity. Qed.

Lemma Atoi_Itoa z : (- 2 ^ 63 <= z < 2 ^ 63)%Z -> Atoi (Itoa z) = Some z.
Proof.
  intros Hz. destruct (Itoa_cases z) as [E|[[Hp E]|[Hn E]]].
  - assert (z = 0)%Z as -> by (by apply Itoa_inj). done.
  - rewrite E. destruct (pretty_N_go_head (Z.to_N z) "") as (d & t & Ed & Hd & _ & _); [lia|].
    pose proof (read_digits_pretty (Z.to_N z) "") as Hr. rewrite Ed in Hr |- *. unfold Atoi.
    rewrite (digit_sign d (t +:+ "") Hd). cbv iota beta. rewrite Hr. cbn -[Z.pow Z.leb Z.ltb].
    rewrite Z2N.id by lia. by rewrite (proj2 (Z.leb_le _ _)), (proj2 (Z.ltb_lt _ _)) by lia.
  - rewrite E. pose proof (read_digits_pretty (Z.to_N (- z)) "") as Hr.
    destruct (pretty_N_go_head (Z.to_N (- z)) "") as (d & t & Ed & _); [lia|]. rewrite Ed in Hr |- *.
    unfold Atoi. cbv iota beta. rewrite Hr. cbn -[Z.pow Z.leb Z.ltb].
    rewrite Z2N.id by lia. rewrite Z.opp_involutive. by rewrite (proj2 (Z.leb_le _ _)), (proj2 (Z.ltb_lt _ _)) by lia.
Qed.

(** A marshalled request is read back. *)
Lemma decode_RevocationRequest req :
  (- 2 ^ 63 <= rv_Reason req < 2 ^ 63)%Z ->
  json_Unmarshal dec_RevocationRequest (json_print (RevocationRequest_json req)) zero_RevocationRequest = (req, None).
Proof.
  intros Hr. destruct req as [n s k reason]. cbn [rv_Reason] in Hr. unfold json_Unmarshal. rewrite json_parse_print.
  - unfold RevocationRequest_json, omit_str. cbn [rv_Name rv_Serial rv_AKI rv_Reason].
    destruct (Z.eqb_spec reason 0) as [->|Hne]; repeat case_bool_decide; subst; try reflexivity;
      lazy -[Atoi Itoa]; rewrite Atoi_Itoa by done; reflexivity.
  - unfold RevocationRequest_json, omit_str. cbn [rv_Name rv_Serial rv_AKI rv_Reason].
    pose proof (Itoa_wf reason) as Hw. cbn [json_wf] in Hw.
    destruct (reason =? 0)%Z; repeat case_bool_decide; cbn [json_wf forallb app]; rewrite ?Hw; reflexivity.
Qed.

(** ** The specification *)

(** The revocation [req] by [caller] at time [t], with driver [h]: what becomes
    of the users and of the certificates, if it is granted. *)
Definition spec_revoke (h : DBHandle) (V : RegistryView) (certs : list CertRecord) (t : Z) (caller : string) (req : RevocationRequest)
    : option (RegistryView * list CertRecord) :=
  if bool_decide (view_attr V caller "hf.Revoker" = "") then None
  else if negb (bool_decide (rv_Serial req = "")) && negb (bool_decide (rv_AKI req = "")) then
    if existsb (revocable h t (rv_Reason req) (rv_Serial req) (rv_AKI req)) certs
    then Some (V, update_where (has_cert (rv_Serial req) (rv_AKI req)) (mark_revoked t (rv_Reason req)) certs)
    else None
  else if bool_decide (rv_Name req = "") then None
  else v ← rv_users V !! rv_Name req;
       Some (mkRegistryView (<[rv_Name req := set_uv_state (-1) v]> (rv_users V)) (rv_groups V),
             update_where (CertDBAccessor.live_of (rv_Name req)) (mark_revoked t (rv_Reason req)) certs).

Section revocation.
Context (C : Crypto) (h : DBHandle).
Notation R := (accessor_registry (Accessor.mkAccessor (Some h))).
Notation a := (CertDBAccessor.NewCertDBAccessor (Some h)).

Lemma revoke_serial_run d req :
  db_inv d -> cert_inv d -> rv_Serial req <> "" -> rv_AKI req <> "" ->
  if existsb (revocable h (now d) (rv_Reason req) (rv_Serial req) (rv_AKI req)) (certificates d)
  then revoke_request R (Some a) req d = (Ok (SendResponse (JObj [])),
         set_certificates (update_where (has_cert (rv_Serial req) (rv_AKI req)) (mark_revoked (now d) (rv_Reason req)) (certificates d)) d)
  else exists e, revoke_request R (Some a) req d = (Ok (notFound e), d).
Proof.
  intros Hd Hc Hs Hk. unfold revoke_request.
  rewrite (bool_decide_false (rv_Serial req = "")), (bool_decide_false (rv_AKI req = "")) by done. cbn [negb andb deref].
  pose proof (RevokeCertificate_revocable a h d (rv_Serial req) (rv_AKI req) (rv_Reason req)
    (conj eq_refl eq_refl) (proj1 Hd) Hc) as Hrun.
  destruct (existsb _ _); [by rewrite (bind_attempt_ok _ _ _ _ _ Hrun)|].
  eexists. by rewrite (bind_attempt_err _ _ _ _ _ Hrun).
Qed.

Lemma revoke_request_name req d :
  rv_Serial req = "" \/ rv_AKI req = "" ->
  revoke_request R (Some a) req d = revoke_request R (Some a) (mkRevocationRequest (rv_Name req) "" "" (rv_Reason req)) d.
Proof.
  intros Hreq. unfold revoke_request. cbn [rv_Serial rv_AKI rv_Name rv_Reason].
  assert (negb (bool_decide (rv_Serial req = "")) && negb (bool_decide (rv_AKI req = "")) = false) as ->; [|done].
  destruct Hreq as [E|E]; rewrite E; [done|]. apply andb_false_r.
Qed.

Lemma revoke_missing_run d name reason :
  db_inv d -> name = "" \/ rv_users (db_view d) !! name = None ->
  exists resp, revoke_request R (Some a) (mkRevocationRequest name "" "" reason) d = (Ok resp, d) /\ (400 <= status resp)%Z.
Proof.
  intros Hd Hn. unfold revoke_request. cbn [rv_Serial rv_AKI rv_Name rv_Reason].
  rewrite (bool_decide_true ("" = "")) by done. cbn [negb andb].
  case_bool_decide as E; cbn [negb]; [eexists; split; [reflexivity|simpl; lia]|].
  destruct Hn as [?|Hn]; [done|].
  destruct (@law_GetUser_missing _ R (accessor_laws h) d name [] Hd Hn) as [e He].
  rewrite (bind_attempt_err _ _ _ _ _ He). eexists. split; [reflexivity|simpl; lia].
Qed.

(** The handler, for a verified token. *)
Lemma revoke_handler_refines r d cert req :
  db_inv d -> cert_inv d -> Method r = "POST" -> body_err r = None -> authorization r <> "" ->
  body r = json_print (RevocationRequest_json req) -> (- 2 ^ 63 <= rv_Reason req < 2 ^ 63)%Z ->
  VerifyToken C (authorization r) (bytes_of_string (body r)) = Ok cert ->
  match spec_revoke h (db_view d) (certificates d) (now d) (CommonName cert) req with
  | Some (V', certs') => exists d', NewRevokeHandler C R (Some a) r d = (Ok (SendResponse (JObj [])), d')
      /\ db_inv d' /\ db_view d' = V' /\ certificates d' = certs'
  | None => exists resp, NewRevokeHandler C R (Some a) r d = (Ok resp, d) /\ (400 <= status resp)%Z
  end.
Proof.
  intros Hd Hc Hm He Hne Hb Hr Hv. unfold NewRevokeHandler. rewrite HTTPHandler_post, revokeHandler_run by done.
  rewrite Hv, Hb, decode_RevocationRequest by done.
  pose proof (userHasAttribute_run h d (CommonName cert) "hf.Revoker" Hd) as Ha. unfold spec_revoke.
  case_bool_decide as Hattr.
  { destruct Ha as [e ->]. eexists. split; [reflexivity|simpl; lia]. }
  rewrite Ha. destruct (negb _ && negb _) eqn:Ek.
  - apply andb_prop in Ek as [Hs Hk]. apply negb_true_iff, bool_decide_eq_false in Hs, Hk.
    pose proof (revoke_serial_run d req Hd Hc Hs Hk) as Hrun. destruct (existsb _ _).
    + rewrite Hrun. eexists. split; [reflexivity|]. by destruct d.
    + destruct Hrun as [e ->]. eexists. split; [reflexivity|simpl; lia].
  - assert (Hreq : rv_Serial req = "" \/ rv_AKI req = "")
      by (apply andb_false_iff in Ek as [E|E]; apply negb_false_iff, bool_decide_eq_true in E; auto).
    clear Ek. rewrite (revoke_request_name req d Hreq). case_bool_decide as Hn.
    { destruct (revoke_missing_run d (rv_Name req) (rv_Reason req) Hd (or_introl Hn)) as (resp & -> & Hst). by exists resp. }
    destruct (rv_users (db_view d) !! rv_Name req) as [v|] eqn:Eu; simpl.
    + destruct (revoke_name_run h d (rv_Name req) (rv_Reason req) v Hd Hn Eu) as (d' & -> & Hi & _ & Hvw & Hcs). by exists d'.
    + destruct (revoke_missing_run d (rv_Name req) (rv_Reason req) Hd (or_intror Eu)) as (resp & -> & Hst). by exists resp.
Qed.
End revocation.

(** ** The identity's own certificate *)

Lemma Itoa_nonempty z : Itoa z <> "".
Proof.
  destruct (Itoa_cases z) as [E|[[Hp E]|[Hn E]]]; rewrite E; try done.
  destruct (pretty_N_go_head (Z.to_N z) "") as (d & t & Ed & _); [lia|]. by rewrite Ed.
Qed.

Lemma EncodeToString_nonempty b : b <> [] -> EncodeToString b <> "".
Proof.
  destruct b as [|x b]; [done|]. intros _. unfold EncodeToString. simpl. by destruct b.
Qed.

Lemma GetSerial_own C client name key der cert :
  GetX509CertificateFromPEM C der = Ok cert ->
  GetSerial C (s_Verifier (t_Signer (i_PublicSigner (newIdentity client name (Some key) (Some der)))))
    = Ok (Itoa (SerialNumber cert), EncodeToString (AuthorityKeyId cert)).
Proof.
  intros H. unfold GetSerial, GetX509Cert. cbn. unfold GetX509CertificateFromPEM in H.
  destruct (pem_Decode C der) as [block|]; [|done]. by destruct (ParseCertificate C block) eqn:E; simplify_eq/=.
Qed.

(** ** The client *)

Section end_to_end.
Context {Key : Type} (KeyDeriv : Key -> string -> outcome Key) (SKI : Key -> bytes).
Context (C : Crypto) `{!CryptoLaws C} (CFG : Config) (hd : DBHandle) (fuel : nat).
Context (checkCRL : Certificate -> string -> bool * bool).
Context {SR : Type} (zero : SR) (dec : decoder SR) (issue : SR -> outcome (bytes * CertificateRecord)).
Context (mgr_GetBatch : GetBatchRequest -> Certificate -> comp (Srv Key) GetBatchResponse).
Context (resp_json : GetBatchResponse -> json).
Notation R := (accessor_registry (Accessor.mkAccessor (Some hd))).
Notation a := (CertDBAccessor.NewCertDBAccessor (Some hd)).
Let listening := serve KeyDeriv SKI C CFG R (Some a) checkCRL (db_RandomString fuel) zero dec issue mgr_GetBatch resp_json.

Context (files : string -> option bytes) (pair : string -> string -> option (string * string)).
Context (roots : bytes -> bool) (h p : string) (z : Z) (home : string).
Hypothesis Hh : all_chars host_char h = true.
Hypothesis Hp : all_digits p = true.
Hypothesis Hz : Atoi p = Some z.
Let addr : string := h +:+ String ":" p.
Let c : Client := mkClient ("http://" +:+ addr) home.
Let Do := deliver listening addr.

Lemma serve_revoke r s :
  URL r = "/api/v1/cfssl/revoke" ->
  listening r s = ServeHTTP C CFG R checkCRL onDB
    (mkCopAuthHandler false true (fun r => onDB (NewRevokeHandler C R (Some a) r))) r s.
Proof. intros Hu. unfold listening, serve. by rewrite Hu. Qed.

(** The revoke endpoint as the network sees it, for an admitted token. *)
Lemma revoke_served r s req cert der sig :
  Authentication CFG = true -> URL r = "/api/v1/cfssl/revoke" -> Method r = "POST" ->
  body r = json_print (RevocationRequest_json req) -> (- 2 ^ 63 <= rv_Reason req < 2 ^ 63)%Z ->
  authorization r = B64Encode der +:+ "." +:+ B64Encode sig ->
  VerifyToken C (authorization r) (bytes_of_string (body r)) = Ok cert -> current checkCRL (s_db s) cert ->
  db_inv (s_db s) -> cert_inv (s_db s) ->
  match spec_revoke hd (db_view (s_db s)) (certificates (s_db s)) (now (s_db s)) (CommonName cert) req with
  | Some (V', certs') => exists s', listening r s = (Ok (SendResponse (JObj [])), s')
      /\ db_inv (s_db s') /\ db_view (s_db s') = V' /\ certificates (s_db s') = certs'
  | None => exists resp, listening r s = (Ok resp, s) /\ (400 <= status resp)%Z
  end.
Proof.
  intros HA Hu Hm Hb Hr Hauth Hv Hcur Hd Hc. rewrite serve_revoke by done. unfold ServeHTTP.
  pose proof (token_admitted C CFG hd checkCRL (fun r => onDB (Key := Key) (NewRevokeHandler C R (Some a) r))
    r (s_db s) cert der sig HA Hauth Hv Hcur) as Hadm.
  rewrite (bind_attempt_ok _ _ _ _ _ (onDB_run _ _ _ _ Hadm)). cbn [next].
  pose proof (revoke_handler_refines C hd (set_eid (CommonName cert) (set_Body (body r) r)) (s_db s) cert req
    Hd Hc Hm eq_refl) as Hrun.
  cbn [authorization set_eid set_Body body] in Hrun. specialize (Hrun ltac:(rewrite Hauth; by destruct (B64Encode der)) Hb Hr Hv).
  destruct (spec_revoke _ _ _ _ _ _) as [[V' certs']|].
  - destruct Hrun as (d' & Hrun & Hi & HV & HC). eexists. split; [by apply onDB_run|]. done.
  - destruct Hrun as (resp & Hrun & Hst). exists resp. split; [|done].
    assert (Hs : mkSrv (s_db s) (s_tree s) = s) by (by destruct s). rewrite Hs.
    etrans; [apply (onDB_run _ s _ _ Hrun)|]. by rewrite Hs.
Qed.

Lemma Revoke_run name key der cert req s :
  Authentication CFG = true ->
  GetX509CertificateFromPEM C der = Ok cert -> der <> [] -> matching_key C cert key ->
  (forall b, exists t, CreateToken C der key b = Ok t) -> current checkCRL (s_db s) cert ->
  db_inv (s_db s) -> cert_inv (s_db s) -> (- 2 ^ 63 <= rv_Reason req < 2 ^ 63)%Z ->
  let revoke := Revoke C (read_file files) (load_pair pair) roots Do (newIdentity (Some c) name (Some key) (Some der)) in
  match spec_revoke hd (db_view (s_db s)) (certificates (s_db s)) (now (s_db s)) (CommonName cert) req with
  | Some (V', certs') => exists s', revoke req s = (Ok tt, s')
      /\ db_inv (s_db s') /\ db_view (s_db s') = V' /\ certificates (s_db s') = certs'
  | None => exists e, revoke req s = (Err e, s)
  end.
Proof.
  intros HA Hcert Hne Hkey Htok Hcur Hd Hc Hr revoke.
  set (b := json_print (RevocationRequest_json req)).
  destruct (Htok (bytes_of_string b)) as [t Ht].
  destruct (CreateToken_verifies C der key (bytes_of_string b) cert t Hcert Hne Hkey Ht) as [Hv [sig Hsig]].
  pose proof (revoke_served (mkRequest "POST" "/api/v1/cfssl/revoke" t "" b None) s req cert der sig
    HA eq_refl eq_refl eq_refl Hr Hsig Hv Hcur Hd Hc) as Hrun.
  unfold revoke, Revoke, Marshal. rewrite bind_mret. fold b.
  destruct (spec_revoke _ _ _ _ _ _) as [[V' certs']|].
  - destruct Hrun as (s' & Hrun & Hi & HV & HC). exists s'. split; [|done].
    pose proof (Post_answer C files pair roots listening h p z home Hh Hp Hz name key der "revoke" b t s
      _ s' eq_refl Ht Hrun) as Hpost.
    unfold answered in Hpost. change (400 <=? status (SendResponse (JObj [])))%Z with false in Hpost. cbn iota in Hpost.
    by rewrite (bind_ok _ _ _ _ _ Hpost).
  - destruct Hrun as (resp & Hrun & Hst).
    pose proof (Post_answer C files pair roots listening h p z home Hh Hp Hz name key der "revoke" b t s
      _ s eq_refl Ht Hrun) as Hpost.
    unfold answered in Hpost. rewrite (proj2 (Z.leb_le _ _) Hst) in Hpost. destruct Hpost as [e He].
    exists e. exact (bind_err _ _ _ _ _ He).
Qed.

(** (C5) Revocation end to end: a client whose identity holds a certificate the
    server accepts, and the matching key, succeeds exactly when the abstract
    revocation by the certificate's owner is granted: the owner holds
    [hf.Revoker], and the certificate with the given serial number and
    authority, or else the named user, exists (MySQL also refuses to repeat a
    certificate's revocation with the same reason at the same time).  Then exactly that certificate,
    or the user's state and every certificate of the user not yet revoked,
    are changed.  Otherwise the client gets an error and the server's state
    is unchanged. *)
Theorem client_revoke_refines name key der cert req s :
  Authentication CFG = true ->
  GetX509CertificateFromPEM C der = Ok cert -> der <> [] -> matching_key C cert key ->
  (forall b, exists t, CreateToken C der key b = Ok t) -> current checkCRL (s_db s) cert ->
  db_inv (s_db s) -> cert_inv (s_db s) -> (- 2 ^ 63 <= rv_Reason req < 2 ^ 63)%Z ->
  let revoke := Revoke C (read_file files) (load_pair pair) roots Do (newIdentity (Some c) name (Some key) (Some der)) in
  match spec_revoke hd (db_view (s_db s)) (certificates (s_db s)) (now (s_db s)) (CommonName cert) req with
  | Some (V', certs') => exists s', revoke req s = (Ok tt, s')
      /\ db_inv (s_db s') /\ db_view (s_db s') = V' /\ certificates (s_db s') = certs'
  | None => exists e, revoke req s = (Err e, s)
  end.
Proof. exact (Revoke_run name key der cert req s). Qed.

(** (C12) Self-revocation end to end: a client that revokes its own identity, with a
    certificate the server accepts and the matching key, succeeds exactly when
    the owner of the certificate holds [hf.Revoker] and the certificate itself,
    by its serial number and its authority, is recorded (and, on MySQL, not
    already revoked with reason 0 at this very time); then that certificate
    and no other is marked revoked, with reason 0, and the user is not
    disabled.  Otherwise, and so for every identity without [hf.Revoker], the
    client gets an error and the server's state is unchanged. *)
Theorem client_revoke_self name key der cert s :
  Authentication CFG = true ->
  GetX509CertificateFromPEM C der = Ok cert -> der <> [] -> matching_key C cert key ->
  (forall b, exists t, CreateToken C der key b = Ok t) -> current checkCRL (s_db s) cert ->
  db_inv (s_db s) -> cert_inv (s_db s) -> AuthorityKeyId cert <> [] ->
  let self := RevokeSelf C (read_file files) (load_pair pair) roots Do (newIdentity (Some c) name (Some key) (Some der)) in
  let mine := has_cert (Itoa (SerialNumber cert)) (EncodeToString (AuthorityKeyId cert)) in
  if negb (bool_decide (view_attr (db_view (s_db s)) (CommonName cert) "hf.Revoker" = ""))
     && existsb (revocable hd (now (s_db s)) 0 (Itoa (SerialNumber cert)) (EncodeToString (AuthorityKeyId cert)))
          (certificates (s_db s))
  then exists s', self s = (Ok tt, s') /\ db_inv (s_db s') /\ db_view (s_db s') = db_view (s_db s)
         /\ certificates (s_db s') = update_where mine (mark_revoked (now (s_db s)) 0) (certificates (s_db s))
  else exists e, self s = (Err e, s).
Proof.
  intros HA Hcert Hne Hkey Htok Hcur Hd Hc Haki self mine. unfold self, RevokeSelf.
  rewrite (GetSerial_own C (Some c) name key der cert Hcert). cbn [lift]. rewrite bind_lift_ok.
  pose proof (Revoke_run name key der cert
    (mkRevocationRequest name (Itoa (SerialNumber cert)) (EncodeToString (AuthorityKeyId cert)) 0) s
    HA Hcert Hne Hkey Htok Hcur Hd Hc ltac:(simpl; lia)) as Hrun.
  cbv zeta in Hrun. unfold spec_revoke in Hrun. cbn [rv_Serial rv_AKI rv_Reason] in Hrun.
  rewrite (bool_decide_false _ (Itoa_nonempty _)), (bool_decide_false _ (EncodeToString_nonempty _ Haki)) in Hrun.
  fold mine in Hrun. case_bool_decide; [exact Hrun|]. cbn [negb andb] in Hrun |- *.
  destruct (existsb _ _); [|exact Hrun]. destruct Hrun as (s' & ? & ? & ? & ?). by exists s'.
Qed.
End end_to_end.

(** ** A concrete revocation *)

Definition revoke_state : Srv (list string) := mkSrv revoke_db (NewKeyTree []).

Definition toy_Revoke (req : RevocationRequest) : comp (Srv (list string)) unit :=
  Revoke toy_crypto (read_file (fun _ => None)) (load_pair (fun _ _ => None)) (fun _ => true) toy_net
    (newIdentity (Some toy_client) "admin" (Some [x09]) (Some [x01])) req.

Lemma revoke_state_certs : cert_inv (s_db revoke_state).
Proof. apply (bool_decide_unpack _). vm_compute. exact I. Qed.

Lemma toy_spec_revoke : option_map (fun x => map is_revoked x.2)
    (spec_revoke sqlite3 (db_view revoke_db) (certificates revoke_db) 9 "admin" (mkRevocationRequest "bob" "" "" 1))
  = Some [true; false].
Proof. vm_compute. reflexivity. Qed.

Lemma client_revoke_refines_witness :
  exists s', toy_Revoke (mkRevocationRequest "bob" "" "" 1) revoke_state = (Ok tt, s')
    /\ map is_revoked (certificates (s_db s')) = [true; false].
Proof.
  pose proof (client_revoke_refines toy_deriv (fun k => bytes_of_string (Join k "/")) toy_crypto newConfig sqlite3 12
    (fun _ _ => (false, true)) "" toy_sign_dec toy_issue toy_batch (fun _ => JNull) (fun _ => None) (fun _ _ => None)
    (fun _ => true) "localhost" "8888" 8888 "/home/cop" eq_refl eq_refl eq_refl "admin" [x09] [x01]
    (toy_cert (RSAKey 7)) (mkRevocationRequest "bob" "" "" 1) revoke_state eq_refl eq_refl ltac:(discriminate)
    ltac:(exists 7%Z; split; reflexivity) ltac:(intros b; eexists; reflexivity) toy_current revoke_db_inv revoke_state_certs
    ltac:(simpl; lia)) as H.
  pose proof toy_spec_revoke as E.
  change (now (s_db revoke_state)) with 9%Z in H. change (CommonName (toy_cert (RSAKey 7))) with "admin" in H.
  change (s_db revoke_state) with revoke_db in H.
  destruct (spec_revoke _ _ _ _ _ _) as [[V' certs']|]; [|discriminate E].
  destruct H as (s' & H1 & _ & _ & H2). exists s'. split; [exact H1|]. rewrite H2. by injection E.
Defined.

(** ** Two identities of one authority *)

(** The concrete cryptography with other certificates. *)
Definition crypto_with (parse : bytes -> outcome Certificate) : Crypto :=
  mkCrypto (pem_Decode toy_crypto) parse (ParseECPrivateKey toy_crypto) (ParsePKCS1PrivateKey toy_crypto)
    (sha384 toy_crypto) (SignPKCS1v15 toy_crypto) (VerifyPKCS1v15 toy_crypto) (ecdsa_Sign toy_crypto)
    (ecdsa_Verify toy_crypto) (asn1_MarshalSig toy_crypto) (asn1_UnmarshalSig toy_crypto).

#[export] Instance crypto_with_laws parse : CryptoLaws (crypto_with parse).
Proof.
  refine {| rsa_pair := eq; ec_pair := eq |}.
  - exact (@law_rsa toy_crypto toy_laws).
  - exact (@law_ecdsa toy_crypto toy_laws).
  - exact (@law_asn1 toy_crypto toy_laws).
Defined.

Definition admin_cert : Certificate := mkCertificate "admin" (RSAKey 7) 2 0 100 [] [] [xab].
Definition bob_cert : Certificate := mkCertificate "bob" (RSAKey 7) 1 0 100 [] [] [xab].

Definition pki : Crypto :=
  crypto_with (fun b => match b with
                        | [x01] => Ok admin_cert
                        | [x02] => Ok bob_cert
                        | _ => Err (ErrPlain "asn1: structure error")
                        end).

Definition pki_record (serial : string) : CertificateRecord :=
  mkCertificateRecord serial "ab" "" "good" 0 50 0 (string_of_bytes [x02]).

Definition pki_state : Srv (list string) :=
  mkSrv (mkDB (users revoke_db) (groups revoke_db)
           [mkCertRecord "bob" (pki_record "1"); mkCertRecord "admin" (pki_record "2")] 9 (fun _ => 0%Z) 0 [])
        (NewKeyTree []).

Lemma pki_state_inv : db_inv (s_db pki_state) /\ cert_inv (s_db pki_state).
Proof. split; [split; [done|]; split|]; apply (bool_decide_unpack _); vm_compute; exact I. Qed.

Definition pki_listen (issue : string -> outcome (bytes * CertificateRecord))
    : Request -> comp (Srv (list string)) Response :=
  serve toy_deriv (fun k => bytes_of_string (Join k "/")) pki newConfig
    (accessor_registry (Accessor.mkAccessor (Some sqlite3)))
    (Some (CertDBAccessor.NewCertDBAccessor (Some sqlite3))) (fun _ _ => (false, true)) (db_RandomString 12)
    "" toy_sign_dec issue toy_batch (fun _ => JNull).

Definition pki_net issue := deliver (pki_listen issue) ("localhost" +:+ String ":" "8888").

Definition pki_identity (name : string) (der : bytes) : Identity :=
  newIdentity (Some toy_client) name (Some [x09]) (Some der).

Definition pki_RevokeSelf (i : Identity) : comp (Srv (list string)) unit :=
  RevokeSelf pki (read_file (fun _ => None)) (load_pair (fun _ _ => None)) (fun _ => true) (pki_net toy_issue) i.

(** The administrator revokes its own certificate; a user without
    [hf.Revoker] cannot. *)
Lemma client_revoke_self_witness :
  (exists s', pki_RevokeSelf (pki_identity "admin" [x01]) pki_state = (Ok tt, s')
     /\ map is_revoked (certificates (s_db s')) = [false; true])
  /\ exists e, pki_RevokeSelf (pki_identity "bob" [x02]) pki_state = (Err e, pki_state).
Proof.
  assert (Hrun : forall name der cert, GetX509CertificateFromPEM pki der = Ok cert -> der <> [] ->
    PubKey cert = RSAKey 7 -> current (fun _ _ => (false, true)) (s_db pki_state) cert -> AuthorityKeyId cert <> [] -> _)
    by exact (fun name der cert Hcert Hne Hpk Hcur Haki =>
      client_revoke_self toy_deriv (fun k => bytes_of_string (Join k "/")) pki newConfig sqlite3 12
        (fun _ _ => (false, true)) "" toy_sign_dec toy_issue toy_batch (fun _ => JNull) (fun _ => None) (fun _ _ => None)
        (fun _ => true) "localhost" "8888" 8888 "/home/cop" eq_refl eq_refl eq_refl name [x09] der cert pki_state
        eq_refl Hcert Hne
        ltac:(unfold matching_key; rewrite Hpk; exists 7%Z; split; reflexivity)
        ltac:(intros b; unfold CreateToken; rewrite Hcert; simpl; rewrite Hpk; eexists; reflexivity)
        Hcur (proj1 pki_state_inv) (proj2 pki_state_inv) Haki).
  split.
  - destruct (Hrun "admin" [x01] admin_cert eq_refl ltac:(discriminate) eq_refl
      ltac:(split; [vm_compute; split; reflexivity|reflexivity]) ltac:(discriminate)) as (s' & H1 & _ & _ & H2).
    exists s'. split; [exact H1|]. rewrite H2. reflexivity.
  - exact (Hrun "bob" [x02] bob_cert eq_refl ltac:(discriminate) eq_refl
      ltac:(split; [vm_compute; split; reflexivity|reflexivity]) ltac:(discriminate)).
Defined.
