(* ===== verification/Reenrollment.v ===== *)
(** * Reenrollment, end to end

    What a client's [Reenroll] does: the signing of a certificate request as a
    partial function on the certificate table, the theorem that a client with
    an accepted certificate gets exactly what it gives, through the token, the
    network, the authentication wrapper and the handler, and what that means
    for a user whose certificates have all been revoked. *)

From S2P Require Import Prelude GoStrings GoFmt GoJson CopError Base64 Http Registry GoUrl GoUnmarshal Token Database DbAccessor CertDB Util Config Register Auth Handlers TCertUtil KeyTree TCert Server Client ClientServer Revocation.

(** A computation of the environment that ends with a value or an error. *)
Definition concludes {A} (o : outcome A) : Prop := match o with Ok _ | Err _ => True | _ => False end.

#[export] Instance current_dec checkCRL d cert : Decision (current checkCRL d cert).
Proof. unfold current. solve_decision. Defined.

(** ** Signing *)

Section signing.
Context (C : Crypto) (hd : DBHandle).
Context {SR : Type} (zero : SR) (dec : decoder SR) (issue : SR -> outcome (bytes * CertificateRecord)).
Notation a := (CertDBAccessor.NewCertDBAccessor (Some hd)).

(** The signing of the request in the body [b]: the certificate and the table
    with it, if the signer issues one that is not recorded yet. *)
Definition spec_sign (b : string) (certs : list CertRecord) : option (bytes * list CertRecord) :=
  match json_Unmarshal dec b zero with
  | (sr, None) =>
      match issue sr with
      | Ok (cert, cr) =>
          match GetEnrollmentIDFromPEM C (bytes_of_string (cr_PEM cr)) with
          | Ok id => if existsb (has_cert (cr_Serial cr) (cr_AKI cr)) certs then None
                     else Some (cert, certs ++ [stored id cr])
          | _ => None
          end
      | _ => None
      end
  | _ => None
  end.

(** The signer and the parser of certificates end. *)
Definition signer_concludes : Prop :=
  (forall sr, concludes (issue sr)) /\ forall b, concludes (ParseCertificate C b).

Lemma GetEnrollmentID_concludes b : signer_concludes -> concludes (GetEnrollmentIDFromPEM C b).
Proof.
  intros [_ H]. unfold GetEnrollmentIDFromPEM, GetX509CertificateFromPEM.
  destruct (pem_Decode C b) as [blk|]; [|done]. specialize (H blk). by destruct (ParseCertificate C blk).
Qed.

Lemma InsertCertificate_refused d cr id :
  faults d = [] -> GetEnrollmentIDFromPEM C (bytes_of_string (cr_PEM cr)) = Ok id ->
  existsb (has_cert (cr_Serial cr) (cr_AKI cr)) (certificates d) = true ->
  exists e, CertDBAccessor.InsertCertificate C a cr d = (Err e, d).
Proof.
  intros Hf Hid Hk. unfold CertDBAccessor.InsertCertificate, CertDBAccessor.checkDB. rewrite Hid.
  unfold mbind, comp_bind, CertDBAccessor.exec_insert. simpl. rewrite statement_nofault by done.
  simpl. rewrite Hk. by eexists.
Qed.

Lemma enrollSigner_Sign_refused sr d :
  signer_concludes -> faults d = [] ->
  match issue sr with
  | Ok (cert, cr) =>
      match GetEnrollmentIDFromPEM C (bytes_of_string (cr_PEM cr)) with
      | Ok id => existsb (has_cert (cr_Serial cr) (cr_AKI cr)) (certificates d) = true
      | _ => True
      end
  | _ => True
  end ->
  exists e, enrollSigner_Sign C (Some a) issue sr d = (Err e, d).
Proof.
  intros Hc Hf H. unfold enrollSigner_Sign. pose proof (proj1 Hc sr) as Hs.
  destruct (issue sr) as [[cert cr]|e|p|p|]; try done; [|by eexists].
  unfold mbind at 1, comp_bind at 1, lift at 1.
  pose proof (GetEnrollmentID_concludes (bytes_of_string (cr_PEM cr)) Hc) as Hid.
  destruct (GetEnrollmentIDFromPEM C _) as [id|e|p|p|] eqn:E; try done.
  - destruct (InsertCertificate_refused d cr id Hf E H) as [e He]. exists e. exact (bind_err _ _ _ _ _ He).
  - exists e. apply bind_err. unfold CertDBAccessor.InsertCertificate, CertDBAccessor.checkDB. by rewrite E.
Qed.

(** The enroll and reenroll handlers do what the specification says. *)
Lemma sign_handler_refines endpoint r d :
  signer_concludes -> Method r = "POST" -> body_err r = None -> faults d = [] ->
  match spec_sign (body r) (certificates d) with
  | Some (cert, certs) =>
      newSignHandler C (Some a) zero dec issue endpoint r d
        = (Ok (SendResponse (bytes_json cert)), set_certificates certs d)
  | None => exists e, newSignHandler C (Some a) zero dec issue endpoint r d = (Ok (HandleError e), d)
      /\ failing e = true
  end.
Proof.
  intros Hc Hm He Hf. unfold spec_sign. destruct (json_Unmarshal dec (body r) zero) as [sr [e|]] eqn:Ej.
  { eexists. unfold newSignHandler. rewrite HTTPHandler_post by done. unfold signHandler_Handle, ReadAll.
    rewrite He, bind_mret. unfold Unmarshal, decode. rewrite Ej. split; reflexivity. }
  assert (Hno : forall e, enrollSigner_Sign C (Some a) issue sr d = (Err e, d) ->
    exists e', newSignHandler C (Some a) zero dec issue endpoint r d = (Ok (HandleError e'), d) /\ failing e' = true).
  { intros e E. eexists. unfold newSignHandler. rewrite HTTPHandler_post by done. unfold signHandler_Handle, ReadAll.
    rewrite He, bind_mret. unfold Unmarshal, decode. rewrite Ej.
    rewrite (bind_ok _ _ _ sr d) by done. unfold map_err, mbind, comp_bind. rewrite E. split; reflexivity. }
  pose proof (enrollSigner_Sign_refused sr d Hc Hf) as Hs.
  destruct (issue sr) as [[cert cr]|e|p|p|] eqn:Ei; try (destruct (Hs I) as [e' H]; by apply (Hno e')).
  destruct (GetEnrollmentIDFromPEM C _) as [id|e|p|p|] eqn:Eid; try (destruct (Hs I) as [e' H]; by apply (Hno e')).
  destruct (existsb _ _) eqn:Ek; [destruct (Hs eq_refl) as [e' H]; by apply (Hno e')|].
  by apply (signHandler_run C a hd zero dec issue eq_refl endpoint r d sr cert cr id).
Qed.
End signing.

(** ** The client *)

Section end_to_end.
Context {Key : Type} (KeyDeriv : Key -> string -> outcome Key) (SKI : Key -> bytes).
Context (C : Crypto) `{!CryptoLaws C} (CFG : Config) (hd : DBHandle) (fuel : nat).
Context (checkCRL : Certificate -> string -> bool * bool).
Context {SR : Type} (zero : SR) (dec : decoder SR) (issue : SR -> outcome (bytes * CertificateRecord)).
Context (mgr_GetBatch : GetBatchRequest -> Certificate -> comp (Srv Key) GetBatchResponse).
Context (resp_json : GetBatchResponse -> json).
Notation R := (accessor_registry (Accessor.mkAccessor (Some hd))).
Notation a := (CertDBAccessor.NewCertDBAccessor (Some hd)).
Let listening := serve KeyDeriv SKI C CFG R (Some a) checkCRL (db_RandomString fuel) zero dec issue mgr_GetBatch resp_json.

Lemma serve_reenroll r s :
  URL r = "/api/v1/cfssl/reenroll" ->
  listening r s = ServeHTTP C CFG R checkCRL onDB
    (mkCopAuthHandler false true (fun r => onDB (NewReenrollHandler C (Some a) zero dec issue r))) r s.
Proof. intros Hu. unfold listening, serve. by rewrite Hu. Qed.

(** A token whose certificate the server does not accept now. *)
Lemma token_refused {W} (nx : Request -> comp W Response) r d cert der sig :
  Authentication CFG = true -> authorization r = B64Encode der +:+ "." +:+ B64Encode sig ->
  VerifyToken C (authorization r) (bytes_of_string (body r)) = Ok cert -> ~ current checkCRL d cert ->
  serveHTTP C CFG R checkCRL (mkCopAuthHandler false true nx) r d = (Err authError, d).
Proof.
  intros HA Hr Hv Hn. rewrite serveHTTP_token_run; [|done..|by eapply token_not_basic|].
  2:{ rewrite Hr. by destruct (B64Encode der). }
  rewrite Hv. case_match; [done|]. exfalso. apply Hn. rewrite !orb_false_iff, !negb_false_iff in *.
  destruct_and!. split; [lia|by eapply bool_decide_eq_true_1].
Qed.

(** What the server grants to the holder of [cert] who posts [b]. *)
Definition spec_reenroll (d : DB) (cert : Certificate) (b : string) : option (bytes * list CertRecord) :=
  if decide (current checkCRL d cert) then spec_sign C zero dec issue b (certificates d) else None.

(** The reenroll endpoint as the network sees it, for a token that verifies. *)
Lemma reenroll_served r s cert der sig :
  signer_concludes C issue -> Authentication CFG = true ->
  URL r = "/api/v1/cfssl/reenroll" -> Method r = "POST" ->
  authorization r = B64Encode der +:+ "." +:+ B64Encode sig ->
  VerifyToken C (authorization r) (bytes_of_string (body r)) = Ok cert -> faults (s_db s) = [] ->
  match spec_reenroll (s_db s) cert (body r) with
  | Some (issued, certs) => listening r s
      = (Ok (SendResponse (bytes_json issued)), mkSrv (set_certificates certs (s_db s)) (s_tree s))
  | None => exists e, listening r s = (Ok (HandleError e), s) /\ failing e = true
  end.
Proof.
  intros Hc HA Hu Hm Hr Hv Hf. rewrite serve_reenroll by done. unfold ServeHTTP, spec_reenroll.
  assert (Hs : mkSrv (s_db s) (s_tree s) = s) by (by destruct s).
  set (nx := fun r => onDB (Key := Key) (NewReenrollHandler C (Some a) zero dec issue r)).
  destruct (decide _) as [Hcur|Hcur].
  - pose proof (token_admitted C CFG hd checkCRL nx r (s_db s) cert der sig HA Hr Hv Hcur) as Hadm.
    rewrite (bind_attempt_ok _ _ _ _ _ (onDB_run _ _ _ _ Hadm)). cbn [next]. unfold nx. rewrite Hs.
    pose proof (sign_handler_refines C hd zero dec issue "reenroll"
      (set_eid (CommonName cert) (set_Body (body r) r)) (s_db s) Hc Hm eq_refl Hf) as Hrun.
    cbn [body set_eid set_Body] in Hrun. destruct (spec_sign _ _ _ _ _ _) as [[issued certs]|].
    + by apply onDB_run.
    + destruct Hrun as (e & Hrun & He). exists e. split; [|done]. rewrite <- Hs at 2. by apply onDB_run.
  - pose proof (token_refused nx r (s_db s) cert der sig HA Hr Hv Hcur) as Href.
    rewrite (bind_attempt_err _ _ _ _ _ (onDB_run _ _ _ _ Href)), Hs. by eexists.
Qed.

Context (files : string -> option bytes) (pair : string -> string -> option (string * string)).
Context (roots : bytes -> bool) (h p : string) (z : Z) (home : string).
Hypothesis Hh : all_chars host_char h = true.
Hypothesis Hp : all_digits p = true.
Hypothesis Hz : Atoi p = Some z.
Let addr : string := h +:+ String ":" p.
Let c : Client := mkClient ("http://" +:+ addr) home.
Let Do := deliver listening addr.
Context (gen : CertificateRequest -> bytes * bytes) (hostname : string) (prefix : string -> bytes).
Let ParseRequest (q : CertificateRequest) : comp (Srv Key) (bytes * bytes) := mret (gen q).
Let reenroll := Reenroll C hostname (read_file files) (load_pair pair) roots Do ParseRequest prefix c.

(** The certificate request and the key the client generates, and the body it
    posts. *)
Definition reenroll_csr (name : string) (req : ReenrollmentRequest) : bytes * bytes :=
  let cr := newCertificateRequest hostname (re_CSR req) in
  gen (mkCertificateRequest name (cq_Names cr) (cq_Hosts cr) (cq_KeyRequest cr) (cq_CA cr) (cq_SerialNumber cr)).

Definition reenroll_body (name : string) (req : ReenrollmentRequest) : string :=
  json_print (SignRequest_json (mkSignRequest (SplitHosts (re_Hosts req))
    (string_of_bytes (reenroll_csr name req).1) (re_Profile req) (re_Label req))).

Lemma Reenroll_run name key der cert req s :
  signer_concludes C issue -> Authentication CFG = true ->
  GetX509CertificateFromPEM C der = Ok cert -> der <> [] -> matching_key C cert key ->
  (forall b, exists t, CreateToken C der key b = Ok t) -> faults (s_db s) = [] ->
  re_ID req = Some (newIdentity (Some c) name (Some key) (Some der)) ->
  match spec_reenroll (s_db s) cert (reenroll_body name req) with
  | Some (issued, certs) => reenroll req s
      = (Ok (newIdentity (Some c) name (Some (reenroll_csr name req).2) (Some issued)),
         mkSrv (set_certificates certs (s_db s)) (s_tree s))
  | None => exists e, reenroll req s = (Err e, s)
  end.
Proof.
  intros Hc HA Hcert Hne Hkey Htok Hf Hid. set (b := reenroll_body name req).
  destruct (Htok (bytes_of_string b)) as [t Ht].
  destruct (CreateToken_verifies C der key (bytes_of_string b) cert t Hcert Hne Hkey Ht) as [Hv [sig Hsig]].
  pose proof (reenroll_served (mkRequest "POST" "/api/v1/cfssl/reenroll" t "" b None) s cert der sig
    Hc HA eq_refl eq_refl Hsig Hv Hf) as Hrun. cbn [body] in Hrun.
  unfold reenroll, Reenroll. rewrite Hid. cbn [i_Name newIdentity]. unfold GenCSR, ParseRequest. rewrite bind_mret.
  fold (reenroll_csr name req). subst b. unfold reenroll_body in *.
  destruct (reenroll_csr name req) as [csrPEM key'] eqn:Ecsr. cbn [fst snd] in *. unfold Marshal. rewrite bind_mret.
  set (b := json_print _) in *. destruct (spec_reenroll _ _ _) as [[issued certs]|].
  - pose proof (Post_answer C files pair roots listening h p z home Hh Hp Hz name key der "reenroll" b t s
      _ _ eq_refl Ht Hrun) as Hpost.
    unfold answered in Hpost. change (400 <=? status (SendResponse (bytes_json issued)))%Z with false in Hpost.
    cbn iota in Hpost. rewrite (bind_ok _ _ _ _ _ Hpost). apply newIdentity_issued.
  - destruct Hrun as (e & Hrun & He).
    pose proof (Post_answer C files pair roots listening h p z home Hh Hp Hz name key der "reenroll" b t s
      _ _ eq_refl Ht Hrun) as Hpost.
    unfold answered in Hpost. rewrite HandleError_status in Hpost by done. destruct Hpost as [e' He'].
    exists e'. exact (bind_err _ _ _ _ _ He').
Qed.

(** (C6) Reenrollment end to end: a client whose identity holds a certificate and
    the matching key gets a new identity, with the key it generated and the
    certificate issued, exactly when the server accepts the certificate at
    this time and the signer issues one that is not recorded yet; that one is
    recorded, and no user, group or enrollment count changes.  Otherwise the
    client gets an error and the server's state is unchanged. *)
Theorem client_reenroll_refines name key der cert req s :
  signer_concludes C issue -> Authentication CFG = true ->
  GetX509CertificateFromPEM C der = Ok cert -> der <> [] -> matching_key C cert key ->
  (forall b, exists t, CreateToken C der key b = Ok t) -> faults (s_db s) = [] ->
  re_ID req = Some (newIdentity (Some c) name (Some key) (Some der)) ->
  match spec_reenroll (s_db s) cert (reenroll_body name req) with
  | Some (issued, certs) => reenroll req s
      = (Ok (newIdentity (Some c) name (Some (reenroll_csr name req).2) (Some issued)),
         mkSrv (set_certificates certs (s_db s)) (s_tree s))
  | None => exists e, reenroll req s = (Err e, s)
  end.
Proof. exact (Reenroll_run name key der cert req s). Qed.

(** (C38) Revoking a user does not shut the user out: after a client has revoked
    by name the user whose recorded certificate is [old], every recorded
    certificate of the user is revoked, [old] among them, and the user's state
    is -1; the user, with [old] and its key, still reenrolls and holds a new
    certificate, recorded after [old] and not revoked, as long as [old] has not
    expired, no revocation list names it, and the signer issues a certificate
    that is not recorded yet and not marked as revoked. *)
Theorem revoked_user_reenrolls aname akey ader acert name key der cert old req reason s s1 issued sr cr id :
  signer_concludes C issue -> Authentication CFG = true -> db_inv (s_db s) -> cert_inv (s_db s) ->
  GetX509CertificateFromPEM C ader = Ok acert -> ader <> [] -> matching_key C acert akey ->
  (forall b, exists t, CreateToken C ader akey b = Ok t) -> current checkCRL (s_db s) acert ->
  GetX509CertificateFromPEM C der = Ok cert -> der <> [] -> matching_key C cert key ->
  (forall b, exists t, CreateToken C der key b = Ok t) -> current checkCRL (s_db s1) cert ->
  (- 2 ^ 63 <= reason < 2 ^ 63)%Z ->
  Revoke C (read_file files) (load_pair pair) roots Do (newIdentity (Some c) aname (Some akey) (Some ader))
    (mkRevocationRequest (CommonName cert) "" "" reason) s = (Ok tt, s1) ->
  re_ID req = Some (newIdentity (Some c) name (Some key) (Some der)) ->
  json_Unmarshal dec (reenroll_body name req) zero = (sr, None) -> issue sr = Ok (issued, cr) ->
  GetEnrollmentIDFromPEM C (bytes_of_string (cr_PEM cr)) = Ok id ->
  existsb (has_cert (cr_Serial cr) (cr_AKI cr)) (certificates (s_db s1)) = false -> cr_Status cr <> "revoked" ->
  old ∈ certificates (s_db s) -> c_ID old = CommonName cert -> bytes_of_string (cr_PEM (c_rec old)) = der ->
  (forall r, r ∈ certificates (s_db s1) -> c_ID r = CommonName cert -> is_revoked r = true)
  /\ (uv_state <$> rv_users (db_view (s_db s1)) !! CommonName cert) = Some (-1)%Z
  /\ (exists old', old' ∈ certificates (s_db s1) /\ is_revoked old' = true
        /\ bytes_of_string (cr_PEM (c_rec old')) = der
        /\ cr_Serial (c_rec old') = cr_Serial (c_rec old) /\ cr_AKI (c_rec old') = cr_AKI (c_rec old))
  /\ exists s2, reenroll req s1 = (Ok (newIdentity (Some c) name (Some (reenroll_csr name req).2) (Some issued)), s2)
      /\ certificates (s_db s2) = certificates (s_db s1) ++ [stored id cr] /\ is_revoked (stored id cr) = false.
Proof.
  intros Hc HA Hd Hci Hac Hane Hakey Hatok Hacur Hcert Hne Hkey Htok Hcur Hr Hrev Hid Hdec Hiss Hgid Hk Hst Hold Hoid Hpem.
  pose proof (Revoke_run KeyDeriv SKI C CFG hd fuel checkCRL zero dec issue mgr_GetBatch resp_json files pair roots
    h p z home Hh Hp Hz aname akey ader acert (mkRevocationRequest (CommonName cert) "" "" reason) s
    HA Hac Hane Hakey Hatok Hacur Hd Hci Hr) as Hrun.
  cbv zeta in Hrun. fold listening addr in Hrun. fold c Do in Hrun.
  destruct (spec_revoke _ _ _ _ _ _) as [[V' certs']|] eqn:Espec.
  2:{ destruct Hrun as [e Hrun]. by rewrite Hrun in Hrev. }
  destruct Hrun as (s' & Hrun & Hd1 & HV & HC). rewrite Hrun in Hrev. injection Hrev as <-.
  unfold spec_revoke in Espec. cbn [rv_Serial rv_AKI rv_Name rv_Reason] in Espec.
  rewrite (bool_decide_true ("" = "")) in Espec by done. cbn [negb andb] in Espec.
  do 2 (case_bool_decide; [done|]). destruct (rv_users (db_view (s_db s)) !! CommonName cert) as [v|]; [|done].
  injection Espec as <- <-. rewrite HC, HV. cbn [rv_users]. rewrite lookup_insert_eq.
  split; [intros r; apply live_revoked|]. split; [done|]. split.
  { set (f := fun r => if CertDBAccessor.live_of (CommonName cert) r then mark_revoked (now (s_db s)) reason r else r).
    assert (f old ∈ update_where (CertDBAccessor.live_of (CommonName cert)) (mark_revoked (now (s_db s)) reason) (certificates (s_db s))) as Hin.
    { unfold update_where. apply list_elem_of_In, in_map_iff. exists old. split; [done|]. by apply list_elem_of_In. }
    exists (f old). split; [exact Hin|].
    split; [|unfold f; by destruct (CertDBAccessor.live_of _ _)].
    apply (live_revoked _ _ _ _ _ Hin). unfold f. by destruct (CertDBAccessor.live_of _ _). }
  pose proof (Reenroll_run name key der cert req s' Hc HA Hcert Hne Hkey Htok (proj1 Hd1) Hid) as Hre.
  unfold spec_reenroll, spec_sign in Hre. rewrite decide_True, Hdec, Hiss, Hgid, Hk in Hre by done.
  eexists. split; [exact Hre|]. simpl. rewrite HC. split; [done|]. unfold is_revoked. by rewrite bool_decide_false.
Qed.
End end_to_end.

(** ** A concrete reenrollment *)

Definition pki_issue (sr : string) : outcome (bytes * CertificateRecord) := Ok ([x02], pki_record "9").

Lemma pki_concludes : signer_concludes pki pki_issue.
Proof. split; [done|]. intros b. simpl. by repeat case_match. Qed.

Definition reenroll_bob : ReenrollmentRequest :=
  mkReenrollmentRequest (Some (pki_identity "bob" [x02])) "" "" "" None.

Definition pki_Reenroll (req : ReenrollmentRequest) : comp (Srv (list string)) Identity :=
  Reenroll pki "host" (read_file (fun _ => None)) (load_pair (fun _ _ => None)) (fun _ => true) (pki_net pki_issue)
    (fun q => mret ([x43], [x4b])) (fun _ => []) toy_client req.

(** The server when the certificates have expired. *)
Definition pki_later : Srv (list string) :=
  mkSrv (mkDB (users (s_db pki_state)) (groups (s_db pki_state)) (certificates (s_db pki_state)) 200 (fun _ => 0%Z) 0 [])
    (NewKeyTree []).

Lemma client_reenroll_refines_witness :
  (exists s', pki_Reenroll reenroll_bob pki_state
       = (Ok (newIdentity (Some toy_client) "bob" (Some [x4b]) (Some [x02])), s')
     /\ map c_ID (certificates (s_db s')) = ["bob"; "admin"; "bob"])
  /\ exists e, pki_Reenroll reenroll_bob pki_later = (Err e, pki_later).
Proof.
  assert (Hrun : forall s, faults (s_db s) = [] -> _)
    by exact (fun s Hf => client_reenroll_refines toy_deriv (fun k => bytes_of_string (Join k "/")) pki newConfig sqlite3 12
      (fun _ _ => (false, true)) "" toy_sign_dec pki_issue toy_batch (fun _ => JNull) (fun _ => None) (fun _ _ => None)
      (fun _ => true) "localhost" "8888" 8888 "/home/cop" eq_refl eq_refl eq_refl (fun q => ([x43], [x4b])) "host"
      (fun _ => []) "bob" [x09] [x02] bob_cert reenroll_bob s pki_concludes eq_refl eq_refl ltac:(discriminate)
      ltac:(exists 7%Z; split; reflexivity) ltac:(intros b; eexists; reflexivity) Hf eq_refl).
  split.
  - eexists. split; [exact (Hrun pki_state eq_refl)|]. vm_compute. reflexivity.
  - exact (Hrun pki_later eq_refl).
Defined.

Definition pki_Revoke (i : Identity) (req : RevocationRequest) : comp (Srv (list string)) unit :=
  Revoke pki (read_file (fun _ => None)) (load_pair (fun _ _ => None)) (fun _ => true) (pki_net pki_issue) i req.

Lemma revoked_user_reenrolls_witness :
  exists s1 s2, pki_Revoke (pki_identity "admin" [x01]) (mkRevocationRequest "bob" "" "" 1) pki_state = (Ok tt, s1)
    /\ (forall r, r ∈ certificates (s_db s1) -> c_ID r = "bob" -> is_revoked r = true)
    /\ pki_Reenroll reenroll_bob s1 = (Ok (newIdentity (Some toy_client) "bob" (Some [x4b]) (Some [x02])), s2)
    /\ map is_revoked (certificates (s_db s2)) = [true; false; false].
Proof.
  destruct (pki_Revoke (pki_identity "admin" [x01]) (mkRevocationRequest "bob" "" "" 1) pki_state) as [o s1] eqn:E.
  assert (o = Ok tt) as -> by (apply (f_equal fst) in E; vm_compute in E; congruence).
  assert (Hcs : map is_revoked (certificates (s_db s1)) = [true; false]
    /\ map (has_cert "9" "ab") (certificates (s_db s1)) = [false; false] /\ now (s_db s1) = 9%Z)
    by (apply (f_equal snd) in E; vm_compute in E; rewrite <- E; repeat split; reflexivity).
  destruct Hcs as (Hcs & Hks & Hn).
  destruct (revoked_user_reenrolls toy_deriv (fun k => bytes_of_string (Join k "/")) pki newConfig sqlite3 12
    (fun _ _ => (false, true)) "" toy_sign_dec pki_issue toy_batch (fun _ => JNull) (fun _ => None) (fun _ _ => None)
    (fun _ => true) "localhost" "8888" 8888 "/home/cop" eq_refl eq_refl eq_refl (fun q => ([x43], [x4b])) "host"
    (fun _ => []) "admin" [x09] [x01] admin_cert "bob" [x09] [x02] bob_cert (mkCertRecord "bob" (pki_record "1")) reenroll_bob 1 pki_state s1 [x02]
    "C" (pki_record "9") "bob" pki_concludes eq_refl (proj1 pki_state_inv) (proj2 pki_state_inv)
    eq_refl ltac:(discriminate) ltac:(exists 7%Z; split; reflexivity) ltac:(intros b; eexists; reflexivity)
    ltac:(split; [vm_compute; split; reflexivity|reflexivity])
    eq_refl ltac:(discriminate) ltac:(exists 7%Z; split; reflexivity) ltac:(intros b; eexists; reflexivity)
    ltac:(split; [rewrite Hn; vm_compute; split; reflexivity|reflexivity]) ltac:(lia) E eq_refl eq_refl eq_refl eq_refl)
    as (H1 & _ & _ & s2 & H2 & H3 & _).
  - destruct (certificates (s_db s1)) as [|a1 [|a2 [|]]]; try discriminate Hcs.
    cbn [map] in Hks. injection Hks as K1 K2. cbn [existsb pki_record cr_Serial cr_AKI]. rewrite K1, K2. reflexivity.
  - discriminate.
  - by left.
  - reflexivity.
  - reflexivity.
  - exists s1, s2. split; [reflexivity|]. split; [exact H1|]. split; [exact H2|]. rewrite H3, map_app, Hcs. reflexivity.
Defined.
