(* ===== verification/Transactions.v ===== *)
(** * Transaction certificates, end to end

    What a client's [GetPrivateSigners] does: the batch the server is asked
    for as a partial function on the users and the key tree, and the theorem
    that a client with an accepted ECDSA certificate gets the server to make
    exactly that batch, through the JSON of the request, the network, the
    authentication wrapper, the tcert handler, the key tree and the TCert
    manager. *)

From S2P Require Import Prelude GoStrings GoFmt GoJson CopError Base64 Http Registry GoUrl GoUnmarshal Token Database DbAccessor CertDB Util Config Register Auth Handlers TCertUtil KeyTree TCert Server Client ClientServer Races Revocation Reenrollment.

(** ** The request in JSON *)

Lemma read_digits_Itoa z : (0 <= z)%Z -> read_digits 0 (Itoa z) = Some z.
Proof.
  intros Hz. destruct (Itoa_cases z) as [E|[[Hp E]|[Hn E]]]; [| |lia].
  - assert (z = 0)%Z as -> by (by apply Itoa_inj). done.
  - rewrite E, read_digits_pretty. simpl. by rewrite Z2N.id by lia.
Qed.

Lemma dec_strings (l : list string) :
  map (fun v => (dec_str (fun s _ => s) v "").1) (map JStr l) = l
  /\ forallb (fun v => (dec_str (fun s (_ : string) => s) v "").2) (map JStr l) = true.
Proof. induction l as [|x l [IH1 IH2]]; [done|]. simpl in *. by rewrite IH1, IH2. Qed.

(** A marshalled request is read back. *)
Lemma decode_GetPrivateSignersRequest req :
  (0 <= gp_Count req < 2 ^ 64)%Z -> (- 2 ^ 63 <= gp_ValidityPeriod req < 2 ^ 63)%Z ->
  json_Unmarshal dec_GetPrivateSignersRequest (json_print (GetPrivateSignersRequest_json req))
    zero_GetPrivateSignersRequest = (req, None).
Proof.
  intros Hc Hv. destruct req as [n l e v]. cbn [gp_Count gp_ValidityPeriod] in *.
  unfold json_Unmarshal. rewrite json_parse_print.
  - unfold GetPrivateSignersRequest_json. cbn [gp_Count gp_AttrNames gp_EncryptAttrs gp_ValidityPeriod].
    destruct (dec_strings l) as [H1 H2]. lazy -[map forallb] in H1, H2. destruct e, (Z.eqb_spec v 0) as [->|Hne], l as [|x l];
      lazy -[Atoi Itoa read_digits Z.pow Z.ltb map forallb]; rewrite read_digits_Itoa by lia;
      (rewrite (proj2 (Z.ltb_lt _ _)) by lia); rewrite ?Atoi_Itoa by lia;
      rewrite ?H1, ?H2; reflexivity.
  - unfold GetPrivateSignersRequest_json. cbn [gp_Count gp_AttrNames gp_EncryptAttrs gp_ValidityPeriod].
    pose proof (Itoa_wf n) as Hn. pose proof (Itoa_wf v) as Hw. cbn [json_wf] in Hn, Hw.
    assert (forallb json_wf (map JStr l) = true) as Hl by (clear; induction l as [|y l IH]; [done|]; exact IH).
    destruct e, (v =? 0)%Z, l; cbn [json_wf forallb app map]; rewrite ?Hn, ?Hw; cbn [json_wf forallb map] in Hl |- *;
      rewrite ?Hl; reflexivity.
Qed.

(** ** The batch asked for *)

Lemma select_attrs_ext f g names : (forall a, f a = g a) -> select_attrs f names = select_attrs g names.
Proof. intros H. induction names as [|n names IH]; [done|]. simpl. by rewrite H, IH. Qed.

Section spec.
Context {Key : Type} (KeyDeriv : Key -> string -> outcome Key) (SKI : Key -> bytes).

(** The request the TCert manager gets for the user [id]: the values of the
    attributes asked for, and the key of the user's group. *)
Definition spec_batch_request (V : RegistryView) (root : Key) (id : string) (req : GetPrivateSignersRequest)
    : option GetBatchRequest :=
  match rv_users V !! id with
  | Some v =>
      match derive KeyDeriv root (Split (ui_Group (uv_info v)) "/") with
      | Some k => Some (mkGetBatchRequest (gp_Count req) (select_attrs (view_attr V id) (gp_AttrNames req))
                          (gp_EncryptAttrs req) (gp_ValidityPeriod req) (SKI k))
      | None => None
      end
  | None => None
  end.

(** Key derivation ends. *)
Hypothesis Hderiv : forall k n, concludes (KeyDeriv k n).

Lemma GetKey_rev_concludes rpath : forall t, concludes (GetKey_rev KeyDeriv rpath t).1.
Proof.
  induction rpath as [|name rpath IH]; intros t; [done|]. cbn [GetKey_rev].
  unfold mbind, comp_bind, gets. destruct (keys t !! _); [done|]. specialize (IH t).
  destruct (GetKey_rev KeyDeriv rpath t) as [[pk|e|q|q|] t1]; try done.
  unfold deriveChildKey, map_err, lift. specialize (Hderiv pk name). by destruct (KeyDeriv pk name).
Qed.

(** A query of the key tree: the key the path specifies, or an error. *)
Lemma GetKey_found t path :
  cache_ok KeyDeriv t -> plain_path path ->
  exists t', cache_ok KeyDeriv t' /\ rootKey t' = rootKey t
    /\ match derive KeyDeriv (rootKey t) path with
       | Some k => GetKey KeyDeriv path t = (Ok k, t')
       | None => exists e, GetKey KeyDeriv path t = (Err e, t')
       end.
Proof.
  intros Ht Hp. unfold GetKey. pose proof (GetKey_rev_ok KeyDeriv (reverse path) t Ht) as H.
  rewrite reverse_involutive in H. destruct (H Hp) as (H1 & H2 & H3).
  pose proof (GetKey_rev_concludes (reverse path) t) as Hc.
  destruct (GetKey_rev KeyDeriv (reverse path) t) as [o t']. exists t'. cbn [fst snd] in *.
  split; [done|]. split; [done|]. destruct (derive _ _ _) as [k|].
  - by rewrite (proj2 (H3 k) eq_refl).
  - destruct o as [k|e|q|q|]; try done; [|by eexists]. by pose proof (proj1 (H3 k) eq_refl).
Qed.
End spec.

Section handler.
Context {Key : Type} (KeyDeriv : Key -> string -> outcome Key) (SKI : Key -> bytes) (C : Crypto) (hd : DBHandle).
Context (batch : GetBatchRequest -> Certificate -> comp (Srv Key) GetBatchResponse).
Context (resp_json : GetBatchResponse -> json).
Hypothesis Hderiv : forall k n, concludes (KeyDeriv k n).
Notation R := (accessor_registry (Accessor.mkAccessor (Some hd))).

Lemma getUserInfo_run d id names :
  db_inv d ->
  match rv_users (db_view d) !! id with
  | Some v => getUserInfo R id names d
      = (Ok (select_attrs (view_attr (db_view d) id) names, Split (ui_Group (uv_info v)) "/"), d)
  | None => exists e, getUserInfo R id names d = (Err e, d)
  end.
Proof.
  intros Hd. unfold getUserInfo. destruct (rv_users (db_view d) !! id) as [v|] eqn:E.
  - destruct (@law_GetUser_found _ R (accessor_laws hd) d id names v Hd E) as (u & Hu & _ & Hp & Ha).
    rewrite (bind_ok _ _ _ _ _ Hu), Hp. unfold mret, comp_ret. do 3 f_equal. apply select_attrs_ext.
    intros a. rewrite Ha. unfold view_attr. by rewrite E.
  - destruct (@law_GetUser_missing _ R (accessor_laws hd) d id names Hd E) as [e He].
    exists e. exact (bind_err _ _ _ _ _ He).
Qed.

(** The tcert handler for a verified token: the manager is asked for the
    batch specified, with the key tree's cache filled. *)
Lemma tcert_handler_refines r s cert req :
  db_inv (s_db s) -> cache_ok KeyDeriv (s_tree s) ->
  Method r = "POST" -> body_err r = None -> authorization r <> "" ->
  VerifyToken C (authorization r) (bytes_of_string (body r)) = Ok cert ->
  json_Unmarshal dec_GetPrivateSignersRequest (body r) zero_GetPrivateSignersRequest = (req, None) ->
  exists t', cache_ok KeyDeriv t' /\ rootKey t' = rootKey (s_tree s)
    /\ match spec_batch_request KeyDeriv SKI (db_view (s_db s)) (rootKey (s_tree s)) (CommonName cert) req with
       | Some breq => NewTCertHandler KeyDeriv SKI C R batch resp_json r s
           = HTTPHandler ["POST"] (fun _ => map_err NewBadRequest
               (resp ← batch breq cert; mret (SendResponse (resp_json resp)))) r (mkSrv (s_db s) t')
       | None => exists e, NewTCertHandler KeyDeriv SKI C R batch resp_json r s
           = (Ok (HandleError (NewBadRequest e)), mkSrv (s_db s) t')
       end.
Proof.
  intros Hd Ht Hm Hb Ha Hv Hj.
  assert (Hs : mkSrv (s_db s) (s_tree s) = s) by (by destruct s).
  set (rest := fun attrs path => prekey ← map_err (fun err => Errorf "Failed to get prekey for user %s: %s"
      [FStr (CommonName cert); FStr (Error err)]) (onTree (GetKey KeyDeriv path));
    resp ← batch (mkGetBatchRequest (gp_Count req) attrs (gp_EncryptAttrs req) (gp_ValidityPeriod req) (SKI prekey)) cert;
    mret (SendResponse (resp_json resp))).
  assert (Hh : tcertHandler_handle KeyDeriv SKI C R batch resp_json r s
    = ('(attrs, path) ← onDB (getUserInfo R (CommonName cert) (gp_AttrNames req)); rest attrs path) s).
  { unfold tcertHandler_handle, ReadAll. rewrite Hb.
    rewrite (bind_ok _ _ s (body r) s) by done.
    rewrite (bind_ok _ _ s req s) by (unfold Unmarshal, map_err, decode; by rewrite Hj).
    unfold getCertFromAuthHdr. rewrite bool_decide_false by done.
    destruct (VerifyToken_decoded C _ _ _ Hv) as (b64 & sg & ->). done. }
  pose proof (getUserInfo_run (s_db s) (CommonName cert) (gp_AttrNames req) Hd) as Hu.
  unfold NewTCertHandler, spec_batch_request. rewrite !HTTPHandler_post by done.
  unfold tcertHandler_Handle, map_err.
  destruct (rv_users (db_view (s_db s)) !! CommonName cert) as [v|].
  2:{ destruct Hu as [e Hu]. exists (s_tree s). split; [done|]. split; [done|]. exists e.
      rewrite Hh, (bind_err _ _ _ _ _ (onDB_run _ _ _ _ Hu)). by rewrite Hs. }
  destruct (GetKey_found KeyDeriv Hderiv (s_tree s) (Split (ui_Group (uv_info v)) "/") Ht (Split_parts_no_sep _ _))
    as (t' & H1 & H2 & H3).
  exists t'. split; [done|]. split; [done|].
  rewrite Hh, (bind_ok _ _ _ _ _ (onDB_run _ _ _ _ Hu)), Hs. unfold rest.
  destruct (derive _ _ _) as [k|].
  - rewrite (bind_ok _ _ s k (mkSrv (s_db s) t')) by (unfold map_err, onTree; by rewrite H3).
    by rewrite HTTPHandler_post.
  - destruct H3 as [e H3]. eexists. erewrite (bind_err _ _ s _ (mkSrv (s_db s) t'));
      [reflexivity|unfold map_err, onTree; rewrite H3; reflexivity].
Qed.
End handler.

(** ** The client *)

Section end_to_end.
Context {Key : Type} (KeyDeriv : Key -> string -> outcome Key) (SKI : Key -> bytes).
Context (C : Crypto) `{!CryptoLaws C} (CFG : Config) (hd : DBHandle) (fuel : nat).
Context (checkCRL : Certificate -> string -> bool * bool).
Context {SR : Type} (zero : SR) (dec : decoder SR) (issue : SR -> outcome (bytes * CertificateRecord)).
Context (B : BlockCipher) `{!CipherLaws B} (hmac384 : bytes -> bytes -> bytes).
Context (range : gmap string Z -> list (string * Z)) (curve : Curve) (pkix : Z -> bytes).
Context (CreateCertificate : Template -> Certificate -> PrivateKey -> outcome bytes).
Context (ReadFull : nat -> comp (Srv Key) bytes) (clock : comp (Srv Key) Z) (rand_Int : Z -> comp (Srv Key) Z).
Context `{E : !TCertEnv hmac384 ReadFull clock rand_Int CreateCertificate}.
Hypothesis Hread : forall n, readonly (ReadFull n).
Hypothesis Hclock : readonly clock.
Hypothesis Hrand : forall m, readonly (rand_Int m).
Hypothesis Hderiv : forall k n, concludes (KeyDeriv k n).
Context (resp_json : GetBatchResponse -> json) (tm : Mgr).
Notation R := (accessor_registry (Accessor.mkAccessor (Some hd))).
Notation a := (CertDBAccessor.NewCertDBAccessor (Some hd)).
Let batch := GetBatch B hmac384 range curve pkix CreateCertificate ReadFull clock rand_Int tm.
Let listening := serve KeyDeriv SKI C CFG R (Some a) checkCRL (db_RandomString fuel) zero dec issue batch resp_json.

(** The number of certificates a request is for. *)
Definition batch_count (req : GetPrivateSignersRequest) : Z :=
  if (gp_Count req =? 0)%Z then MaxAllowedBatchSize tm else gp_Count req.

(** The manager, as the handler calls it. *)
Lemma batch_run breq cert pub s :
  PubKey cert = ECDSAKey pub -> (0 <= Count breq)%Z -> (0 <= MaxAllowedBatchSize tm)%Z ->
  if (Count breq <=? MaxAllowedBatchSize tm)%Z
  then exists nb o, (clock s).1 = Ok nb /\ batch breq cert s = (o, s)
    /\ batch_result B hmac384 range curve pkix CreateCertificate tm breq cert pub
         (if (Count breq =? 0)%Z then MaxAllowedBatchSize tm else Count breq) nb o
  else exists e, batch breq cert s = (Err e, s).
Proof.
  intros Hpub Hc Hm. pose proof (GetBatch_readonly B hmac384 range curve pkix CreateCertificate ReadFull clock rand_Int
    Hread Hclock Hrand tm breq cert s) as Hro.
  destruct (Z.leb_spec (Count breq) (MaxAllowedBatchSize tm)) as [Hle|Hgt].
  - destruct (GetBatch_run B hmac384 range curve pkix CreateCertificate ReadFull clock rand_Int
      tm breq cert pub (if (Count breq =? 0)%Z then MaxAllowedBatchSize tm else Count breq) s Hpub)
      as (nb & w1 & o & w' & H1 & H2 & H3).
    { unfold batch_size. destruct (Count breq =? 0)%Z; [done|]. by rewrite (proj2 (Z.leb_le _ _)). }
    { destruct (Count breq =? 0)%Z; lia. }
    exists nb, o. rewrite H1. rewrite H2 in Hro. simpl in Hro. subst w'. done.
  - unfold batch, GetBatch, batch_size. rewrite (proj2 (Z.eqb_neq _ _)), (proj2 (Z.leb_gt _ _)) by lia. by eexists.
Qed.

Lemma serve_tcert r s :
  URL r = "/api/v1/cfssl/tcert" ->
  listening r s = ServeHTTP C CFG R checkCRL onDB
    (mkCopAuthHandler false true (NewTCertHandler KeyDeriv SKI C R batch resp_json)) r s.
Proof. intros Hu. unfold listening, serve. by rewrite Hu. Qed.

(** The tcert endpoint as the network sees it, for an admitted token. *)
Lemma tcert_served r s req cert der sig pub :
  Authentication CFG = true -> URL r = "/api/v1/cfssl/tcert" -> Method r = "POST" ->
  json_Unmarshal dec_GetPrivateSignersRequest (body r) zero_GetPrivateSignersRequest = (req, None) ->
  (0 <= gp_Count req)%Z -> (0 <= MaxAllowedBatchSize tm)%Z -> PubKey cert = ECDSAKey pub ->
  authorization r = B64Encode der +:+ "." +:+ B64Encode sig ->
  VerifyToken C (authorization r) (bytes_of_string (body r)) = Ok cert -> current checkCRL (s_db s) cert ->
  db_inv (s_db s) -> cache_ok KeyDeriv (s_tree s) ->
  exists t', cache_ok KeyDeriv t' /\ rootKey t' = rootKey (s_tree s)
    /\ let s' := mkSrv (s_db s) t' in
       match spec_batch_request KeyDeriv SKI (db_view (s_db s)) (rootKey (s_tree s)) (CommonName cert) req,
             (gp_Count req <=? MaxAllowedBatchSize tm)%Z with
       | Some breq, true => exists nb o, (clock s').1 = Ok nb
           /\ batch_result B hmac384 range curve pkix CreateCertificate tm breq cert pub (batch_count req) nb o
           /\ match o with
              | Ok resp => listening r s = (Ok (SendResponse (resp_json resp)), s')
              | _ => exists e, listening r s = (Ok (HandleError (NewBadRequest e)), s')
              end
       | _, _ => exists e, listening r s = (Ok (HandleError (NewBadRequest e)), s')
       end.
Proof.
  intros HA Hu Hm Hj Hc Hmax Hpub Hr Hv Hcur Hd Ht.
  pose proof (token_admitted C CFG hd checkCRL (NewTCertHandler KeyDeriv SKI C R batch resp_json)
    r (s_db s) cert der sig HA Hr Hv Hcur) as Hadm.
  assert (Hl : listening r s = NewTCertHandler KeyDeriv SKI C R batch resp_json
    (set_eid (CommonName cert) (set_Body (body r) r)) s).
  { rewrite serve_tcert by done. unfold ServeHTTP.
    rewrite (bind_attempt_ok _ _ _ _ _ (onDB_run _ _ _ _ Hadm)). by destruct s. }
  destruct (tcert_handler_refines KeyDeriv SKI C hd batch resp_json Hderiv
    (set_eid (CommonName cert) (set_Body (body r) r)) s cert req Hd Ht Hm eq_refl) as (t' & H1 & H2 & H3); [|done|done|].
  { cbn [authorization set_eid set_Body]. rewrite Hr. by destruct (B64Encode der). }
  exists t'. split; [done|]. split; [done|]. intros s'. rewrite Hl.
  destruct (spec_batch_request _ _ _ _ _ _) as [breq|] eqn:Eb; [|exact H3].
  assert (Count breq = gp_Count req) as Hcount.
  { unfold spec_batch_request in Eb. repeat case_match; by simplify_eq. }
  fold s' in H3. rewrite HTTPHandler_post in H3 by done.
  pose proof (batch_run breq cert pub s' Hpub) as Hb. rewrite Hcount in Hb. specialize (Hb Hc Hmax).
  rewrite H3. unfold map_err, mbind, comp_bind. destruct (gp_Count req <=? _)%Z.
  - destruct Hb as (nb & o & H4 & H5 & H6). exists nb, o. split; [done|]. split; [exact H6|]. rewrite H5.
    destruct o as [resp|e|q|q|]; [done|by exists e|by destruct H6 as (half & hk & _ & _ & [])..].
  - destruct Hb as [e Hb]. exists e. by rewrite Hb.
Qed.

Context (files : string -> option bytes) (pair : string -> string -> option (string * string)).
Context (roots : bytes -> bool) (h p : string) (z : Z) (home : string).
Hypothesis Hh : all_chars host_char h = true.
Hypothesis Hp : all_digits p = true.
Hypothesis Hz : Atoi p = Some z.
Let addr : string := h +:+ String ":" p.
Let c : Client := mkClient ("http://" +:+ addr) home.
Let Do := deliver listening addr.

(** (C28) Transaction certificates end to end: a client whose identity holds an
    ECDSA certificate the server accepts, and the matching key, succeeds
    exactly when the certificate's owner is registered, the key of the owner's
    group can be derived, the number asked for is within the limit and each
    certificate of the batch can be created.  The server then answers with a
    batch of that number (or the limit, for none), valid from now for the
    smaller of the two periods, in which each certificate has a public key
    derived from the owner's, the owner's identity, and the values of the
    attributes the owner has of those asked for, encrypted (when that is asked
    for) under keys derived from the key of the owner's group; the client gets
    no signer out of it.  Otherwise the client gets an error.  In both cases the database is unchanged and the key tree holds derived
    keys only. *)
Theorem client_tcert_refines name key der cert pub req s :
  Authentication CFG = true ->
  GetX509CertificateFromPEM C der = Ok cert -> der <> [] -> matching_key C cert key ->
  (forall b, exists t, CreateToken C der key b = Ok t) -> current checkCRL (s_db s) cert ->
  PubKey cert = ECDSAKey pub -> db_inv (s_db s) -> cache_ok KeyDeriv (s_tree s) ->
  (0 <= gp_Count req < 2 ^ 64)%Z -> (- 2 ^ 63 <= gp_ValidityPeriod req < 2 ^ 63)%Z ->
  (0 <= MaxAllowedBatchSize tm)%Z ->
  let body := json_print (GetPrivateSignersRequest_json req) in
  let signers := GetPrivateSigners C (read_file files) (load_pair pair) roots Do
                   (newIdentity (Some c) name (Some key) (Some der)) req in
  exists t', cache_ok KeyDeriv t' /\ rootKey t' = rootKey (s_tree s)
    /\ let s' := mkSrv (s_db s) t' in
       match spec_batch_request KeyDeriv SKI (db_view (s_db s)) (rootKey (s_tree s)) (CommonName cert) req,
             (gp_Count req <=? MaxAllowedBatchSize tm)%Z with
       | Some breq, true => exists token nb o, CreateToken C der key (bytes_of_string body) = Ok token
           /\ (clock s').1 = Ok nb
           /\ batch_result B hmac384 range curve pkix CreateCertificate tm breq cert pub (batch_count req) nb o
           /\ match o with
              | Ok resp => listening (mkRequest "POST" "/api/v1/cfssl/tcert" token "" body None) s
                             = (Ok (SendResponse (resp_json resp)), s')
                           /\ signers s = (Ok [], s')
              | _ => exists e, signers s = (Err e, s')
              end
       | _, _ => exists e, signers s = (Err e, s')
       end.
Proof.
  intros HA Hcert Hne Hkey Htok Hcur Hpub Hd Ht Hc Hvp Hmax body signers.
  destruct (Htok (bytes_of_string body)) as [t Htk].
  destruct (CreateToken_verifies C der key (bytes_of_string body) cert t Hcert Hne Hkey Htk) as [Hv [sig Hsig]].
  set (r := mkRequest "POST" "/api/v1/cfssl/tcert" t "" body None).
  destruct (tcert_served r s req cert der sig pub HA eq_refl eq_refl (decode_GetPrivateSignersRequest req Hc Hvp)
    (proj1 Hc) Hmax Hpub Hsig Hv Hcur Hd Ht) as (t' & H1 & H2 & H3).
  exists t'. split; [done|]. split; [done|]. cbv zeta in H3. set (s' := mkSrv (s_db s) t') in *. intros s0. subst s0.
  assert (Hbad : (exists e, listening r s = (Ok (HandleError (NewBadRequest e)), s')) -> exists e, signers s = (Err e, s')).
  { intros [e He]. unfold signers, GetPrivateSigners, Marshal. rewrite bind_mret.
    pose proof (Post_answer C files pair roots listening h p z home Hh Hp Hz name key der "tcert" body t s
      _ _ eq_refl Htk He) as Hpost.
    destruct Hpost as [e' He']. exists e'. exact (bind_err _ _ _ _ _ He'). }
  destruct (spec_batch_request _ _ _ _ _ _) as [breq|]; [|by apply Hbad].
  destruct (gp_Count req <=? MaxAllowedBatchSize tm)%Z; [|by apply Hbad].
  destruct H3 as (nb & o & H4 & H5 & H6). exists t, nb, o. do 3 (split; [done|]).
  destruct o as [resp| | | |]; [|by apply Hbad..]. split; [exact H6|].
  unfold signers, GetPrivateSigners, Marshal. rewrite bind_mret.
  pose proof (Post_answer C files pair roots listening h p z home Hh Hp Hz name key der "tcert" body t s
    _ _ eq_refl Htk H6) as Hpost.
  exact (bind_ok _ _ _ _ _ Hpost).
Qed.
End end_to_end.

(** ** A concrete request *)

#[export] Instance server_env {Key} :
  TCertEnv (W := Srv Key) toy_hmac (fun n => mret (replicate n xaa)) (mret 5%Z) (fun m => mret 0%Z) (fun _ _ _ => Ok [x30]).
Proof.
  split.
  - intros n w. eexists _, w. split; [reflexivity|apply length_replicate].
  - exact (env_hmac (TCertEnv := toy_env)).
  - intros w. by eexists _, w.
  - intros m w Hm. exists 0%Z, w. split; [done|lia].
  - intros t c k. left. by eexists.
Qed.

Definition toy_Signers (req : GetPrivateSignersRequest) : comp (Srv (list string)) (list TemporalSigner) :=
  GetPrivateSigners toy_crypto (read_file (fun _ => None)) (load_pair (fun _ _ => None)) (fun _ => true) toy_net
    (newIdentity (Some toy_client) "admin" (Some [x09]) (Some [x02])) req.

(** Two certificates are made; more than the limit are refused. *)
Lemma client_tcert_refines_witness :
  (exists token resp s', toy_listen (mkRequest "POST" "/api/v1/cfssl/tcert" token ""
        (json_print (GetPrivateSignersRequest_json (mkGetPrivateSignersRequest 2 [] false 0))) None) toy_state
        = (Ok (SendResponse resp), s')
     /\ toy_Signers (mkGetPrivateSignersRequest 2 [] false 0) toy_state = (Ok [], s'))
  /\ exists e s', toy_Signers (mkGetPrivateSignersRequest 1001 [] false 0) toy_state = (Err e, s').
Proof.
  assert (Hrun : forall req, (0 <= gp_Count req < 2 ^ 64)%Z -> (- 2 ^ 63 <= gp_ValidityPeriod req < 2 ^ 63)%Z -> _)
    by exact (fun req Hc Hv => client_tcert_refines toy_deriv (fun k => bytes_of_string (Join k "/")) toy_crypto newConfig
      sqlite3 12 (fun _ _ => (false, true)) "" toy_sign_dec Handlers.toy_issue toy_cipher toy_hmac toy_range toy_curve
      (fun _ => []) (fun _ _ _ => Ok [x30]) (fun n => mret (replicate n xaa)) (mret 5%Z) (fun m => mret 0%Z)
      ltac:(intros; apply readonly_ret) ltac:(apply readonly_ret) ltac:(intros; apply readonly_ret)
      ltac:(intros k n; unfold toy_deriv; destruct (bool_decide _); exact I) (fun _ => JNull) toy_mgr (fun _ => None) (fun _ _ => None)
      (fun _ => true) "localhost" "8888" 8888 "/home/cop" eq_refl eq_refl eq_refl "admin" [x09] [x02]
      (toy_cert (ECDSAKey 7)) 7%Z req toy_state eq_refl eq_refl ltac:(discriminate)
      ltac:(exists 7%Z; split; reflexivity) ltac:(intros b; eexists; reflexivity)
      ltac:(split; [vm_compute; split; reflexivity|reflexivity]) eq_refl toy_state_inv
      ltac:(intros k x Hk; simpl in Hk; by rewrite lookup_empty in Hk) Hc Hv ltac:(vm_compute; discriminate)).
  split.
  - destruct (Hrun (mkGetPrivateSignersRequest 2 [] false 0) ltac:(simpl; lia) ltac:(simpl; lia)) as (t' & _ & _ & H).
    change (spec_batch_request _ _ _ _ _ _) with
      (Some (mkGetBatchRequest 2 [] false 0 (bytes_of_string (Join ["bank_a"] "/")))) in H.
    change (2 <=? 1000)%Z with true in H. cbv iota zeta in H. unfold batch_result in H.
    destruct H as (token & nb & o & _ & _ & (half & hk & _ & _ & H1) & H2).
    destruct o as [resp|e|q|q|]; [|destruct H1 as (i & _ & serial & tmpl & ks & e' & _ & H1); discriminate H1|destruct H1..].
    exists token, JNull. eexists. exact H2.
  - destruct (Hrun (mkGetPrivateSignersRequest 1001 [] false 0) ltac:(simpl; lia) ltac:(simpl; lia)) as (t' & _ & _ & H).
    destruct H as [e H]. exists e. eexists. exact H.
Defined.
