(* ===== verification/Responses.v ===== *)
(** * The form of the server's answers

    Every answer of the COP endpoints, whatever the request, has one of the
    two forms of CFSSL's api package: a success with status 200, or an error
    with an error status and exactly one message.  [typed] is that form,
    [always_typed] and [errs_fail] (file ClientServer) are what the handlers
    are shown to satisfy. *)

From S2P Require Import Prelude GoStrings GoFmt GoJson CopError Base64 Http Registry GoUnmarshal Token Database DbAccessor CertDB Util Config Register Auth Handlers TCertUtil KeyTree TCert Server Client ClientServer.

Definition typed (resp : Response) : Prop :=
  (status resp = 200%Z /\ exists v, json_parse (resp_body resp) = Some (NewSuccessResponse v))
  \/ ((400 <= status resp)%Z /\ exists msg code, json_parse (resp_body resp) = Some (NewErrorResponse msg code)).

Lemma typed_success v : json_wf v = true -> typed (SendResponse v).
Proof.
  intros Hv. left. split; [done|]. exists v. unfold SendResponse. cbn [resp_body]. apply json_parse_response.
  unfold NewSuccessResponse. cbn [json_wf forallb]. by rewrite Hv.
Qed.

Lemma typed_error msg code st : (400 <= st)%Z -> typed (http_Error (json_print (NewErrorResponse msg code)) st).
Proof.
  intros Hst. right. split; [done|]. exists msg, code. unfold http_Error. cbn [resp_body]. apply json_parse_response.
  unfold NewErrorResponse, message_json. pose proof (Itoa_wf code) as H. cbn [json_wf] in H.
  cbn [json_wf forallb]. by rewrite H.
Qed.

Lemma typed_HandleError e : failing e = true -> typed (HandleError e).
Proof. intros He. unfold HandleError. destruct e; apply typed_error; simpl in *; lia. Qed.

Definition always_typed {S} (m : comp S Response) : Prop := forall s resp s', m s = (Ok resp, s') -> typed resp.

Lemma always_typed_ret {S} resp : typed resp -> always_typed (mret (M := comp S) resp).
Proof. by intros H s resp' s' [= <- _]. Qed.

Lemma always_typed_fail {S} e : always_typed (fail (S := S) e).
Proof. by intros s resp s' [= ]. Qed.

Lemma always_typed_bind {S A} (m : comp S A) (f : A -> comp S Response) :
  (forall x, always_typed (f x)) -> always_typed (m ≫= f).
Proof. intros Hf s resp s' (x & s1 & _ & H)%bind_ok_inv. by eapply Hf. Qed.

Lemma always_typed_bind_on {S A} (m : comp S A) (f : A -> comp S Response) :
  (forall x s s', m s = (Ok x, s') -> always_typed (f x)) -> always_typed (m ≫= f).
Proof. intros Hf s resp s' (x & s1 & Hm & H)%bind_ok_inv. by eapply Hf. Qed.

Lemma always_typed_map_err {S} f (m : comp S Response) : always_typed m -> always_typed (map_err f m).
Proof. intros Hm s resp s'. unfold map_err. destruct (m s) as [[] ?] eqn:E; try done. intros [= <- <-]. by eapply Hm. Qed.

Lemma always_typed_onDB {Key} (m : comp DB Response) : always_typed m -> always_typed (onDB (Key := Key) m).
Proof.
  intros Hm s resp s'. unfold onDB. destruct (m (s_db s)) as [o d'] eqn:E. intros [= -> _]. by eapply Hm.
Qed.

(** CFSSL's method filter. *)
Lemma HTTPHandler_typed {S} methods (handle : Request -> comp S Response) r :
  errs_fail (handle r) -> always_typed (handle r) -> always_typed (HTTPHandler methods handle r).
Proof.
  intros He Ht s resp s' (x & s1 & Hx & H)%bind_ok_inv.
  apply attempt_ok_inv in Hx as [(e & -> & Hx)|(resp' & -> & Hx)]; injection H as <- <-.
  - apply typed_HandleError. case_bool_decide; [by eapply He|]. by injection Hx as <- _.
  - case_bool_decide; [by eapply Ht|done].
Qed.

(** One step of a handler's body: the shape of the computation decides the
    lemma. *)
Ltac typed_answer :=
  match goal with
  | |- typed (SendResponse (bytes_json _)) => apply typed_success; exact eq_refl
  | |- typed (SendResponse (JObj [])) => apply typed_success; exact eq_refl
  | |- typed (badRequest _) => unfold badRequest, httpError; apply typed_error; clear; lia
  | |- typed (authErr _) => unfold authErr, httpError; apply typed_error; clear; lia
  | |- typed (notFound _) => unfold notFound, httpError; apply typed_error; clear; lia
  | |- typed (dbErr _) => unfold dbErr, httpError; apply typed_error; clear; lia
  end.
Ltac typed_step :=
  lazymatch goal with
  | |- always_typed (mret _) => apply always_typed_ret; try typed_answer
  | |- always_typed (fail _) => apply always_typed_fail
  | |- always_typed (_ ≫= _) => apply always_typed_bind; intros ?
  | |- always_typed (if ?b then _ else _) => destruct b
  | |- always_typed (match ?x with _ => _ end) => destruct x
  end.

Section endpoints.
Context {Key : Type} (KeyDeriv : Key -> string -> outcome Key) (SKI : Key -> bytes).
Context (C : Crypto) (CFG : Config) (hd : DBHandle) (fuel : nat).
Context (checkCRL : Certificate -> string -> bool * bool).
Context {SR : Type} (zero : SR) (dec : decoder SR) (issue : SR -> outcome (bytes * CertificateRecord)).
Context (mgr_GetBatch : GetBatchRequest -> Certificate -> comp (Srv Key) GetBatchResponse).
Context (resp_json : GetBatchResponse -> json) (Hresp : forall resp, json_wf (resp_json resp) = true).
Let R := accessor_registry (Accessor.mkAccessor (Some hd)).
Let a := CertDBAccessor.NewCertDBAccessor (Some hd).

Lemma ReadAll_errs {S} r : body_err r = None -> errs_fail (ReadAll (S := S) r).
Proof. intros H. unfold ReadAll. rewrite H. apply errs_fail_ret. Qed.

Lemma register_typed r :
  body_err r = None -> always_typed (NewRegisterHandler CFG R (db_RandomString fuel) r).
Proof.
  intros Hb. apply HTTPHandler_typed.
  - unfold registerHandler_Handle. apply errs_fail_bind; [by apply ReadAll_errs|intros b].
    apply errs_fail_bind; [apply errs_fail_decode|intros req].
    apply errs_fail_bind; [apply RegisterUser_errs|intros tok; apply errs_fail_ret].
  - unfold registerHandler_Handle. repeat typed_step.
Qed.

Lemma sign_typed endpoint r : body_err r = None -> always_typed (newSignHandler C (Some a) zero dec issue endpoint r).
Proof.
  intros Hb. apply HTTPHandler_typed.
  - unfold signHandler_Handle. apply errs_fail_bind; [by apply ReadAll_errs|intros b].
    unfold Unmarshal. solve_errs.
  - unfold signHandler_Handle. repeat typed_step.
Qed.

Lemma revoke_typed r : always_typed (NewRevokeHandler C R (Some a) r).
Proof.
  apply HTTPHandler_typed.
  - unfold revokeHandler_Handle, revoke_request. solve_errs.
  - unfold revokeHandler_Handle, revoke_request. repeat typed_step.
Qed.

Lemma tcert_typed r : always_typed (NewTCertHandler KeyDeriv SKI C R mgr_GetBatch resp_json r).
Proof.
  apply HTTPHandler_typed.
  - unfold tcertHandler_Handle. solve_errs.
  - unfold tcertHandler_Handle, tcertHandler_handle. apply always_typed_map_err.
    repeat typed_step. apply typed_success, Hresp.
Qed.

(** Authentication: an error is answered as one, a request that passes has its
    body read. *)
Lemma serveHTTP_errs {W} (ah : copAuthHandler W) r : errs_fail (serveHTTP C CFG R checkCRL ah r).
Proof.
  unfold serveHTTP. case_match; [apply errs_fail_ret|]. case_match; [by apply errs_fail_fail|]. case_match.
  - case_match. case_match; [by apply errs_fail_fail|].
    apply errs_fail_bind_on; [apply GetUser_errs|]. intros u s1 s2 [rec ->]%GetUser_object.
    apply errs_fail_bind; [apply Login_errs|intros _; apply errs_fail_ret].
  - case_match; [|apply errs_fail_ret]. unfold VerifyCertificate. solve_errs.
Qed.

Lemma serveHTTP_body {W} (ah : copAuthHandler W) r d r' d' :
  serveHTTP C CFG R checkCRL ah r d = (Ok r', d') -> body_err r' = None.
Proof.
  unfold serveHTTP. case_match; [by intros [= <- _]|]. case_match; [done|]. case_match.
  - case_match. case_match; [done|]. intros (u & d1 & _ & Hk)%bind_ok_inv.
    apply bind_ok_inv in Hk as (? & d2 & _ & Hk). by injection Hk as <- _.
  - case_match; [|by intros [= <- _]]. intros (b & d1 & _ & Hk)%bind_ok_inv.
    apply bind_ok_inv in Hk as (cert & d2 & _ & Hk). apply bind_ok_inv in Hk as ([] & d3 & _ & Hk).
    repeat case_match; try done; by injection Hk as <- _.
Qed.

Lemma ServeHTTP_typed (ah : copAuthHandler (Srv Key)) r :
  (forall r', body_err r' = None -> always_typed (next ah r')) ->
  always_typed (ServeHTTP C CFG R checkCRL onDB ah r).
Proof.
  intros Hnext s resp s' (x & s1 & Hx & H)%bind_ok_inv.
  apply attempt_ok_inv in Hx as [(e & -> & Hx)|(r' & -> & Hx)]; unfold onDB in Hx;
    destruct (serveHTTP _ _ _ _ _ _ _) as [o d'] eqn:E; injection Hx as -> <-.
  - injection H as <- <-. apply typed_HandleError. by eapply serveHTTP_errs.
  - eapply Hnext; [|exact H]. by eapply serveHTTP_body.
Qed.

(** The COP endpoints' paths. *)
Definition cop_paths : list string :=
  map (fun e => "/api/v1/cfssl/" +:+ e) ["register"; "enroll"; "reenroll"; "revoke"; "tcert"].

(** (C23) Every answer of the server to a request for a COP endpoint, whatever
    its method, headers and body and whatever the state of the database,
    failures included, is JSON of one of two forms: success with a result and
    status 200, or one error with its message and an error status. *)
Theorem serve_typed r s resp s' :
  URL r ∈ cop_paths ->
  serve KeyDeriv SKI C CFG R (Some a) checkCRL (db_RandomString fuel) zero dec issue mgr_GetBatch resp_json r s = (Ok resp, s') ->
  typed resp.
Proof.
  intros Hu. revert s resp s'. unfold cop_paths in Hu. simpl in Hu. unfold serve.
  repeat (apply elem_of_cons in Hu as [->|Hu]); try (by inversion Hu); simpl; apply ServeHTTP_typed; cbn [next]; intros r' Hb;
    first [apply tcert_typed | apply always_typed_onDB].
  - by apply register_typed.
  - by apply sign_typed.
  - by apply sign_typed.
  - apply revoke_typed.
Qed.
End endpoints.

(** A request without credentials for the enroll endpoint. *)
Definition toy_unauthenticated : Request :=
  mkRequest "POST" "/api/v1/cfssl/enroll" "" "" "{}" None.

Lemma toy_unauthenticated_answered :
  match (toy_listen toy_unauthenticated toy_state).1 with Ok resp => (status resp =? 500)%Z | _ => false end = true.
Proof. vm_compute. reflexivity. Qed.

Lemma serve_typed_witness :
  exists resp s', toy_listen toy_unauthenticated toy_state = (Ok resp, s') /\ status resp = 500%Z /\ typed resp.
Proof.
  pose proof toy_unauthenticated_answered as H.
  destruct (toy_listen toy_unauthenticated toy_state) as [[resp| | | |] s'] eqn:E; try discriminate H.
  exists resp, s'. split; [done|]. split; [by apply Z.eqb_eq|].
  apply (serve_typed toy_deriv (fun k => bytes_of_string (Join k "/")) toy_crypto newConfig sqlite3 12
    (fun _ _ => (false, true)) "" toy_sign_dec toy_issue toy_batch (fun _ => JNull) ltac:(done)
    toy_unauthenticated toy_state resp s'); [|exact E].
  apply list_elem_of_further, list_elem_of_here.
Defined.
