(* ===== verification/Start.v ===== *)
(** * Starting the server (src/cli/server: server.go, tcert.go; src/util/bccsp.go)

    The command [cop server start]: the home directory, the configuration,
    the user registry, the signers, the table of all the endpoints, COP's and
    CFSSL's, each behind the authentication wrapper, and the listening
    sockets; the program cop with that command.  CFSSL's constructors, the
    static files of go.rice and the
    crypto provider are the fields of a record of operations; the iteration
    order of Go's maps is a parameter. *)

From S2P Require Import Prelude GoStrings GoFmt GoJson CopError Base64 Http Registry GoUrl GoUnmarshal Token Database DbAccessor CertDB Util Mux Config CommandLine Register Bootstrap Auth Handlers Ldap DbUtil TCertUtil KeyTree TCert Server Client Commands ClientServer TCertJson Responses.

(** The prefix of all the endpoints. *)
Definition V1APIPrefix : string := "/api/v1/cfssl/".

Definition errBadSigner : error := NewErr "signer not initialized".

(** How the server listens. *)
Inductive Listening (Pool : Type) :=
  | ListenHTTP (addr : string)
  | ListenTLS (addr cert key : string)
  | ListenMutualTLS (addr : string) (clientCAs : Pool) (cert key : string).
Arguments ListenHTTP {Pool} _.
Arguments ListenTLS {Pool} _ _ _.
Arguments ListenMutualTLS {Pool} _ _ _ _.

(** What the server calls of CFSSL, go.rice and the crypto provider; [H] is
    the type of its HTTP handlers. *)
Record Library (Signer OCSPSigner Signing Gen Box File Pool CSP Key H : Type) := mkLibrary {
  DefaultSigning : Signing;
  OverrideRemotes : string -> Signing -> outcome Signing;
  universal_NewSigner : CliConfig -> Signing -> outcome Signer;
  ocspsign_SignerFromConfig : CliConfig -> outcome OCSPSigner;
  LoadPlatforms : string -> outcome unit;
  signhandler_NewHandlerFromSigner : Signer -> outcome H;
  signhandler_NewAuthHandlerFromSigner : Signer -> outcome H;
  info_NewHandler : Signer -> outcome H;
  crl_NewHandler : H;
  NewCertGeneratorHandlerFromSigner : Signer -> Gen;
  SetBundler : string -> string -> Gen -> outcome Gen;
  generator_handler : Gen -> H;
  bundle_NewHandler : string -> string -> outcome H;
  generator_NewHandler : outcome H;
  initca_NewHandler : H;
  scan_NewHandler : string -> outcome H;
  scan_NewInfoHandler : H;
  certinfo_NewHandler : H;
  apiocsp_NewHandler : OCSPSigner -> H;
  FindBox : string -> outcome Box;
  Box_Open : Box -> string -> outcome File;
  FileServer : (string -> outcome File) -> H;
  LoadPEMCertPool : string -> outcome Pool;
  factory_GetDefault : outcome CSP;
  AES256KeyGen : CSP -> outcome Key
}.
Arguments DefaultSigning {_ _ _ _ _ _ _ _ _ _} _.
Arguments OverrideRemotes {_ _ _ _ _ _ _ _ _ _} _ _ _.
Arguments universal_NewSigner {_ _ _ _ _ _ _ _ _ _} _ _ _.
Arguments ocspsign_SignerFromConfig {_ _ _ _ _ _ _ _ _ _} _ _.
Arguments LoadPlatforms {_ _ _ _ _ _ _ _ _ _} _ _.
Arguments signhandler_NewHandlerFromSigner {_ _ _ _ _ _ _ _ _ _} _ _.
Arguments signhandler_NewAuthHandlerFromSigner {_ _ _ _ _ _ _ _ _ _} _ _.
Arguments info_NewHandler {_ _ _ _ _ _ _ _ _ _} _ _.
Arguments crl_NewHandler {_ _ _ _ _ _ _ _ _ _} _.
Arguments NewCertGeneratorHandlerFromSigner {_ _ _ _ _ _ _ _ _ _} _ _.
Arguments SetBundler {_ _ _ _ _ _ _ _ _ _} _ _ _ _.
Arguments generator_handler {_ _ _ _ _ _ _ _ _ _} _ _.
Arguments bundle_NewHandler {_ _ _ _ _ _ _ _ _ _} _ _ _.
Arguments generator_NewHandler {_ _ _ _ _ _ _ _ _ _} _.
Arguments initca_NewHandler {_ _ _ _ _ _ _ _ _ _} _.
Arguments scan_NewHandler {_ _ _ _ _ _ _ _ _ _} _ _.
Arguments scan_NewInfoHandler {_ _ _ _ _ _ _ _ _ _} _.
Arguments certinfo_NewHandler {_ _ _ _ _ _ _ _ _ _} _.
Arguments apiocsp_NewHandler {_ _ _ _ _ _ _ _ _ _} _ _.
Arguments FindBox {_ _ _ _ _ _ _ _ _ _} _ _.
Arguments Box_Open {_ _ _ _ _ _ _ _ _ _} _ _ _.
Arguments FileServer {_ _ _ _ _ _ _ _ _ _} _ _.
Arguments LoadPEMCertPool {_ _ _ _ _ _ _ _ _ _} _ _.
Arguments factory_GetDefault {_ _ _ _ _ _ _ _ _ _} _.
Arguments AES256KeyGen {_ _ _ _ _ _ _ _ _ _} _ _.

(** The process: the machine under it and the global variables of the server
    package; [p_tree] is the key tree inside the TCert handler, [p_stash]
    CFSSL's [bundler.IntermediateStash], [p_mux] the default mux of
    [net/http]. *)
Record Proc (Signer OCSPSigner Box Key H : Type) := mkProc {
  p_machine : Machine;
  p_homeDir : string;
  p_conf : CliConfig;
  p_stash : string;
  p_enrollSigner : option Signer;
  p_ocspSigner : option OCSPSigner;
  p_certDBAccessor : option CertDBAccessor.CertDBAccessor;
  p_box : option Box;
  p_tree : option (KeyTree (Key := Key));
  p_mux : ServeMux H
}.
Arguments mkProc {_ _ _ _ _} _ _ _ _ _ _ _ _ _ _.
Arguments p_machine {_ _ _ _ _} _.
Arguments p_homeDir {_ _ _ _ _} _.
Arguments p_conf {_ _ _ _ _} _.
Arguments p_stash {_ _ _ _ _} _.
Arguments p_enrollSigner {_ _ _ _ _} _.
Arguments p_ocspSigner {_ _ _ _ _} _.
Arguments p_certDBAccessor {_ _ _ _ _} _.
Arguments p_box {_ _ _ _ _} _.
Arguments p_tree {_ _ _ _ _} _.
Arguments p_mux {_ _ _ _ _} _.

Section setters.
Context {Signer OCSPSigner Box Key H : Type}.
Implicit Types p : Proc Signer OCSPSigner Box Key H.

Definition set_machine (m : Machine) p : Proc Signer OCSPSigner Box Key H :=
  mkProc m (p_homeDir p) (p_conf p) (p_stash p) (p_enrollSigner p) (p_ocspSigner p)
  (p_certDBAccessor p) (p_box p) (p_tree p) (p_mux p).
Definition set_homeDir (d : string) p : Proc Signer OCSPSigner Box Key H :=
  mkProc (p_machine p) d (p_conf p) (p_stash p) (p_enrollSigner p) (p_ocspSigner p)
  (p_certDBAccessor p) (p_box p) (p_tree p) (p_mux p).
Definition set_conf (c : CliConfig) p : Proc Signer OCSPSigner Box Key H :=
  mkProc (p_machine p) (p_homeDir p) c (p_stash p) (p_enrollSigner p) (p_ocspSigner p)
  (p_certDBAccessor p) (p_box p) (p_tree p) (p_mux p).
Definition set_stash (d : string) p : Proc Signer OCSPSigner Box Key H :=
  mkProc (p_machine p) (p_homeDir p) (p_conf p) d (p_enrollSigner p) (p_ocspSigner p)
  (p_certDBAccessor p) (p_box p) (p_tree p) (p_mux p).
Definition set_enrollSigner (s : option Signer) p : Proc Signer OCSPSigner Box Key H :=
  mkProc (p_machine p) (p_homeDir p) (p_conf p) (p_stash p) s (p_ocspSigner p)
  (p_certDBAccessor p) (p_box p) (p_tree p) (p_mux p).
Definition set_ocspSigner (s : option OCSPSigner) p : Proc Signer OCSPSigner Box Key H :=
  mkProc (p_machine p) (p_homeDir p) (p_conf p) (p_stash p) (p_enrollSigner p) s
  (p_certDBAccessor p) (p_box p) (p_tree p) (p_mux p).
Definition set_certDBAccessor (a : option CertDBAccessor.CertDBAccessor) p : Proc Signer OCSPSigner Box Key H :=
  mkProc (p_machine p) (p_homeDir p) (p_conf p) (p_stash p) (p_enrollSigner p)
  (p_ocspSigner p) a (p_box p) (p_tree p) (p_mux p).
Definition set_box (b : option Box) p : Proc Signer OCSPSigner Box Key H :=
  mkProc (p_machine p) (p_homeDir p) (p_conf p) (p_stash p) (p_enrollSigner p) (p_ocspSigner p)
  (p_certDBAccessor p) b (p_tree p) (p_mux p).
Definition set_tree (t : option (KeyTree (Key := Key))) p : Proc Signer OCSPSigner Box Key H :=
  mkProc (p_machine p) (p_homeDir p) (p_conf p) (p_stash p) (p_enrollSigner p) (p_ocspSigner p)
  (p_certDBAccessor p) (p_box p) t (p_mux p).
Definition set_mux (m : ServeMux H) p : Proc Signer OCSPSigner Box Key H :=
  mkProc (p_machine p) (p_homeDir p) (p_conf p) (p_stash p) (p_enrollSigner p) (p_ocspSigner p)
  (p_certDBAccessor p) (p_box p) (p_tree p) m.
End setters.

(** What else is outside: the readers of certificates and keys, the clock when
    the TCert manager is loaded and the files it is loaded from; what the
    manager makes certificates with, and how a time is written in JSON; and
    the operations of an LDAP connection, with where the client keeps it. *)
Record Outside (Conn Key : Type) := mkOutside {
  x509_ParseCertificates : bytes -> outcome (list Certificate);
  x509_ParsePKCS8PrivateKey : bytes -> outcome PrivateKey;
  load_time : Z;
  load_file : string -> outcome bytes;
  aes_cipher : BlockCipher;
  hmac_sha384 : bytes -> bytes -> bytes;
  range_header : gmap string Z -> list (string * Z);
  ec_curve : Curve;
  x509_MarshalPKIXPublicKey : Z -> bytes;
  x509_CreateCertificate : Template -> Certificate -> PrivateKey -> outcome bytes;
  io_ReadFull : nat -> comp (Srv Key) bytes;
  time_Now : comp (Srv Key) Z;
  crypto_rand_Int : Z -> comp (Srv Key) Z;
  time_json : Z -> string;
  ldap_Dial : bool -> string -> comp DB Conn;
  ldap_Bind : Conn -> string -> string -> comp DB unit;
  ldap_Search : Conn -> string -> string -> list string -> comp DB (list LDAP.Entry);
  ldap_conn : DB -> option Conn;
  ldap_set_conn : Conn -> DB -> DB
}.
Arguments mkOutside {_ _} _ _ _ _ _ _ _ _ _ _ _ _ _ _ _ _ _ _ _.
Arguments x509_ParseCertificates {_ _} _ _.
Arguments x509_ParsePKCS8PrivateKey {_ _} _ _.
Arguments load_time {_ _} _.
Arguments load_file {_ _} _ _.
Arguments aes_cipher {_ _} _.
Arguments hmac_sha384 {_ _} _ _ _.
Arguments range_header {_ _} _ _.
Arguments ec_curve {_ _} _.
Arguments x509_MarshalPKIXPublicKey {_ _} _ _.
Arguments x509_CreateCertificate {_ _} _ _ _ _.
Arguments io_ReadFull {_ _} _ _.
Arguments time_Now {_ _} _.
Arguments crypto_rand_Int {_ _} _ _.
Arguments time_json {_ _} _ _.
Arguments ldap_Dial {_ _} _ _ _.
Arguments ldap_Bind {_ _} _ _ _ _.
Arguments ldap_Search {_ _} _ _ _ _ _.
Arguments ldap_conn {_ _} _ _.
Arguments ldap_set_conn {_ _} _ _ _.

(** The LDAP registry over the server's state, and the TCert manager's
    [GetBatch]. *)
Definition outside_ldap {Conn Key} (O : Outside Conn Key) (lc : LDAP.Client) : UserRegistry DB :=
  LDAP.ldap_registry (ldap_Dial O) (ldap_Bind O) (ldap_Search O) (ldap_conn O) (ldap_set_conn O) lc.

Definition outside_batch {Conn Key} (O : Outside Conn Key) (tm : Mgr)
    : GetBatchRequest -> Certificate -> comp (Srv Key) GetBatchResponse :=
  GetBatch (aes_cipher O) (hmac_sha384 O) (range_header O) (ec_curve O) (x509_MarshalPKIXPublicKey O)
    (x509_CreateCertificate O) (io_ReadFull O) (time_Now O) (crypto_rand_Int O) tm.

Section Start.
Context {Signer OCSPSigner Signing Gen Box File Pool CSP Key : Type}.
Notation H := (Request -> comp (Srv Key) Response).
Notation AH := (copAuthHandler (Srv Key)).
Notation P := (Proc Signer OCSPSigner Box Key AH).
Context (L : Library Signer OCSPSigner Signing Gen Box File Pool CSP Key H).
Context (KeyDeriv : Key -> string -> outcome Key) (SKI : Key -> bytes) (C : Crypto).
Context (checkCRL : Certificate -> string -> bool * bool) (fuel : nat).
(** CFSSL's sign request, its JSON form, and what a signer issues for one. *)
Context {SR : Type} (zero : SR) (dec : decoder SR) (issue : Signer -> SR -> outcome (bytes * CertificateRecord)).
Context {Conn : Type} (O : Outside Conn Key).
(** The order in which a map is ranged over. *)
Context (range : list (string * comp P H) -> list (string * comp P H)).

(** ** bccsp.go *)

(** [GetBCCSP]; [cfg] tells whether a configuration is given. *)
Definition GetBCCSP {S} (cfg : option unit) : comp S CSP :=
  match cfg with
  | None => lift (factory_GetDefault L)
  | Some _ => fail (NewErr "BCCSP config structure must be defined")
  end.

Definition GenRootKey {S} (csp : CSP) : comp S Key := lift (AES256KeyGen L csp).

(** ** Static files *)

Definition redirects : list (string * string) := [("/scan", "/index.html"); ("/bundle", "/index.html")].

(** [httpBox.Open]. *)
Definition httpBox_Open (b : option Box) (name : string) : outcome File :=
  if HasPrefix name V1APIPrefix then Err (NewErr "file does not exist")
  else
    let name := default name (snd <$> List.find (fun e : string * string => bool_decide (e.1 = name)) redirects) in
    match b with
    | Some b => Box_Open L b name
    | None => Panic nil_deref
    end.

Definition findStaticBox : comp P unit :=
  b ← lift (FindBox L "static");
  modify (set_box (Some b)).

(** ** The endpoints *)

Section endpoints.
Context (CFG : Config) (reg : Registry_t).

(** The registry the handlers call. *)
Definition userRegistry : UserRegistry DB :=
  match reg with
  | RegistryDB db => accessor_registry (Accessor.mkAccessor (Some db))
  | RegistryLDAP lc => outside_ldap O lc
  end.

(** The global variable [db]: set when the registry is the database. *)
Definition db_handle : option DBHandle := match reg with RegistryDB db => Some db | RegistryLDAP _ => None end.

(** Signing through the global variable [enrollSigner], which may be nil. *)
Definition sign_with (s : option Signer) (req : SR) : outcome (bytes * CertificateRecord) :=
  match s with
  | Some sg => issue sg req
  | None => Panic nil_deref
  end.

(** [tcert.LoadMgr] on the configured files. *)
Definition configured_mgr : outcome Mgr :=
  LoadMgr (LoadKey C (x509_ParsePKCS8PrivateKey O) (load_file O))
    (LoadCert C (x509_ParseCertificates O) (load_time O) (load_file O)) (CAKeyFile CFG) (CAFile CFG).

(** [initTCertHandler] and [NewTCertHandler]. *)
Definition initTCertHandler : comp P H :=
  csp ← GetBCCSP None;
  mgr ← lift configured_mgr;
  rootKey ← GenRootKey csp;
  _ ← modify (set_tree (Some (NewKeyTree rootKey)));
  mret (NewTCertHandler KeyDeriv SKI C userRegistry (outside_batch O mgr) (GetBatchResponse_json (time_json O))).

Definition start_NewTCertHandler : comp P H :=
  map_err (fun err => Errorf "Failed to initialize TCert handler: %s" [FStr (Error err)]) initTCertHandler.

(** A handler that needs the enrollment signer. *)
Definition with_signer (f : Signer -> comp P H) : comp P H :=
  s ← gets p_enrollSigner;
  match s with
  | None => fail errBadSigner
  | Some sg => f sg
  end.

(** The handler of [newcert]: with a bundler when both bundles are given. *)
Definition newcert_handler (sg : Signer) : comp P H :=
  let h := NewCertGeneratorHandlerFromSigner L sg in
  conf ← gets p_conf;
  if negb (bool_decide (cli_CABundleFile conf = "")) && negb (bool_decide (cli_IntBundleFile conf = ""))
  then h ← lift (SetBundler L (cli_CABundleFile conf) (cli_IntBundleFile conf) h); mret (generator_handler L h)
  else mret (generator_handler L h).

(** [endpoints]: the constructor of each endpoint's handler. *)
Definition all_endpoints : list (string * comp P H) :=
  [("register", mret (fun r => onDB (NewRegisterHandler CFG userRegistry (db_RandomString fuel) r)));
   ("enroll", p ← get;
      mret (fun r => onDB (NewEnrollHandler C (p_certDBAccessor p) zero dec (sign_with (p_enrollSigner p)) r)));
   ("reenroll", p ← get;
      mret (fun r => onDB (NewReenrollHandler C (p_certDBAccessor p) zero dec (sign_with (p_enrollSigner p)) r)));
   ("revoke", p ← get; mret (fun r => onDB (NewRevokeHandler C userRegistry (p_certDBAccessor p) r)));
   ("tcert", start_NewTCertHandler);
   ("sign", with_signer (fun sg => lift (signhandler_NewHandlerFromSigner L sg)));
   ("authsign", with_signer (fun sg => lift (signhandler_NewAuthHandlerFromSigner L sg)));
   ("info", with_signer (fun sg => lift (info_NewHandler L sg)));
   ("gencrl", with_signer (fun _ => mret (crl_NewHandler L)));
   ("newcert", with_signer newcert_handler);
   ("bundle", conf ← gets p_conf; lift (bundle_NewHandler L (cli_CABundleFile conf) (cli_IntBundleFile conf)));
   ("newkey", lift (generator_NewHandler L));
   ("init_ca", mret (initca_NewHandler L));
   ("scan", conf ← gets p_conf; lift (scan_NewHandler L (cli_CABundleFile conf)));
   ("scaninfo", mret (scan_NewInfoHandler L));
   ("certinfo", mret (certinfo_NewHandler L));
   ("ocspsign", s ← gets p_ocspSigner;
      match s with
      | None => fail errBadSigner
      | Some sg => mret (apiocsp_NewHandler L sg)
      end);
   ("/", _ ← findStaticBox; b ← gets p_box; mret (FileServer L (httpBox_Open b)))].

(** [http.Handle]. *)
Definition http_Handle (path : string) (ah : AH) : comp P unit :=
  m ← gets p_mux;
  m ← lift (mux_Handle path ah m);
  modify (set_mux m).

(** The body of the loop of [registerHandlers]. *)
Definition register_endpoint (e : string * comp P H) : comp P unit :=
  x ← attempt e.2;
  match x with
  | inl _ => mret tt
  | inr handler =>
      match NewAuthWrapper e.1 handler None with
      | (_, inl _) => mret tt
      | (path, inr ah) => http_Handle path ah
      end
  end.

Fixpoint register_all (es : list (string * comp P H)) : comp P unit :=
  match es with
  | [] => mret tt
  | e :: es => _ ← register_endpoint e; register_all es
  end.

(** [registerHandlers]. *)
Definition start_registerHandlers : comp P unit := register_all (range all_endpoints).

(** A request, answered by the default mux. *)
Definition answer (m : ServeMux AH) (r : Request) : comp (Srv Key) Response :=
  match mux_Handler m r with
  | RServe ah => ServeHTTP C CFG userRegistry checkCRL onDB ah r
  | RRedirect location => mret (redirect_answer (Method r) location)
  | RNotFound => mret (http_Error "404 page not found" 404)
  end.

(** ** serverMain *)

(** [SignerFromConfigAndDB]; [cfg] is the field [CFG] of [c], CFSSL's signing
    policy. *)
Definition SignerFromConfigAndDB (c : CliConfig) (cfg : option Signing) (db : option DBHandle) : comp P Signer :=
  let policy := default (DefaultSigning L) cfg in
  policy ← (if negb (bool_decide (cli_Remote c = "")) then lift (OverrideRemotes L (cli_Remote c) policy)
            else mret policy);
  enrollSigner ← lift (universal_NewSigner L c policy);
  match db with
  | Some h => _ ← modify (set_certDBAccessor (Some (InitCertificateAccessor h))); mret enrollSigner
  | None => mret enrollSigner
  end.

Context (listen : Listening Pool -> comp P unit).

Definition serverMain (args : list string) (c : CliConfig) (cfg : option Signing) : comp P unit :=
  _ ← modify (set_conf c);
  if (0 <? length args)%nat
  then fail (NewErr "argument is provided but not defined; please refer to the usage by flag -h")
  else
    _ ← modify (set_stash (cli_IntDir c));
    _ ← lift (LoadPlatforms L (cli_Metadata c));
    x ← attempt (SignerFromConfigAndDB c cfg db_handle);
    _ ← modify (set_enrollSigner (match x with inl _ => None | inr s => Some s end));
    y ← attempt (lift (ocspsign_SignerFromConfig L c));
    _ ← modify (set_ocspSigner (match y with inl _ => None | inr s => Some s end));
    _ ← start_registerHandlers;
    let addr := JoinHostPort (cli_Address c) (Itoa (cli_Port c)) in
    if negb (TLSDisable CFG) then
      if negb (bool_decide (cli_MutualTLSCAFile c = "")) then
        clientPool ← map_err (fun err => Errorf "failed to load mutual TLS CA file: %s" [FStr (Error err)])
                       (lift (LoadPEMCertPool L (cli_MutualTLSCAFile c)));
        listen (ListenMutualTLS addr clientPool (cli_TLSCertFile c) (cli_TLSKeyFile c))
      else listen (ListenTLS addr (cli_TLSCertFile c) (cli_TLSKeyFile c))
    else listen (ListenHTTP addr).
End endpoints.

(** ** The table of handlers *)

(** What the constructors of the handlers read. *)
Definition setup (p : P) := (p_machine p, p_conf p, p_enrollSigner p, p_ocspSigner p, p_certDBAccessor p).

Definition offered (p : P) (e : string * comp P H) : outcome H := (e.2 p).1.

(** A constructor that returns, with a handler or an error. *)
Definition returns {A} (o : outcome A) : Prop := match o with Ok _ | Err _ => True | _ => False end.

Definition wrap (name : string) (h : H) : AH :=
  let basic := bool_decide (name = "sign") || bool_decide (name = "enroll") in mkCopAuthHandler basic (negb basic) h.

(** The patterns of an endpoint: its path, and the path without its slash. *)
Definition keys_of (name : string) : list string :=
  wrappedPath name :: (if HasSuffix (wrappedPath name) "/" then [chop (wrappedPath name)] else []).

Definition entries_of (name : string) (ah : AH) : list (string * muxEntry AH) :=
  (wrappedPath name, mkMuxEntry true (MuxServe ah))
  :: (if HasSuffix (wrappedPath name) "/"
      then [(chop (wrappedPath name), mkMuxEntry false (MuxRedirect (path_url (wrappedPath name))))] else []).

Definition table_of (p : P) (es : list (string * comp P H)) : list (string * muxEntry AH) :=
  concat (map (fun e => match offered p e with Ok h => entries_of e.1 (wrap e.1 h) | _ => [] end) es).

Lemma NewAuthWrapper_wrap name (h : H) : NewAuthWrapper name h None = (wrappedPath name, inr (wrap name h)).
Proof. unfold NewAuthWrapper, wrap. by destruct (bool_decide (name = "sign") || bool_decide (name = "enroll")). Qed.

Lemma entries_keys name ah : (entries_of name ah).*1 = keys_of name.
Proof. unfold entries_of, keys_of. by destruct (HasSuffix _ _). Qed.

Lemma mux_Handle_fresh name ah (m : ServeMux AH) :
  NoDup (keys_of name) -> (forall k, k ∈ keys_of name -> m !! k = None) ->
  mux_Handle (wrappedPath name) ah m = Ok (list_to_map (entries_of name ah) ∪ m).
Proof.
  intros Hnd Hm. unfold mux_Handle, entries_of. unfold keys_of in *.
  rewrite (bool_decide_false (wrappedPath name = "")) by done.
  unfold is_explicit at 1. rewrite (Hm (wrappedPath name)) by apply list_elem_of_here.
  destruct (HasSuffix (wrappedPath name) "/"); cbn [andb list_to_map foldr uncurry]; [|by rewrite <- insert_union_l, map_empty_union].
  assert (Hne : wrappedPath name <> chop (wrappedPath name)).
  { apply NoDup_cons_1_1 in Hnd. intros E. apply Hnd. rewrite <- E. apply list_elem_of_here. }
  unfold is_explicit. rewrite lookup_insert_ne by done.
  rewrite (Hm (chop (wrappedPath name))) by apply list_elem_of_further, list_elem_of_here.
  cbn [negb]. by rewrite <- !insert_union_l, map_empty_union, insert_insert_ne.
Qed.
Section table.
Context (CFG : Config) (reg : Registry_t).
Notation eps := (all_endpoints CFG reg).

Lemma offered_stable e p q :
  e ∈ eps -> setup p = setup q ->
  offered p e = offered q e /\ setup (e.2 p).2 = setup p /\ p_mux (e.2 p).2 = p_mux p.
Proof.
  intros He Hs. destruct p as [m hd cf st es os ca bx tr mx], q as [m' hd' cf' st' es' os' ca' bx' tr' mx'].
  injection Hs as -> -> -> -> ->. unfold offered.
  repeat (apply elem_of_cons in He as [->|He]); [..|by apply elem_of_nil in He];
    unfold start_NewTCertHandler, initTCertHandler, GetBCCSP, GenRootKey, with_signer, newcert_handler, findStaticBox,
      map_err, lift, modify, gets, get, mbind, comp_bind, mret, comp_ret; cbn;
    try done; repeat (case_match; simplify_eq/=; try done).
Qed.

Lemma register_endpoint_run e p0 p :
  e ∈ eps -> setup p = setup p0 -> returns (offered p0 e) -> NoDup (keys_of e.1) ->
  (forall k, k ∈ keys_of e.1 -> p_mux p !! k = None) ->
  exists p', register_endpoint e p = (Ok tt, p') /\ setup p' = setup p0
    /\ p_mux p' = list_to_map (table_of p0 [e]) ∪ p_mux p.
Proof.
  intros He Hs Hr Hnd Hk. destruct (offered_stable e p p0 He Hs) as (Ho & Hs' & Hm).
  unfold register_endpoint, table_of. cbn [map concat]. rewrite app_nil_r, <- Ho. rewrite <- Ho in Hr.
  unfold offered in *. unfold mbind, comp_bind, attempt.
  destruct (e.2 p) as [[h|err| | |] p1] eqn:E; try done; cbn [fst snd] in *.
  - rewrite NewAuthWrapper_wrap. cbn [fst snd]. unfold http_Handle, gets, mbind, comp_bind, lift. rewrite Hm.
    rewrite mux_Handle_fresh by done. eexists. split; [reflexivity|]. split; [|reflexivity]. by rewrite <- Hs, <- Hs'.
  - exists p1. split; [done|]. split; [congruence|]. rewrite Hm. symmetry. apply map_empty_union.
Qed.

Lemma table_keys p es k : k ∈ (table_of p es).*1 -> k ∈ concat (map keys_of es.*1).
Proof.
  unfold table_of. induction es as [|e es IH]; cbn [map concat fmap list_fmap]; [done|].
  rewrite fmap_app, !elem_of_app. intros [Hk|Hk]; [left|right; by apply IH].
  case_match; [by rewrite entries_keys in Hk|by apply elem_of_nil in Hk..].
Qed.

Lemma register_all_run p0 es : forall p,
  (forall e, e ∈ es -> e ∈ eps) -> setup p = setup p0 -> (forall e, e ∈ es -> returns (offered p0 e)) ->
  NoDup (concat (map keys_of es.*1)) -> (forall k, k ∈ concat (map keys_of es.*1) -> p_mux p !! k = None) ->
  exists p', register_all es p = (Ok tt, p') /\ setup p' = setup p0
    /\ p_mux p' = list_to_map (table_of p0 es) ∪ p_mux p.
Proof.
  induction es as [|e es IH]; intros p Hin Hs Hr Hnd Hk.
  { exists p. split; [done|]. split; [done|]. symmetry. apply map_empty_union. }
  cbn [map concat fmap list_fmap] in Hnd, Hk. apply NoDup_app in Hnd as (Hnd1 & Hdisj & Hnd2).
  destruct (register_endpoint_run e p0 p) as (p1 & E1 & S1 & M1);
    [apply Hin, list_elem_of_here|done|apply Hr, list_elem_of_here|done|intros k ?; apply Hk, elem_of_app; by left|].
  assert (Ht : forall k, k ∈ concat (map keys_of es.*1) -> list_to_map (M := gmap string (muxEntry AH)) (table_of p0 [e]) !! k = None).
  { intros k Hin'. apply not_elem_of_list_to_map. intros Hin2%table_keys. simpl in Hin2. rewrite app_nil_r in Hin2.
    by apply (Hdisj k). }
  destruct (IH p1) as (p2 & E2 & S2 & M2); [intros; by apply Hin, list_elem_of_further|done
    |intros; by apply Hr, list_elem_of_further|done| |].
  { intros k Hin'. rewrite M1, lookup_union_None. split; [by apply Ht|]. apply Hk, elem_of_app. by right. }
  exists p2. cbn [register_all]. rewrite (bind_ok _ _ _ _ _ E1). split; [done|]. split; [done|].
  rewrite M2, M1. change (table_of p0 (e :: es)) with (concat (map (fun e => match offered p0 e with Ok h => entries_of e.1 (wrap e.1 h) | _ => [] end) (e :: es))).
  cbn [map concat]. rewrite list_to_map_app, map_union_assoc. f_equal.
  assert (E : table_of p0 [e] = match offered p0 e with Ok h => entries_of e.1 (wrap e.1 h) | _ => [] end)
    by (unfold table_of; simpl; apply app_nil_r).
  rewrite E in *. apply map_union_comm. apply map_disjoint_spec. intros k x y Hx Hy.
  apply elem_of_list_to_map_2 in Hx. assert (Hkx : k ∈ (table_of p0 es).*1) by (apply list_elem_of_fmap; by exists (k, x)).
  apply table_keys, Ht in Hkx. congruence.
Qed.

(** The patterns of all the endpoints are different. *)
Lemma all_keys_NoDup : NoDup (concat (map keys_of eps.*1)).
Proof. apply (bool_decide_unpack _). vm_compute. exact I. Qed.
Definition mux_table (p : P) : ServeMux AH := list_to_map (table_of p eps).

Lemma table_NoDup p es : NoDup (concat (map keys_of es.*1)) -> NoDup (table_of p es).*1.
Proof.
  induction es as [|e es IH]; [intros; apply NoDup_nil_2|]. cbn [map concat fmap list_fmap].
  intros (H1 & H2 & H3)%NoDup_app.
  assert (E : table_of p (e :: es) = table_of p [e] ++ table_of p es)
    by (unfold table_of; simpl; by rewrite app_nil_r).
  rewrite E, fmap_app. apply NoDup_app. split; [|split; [|by apply IH]].
  - unfold table_of. simpl. rewrite app_nil_r. case_match; [by rewrite entries_keys|apply NoDup_nil_2..].
  - intros k Hk Hk'. apply table_keys in Hk, Hk'. simpl in Hk. rewrite app_nil_r in Hk. by apply (H2 k).
Qed.

Lemma table_elem p es k en : (k, en) ∈ table_of p es <->
  exists e h, e ∈ es /\ offered p e = Ok h /\ (k, en) ∈ entries_of e.1 (wrap e.1 h).
Proof.
  unfold table_of. induction es as [|e es IH]; cbn [map concat].
  - split; [by intros ?%elem_of_nil|]. by intros (? & ? & ?%elem_of_nil & _).
  - rewrite elem_of_app, IH. split.
    + intros [Hk|(e' & h & He & Ho & Hk)].
      * destruct (offered p e) as [h| | | |] eqn:E; try by apply elem_of_nil in Hk.
        exists e, h. split; [apply list_elem_of_here|]. by split.
      * exists e', h. split; [by apply list_elem_of_further|]. by split.
    + intros (e' & h & He & Ho & Hk). apply elem_of_cons in He as [->|He]; [left; by rewrite Ho|right; eauto].
Qed.

Lemma mux_table_lookup p k en : mux_table p !! k = Some en <->
  exists e h, e ∈ eps /\ offered p e = Ok h /\ (k, en) ∈ entries_of e.1 (wrap e.1 h).
Proof. rewrite <- table_elem. symmetry. apply elem_of_list_to_map. apply table_NoDup, all_keys_NoDup. Qed.

Lemma perm_concat {A} (l k : list (list A)) : l ≡ₚ k -> concat l ≡ₚ concat k.
Proof.
  induction 1; simpl; [done|by f_equiv|by rewrite !(app_assoc), (Permutation_app_comm x y)|by etrans].
Qed.

Lemma register_run p es :
  es ≡ₚ eps -> p_mux p = ∅ -> (forall e, e ∈ eps -> returns (offered p e)) ->
  exists p', register_all es p = (Ok tt, p') /\ setup p' = setup p /\ p_mux p' = mux_table p.
Proof.
  intros Hp Hm Hr. assert (Hin : forall e, e ∈ es -> e ∈ eps) by (intros e; by rewrite Hp).
  assert (Hk : concat (map keys_of es.*1) ≡ₚ concat (map keys_of eps.*1)) by (by apply perm_concat, Permutation_map, fmap_Permutation).
  assert (Hnd : NoDup (concat (map keys_of es.*1))) by (rewrite Hk; apply all_keys_NoDup).
  destruct (register_all_run p es p) as (p' & E & Hs & Hx); [done|done|auto|done|by intros; rewrite Hm|].
  exists p'. split; [done|]. split; [done|]. rewrite Hx, Hm, map_union_empty. apply list_to_map_proper.
  - by apply table_NoDup.
  - by apply perm_concat, Permutation_map.
Qed.
(** ** Routing *)

(** The answer to a path no handler is registered for. *)
Definition unknown_route (path : string) : route AH :=
  match FindBox L "static" with
  | Ok _ => if HasPrefix path V1APIPrefix then RRedirect V1APIPrefix else RNotFound
  | _ => RNotFound
  end.

(** What the table of the endpoints means for a request. *)
Definition route_spec (p : P) (path : string) : route AH :=
  if negb (bool_decide (cleanPath path = path)) then RRedirect (redirect_location (path_url (cleanPath path)))
  else match List.find (fun e : string * comp P H => negb (bool_decide (e.1 = "/")) && bool_decide (wrappedPath e.1 = path)) eps with
       | Some e => match offered p e with Ok h => RServe (wrap e.1 h) | _ => unknown_route path end
       | None => unknown_route path
       end.

Lemma plain_names : Forall (fun name => name = "/" \/ HasSuffix (wrappedPath name) "/" = false) eps.*1.
Proof. repeat (constructor; [by (left; reflexivity) || (right; reflexivity)|]). constructor. Qed.

Lemma names_plain : Forall (fun name => name = "/" \/ HasPrefix name "/" = false) eps.*1.
Proof. repeat (constructor; [by (left; reflexivity) || (right; reflexivity)|]). constructor. Qed.

Lemma plain_name e : e ∈ eps -> e.1 <> "/" -> HasSuffix (wrappedPath e.1) "/" = false.
Proof.
  intros He Hne. pose proof plain_names as Hp. rewrite Forall_forall in Hp.
  destruct (Hp e.1) as [?|?]; [|done..]. apply list_elem_of_fmap. by exists e.
Qed.

Lemma wrappedPath_inj a b : wrappedPath a = wrappedPath b -> a = b.
Proof. apply (inj (String.append "/api/v1/cfssl/")). Qed.

Lemma names_NoDup : NoDup eps.*1.
Proof. apply (bool_decide_unpack _). vm_compute. exact I. Qed.

Lemma same_name e e' : e ∈ eps -> e' ∈ eps -> e.1 = e'.1 -> e = e'.
Proof.
  intros [i Hi]%list_elem_of_lookup [j Hj]%list_elem_of_lookup E.
  assert (i = j) as ->; [|congruence]. apply (NoDup_lookup eps.*1 i j e.1 names_NoDup).
  - rewrite list_lookup_fmap, Hi. done.
  - rewrite list_lookup_fmap, Hj. by rewrite E.
Qed.

(** The static files' entry of the table. *)
Lemma static_offered p e : e ∈ eps -> e.1 = "/" ->
  (exists h, offered p e = Ok h) <-> exists b, FindBox L "static" = Ok b.
Proof.
  intros He Hn.
  assert (Hs : e = ("/", _ ← findStaticBox; b ← gets p_box; mret (FileServer L (httpBox_Open b)))).
  { apply same_name; [done| |done]. apply list_elem_of_In. do 17 right. by left. }
  rewrite Hs. unfold offered, findStaticBox, mbind, comp_bind, lift, gets, modify. simpl.
  destruct (FindBox L "static"); naive_solver.
Qed.

(** The patterns that match a cleaned path. *)
Lemma table_matches p path k en :
  cleanPath path = path -> mux_table p !! k = Some en -> pathMatch k path = true ->
  (k = path /\ exists e h, e ∈ eps /\ e.1 <> "/" /\ offered p e = Ok h /\ wrappedPath e.1 = path
     /\ en = mkMuxEntry true (MuxServe (wrap e.1 h)))
  \/ (k = V1APIPrefix /\ HasPrefix path V1APIPrefix = true /\ (exists b, FindBox L "static" = Ok b)
      /\ me_h en = MuxRedirect (path_url (V1APIPrefix +:+ "/"))).
Proof.
  intros Hc (e & h & He & Ho & Hk)%mux_table_lookup Hm.
  assert (Hd : has_double false path = false) by (rewrite <- Hc; apply cleanPath_no_double).
  destruct (decide (e.1 = "/")) as [Hn|Hn].
  - right. rewrite Hn in Hk. change (entries_of "/" (wrap "/" h)) with
      [(V1APIPrefix +:+ "/", mkMuxEntry true (MuxServe (wrap "/" h)));
       (V1APIPrefix, mkMuxEntry false (MuxRedirect (path_url (V1APIPrefix +:+ "/"))))] in Hk.
    apply elem_of_cons in Hk as [[= -> ->]|Hk].
    + change (HasPrefix path ("/api/v1/cfssl" +:+ "//") = true) in Hm. apply HasPrefix_true in Hm as [q ->].
      rewrite <- app_assoc_str, has_double_prefix in Hd. done.
    + apply elem_of_cons in Hk as [[= -> ->]|Hk]; [|by apply elem_of_nil in Hk].
      split; [done|]. split; [exact Hm|]. split; [|done]. apply (static_offered p e He Hn). by eexists.
  - left. unfold entries_of in Hk. rewrite (plain_name e He Hn) in Hk.
    apply elem_of_cons in Hk as [[= -> ->]|Hk]; [|by apply elem_of_nil in Hk].
    unfold pathMatch in Hm. rewrite (plain_name e He Hn), (bool_decide_false (wrappedPath e.1 = "")) in Hm by done.
    cbn [negb] in Hm. apply bool_decide_eq_true in Hm. split; [done|]. by exists e, h.
Qed.

Lemma table_route p r : Method r <> "CONNECT" -> mux_Handler (mux_table p) r = route_spec p (URL r).
Proof.
  intros Hm. unfold mux_Handler, route_spec. rewrite (bool_decide_false (Method r = "CONNECT")) by done. cbn [negb andb].
  case_bool_decide as Hc; cbn [negb]; [|done]. set (path := URL r) in *. clearbody path. clear Hm.
  assert (Hne : path <> "") by (intros ->; by vm_compute in Hc).
  assert (Hunk : (forall e h, e ∈ eps -> e.1 <> "/" -> offered p e = Ok h -> wrappedPath e.1 <> path) ->
    match mux_match (mux_table p) path with
    | Some (MuxServe h) => RServe h | Some (MuxRedirect url) => RRedirect (redirect_location url) | None => RNotFound
    end = unknown_route path).
  { intros Hno. unfold unknown_route.
    assert (Hnone : ~ (HasPrefix path V1APIPrefix = true /\ exists b, FindBox L "static" = Ok b) ->
      mux_match (mux_table p) path = None).
    { intros Hx. apply mux_match_none. intros k en Hk. destruct (pathMatch k path) eqn:E; [|done].
      destruct (table_matches p path k en Hc Hk E) as [(_ & e & h & He & Hn & Ho & Hw & _)|(_ & H1 & H2 & _)];
        [by apply (Hno e h) in Hw|by destruct Hx]. }
    destruct (FindBox L "static") as [b| | | |] eqn:Eb; [|rewrite Hnone; [done|by intros (_ & ? & ?)]..].
    destruct (HasPrefix path V1APIPrefix) eqn:Ep; [|rewrite Hnone; [done|by intros [? _]]].
    destruct (list_elem_of_fmap_1 fst eps "/") as (e & Hn & He); [apply list_elem_of_In; do 17 right; by left|].
    destruct (proj2 (static_offered p e He (eq_sym Hn)) (ex_intro _ b Eb)) as [h Ho].
    rewrite (mux_match_longest (mux_table p) path V1APIPrefix
      (mkMuxEntry false (MuxRedirect (path_url (V1APIPrefix +:+ "/"))))); [reflexivity| |exact Ep|].
    - apply mux_table_lookup. exists e, h. split; [done|]. split; [done|]. rewrite <- Hn.
      apply list_elem_of_further, list_elem_of_here.
    - intros k en Hk E. destruct (table_matches p path k en Hc Hk E) as [(_ & e' & h' & He' & Hn' & Ho' & Hw & _)|(? & _)];
        [by apply (Hno e' h') in Hw|by left]. }
  destruct (List.find _ eps) as [e|] eqn:Ef.
  - apply find_some in Ef as [He [Hn Hw]%andb_prop]. apply list_elem_of_In in He.
    apply bool_decide_eq_true in Hw. apply negb_true_iff, bool_decide_eq_false in Hn.
    destruct (offered p e) as [h| | | |] eqn:Ho.
    { rewrite (mux_match_exact (mux_table p) path (mkMuxEntry true (MuxServe (wrap e.1 h))) Hne); [done|].
      apply mux_table_lookup. exists e, h. split; [done|]. split; [done|]. rewrite <- Hw. apply list_elem_of_here. }
    all: apply Hunk; intros e' h' He' _ Ho' Hw'; rewrite <- Hw in Hw'; apply wrappedPath_inj in Hw';
      apply (same_name e' e) in Hw'; congruence.
  - apply Hunk. intros e h He%list_elem_of_In Hn _ Hw. apply (find_none _ _ Ef) in He.
    rewrite Hw, (bool_decide_false (e.1 = "/")), bool_decide_true in He by done. done.
Qed.

(** A CONNECT request's path is not cleaned. *)
Lemma connect_static p r b :
  Method r = "CONNECT" -> FindBox L "static" = Ok b -> HasPrefix (URL r) (V1APIPrefix +:+ "/") = true ->
  mux_Handler (mux_table p) r = RServe (wrap "/" (FileServer L (httpBox_Open (Some b)))).
Proof.
  intros Hc Hb Hp. unfold mux_Handler. rewrite Hc, (bool_decide_true ("CONNECT" = "CONNECT")) by done. cbn [negb andb].
  set (h := FileServer L (httpBox_Open (Some b))).
  set (e := ("/", _ ← findStaticBox; b ← gets p_box; mret (FileServer L (httpBox_Open b))) : string * comp P H).
  assert (He : e ∈ eps) by (apply list_elem_of_In; do 17 right; by left).
  assert (Ho : offered p e = Ok h)
    by (unfold offered, e, findStaticBox, mbind, comp_bind, lift, gets, modify; simpl; by rewrite Hb).
  rewrite (mux_match_longest (mux_table p) (URL r) (V1APIPrefix +:+ "/") (mkMuxEntry true (MuxServe (wrap "/" h)))); [done| |exact Hp|].
  - apply mux_table_lookup. exists e, h. split; [done|]. split; [done|]. apply list_elem_of_here.
  - intros k en (e' & h' & He' & Ho' & Hk)%mux_table_lookup Hm. destruct (decide (e'.1 = "/")) as [Hn|Hn].
    + rewrite Hn in Hk. change (entries_of "/" (wrap "/" h')) with
        [(V1APIPrefix +:+ "/", mkMuxEntry true (MuxServe (wrap "/" h')));
         (V1APIPrefix, mkMuxEntry false (MuxRedirect (path_url (V1APIPrefix +:+ "/"))))] in Hk.
      apply elem_of_cons in Hk as [[= -> ->]|Hk]; [by left|].
      apply elem_of_cons in Hk as [[= -> ->]|Hk]; [right; vm_compute; lia|by apply elem_of_nil in Hk].
    + exfalso. unfold entries_of in Hk. rewrite (plain_name e' He' Hn) in Hk.
      apply elem_of_cons in Hk as [[= -> ->]|Hk]; [|by apply elem_of_nil in Hk].
      unfold pathMatch in Hm. rewrite (plain_name e' He' Hn), (bool_decide_false (wrappedPath e'.1 = "")) in Hm by done.
      cbn [negb] in Hm. apply bool_decide_eq_true in Hm. rewrite <- Hm in Hp. apply HasPrefix_true in Hp as [q Hq].
      unfold wrappedPath in Hq. change (V1APIPrefix +:+ "/") with ("/api/v1/cfssl/" +:+ "/") in Hq.
      rewrite <- app_assoc_str in Hq. apply (inj (String.append "/api/v1/cfssl/")) in Hq.
      pose proof (names_plain) as Hpl. rewrite Forall_forall in Hpl.
      destruct (Hpl e'.1) as [?|Hf]; [apply list_elem_of_fmap; by exists e'|done|]. rewrite (proj2 (HasPrefix_true _ _)) in Hf; [done|by exists q].
Qed.

(** (C22) Registration and routing.  In whatever order the table of the
    endpoints is ranged over, registration succeeds and gives the same
    routing.  For every method but CONNECT: a path that is not clean is
    redirected to the clean one; the path of an endpoint whose handler could
    be made is answered by that handler behind its authentication wrapper; no
    other path reaches a handler, and the static files are never reached.
    When the static files were found, a path below the prefix with no handler
    is redirected to the prefix, which is redirected to itself.  The mux does
    not clean the path of a CONNECT request, which reaches the static files'
    handler, behind its wrapper, on every path that begins with the prefix and
    a second slash. *)
Theorem endpoint_routing es p :
  es ≡ₚ eps -> p_mux p = ∅ -> (forall e, e ∈ eps -> returns (offered p e)) ->
  exists p', register_all es p = (Ok tt, p') /\ setup p' = setup p
    /\ (forall r, Method r <> "CONNECT" -> mux_Handler (p_mux p') r = route_spec p (URL r))
    /\ (forall b, FindBox L "static" = Ok b -> route_spec p V1APIPrefix = RRedirect V1APIPrefix)
    /\ (forall r b, Method r = "CONNECT" -> FindBox L "static" = Ok b -> HasPrefix (URL r) (V1APIPrefix +:+ "/") = true ->
          mux_Handler (p_mux p') r = RServe (wrap "/" (FileServer L (httpBox_Open (Some b))))).
Proof.
  intros Hp Hm Hr. destruct (register_run p es Hp Hm Hr) as (p' & E & Hs & Hx).
  exists p'. split; [done|]. split; [done|]. split; [intros r Hr'; rewrite Hx; by apply table_route|].
  split; [intros b Hb; unfold route_spec, unknown_route; rewrite Hb; vm_compute; done|].
  intros r b Hc Hb Hpre. rewrite Hx. by apply connect_static.
Qed.

(** ** The server that is started *)

(** The path of an enabled endpoint leads to its handler. *)
Lemma table_serves p e h r :
  e ∈ eps -> e.1 <> "/" -> offered p e = Ok h -> cleanPath (wrappedPath e.1) = wrappedPath e.1 ->
  URL r = wrappedPath e.1 -> mux_Handler (mux_table p) r = RServe (wrap e.1 h).
Proof.
  intros He Hn Ho Hc Hu. unfold mux_Handler. rewrite Hu, Hc, (bool_decide_true (wrappedPath e.1 = wrappedPath e.1)) by done.
  rewrite andb_false_r. rewrite (mux_match_exact _ _ (mkMuxEntry true (MuxServe (wrap e.1 h)))); [done|done|].
  apply mux_table_lookup. exists e, h. split; [done|]. split; [done|]. apply list_elem_of_here.
Qed.
End table.


Section started.
Context (CFG : Config) (hd : DBHandle).
Notation reg := (RegistryDB hd).
Notation eps := (all_endpoints CFG reg).
Notation R := (accessor_registry (Accessor.mkAccessor (Some hd))).
Notation acc := (CertDBAccessor.NewCertDBAccessor (Some hd)).

(** On the paths of the COP endpoints the mux is the server of [Server]. *)
Lemma answer_serve p sg csp mgr rk r s :
  p_enrollSigner p = Some sg -> p_certDBAccessor p = Some acc ->
  factory_GetDefault L = Ok csp -> configured_mgr CFG = Ok mgr ->
  AES256KeyGen L csp = Ok rk -> URL r ∈ cop_paths ->
  answer CFG reg (mux_table CFG reg p) r s =
    serve KeyDeriv SKI C CFG R (Some acc) checkCRL (db_RandomString fuel) zero dec (issue sg) (outside_batch O mgr) (GetBatchResponse_json (time_json O)) r s.
Proof.
  intros Hsg Ha Hcsp Hmgr Hrk Hu. unfold answer.
  assert (Ht : forall e h, e ∈ eps -> e.1 <> "/" -> offered p e = Ok h -> cleanPath (wrappedPath e.1) = wrappedPath e.1 ->
     URL r = wrappedPath e.1 -> mux_Handler (mux_table CFG reg p) r = RServe (wrap e.1 h))
    by (intros; by apply table_serves).
  assert (Htc : offered p ("tcert", start_NewTCertHandler CFG reg) = Ok (NewTCertHandler KeyDeriv SKI C R (outside_batch O mgr) (GetBatchResponse_json (time_json O)))).
  { unfold offered, start_NewTCertHandler, initTCertHandler, GetBCCSP, GenRootKey, map_err, mbind, comp_bind, lift. simpl.
    by rewrite Hcsp, Hmgr, Hrk. }
  unfold cop_paths in Hu. simpl in Hu. unfold serve.
  repeat (apply elem_of_cons in Hu as [Hu|Hu]); [..|by inversion Hu]; rewrite Hu; simpl List.find; cbv iota.
  - erewrite Ht; [|apply list_elem_of_here|done|reflexivity|reflexivity|exact Hu]. reflexivity.
  - erewrite Ht; [|do 1 apply list_elem_of_further; apply list_elem_of_here|done|reflexivity|reflexivity|exact Hu]. by rewrite Hsg, Ha.
  - erewrite Ht; [|do 2 apply list_elem_of_further; apply list_elem_of_here|done|reflexivity|reflexivity|exact Hu]. by rewrite Hsg, Ha.
  - erewrite Ht; [|do 3 apply list_elem_of_further; apply list_elem_of_here|done|reflexivity|reflexivity|exact Hu]. by rewrite Ha.
  - erewrite Ht; [|do 4 apply list_elem_of_further; apply list_elem_of_here|done|exact Htc|reflexivity|exact Hu]. reflexivity.
Qed.
End started.

(** The signer the flags and CFSSL's policy describe. *)
Definition configured_signer (c : CliConfig) (cfg : option Signing) : outcome Signer :=
  let policy := default (DefaultSigning L) cfg in
  policy ← (if bool_decide (cli_Remote c = "") then Ok policy else OverrideRemotes L (cli_Remote c) policy);
  universal_NewSigner L c policy.

Lemma local_signer c cfg o :
  cli_Remote c = "" -> universal_NewSigner L c (default (DefaultSigning L) cfg) = o -> configured_signer c cfg = o.
Proof. intros Hr <-. unfold configured_signer. by rewrite Hr, bool_decide_true. Qed.

(** How the server listens, for a loaded pool of client authorities. *)
Definition socket (CFG : Config) (c : CliConfig) (pool : Pool) : Listening Pool :=
  let addr := JoinHostPort (cli_Address c) (Itoa (cli_Port c)) in
  if TLSDisable CFG then ListenHTTP addr
  else if bool_decide (cli_MutualTLSCAFile c = "") then ListenTLS addr (cli_TLSCertFile c) (cli_TLSKeyFile c)
  else ListenMutualTLS addr pool (cli_TLSCertFile c) (cli_TLSKeyFile c).

Section serverMain_run.
Context (Hrange : forall l, range l ≡ₚ l) (CFG : Config) (reg : Registry_t) (lst : Listening Pool -> comp P unit).
Context (c : CliConfig) (cfg : option Signing) (pool : Pool).
Context (Hplat : LoadPlatforms L (cli_Metadata c) = Ok tt).
Context (Hpool : LoadPEMCertPool L (cli_MutualTLSCAFile c) = Ok pool).
Context (Hocsp : returns (ocspsign_SignerFromConfig L c)).
Context (Hret : forall p e, e ∈ all_endpoints CFG reg -> returns (offered p e)).

(** The globals when the handlers are registered: a signer that could not be
    made is nil, and then no accessor is set. *)
Definition before_registration (x : error + Signer) (p : P) : P :=
  set_ocspSigner (match ocspsign_SignerFromConfig L c with Ok s => Some s | _ => None end)
    (set_enrollSigner (match x with inl _ => None | inr s => Some s end)
       ((match x, db_handle reg with inr _, Some h => set_certDBAccessor (Some (InitCertificateAccessor h)) | _, _ => id end)
          (set_stash (cli_IntDir c) (set_conf c p)))).

Lemma serverMain_run p x :
  p_mux p = ∅ -> configured_signer c cfg = match x with inl e => Err e | inr s => Ok s end ->
  exists p', serverMain CFG reg lst [] c cfg p = lst (socket CFG c pool) p'
    /\ setup p' = setup (before_registration x p) /\ p_mux p' = mux_table CFG reg (before_registration x p).
Proof.
  intros Hm Hsg.
  destruct (register_run CFG reg (before_registration x p) (range (all_endpoints CFG reg))) as (p' & E & Hs & Hx);
    [apply Hrange|by destruct x; unfold before_registration; destruct (db_handle reg)|by apply Hret|].
  exists p'. split; [|by split].
  assert (Hsign : attempt (SignerFromConfigAndDB c cfg (db_handle reg)) (set_stash (cli_IntDir c) (set_conf c p))
     = (Ok x, (match x, db_handle reg with inr _, Some h => set_certDBAccessor (Some (InitCertificateAccessor h)) | _, _ => id end)
          (set_stash (cli_IntDir c) (set_conf c p)))).
  { unfold configured_signer, mbind, outcome_bind in Hsg. unfold SignerFromConfigAndDB, attempt, mbind, comp_bind, lift, mret, comp_ret.
    case_bool_decide; cbn [negb] in *.
    - rewrite Hsg. destruct x; [done|]. by destruct (db_handle reg).
    - destruct (OverrideRemotes L (cli_Remote c) (default (DefaultSigning L) cfg)); try (by destruct x);
        [|by destruct x; simplify_eq]. rewrite Hsg. destruct x; [done|]. by destruct (db_handle reg). }
  unfold serverMain. rewrite bind_modify. cbn [length Nat.ltb Nat.leb]. rewrite bind_modify, Hplat, bind_lift_ok.
  rewrite (bind_ok _ _ _ _ _ Hsign), bind_modify.
  assert (Ho : attempt (lift (ocspsign_SignerFromConfig L c)) =
     mret (M := comp P) (match ocspsign_SignerFromConfig L c with Ok s => inr s | Err e => inl e | _ => inl errBadSigner end))
    by (by destruct (ocspsign_SignerFromConfig L c)).
  rewrite Ho, bind_mret, bind_modify. unfold before_registration in *.
  assert (Hos : match (match ocspsign_SignerFromConfig L c with Ok s => inr s | Err e => inl e | _ => inl errBadSigner end)
      with inl _ => None | inr s => Some s end = match ocspsign_SignerFromConfig L c with Ok s => Some s | _ => None end)
    by (by destruct (ocspsign_SignerFromConfig L c)).
  rewrite Hos. unfold start_registerHandlers. rewrite (bind_ok _ _ _ _ _ E).
  unfold socket. destruct (TLSDisable CFG); cbn [negb]; [done|]. case_bool_decide; cbn [negb]; [done|].
  by rewrite Hpool.
Qed.
End serverMain_run.

Section startMain.
(** ** startMain *)

Context (wd : string) (readFile : string -> option string) (getenv : string -> string).
Context (stat : string -> comp P stat_result) (MkdirAll : string -> comp P unit).
Context (GetStringMapString GetStringSlice : string -> list string).
Context (listen : Config -> Registry_t -> Listening Pool -> comp P unit).

Definition on_machine {A} (f : comp Machine A) : comp P A := fun p =>
  let '(o, m) := f (p_machine p) in (o, set_machine m p).

Definition startMain (args : list string) (c : CliConfig) (cfg : option Signing) : comp P unit :=
  home ← CreateHome getenv stat MkdirAll;
  _ ← modify (set_homeDir home);
  '(CFG, c, configFile, configDir) ← lift (configInit wd readFile getenv c);
  reg ← on_machine (InitUserRegistry fuel configFile GetStringMapString GetStringSlice CFG);
  serverMain CFG reg (listen CFG reg) args c cfg.

Definition serverFlags : list string :=
  ["address"; "port"; "ca"; "ca-key"; "ca-bundle"; "int-bundle"; "int-dir"; "metadata"; "remote"; "config"; "responder";
   "responder-key"; "tls-key"; "tls-cert"; "mutual-tls-ca"; "mutual-tls-cn"; "tls-remote-ca"; "mutual-tls-client-cert";
   "mutual-tls-client-key"; "db-config"].

(** The usage of [cop server start]. *)
Definition serverUsageText : string := text_of
  ["cop server start -- start the COP server";
   "";
   "Usage:";
   "        cop server start [-address address] [-ca cert] [-ca-bundle bundle] \";
   "                         [-ca-key key] [-int-bundle bundle] [-int-dir dir] [-port port] \";
   "                         [-metadata file] [-remote remote_host] [-config config] \";
   "                         [-responder cert] [-responder-key key] [-tls-cert cert] [-tls-key key] \";
   "                         [-mutual-tls-ca ca] [-mutual-tls-cn regex] \";
   "                         [-tls-remote-ca ca] [-mutual-tls-client-cert cert] [-mutual-tls-client-key key] \";
   "                         [-db-config db-config]";
   "";
   "Flags:"].

(** [StartCommand]; the field [CFG] of its configuration is CFSSL's policy. *)
Definition StartCommand : Command P Signing :=
  mkCommand serverUsageText serverFlags (fun args c cfg => startMain args c cfg).

(** [Start]: the start command on the files of a directory.  The arguments
    are passed on instead of being left in [os.Args]; the error of the command
    is dropped. *)
Definition Start_files (E : CommandEnv P Signing) (InitServerCommand : Command P Signing) (dir cfg : string) : comp P unit :=
  let cert := path_Join [dir; "ec.pem"] in
  let key := path_Join [dir; "ec-key.pem"] in
  let config := path_Join [dir; cfg] in
  _ ← attempt (cli_Start E (server_commands InitServerCommand StartCommand)
                 ["server"; "start"; "-ca"; cert; "-ca-key"; key; "-config"; config]);
  mret tt.

Context (Hrange : forall l, range l ≡ₚ l).

(** Starting the server on SQLite.  With a configuration that is read, a data
    source that is the name of a file, a signer and a TCert manager that can be
    made, and no failure of the machine, [cop server start] opens the database,
    leaves in it the registry
    the configuration describes, and then listens at the configured address,
    with TLS unless it is disabled and with client certificates when their
    authorities are given; the requests for the COP endpoints are answered by
    the server of [Server], over that database and the signer. *)
Lemma startMain_serves c cfg p home p1 CFG c' file dir us pool sg csp mgr rk :
  let reg := RegistryDB (sqlite_file CFG) in
  CreateHome getenv stat MkdirAll p = (Ok home, p1) ->
  p_mux p1 = ∅ -> sqlite_ready CFG (p_machine p1) ->
  configInit wd readFile getenv c = Ok (CFG, c', file, dir) ->
  (2 <= length (Split (filepath_Base file) "."))%nat ->
  Users CFG = map (fun e : string * ConfigUser => (e.1, Some e.2)) us -> Forall (fun e => cu_Pass e.2 <> "") us ->
  LoadPlatforms L (cli_Metadata c') = Ok tt -> LoadPEMCertPool L (cli_MutualTLSCAFile c') = Ok pool ->
  returns (ocspsign_SignerFromConfig L c') ->
  (forall p e, e ∈ all_endpoints CFG reg -> returns (offered p e)) ->
  configured_signer c' cfg = Ok sg ->
  factory_GetDefault L = Ok csp -> configured_mgr CFG = Ok mgr ->
  AES256KeyGen L csp = Ok rk ->
  exists p', startMain [] c cfg p = listen CFG reg (socket CFG c' pool) p'
    /\ db_inv (content (sqlite_file CFG) (p_machine p'))
    /\ db_view (content (sqlite_file CFG) (p_machine p'))
       = configured GetStringMapString GetStringSlice CFG us (stored_rows (sqlite_file CFG) (p_machine p1))
    /\ forall r s, URL r ∈ cop_paths ->
         answer CFG reg (p_mux p') r s =
           serve KeyDeriv SKI C CFG (accessor_registry (Accessor.mkAccessor (Some (sqlite_file CFG))))
             (Some (CertDBAccessor.NewCertDBAccessor (Some (sqlite_file CFG)))) checkCRL (db_RandomString fuel)
             zero dec (issue sg) (outside_batch O mgr) (GetBatchResponse_json (time_json O)) r s.
Proof.
  intros reg Hh Hmux Hready Hcfg Hext Hus Hpw Hplat Hpool Hocsp Hret Hsg Hcsp Hmgr Hrk.
  unfold startMain. rewrite (bind_ok _ _ _ _ _ Hh), bind_modify, Hcfg, bind_lift_ok.
  destruct (InitUserRegistry_sqlite fuel file GetStringMapString GetStringSlice CFG us Hext Hus Hpw (p_machine p1) Hready)
    as (m' & E & Hfill).
  destruct (filled_content _ _ _ _ _ _ _ Hfill) as [Hi Hv].
  assert (Er : on_machine (InitUserRegistry fuel file GetStringMapString GetStringSlice CFG) (set_homeDir home p1)
    = (Ok reg, set_machine m' (set_homeDir home p1))).
  { unfold on_machine. change (p_machine (set_homeDir home p1)) with (p_machine p1). by rewrite E. }
  rewrite (bind_ok _ _ _ _ _ Er).
  destruct (serverMain_run Hrange CFG reg (listen CFG reg) c' cfg pool Hplat Hpool Hocsp Hret
    (set_machine m' (set_homeDir home p1)) (inr sg) Hmux Hsg) as (p' & E' & Hs & Hx).
  exists p'. split; [exact E'|]. injection Hs as Hm' _ _ _ _. rewrite Hm'. split; [exact Hi|]. split; [exact Hv|].
  intros r s Hu. rewrite Hx. by apply (answer_serve CFG (sqlite_file CFG) _ sg csp mgr rk).
Qed.

(** ** The program *)

Context (E : CommandEnv P Signing) (Printf : string -> comp P unit) (cfssl_Command : string -> Command P Signing).
Context (client_cmds : list (string * Command P Signing)) (InitServerCommand : Command P Signing).

(** The program [cop]. *)
Definition cop : list string -> comp P Z :=
  COPMain E Printf cfssl_Command client_cmds (server_commands InitServerCommand StartCommand).

(** The start command with flags and no argument. *)
Lemma start_line prog fl p :
  Forall (settable (ParseDuration E) registerFlags) fl ->
  let c := config_of (set_flags (ParseDuration E) registerFlags fl) in
  cli_Start E (server_commands InitServerCommand StartCommand) (prog :: "start" :: concat (map flag_args fl)) p
  = (policy ← load_policy E (cli_ConfigFile c); startMain [] c policy) p.
Proof.
  intros Hf c. rewrite (cli_Start_found _ _ _ _ _ StartCommand) by done.
  apply run_command_Parse. rewrite <- (app_nil_r (concat _)). by apply Parse_line.
Qed.

(** The start on the files of a directory is [startMain] on them; its error is
    dropped. *)
Lemma Start_files_startMain dir cfg p :
  let flag n f := mkWritten false n Separate (path_Join [dir; f]) in
  let c := config_of (set_flags (ParseDuration E) registerFlags [flag "ca" "ec.pem"; flag "ca-key" "ec-key.pem"; flag "config" cfg]) in
  Start_files E InitServerCommand dir cfg p
  = (_ ← attempt (policy ← load_policy E (cli_ConfigFile c); startMain [] c policy); mret tt) p.
Proof.
  intros flag c.
  pose proof (start_line "server" [flag "ca" "ec.pem"; flag "ca-key" "ec-key.pem"; flag "config" cfg] p) as Hl.
  apply attempt_bind_ext. apply Hl. repeat constructor; eexists _, _; split; reflexivity.
Qed.

End startMain.

(** ** Starts that leave something out *)

Lemma sign_unstored C' {SR'} (zero' : SR') dec' issue' endpoint r : readonly (newSignHandler C' None zero' dec' issue' endpoint r).
Proof.
  unfold newSignHandler, HTTPHandler. apply readonly_bind; [|intros []; apply readonly_ret]. apply readonly_attempt.
  case_match; [|apply readonly_lift]. unfold signHandler_Handle.
  apply readonly_bind; [unfold ReadAll; case_match; [apply readonly_lift|apply readonly_ret]|intros b].
  apply readonly_bind; [unfold Unmarshal, decode; apply readonly_map_err; repeat case_match; apply readonly_ret || apply readonly_lift|intros req].
  apply readonly_bind; [|intros; apply readonly_ret]. apply readonly_map_err. unfold enrollSigner_Sign.
  apply readonly_bind; [apply readonly_lift|intros [cert rec]]. apply readonly_bind; [apply readonly_ret|intros; apply readonly_ret].
Qed.

Section unmanaged.
Context (Hrange : forall l, range l ≡ₚ l).

(** (C40) With an LDAP registry the server listens without a certificate store:
    the certificates it issues are not recorded, and a request to revoke one
    by serial number makes the handler panic. *)
Theorem ldap_certificates_unmanaged CFG lc lst c cfg pool p x :
  LoadPlatforms L (cli_Metadata c) = Ok tt -> LoadPEMCertPool L (cli_MutualTLSCAFile c) = Ok pool ->
  returns (ocspsign_SignerFromConfig L c) ->
  (forall p e, e ∈ all_endpoints CFG (RegistryLDAP lc) -> returns (offered p e)) ->
  p_mux p = ∅ -> p_certDBAccessor p = None -> cli_Remote c = "" ->
  universal_NewSigner L c (default (DefaultSigning L) cfg) = match x with inl e => Err e | inr s => Ok s end ->
  exists p', serverMain CFG (RegistryLDAP lc) lst [] c cfg p = lst (socket CFG c pool) p'
    /\ (forall endpoint r d,
         (newSignHandler C (p_certDBAccessor p') zero dec (sign_with (p_enrollSigner p')) endpoint r d).2 = d)
    /\ (forall req d, rv_Serial req <> "" -> rv_AKI req <> "" ->
         revoke_request (userRegistry (RegistryLDAP lc)) (p_certDBAccessor p') req d = (Panic nil_deref, d)).
Proof.
  intros Hplat Hpool Hocsp Hret Hmux Hacc Hrem Hsg.
  destruct (serverMain_run Hrange CFG (RegistryLDAP lc) lst c cfg pool Hplat Hpool Hocsp Hret p x Hmux (local_signer _ _ _ Hrem Hsg))
    as (p' & E & Hs & _).
  assert (Ha : p_certDBAccessor p' = None) by (injection Hs as _ _ _ _ ->; destruct x; exact Hacc).
  exists p'. split; [exact E|]. rewrite Ha. split; [intros; apply sign_unstored|].
  intros req d H1 H2. unfold revoke_request.
  by rewrite (bool_decide_false (rv_Serial req = "")), (bool_decide_false (rv_AKI req = "")).
Qed.

(** A signer that cannot be made does not stop the start: the server
    listens, the endpoints that check for the signer are disabled, and an
    enrollment or reenrollment that is admitted panics. *)
Theorem start_without_signer CFG reg lst c cfg pool p e :
  LoadPlatforms L (cli_Metadata c) = Ok tt -> LoadPEMCertPool L (cli_MutualTLSCAFile c) = Ok pool ->
  returns (ocspsign_SignerFromConfig L c) ->
  (forall p e, e ∈ all_endpoints CFG reg -> returns (offered p e)) ->
  p_mux p = ∅ -> cli_Remote c = "" -> universal_NewSigner L c (default (DefaultSigning L) cfg) = Err e ->
  exists p', serverMain CFG reg lst [] c cfg p = lst (socket CFG c pool) p'
    /\ (forall name r, name ∈ ["sign"; "authsign"; "info"; "gencrl"; "newcert"] -> Method r <> "CONNECT" ->
          URL r = wrappedPath name -> mux_Handler (p_mux p') r = unknown_route (wrappedPath name))
    /\ (forall endpoint r d req, Method r = "POST" -> body_err r = None -> json_Unmarshal dec (body r) zero = (req, None) ->
          newSignHandler C (p_certDBAccessor p') zero dec (sign_with (p_enrollSigner p')) endpoint r d
          = (Panic nil_deref, d)).
Proof.
  intros Hplat Hpool Hocsp Hret Hmux Hrem Hsg.
  destruct (serverMain_run Hrange CFG reg lst c cfg pool Hplat Hpool Hocsp Hret p (inl e) Hmux (local_signer _ _ _ Hrem Hsg))
    as (p' & E & Hs & Hx).
  exists p'. split; [exact E|]. split.
  - intros name r Hn Hm Hu. rewrite Hx, table_route, Hu by done.
    repeat (apply elem_of_cons in Hn as [->|Hn]); [reflexivity..|by apply elem_of_nil in Hn].
  - injection Hs as _ _ Hsig _ _. rewrite Hsig. intros endpoint r d req Hm He Hj.
    unfold newSignHandler. rewrite HTTPHandler_post by done. unfold signHandler_Handle, ReadAll. rewrite He, bind_mret.
    unfold Unmarshal, decode. rewrite Hj. rewrite (bind_ok _ _ _ req d) by done. reflexivity.
Qed.
End unmanaged.

(** No endpoint, COP's or CFSSL's, acts on a request without an
    authorization header while authentication is on: the answer is a
    redirection, not found, or an error, and the state is unchanged. *)
Theorem no_authorization_refused CFG reg p r s :
  Authentication CFG = true -> authorization r = "" ->
  exists resp, answer CFG reg (mux_table CFG reg p) r s = (Ok resp, s) /\ (status resp = 301 \/ 400 <= status resp)%Z.
Proof.
  intros Ha Hr. unfold answer. destruct (mux_Handler _ r) as [ah|loc|].
  - unfold ServeHTTP, onDB, attempt, serveHTTP, mbind, comp_bind. rewrite Ha. cbn [negb].
    change (authorization (HTTPRequestToString r).2) with (authorization r). rewrite Hr.
    rewrite (bool_decide_true ("" = "")) by done. eexists. split; [by destruct s|]. right. simpl. lia.
  - eexists. split; [done|]. by left.
  - eexists. split; [done|]. right. simpl. lia.
Qed.
End Start.

(** ** A concrete library *)

Definition toy_handler : Request -> comp (Srv (list string)) Response := fun _ => mret (SendResponse JNull).

(** CFSSL with every handler, go.rice with a box; [ok] tells whether a signer
    can be made. *)
Definition toy_library (ok : bool)
    : Library unit unit unit unit unit unit unit unit (list string) (Request -> comp (Srv (list string)) Response) :=
  mkLibrary _ _ _ _ _ _ _ _ _ _ tt (fun _ s => Ok s) (fun _ _ => if ok then Ok tt else Err (NewErr "no key"))
    (fun _ => Err (NewErr "no responder")) (fun _ => Ok tt) (fun _ => Ok toy_handler) (fun _ => Ok toy_handler)
    (fun _ => Ok toy_handler) toy_handler id (fun _ _ g => Ok g) (fun _ => toy_handler)
    (fun _ _ => Err (NewErr "no bundle")) (Ok toy_handler) toy_handler (fun _ => Ok toy_handler) toy_handler toy_handler
    (fun _ => toy_handler) (fun _ => Ok tt) (fun _ _ => Ok tt) (fun _ => toy_handler) (fun _ => Ok tt) (Ok tt) (fun _ => Ok []).

Notation toy_P := (Proc unit unit unit (list string) (copAuthHandler (Srv (list string)))).

Definition toy_proc : toy_P :=
  mkProc bare_machine "" (cli_flags "" "" 0) "" None None None None None ∅.

Definition toy_SKI (k : list string) : bytes := bytes_of_string (Join k "/").
Definition toy_crl (_ : Certificate) (_ : string) : bool * bool := (false, true).
Definition toy_outside : Outside unit (list string) :=
  mkOutside (fun _ => Ok [toy_cert (ECDSAKey 1)]) (fun _ => Ok (ECPriv 1)) 9 (fun _ => Ok [x09])
    toy_cipher toy_hmac toy_range toy_curve (fun _ => []) (fun _ _ _ => Ok [x30]) (fun n => mret (replicate n xaa))
    (mret 5%Z) (fun m => mret 0%Z) (fun _ => "2016-12-01T00:00:00Z") toy_dial toy_Bind toy_Search (fun _ => Some tt) (fun _ d => d).

Definition toy_endpoints (ok : bool) (CFG : Config) (reg : Registry_t)
    : list (string * comp toy_P (Request -> comp (Srv (list string)) Response)) :=
  all_endpoints (toy_library ok) toy_deriv toy_SKI toy_crypto 12 "" toy_sign_dec (fun _ => Handlers.toy_issue) toy_outside CFG reg.

Lemma toy_returns ok CFG reg p e : e ∈ toy_endpoints ok CFG reg -> returns (offered p e).
Proof.
  intros He. destruct p as [m hdir cf st [] os ca bx tr mx]; destruct os;
    repeat (apply elem_of_cons in He as [->|He]); try (by inversion He); try exact I;
    unfold offered, with_signer, newcert_handler, mbind, comp_bind, gets; cbn; repeat case_match; simplify_eq/=; exact I.
Qed.

(** A request for an endpoint, without credentials. *)
Definition toy_get (path : string) : Request := mkRequest "GET" path "" "" "" None.

Lemma endpoint_routing_witness :
  exists p', register_all (reverse (toy_endpoints true sample_CFG (RegistryDB sqlite3))) toy_proc = (Ok tt, p')
    /\ mux_Handler (p_mux p') (toy_get "/api/v1/cfssl/nosuch") = RRedirect V1APIPrefix
    /\ mux_Handler (p_mux p') (toy_get "/index.html") = RNotFound.
Proof.
  destruct (endpoint_routing (toy_library true) toy_deriv toy_SKI toy_crypto 12 "" toy_sign_dec (fun _ => Handlers.toy_issue)
    toy_outside sample_CFG (RegistryDB sqlite3)
    (reverse (toy_endpoints true sample_CFG (RegistryDB sqlite3))) toy_proc) as (p' & E & _ & Hr & _);
    [apply reverse_Permutation|reflexivity|intros e; apply toy_returns|].
  exists p'. split; [exact E|]. rewrite !Hr by discriminate. split; reflexivity.
Defined.

Definition toy_config : Config :=
  mkConfig false true (map (fun e : string * ConfigUser => (e.1, Some e.2)) sample_users) "sqlite3" "/etc/cop/cop.db" 3 None "/etc/cop/ca.pem" "/keys/ca.pem" zero_TLS false.

Definition toy_conf : CliConfig :=
  set_cli_files "cop/cop.json" "/etc/cop/ca.pem" "/keys/ca.pem" "" (cli_flags "cop/cop.json" "127.0.0.1" 8888).

Lemma toy_configInit :
  configInit "/etc" sample_read (fun _ => "") (cli_flags "cop/cop.json" "127.0.0.1" 8888)
  = Ok (toy_config, toy_conf, "/etc/cop/cop.json", "/etc/cop").
Proof. vm_compute. reflexivity. Qed.

Lemma toy_extension : (2 <= length (Split (filepath_Base "/etc/cop/cop.json") "."))%nat.
Proof. vm_compute. lia. Qed.

Lemma toy_ready : sqlite_ready toy_config (p_machine toy_proc).
Proof. by split. Qed.

Lemma toy_configured :
  rv_users (configured sample_maps sample_slices toy_config sample_users empty_db) !! "admin"
  = Some (mkUserView (mkUserInfo "admin" "adminpw" "client" "bank_a" []) 0 3).
Proof. vm_compute. reflexivity. Qed.

Definition toy_cli : CommandEnv toy_P unit := mkCommandEnv ∅ (fun _ => None) (fun _ => mret tt).
Definition toy_command_of (_ : string) : Command toy_P unit := mkCommand "" [] (fun _ _ _ => mret tt).

Definition toy_cop : list string -> comp toy_P Z :=
  cop (toy_library true) toy_deriv toy_SKI toy_crypto 12 "" toy_sign_dec (fun _ => Handlers.toy_issue)
    toy_outside reverse "/etc" sample_read (fun _ => "")
    (fun _ => mret StatOK) (fun _ => mret tt) sample_maps sample_slices (fun _ _ _ => mret tt)
    toy_cli (fun _ => mret tt) toy_command_of [] (toy_command_of "init").

Definition toy_start_flags : list Written := [mkWritten false "config" Separate "cop/cop.json"].

Lemma toy_start_settable : Forall (settable (ParseDuration toy_cli) registerFlags) toy_start_flags.
Proof. repeat constructor; eexists _, _; split; reflexivity. Qed.

Lemma toy_start_config :
  config_of (set_flags (ParseDuration toy_cli) registerFlags toy_start_flags) = cli_flags "cop/cop.json" "127.0.0.1" 8888.
Proof. vm_compute. reflexivity. Qed.


Definition toy_serverMain (ok : bool) (reg : Registry_t) (p : toy_P) : outcome unit * toy_P :=
  serverMain (toy_library ok) toy_deriv toy_SKI toy_crypto 12 "" toy_sign_dec (fun _ => Handlers.toy_issue) toy_outside reverse toy_config reg (fun _ => mret tt) [] toy_conf None p.

Lemma ldap_certificates_unmanaged_witness :
  exists p', toy_serverMain true (RegistryLDAP toy_ldap) toy_proc = (Ok tt, p')
    /\ revoke_request (outside_ldap toy_outside toy_ldap) (p_certDBAccessor p') (mkRevocationRequest "" "17" "2a" 0) revoke_db
       = (Panic nil_deref, revoke_db).
Proof.
  destruct (ldap_certificates_unmanaged (toy_library true) toy_deriv toy_SKI toy_crypto 12 "" toy_sign_dec
    (fun _ => Handlers.toy_issue) toy_outside reverse
    ltac:(intros l; apply reverse_Permutation) toy_config toy_ldap (fun _ => mret tt) toy_conf None tt toy_proc (inr tt))
    as (p' & E & _ & Hr);
    [reflexivity|reflexivity|exact I|intros p e; apply toy_returns|reflexivity|reflexivity|reflexivity|reflexivity|].
  exists p'. split; [exact E|]. by apply Hr.
Defined.

Lemma start_without_signer_witness :
  exists p', toy_serverMain false (RegistryDB sqlite3) toy_proc = (Ok tt, p')
    /\ mux_Handler (p_mux p') (toy_get "/api/v1/cfssl/info") = RRedirect V1APIPrefix.
Proof.
  destruct (start_without_signer (toy_library false) toy_deriv toy_SKI toy_crypto 12 "" toy_sign_dec
    (fun _ => Handlers.toy_issue) toy_outside reverse
    ltac:(intros l; apply reverse_Permutation) toy_config (RegistryDB sqlite3) (fun _ => mret tt) toy_conf None tt toy_proc
    (NewErr "no key")) as (p' & E & Hr & _);
    [reflexivity|reflexivity|exact I|intros p e; apply toy_returns|reflexivity|reflexivity|reflexivity|].
  exists p'. split; [exact E|]. rewrite (Hr "info"); [reflexivity| |discriminate|reflexivity].
  do 2 apply list_elem_of_further. apply list_elem_of_here.
Defined.

Lemma no_authorization_refused_witness :
  exists resp, answer toy_crypto toy_crl toy_outside toy_config (RegistryDB sqlite3)
      (mux_table (toy_library true) toy_deriv toy_SKI toy_crypto 12 "" toy_sign_dec (fun _ => Handlers.toy_issue)
         toy_outside toy_config (RegistryDB sqlite3) toy_proc)
      (toy_get "/api/v1/cfssl/init_ca") toy_state = (Ok resp, toy_state)
    /\ (status resp = 301 \/ 400 <= status resp)%Z.
Proof. apply no_authorization_refused; reflexivity. Defined.
