(* ===== verification/Deployment.v ===== *)
(** * The server from its start on

    The composition of the start of the server (file Start) with the
    executions of the server it starts (files Concurrent and Protocol): what
    the configuration put in the database stays there, whatever requests
    arrive and however their statements are interleaved. *)

From S2P Require Import Prelude Interleave GoStrings GoFmt GoJson CopError Base64 Http Registry GoUrl GoUnmarshal Token Database DbAccessor CertDB Util Mux Config CommandLine Register Bootstrap Auth Handlers Ldap DbUtil TCertUtil KeyTree TCert Server Client Commands ClientServer TCertJson Concurrent Protocol Races Responses Start.

(** ** The registry in the rows that are kept *)

Lemma row_view_core r r' : row_core r = row_core r' -> uv_info (row_view r) = uv_info (row_view r').
Proof. unfold row_core. intros [=]. unfold row_view. simpl. congruence. Qed.

(** The first row of a name stays the first, with its registered columns. *)
Lemma find_kept id l l' r :
  map row_core l `prefix_of` map row_core l' -> List.find (Accessor.has_id id) l = Some r ->
  exists r', List.find (Accessor.has_id id) l' = Some r' /\ row_core r' = row_core r.
Proof.
  revert l'. induction l as [|x l IH]; intros l' Hp Hf; [done|].
  destruct l' as [|y l']; [by apply prefix_nil_inv in Hp|]. cbn [map] in Hp.
  pose proof (prefix_cons_inv_1 _ _ _ _ Hp) as E. apply prefix_cons_inv_2 in Hp.
  assert (ur_Name x = ur_Name y) as En by (unfold row_core in E; by injection E).
  cbn [List.find] in *. unfold Accessor.has_id at 1 in Hf. unfold Accessor.has_id at 1. rewrite <- En. case_bool_decide; [|by apply IH]. injection Hf as <-. by exists y.
Qed.

(** Every user of the registry keeps its entry, but for the number of logins,
    and the groups are the same. *)
Definition registry_kept (V V' : RegistryView) : Prop :=
  rv_groups V' = rv_groups V
  /\ forall id v, rv_users V !! id = Some v -> exists v', rv_users V' !! id = Some v' /\ uv_info v' = uv_info v.

Lemma rows_kept_registry d d' : rows_kept d d' -> registry_kept (db_view d) (db_view d').
Proof.
  intros [Hp Hg]. unfold db_view. split; [simpl; by rewrite Hg|]. intros id v. cbn [rv_users].
  rewrite !users_view_lookup. intros (r & Hr & ->)%fmap_Some.
  destruct (find_kept id (users d) (users d') r Hp Hr) as (r' & Hr' & E). exists (row_view r').
  rewrite Hr'. split; [done|]. by apply row_view_core.
Qed.

Section deployment.
Context {Signer OCSPSigner Signing Gen Box File Pool CSP Key : Type}.
Notation H := (Request -> comp (Srv Key) Response).
Notation P := (Proc Signer OCSPSigner Box Key (copAuthHandler (Srv Key))).
Context (L : Library Signer OCSPSigner Signing Gen Box File Pool CSP Key H).
Context (KeyDeriv : Key -> string -> outcome Key) (SKI : Key -> bytes) (C : Crypto).
Context (checkCRL : Certificate -> string -> bool * bool) (fuel : nat).
Context {SR : Type} (zero : SR) (dec : decoder SR) (issue : Signer -> SR -> outcome (bytes * CertificateRecord)).
Context {Conn : Type} (O : Outside Conn Key).
Context (range : list (string * comp P H) -> list (string * comp P H)) (Hrange : forall l, range l ≡ₚ l).
Context (wd : string) (readFile : string -> option string) (getenv : string -> string).
Context (stat : string -> comp P stat_result) (MkdirAll : string -> comp P unit).
Context (GetStringMapString GetStringSlice : string -> list string).
Context (listen : Config -> Registry_t -> Listening Pool -> comp P unit).
(** Reading randomness and the clock leaves the server's state alone. *)
Context (Hread : forall n, readonly (io_ReadFull O n)) (Hnow : readonly (time_Now O)).
Context (Hrand : forall m, readonly (crypto_rand_Int O m)).

(** The requests of the started server, each a thread of statements. *)
Definition deployed (CFG : Config) (sg : Signer) (mgr : Mgr) : Request -> thread (Srv Key) Response :=
  Threads.serve KeyDeriv SKI C CFG (accessor_registry (Accessor.mkAccessor (Some (sqlite_file CFG))))
    (Some (CertDBAccessor.NewCertDBAccessor (Some (sqlite_file CFG)))) checkCRL (db_RandomString fuel)
    zero dec (issue sg) (outside_batch O mgr) (GetBatchResponse_json (time_json O)).

Lemma outside_batch_readonly mgr req cert : readonly (outside_batch O mgr req cert).
Proof. by apply GetBatch_readonly. Qed.

Lemma deployed_rows CFG sg mgr d tree s' ts' :
  cache_ok KeyDeriv tree -> rtc (pool_step (deployed CFG sg mgr) srv_env) (mkSrv d tree, []) (s', ts') ->
  registry_kept (db_view d) (db_view (s_db s')).
Proof.
  intros Ht Hrun.
  destruct (pool_kept KeyDeriv SKI C CFG (sqlite_file CFG) fuel checkCRL zero dec (issue sg) (outside_batch O mgr)
    (GetBatchResponse_json (time_json O)) (outside_batch_readonly mgr) (fun _ => True) kept (mkSrv d tree) s' ts')
    as (_ & (_ & _ & Hk) & _); [apply kept_primitive|done| |exact Hrun|done|done|].
  - intros d1 t fs. by apply kept_certificates; [|apply rows_kept_same].
  - by apply rows_kept_registry.
Qed.

(** (C20) From the configuration to every later moment.  A server that is
    started on SQLite listens over the file's database; then at every moment of
    every concurrent execution of it (requests to any COP endpoint at any time,
    their statements interleaved in any way, statements failing and the clock
    advancing at will): every configured user whose name was not in the
    database before the start and whose group, where its type needs one, was
    there or is configured, is registered with exactly its configured secret,
    type, group and attributes; every user that was there before the start
    still has the data it had; and the groups are those that were there, with
    their parents, and those of the configuration. *)
Theorem configured_registry_kept c cfg p home p1 CFG c' file dir us pool sg csp mgr rk :
  let reg := RegistryDB (sqlite_file CFG) in
  let old := db_view (stored_rows (sqlite_file CFG) (p_machine p1)) in
  let gs := Bootstrap.all_group_entries GetStringMapString GetStringSlice in
  CreateHome getenv stat MkdirAll p = (Ok home, p1) ->
  p_mux p1 = ∅ -> sqlite_ready CFG (p_machine p1) ->
  configInit wd readFile getenv c = Ok (CFG, c', file, dir) ->
  (2 <= length (Split (filepath_Base file) "."))%nat ->
  Users CFG = map (fun e : string * ConfigUser => (e.1, Some e.2)) us -> Forall (fun e => cu_Pass e.2 <> "") us ->
  NoDup (map fst us) ->
  LoadPlatforms L (cli_Metadata c') = Ok tt -> LoadPEMCertPool L (cli_MutualTLSCAFile c') = Ok pool ->
  returns (ocspsign_SignerFromConfig L c') ->
  (forall p e, e ∈ all_endpoints L KeyDeriv SKI C fuel zero dec issue O CFG reg -> returns (offered p e)) ->
  configured_signer L c' cfg = Ok sg ->
  factory_GetDefault L = Ok csp -> configured_mgr C O CFG = Ok mgr ->
  AES256KeyGen L csp = Ok rk ->
  exists p', startMain L KeyDeriv SKI C fuel zero dec issue O range wd readFile getenv stat MkdirAll GetStringMapString
        GetStringSlice listen [] c cfg p = listen CFG reg (socket CFG c' pool) p'
    /\ forall tree s' ts', cache_ok KeyDeriv tree ->
         rtc (pool_step (deployed CFG sg mgr) srv_env) (mkSrv (content (sqlite_file CFG) (p_machine p')) tree, []) (s', ts') ->
         (forall name u, (name, u) ∈ us -> rv_users old !! name = None ->
            Register.requireGroup (cu_Type u) = false \/ cu_Group u ∈ map fst gs \/ is_Some (rv_groups old !! cu_Group u) ->
            exists v, rv_users (db_view (s_db s')) !! name = Some v
              /\ uv_info v = mkUserInfo name (cu_Pass u) (cu_Type u) (cu_Group u) (cu_Attributes u))
         /\ (forall id v, rv_users old !! id = Some v ->
            exists v', rv_users (db_view (s_db s')) !! id = Some v' /\ uv_info v' = uv_info v)
         /\ rv_groups old ⊆ rv_groups (db_view (s_db s'))
         /\ (forall g, is_Some (rv_groups (db_view (s_db s')) !! g) <-> is_Some (rv_groups old !! g) \/ g ∈ map fst gs).
Proof.
  intros reg old gs Hh Hmux Hready Hcfg Hext Hus Hpw Hnd Hplat Hpool Hocsp Hret Hsg Hcsp Hmgr Hrk.
  destruct (startMain_serves L KeyDeriv SKI C checkCRL fuel zero dec issue O range wd readFile getenv stat MkdirAll
    GetStringMapString GetStringSlice listen Hrange c cfg p home p1 CFG c' file dir us pool sg csp mgr rk)
    as (p' & E & _ & Hv & _); [done..|].
  exists p'. split; [exact E|]. intros tree s' ts' Ht Hrun.
  destruct (deployed_rows _ _ _ _ _ _ _ Ht Hrun) as [Hg Hu]. rewrite Hv in Hg, Hu. unfold configured in Hg, Hu.
  fold old gs in Hg, Hu. destruct (spec_bootstrap_keeps (MaxEnrollments CFG) gs us old) as [Ku Kg].
  split; [|split; [|split]].
  - intros name u He Hn Hgr.
    destruct (Hu name _ (spec_bootstrap_user (MaxEnrollments CFG) gs us old (name, u) Hnd He Hn Hgr)) as (v & H1 & H2).
    exists v. by split.
  - intros id v Hid. apply Hu. by eapply lookup_weaken.
  - by rewrite Hg.
  - intros g. rewrite Hg. apply spec_bootstrap_groups.
Qed.
End deployment.

(** ** A concrete deployment *)

Definition toy_mgr : Mgr := NewMgr (RSAPriv 7) (toy_cert (ECDSAKey 1)).

Definition toy_deployed : Request -> thread (Srv (list string)) Response :=
  deployed toy_deriv toy_SKI toy_crypto toy_crl 12 "" toy_sign_dec (fun _ : unit => Handlers.toy_issue) toy_outside
    toy_config tt toy_mgr.

Definition toy_startMain : comp toy_P unit :=
  startMain (toy_library true) toy_deriv toy_SKI toy_crypto 12 "" toy_sign_dec (fun _ => Handlers.toy_issue)
    toy_outside reverse "/etc" sample_read (fun _ => "")
    (fun _ => mret StatOK) (fun _ => mret tt) sample_maps sample_slices (fun _ _ _ => mret tt)
    [] (cli_flags "cop/cop.json" "127.0.0.1" 8888) None.

(** The state the started server begins with, and the administrator of the
    configuration enrolling while an intruder tries another password. *)
Definition toy_deployment : Srv (list string) :=
  mkSrv (content (sqlite_file toy_config) (p_machine (toy_startMain toy_proc).2)) (NewKeyTree []).

Definition enroll_as (user pass : string) : Request :=
  mkRequest "POST" "/api/v1/cfssl/enroll" (SetBasicAuth user pass) ""
    (json_print (JObj [("certificate_request", JStr "csr")])) None.

Definition toy_traffic : list Request := [enroll_as "admin" "adminpw"; enroll_as "admin" "guess"].

Definition toy_later : Srv (list string) * pool Request (Srv (list string)) Response :=
  rounds 12 toy_deployment (map (fun r => (r, toy_deployed r)) toy_traffic).

(** The enrollment has been served: a certificate is recorded, and the login
    is counted. *)
Example toy_later_served :
  length (certificates (s_db toy_later.1)) = 1%nat /\ map ur_State (users (s_db toy_later.1)) = [1%Z].
Proof. vm_compute. done. Qed.

Lemma configured_registry_kept_witness :
  exists v, rv_users (db_view (s_db toy_later.1)) !! "admin" = Some v
    /\ uv_info v = mkUserInfo "admin" "adminpw" "client" "bank_a" [].
Proof.
  destruct (configured_registry_kept (toy_library true) toy_deriv toy_SKI toy_crypto toy_crl 12 "" toy_sign_dec
    (fun _ => Handlers.toy_issue) toy_outside reverse ltac:(intros l; apply reverse_Permutation)
    "/etc" sample_read (fun _ => "") (fun _ => mret StatOK) (fun _ => mret tt) sample_maps sample_slices
    (fun _ _ _ => mret tt) ltac:(intros n; apply readonly_ret) ltac:(apply readonly_ret) ltac:(intros n; apply readonly_ret)
    (cli_flags "cop/cop.json" "127.0.0.1" 8888) None
    toy_proc "/var/hyperledger/fabric/dev/.fabric-cop" toy_proc toy_config toy_conf "/etc/cop/cop.json" "/etc/cop"
    sample_users tt tt tt toy_mgr []) as (p' & E & Hk);
    [reflexivity|reflexivity|exact toy_ready|exact toy_configInit|exact toy_extension|reflexivity|by repeat constructor
    |apply (bool_decide_unpack _); vm_compute; exact I
    |reflexivity|reflexivity|exact I|intros p e; apply toy_returns|reflexivity|reflexivity|reflexivity|reflexivity|].
  assert (Hrun : rtc (pool_step toy_deployed srv_env) (toy_deployment, []) toy_later).
  { etrans; [apply (arrive_all _ _ toy_traffic toy_deployment [])|apply rounds_reach]. }
  assert (E' : toy_startMain toy_proc = (Ok tt, p')) by exact E.
  unfold toy_deployment in Hrun. rewrite E' in Hrun. cbn [snd] in Hrun.
  destruct toy_later as [s' ts'].
  destruct (Hk (NewKeyTree []) s' ts') as [H _]; [|exact Hrun|].
  - intros k key' Hk'. simpl in Hk'. by rewrite lookup_empty in Hk'.
  - apply (H "admin" (mkConfigUser "adminpw" "client" "bank_a" [])); [apply list_elem_of_here|reflexivity|].
    right. left. apply (bool_decide_unpack _). vm_compute. exact I.
Defined.
