(* ===== verification/CommandsServer.v ===== *)
(** * The commands against the server

    The client's commands (file Commands) run on a machine with a disk and a
    terminal, against the server (file Server) over the network of file
    ClientServer.  [sim] relates a computation that uses the disk only for
    reading to the same computation with the disk's contents as fixed files,
    so that the theorems on the client library carry over. *)

From S2P Require Import Prelude GoStrings GoFmt GoJson CopError Base64 Http Registry GoUrl GoUnmarshal Token Database DbAccessor CertDB Util Config CommandLine Register Auth Handlers TCertUtil KeyTree TCert Server DbUtil Client Commands ClientServer.

#[local] Arguments String.append !_ _ : simpl nomatch.

(** ** A machine beside the server *)

(** The client's machine: its disk and what was printed. *)
Record Terminal := mkTerminal { t_disk : disk; t_out : list string }.

Section machine.
Context {S : Type}.
Notation W := (S * Terminal)%type.

Definition on_server {A} (m : comp S A) : comp W A := fun '(s, t) => let '(o, s') := m s in (o, (s', t)).

Definition m_read (f : string) : comp W bytes := fun '(s, t) =>
  (match t_disk t !! f with
   | Some b => Ok b
   | None => Err (NewErr ("open " +:+ f +:+ ": no such file or directory"))
   end, (s, t)).

Definition m_write (f : string) (b : bytes) (perm : Z) : comp W unit := fun '(s, t) =>
  (Ok tt, (s, mkTerminal (<[f := b]> (t_disk t)) (t_out t))).

Definition m_print (line : string) : comp W unit := fun '(s, t) =>
  (Ok tt, (s, mkTerminal (t_disk t) (t_out t ++ [line]))).

#[export] Instance machine_files : FileLaws m_read m_write.
Proof.
  split.
  - intros f b perm [s t] w' [= <-]. simpl. by rewrite lookup_insert_eq.
  - intros f g b perm [s t] w' x Hne [= <-] H. simpl in *. rewrite lookup_insert_ne by done.
    destruct (t_disk t !! f); [|done]. by injection H as ->.
Qed.

(** ** Reading only *)

(** Started on the terminal [t], [m2] does what [m1] does to the server and
    leaves the terminal alone. *)
Definition sim {A} (t : Terminal) (m2 : comp W A) (m1 : comp S A) : Prop :=
  forall s, m2 (s, t) = let '(o, s') := m1 s in (o, (s', t)).

Context (t : Terminal).

Lemma sim_lift {A} (o : outcome A) : sim t (lift o) (lift o).
Proof. by intros s. Qed.

Lemma sim_ret {A} (x : A) : sim t (mret x) (mret x).
Proof. by intros s. Qed.

Lemma sim_bind {A B} (m2 : comp W A) m1 (f2 : A -> comp W B) f1 :
  sim t m2 m1 -> (forall x, sim t (f2 x) (f1 x)) -> sim t (m2 ≫= f2) (m1 ≫= f1).
Proof.
  intros Hm Hf s. unfold mbind, comp_bind. rewrite Hm. destruct (m1 s) as [[] s1]; try done. apply Hf.
Qed.

Lemma sim_attempt {A} (m2 : comp W A) m1 : sim t m2 m1 -> sim t (attempt m2) (attempt m1).
Proof. intros Hm s. unfold attempt. rewrite Hm. by destruct (m1 s) as [[] s1]. Qed.

Lemma sim_map_err {A} f (m2 : comp W A) m1 : sim t m2 m1 -> sim t (map_err f m2) (map_err f m1).
Proof. intros Hm s. unfold map_err. rewrite Hm. by destruct (m1 s) as [[] s1]. Qed.

Lemma sim_server {A} (m : comp S A) : sim t (on_server m) m.
Proof. by intros s. Qed.

Definition files_of (f : string) : option bytes := t_disk t !! f.

Lemma sim_read f : sim t (m_read f) (read_file files_of f).
Proof. intros s. unfold m_read, read_file, files_of. by destruct (t_disk t !! f). Qed.
End machine.

Create HintDb sim discriminated.
#[export] Hint Resolve sim_lift sim_ret sim_server sim_read sim_attempt sim_map_err : sim.

(** One step of a simulation proof. *)
Ltac sim_step :=
  first [ solve [eauto with sim] | apply sim_bind; [|intros ?] | apply sim_attempt | apply sim_map_err
        | (match goal with |- context [match ?x with _ => _ end] => destruct x end) ].

Ltac solve_sim := repeat sim_step.

Section library.
Context {S : Type} (t : Terminal) (C : Crypto) (getenv : string -> string) (hostname : string).
Context (pair : string -> string -> option (string * string)) (roots : bytes -> bool).
Context (Do : option tls_Config -> Request -> comp S (Response * option error)).
Context (gen : CertificateRequest -> bytes * bytes) (prefix : string -> bytes).

Let Do2 (tls : option tls_Config) (r : Request) : comp (S * Terminal) (Response * option error) := on_server (Do tls r).
Let files := files_of t.

Lemma sim_load_pair c k : sim t (load_pair (S := S * Terminal) pair c k) (load_pair (S := S) pair c k).
Proof. unfold load_pair. solve_sim. Qed.

Lemma sim_load_roots fs : sim t (load_roots (m_read (S := S)) roots fs) (load_roots (read_file files) roots fs).
Proof. induction fs as [|f fs IH]; cbn [load_roots]; solve_sim; exact IH. Qed.

Lemma sim_tls cfg :
  sim (S := S) t (GetClientTLSConfig m_read (load_pair pair) roots cfg) (GetClientTLSConfig (read_file files) (load_pair pair) roots cfg).
Proof.
  unfold GetClientTLSConfig. apply sim_bind; [apply sim_attempt, sim_load_pair|intros x].
  apply sim_bind; [apply sim_load_roots|intros l; apply sim_ret].
Qed.

Lemma sim_SendPost c r :
  sim t (SendPost m_read (load_pair pair) roots Do2 c r) (SendPost (read_file files) (load_pair pair) roots Do c r).
Proof.
  unfold SendPost. apply sim_bind; [apply sim_attempt, sim_read|intros f]. cbv zeta.
  apply sim_bind; [apply sim_attempt, sim_tls|intros x]. cbv zeta.
  apply sim_bind; [apply sim_attempt, sim_server|intros y]. solve_sim.
Qed.

Lemma sim_NewPost c endpoint b : sim t (NewPost c endpoint b) (NewPost (W := S) c endpoint b).
Proof. unfold NewPost, getURL. solve_sim. Qed.

Lemma sim_Post i endpoint b :
  sim t (Post C m_read (load_pair pair) roots Do2 i endpoint b) (Post C (read_file files) (load_pair pair) roots Do i endpoint b).
Proof.
  unfold Post. destruct (i_client i); [|apply sim_lift].
  apply sim_bind; [apply sim_NewPost|intros r]. apply sim_bind; [|intros r'; apply sim_SendPost].
  unfold addTokenAuthHdr. solve_sim.
Qed.

Lemma sim_Client_Register c req :
  sim t (Client_Register C m_read (load_pair pair) roots Do2 c req)
    (Client_Register C (read_file files) (load_pair pair) roots Do c req).
Proof.
  unfold Client_Register, Marshal. do 2 (case_match; [apply sim_lift|]). case_match; [|apply sim_lift].
  apply sim_bind; [apply sim_ret|intros b]. apply sim_bind; [apply sim_Post|intros buf]. solve_sim.
Qed.

Lemma sim_Enroll c req :
  sim t (Enroll hostname m_read (load_pair pair) roots Do2 (fun q => mret (gen q)) prefix c req)
    (Enroll hostname (read_file files) (load_pair pair) roots Do (fun q => mret (gen q)) prefix c req).
Proof.
  unfold Enroll, GenCSR, Marshal. apply sim_bind; [apply sim_ret|intros [csrPEM key]].
  apply sim_bind; [apply sim_ret|intros b]. apply sim_bind; [apply sim_NewPost|intros post].
  apply sim_bind; [apply sim_SendPost|intros cert]. unfold newIdentityFromResponse, decode. solve_sim.
Qed.
End library.

(** ** The commands' client *)

Lemma json_chars_addr s : all_chars addr_char s = true -> json_chars s = s.
Proof.
  induction s as [|c s IH]; simpl; [done|]. intros [Hc Hs]%andb_prop. rewrite IH by done.
  revert Hc. destruct c as [[] [] [] [] [] [] [] []]; vm_compute; congruence.
Qed.

(** The JSON text made by hand is the one [json.Marshal] would make. *)
Lemma cmd_NewClient_http {W} getenv a (w : W) :
  all_chars addr_char a = true ->
  cmd_NewClient getenv ("http://" +:+ a) w = (Ok (mkClient ("http://" +:+ a) (GetDefaultHomeDir getenv)), w).
Proof.
  intros Ha. unfold cmd_NewClient, NewClient.
  set (v := JObj [("serverURL", JStr ("http://" +:+ a))]).
  assert ("{" +:+ String quote "" +:+ "serverURL" +:+ String quote "" +:+ ":" +:+ String quote "" +:+
    ("http://" +:+ a) +:+ String quote "" +:+ "}" = json_print v) as ->.
  { unfold v. cbn [json_print map Join]. unfold json_string. simpl. rewrite json_chars_addr by done.
    by rewrite <- ?app_assoc_str. }
  rewrite (bool_decide_false (json_print v = "")) by discriminate. cbn [negb].
  unfold Unmarshal, decode, json_Unmarshal. rewrite json_parse_print by reflexivity. reflexivity.
Qed.

Section commands.
Context {Key : Type} (KeyDeriv : Key -> string -> outcome Key) (SKI : Key -> bytes).
Context (C : Crypto) `{!CryptoLaws C} (CFG : Config) (hd : DBHandle) (fuel : nat).
Context (checkCRL : Certificate -> string -> bool * bool).
Context {SR : Type} (zero : SR) (dec : decoder SR) (issue : SR -> outcome (bytes * CertificateRecord)).
Context (mgr_GetBatch : GetBatchRequest -> Certificate -> comp (Srv Key) GetBatchResponse).
Context (resp_json : GetBatchResponse -> json).
Let listening := serve KeyDeriv SKI C CFG (accessor_registry (Accessor.mkAccessor (Some hd)))
  (Some (CertDBAccessor.NewCertDBAccessor (Some hd))) checkCRL (db_RandomString fuel) zero dec issue mgr_GetBatch resp_json.
Context (pair : string -> string -> option (string * string)) (roots : bytes -> bool) (getenv : string -> string).
Context (gen : CertificateRequest -> bytes * bytes) (hostname : string) (prefix : string -> bytes).
Context (h p : string) (z : Z).
Hypothesis Hh : all_chars host_char h = true.
Hypothesis Hp : all_digits p = true.
Hypothesis Hz : Atoi p = Some z.
Let addr : string := h +:+ String ":" p.
Let url : string := "http://" +:+ addr.
Let c : Client := mkClient url (GetDefaultHomeDir getenv).
Let Do2 (tls : option tls_Config) (r : Request) : comp (Srv Key * Terminal) (Response * option error) :=
  on_server (deliver listening addr tls r).

Definition register_command (args : list string) : comp (Srv Key * Terminal) unit :=
  registerMain C getenv m_read (load_pair pair) roots Do2 prefix m_print args.

Definition enroll_command (args : list string) : comp (Srv Key * Terminal) unit :=
  enrollMain getenv hostname m_read m_write (load_pair pair) roots Do2 (fun q => mret (gen q)) prefix args.

Definition password_line (tok : string) : string :=
  Sprintf "One time password: %s" [FStr tok] +:+ String (Ascii.ascii_of_nat 10) "".

(** The terminal of an enrolled registrar. *)
Definition enrolled (t : Terminal) (key der : bytes) : Prop :=
  t_disk t !! GetMyKeyFile getenv c = Some key /\ t_disk t !! GetMyCertFile getenv c = Some der.

Lemma LoadMyIdentity_run t key der cert s :
  enrolled t key der -> GetX509CertificateFromPEM C der = Ok cert ->
  LoadMyIdentity C getenv m_read c (s, t)
  = (Ok (newIdentity (Some c) (CommonName cert) (Some key) (Some der)), (s, t)) :> _ * (Srv Key * Terminal).
Proof.
  intros [Hk Hc] Hcert. unfold LoadMyIdentity, LoadIdentity, ReadFile.
  rewrite (bind_ok _ _ (s, t) key (s, t)) by (apply map_err_ok; simpl; by rewrite Hk).
  rewrite (bind_ok _ _ (s, t) der (s, t)) by (apply map_err_ok; simpl; by rewrite Hc).
  unfold NewIdentity, GetEnrollmentIDFromPEM. simpl default. rewrite Hcert. done.
Qed.

(** The [register] command, end to end. *)
Lemma register_command_run t key der cert regFile buf req s :
  Authentication CFG = true -> enrolled t key der ->
  GetX509CertificateFromPEM C der = Ok cert -> der <> [] -> matching_key C cert key ->
  (forall b, exists tk, CreateToken C der key b = Ok tk) -> current checkCRL (s_db s) cert ->
  db_inv (s_db s) -> letters_within fuel (s_db s) ->
  t_disk t !! regFile = Some buf ->
  json_Unmarshal dec_RegistrationRequest (string_of_bytes buf) zero_RegistrationRequest = (req, None) ->
  rg_Name req <> "" -> rg_Group req <> "" ->
  exists tok, String.length tok = 12%nat
    /\ match spec_register (db_view (s_db s)) (MaxEnrollments CFG)
               (mkUserInfo (rg_Name req) tok (rg_Type req) (rg_Group req) (rg_Attributes req)) (CommonName cert) with
       | Some V' => exists s', register_command [regFile; url] (s, t)
             = (Ok tt, (s', mkTerminal (t_disk t) (t_out t ++ [password_line tok])))
           /\ db_inv (s_db s') /\ db_view (s_db s') = V'
       | None => exists e s', register_command [regFile; url] (s, t) = (Err e, (s', t))
           /\ db_inv (s_db s') /\ db_view (s_db s') = db_view (s_db s)
       end.
Proof.
  intros HA Hen Hcert Hne Hkey Htok Hcur Hd Hl Hfile Hreq Hn Hg.
  set (req' := mkRegistrationRequest (rg_Name req) (rg_Type req) (rg_Group req) (rg_Attributes req)
    (Some (newIdentity (Some c) (CommonName cert) (Some key) (Some der)))).
  destruct (Register_run KeyDeriv SKI C CFG hd fuel checkCRL zero dec issue mgr_GetBatch resp_json (files_of t) pair
    roots h p z (GetDefaultHomeDir getenv) Hh Hp Hz (CommonName cert) key der cert req' s HA Hcert Hne Hkey Htok
    Hcur Hd Hl Hn Hg eq_refl) as (tok & Hlen & Hrun).
  exists tok. split; [exact Hlen|].
  assert (E : register_command [regFile; url] (s, t) =
    (secret ← Client_Register C m_read (load_pair pair) roots Do2 c req';
     m_print (password_line (string_of_bytes (default (prefix secret) (StdDecode secret))))) (s, t)).
  { unfold register_command, registerMain. cbn [PopFirstArgument]. rewrite bind_mret.
    rewrite (bind_ok _ _ (s, t) buf (s, t)) by (apply map_err_ok; simpl; by rewrite Hfile).
    unfold decode. rewrite Hreq, bind_mret. cbn [PopFirstArgument]. rewrite bind_mret. cbv beta iota.
    rewrite (bind_ok _ _ _ _ _ (cmd_NewClient_http getenv addr (s, t) (addr_chars h p Hh Hp))). fold url c.
    by rewrite (bind_ok _ _ _ _ _ (LoadMyIdentity_run t key der cert s Hen Hcert)). }
  unfold mbind at 1, comp_bind at 1 in E.
  pose proof (sim_Client_Register t C pair roots (deliver listening addr) c req' s) as Hsim.
  fold Do2 in Hsim. rewrite Hsim in E. rewrite E. clear E Hsim. cbn [rg_Name rg_Type rg_Group rg_Attributes req'] in Hrun.
  destruct (spec_register _ _ _ _) as [V'|].
  - destruct Hrun as (s' & Hrun & Hi & HV). exists s'. fold listening addr url c in Hrun. rewrite Hrun.
    rewrite StdDecode_StdEncode. simpl default. rewrite string_of_bytes_of_string. done.
  - destruct Hrun as (e & s' & Hrun & Hi & HV). exists e, s'. fold listening addr url c in Hrun. by rewrite Hrun.
Qed.

(** The [enroll] command, end to end. *)
Lemma enroll_command_run t id secret s v' sr cert cr cn :
  let req := mkEnrollmentRequest id secret "" "" "" None in
  Authentication CFG = true -> db_inv (s_db s) -> Contains id ":" = false ->
  rv_users (db_view (s_db s)) !! id ≫= (fun v => spec_login v secret) = Some v' ->
  json_Unmarshal dec (json_print (SignRequest_json (client_sign_request gen hostname req))) zero = (sr, None) ->
  issue sr = Ok (cert, cr) -> GetEnrollmentIDFromPEM C (bytes_of_string (cr_PEM cr)) = Ok cn ->
  existsb (has_cert (cr_Serial cr) (cr_AKI cr)) (certificates (s_db s)) = false ->
  exists s', enroll_command [id; secret; url] (s, t)
      = (Ok tt, (s', mkTerminal (<[GetMyCertFile getenv c := cert]>
                       (<[GetMyKeyFile getenv c := (client_csr gen hostname req).2]> (t_disk t))) (t_out t)))
    /\ db_inv (s_db s')
    /\ db_view (s_db s') = mkRegistryView (<[id := v']> (rv_users (db_view (s_db s)))) (rv_groups (db_view (s_db s)))
    /\ certificates (s_db s') = certificates (s_db s) ++ [stored cn cr].
Proof.
  intros req HA Hd Hcol Hspec Hdec Hiss Hid Hk.
  destruct (Enroll_accepted KeyDeriv SKI C CFG hd fuel checkCRL zero dec issue mgr_GetBatch resp_json (files_of t) pair
    roots h p z (GetDefaultHomeDir getenv) Hh Hp Hz gen hostname prefix req s v' sr cert cr cn HA Hd Hcol Hspec Hdec
    Hiss Hid Hk) as (s' & Hrun & Hrest).
  exists s'. split; [|exact Hrest]. fold listening addr url c in Hrun.
  unfold enroll_command, enrollMain. cbn [PopFirstArgument]. rewrite bind_mret. cbv beta iota. cbn [PopFirstArgument].
  rewrite bind_mret. cbv beta iota. cbn [PopFirstArgument]. rewrite bind_mret. cbv beta iota.
  rewrite (bind_ok _ _ _ _ _ (cmd_NewClient_http getenv addr (s, t) (addr_chars h p Hh Hp))). fold url c.
  cbn [csr_argument]. rewrite bind_mret. fold req.
  pose proof (sim_Enroll t hostname pair roots (deliver listening addr) gen prefix c req s) as Hsim. fold Do2 in Hsim.
  rewrite Hrun in Hsim. rewrite (bind_ok _ _ _ _ _ Hsim). reflexivity.
Qed.

(** Registering and enrolling at the command line: when the abstract
    registration under the registrar's name succeeds, the [register] command
    succeeds and prints a password of twelve letters; the [enroll] command,
    given that password, is then accepted and leaves the new key and the
    issued certificate in the client's files, and the server has the user,
    logged in once, and the certificate.  Otherwise [register] fails, prints
    nothing and changes no user or group. *)
Lemma register_enroll_commands t key der cert regFile buf req s :
  Authentication CFG = true -> enrolled t key der ->
  GetX509CertificateFromPEM C der = Ok cert -> der <> [] -> matching_key C cert key ->
  (forall b, exists tk, CreateToken C der key b = Ok tk) -> current checkCRL (s_db s) cert ->
  db_inv (s_db s) -> letters_within fuel (s_db s) ->
  t_disk t !! regFile = Some buf ->
  json_Unmarshal dec_RegistrationRequest (string_of_bytes buf) zero_RegistrationRequest = (req, None) ->
  rg_Name req <> "" -> rg_Group req <> "" -> Contains (rg_Name req) ":" = false ->
  exists tok, String.length tok = 12%nat
    /\ let info := mkUserInfo (rg_Name req) tok (rg_Type req) (rg_Group req) (rg_Attributes req) in
       match spec_register (db_view (s_db s)) (MaxEnrollments CFG) info (CommonName cert) with
       | None => exists e s', register_command [regFile; url] (s, t) = (Err e, (s', t))
           /\ db_view (s_db s') = db_view (s_db s)
       | Some V' => exists s1 t1, register_command [regFile; url] (s, t) = (Ok tt, (s1, t1))
           /\ t1 = mkTerminal (t_disk t) (t_out t ++ [password_line tok])
           /\ db_view (s_db s1) = V'
           /\ let ereq := mkEnrollmentRequest (rg_Name req) tok "" "" "" None in
              forall sr newcert cr cn,
                json_Unmarshal dec (json_print (SignRequest_json (client_sign_request gen hostname ereq))) zero = (sr, None) ->
                issue sr = Ok (newcert, cr) -> GetEnrollmentIDFromPEM C (bytes_of_string (cr_PEM cr)) = Ok cn ->
                existsb (has_cert (cr_Serial cr) (cr_AKI cr)) (certificates (s_db s1)) = false ->
                exists s2 t2, enroll_command [rg_Name req; tok; url] (s1, t1) = (Ok tt, (s2, t2))
                  /\ t_disk t2 !! GetMyCertFile getenv c = Some newcert
                  /\ (GetMyKeyFile getenv c <> GetMyCertFile getenv c ->
                      t_disk t2 !! GetMyKeyFile getenv c = Some (client_csr gen hostname ereq).2)
                  /\ (exists v, rv_users (db_view (s_db s2)) !! rg_Name req = Some v /\ uv_info v = info
                       /\ uv_state v = if (MaxEnrollments CFG <? 0)%Z then 0%Z else 1%Z)
                  /\ certificates (s_db s2) = certificates (s_db s1) ++ [stored cn cr]
       end.
Proof.
  intros HA Hen Hcert Hne Hkey Htok Hcur Hd Hl Hfile Hreq Hn Hg Hcol.
  destruct (register_command_run t key der cert regFile buf req s HA Hen Hcert Hne Hkey Htok Hcur Hd Hl Hfile Hreq Hn Hg)
    as (tok & Hlen & Hrun).
  exists tok. split; [exact Hlen|]. cbv zeta. set (info := mkUserInfo _ _ _ _ _) in *.
  destruct (spec_register _ _ _ _) as [V'|] eqn:Espec.
  2:{ destruct Hrun as (e & s' & Hrun & _ & HV). by exists e, s'. }
  destruct Hrun as (s1 & Hrun & Hi1 & HV1). eexists s1, _. split; [exact Hrun|]. split; [reflexivity|].
  split; [exact HV1|]. intros sr newcert cr cn Hdec Hiss Hid Hfresh.
  assert (Hu : rv_users (db_view (s_db s1)) !! rg_Name req = Some (mkUserView info 0 (MaxEnrollments CFG))).
  { rewrite HV1. unfold spec_register in Espec. destruct (_ && _); [|done]. injection Espec as <-. apply lookup_insert_eq. }
  assert (Hlog : exists v', spec_login (mkUserView info 0 (MaxEnrollments CFG)) tok = Some v' /\ uv_info v' = info
    /\ uv_state v' = if (MaxEnrollments CFG <? 0)%Z then 0%Z else 1%Z).
  { unfold spec_login. simpl. rewrite bool_decide_true by done. simpl. destruct (MaxEnrollments CFG <? 0)%Z eqn:E0; [by eexists|].
    destruct (MaxEnrollments CFG =? 0)%Z eqn:E1; [by eexists|]. cbn [negb andb].
    assert ((0 >=? MaxEnrollments CFG)%Z = false) as -> by lia. by eexists. }
  destruct Hlog as (v' & Hlog & Hinfo & Hst).
  destruct (enroll_command_run (mkTerminal (t_disk t) (t_out t ++ [password_line tok])) (rg_Name req) tok s1 v' sr newcert
    cr cn HA Hi1 Hcol ltac:(by rewrite Hu) Hdec Hiss Hid Hfresh) as (s2 & Hrun2 & _ & HV2 & Hc2).
  eexists s2, _. split; [exact Hrun2|]. cbn [t_disk]. rewrite lookup_insert_eq. split; [reflexivity|].
  split; [intros Hk; rewrite lookup_insert_ne by done; by rewrite lookup_insert_eq|].
  split; [|exact Hc2]. exists v'. rewrite HV2. cbn [rv_users]. rewrite lookup_insert_eq. done.
Qed.
End commands.

(** ** A concrete run *)

Definition toy_env (v : string) : string := if bool_decide (v = "COP_HOME") then "/home/cop" else "".

Definition toy_regfile : bytes :=
  bytes_of_string (json_print (JObj [("id", JStr "bob"); ("type", JStr "peer"); ("group", JStr "bank_a")])).

Definition toy_terminal : Terminal :=
  mkTerminal (<["/home/cop/key.pem" := [x09]]> (<["/home/cop/cert.pem" := [x01]]> (<["reg.json" := toy_regfile]> ∅))) [].

Lemma toy_terminal_enrolled : enrolled toy_env "localhost" "8888" toy_terminal [x09] [x01].
Proof. split; vm_compute; reflexivity. Qed.

Lemma toy_regfile_decodes :
  json_Unmarshal dec_RegistrationRequest (string_of_bytes toy_regfile) zero_RegistrationRequest
  = (mkRegistrationRequest "bob" "peer" "bank_a" [] None, None).
Proof. vm_compute. reflexivity. Qed.
