(* ===== verification/CommandsRenew.v ===== *)
(** * The reenroll and revoke commands against the server

    The commands of an enrolled client that authenticate with its token, run
    on the machine of file CommandsServer against the server: what each does
    to the server and to the client's files, on every outcome. *)

From S2P Require Import Prelude GoStrings GoFmt GoJson CopError Base64 Http Registry GoUrl GoUnmarshal Token Database DbAccessor CertDB Util Config CommandLine Register Auth Handlers TCertUtil KeyTree TCert Server DbUtil Client Commands ClientServer Revocation Reenrollment CommandsServer.

#[local] Arguments String.append !_ _ : simpl nomatch.

Section library.
Context {S : Type} (t : Terminal) (C : Crypto) (hostname : string).
Context (pair : string -> string -> option (string * string)) (roots : bytes -> bool).
Context (Do : option tls_Config -> Request -> comp S (Response * option error)).
Context (gen : CertificateRequest -> bytes * bytes) (prefix : string -> bytes).
Let Do2 (tls : option tls_Config) (r : Request) : comp (S * Terminal) (Response * option error) := on_server (Do tls r).
Let files := files_of t.

Lemma sim_Revoke i req :
  sim t (Revoke C m_read (load_pair pair) roots Do2 i req) (Revoke C (read_file files) (load_pair pair) roots Do i req).
Proof.
  unfold Revoke, Marshal. apply sim_bind; [apply sim_ret|intros b].
  apply sim_bind; [apply sim_Post|intros buf; apply sim_ret].
Qed.

Lemma sim_Reenroll c req :
  sim t (Reenroll C hostname m_read (load_pair pair) roots Do2 (fun q => mret (gen q)) prefix c req)
    (Reenroll C hostname (read_file files) (load_pair pair) roots Do (fun q => mret (gen q)) prefix c req).
Proof.
  unfold Reenroll, GenCSR, Marshal. case_match; [|apply sim_lift].
  apply sim_bind; [apply sim_ret|intros [csrPEM key]]. apply sim_bind; [apply sim_ret|intros b].
  apply sim_bind; [apply sim_Post|intros cert]. unfold newIdentityFromResponse, decode. solve_sim.
Qed.
End library.

Section commands.
Context {Key : Type} (KeyDeriv : Key -> string -> outcome Key) (SKI : Key -> bytes).
Context (C : Crypto) `{!CryptoLaws C} (CFG : Config) (hd : DBHandle) (fuel : nat).
Context (checkCRL : Certificate -> string -> bool * bool).
Context {SR : Type} (zero : SR) (dec : decoder SR) (issue : SR -> outcome (bytes * CertificateRecord)).
Context (mgr_GetBatch : GetBatchRequest -> Certificate -> comp (Srv Key) GetBatchResponse).
Context (resp_json : GetBatchResponse -> json).
Let listening := serve KeyDeriv SKI C CFG (accessor_registry (Accessor.mkAccessor (Some hd)))
  (Some (CertDBAccessor.NewCertDBAccessor (Some hd))) checkCRL (db_RandomString fuel) zero dec issue mgr_GetBatch resp_json.
Context (pair : string -> string -> option (string * string)) (roots : bytes -> bool) (getenv : string -> string).
Context (gen : CertificateRequest -> bytes * bytes) (hostname : string) (prefix : string -> bytes).
Context (h p : string) (z : Z).
Hypothesis Hh : all_chars host_char h = true.
Hypothesis Hp : all_digits p = true.
Hypothesis Hz : Atoi p = Some z.
Let addr : string := h +:+ String ":" p.
Let url : string := "http://" +:+ addr.
Let c : Client := mkClient url (GetDefaultHomeDir getenv).
Let Do2 (tls : option tls_Config) (r : Request) : comp (Srv Key * Terminal) (Response * option error) :=
  on_server (deliver listening addr tls r).

Definition reenroll_command (args : list string) : comp (Srv Key * Terminal) unit :=
  reenrollMain C getenv hostname m_read m_write (load_pair pair) roots Do2 (fun q => mret (gen q)) prefix args.

Definition revoke_command (args : list string) (flags : CliConfig) : comp (Srv Key * Terminal) unit :=
  revokeMain C getenv m_read (load_pair pair) roots Do2 args flags.

(** The terminal with another key and certificate. *)
Definition holding (key der : bytes) (t : Terminal) : Terminal :=
  mkTerminal (<[GetMyCertFile getenv c := der]> (<[GetMyKeyFile getenv c := key]> (t_disk t))) (t_out t).

Variables (t : Terminal) (key der : bytes) (cert : Certificate) (s : Srv Key).
Hypothesis HA : Authentication CFG = true.
Hypothesis Hen : enrolled getenv h p t key der.
Hypothesis Hcert : GetX509CertificateFromPEM C der = Ok cert.
Hypothesis Hne : der <> [].
Hypothesis Hkey : matching_key C cert key.
Hypothesis Htok : forall b, exists tk, CreateToken C der key b = Ok tk.

(** The identity on the client's disk. *)
Let me : Identity := newIdentity (Some c) (CommonName cert) (Some key) (Some der).

(** The [reenroll] command, end to end: it succeeds exactly when the
    reenrollment of the identity on the client's disk is granted; then the
    new key and the issued certificate replace the old ones on the disk, and
    the server records the certificate.  Otherwise it fails, the client keeps
    its key and certificate, and the server's state is unchanged. *)
Lemma reenroll_command_refines :
  signer_concludes C issue -> faults (s_db s) = [] ->
  let req := mkReenrollmentRequest (Some me) "" "" "" None in
  match spec_reenroll C checkCRL zero dec issue (s_db s) cert
          (reenroll_body gen hostname (CommonName cert) req) with
  | Some (issued, certs) => reenroll_command [url] (s, t)
      = (Ok tt, (mkSrv (set_certificates certs (s_db s)) (s_tree s),
                 holding (reenroll_csr gen hostname (CommonName cert) req).2 issued t))
  | None => exists e, reenroll_command [url] (s, t) = (Err e, (s, t))
  end.
Proof.
  intros Hc Hf req.
  pose proof (Reenroll_run KeyDeriv SKI C CFG hd fuel checkCRL zero dec issue mgr_GetBatch resp_json (files_of t) pair
    roots h p z (GetDefaultHomeDir getenv) Hh Hp Hz gen hostname prefix (CommonName cert) key der cert req s Hc HA Hcert
    Hne Hkey Htok Hf eq_refl) as Hrun.
  fold listening addr url c in Hrun.
  pose proof (sim_Reenroll t C hostname pair roots (deliver listening addr) gen prefix c req s) as Hsim. fold Do2 in Hsim.
  unfold reenroll_command, reenrollMain. cbn [PopFirstArgument]. rewrite bind_mret. cbv beta iota.
  rewrite (bind_ok _ _ _ _ _ (cmd_NewClient_http getenv addr (s, t) (addr_chars h p Hh Hp))). fold url c.
  rewrite (bind_ok _ _ _ _ _ (map_err_ok _ _ _ _ _ (LoadMyIdentity_run C getenv h p t key der cert s Hen Hcert))).
  cbn [csr_argument]. rewrite bind_mret. fold addr url. fold c. fold me. fold req.
  destruct (spec_reenroll _ _ _ _ _ _ _ _) as [[issued certs]|].
  - rewrite Hrun in Hsim. rewrite (bind_ok _ _ _ _ _ (map_err_ok _ _ _ _ _ Hsim)). reflexivity.
  - destruct Hrun as [e Hrun]. rewrite Hrun in Hsim. eexists. apply bind_err. unfold map_err. by rewrite Hsim.
Qed.

(** The [revoke] command, end to end: without an enrollment id and a serial
    number it fails and sends nothing; with one of them it does exactly what
    the abstract revocation of that user or certificate by the client's
    identity does, with reason 0 whatever the [-reason] flag says, and fails
    with the server's state unchanged where that is not granted.  The
    client's files are never touched. *)
Lemma revoke_command_refines id flags :
  current checkCRL (s_db s) cert -> db_inv (s_db s) -> cert_inv (s_db s) ->
  let req := mkRevocationRequest id (cli_Serial flags) (cli_AKI flags) 0 in
  match (if bool_decide (id = "") && bool_decide (cli_Serial flags = "") then None
         else spec_revoke hd (db_view (s_db s)) (certificates (s_db s)) (now (s_db s)) (CommonName cert) req) with
  | Some (V', certs') => exists s', revoke_command [url; id] flags (s, t) = (Ok tt, (s', t))
      /\ db_inv (s_db s') /\ db_view (s_db s') = V' /\ certificates (s_db s') = certs'
  | None => exists e, revoke_command [url; id] flags (s, t) = (Err e, (s, t))
  end.
Proof.
  intros Hcur Hd Hci req.
  pose proof (Revoke_run KeyDeriv SKI C CFG hd fuel checkCRL zero dec issue mgr_GetBatch resp_json (files_of t) pair
    roots h p z (GetDefaultHomeDir getenv) Hh Hp Hz (CommonName cert) key der cert req s HA Hcert
    Hne Hkey Htok Hcur Hd Hci ltac:(simpl; lia)) as Hrun.
  cbv zeta in Hrun. fold listening addr url c me in Hrun.
  pose proof (sim_Revoke t C pair roots (deliver listening addr) me req s) as Hsim. fold Do2 in Hsim.
  unfold revoke_command, revokeMain. cbn [PopFirstArgument]. rewrite bind_mret. cbv beta iota zeta.
  rewrite (bind_ok _ _ _ _ _ (cmd_NewClient_http getenv addr (s, t) (addr_chars h p Hh Hp))). fold url c.
  rewrite (bind_ok _ _ _ _ _ (LoadMyIdentity_run C getenv h p t key der cert s Hen Hcert)).
  fold addr url. fold c. fold me. fold req. destruct (_ && _); [by eexists|].
  destruct (spec_revoke _ _ _ _ _ _) as [[V' certs']|].
  - destruct Hrun as (s' & Hrun & Hrest). exists s'. split; [|exact Hrest]. by rewrite Hsim, Hrun.
  - destruct Hrun as [e Hrun]. exists e. by rewrite Hsim, Hrun.
Qed.
End commands.

(** ** Concrete commands *)

Definition terminal_of (der : bytes) : Terminal :=
  mkTerminal (<["/home/cop/key.pem" := [x09]]> (<["/home/cop/cert.pem" := der]> ∅)) [].
