(* ===== verification/Program.v ===== *)
(** * The program's client commands (src/cli/cop.go)

    [cop client ...] as it is typed: the arguments of the program, its
    choice of a command, the flags, the command, the client library, the
    network and the server. *)

From S2P Require Import Prelude GoStrings GoFmt GoJson CopError Base64 Http Registry GoUrl GoUnmarshal Token Database DbAccessor CertDB Util Config CommandLine Register Auth Handlers TCertUtil KeyTree TCert Server DbUtil Client Commands ClientServer Revocation Reenrollment CommandsServer CommandsRenew.

Section program.
Context {Key : Type} (KeyDeriv : Key -> string -> outcome Key) (SKI : Key -> bytes).
Context (C : Crypto) `{!CryptoLaws C} (CFG : Config) (hd : DBHandle) (fuel : nat).
Context (checkCRL : Certificate -> string -> bool * bool).
Context {SR : Type} (zero : SR) (dec : decoder SR) (issue : SR -> outcome (bytes * CertificateRecord)).
Context (mgr_GetBatch : GetBatchRequest -> Certificate -> comp (Srv Key) GetBatchResponse).
Context (resp_json : GetBatchResponse -> json).
Let listening := serve KeyDeriv SKI C CFG (accessor_registry (Accessor.mkAccessor (Some hd)))
  (Some (CertDBAccessor.NewCertDBAccessor (Some hd))) checkCRL (db_RandomString fuel) zero dec issue mgr_GetBatch resp_json.
Context (pair : string -> string -> option (string * string)) (roots : bytes -> bool) (getenv : string -> string).
Context (gen : CertificateRequest -> bytes * bytes) (hostname : string) (prefix : string -> bytes).
Context (h p : string) (z : Z).
Hypothesis Hh : all_chars host_char h = true.
Hypothesis Hp : all_digits p = true.
Hypothesis Hz : Atoi p = Some z.
Let addr : string := h +:+ String ":" p.
Let url : string := "http://" +:+ addr.
Let c : Client := mkClient url (GetDefaultHomeDir getenv).
Notation W := (Srv Key * Terminal)%type.
Let Do2 (tls : option tls_Config) (r : Request) : comp W (Response * option error) :=
  on_server (deliver listening addr tls r).
(** What else the program has: CFSSL's environment and commands, and the
    commands of the server. *)
Context {Policy : Type} (E : CommandEnv W Policy) (cfssl_Command : string -> Command W Policy).
Context (server_cmds : list (string * Command W Policy)).

(** The program on the client's machine. *)
Definition cop_client (args : list string) : comp W Z :=
  COPMain E m_print cfssl_Command
    (client_commands C getenv hostname m_read m_write (load_pair pair) roots Do2 (fun q => mret (gen q)) prefix m_print)
    server_cmds args.

(** A client command with its flags, when no configuration file is named. *)
Lemma client_line name (cmd : Command W Policy) fl rest w :
  let cfg := config_of (set_flags (ParseDuration E) registerFlags fl) in
  classify name = Positional ->
  find_command (client_commands C getenv hostname m_read m_write (load_pair pair) roots Do2 (fun q => mret (gen q)) prefix m_print) name
    = Some cmd ->
  Forall (settable (ParseDuration E) registerFlags) fl -> positional rest -> cli_ConfigFile cfg = "" ->
  cop_client ("cop" :: "client" :: name :: concat (map flag_args fl) ++ rest) w
  = exit_status (Main cmd rest cfg None) w.
Proof.
  intros cfg Hn Hc Hf Hr H0. unfold cop_client. rewrite COPMain_client. apply exit_status_ext.
  rewrite (cli_Start_found _ _ _ _ _ cmd) by done. rewrite (run_command_Parse _ _ _ _ rest) by (by apply Parse_line).
  fold cfg. unfold load_policy. by rewrite H0.
Qed.

Lemma url_positional args : positional (url :: args).
Proof. reflexivity. Qed.

Lemma revoke_first_argument args flags w :
  revoke_command KeyDeriv SKI C CFG hd fuel checkCRL zero dec issue mgr_GetBatch resp_json pair roots getenv h p (url :: args) flags w
  = revoke_command KeyDeriv SKI C CFG hd fuel checkCRL zero dec issue mgr_GetBatch resp_json pair roots getenv h p
      [url; default "" (head args)] flags w.
Proof.
  unfold revoke_command, revokeMain. cbn [PopFirstArgument]. rewrite !bind_mret. cbv beta iota zeta.
  destruct args; cbn [head from_option id]; reflexivity.
Qed.

(** The commands' main functions are those of files CommandsServer and
    CommandsRenew. *)
#[local] Notation cmds_of := (client_commands (Policy := Policy) C getenv hostname m_read m_write (load_pair pair) roots Do2
  (fun q => mret (gen q)) prefix m_print).
#[local] Notation reg_cmd := (register_command KeyDeriv SKI C CFG hd fuel checkCRL zero dec issue mgr_GetBatch resp_json pair
  roots getenv prefix h p).
#[local] Notation enr_cmd := (enroll_command KeyDeriv SKI C CFG hd fuel checkCRL zero dec issue mgr_GetBatch resp_json pair
  roots getenv gen hostname prefix h p).
#[local] Notation reenr_cmd := (reenroll_command KeyDeriv SKI C CFG hd fuel checkCRL zero dec issue mgr_GetBatch resp_json pair
  roots getenv gen hostname prefix h p).

Lemma RegisterCommand_Main args flags :
  Main (RegisterCommand (Policy := Policy) C getenv m_read (load_pair pair) roots Do2 prefix m_print) args flags None = reg_cmd args.
Proof. unfold RegisterCommand, register_command. cbn [Main]. reflexivity. Qed.

Lemma EnrollCommand_Main args flags :
  Main (EnrollCommand (Policy := Policy) getenv hostname m_read m_write (load_pair pair) roots Do2 (fun q => mret (gen q)) prefix)
    args flags None = enr_cmd args.
Proof. unfold EnrollCommand, enroll_command. cbn [Main]. reflexivity. Qed.

Lemma ReenrollCommand_Main args flags :
  Main (ReenrollCommand (Policy := Policy) C getenv hostname m_read m_write (load_pair pair) roots Do2 (fun q => mret (gen q)) prefix)
    args flags None = reenr_cmd args.
Proof. unfold ReenrollCommand, reenroll_command. cbn [Main]. reflexivity. Qed.

(** Command lines without flags. *)
Lemma cop_register_line args w : positional args ->
  cop_client ("cop" :: "client" :: "register" :: args) w = exit_status (reg_cmd args) w.
Proof.
  intros Ha. rewrite <- (RegisterCommand_Main args (config_of registerFlags)).
  by apply (client_line "register" _ [] args w).
Qed.

Lemma cop_enroll_line args w : positional args ->
  cop_client ("cop" :: "client" :: "enroll" :: args) w = exit_status (enr_cmd args) w.
Proof.
  intros Ha. rewrite <- (EnrollCommand_Main args (config_of registerFlags)).
  by apply (client_line "enroll" _ [] args w).
Qed.

Lemma cop_reenroll_line args w : positional args ->
  cop_client ("cop" :: "client" :: "reenroll" :: args) w = exit_status (reenr_cmd args) w.
Proof.
  intros Ha. rewrite <- (ReenrollCommand_Main args (config_of registerFlags)).
  by apply (client_line "reenroll" _ [] args w).
Qed.

Lemma RevokeCommand_Main args flags :
  Main (RevokeCommand (Policy := Policy) C getenv m_read (load_pair pair) roots Do2) args flags None
  = revoke_command KeyDeriv SKI C CFG hd fuel checkCRL zero dec issue mgr_GetBatch resp_json pair roots getenv h p args flags.
Proof. unfold RevokeCommand, revoke_command. cbn [Main]. reflexivity. Qed.


Variables (t : Terminal) (key der : bytes) (cert : Certificate) (s : Srv Key).
Hypothesis HA : Authentication CFG = true.
Hypothesis Hen : enrolled getenv h p t key der.
Hypothesis Hcert : GetX509CertificateFromPEM C der = Ok cert.
Hypothesis Hne : der <> [].
Hypothesis Hkey : matching_key C cert key.
Hypothesis Htok : forall b, exists tk, CreateToken C der key b = Ok tk.

(** (C17) Reenrolling at the command line: [cop client reenroll URL] ends with
    status 0 exactly when the reenrollment of the identity on the client's
    disk is granted; then the new key and the issued certificate replace the
    old ones on the disk, and the server records the certificate.  Otherwise
    the status is 1, the client keeps its key and certificate, and the
    server's state is unchanged. *)
Theorem cop_reenroll_refines :
  signer_concludes C issue -> faults (s_db s) = [] ->
  let me := newIdentity (Some c) (CommonName cert) (Some key) (Some der) in
  let req := mkReenrollmentRequest (Some me) "" "" "" None in
  let line := ["cop"; "client"; "reenroll"; url] in
  match spec_reenroll C checkCRL zero dec issue (s_db s) cert
          (reenroll_body gen hostname (CommonName cert) req) with
  | Some (issued, certs) => cop_client line (s, t)
      = (Ok 0%Z, (mkSrv (set_certificates certs (s_db s)) (s_tree s),
                  holding getenv h p (reenroll_csr gen hostname (CommonName cert) req).2 issued t))
  | None => cop_client line (s, t) = (Ok 1%Z, (s, t))
  end.
Proof.
  intros Hc Hf me req line. unfold line. rewrite cop_reenroll_line by apply url_positional.
  pose proof (reenroll_command_refines KeyDeriv SKI C CFG hd fuel checkCRL zero dec issue mgr_GetBatch resp_json pair roots
    getenv gen hostname prefix h p z Hh Hp Hz t key der cert s HA Hen Hcert Hne Hkey Htok Hc Hf) as Hrun.
  cbv zeta in Hrun. fold addr url c me in Hrun. fold req in Hrun.
  destruct (spec_reenroll _ _ _ _ _ _ _ _) as [[issued certs]|].
  - by apply exit_status_ok.
  - destruct Hrun as (e & Hrun). by eapply exit_status_err.
Qed.

(** (C18) Revoking at the command line: [cop client revoke FLAGS URL ARGS]
    does exactly what the abstract revocation by the client's identity does of
    the certificate that the last [-serial] and [-aki] flags name, or of the
    user that the first of the arguments names, with reason 0 whatever the
    [-reason] flag says, and the exit status is 0.  What is written after the
    URL is never a flag: [URL -serial 17] asks for the user [-serial].  With
    neither a serial number nor a user, and where the revocation is not
    granted, the status is 1 and nothing has changed on either side. *)
Theorem cop_revoke_refines fl args :
  let flags := config_of (set_flags (ParseDuration E) registerFlags fl) in
  let id := default "" (head args) in
  Forall (settable (ParseDuration E) registerFlags) fl -> cli_ConfigFile flags = "" ->
  current checkCRL (s_db s) cert -> db_inv (s_db s) -> cert_inv (s_db s) ->
  let line := "cop" :: "client" :: "revoke" :: concat (map flag_args fl) ++ url :: args in
  match (if bool_decide (id = "") && bool_decide (cli_Serial flags = "") then None
         else spec_revoke hd (db_view (s_db s)) (certificates (s_db s)) (now (s_db s)) (CommonName cert)
                (mkRevocationRequest id (cli_Serial flags) (cli_AKI flags) 0)) with
  | Some (V', certs') => exists s', cop_client line (s, t) = (Ok 0%Z, (s', t))
      /\ db_inv (s_db s') /\ db_view (s_db s') = V' /\ certificates (s_db s') = certs'
  | None => cop_client line (s, t) = (Ok 1%Z, (s, t))
  end.
Proof.
  intros flags id Hf H0 Hcur Hd Hci line. unfold line.
  rewrite (client_line "revoke" (RevokeCommand C getenv m_read (load_pair pair) roots Do2) fl (url :: args) (s, t) eq_refl eq_refl Hf
    (url_positional args) H0). fold flags. rewrite RevokeCommand_Main.
  pose proof (revoke_command_refines KeyDeriv SKI C CFG hd fuel checkCRL zero dec issue mgr_GetBatch resp_json pair roots
    getenv h p z Hh Hp Hz t key der cert s HA Hen Hcert Hne Hkey Htok id flags Hcur Hd Hci) as Hrun.
  cbv zeta in Hrun. fold addr in Hrun. fold url in Hrun.
  pose proof (revoke_first_argument args flags (s, t)) as E1. fold id in E1.
  destruct (if _ && _ then _ else _) as [[V' certs']|].
  - destruct Hrun as (s' & Hrun & Hrest). exists s'. split; [|exact Hrest]. rewrite Hrun in E1. apply exit_status_ok. exact E1.
  - destruct Hrun as (e & Hrun). rewrite Hrun in E1. eapply exit_status_err. exact E1.
Qed.
End program.

(** ** Concrete command lines *)

Notation pki_W := (Srv (list string) * Terminal)%type.

Definition pki_cli : CommandEnv pki_W unit := mkCommandEnv ∅ (fun _ => None) (fun _ => mret tt).

Definition pki_cop (args : list string) : comp pki_W Z :=
  cop_client toy_deriv (fun k => bytes_of_string (Join k "/")) pki newConfig sqlite3 12
    (fun _ _ => (false, true)) "" toy_sign_dec pki_issue toy_batch (fun _ => JNull) (fun _ _ => None) (fun _ => true)
    toy_env (fun q => ([x43], [x4b])) "host" (fun _ => []) "localhost" "8888"
    pki_cli (fun _ => mkCommand "" [] (fun _ _ _ => mret tt)) [] args.

Lemma pki_current : current (fun _ _ => (false, true)) (s_db pki_state) admin_cert.
Proof. split; [vm_compute; split; reflexivity|reflexivity]. Qed.

Definition reason_flag : list Written := [mkWritten true "reason" Joined "4"].

(** The administrator revokes a user, with a reason; a flag after the URL is
    taken for a user that is not there. *)
Lemma cop_revoke_refines_witness :
  (exists s', pki_cop ["cop"; "client"; "revoke"; "--reason=4"; "http://localhost:8888"; "bob"] (pki_state, terminal_of [x01])
       = (Ok 0%Z, (s', terminal_of [x01]))
     /\ map is_revoked (certificates (s_db s')) = [true; false])
  /\ pki_cop ["cop"; "client"; "revoke"; "--reason=4"; "http://localhost:8888"; "-serial"; "11"] (pki_state, terminal_of [x01])
      = (Ok 1%Z, (pki_state, terminal_of [x01])).
Proof.
  assert (Hrun : forall args, _)
    by exact (fun args => cop_revoke_refines toy_deriv (fun k => bytes_of_string (Join k "/")) pki newConfig sqlite3
      12 (fun _ _ => (false, true)) "" toy_sign_dec pki_issue toy_batch (fun _ => JNull) (fun _ _ => None) (fun _ => true)
      toy_env (fun q => ([x43], [x4b])) "host" (fun _ => []) "localhost" "8888" 8888 eq_refl eq_refl eq_refl
      pki_cli (fun _ => mkCommand "" [] (fun _ _ _ => mret tt)) []
      (terminal_of [x01]) [x09] [x01] admin_cert pki_state eq_refl ltac:(split; vm_compute; reflexivity) eq_refl
      ltac:(discriminate) ltac:(exists 7%Z; split; reflexivity) ltac:(intros b; eexists; reflexivity) reason_flag args
      ltac:(repeat constructor; eexists _, _; split; reflexivity) eq_refl pki_current (proj1 pki_state_inv) (proj2 pki_state_inv)).
  split.
  - destruct (Hrun ["bob"]) as (s' & H1 & _ & _ & H2). exists s'. split; [exact H1|]. rewrite H2. reflexivity.
  - exact (Hrun ["-serial"; "11"]).
Defined.

(** Reenrolling while the certificate is valid, and when it has expired. *)
Lemma cop_reenroll_refines_witness :
  (exists s' t', pki_cop ["cop"; "client"; "reenroll"; "http://localhost:8888"] (pki_state, terminal_of [x02]) = (Ok 0%Z, (s', t'))
     /\ t_disk t' !! "/home/cop/key.pem" = Some [x4b])
  /\ pki_cop ["cop"; "client"; "reenroll"; "http://localhost:8888"] (pki_later, terminal_of [x02])
      = (Ok 1%Z, (pki_later, terminal_of [x02])).
Proof.
  assert (Hrun : forall s, faults (s_db s) = [] -> _)
    by exact (fun s Hf => cop_reenroll_refines toy_deriv (fun k => bytes_of_string (Join k "/")) pki newConfig sqlite3
      12 (fun _ _ => (false, true)) "" toy_sign_dec pki_issue toy_batch (fun _ => JNull) (fun _ _ => None) (fun _ => true)
      toy_env (fun q => ([x43], [x4b])) "host" (fun _ => []) "localhost" "8888" 8888 eq_refl eq_refl eq_refl
      pki_cli (fun _ => mkCommand "" [] (fun _ _ _ => mret tt)) []
      (terminal_of [x02]) [x09] [x02] bob_cert s eq_refl ltac:(split; vm_compute; reflexivity) eq_refl ltac:(discriminate)
      ltac:(exists 7%Z; split; reflexivity) ltac:(intros b; eexists; reflexivity) pki_concludes Hf).
  split.
  - eexists _, _. split; [exact (Hrun pki_state eq_refl)|]. vm_compute. reflexivity.
  - exact (Hrun pki_later eq_refl).
Defined.

Definition demo_cop (args : list string) : comp pki_W Z :=
  cop_client toy_deriv (fun k => bytes_of_string (Join k "/")) toy_crypto newConfig sqlite3 12
    (fun _ _ => (false, true)) "" toy_sign_dec Handlers.toy_issue toy_batch (fun _ => JNull) (fun _ _ => None) (fun _ => true)
    toy_env (fun q => ([x43], [x4b])) "host" (fun _ => []) "localhost" "8888"
    pki_cli (fun _ => mkCommand "" [] (fun _ _ _ => mret tt)) [] args.

Definition demo_register : outcome Z * pki_W :=
  demo_cop ["cop"; "client"; "register"; "reg.json"; "http://localhost:8888"] (toy_state, toy_terminal).

Lemma demo_register_certs : certificates (s_db demo_register.2.1) = [].
Proof. vm_compute. reflexivity. Qed.

